(* ===== verification/_CoqProject ===== *)
-Q . S2P
Prelude.v
Bytes.v
Config.v
BlkIface.v
LruCache.v
BlkDevice.v
Bitmap.v
DataArea.v
Layout.v
InodeIO.v
DiskInode.v
Sbfs.v
Inode.v
FdManager.v
PathResolver.v
Vfs.v
VfsRefine.v
Concurrent.v
Main.v
Frame.v
SbfsProof.v
PathProof.v
Evict.v
FileMap.v
FileData.v
FileGrow.v
FileShrink.v
FileShrinkPart.v
FileClear.v
FileResize.v
FileIO.v
Dir.v
Touched.v
FileTrunc.v
DirOps.v
DirCreate.v
DirRemove.v
FreshFs.v
Volume.v
VolumeOps.v
VolumeDir.v
FreshVolume.v
VolumeNames.v
VolumeVfs.v
Spec.v
SpecTree.v
SpecLaws.v
SpecRel.v
SpecOps.v
SpecDirs.v
SpecRemove.v
SpecRename.v
SpecExchange.v
SpecRefine.v
Fsck.v
Samples.v
SampleSystem.v
ProgramTheorems.v
SpecTheorems.v
DeviceTheorems.v
LayoutTheorems.v
FileTheorems.v
NamespaceTheorems.v
SystemTheorems.v
