(* ===== verification/Prelude.v ===== *)
(** * SBFS: a verification development

    SBFS is a FUSE file system in one disk file.  This library models its
    C++ sources ([src/src/*.cpp], [src/include/*.h]) operation by operation
    and proves what they promise, from the block cache up to the FUSE
    handlers, ending in a refinement of an abstract file system: files are
    byte strings, directories are maps from names to files.

    ** The program and its model

    The layers, from the disk up; each calls only those above it in the list:

    - [Config.v], [Bytes.v]: the build constants ([config.h], [blk.h]) and
      the accesses to blocks ([memcpy], arrays of words, little endian).
    - [LruCache.v], [BlkDevice.v]: the LRU block cache ([lru_cache.cpp]) with
      its slots, its two intrusive lists and its hash table, and the device
      over it ([blk_dev.cpp]); the pass-through cache ([blk_cache.cpp]).
      The disk file is the class [RawDisk] with its laws (POSIX [pread] and
      [pwrite]), instantiated by a function in the witnesses.
    - [BlkIface.v]: the interface [BlkDev] between the device and its
      clients, its specification [MapDev] (a map from ids to blocks) and the
      class [BlkDevSpec] of devices that simulate it.  Everything below is
      written once over [BlkDev].
    - [Bitmap.v], [Layout.v]: the allocation bitmaps ([bitmap.cpp]); super
      block, [DiskInode] and [DirEntry] with their memory images
      ([fs_layout.h]).
    - [DiskInode.v]: files as trees of blocks ([disk_inode.cpp]): [block_id],
      [increase], [decrease], [resize], [clear], [read_data], [write_data],
      [sync_data].
    - [Sbfs.v]: the file system object ([sbfs.cpp]): layout, [create],
      [open], inode ids and positions.
    - [InodeIO.v], [Inode.v]: inodes, files and directories ([inode.cpp]).
    - [FdManager.v]: open handles ([fd_manager.h]).
    - [PathResolver.v]: paths and the path cache ([path_resolver.cpp]).
    - [Vfs.v]: every FUSE handler ([vfs.cpp]); [vfs_step] is the table of
      handlers [main.cpp] registers, [vfs_run] a sequence of calls.
    - [Concurrent.v]: calls from several threads.  A call is made, takes the
      mutex [mtx], reads the shared state, writes it, unlocks and returns;
      between these steps ([cstep]) other threads run.  [exec] gives the
      executions with the calls and results the callers see.
    - [Main.v]: a run of [main] ([main.cpp]): options, [init_vfs] on the
      disk file they name, an execution of calls, [sb_destroy].

    Operations keep the source's names.  Stateful code is a function in the
    state monad with failure [M] of this file: [None] is [kFail] below the
    handlers, and undefined behaviour in [PathResolver.v] and [Vfs.v], where
    the failures of the layers below have become return values.  State
    changes made before a failure are kept.  Integers are [Z] with the
    conversions of the source ([u8] to [u64], [i32]) written out.  Loops
    with a known number of rounds are [for_range] and [for_acc]; the loops
    of [evict] take fuel (the number of entries), which [Evict.v] shows to
    be enough.

    ** What is proved

    - The device ([DeviceTheorems.v]): reads return what was written last,
      whatever was evicted; [sync_all] puts everything in the file; so the
      cached device implements [BlkDevSpec].  [VfsRefine.v] lifts this to
      the handlers: over the cached device they return what they return over
      a map of blocks, except that [fsync] may fail.
    - Structures ([LayoutTheorems.v]; [DataArea.v], [SbfsProof.v]):
      [alloc] and [free] as operations on the set of used blocks; inodes
      stored and read at the positions of their ids; the regions [create]
      lays out.
    - Files ([FileTheorems.v]; [FileMap.v] to [FileIO.v], [FileTrunc.v]):
      the tree of a file, [file_own]; growing, shrinking, clearing, reading
      and writing it.
    - Names ([NamespaceTheorems.v]; [PathProof.v], [Evict.v], [Dir.v]): the
      scan of a directory, the path cache, handles.
    - Directories and whole disks ([Touched.v], [DirOps.v], [DirCreate.v],
      [DirRemove.v], [Volume.v], [VolumeOps.v], [VolumeDir.v],
      [VolumeNames.v], [VolumeVfs.v]; [FreshFs.v], [FreshVolume.v] for a new
      disk): [volume] is the invariant of the disk (files own disjoint
      blocks, the bitmaps mark exactly the blocks and ids in use), [vol] its
      abstraction to objects with bytes; every operation is specified on
      objects and keeps the invariant.
    - The specification ([Spec.v]): [spec_step] says, in some forty rules,
      what each call returns and changes in a file system of byte strings
      and maps.  [SpecTree.v] and [SpecLaws.v] derive its invariants: the
      directories form a tree, space is accounted for.  [SpecRel.v] relates
      it to the handlers' state ([sys_rel]: disk, cached paths, handles);
      [SpecOps.v] to [SpecRename.v] and [SpecExchange.v] (renaming with
      [RENAME_EXCHANGE]) show each handler answers as a rule says,
      [SpecRefine.v] composes them.
    - [Fsck.v]: [consistent], what a check of the disk looks for, in terms
      of what is stored in its blocks; it holds after any covered calls and
      an unmount.
    - The program ([ProgramTheorems.v]): whatever the interleaving of the
      threads, there is one order of the calls, respecting real time, in
      which the handlers run one after the other return the same; no
      deadlock; and two runs of [main] on one disk file of the real size,
      first creating and then opening, are one abstract file system.
    - The system ([SpecTheorems.v], [SystemTheorems.v]): from an empty disk,
      through creating, calls, and unmounting and mounting any number of
      times, over caches of any size, every result is one the specification
      allows.

    The chain of refinements is: handlers over the LRU cache and the file,
    handlers over a map of blocks ([vfs_rel]), objects of a volume
    ([vfs_ok]), the abstract file system ([sys_rel]).  The theorems named
    as properties are at the end of the list of files, in the files called
    [...Theorems.v], with instances on concrete disks ([Samples.v],
    [SampleSystem.v]).

    ** Bounds

    The specification leaves open the calls the source cannot handle:
    file sizes and offsets are below 2^31 (the [int]s of [read_data] and
    [write_data] overflow beyond), shrinking ends at no more than 1047 data
    blocks (beyond, [decrease] overwrites another block:
    [decrease_clobbers_block]), a directory that loses an entry has at most
    1047 data blocks, one that gets an entry by [rename] fewer than 23 (the
    scan passes the end, [total_blocks_count]); there is room
    on the disk and an inode id (failures of allocation are ignored by the
    callers).  Paths are what FUSE passes: absolute, of at most 2^20 bytes,
    no part empty, ["."] or [".."].  A directory is not moved into itself
    and not removed while it is the [".."] of another, which [rename] leaves
    as it was.  [create] is covered from 32769 blocks
    for data and their bitmap on.  What happens outside some of these bounds
    is proved too (see the last theorems of each file).

    ** What is not modelled

    libfuse and the operating system: option parsing ([fuse_opt_parse]), the
    disk files by their paths and [stat] are parameters of [Main.v]; what
    the memory holds behind a block, which [clear] reads, is a parameter of
    [DiskInode_clear]; the
    loop of [fuse_main] is any execution of [Concurrent.v] that ends with no
    call pending, followed by [sb_destroy].  A handler reads and writes the
    shared state in one step each, between taking and releasing the mutex.
    The RocksDB test is a client program; logging is removed by [NDEBUG] or
    changes no state.  Crashes between two writes to the disk are not
    modelled: the source makes no promise about them. *)

From stdpp Require Export base numbers list gmap.
From coqutil Require Export Byte Word.LittleEndianList.
From Stdlib Require Export ZArith Lia.

#[global] Open Scope Z_scope.
#[export] Set Default Goal Selector "!".

(** ** Machine integers

    A value of an unsigned [w]-bit C++ type is a [Z] in [0, 2^w); an
    implicit conversion to that type is the wrap-around below.  [i32] is
    the conversion to [int]. *)

Definition u8 (z : Z) : Z := z mod 2 ^ 8.
Definition u16 (z : Z) : Z := z mod 2 ^ 16.
Definition u32 (z : Z) : Z := z mod 2 ^ 32.
Definition u64 (z : Z) : Z := z mod 2 ^ 64.
Definition i32 (z : Z) : Z := (z + 2 ^ 31) mod 2 ^ 32 - 2 ^ 31.

Definition is_u32 (z : Z) : Prop := 0 ≤ z < 2 ^ 32.

Lemma u32_small z : is_u32 z → u32 z = z.
Proof. unfold is_u32, u32. intros. by rewrite Z.mod_small. Qed.

Lemma u64_small z : 0 ≤ z < 2 ^ 64 → u64 z = z.
Proof. unfold u64. intros. by rewrite Z.mod_small. Qed.

Lemma i32_small z : - 2 ^ 31 ≤ z < 2 ^ 31 → i32 z = z.
Proof. unfold i32. intros. rewrite Z.mod_small; lia. Qed.

Lemma u32_range z : is_u32 (u32 z).
Proof. unfold is_u32, u32. apply Z.mod_pos_bound. lia. Qed.

Lemma u32_i32 z : u32 (i32 z) = u32 z.
Proof.
  unfold u32, i32. rewrite Zminus_mod_idemp_l. f_equal. lia.
Qed.

Lemma u32_idem z : u32 (u32 z) = u32 z.
Proof. apply u32_small, u32_range. Qed.

Lemma i32_inj a b : is_u32 a → is_u32 b → i32 a = i32 b → a = b.
Proof.
  intros Ha Hb Heq. rewrite <- (u32_small a), <- (u32_small b) by done.
  by rewrite <- (u32_i32 a), Heq, u32_i32.
Qed.

Lemma i32_range z : - 2 ^ 31 ≤ i32 z < 2 ^ 31.
Proof. unfold i32. pose proof (Z.mod_pos_bound (z + 2 ^ 31) (2 ^ 32)). lia. Qed.

(** A filter that drops nothing. *)
Lemma filter_all {A} (P : A → Prop) `{∀ x, Decision (P x)} (l : list A) : Forall P l → filter P l = l.
Proof. induction 1 as [|x l Hx _ IH]; [done|]. rewrite filter_cons_True by done. by rewrite IH. Qed.

(** ** Arrays indexed by machine integers

    C++ indexes vectors and arrays by [int]s; an index below zero or past
    the end is undefined behaviour, which [at_] reports as [None]. *)

Section arrays.
Context {A : Type}.
Implicit Types (l : list A) (i j : Z).

Definition zlen l : Z := Z.of_nat (length l).

Definition at_ l i : option A :=
  if 0 <=? i then l !! Z.to_nat i else None.

Definition upd_at l i (f : A → A) : list A :=
  if 0 <=? i then alter f (Z.to_nat i) l else l.

Lemma zlen_upd_at l i f : zlen (upd_at l i f) = zlen l.
Proof. unfold zlen, upd_at. destruct (0 <=? i); [|done]. by rewrite length_alter. Qed.

Lemma at_upd_at l i j f :
  at_ (upd_at l i f) j = if decide (i = j) then f <$> at_ l j else at_ l j.
Proof.
  unfold at_, upd_at. destruct (Z.leb_spec 0 j), (Z.leb_spec 0 i); case_decide;
    subst; try lia; try done.
  - by rewrite list_lookup_alter_eq.
  - apply list_lookup_alter_ne. lia.
Qed.

Lemma at_upd_at_eq l i f : at_ (upd_at l i f) i = f <$> at_ l i.
Proof. rewrite at_upd_at. by rewrite decide_True. Qed.

Lemma at_upd_at_ne l i j f : i ≠ j → at_ (upd_at l i f) j = at_ l j.
Proof. intros. rewrite at_upd_at. by rewrite decide_False. Qed.

Lemma at_is_Some l i : is_Some (at_ l i) ↔ 0 ≤ i < zlen l.
Proof.
  unfold at_, zlen. destruct (Z.leb_spec 0 i).
  - rewrite lookup_lt_is_Some. lia.
  - split; [by intros []|lia].
Qed.

Lemma at_Some_range l i x : at_ l i = Some x → 0 ≤ i < zlen l.
Proof. intros. apply at_is_Some. eauto. Qed.

Lemma at_range l i : 0 ≤ i < zlen l → ∃ x, at_ l i = Some x.
Proof. intros Hr. apply at_is_Some in Hr as [x ?]. eauto. Qed.

Lemma zlen_nonneg l : 0 ≤ zlen l.
Proof. unfold zlen. lia. Qed.
End arrays.

(** ** The state-and-failure monad

    A C++ member function that returns [kFail] on some paths and mutates
    the objects it reaches is a computation [M S A]: the state is kept on
    both outcomes, as the mutations done before a [return kFail] are. *)

Definition M (S A : Type) : Type := S → option A * S.

Section monad.
Context {S : Type}.

Definition ret {A} (a : A) : M S A := λ s, (Some a, s).
Definition fail {A} : M S A := λ s, (None, s).
Definition bind {A B} (m : M S A) (k : A → M S B) : M S B := λ s,
  match m s with
  | (Some a, s') => k a s'
  | (None, s') => (None, s')
  end.
(** The caller looks at the return value itself, or ignores it. *)
Definition attempt {A} (m : M S A) : M S (option A) := λ s,
  let '(r, s') := m s in (Some r, s').
Definition get_state : M S S := λ s, (Some s, s).
Definition modify (f : S → S) : M S unit := λ s, (Some tt, f s).

(** [for (int i = a; i < a + n; i++)] with an early [return kFail]. *)
Fixpoint for_range (n : nat) (i : Z) (body : Z → M S unit) : M S unit :=
  match n with
  | O => ret tt
  | Datatypes.S n' => bind (body i) (λ _, for_range n' (i + 1) body)
  end.

(** The same loop when the body also updates local variables. *)
Fixpoint for_acc {A} (n : nat) (i : Z) (a : A) (body : Z → A → M S A) : M S A :=
  match n with
  | O => ret a
  | Datatypes.S n' => bind (body i a) (λ a', for_acc n' (i + 1) a' body)
  end.
End monad.

Declare Scope prog_scope.
Delimit Scope prog_scope with prog.
Notation "x <- m ;; k" := (bind m (λ x, k))
  (at level 100, m at next level, right associativity) : prog_scope.
Notation "'let*' p := m 'in' k" := (bind m (λ x, match x with p => k end))
  (at level 100, p pattern, m at level 99, k at level 100) : prog_scope.
Notation "m ;;; k" := (bind m (λ _, k))
  (at level 100, right associativity) : prog_scope.
#[global] Open Scope prog_scope.

(** A computation on a part of the state. *)
Definition on_snd {I S A} (m : M S A) : M (I * S) A := λ s,
  let '(r, s') := m s.2 in (r, (s.1, s')).

Lemma bind_Some {S A B} (m : M S A) (k : A → M S B) s a s' :
  m s = (Some a, s') → bind m k s = k a s'.
Proof. unfold bind. by intros ->. Qed.

Lemma bind_None {S A B} (m : M S A) (k : A → M S B) s s' :
  m s = (None, s') → bind m k s = (None, s').
Proof. unfold bind. by intros ->. Qed.

Lemma bind_attempt {S A B} (m : M S A) (k : option A → M S B) s r s' :
  m s = (r, s') → bind (attempt m) k s = k r s'.
Proof. unfold bind, attempt. by intros ->. Qed.

Lemma for_range_app {S} (n1 n2 : nat) i (body : Z → M S unit) s :
  for_range (n1 + n2) i body s =
  (for_range n1 i body;;; for_range n2 (i + Z.of_nat n1) body) s.
Proof.
  revert i s. induction n1 as [|n1 IH]; intros i s; simpl.
  - unfold bind, ret. f_equal. lia.
  - unfold bind in *. destruct (body i s) as [[[]|] s']; [|done].
    rewrite IH. destruct (for_range n1 (i + 1) body s') as [[[]|] s'']; [|done].
    f_equal. lia.
Qed.

(** ** Postconditions

    [wp m P Q s]: run from [s], [m] returns a value satisfying [P], or
    fails in a state satisfying [Q].  Computations always end, so with
    [Q] false this says that [m] succeeds. *)

Section wp.
Context {S : Type}.

Definition wp {A} (m : M S A) (P : A → S → Prop) (Q : S → Prop) (s : S) : Prop :=
  match m s with
  | (Some a, s') => P a s'
  | (None, s') => Q s'
  end.

Definition never (s : S) : Prop := False.

Lemma wp_eq {A} (m : M S A) P Q s a s' : m s = (Some a, s') → P a s' → wp m P Q s.
Proof. unfold wp. by intros ->. Qed.

Lemma wp_never {A} (m : M S A) P s :
  wp m P never s ↔ ∃ a s', m s = (Some a, s') ∧ P a s'.
Proof.
  unfold wp, never. destruct (m s) as [[a|] s'].
  - split; [eauto|]. by intros (? & ? & [= -> ->] & ?).
  - split; [done|]. by intros (? & ? & ? & ?).
Qed.

Lemma wp_mono {A} (m : M S A) (P P' : A → S → Prop) (Q Q' : S → Prop) s :
  wp m P Q s → (∀ a s', P a s' → P' a s') → (∀ s', Q s' → Q' s') → wp m P' Q' s.
Proof. unfold wp. intros. destruct (m s) as [[a|] s']; eauto. Qed.

Lemma wp_ret {A} (a : A) (P : A → S → Prop) Q s : P a s → wp (ret a) P Q s.
Proof. done. Qed.

Lemma wp_fail {A} (P : A → S → Prop) (Q : S → Prop) s : Q s → wp fail P Q s.
Proof. done. Qed.

Lemma wp_bind {A B} (m : M S A) (k : A → M S B) P Q s :
  wp m (λ a, wp (k a) P Q) Q s → wp (bind m k) P Q s.
Proof. unfold wp, bind. by destruct (m s) as [[a|] s']. Qed.

Lemma wp_attempt {A} (m : M S A) (P : option A → S → Prop) Q s :
  wp m (λ a, P (Some a)) (P None) s → wp (attempt m) P Q s.
Proof. unfold wp, attempt. by destruct (m s) as [[a|] s']. Qed.

Lemma wp_for_acc {A} (I : Z → A → S → Prop) Q n i a (body : Z → A → M S A) s :
  I i a s →
  (∀ j a s, i ≤ j < i + Z.of_nat n → I j a s → wp (body j a) (I (j + 1)) Q s) →
  wp (for_acc n i a body) (I (i + Z.of_nat n)) Q s.
Proof.
  revert i a s. induction n as [|n IH]; intros i a s Hi Hb.
  - apply wp_ret. by rewrite Z.add_0_r.
  - cbn [for_acc]. rewrite Nat2Z.inj_succ. apply wp_bind. eapply wp_mono; [apply Hb; [lia|done]| |done].
    intros a' s' Hi'. replace (i + Z.succ (Z.of_nat n)) with (i + 1 + Z.of_nat n) by lia.
    apply IH; [done|]. intros. apply Hb; [lia|done].
Qed.

Lemma wp_for_range (I : Z → S → Prop) Q n i (body : Z → M S unit) s :
  I i s →
  (∀ j s, i ≤ j < i + Z.of_nat n → I j s → wp (body j) (λ _, I (j + 1)) Q s) →
  wp (for_range n i body) (λ _, I (i + Z.of_nat n)) Q s.
Proof.
  revert i s. induction n as [|n IH]; intros i s Hi Hb.
  - apply wp_ret. by rewrite Z.add_0_r.
  - cbn [for_range]. rewrite Nat2Z.inj_succ. apply wp_bind. eapply wp_mono; [apply Hb; [lia|done]| |done].
    intros a' s' Hi'. simpl in Hi'. replace (i + Z.succ (Z.of_nat n)) with (i + 1 + Z.of_nat n) by lia.
    apply IH; [done|]. intros. apply Hb; [lia|done].
Qed.
End wp.

Lemma wp_on_snd {I S A} (m : M S A) P Q (s : I * S) :
  wp m (λ a s', P a (s.1, s')) (λ s', Q (s.1, s')) s.2 → wp (on_snd m) P Q s.
Proof. unfold wp, on_snd. by destruct (m s.2) as [[a|] s']. Qed.

(** ** Simulation between two state types

    [msim R m1 m2]: from related states the two computations return the
    same result and end in related states.  One program, run over two
    implementations of the interface it uses, is shown to behave alike by
    walking over its structure with the rules of the hint database [sim]. *)

Section msim.
Context {S1 S2 : Type} (R : S1 → S2 → Prop).

Definition msim {A} (m1 : M S1 A) (m2 : M S2 A) : Prop :=
  ∀ s1 s2, R s1 s2 → (m1 s1).1 = (m2 s2).1 ∧ R (m1 s1).2 (m2 s2).2.

Lemma msim_ret {A} (a : A) : msim (ret a) (ret a).
Proof. by intros s1 s2 HR. Qed.

Lemma msim_fail {A} : msim (fail (A:=A)) fail.
Proof. by intros s1 s2 HR. Qed.

Lemma msim_bind {A B} (m1 : M S1 A) (m2 : M S2 A) (k1 : A → M S1 B) k2 :
  msim m1 m2 → (∀ a, msim (k1 a) (k2 a)) → msim (bind m1 k1) (bind m2 k2).
Proof.
  intros Hm Hk s1 s2 HR. unfold bind.
  destruct (Hm s1 s2 HR) as [Hr HR'].
  destruct (m1 s1) as [r1 s1'], (m2 s2) as [r2 s2']; simpl in *; subst.
  destruct r2 as [a|]; [by apply Hk|done].
Qed.

Lemma msim_attempt {A} (m1 : M S1 A) (m2 : M S2 A) :
  msim m1 m2 → msim (attempt m1) (attempt m2).
Proof.
  intros Hm s1 s2 HR. unfold attempt. destruct (Hm s1 s2 HR) as [Hr HR'].
  destruct (m1 s1), (m2 s2); simpl in *; by subst.
Qed.

Lemma msim_for_range n i (b1 : Z → M S1 unit) (b2 : Z → M S2 unit) :
  (∀ i, msim (b1 i) (b2 i)) → msim (for_range n i b1) (for_range n i b2).
Proof.
  intros Hb. revert i. induction n as [|n IH]; intros i; simpl.
  - apply msim_ret.
  - apply msim_bind; [done|]. intros _. apply IH.
Qed.

Lemma msim_for_acc {A} n i (a : A) (b1 : Z → A → M S1 A) b2 :
  (∀ i a, msim (b1 i a) (b2 i a)) → msim (for_acc n i a b1) (for_acc n i a b2).
Proof.
  intros Hb. revert i a. induction n as [|n IH]; intros i a; simpl.
  - apply msim_ret.
  - apply msim_bind; [done|]. intros ?. apply IH.
Qed.

Lemma msim_if {A} (b : bool) (m1 m1' : M S1 A) (m2 m2' : M S2 A) :
  msim m1 m2 → msim m1' m2' →
  msim (if b then m1 else m1') (if b then m2 else m2').
Proof. by destruct b. Qed.

Lemma msim_option {A B} (o : option B) (m1 : M S1 A) (m2 : M S2 A) k1 k2 :
  msim m1 m2 → (∀ b, msim (k1 b) (k2 b)) →
  msim (match o with Some b => k1 b | None => m1 end)
       (match o with Some b => k2 b | None => m2 end).
Proof. by destruct o. Qed.
End msim.

(** The state of an object beside the state it is stored in. *)
Definition rel_snd {I S1 S2} (R : S1 → S2 → Prop) : I * S1 → I * S2 → Prop :=
  λ s1 s2, s1.1 = s2.1 ∧ R s1.2 s2.2.

Lemma msim_on_snd {I S1 S2 A} (R : S1 → S2 → Prop) (m1 : M S1 A) (m2 : M S2 A) :
  msim R m1 m2 → msim (rel_snd R) (on_snd (I:=I) m1) (on_snd m2).
Proof.
  intros Hm [i1 s1] [i2 s2] [Hi HR]; simpl in *. unfold on_snd; simpl.
  destruct (Hm s1 s2 HR) as [Hr HR'].
  destruct (m1 s1), (m2 s2); simpl in *; by subst.
Qed.

Create HintDb sim.
#[export] Hint Resolve msim_ret msim_fail msim_bind msim_attempt msim_for_range
  msim_for_acc msim_if msim_option msim_on_snd : sim.

(** Walks over a program with the rules above; [auto with sim] closes the
    calls whose simulation is known. *)
Ltac sim_tac :=
  repeat (intros; cbv zeta;
    lazymatch goal with
    | |- msim _ (bind _ _) _ => apply msim_bind
    | |- msim _ (attempt _) _ => apply msim_attempt
    | |- msim _ (for_range _ _ _) _ => apply msim_for_range
    | |- msim _ (for_acc _ _ _ _) _ => apply msim_for_acc
    | |- msim _ (if ?b then _ else _) _ => destruct b
    | |- msim _ (match ?x with _ => _ end) _ => destruct x
    | |- msim (rel_snd _) (on_snd _) _ => apply msim_on_snd
    | _ => solve [auto with sim]
    end).

(** ** What a computation may do to its state

    [msteps R m]: from every state, [m] ends in a state related to it by
    the preorder [R], whether it fails or not. *)

Section msteps.
Context {S : Type} (R : S → S → Prop) `{!PreOrder R}.

Definition msteps {A} (m : M S A) : Prop := ∀ s, R s (m s).2.

Lemma msteps_ret {A} (a : A) : msteps (ret a).
Proof. intros s. simpl. reflexivity. Qed.

Lemma msteps_fail {A} : msteps (fail (A := A)).
Proof. intros s. simpl. reflexivity. Qed.

Lemma msteps_get {A} (f : S → A) : msteps (λ s, (Some (f s), s)).
Proof. intros s. simpl. reflexivity. Qed.

Lemma msteps_bind {A B} (m : M S A) (k : A → M S B) :
  msteps m → (∀ a, msteps (k a)) → msteps (bind m k).
Proof.
  intros Hm Hk s. unfold bind. specialize (Hm s). destruct (m s) as [[a|] s']; simpl in *; [|done].
  etrans; [done|apply Hk].
Qed.

Lemma msteps_attempt {A} (m : M S A) : msteps m → msteps (attempt m).
Proof. intros Hm s. specialize (Hm s). unfold attempt. by destruct (m s). Qed.

Lemma msteps_for_range n i (body : Z → M S unit) :
  (∀ i, msteps (body i)) → msteps (for_range n i body).
Proof.
  intros Hb. revert i. induction n as [|n IH]; intros i; [apply msteps_ret|].
  apply msteps_bind; [done|]. intros _. apply IH.
Qed.

Lemma msteps_for_acc {A} n i (a : A) (body : Z → A → M S A) :
  (∀ i a, msteps (body i a)) → msteps (for_acc n i a body).
Proof.
  intros Hb. revert i a. induction n as [|n IH]; intros i a; [apply msteps_ret|].
  apply msteps_bind; [done|]. intros a'. apply IH.
Qed.
End msteps.

(** A relation on a part of the state. *)
Definition on_snd_rel {I S} (R : S → S → Prop) : I * S → I * S → Prop := λ s s', R s.2 s'.2.

#[export] Instance on_snd_rel_preorder {I S} (R : S → S → Prop) :
  PreOrder R → PreOrder (on_snd_rel (I := I) R).
Proof.
  intros [Hr Ht]. split; [intros s; apply Hr|intros s1 s2 s3; apply Ht].
Qed.

Lemma msteps_on_snd {I S A} (R : S → S → Prop) (m : M S A) :
  msteps R m → msteps (on_snd_rel (I := I) R) (on_snd m).
Proof. intros Hm s. specialize (Hm s.2). unfold on_snd_rel, on_snd. by destruct (m s.2). Qed.

Lemma msteps_modify {I S} (R : S → S → Prop) `{!PreOrder R} (f : I * S → I * S) :
  (∀ s, (f s).2 = s.2) → msteps (on_snd_rel R) (modify f).
Proof. intros Hf s. unfold on_snd_rel, modify. simpl. by rewrite Hf. Qed.

Create HintDb msteps.
#[export] Hint Resolve msteps_ret msteps_fail msteps_get : msteps.

Ltac steps_tac :=
  repeat (intros; cbv zeta;
    lazymatch goal with
    | |- msteps _ (bind _ _) => apply msteps_bind; [apply _|..]
    | |- msteps _ (attempt _) => apply msteps_attempt
    | |- msteps _ (for_range _ _ _) => apply msteps_for_range; [apply _|]
    | |- msteps _ (for_acc _ _ _ _) => apply msteps_for_acc; [apply _|]
    | |- msteps _ (if ?b then _ else _) => destruct b
    | |- msteps _ (match ?x with _ => _ end) => destruct x
    | |- msteps _ (on_snd _) => first [apply msteps_on_snd | solve [auto with msteps]]
    | |- msteps _ (ret _) => apply msteps_ret; apply _
    | |- msteps _ fail => apply msteps_fail; apply _
    | |- msteps _ (modify _) => apply msteps_modify; [apply _|done]
    | |- msteps _ (λ s, (Some _, s)) => apply msteps_get; apply _
    | _ => solve [auto with msteps]
    end).
