(* ===== verification/Bytes.v ===== *)
(** * Byte buffers

    A [Block] is 4096 bytes; the structures stored in it are reached by
    [memcpy] at a byte offset and by casting [data] to an array of
    [uint32_t] or [uint64_t] (little-endian, as on the x86-64 the program
    is built for).  This file holds those accesses and their algebra. *)

From S2P Require Import Prelude.

Abbreviation bytes := (list byte).

#[export] Instance byte_eq_dec : EqDecision byte.
Proof.
  refine (λ a b, match decide (byte.unsigned a = byte.unsigned b) with
    | left H => left (byte.unsigned_inj _ _ H)
    | right H => right (λ Heq, H (f_equal byte.unsigned Heq))
    end).
Defined.

#[export] Instance byte_countable : Countable byte.
Proof. refine (inj_countable Byte.to_N Byte.of_N _). intros b. apply Byte.of_to_N. Defined.

(** [memcpy(dst, l + off, len)]: the bytes read. *)
Definition slice {A} (off len : Z) (l : list A) : list A :=
  take (Z.to_nat len) (drop (Z.to_nat off) l).

(** [memcpy(l + off, src, src.size())]: the buffer after the write. *)
Definition splice {A} (off : Z) (src l : list A) : list A :=
  take (Z.to_nat off) l ++ src ++ drop (Z.to_nat off + length src) l.

(** Little-endian load and store of an [n]-byte unsigned integer. *)
Definition load (n : Z) (off : Z) (l : bytes) : Z := le_combine (slice off n l).
Definition store (n : Z) (off v : Z) (l : bytes) : bytes :=
  splice off (le_split (Z.to_nat n) v) l.

(** [((uint32_t * )data)[i]] and [((uint64_t * )data)[i]]. *)
Definition get32 (l : bytes) (i : Z) : Z := load 4 (4 * i) l.
Definition set32 (i v : Z) (l : bytes) : bytes := store 4 (4 * i) v l.
Definition get64 (l : bytes) (i : Z) : Z := load 8 (8 * i) l.
Definition set64 (i v : Z) (l : bytes) : bytes := store 8 (8 * i) v l.

Definition zeros (n : Z) : bytes := replicate (Z.to_nat n) Byte.x00.

Section slices.
Context {A : Type}.
Implicit Types (l src : list A) (off len : Z).

Lemma zlen_app l1 l2 : zlen (l1 ++ l2 : list A) = zlen l1 + zlen l2.
Proof. unfold zlen. rewrite length_app. lia. Qed.

Lemma zlen_slice off len l :
  0 ≤ off → 0 ≤ len → off + len ≤ zlen l → zlen (slice off len l) = len.
Proof. unfold zlen, slice. rewrite length_take, length_drop. lia. Qed.

Lemma zlen_splice off src l :
  0 ≤ off → off + zlen src ≤ zlen l → zlen (splice off src l) = zlen l.
Proof.
  unfold zlen, splice. rewrite !length_app, length_take, length_drop. lia.
Qed.

Lemma lookup_slice off len l (i : nat) :
  0 ≤ off → Z.of_nat i < len →
  slice off len l !! i = l !! (Z.to_nat off + i)%nat.
Proof.
  intros. unfold slice. rewrite lookup_take_lt by lia. apply lookup_drop.
Qed.

Lemma lookup_slice_ge off len l (i : nat) :
  len ≤ Z.of_nat i → slice off len l !! i = None.
Proof. intros. unfold slice. apply lookup_take_ge. lia. Qed.

Lemma lookup_splice off src l (i : nat) :
  0 ≤ off → off + zlen src ≤ zlen l →
  splice off src l !! i =
  if decide (off ≤ Z.of_nat i < off + zlen src)
  then src !! (i - Z.to_nat off)%nat else l !! i.
Proof.
  unfold zlen, splice. intros Hoff Hin. case_decide.
  - rewrite lookup_app_r by (rewrite length_take; lia).
    rewrite length_take, lookup_app_l by lia. f_equal. lia.
  - destruct (decide (Z.of_nat i < off)).
    + rewrite lookup_app_l by (rewrite length_take; lia).
      apply lookup_take_lt. lia.
    + rewrite lookup_app_r by (rewrite length_take; lia).
      rewrite length_take, lookup_app_r by lia.
      rewrite lookup_drop. f_equal. lia.
Qed.

Lemma slice_splice_eq off src l :
  0 ≤ off → off + zlen src ≤ zlen l → slice off (zlen src) (splice off src l) = src.
Proof.
  intros Hoff Hin. apply list_eq. intros i.
  destruct (decide (Z.of_nat i < zlen src)).
  - rewrite lookup_slice, lookup_splice by done.
    rewrite decide_True by lia. f_equal. lia.
  - rewrite lookup_slice_ge by lia. symmetry. apply lookup_ge_None.
    unfold zlen in *. lia.
Qed.

Lemma slice_splice_ne off src off' len' l :
  0 ≤ off → off + zlen src ≤ zlen l → 0 ≤ off' →
  off' + len' ≤ off ∨ off + zlen src ≤ off' →
  slice off' len' (splice off src l) = slice off' len' l.
Proof.
  intros Hoff Hin Hoff' Hdis. apply list_eq. intros i.
  destruct (decide (Z.of_nat i < len')).
  - rewrite !lookup_slice by done. rewrite lookup_splice by done.
    by rewrite decide_False by lia.
  - by rewrite !lookup_slice_ge by lia.
Qed.

Lemma slice_all l : slice 0 (zlen l) l = l.
Proof. unfold slice, zlen. rewrite drop_0, Nat2Z.id. by apply take_ge. Qed.

Lemma splice_all src l : zlen src = zlen l → splice 0 src l = src.
Proof.
  unfold zlen, splice. intros. rewrite take_0, drop_ge by lia.
  by rewrite app_nil_r.
Qed.

Lemma slice_slice off len off' len' l :
  0 ≤ off → 0 ≤ off' → 0 ≤ len' → off' + len' ≤ len →
  slice off' len' (slice off len l) = slice (off + off') len' l.
Proof.
  intros. apply list_eq. intros i. destruct (decide (Z.of_nat i < len')).
  - rewrite !lookup_slice by lia. f_equal. lia.
  - by rewrite !lookup_slice_ge by lia.
Qed.

Lemma slice_app off len1 len2 l :
  0 ≤ off → 0 ≤ len1 → 0 ≤ len2 → off + len1 + len2 ≤ zlen l →
  slice off (len1 + len2) l = slice off len1 l ++ slice (off + len1) len2 l.
Proof.
  unfold slice, zlen. intros. rewrite Z2Nat.inj_add, <- take_take_drop by lia.
  rewrite drop_drop. repeat f_equal. lia.
Qed.

Lemma slice_cat off1 len1 off2 len2 l :
  off2 = off1 + len1 → 0 ≤ off1 → 0 ≤ len1 → 0 ≤ len2 → off1 + len1 + len2 ≤ zlen l →
  slice off1 len1 l ++ slice off2 len2 l = slice off1 (len1 + len2) l.
Proof. intros -> ????. symmetry. by apply slice_app. Qed.

Lemma slice_app_l off len l1 l2 :
  0 ≤ off → off + len ≤ zlen l1 → slice off len (l1 ++ l2) = slice off len l1.
Proof.
  intros Hoff Hlen. apply list_eq. intros i. destruct (decide (Z.of_nat i < len)).
  - rewrite !lookup_slice by done. apply lookup_app_l. unfold zlen in *. lia.
  - by rewrite !lookup_slice_ge by lia.
Qed.

Lemma slice_app_r off len l1 l2 :
  zlen l1 ≤ off → slice off len (l1 ++ l2) = slice (off - zlen l1) len l2.
Proof.
  unfold zlen, slice. intros. rewrite drop_app_ge by lia. repeat f_equal. lia.
Qed.
End slices.

Lemma zlen_le_split n v : zlen (le_split n v) = Z.of_nat n.
Proof. unfold zlen. by rewrite length_le_split. Qed.

Lemma zlen_zeros n : 0 ≤ n → zlen (zeros n) = n.
Proof. unfold zlen, zeros. rewrite length_replicate. lia. Qed.

Lemma load_range n off l : 0 ≤ n → 0 ≤ load n off l < 2 ^ (8 * n).
Proof.
  intros. unfold load, slice.
  pose proof (le_combine_bound (take (Z.to_nat n) (drop (Z.to_nat off) l))) as Hb.
  assert (Hl : (length (take (Z.to_nat n) (drop (Z.to_nat off) l)) ≤ Z.to_nat n)%nat)
    by (rewrite length_take; lia).
  split; [lia|]. eapply Z.lt_le_trans; [apply Hb|]. apply Z.pow_le_mono_r; lia.
Qed.

Lemma get32_range l i : is_u32 (get32 l i).
Proof. unfold is_u32, get32. pose proof (load_range 4 (4 * i) l). lia. Qed.

Lemma get64_range l i : 0 ≤ get64 l i < 2 ^ 64.
Proof. unfold get64. pose proof (load_range 8 (8 * i) l). lia. Qed.

Lemma zlen_store n off v l :
  0 ≤ off → 0 ≤ n → off + n ≤ zlen l → zlen (store n off v l) = zlen l.
Proof. intros. unfold store. apply zlen_splice; [done|]. rewrite zlen_le_split. lia. Qed.

Lemma load_store_eq n off v l :
  0 ≤ off → 0 ≤ n → off + n ≤ zlen l → load n off (store n off v l) = v mod 2 ^ (8 * n).
Proof.
  intros. unfold load, store.
  assert (Hn : zlen (le_split (Z.to_nat n) v) = n) by (rewrite zlen_le_split; lia).
  rewrite <- Hn at 1. rewrite slice_splice_eq by lia.
  rewrite le_combine_split. do 2 f_equal. lia.
Qed.

Lemma load_store_ne n off v n' off' l :
  0 ≤ off → 0 ≤ n → off + n ≤ zlen l → 0 ≤ off' →
  off' + n' ≤ off ∨ off + n ≤ off' →
  load n' off' (store n off v l) = load n' off' l.
Proof.
  intros. unfold load, store. f_equal.
  apply slice_splice_ne; rewrite ?zlen_le_split; lia.
Qed.

Lemma zlen_set32 i v l : 0 ≤ i → 4 * i + 4 ≤ zlen l → zlen (set32 i v l) = zlen l.
Proof. intros. apply zlen_store; lia. Qed.

Lemma zlen_set64 i v l : 0 ≤ i → 8 * i + 8 ≤ zlen l → zlen (set64 i v l) = zlen l.
Proof. intros. apply zlen_store; lia. Qed.

Lemma get32_set32 i j v l :
  0 ≤ i → 4 * i + 4 ≤ zlen l → 0 ≤ j →
  get32 (set32 i v l) j = if decide (i = j) then u32 v else get32 l j.
Proof.
  intros. unfold get32, set32. case_decide; subst.
  - rewrite load_store_eq by lia. reflexivity.
  - apply load_store_ne; lia.
Qed.

Lemma get64_set64 i j v l :
  0 ≤ i → 8 * i + 8 ≤ zlen l → 0 ≤ j →
  get64 (set64 i v l) j = if decide (i = j) then u64 v else get64 l j.
Proof.
  intros. unfold get64, set64. case_decide; subst.
  - rewrite load_store_eq by lia. reflexivity.
  - apply load_store_ne; lia.
Qed.

(** Writing back the word just read changes nothing. *)
Lemma splice_slice {A} off len (l : list A) :
  0 ≤ off → 0 ≤ len → off + len ≤ zlen l → splice off (slice off len l) l = l.
Proof.
  intros. apply list_eq. intros i.
  rewrite lookup_splice by (rewrite ?zlen_slice; lia).
  rewrite zlen_slice by lia. case_decide; [|done].
  rewrite lookup_slice by lia. f_equal. lia.
Qed.

Lemma splice_splice {A} off (s1 s2 l : list A) :
  0 ≤ off → zlen s1 = zlen s2 → off + zlen s1 ≤ zlen l →
  splice off s2 (splice off s1 l) = splice off s2 l.
Proof.
  intros. apply list_eq. intros i.
  rewrite !lookup_splice by (rewrite ?zlen_splice; lia).
  repeat case_decide; (done || lia).
Qed.

(** Two adjacent writes are one. *)
Lemma splice_app {A} off (s1 s2 l : list A) :
  0 ≤ off → off + zlen s1 + zlen s2 ≤ zlen l →
  splice (off + zlen s1) s2 (splice off s1 l) = splice off (s1 ++ s2) l.
Proof.
  intros Ho Hl. pose proof (zlen_nonneg s1). pose proof (zlen_nonneg s2).
  apply list_eq. intros i.
  rewrite !lookup_splice by (rewrite ?zlen_splice, ?zlen_app; lia). rewrite zlen_app.
  unfold zlen in *. repeat case_decide; try lia; try done.
  - rewrite lookup_app_r by lia. f_equal. lia.
  - rewrite lookup_app_l by lia. done.
Qed.

Create Rewrite HintDb zlen.
#[export] Hint Rewrite @zlen_upd_at @zlen_le_split @zlen_app : zlen.

(** ** Loads from concatenations *)

Lemma load_app_l n off (a b : bytes) : 0 ≤ off → off + n ≤ zlen a → load n off (a ++ b) = load n off a.
Proof. intros. unfold load. by rewrite slice_app_l. Qed.

Lemma load_app_r n off (a b : bytes) : zlen a ≤ off → load n off (a ++ b) = load n (off - zlen a) b.
Proof. intros. unfold load. by rewrite slice_app_r. Qed.

Lemma load_le_split k n v : n = Z.of_nat k → load n 0 (le_split k v) = v mod 2 ^ (8 * n).
Proof.
  intros ->. unfold load.
  rewrite <- (zlen_le_split k v) at 1. rewrite slice_all, le_combine_split. f_equal. f_equal. lia.
Qed.

Lemma le_split_load k n off (l : bytes) :
  n = Z.of_nat k → 0 ≤ off → off + n ≤ zlen l → le_split k (load n off l) = slice off n l.
Proof.
  intros -> Hoff Hin. unfold load. apply split_le_combine'.
  pose proof (zlen_slice off (Z.of_nat k) l). unfold zlen in *. lia.
Qed.

(** An array of 32-bit integers as bytes. *)
Lemma zlen_words (l : list Z) : zlen (l ≫= le_split 4) = 4 * zlen l.
Proof.
  induction l as [|v l IH]; [done|]. cbn [mbind list_bind].
  rewrite zlen_app, zlen_le_split. fold (mbind (M:=list) (le_split 4) l). rewrite IH.
  unfold zlen. simpl length. lia.
Qed.

Lemma load_words (l : list Z) i v :
  at_ l i = Some v → load 4 (4 * i) (l ≫= le_split 4) = u32 v.
Proof.
  revert i. induction l as [|w l IH]; intros i Hi.
  { apply at_Some_range in Hi. unfold zlen in Hi. simpl in Hi. lia. }
  pose proof (at_Some_range _ _ _ Hi) as Hr. unfold at_ in Hi.
  destruct (Z.leb_spec 0 i); [|done]. cbn [mbind list_bind].
  destruct (decide (i = 0)) as [->|Hne].
  - simpl in Hi. injection Hi as ->. rewrite load_app_l by (rewrite ?zlen_le_split; lia).
    rewrite load_le_split by done. done.
  - rewrite load_app_r by (rewrite zlen_le_split; lia). rewrite zlen_le_split.
    replace (4 * i - Z.of_nat 4) with (4 * (i - 1)) by lia. apply (IH (i - 1)).
    unfold at_. destruct (Z.leb_spec 0 (i - 1)); [|lia].
    replace (Z.to_nat i) with (S (Z.to_nat (i - 1))) in Hi by lia. done.
Qed.

Lemma words_of_loads (bs : bytes) off (n : nat) i :
  0 ≤ off → 0 ≤ i → off + 4 * (i + Z.of_nat n) ≤ zlen bs →
  ((λ i, load 4 (off + 4 * i) bs) <$> seqZ i (Z.of_nat n)) ≫= le_split 4 =
  slice (off + 4 * i) (4 * Z.of_nat n) bs.
Proof.
  intros Hoff. revert i. induction n as [|n IH]; intros i Hi Hin.
  { unfold slice. by rewrite seqZ_nil by lia. }
  rewrite seqZ_cons by lia. cbn [fmap list_fmap mbind list_bind].
  replace (Z.pred (Z.of_nat (S n))) with (Z.of_nat n) by lia.
  etrans; [apply f_equal, (IH (Z.succ i)); lia|].
  rewrite le_split_load by lia.
  replace (4 * Z.of_nat (S n)) with (4 + 4 * Z.of_nat n) by lia.
  rewrite slice_app by lia. do 2 f_equal. lia.
Qed.

Lemma loads_of_words (pre post : bytes) (l : list Z) off n :
  zlen pre = off → zlen l = n → Forall is_u32 l →
  (λ i, load 4 (off + 4 * i) (pre ++ (l ≫= le_split 4) ++ post)) <$> seqZ 0 n = l.
Proof.
  intros Hpre Hn Hall. apply list_eq. intros i. rewrite list_lookup_fmap.
  unfold zlen in Hn. destruct (decide (Z.of_nat i < n)) as [Hi|Hi].
  - rewrite lookup_seqZ_lt by lia. simpl.
    destruct (lookup_lt_is_Some_2 l i) as [v Hv]; [lia|]. rewrite Hv. f_equal.
    rewrite load_app_r by lia.
    replace (off + 4 * (0 + Z.of_nat i) - zlen pre) with (4 * Z.of_nat i) by lia.
    rewrite load_app_l by (rewrite ?zlen_words; unfold zlen; lia).
    rewrite (load_words l _ v).
    + apply u32_small. by eapply Forall_lookup_1.
    + unfold at_. destruct (Z.leb_spec 0 (Z.of_nat i)); [|lia]. by rewrite Nat2Z.id.
  - rewrite lookup_seqZ_ge by lia. symmetry. apply lookup_ge_None. lia.
Qed.

#[global] Arguments le_split : simpl never.
#[global] Arguments le_combine : simpl never.
