(* ===== verification/Config.v ===== *)
(** * Build constants ([include/config.h], [include/blk.h])

    The constants of the file system, with the names of the source.  The
    build defines [NDEBUG], [PATH_CACHE] and [BLOCK_CACHE]
    ([CMakeLists.txt]): [rt_assert] and [DLOG] expand to nothing, and the
    block cache is the LRU cache. *)

From S2P Require Import Prelude Bytes.

Definition KB (x : Z) : Z := u64 (x * 1024).
Definition MB (x : Z) : Z := u64 (u64 (x * 1024) * 1024).
Definition GB (x : Z) : Z := u64 (u64 (u64 (x * 1024) * 1024) * 1024).

Definition kBlockSize : Z := 4096.
Definition kBlockCacheSize : Z := MB 768.

(** [kFail] is the [int] -1; compared with or stored in a [blk_id_t] it is
    converted to [uint32_t]. *)
Definition kFail : Z := -1.
Definition kSuccess : Z := 0.
Definition kFail_blk : Z := u32 kFail.

Definition kFSMagic : Z := 0x53425355.
Definition kInodeDirectCnt : Z := 23.
Definition kMaxDirNameLength : Z := 251.

Definition kPathCacheSize : Z := MB 32.
Definition kDiskSize : Z := GB 16.
Definition kLogBlocks : Z := 0.
Definition kFSDataBlocks : Z := u32 (u64 (kDiskSize / kBlockSize - kLogBlocks)).
Definition kInodeBitmapBlocks : Z := 1.

(** A [Block] is [kBlockSize] bytes; [blk_wf] is what the C++ type
    guarantees of every [Block] object. *)
Abbreviation block := (list byte).
Definition blk_wf (b : block) : Prop := zlen b = kBlockSize.

(** [memcpy(dst, src, sizeof(Block))] between two [Block]s: the
    [kBlockSize] bytes of the source (the identity on a well-formed
    block; bytes past the end of a shorter list read as zero). *)
Definition blk_copy (b : block) : block :=
  slice 0 kBlockSize (b ++ zeros kBlockSize).

Definition zero_block : block := zeros kBlockSize.

Lemma blk_copy_wf b : blk_wf (blk_copy b).
Proof.
  unfold blk_wf, blk_copy, kBlockSize. pose proof (zlen_nonneg b).
  apply zlen_slice; rewrite ?zlen_app, ?zlen_zeros; lia.
Qed.

Lemma blk_copy_id b : blk_wf b → blk_copy b = b.
Proof.
  unfold blk_wf, blk_copy. intros Hb. rewrite slice_app_l by (unfold kBlockSize in *; lia).
  rewrite <- Hb. apply slice_all.
Qed.

Lemma blk_copy_idem b : blk_copy (blk_copy b) = blk_copy b.
Proof. apply blk_copy_id, blk_copy_wf. Qed.

Lemma zero_block_wf : blk_wf zero_block.
Proof. unfold blk_wf, zero_block. by rewrite zlen_zeros. Qed.

Create HintDb blk.
#[export] Hint Resolve blk_copy_wf zero_block_wf : blk.
