(* ===== verification/BlkIface.v ===== *)
(** * The block-device interface

    What [BlockDevice] ([include/blk_dev.h]) promises to the layers above
    it.  [BlkDev] is the set of operations those layers call; [MapDev], a
    finite map from block ids to blocks, is the abstract specification;
    [BlkDevSpec] states that a device implements it, by simulation.  The
    layers above are written once, over any [BlkDev], and their theorems
    are stated over [MapDev]; [BlkDevice.v] discharges [BlkDevSpec] for
    the LRU-cached device. *)

From S2P Require Import Prelude Bytes Config.

Class BlkDev (D : Type) := {
  dev_read : Z → M D block;
  dev_write : Z → block → M D unit;
  dev_sync : Z → M D unit;
  dev_sync_all : M D unit;
}.

(** ** The abstract device *)

Abbreviation store := (gmap Z block).

(** Every block of a store is a [Block], at an id of type [blk_id_t]. *)
Definition store_wf (m : store) : Prop :=
  ∀ b x, m !! b = Some x → is_u32 b ∧ blk_wf x.

Definition map_read (b : Z) : M store block := λ m, (m !! u32 b, m).

Definition map_write (b : Z) (x : block) : M store unit := λ m,
  match m !! u32 b with
  | Some _ => (Some tt, <[u32 b := blk_copy x]> m)
  | None => (None, m)
  end.

#[export] Instance MapDev : BlkDev store := {
  dev_read := map_read;
  dev_write := map_write;
  dev_sync := λ _, ret tt;
  dev_sync_all := ret tt;
}.

(** ** The contract

    [dev_rel d m]: the device [d] holds the blocks of [m].  [sync] and
    [sync_all] may succeed or fail (that depends on what is cached), but
    never change what is read back. *)

Class BlkDevSpec (D : Type) `{BlkDev D} := {
  dev_rel : D → store → Prop;
  dev_rel_wf d m : dev_rel d m → store_wf m;
  dev_read_sim b : msim dev_rel (dev_read b) (map_read b);
  dev_write_sim b x : msim dev_rel (dev_write b x) (map_write b x);
  dev_sync_rel b d m : dev_rel d m → dev_rel (dev_sync b d).2 m;
  dev_sync_all_rel d m : dev_rel d m → dev_rel (dev_sync_all d).2 m;
}.

#[export] Hint Resolve dev_read_sim dev_write_sim : sim.

(** ** Reasoning about the abstract device *)

Lemma map_read_eq b x m : is_u32 b → m !! b = Some x → map_read b m = (Some x, m).
Proof. intros Hb Hm. unfold map_read. by rewrite u32_small, Hm. Qed.

Lemma map_write_eq b x m :
  is_u32 b → is_Some (m !! b) → blk_wf x →
  map_write b x m = (Some tt, <[b := x]> m).
Proof.
  intros Hb [y Hm] Hx. unfold map_write. by rewrite u32_small, Hm, blk_copy_id.
Qed.

Lemma store_wf_insert m b x :
  store_wf m → is_u32 b → blk_wf x → store_wf (<[b := x]> m).
Proof.
  intros Hm Hb Hx b' x'. destruct (decide (b = b')) as [<-|Hne].
  - rewrite lookup_insert_eq. intros [= <-]. done.
  - rewrite lookup_insert_ne by done. apply Hm.
Qed.

Lemma map_write_wf b x m : store_wf m → store_wf (map_write b x m).2.
Proof.
  intros Hm. unfold map_write. destruct (m !! u32 b); simpl; [|done].
  apply store_wf_insert; [done|apply u32_range|apply blk_copy_wf].
Qed.

(** The abstract device meets its own contract. *)
#[export] Program Instance MapDevSpec : BlkDevSpec store := {
  dev_rel := λ d m, d = m ∧ store_wf m;
}.
Next Obligation. by intros d m []. Qed.
Next Obligation. by intros b d m [-> Hm]. Qed.
Next Obligation. intros b x d m [-> Hm]. split; [done|]. split; [done|]. by apply map_write_wf. Qed.
Next Obligation. by intros b d m [-> Hm]. Qed.
Next Obligation. by intros d m [-> Hm]. Qed.

(** ** Computations that leave the abstract device alone

    [keeps m]: whatever [m] returns, the device still holds the same
    blocks.  [sync] is such a computation; its result may differ between
    two devices that hold the same blocks. *)

Section keeps.
Context {D : Type} `{BlkDevSpec D}.

Definition keeps {A} (m : M D A) : Prop := ∀ d st, dev_rel d st → dev_rel (m d).2 st.

Lemma keeps_ret {A} (a : A) : keeps (ret a).
Proof. by intros d st Hd. Qed.

Lemma keeps_fail {A} : keeps (fail (A := A)).
Proof. by intros d st Hd. Qed.

Lemma keeps_bind {A B} (m : M D A) (k : A → M D B) :
  keeps m → (∀ a, keeps (k a)) → keeps (bind m k).
Proof.
  intros Hm Hk d st Hd. unfold bind. specialize (Hm d st Hd).
  destruct (m d) as [[a|] d']; [by apply Hk|done].
Qed.

Lemma keeps_attempt {A} (m : M D A) : keeps m → keeps (attempt m).
Proof. intros Hm d st Hd. specialize (Hm d st Hd). unfold attempt. by destruct (m d). Qed.

Lemma keeps_for_range n i (body : Z → M D unit) :
  (∀ i, keeps (body i)) → keeps (for_range n i body).
Proof.
  intros Hb. revert i. induction n as [|n IH]; intros i; [apply keeps_ret|].
  apply keeps_bind; [done|]. intros _. apply IH.
Qed.

Lemma keeps_if {A} (b : bool) (m1 m2 : M D A) : keeps m1 → keeps m2 → keeps (if b then m1 else m2).
Proof. by destruct b. Qed.

Lemma keeps_read b : keeps (dev_read b).
Proof. intros d st Hd. by apply (dev_read_sim b d st Hd). Qed.

Lemma keeps_sync b : keeps (dev_sync b).
Proof. intros d st. apply dev_sync_rel. Qed.

Lemma keeps_sync_all : keeps dev_sync_all.
Proof. intros d st. apply dev_sync_all_rel. Qed.
End keeps.

Create HintDb keeps.
#[export] Hint Resolve keeps_ret keeps_fail keeps_bind keeps_attempt keeps_for_range keeps_if
  keeps_read keeps_sync keeps_sync_all : keeps.
