(* ===== verification/LruCache.v ===== *)
(** * The block cache ([src/lru_cache.cpp], [include/lru_cache.h])

    [LRUCacheManager] keeps up to [_size] blocks in a vector of slots.  A
    hash table maps block ids to slots; the slots in use are threaded by
    [prev]/[next] on an LRU list, the others by [next] on a free list.
    The cache reads and writes the disk file through
    [BlockDevice::read_from_disk] and [write_to_disk].

    The state of an operation is the pair of the cache and the disk file.
    The file itself ([pread], [pwrite] on [fd_]) is not code of the
    repository: it is a parameter, with POSIX's documented behaviour as
    the laws of [RawDiskLaws]. *)

From S2P Require Import Prelude Bytes Config.

(** ** The disk file *)

Class RawDisk (R : Type) := {
  (** [pread(fd_, buf, kBlockSize, off)]: [None] unless a whole block is read. *)
  pread : R → Z → option block;
  (** [pwrite(fd_, buf, kBlockSize, off)]: [None] unless a whole block is written. *)
  pwrite : R → Z → block → option R;
}.

(** A regular file on a healthy device: inside the file a block write
    succeeds, is what a later read returns, and changes no other block. *)
Class RawDiskLaws (R : Type) `{RawDisk R} := {
  pread_wf d off x : pread d off = Some x → blk_wf x;
  pwrite_in d off x :
    is_Some (pread d off) → blk_wf x → off mod kBlockSize = 0 →
    ∃ d', pwrite d off x = Some d' ∧ pread d' off = Some x ∧
      ∀ off', off' mod kBlockSize = 0 → off' ≠ off → pread d' off' = pread d off';
}.

(** A concrete file of whole blocks. *)
Abbreviation file := (gmap Z block).

#[export] Instance file_disk : RawDisk file := {
  pread f off :=
    if off mod kBlockSize =? 0 then blk_copy <$> (f !! (off / kBlockSize)) else None;
  pwrite f off x :=
    if off mod kBlockSize =? 0 then
      match f !! (off / kBlockSize) with
      | Some _ => Some (<[off / kBlockSize := blk_copy x]> f)
      | None => None
      end
    else None;
}.

#[export] Instance file_disk_laws : RawDiskLaws file.
Proof.
  split.
  - intros f off x. simpl. destruct (_ =? 0); [|done].
    rewrite fmap_Some. intros (y & _ & ->). apply blk_copy_wf.
  - intros f off x Hin Hx Hal. simpl in *. rewrite Hal in *. simpl in *.
    apply fmap_is_Some in Hin as [y Hy]. rewrite Hy.
    eexists. split; [done|]. split.
    + rewrite lookup_insert_eq. simpl. by rewrite blk_copy_idem, blk_copy_id.
    + intros off' Hal' Hne. rewrite Hal'. simpl. rewrite lookup_insert_ne; [done|].
      intros Heq. apply Hne.
      rewrite (Z.div_mod off kBlockSize), (Z.div_mod off' kBlockSize) by done. congruence.
Qed.

(** ** Data ([BlockStatus] of [include/blk.h], [LRUCacheManager]) *)

Record BlockStatus := mkStatus { status : Z; prev : Z; next : Z; id : Z }.

Definition is_dirty (st : BlockStatus) : bool := negb (Z.land (status st) 1 =? 0).
Definition rev_dirty (st : BlockStatus) : BlockStatus :=
  mkStatus (Z.lxor (status st) 1) (prev st) (next st) (id st).
Definition BlockStatus_init (st : BlockStatus) : BlockStatus := mkStatus 0 (-1) (-1) (-1).

Definition set_prev (p : Z) (st : BlockStatus) : BlockStatus :=
  mkStatus (status st) p (next st) (id st).
Definition set_next (n : Z) (st : BlockStatus) : BlockStatus :=
  mkStatus (status st) (prev st) n (id st).
Definition set_id (i : Z) (st : BlockStatus) : BlockStatus :=
  mkStatus (status st) (prev st) (next st) i.

(** An element of [_buffer]: [pair<Block *, BlockStatus>].  Every slot
    owns the [Block] its pointer was set to by the constructor. *)
Record slot := mkSlot { data : block; stu : BlockStatus }.

Record LRUCacheManager := mkLRU {
  FREE_first : Z;
  LRU_first : Z;
  LRU_last : Z;
  hashtable : gmap Z Z;
  buffer : list slot;
  lru_size : Z;
}.

Definition no_slot : slot := mkSlot zero_block (mkStatus 0 0 0 0).

(** [_buffer[s]]; only in-range slots are ever read ([UB] otherwise). *)
Definition slot_at (c : LRUCacheManager) (s : Z) : slot := default no_slot (at_ (buffer c) s).
Definition stat (c : LRUCacheManager) (s : Z) : BlockStatus := stu (slot_at c s).

Definition upd_slot (s : Z) (f : slot → slot) (c : LRUCacheManager) : LRUCacheManager :=
  mkLRU (FREE_first c) (LRU_first c) (LRU_last c) (hashtable c)
    (upd_at (buffer c) s f) (lru_size c).
Definition upd_stat (s : Z) (f : BlockStatus → BlockStatus) : LRUCacheManager → LRUCacheManager :=
  upd_slot s (λ x, mkSlot (data x) (f (stu x))).
Definition set_data (s : Z) (b : block) : LRUCacheManager → LRUCacheManager :=
  upd_slot s (λ x, mkSlot b (stu x)).
Definition set_FREE_first (s : Z) (c : LRUCacheManager) : LRUCacheManager :=
  mkLRU s (LRU_first c) (LRU_last c) (hashtable c) (buffer c) (lru_size c).
Definition set_LRU_first (s : Z) (c : LRUCacheManager) : LRUCacheManager :=
  mkLRU (FREE_first c) s (LRU_last c) (hashtable c) (buffer c) (lru_size c).
Definition set_LRU_last (s : Z) (c : LRUCacheManager) : LRUCacheManager :=
  mkLRU (FREE_first c) (LRU_first c) s (hashtable c) (buffer c) (lru_size c).
Definition set_hashtable (h : gmap Z Z) (c : LRUCacheManager) : LRUCacheManager :=
  mkLRU (FREE_first c) (LRU_first c) (LRU_last c) h (buffer c) (lru_size c).

(** The constructor: all slots on the free list, in order. *)
Definition LRU_new_slot (size i : Z) : slot :=
  mkSlot zero_block
    (mkStatus 0 (if i =? 0 then -1 else i - 1) (if i =? size - 1 then -1 else i + 1) 0).

Definition LRU_new (cache_size : Z) : LRUCacheManager :=
  let size := cache_size / kBlockSize in
  mkLRU 0 (-1) (-1) ∅ (LRU_new_slot size <$> seqZ 0 size) size.

(** ** The lists *)

Definition FREE_add (s : Z) (c : LRUCacheManager) : LRUCacheManager :=
  set_FREE_first s (upd_stat s (set_next (FREE_first c)) c).

Definition LRU_add (s : Z) (c : LRUCacheManager) : LRUCacheManager :=
  let c := upd_stat s (set_next (LRU_first c)) c in
  let c := upd_stat s (set_prev (-1)) c in
  let c := if LRU_first c =? -1 then c else upd_stat (LRU_first c) (set_prev s) c in
  let c := set_LRU_first s c in
  if LRU_last c =? -1 then set_LRU_last s c else c.

Definition LRU_remove (s : Z) (c : LRUCacheManager) : LRUCacheManager :=
  let c := if s =? LRU_first c then set_LRU_first (next (stat c s)) c else c in
  let c := if s =? LRU_last c then set_LRU_last (prev (stat c s)) c else c in
  let c := if next (stat c s) =? -1 then c
           else upd_stat (next (stat c s)) (set_prev (prev (stat c s))) c in
  let c := if prev (stat c s) =? -1 then c
           else upd_stat (prev (stat c s)) (set_next (next (stat c s))) c in
  upd_stat s (set_prev (-1)) (upd_stat s (set_next (-1)) c).

(** ** The operations *)

Section ops.
Context {R : Type} `{RawDisk R}.

Abbreviation cm := (M (LRUCacheManager * R)).

Definition cache : cm LRUCacheManager := λ s, (Some s.1, s).
Definition upd_cache (f : LRUCacheManager → LRUCacheManager) : cm unit :=
  modify (λ s, (f s.1, s.2)).

(** [BlockDevice::write_to_disk], [BlockDevice::read_from_disk]: the
    offset is [block_id * kBlockSize] in 64 bits. *)
Definition write_to_disk (block_id : Z) (buf : block) : cm unit := λ s,
  match pwrite s.2 (u64 (u32 block_id * kBlockSize)) buf with
  | Some d => (Some tt, (s.1, d))
  | None => (None, s)
  end.
Definition read_from_disk (block_id : Z) : cm block := λ s,
  (pread s.2 (u64 (u32 block_id * kBlockSize)), s).

(** [alloc(slot)]: the slot chosen, and the return value, which
    [get_page] ignores.  The [for] loop over the LRU list returns in
    its first iteration: nothing is pinned. *)
Definition LRU_alloc : cm (Z * Z) :=
  c <- cache;;
  if negb (FREE_first c =? -1) then
    let s := FREE_first c in
    upd_cache (set_FREE_first (next (stat c s)));;;
    upd_cache (upd_stat s BlockStatus_init);;;
    upd_cache (LRU_remove s);;;
    upd_cache (LRU_add s);;;
    ret (s, kSuccess)
  else
    let s := LRU_last c in
    if s =? -1 then ret (s, kFail)
    else
      wb <- (if is_dirty (stat c s)
             then attempt (write_to_disk (id (stat c s)) (data (slot_at c s)))
             else ret (Some tt));;
      match wb with
      | None => ret (s, kFail)
      | Some _ =>
          upd_cache (λ c, set_hashtable (delete (u32 (id (stat c s))) (hashtable c)) c);;;
          upd_cache (upd_stat s BlockStatus_init);;;
          upd_cache (LRU_remove s);;;
          upd_cache (LRU_add s);;;
          ret (s, kSuccess)
      end.

Definition LRU_get_page (block_id : Z) : cm Z :=
  c <- cache;;
  match hashtable c !! block_id with
  | None =>
      let* (s, _) := LRU_alloc in
      upd_cache (upd_stat s (set_id (i32 block_id)));;;
      b <- read_from_disk block_id;;
      upd_cache (set_data s b);;;
      upd_cache (λ c, set_hashtable (<[block_id := s]> (hashtable c)) c);;;
      ret s
  | Some s =>
      upd_cache (LRU_remove s);;;
      upd_cache (LRU_add s);;;
      ret s
  end.

(** [upsert(block_id, block, is_update)]: [is_update] is not used. *)
Definition LRU_upsert (block_id : Z) (b : block) : cm unit :=
  s <- LRU_get_page block_id;;
  upd_cache (set_data s (blk_copy b));;;
  c <- cache;;
  if is_dirty (stat c s) then ret tt else upd_cache (upd_stat s rev_dirty).

Definition LRU_get (block_id : Z) : cm block :=
  c <- cache;;
  match hashtable c !! block_id with
  | Some s =>
      upd_cache (LRU_remove s);;;
      upd_cache (LRU_add s);;;
      c <- cache;;
      ret (data (slot_at c s))
  | None => fail
  end.

Definition LRU_remove_page (block_id : Z) : cm unit :=
  c <- cache;;
  match hashtable c !! block_id with
  | None => fail
  | Some s =>
      (if is_dirty (stat c s) then write_to_disk block_id (data (slot_at c s)) else ret tt);;;
      upd_cache (λ c, set_hashtable (delete block_id (hashtable c)) c);;;
      upd_cache (LRU_remove s);;;
      upd_cache (FREE_add s)
  end.

Definition LRU_sync (block_id : Z) : cm unit :=
  c <- cache;;
  match hashtable c !! block_id with
  | Some s =>
      upd_cache (LRU_remove s);;;
      upd_cache (LRU_add s);;;
      c <- cache;;
      if is_dirty (stat c s) then
        upd_cache (upd_stat s rev_dirty);;;
        write_to_disk block_id (data (slot_at c s))
      else ret tt
  | None => fail
  end.

Definition LRU_sync_all : cm unit :=
  c <- cache;;
  for_range (Z.to_nat (lru_size c)) 0 (λ i,
    c <- cache;;
    if is_dirty (stat c i)
    then write_to_disk (id (stat c i)) (data (slot_at c i)) else ret tt).
End ops.

(** ** Slots and pointers *)

Definition in_slots (c : LRUCacheManager) (s : Z) : Prop := 0 ≤ s < zlen (buffer c).

#[export] Instance in_slots_dec c s : Decision (in_slots c s).
Proof. unfold in_slots. apply _. Defined.

Lemma slot_at_upd s f c t :
  slot_at (upd_slot s f c) t =
  if decide (s = t ∧ in_slots c t) then f (slot_at c t) else slot_at c t.
Proof.
  unfold slot_at, upd_slot; simpl. rewrite at_upd_at.
  destruct (decide (s = t)) as [->|]; [|by rewrite decide_False by tauto].
  destruct (decide (in_slots c t)) as [Hin|Hout].
  - rewrite decide_True by done. apply at_range in Hin as [x ->]. done.
  - rewrite decide_False by tauto.
    destruct (at_ (buffer c) t) eqn:E; [|done].
    apply at_Some_range in E. contradiction.
Qed.

Lemma stat_upd_stat s f c t :
  stat (upd_stat s f c) t =
  if decide (s = t ∧ in_slots c t) then f (stat c t) else stat c t.
Proof. unfold stat, upd_stat. rewrite slot_at_upd. by case_decide. Qed.

Lemma data_upd_stat s f c t : data (slot_at (upd_stat s f c) t) = data (slot_at c t).
Proof. unfold upd_stat. rewrite slot_at_upd. by case_decide. Qed.

Lemma stat_set_data s b c t : stat (set_data s b c) t = stat c t.
Proof. unfold stat, set_data. rewrite slot_at_upd. by case_decide. Qed.

Lemma data_set_data s b c t :
  data (slot_at (set_data s b c) t) =
  if decide (s = t ∧ in_slots c t) then b else data (slot_at c t).
Proof. unfold set_data. rewrite slot_at_upd. by case_decide. Qed.

Lemma in_slots_upd s f c t : in_slots (upd_slot s f c) t ↔ in_slots c t.
Proof. unfold in_slots, upd_slot; simpl. by rewrite zlen_upd_at. Qed.

Lemma dirty_rev st : is_dirty (rev_dirty st) = negb (is_dirty st).
Proof.
  destruct st as [s p n i]. unfold is_dirty, rev_dirty; simpl.
  change 1 with (Z.ones 1). rewrite !Z.land_ones by lia.
  change (2 ^ 1) with 2. rewrite <- !Z.bit0_mod, Z.lxor_spec.
  by destruct (Z.testbit s 0).
Qed.

(** ** What the list operations leave alone

    [same_core c c']: the hash table, the stored blocks, the status bits
    and the ids are the same; only links and list heads may differ. *)

Record same_core (c c' : LRUCacheManager) : Prop := {
  sc_hash : hashtable c' = hashtable c;
  sc_size : lru_size c' = lru_size c;
  sc_len : zlen (buffer c') = zlen (buffer c);
  sc_data s : data (slot_at c' s) = data (slot_at c s);
  sc_status s : status (stat c' s) = status (stat c s);
  sc_id s : id (stat c' s) = id (stat c s);
}.

#[export] Instance same_core_refl : Reflexive same_core.
Proof. by split. Qed.

#[export] Instance same_core_trans : Transitive same_core.
Proof. intros a b c [] []. split; intros; congruence. Qed.

(** A step on the links: it changes no slot's contents, status or id. *)
Definition link_only (f : BlockStatus → BlockStatus) : Prop :=
  ∀ st, status (f st) = status st ∧ id (f st) = id st.

Lemma same_core_upd s f c : link_only f → same_core c (upd_stat s f c).
Proof.
  intros Hf. split; try done.
  - simpl. apply zlen_upd_at.
  - intros t. apply data_upd_stat.
  - intros t. rewrite stat_upd_stat. case_decide; [apply Hf|done].
  - intros t. rewrite stat_upd_stat. case_decide; [apply Hf|done].
Qed.

Lemma same_core_heads c f l :
  same_core c (mkLRU f l (LRU_last c) (hashtable c) (buffer c) (lru_size c)).
Proof. by split. Qed.

Lemma same_core_LRU_add s c : same_core c (LRU_add s c).
Proof.
  unfold LRU_add.
  set (c1 := upd_stat s (set_next (LRU_first c)) c).
  set (c2 := upd_stat s (set_prev (-1)) c1).
  assert (H2 : same_core c c2) by (etrans; apply same_core_upd; by split).
  set (c3 := if LRU_first c2 =? -1 then c2 else upd_stat (LRU_first c2) (set_prev s) c2).
  assert (H3 : same_core c2 c3) by (unfold c3; case_match; [done|apply same_core_upd; by split]).
  etrans; [exact H2|]. etrans; [exact H3|]. case_match; by split.
Qed.

Lemma same_core_LRU_remove s c : same_core c (LRU_remove s c).
Proof.
  unfold LRU_remove.
  set (c1 := if s =? LRU_first c then _ else c).
  assert (H1 : same_core c c1) by (unfold c1; case_match; by split).
  set (c2 := if s =? LRU_last c1 then _ else c1).
  assert (H2 : same_core c1 c2) by (unfold c2; case_match; by split).
  set (c3 := if next (stat c2 s) =? -1 then c2 else _).
  assert (H3 : same_core c2 c3) by (unfold c3; case_match; [done|apply same_core_upd; by split]).
  set (c4 := if prev (stat c3 s) =? -1 then c3 else _).
  assert (H4 : same_core c3 c4) by (unfold c4; case_match; [done|apply same_core_upd; by split]).
  etrans; [exact H1|]. etrans; [exact H2|]. etrans; [exact H3|]. etrans; [exact H4|].
  etrans; apply same_core_upd; by split.
Qed.

(** ** The links invariant

    [fl] is the free list, read off from [FREE_first] by [next].  Every
    pointer is -1 or a slot, and no slot in use has a free slot as its
    predecessor, so relinking never touches the free list. *)

Fixpoint free_chain (c : LRUCacheManager) (p : Z) (fl : list Z) : Prop :=
  match fl with
  | [] => p = -1
  | s :: fl' => p = s ∧ in_slots c s ∧ free_chain c (next (stat c s)) fl'
  end.

Definition ptr_ok (c : LRUCacheManager) (p : Z) : Prop := p = -1 ∨ in_slots c p.
Definition used_ok (c : LRUCacheManager) (fl : list Z) (p : Z) : Prop :=
  p = -1 ∨ (in_slots c p ∧ p ∉ fl).

Record links_ok (c : LRUCacheManager) (fl : list Z) : Prop := {
  lk_free : free_chain c (FREE_first c) fl;
  lk_nodup : NoDup fl;
  lk_next s : in_slots c s → ptr_ok c (next (stat c s));
  lk_prev s : in_slots c s → s ∉ fl → used_ok c fl (prev (stat c s));
  lk_first : ptr_ok c (LRU_first c);
  lk_last : used_ok c fl (LRU_last c);
}.

Lemma free_chain_ext c c' p fl :
  (∀ s, in_slots c s → in_slots c' s) →
  (∀ s, s ∈ fl → next (stat c' s) = next (stat c s)) →
  free_chain c p fl → free_chain c' p fl.
Proof.
  intros Hin. revert p. induction fl as [|s fl IH]; intros p Hnext; simpl; [done|].
  intros (-> & Hs & Hch). split; [done|]. split; [auto|].
  rewrite Hnext by set_solver. apply IH; [set_solver|done].
Qed.

Lemma links_set_prev c fl p q :
  links_ok c fl → used_ok c fl q → links_ok (upd_stat p (set_prev q) c) fl.
Proof.
  intros [Hf Hnd Hn Hp Hfi Hla] Hq.
  assert (Hin : ∀ t, in_slots (upd_stat p (set_prev q) c) t ↔ in_slots c t)
    by (intros; apply in_slots_upd).
  assert (Hnx : ∀ t, next (stat (upd_stat p (set_prev q) c) t) = next (stat c t))
    by (intros; rewrite stat_upd_stat; by case_decide).
  split; simpl; unfold ptr_ok, used_ok in *; try done.
  - eapply free_chain_ext; [|by auto|exact Hf]. intros; by apply Hin.
  - intros s. rewrite Hnx, !Hin. apply Hn.
  - intros s. rewrite !Hin, stat_upd_stat. intros Hs Hfl.
    case_decide; simpl; [exact Hq|by apply Hp].
  - by rewrite Hin.
  - by rewrite Hin.
Qed.

Lemma links_set_next c fl p q :
  links_ok c fl → p ∉ fl → ptr_ok c q → links_ok (upd_stat p (set_next q) c) fl.
Proof.
  intros [Hf Hnd Hn Hp Hfi Hla] Hpf Hq.
  assert (Hin : ∀ t, in_slots (upd_stat p (set_next q) c) t ↔ in_slots c t)
    by (intros; apply in_slots_upd).
  assert (Hpx : ∀ t, prev (stat (upd_stat p (set_next q) c) t) = prev (stat c t))
    by (intros; rewrite stat_upd_stat; by case_decide).
  split; simpl; unfold ptr_ok, used_ok in *; try done.
  - eapply free_chain_ext; [| |exact Hf]; [intros; by apply Hin|].
    intros s Hs. rewrite stat_upd_stat. case_decide as Hd; [|done]. by destruct Hd as [-> _].
  - intros s. rewrite !Hin, stat_upd_stat. intros Hs. case_decide; simpl; auto.
  - intros s. rewrite Hpx, !Hin. apply Hp.
  - by rewrite Hin.
  - by rewrite Hin.
Qed.

Lemma links_set_first c fl q :
  links_ok c fl → ptr_ok c q → links_ok (set_LRU_first q c) fl.
Proof. intros [] ?. split; try done. by apply (free_chain_ext c). Qed.

Lemma links_set_last c fl q :
  links_ok c fl → used_ok c fl q → links_ok (set_LRU_last q c) fl.
Proof. intros [] ?. split; try done. by apply (free_chain_ext c). Qed.

Lemma links_LRU_remove c fl s :
  links_ok c fl → in_slots c s → s ∉ fl → links_ok (LRU_remove s c) fl.
Proof.
  intros Hl Hs Hfl. unfold LRU_remove.
  set (c1 := if s =? LRU_first c then _ else c).
  assert (H1 : links_ok c1 fl ∧ in_slots c1 s).
  { unfold c1. case_match; [|done]. split; [|done]. apply links_set_first; [done|].
    by apply Hl. }
  clearbody c1. destruct H1 as [Hl1 Hs1].
  set (c2 := if s =? LRU_last c1 then _ else c1).
  assert (H2 : links_ok c2 fl ∧ in_slots c2 s).
  { unfold c2. case_match; [|done]. split; [|done]. apply links_set_last; [done|].
    by apply (lk_prev _ _ Hl1). }
  clearbody c2. destruct H2 as [Hl2 Hs2].
  set (c3 := if next (stat c2 s) =? -1 then c2 else _).
  assert (H3 : links_ok c3 fl ∧ in_slots c3 s).
  { unfold c3. case_match; [done|]. split; [|by apply in_slots_upd].
    apply links_set_prev; [done|]. by apply Hl2. }
  clearbody c3. destruct H3 as [Hl3 Hs3].
  set (c4 := if prev (stat c3 s) =? -1 then c3 else _).
  assert (H4 : links_ok c4 fl ∧ in_slots c4 s).
  { unfold c4. case_match eqn:E; [done|]. split; [|by apply in_slots_upd].
    apply links_set_next; [done| |by apply Hl3].
    destruct (lk_prev _ _ Hl3 s Hs3 Hfl) as [Hm|[_ ?]]; [lia|done]. }
  clearbody c4. destruct H4 as [Hl4 Hs4].
  apply links_set_prev; [|by left].
  apply links_set_next; [done..|by left].
Qed.

Lemma links_LRU_add c fl s :
  links_ok c fl → in_slots c s → s ∉ fl →
  links_ok (LRU_add s c) fl ∧ LRU_last (LRU_add s c) ≠ -1.
Proof.
  intros Hl Hs Hfl. unfold LRU_add.
  set (c1 := upd_stat s (set_next (LRU_first c)) c).
  assert (H1 : links_ok c1 fl) by (apply links_set_next; [done..|apply Hl]).
  set (c2 := upd_stat s (set_prev (-1)) c1).
  assert (H2 : links_ok c2 fl) by (apply links_set_prev; [done|by left]).
  assert (Hs2 : in_slots c2 s) by (unfold c2, c1, upd_stat; by rewrite !in_slots_upd).
  clearbody c2. clear H1 c1.
  set (c3 := if LRU_first c2 =? -1 then c2 else _).
  assert (H3 : links_ok c3 fl ∧ in_slots c3 s).
  { unfold c3. case_match; [done|]. split; [|by apply in_slots_upd].
    apply links_set_prev; [done|by right]. }
  clearbody c3. destruct H3 as [H3 Hs3].
  assert (H4 : links_ok (set_LRU_first s c3) fl) by (apply links_set_first; [done|by right]).
  case_match eqn:E.
  - split; [apply links_set_last; [done|by right]|]. simpl. unfold in_slots in Hs. lia.
  - split; [done|]. lia.
Qed.

(** ** The contents invariant and the blocks a cache holds *)

Section contents.
Context {R : Type} `{RawDiskLaws R}.
Implicit Types (c : LRUCacheManager) (d : R) (fl : list Z).

(** The block a read of the file would return. *)
Definition dread d (b : Z) : option block := pread d (u64 (u32 b * kBlockSize)).

(** The block a client of the device sees: the cached one, if any. *)
Definition view c d (b : Z) : option block :=
  match hashtable c !! b with
  | Some s => Some (data (slot_at c s))
  | None => dread d b
  end.

(** [fl]: slots whose contents are not in use.  A slot in use caches
    the block its id names, or is a clean slot left behind by a failed
    read of a block outside the file. *)
Record contents_ok c d fl : Prop := {
  co_size : zlen (buffer c) = lru_size c ∧ 0 < lru_size c;
  co_hash b s : hashtable c !! b = Some s →
    is_u32 b ∧ in_slots c s ∧ (s ∉ fl) ∧ id (stat c s) = i32 b ∧
    is_Some (dread d b) ∧
    (is_dirty (stat c s) = false → dread d b = Some (data (slot_at c s)));
  co_used s : in_slots c s → s ∉ fl →
    hashtable c !! u32 (id (stat c s)) = Some s ∨
    (is_dirty (stat c s) = false ∧ dread d (u32 (id (stat c s))) = None);
  co_free s : s ∈ fl → is_dirty (stat c s) = false;
  co_data s : blk_wf (data (slot_at c s));
}.

Lemma same_core_stat c c' s :
  same_core c c' → id (stat c' s) = id (stat c s) ∧
  is_dirty (stat c' s) = is_dirty (stat c s) ∧
  data (slot_at c' s) = data (slot_at c s).
Proof. intros Hsc. unfold is_dirty. by rewrite (sc_id _ _ Hsc), (sc_status _ _ Hsc), (sc_data _ _ Hsc). Qed.

Lemma contents_same_core c c' d fl :
  same_core c c' → contents_ok c d fl → contents_ok c' d fl.
Proof.
  intros Hsc [Hsz Hh Hu Hf Hd]. pose proof (same_core_stat c c') as Hst.
  assert (Hin : ∀ s, in_slots c' s ↔ in_slots c s)
    by (intros; unfold in_slots; by rewrite (sc_len _ _ Hsc)).
  split.
  - by rewrite (sc_len _ _ Hsc), (sc_size _ _ Hsc).
  - intros b s. destruct (Hst s) as (-> & -> & ->); [done|].
    rewrite (sc_hash _ _ Hsc), Hin. apply Hh.
  - intros s. destruct (Hst s) as (-> & -> & _); [done|].
    rewrite (sc_hash _ _ Hsc), Hin. apply Hu.
  - intros s. destruct (Hst s) as (_ & -> & _); [done|]. apply Hf.
  - intros s. by destruct (Hst s) as (_ & _ & ->).
Qed.

Lemma view_same_core c c' d b : same_core c c' → view c' d b = view c d b.
Proof.
  intros Hsc. unfold view. rewrite (sc_hash _ _ Hsc).
  case_match; [|done]. by rewrite (sc_data _ _ Hsc).
Qed.

Lemma file_off b : is_u32 b → u64 (u32 b * kBlockSize) = b * kBlockSize.
Proof.
  intros Hb. rewrite u32_small by done. apply u64_small.
  unfold is_u32, kBlockSize in *. lia.
Qed.

Lemma write_to_disk_ok c d b i x :
  is_u32 b → u32 i = b → is_Some (dread d b) → blk_wf x →
  ∃ d', write_to_disk i x (c, d) = (Some tt, (c, d')) ∧ dread d' b = Some x ∧
    ∀ b', is_u32 b' → b' ≠ b → dread d' b' = dread d b'.
Proof.
  intros Hb Hi Hin Hx. unfold write_to_disk, dread in *; simpl.
  destruct (pwrite_in d (u64 (u32 i * kBlockSize)) x) as (d' & Hw & Hr & Hoth).
  - by rewrite Hi, <- (u32_small b).
  - done.
  - rewrite Hi, <- (u32_small b) by done. rewrite file_off by done. apply Z.mod_mul. done.
  - exists d'. rewrite Hw. split; [done|].
    rewrite (u32_small b), <- Hi by done. split; [done|].
    intros b' Hb' Hne. apply Hoth.
    + rewrite file_off by done. apply Z.mod_mul. done.
    + rewrite file_off by done. rewrite Hi, <- (u32_small b), file_off by done.
      unfold kBlockSize. lia.
Qed.

(** Relinking a slot in use (every cache hit does this). *)
Definition LRU_touch (s : Z) (c : LRUCacheManager) := LRU_add s (LRU_remove s c).

Definition cache_ok c d fl : Prop :=
  links_ok c fl ∧ contents_ok c d fl ∧ (LRU_last c = -1 → fl ≠ []).

Lemma same_core_touch s c : same_core c (LRU_touch s c).
Proof. etrans; [apply same_core_LRU_remove|apply same_core_LRU_add]. Qed.

Lemma links_touch s c fl :
  links_ok c fl → in_slots c s → s ∉ fl →
  links_ok (LRU_touch s c) fl ∧ LRU_last (LRU_touch s c) ≠ -1.
Proof.
  intros Hl Hs Hfl. apply links_LRU_add; [by apply links_LRU_remove| |done].
  unfold in_slots. rewrite (sc_len _ _ (same_core_LRU_remove s c)). done.
Qed.

Lemma touch_ok s c d fl :
  links_ok c fl → contents_ok c d fl → in_slots c s → s ∉ fl →
  cache_ok (LRU_touch s c) d fl.
Proof.
  intros Hl Hc Hs Hfl. destruct (links_touch s c fl) as [Hl' Hla]; [done..|].
  split; [done|]. split; [|done].
  eapply contents_same_core; [apply same_core_touch|done].
Qed.
End contents.

(** ** Allocating a slot *)

(** A slot whose contents are dropped (the second branch of [alloc]). *)
Definition drop_slot (s : Z) (c : LRUCacheManager) : LRUCacheManager :=
  upd_stat s BlockStatus_init
    (set_hashtable (delete (u32 (id (stat c s))) (hashtable c)) c).

(** The head of the free list popped (the first branch). *)
Definition pop_free (c : LRUCacheManager) : LRUCacheManager :=
  upd_stat (FREE_first c) BlockStatus_init
    (set_FREE_first (next (stat c (FREE_first c))) c).

Lemma free_head c fl : links_ok c fl → FREE_first c ≠ -1 →
  ∃ fl', fl = FREE_first c :: fl' ∧ in_slots c (FREE_first c) ∧
    free_chain c (next (stat c (FREE_first c))) fl' ∧ (FREE_first c ∉ fl') ∧ NoDup fl'.
Proof.
  intros Hl Hne. pose proof (lk_free _ _ Hl) as Hf. pose proof (lk_nodup _ _ Hl) as Hnd.
  destruct fl as [|s fl']; simpl in Hf; [done|]. destruct Hf as (-> & Hin & Hch).
  apply NoDup_cons in Hnd as [? ?]. eauto 6.
Qed.

Lemma free_none c fl : links_ok c fl → FREE_first c = -1 → fl = [].
Proof.
  intros Hl Heq. destruct fl as [|s fl]; [done|].
  destruct (lk_free _ _ Hl) as (Hs & Hin & _). unfold in_slots in Hin. lia.
Qed.

Lemma links_init c fl s :
  links_ok c fl → s ∉ fl → links_ok (upd_stat s BlockStatus_init c) fl.
Proof.
  intros Hl Hs.
  assert (Hin : ∀ t, in_slots (upd_stat s BlockStatus_init c) t ↔ in_slots c t)
    by (intros; apply in_slots_upd).
  destruct Hl as [Hf Hnd Hn Hp Hfi Hla].
  split; simpl; unfold ptr_ok, used_ok in *; try done.
  - apply (free_chain_ext c); [intros; by apply Hin| |done].
    intros t Ht. rewrite stat_upd_stat. case_decide as Hd; [|done]. by destruct Hd as [-> _].
  - intros t. rewrite !Hin, stat_upd_stat. intros. case_decide; simpl; auto.
  - intros t. rewrite !Hin, stat_upd_stat. intros. case_decide; simpl; auto.
  - by rewrite Hin.
  - by rewrite Hin.
Qed.

Lemma links_set_hashtable c fl h : links_ok c fl → links_ok (set_hashtable h c) fl.
Proof. intros []. split; try done. by apply (free_chain_ext c). Qed.

Lemma links_pop_free c fl :
  links_ok c (FREE_first c :: fl) → links_ok (pop_free c) fl.
Proof.
  intros Hl. pose proof (lk_nodup _ _ Hl) as Hnd. apply NoDup_cons in Hnd as [Hni Hnd].
  pose proof (lk_free _ _ Hl) as (_ & Hin & Hch). unfold pop_free.
  set (s := FREE_first c) in *. set (c0 := set_FREE_first (next (stat c s)) c).
  assert (Hin' : ∀ t, in_slots (upd_stat s BlockStatus_init c0) t ↔ in_slots c t)
    by (intros t; exact (in_slots_upd s _ c0 t)).
  assert (Hst : ∀ t, t ≠ s → stat (upd_stat s BlockStatus_init c0) t = stat c t).
  { intros t Ht. rewrite stat_upd_stat. case_decide as Hd; [|done]. by destruct Hd. }
  assert (Hss : stat (upd_stat s BlockStatus_init c0) s = mkStatus 0 (-1) (-1) (-1)).
  { rewrite stat_upd_stat. by rewrite decide_True. }
  destruct Hl as [_ _ Hn Hp Hfi Hla]. split; simpl; try done.
  - apply (free_chain_ext c); [intros; by apply Hin'| |done].
    intros t Ht. rewrite Hst; [done|]. by intros ->.
  - intros t. rewrite Hin'. intros Ht. unfold ptr_ok. rewrite Hin'.
    destruct (decide (t = s)) as [->|]; [rewrite Hss; by left|rewrite Hst by done; by apply Hn].
  - intros t. rewrite Hin'. intros Ht Hfl. unfold used_ok. rewrite Hin'.
    destruct (decide (t = s)) as [->|]; [rewrite Hss; by left|rewrite Hst by done].
    destruct (Hp t) as [|[? ?%not_elem_of_cons]]; [done| |by left|right; tauto].
    by apply not_elem_of_cons.
  - unfold ptr_ok. by rewrite Hin'.
  - unfold used_ok in *. rewrite Hin', not_elem_of_cons in *. tauto.
Qed.

#[local] Opaque LRU_add LRU_remove.

Section alloc.
Context {R : Type} `{RawDiskLaws R}.
Implicit Types (c : LRUCacheManager) (d : R) (fl : list Z).

(** What [alloc] hands to [get_page]: slot [s] linked, but its contents
    still out of use. *)
Definition alloc_ok c d (c' : LRUCacheManager) (d' : R) (s : Z) (fl' : list Z) : Prop :=
  links_ok c' fl' ∧ LRU_last c' ≠ -1 ∧ in_slots c' s ∧ (s ∉ fl') ∧
  contents_ok c' d' (s :: fl') ∧
  (∀ b, hashtable c !! b = None → hashtable c' !! b = None) ∧
  (∀ b, is_u32 b → view c' d' b = view c d b) ∧
  (∀ b, is_u32 b → is_Some (dread d' b) ↔ is_Some (dread d b)).

Lemma contents_pop_free c d fl :
  contents_ok c d (FREE_first c :: fl) → contents_ok (pop_free c) d (FREE_first c :: fl).
Proof.
  intros [Hsz Hh Hu Hf Hd]. unfold pop_free. set (s := FREE_first c) in *.
  set (c0 := set_FREE_first _ c).
  assert (Hst : ∀ t, t ≠ s → stat (upd_stat s BlockStatus_init c0) t = stat c t).
  { intros t Ht. rewrite stat_upd_stat. case_decide as Hx; [|done]. by destruct Hx. }
  split.
  - simpl. by rewrite zlen_upd_at.
  - intros b t Hb. destruct (Hh b t Hb) as (?&?&Hni&?&?&?).
    pose proof Hni as [? _]%not_elem_of_cons.
    rewrite data_upd_stat, Hst by done.
    unfold upd_stat. rewrite in_slots_upd. by split_and!.
  - intros t Ht Hni. unfold upd_stat in Ht. rewrite in_slots_upd in Ht.
    pose proof Hni as [? _]%not_elem_of_cons. rewrite Hst by done. by apply Hu.
  - intros t Ht. rewrite stat_upd_stat. case_decide; [done|by apply Hf].
  - intros t. rewrite data_upd_stat. apply Hd.
Qed.

Lemma alloc_free_ok c d fl :
  links_ok c fl → contents_ok c d fl → FREE_first c ≠ -1 →
  ∃ c' fl', LRU_alloc (c, d) = (Some (FREE_first c, kSuccess), (c', d)) ∧
    alloc_ok c d c' d (FREE_first c) fl'.
Proof.
  intros Hl Hc Hne. destruct (free_head c fl Hl Hne) as (fl' & -> & Hin & _ & Hni & _).
  exists (LRU_touch (FREE_first c) (pop_free c)), fl'. split.
  { unfold LRU_alloc, bind, cache; simpl.
    destruct (Z.eqb_spec (FREE_first c) (-1)); [congruence|reflexivity]. }
  pose proof (links_pop_free c fl' Hl) as Hl'.
  assert (Hin' : in_slots (pop_free c) (FREE_first c)) by exact (proj2 (in_slots_upd _ _ (set_FREE_first _ c) _) Hin).
  destruct (links_touch (FREE_first c) (pop_free c) fl') as [Hl'' Hla]; [done..|].
  pose proof (same_core_touch (FREE_first c) (pop_free c)) as Hsc.
  split_and!; try done.
  - unfold in_slots. by rewrite (sc_len _ _ Hsc).
  - eapply contents_same_core; [done|]. by apply contents_pop_free.
  - intros b. by rewrite (sc_hash _ _ Hsc).
  - intros b Hb. rewrite (view_same_core _ _ _ _ Hsc).
    unfold view. simpl. case_match; [|done]. unfold pop_free. by rewrite data_upd_stat.
Qed.

(** Slot [s] may be dropped in favour of disk state [d']: either the
    block it caches is on disk, or it caches nothing. *)
Definition evictable c d d' (s : Z) : Prop :=
  let b := u32 (id (stat c s)) in
  (hashtable c !! b = Some s ∧ dread d' b = Some (data (slot_at c s)) ∧
     ∀ b', is_u32 b' → b' ≠ b → dread d' b' = dread d b') ∨
  (dread d b = None ∧ d' = d).

Lemma evictable_hash c d d' s b :
  contents_ok c d [] → evictable c d d' s → is_u32 b → b ≠ u32 (id (stat c s)) →
  dread d' b = dread d b.
Proof. intros Hc [(_ & _ & Hoth)|[_ ->]] Hb Hne; auto. Qed.

Lemma evictable_in c d d' s b :
  contents_ok c d [] → evictable c d d' s → is_u32 b →
  is_Some (dread d' b) ↔ is_Some (dread d b).
Proof.
  intros Hc He Hb. destruct (decide (b = u32 (id (stat c s)))) as [->|Hne].
  - destruct He as [(Hh & Hr & _)|[_ ->]]; [|done].
    destruct (co_hash _ _ _ Hc _ _ Hh) as (_&_&_&_&?&_). rewrite Hr. split; by eauto.
  - by rewrite (evictable_hash c d d' s b).
Qed.

(** No other entry of the hash table is named by the dropped slot's id. *)
Lemma evictable_entry c d d' s b t :
  contents_ok c d [] → evictable c d d' s → hashtable c !! b = Some t →
  (t = s ↔ b = u32 (id (stat c s))).
Proof.
  intros Hc He Hb. destruct (co_hash _ _ _ Hc _ _ Hb) as (Hu & _ & _ & Hid & Hin & _).
  split.
  - intros ->. by rewrite Hid, u32_i32, u32_small.
  - intros ->. destruct He as [(Hh & _)|[Hn _]]; [congruence|].
    rewrite Hn in Hin. by destruct Hin.
Qed.

Lemma drop_stat_ne s c t : t ≠ s → stat (drop_slot s c) t = stat c t.
Proof.
  intros Ht. unfold drop_slot. rewrite stat_upd_stat.
  case_decide as Hd; [by destruct Hd|done].
Qed.

Lemma drop_data s c t : data (slot_at (drop_slot s c) t) = data (slot_at c t).
Proof. apply (data_upd_stat s _ (set_hashtable _ c)). Qed.

Lemma drop_in_slots s c t : in_slots (drop_slot s c) t ↔ in_slots c t.
Proof. exact (in_slots_upd s _ (set_hashtable _ c) t). Qed.

Lemma contents_drop c d d' s :
  contents_ok c d [] → in_slots c s → evictable c d d' s →
  contents_ok (drop_slot s c) d' [s].
Proof.
  intros Hc Hs He. split.
  - destruct (co_size _ _ _ Hc). simpl. by rewrite zlen_upd_at.
  - intros b t. simpl. intros [Hne Hb]%lookup_delete_Some.
    destruct (co_hash _ _ _ Hc _ _ Hb) as (Hu & Ht & _ & Hid & Hin & Hcl).
    pose proof (evictable_entry c d d' s b t Hc He Hb) as Hts.
    assert (b ≠ u32 (id (stat c s))) as Hbs by done.
    assert (t ≠ s) as Hts' by (by rewrite Hts).
    rewrite drop_in_slots, drop_data, drop_stat_ne, (evictable_hash c d d' s b) by done.
    split_and!; try done. by rewrite list_elem_of_singleton.
  - intros t. rewrite drop_in_slots, list_elem_of_singleton. intros Ht Hne.
    rewrite drop_stat_ne by done. simpl.
    destruct (co_used _ _ _ Hc t Ht) as [Hb|[Hcl Hn]]; [by apply not_elem_of_nil| |].
    + pose proof (evictable_entry c d d' s _ t Hc He Hb). left.
      apply lookup_delete_Some. split; [|done]. intros Heq. symmetry in Heq. tauto.
    + right. split; [done|].
      destruct (dread d' (u32 (id (stat c t)))) eqn:E; [|done].
      assert (is_Some (dread d (u32 (id (stat c t))))) as Hx.
      { apply (evictable_in c d d' s); [done..|apply u32_range|]. by rewrite E. }
      rewrite Hn in Hx. by destruct Hx.
  - intros t ->%list_elem_of_singleton. unfold drop_slot. rewrite stat_upd_stat.
    by rewrite decide_True.
  - intros t. rewrite drop_data. apply Hc.
Qed.

Lemma view_drop c d d' s b :
  contents_ok c d [] → evictable c d d' s → is_u32 b →
  view (drop_slot s c) d' b = view c d b.
Proof.
  intros Hc He Hb. unfold view. simpl.
  destruct (decide (u32 (id (stat c s)) = b)) as [<-|Hne].
  - rewrite lookup_delete_eq. destruct (hashtable c !! _) as [t|] eqn:Ht.
    + pose proof (evictable_entry c d d' s _ t Hc He Ht) as [_ ->]; [|done].
      destruct He as [(_ & -> & _)|[Hn _]]; [done|].
      destruct (co_hash _ _ _ Hc _ _ Ht) as (_&_&_&_&[? Hin]&_). congruence.
    + destruct He as [[He _]|[_ ->]]; [congruence|done].
  - rewrite lookup_delete_ne by done. case_match.
    + by rewrite drop_data.
    + by apply (evictable_hash c d d' s).
Qed.

Lemma write_back_ok c d s :
  contents_ok c d [] → in_slots c s →
  ∃ d', (if is_dirty (stat c s)
         then attempt (write_to_disk (id (stat c s)) (data (slot_at c s)))
         else ret (Some tt)) (c, d) = (Some (Some tt), (c, d')) ∧ evictable c d d' s.
Proof.
  intros Hc Hs. destruct (co_used _ _ _ Hc s Hs) as [Hb|[Hcl Hn]]; [by apply not_elem_of_nil| |].
  - destruct (co_hash _ _ _ Hc _ _ Hb) as (Hu & _ & _ & Hid & Hin & Hcl).
    destruct (is_dirty (stat c s)) eqn:Hd.
    + destruct (write_to_disk_ok c d (u32 (id (stat c s))) (id (stat c s)) (data (slot_at c s)))
        as (d' & Hw & Hr & Hoth); [done..|by apply Hc|].
      exists d'. unfold attempt. rewrite Hw. split; [done|]. left. by split_and!.
    + exists d. split; [done|]. left. split_and!; auto.
  - rewrite Hcl. exists d. split; [done|]. right. done.
Qed.

Lemma alloc_evict_run c d :
  links_ok c [] → contents_ok c d [] → FREE_first c = -1 → LRU_last c ≠ -1 →
  ∃ d', LRU_alloc (c, d) =
      (Some (LRU_last c, kSuccess), (LRU_touch (LRU_last c) (drop_slot (LRU_last c) c), d')) ∧
    in_slots c (LRU_last c) ∧ evictable c d d' (LRU_last c).
Proof.
  intros Hl Hc Hfr Hla. set (s := LRU_last c) in *.
  assert (Hs : in_slots c s) by (destruct (lk_last _ _ Hl) as [|[? _]]; done).
  destruct (write_back_ok c d s Hc Hs) as (d' & Hwb & He).
  exists d'. split; [|done].
  unfold LRU_alloc, bind at 1, cache. simpl. rewrite Hfr. simpl.
  fold s. destruct (Z.eqb_spec s (-1)); [done|].
  unfold bind at 1. rewrite Hwb. reflexivity.
Qed.

Lemma alloc_evict_ok c d :
  links_ok c [] → contents_ok c d [] → FREE_first c = -1 → LRU_last c ≠ -1 →
  ∃ c' d', LRU_alloc (c, d) = (Some (LRU_last c, kSuccess), (c', d')) ∧
    alloc_ok c d c' d' (LRU_last c) [].
Proof.
  intros Hl Hc Hfr Hla.
  destruct (alloc_evict_run c d Hl Hc Hfr Hla) as (d' & Hrun & Hs & He).
  set (s := LRU_last c) in *. exists (LRU_touch s (drop_slot s c)), d'. split; [done|].
  assert (Hl' : links_ok (drop_slot s c) []).
  { apply links_init; [by apply links_set_hashtable|by apply not_elem_of_nil]. }
  assert (Hs' : in_slots (drop_slot s c) s) by by apply drop_in_slots.
  destruct (links_touch s (drop_slot s c) []) as [Hl'' Hla']; [done..|by apply not_elem_of_nil|].
  pose proof (same_core_touch s (drop_slot s c)) as Hsc.
  split_and!; try done.
  - unfold in_slots. by rewrite (sc_len _ _ Hsc).
  - by apply not_elem_of_nil.
  - eapply contents_same_core; [done|]. by apply (contents_drop c d).
  - intros b Hb. rewrite (sc_hash _ _ Hsc). simpl. by rewrite lookup_delete_None; right.
  - intros b Hb. rewrite (view_same_core _ _ _ _ Hsc). by apply view_drop.
  - intros b Hb. by apply (evictable_in c d d' s).
Qed.

Lemma alloc_any_ok c d fl :
  cache_ok c d fl →
  ∃ s c' d' fl', LRU_alloc (c, d) = (Some (s, kSuccess), (c', d')) ∧
    alloc_ok c d c' d' s fl'.
Proof.
  intros (Hl & Hc & Hne). destruct (decide (FREE_first c = -1)) as [Hfr|Hfr].
  - pose proof (free_none c fl Hl Hfr) as ->.
    destruct (alloc_evict_ok c d) as (c' & d' & ? & ?); [done..|naive_solver|]. eauto 6.
  - destruct (alloc_free_ok c d fl) as (c' & fl' & ? & ?); [done..|]. eauto 6.
Qed.

(** ** Loading a page *)

Definition page_ok c d (c' : LRUCacheManager) (d' : R) : Prop :=
  (∃ fl', cache_ok c' d' fl') ∧ (∀ b, is_u32 b → view c' d' b = view c d b).

Lemma page_ok_refl c d fl : cache_ok c d fl → page_ok c d c d.
Proof. intros. split; eauto. Qed.

Lemma get_page_hit c d fl b s :
  cache_ok c d fl → hashtable c !! b = Some s →
  LRU_get_page b (c, d) = (Some s, (LRU_touch s c, d)) ∧ page_ok c d (LRU_touch s c) d.
Proof.
  intros (Hl & Hc & Hne) Hb. split.
  { unfold LRU_get_page, bind, cache; simpl. by rewrite Hb. }
  destruct (co_hash _ _ _ Hc _ _ Hb) as (_ & Hs & Hfl & _). split.
  - exists fl. by apply touch_ok.
  - intros b' _. apply view_same_core, same_core_touch.
Qed.

(** The slot handed out by [alloc] keeps the id of the block that was
    asked for, and takes its contents if they can be read. *)
Definition name_slot (s b : Z) c : LRUCacheManager := upd_stat s (set_id (i32 b)) c.
Definition fill_slot (s b : Z) (x : block) c : LRUCacheManager :=
  set_hashtable (<[b := s]> (hashtable c)) (set_data s x (name_slot s b c)).

Lemma stat_name s b c t : in_slots c s →
  stat (name_slot s b c) t = if decide (s = t) then set_id (i32 b) (stat c t) else stat c t.
Proof.
  intros Hs. unfold name_slot. rewrite stat_upd_stat.
  destruct (decide (s = t)) as [->|].
  - by rewrite decide_True.
  - by rewrite decide_False by tauto.
Qed.

Lemma stat_fill s b x c t : in_slots c s →
  stat (fill_slot s b x c) t = if decide (s = t) then set_id (i32 b) (stat c t) else stat c t.
Proof.
  intros Hs. rewrite <- stat_name by done. exact (stat_set_data s x (name_slot s b c) t).
Qed.

Lemma data_fill s b x c t : in_slots c s →
  data (slot_at (fill_slot s b x c) t) = if decide (s = t) then x else data (slot_at c t).
Proof.
  intros Hs. etrans; [exact (data_set_data s x (name_slot s b c) t)|].
  destruct (decide (s = t)) as [->|].
  - rewrite decide_True; [done|]. split; [done|]. by apply in_slots_upd.
  - rewrite decide_False by tauto. apply data_upd_stat.
Qed.

Lemma in_slots_fill s b x c t : in_slots (fill_slot s b x c) t ↔ in_slots c t.
Proof.
  etrans; [exact (in_slots_upd s _ (name_slot s b c) t)|]. apply in_slots_upd.
Qed.

Lemma fresh_slot_ne c d fl s b t :
  contents_ok c d (s :: fl) → hashtable c !! b = Some t → s ≠ t ∧ (t ∉ fl).
Proof.
  intros Hc Hb. destruct (co_hash _ _ _ Hc _ _ Hb) as (_ & _ & [? ?]%not_elem_of_cons & _).
  by split.
Qed.

Lemma contents_fill c d s fl b x :
  contents_ok c d (s :: fl) → in_slots c s → s ∉ fl → is_u32 b →
  hashtable c !! b = None → dread d b = Some x → blk_wf x →
  contents_ok (fill_slot s b x c) d fl.
Proof.
  intros Hc Hs Hni Hb Hbn Hx Hwf. split.
  - destruct (co_size _ _ _ Hc). simpl. by rewrite !zlen_upd_at.
  - intros b' t. simpl. rewrite in_slots_fill, stat_fill, data_fill by done.
    intros [[<- <-]|[Hne Hb']]%lookup_insert_Some.
    + rewrite !decide_True by done. simpl. split_and!; eauto.
    + destruct (fresh_slot_ne _ _ _ _ _ _ Hc Hb') as [Hst Hfl].
      rewrite !decide_False by done.
      destruct (co_hash _ _ _ Hc _ _ Hb') as (?&?&_&?&?&?). by split_and!.
  - intros t. rewrite in_slots_fill, stat_fill by done. intros Ht Hfl. simpl.
    case_decide as Hst; [subst; left; simpl|].
    + by rewrite u32_i32, u32_small, lookup_insert_eq.
    + destruct (co_used _ _ _ Hc t Ht) as [Hh|?]; [by apply not_elem_of_cons| |by right].
      left. apply lookup_insert_Some. right. split; [|done]. congruence.
  - intros t Ht. rewrite stat_fill by done. case_decide; [by subst|].
    apply (co_free _ _ _ Hc). by apply elem_of_cons; right.
  - intros t. rewrite data_fill by done. case_decide; [done|]. apply Hc.
Qed.

Lemma contents_leak c d s fl b :
  contents_ok c d (s :: fl) → in_slots c s → s ∉ fl → is_u32 b →
  dread d b = None → contents_ok (name_slot s b c) d fl.
Proof.
  intros Hc Hs Hni Hb Hbn. split.
  - destruct (co_size _ _ _ Hc). simpl. by rewrite zlen_upd_at.
  - intros b' t Hb'. destruct (fresh_slot_ne _ _ _ _ _ _ Hc Hb') as [Hst Hfl].
    rewrite stat_name by done. rewrite !decide_False by done.
    unfold name_slot. rewrite data_upd_stat. unfold upd_stat. rewrite in_slots_upd.
    destruct (co_hash _ _ _ Hc _ _ Hb') as (?&?&_&?&?&?). by split_and!.
  - intros t. rewrite stat_name by done. unfold name_slot, upd_stat at 1.
    rewrite in_slots_upd. intros Ht Hfl. case_decide as Hst.
    + subst. right. simpl. rewrite u32_i32, u32_small by done. split; [|done].
      apply (co_free _ _ _ Hc). by apply elem_of_cons; left.
    + by apply (co_used _ _ _ Hc t Ht), not_elem_of_cons.
  - intros t Ht. rewrite stat_name by done. case_decide; [by subst|].
    apply (co_free _ _ _ Hc). by apply elem_of_cons; right.
  - intros t. unfold name_slot. rewrite data_upd_stat. apply Hc.
Qed.

Lemma links_ext c c' fl :
  FREE_first c' = FREE_first c → LRU_first c' = LRU_first c → LRU_last c' = LRU_last c →
  zlen (buffer c') = zlen (buffer c) →
  (∀ t, next (stat c' t) = next (stat c t)) → (∀ t, prev (stat c' t) = prev (stat c t)) →
  links_ok c fl → links_ok c' fl.
Proof.
  intros Hfr Hfi Hla Hlen Hn Hp [].
  assert (Hin : ∀ t, in_slots c' t ↔ in_slots c t) by (intros; unfold in_slots; by rewrite Hlen).
  split; unfold ptr_ok, used_ok in *; try done.
  - rewrite Hfr. apply (free_chain_ext c); [intros; by apply Hin|done..].
  - intros t. rewrite Hn, !Hin. auto.
  - intros t. rewrite Hp, !Hin. auto.
  - by rewrite Hfi, Hin.
  - by rewrite Hla, Hin.
Qed.

Lemma links_name s b c fl : in_slots c s → links_ok c fl → links_ok (name_slot s b c) fl.
Proof.
  intros Hs. apply links_ext; try done.
  - simpl. by rewrite zlen_upd_at.
  - intros t. rewrite stat_name by done. by case_decide.
  - intros t. rewrite stat_name by done. by case_decide.
Qed.

Lemma links_fill s b x c fl : in_slots c s → links_ok c fl → links_ok (fill_slot s b x c) fl.
Proof.
  intros Hs. apply links_ext; try done.
  - simpl. by rewrite !zlen_upd_at.
  - intros t. rewrite stat_fill by done. by case_decide.
  - intros t. rewrite stat_fill by done. by case_decide.
Qed.

Lemma dread_wf d b x : dread d b = Some x → blk_wf x.
Proof. apply pread_wf. Qed.

Lemma get_page_run c d b s rc c1 d1 :
  hashtable c !! b = None → LRU_alloc (c, d) = (Some (s, rc), (c1, d1)) →
  LRU_get_page b (c, d) =
  match dread d1 b with
  | Some x => (Some s, (fill_slot s b x c1, d1))
  | None => (None, (name_slot s b c1, d1))
  end.
Proof.
  intros Hbn Ha. unfold LRU_get_page, bind at 1, cache. simpl. rewrite Hbn.
  unfold bind at 1. rewrite Ha. unfold bind, upd_cache, modify, read_from_disk; simpl.
  unfold dread. by destruct (pread d1 _).
Qed.

Lemma get_page_miss c d fl b :
  cache_ok c d fl → is_u32 b → hashtable c !! b = None →
  ∃ c' d', page_ok c d c' d' ∧
    match dread d b with
    | Some _ => ∃ s, LRU_get_page b (c, d) = (Some s, (c', d')) ∧ hashtable c' !! b = Some s
    | None => LRU_get_page b (c, d) = (None, (c', d'))
    end.
Proof.
  intros Hok Hb Hbn. destruct (alloc_any_ok c d fl Hok) as (s & c1 & d1 & fl' & Ha & Hal).
  destruct Hal as (Hl & Hla & Hs & Hni & Hc & Hdel & Hv & Hin).
  pose proof (Hdel b Hbn) as Hbn1. specialize (Hv b Hb) as Hvb.
  unfold view in Hvb. rewrite Hbn, Hbn1 in Hvb.
  pose proof (get_page_run _ _ _ _ _ _ _ Hbn Ha) as Hrun.
  destruct (dread d1 b) as [x|] eqn:Hx; rewrite <- Hvb.
  - exists (fill_slot s b x c1), d1. split.
    + split.
      * exists fl'. split_and!; [by apply links_fill| |done].
        apply contents_fill; try done. by eapply dread_wf.
      * intros b' Hb'. rewrite <- (Hv b' Hb'). unfold view. simpl.
        destruct (decide (b = b')) as [<-|Hne].
        -- rewrite lookup_insert_eq, data_fill by done. by rewrite decide_True, Hbn1.
        -- rewrite lookup_insert_ne by done. case_match eqn:E; [|done].
           rewrite data_fill by done. rewrite decide_False; [done|].
           by destruct (fresh_slot_ne _ _ _ _ _ _ Hc E).
    + exists s. split; [done|]. simpl. by rewrite lookup_insert_eq.
  - exists (name_slot s b c1), d1. split; [split|done].
    + exists fl'. split_and!; [by apply links_name| |done]. by apply contents_leak.
    + intros b' Hb'. rewrite <- (Hv b' Hb'). unfold view, name_slot. simpl.
      case_match; [|done]. by rewrite data_upd_stat.
Qed.

(** [get_page]: the block is brought into the cache if it can be read. *)
Lemma get_page_spec c d fl b :
  cache_ok c d fl → is_u32 b →
  ∃ c' d', page_ok c d c' d' ∧
    match view c d b with
    | Some _ => ∃ s, LRU_get_page b (c, d) = (Some s, (c', d')) ∧ hashtable c' !! b = Some s
    | None => LRU_get_page b (c, d) = (None, (c', d'))
    end.
Proof.
  intros Hok Hb. unfold view. destruct (hashtable c !! b) as [s|] eqn:Hbs.
  - destruct (get_page_hit c d fl b s) as [? ?]; [done..|].
    eexists _, _. split; [done|]. eexists. split; [done|].
    by rewrite (sc_hash _ _ (same_core_touch s c)).
  - by apply (get_page_miss c d fl b).
Qed.
End alloc.

(** ** The operations of the cache against the blocks it holds *)

Section specs.
Context {R : Type} `{RawDiskLaws R}.
Implicit Types (c : LRUCacheManager) (d : R) (fl : list Z).

(** [get] returns the block of a cached id, and nothing else. *)
Lemma LRU_get_hit c d fl b s :
  cache_ok c d fl → hashtable c !! b = Some s →
  ∃ c', LRU_get b (c, d) = (view c d b, (c', d)) ∧ page_ok c d c' d.
Proof.
  intros Hok Hb. destruct (get_page_hit c d fl b s Hok Hb) as [_ Hpg].
  exists (LRU_touch s c). split; [|done].
  unfold LRU_get, bind, cache; simpl. rewrite Hb; simpl. unfold view. rewrite Hb.
  fold (LRU_touch s c). unfold ret. by rewrite (sc_data _ _ (same_core_touch s c)).
Qed.

Lemma LRU_get_miss c d b : hashtable c !! b = None → LRU_get b (c, d) = (None, (c, d)).
Proof. intros Hb. unfold LRU_get, bind, cache; simpl. by rewrite Hb. Qed.

(** A change to the contents of slot [s] alone, the links kept. *)
Record slot_change (s : Z) (x : block) (dirty : bool) c c' : Prop := {
  sl_heads : FREE_first c' = FREE_first c ∧ LRU_first c' = LRU_first c ∧ LRU_last c' = LRU_last c;
  sl_hash : hashtable c' = hashtable c;
  sl_size : lru_size c' = lru_size c ∧ zlen (buffer c') = zlen (buffer c);
  sl_links t : next (stat c' t) = next (stat c t) ∧ prev (stat c' t) = prev (stat c t) ∧
    id (stat c' t) = id (stat c t);
  sl_dirty t : is_dirty (stat c' t) = if decide (s = t) then dirty else is_dirty (stat c t);
  sl_data t : data (slot_at c' t) = if decide (s = t) then x else data (slot_at c t);
}.

Lemma slot_change_ok s x dirty c c' d d' fl b :
  slot_change s x dirty c c' → cache_ok c d fl → hashtable c !! b = Some s → blk_wf x →
  is_Some (dread d' b) → (dirty = false → dread d' b = Some x) →
  (∀ b', is_u32 b' → b' ≠ b → dread d' b' = dread d b') →
  cache_ok c' d' fl ∧
  ∀ b', is_u32 b' → view c' d' b' = if decide (b' = b) then Some x else view c d b'.
Proof.
  intros [(Hfr & Hfi & Hla) Hh [Hsz Hln] Hlk Hdi Hda] (Hl & Hc & Hne) Hb Hx Hin Hcl Hoth.
  assert (Hins : ∀ t, in_slots c' t ↔ in_slots c t) by (intros; unfold in_slots; by rewrite Hln).
  assert (Hinj : ∀ b' t, hashtable c !! b' = Some t → s = t → b' = b).
  { intros b' t Hb' <-. destruct (co_hash _ _ _ Hc _ _ Hb) as (?&_&_&Hi&_).
    destruct (co_hash _ _ _ Hc _ _ Hb') as (?&_&_&Hi'&_). apply i32_inj; congruence. }
  assert (Hsfl : s ∉ fl) by by destruct (co_hash _ _ _ Hc _ _ Hb) as (_&_&?&_).
  split; [split_and!|].
  - revert Hl. apply links_ext; try done; intros t; by destruct (Hlk t) as (?&?&?).
  - split.
    + rewrite Hln, Hsz. apply Hc.
    + intros b' t. rewrite Hh, Hins, Hdi, Hda. intros Hb'.
      destruct (Hlk t) as (_ & _ & ->). destruct (co_hash _ _ _ Hc _ _ Hb') as (?&?&?&?&?&?).
      case_decide as Hst.
      * pose proof (Hinj b' t Hb' Hst) as ->. by split_and!.
      * assert (b' ≠ b) by (intros ->; congruence). rewrite Hoth by done. by split_and!.
    + intros t. rewrite Hh, Hins, Hdi. destruct (Hlk t) as (_ & _ & ->). intros Ht Hfl.
      destruct (co_used _ _ _ Hc t Ht Hfl) as [|[? Hn]]; [by left|].
      case_decide as Hst.
      * subst t. left. destruct (co_hash _ _ _ Hc _ _ Hb) as (?&_&_&->&_).
        by rewrite u32_i32, u32_small.
      * destruct (decide (u32 (id (stat c t)) = b)) as [Heq|Hne'].
        -- destruct (co_hash _ _ _ Hc _ _ Hb) as (_&_&_&_&[? Hsome]&_). congruence.
        -- right. split; [done|]. rewrite Hoth; [done|apply u32_range|done].
    + intros t Ht. rewrite Hdi. case_decide; [by subst|by apply (co_free _ _ _ Hc)].
    + intros t. rewrite Hda. case_decide; [done|apply Hc].
  - by rewrite Hla.
  - intros b' Hb'. unfold view. rewrite Hh. destruct (hashtable c !! b') as [t|] eqn:E.
    + rewrite Hda. destruct (decide (s = t)) as [Hst|Hst].
      * pose proof (Hinj b' t E Hst) as ->. by rewrite decide_True.
      * rewrite decide_False; [done|]. intros ->. congruence.
    + rewrite decide_False by congruence. apply Hoth; congruence.
Qed.

Lemma is_dirty_set_true c s x :
  in_slots c s →
  slot_change s x true c
    (if is_dirty (stat (set_data s x c) s) then set_data s x c
     else upd_stat s rev_dirty (set_data s x c)).
Proof.
  intros Hs. set (c1 := set_data s x c).
  assert (Hst : ∀ t, stat c1 t = stat c t) by apply stat_set_data.
  assert (Hda : ∀ t, data (slot_at c1 t) = if decide (s = t) then x else data (slot_at c t)).
  { intros t. unfold c1. rewrite data_set_data. destruct (decide (s = t)) as [->|].
    - by rewrite decide_True.
    - by rewrite decide_False by tauto. }
  assert (Hrev : ∀ t, stat (upd_stat s rev_dirty c1) t =
                      if decide (s = t) then rev_dirty (stat c t) else stat c t).
  { intros t. rewrite stat_upd_stat, Hst. destruct (decide (s = t)) as [->|].
    - rewrite decide_True; [done|]. split; [done|]. by apply in_slots_upd.
    - by rewrite decide_False by tauto. }
  rewrite Hst. destruct (is_dirty (stat c s)) eqn:Hd; split; try done;
    try (simpl; by rewrite ?zlen_upd_at).
  - intros t. by rewrite Hst.
  - intros t. rewrite Hst. case_decide; by subst.
  - intros t. rewrite Hrev. by case_decide.
  - intros t. rewrite Hrev. case_decide; [|done]. subst. by rewrite dirty_rev, Hd.
  - intros t. by rewrite data_upd_stat.
Qed.

(** [upsert] stores the block under its id, if that id can be read. *)
Lemma LRU_upsert_spec c d fl b x :
  cache_ok c d fl → is_u32 b →
  ∃ c' d', (∃ fl', cache_ok c' d' fl') ∧
    match view c d b with
    | Some _ => LRU_upsert b x (c, d) = (Some tt, (c', d')) ∧
        ∀ b', is_u32 b' → view c' d' b' = if decide (b' = b) then Some (blk_copy x) else view c d b'
    | None => LRU_upsert b x (c, d) = (None, (c', d')) ∧
        ∀ b', is_u32 b' → view c' d' b' = view c d b'
    end.
Proof.
  intros Hok Hb. destruct (get_page_spec c d fl b Hok Hb) as (c1 & d1 & [(fl1 & Hok1) Hv1] & Hg).
  destruct (view c d b) as [y|] eqn:Hy.
  - destruct Hg as (s & Hg & Hh).
    destruct (co_hash _ _ _ (proj1 (proj2 Hok1)) _ _ Hh) as (_ & Hs & _ & _ & Hin & _).
    destruct (slot_change_ok s (blk_copy x) true c1 _ d1 d1 fl1 b
      (is_dirty_set_true c1 s (blk_copy x) Hs)) as [Hok' Hv']; [done|done|apply blk_copy_wf|done..|].
    eexists _, d1. split; [by exists fl1|]. split.
    + unfold LRU_upsert, bind at 1. rewrite Hg. unfold bind, upd_cache, modify, cache; simpl.
      by destruct (is_dirty _).
    + intros b' Hb'. rewrite Hv' by done. by rewrite Hv1.
  - exists c1, d1. split; [by exists fl1|]. split; [|done].
    unfold LRU_upsert, bind at 1. by rewrite Hg.
Qed.

Lemma rev_dirty_clean c s :
  in_slots c s → is_dirty (stat c s) = true →
  slot_change s (data (slot_at c s)) false c (upd_stat s rev_dirty c).
Proof.
  intros Hs Hd.
  assert (Hrev : ∀ t, stat (upd_stat s rev_dirty c) t =
                      if decide (s = t) then rev_dirty (stat c t) else stat c t).
  { intros t. rewrite stat_upd_stat. destruct (decide (s = t)) as [->|].
    - by rewrite decide_True.
    - by rewrite decide_False by tauto. }
  split; try done.
  - simpl. by rewrite zlen_upd_at.
  - intros t. rewrite Hrev. by case_decide.
  - intros t. rewrite Hrev. case_decide; [|done]. subst. by rewrite dirty_rev, Hd.
  - intros t. rewrite data_upd_stat. case_decide; by subst.
Qed.

(** [sync]: a cached block is on disk afterwards; an id that is not
    cached is reported as a failure. *)
Lemma LRU_sync_spec c d fl b :
  cache_ok c d fl → is_u32 b →
  match hashtable c !! b with
  | Some _ => ∃ c' d', LRU_sync b (c, d) = (Some tt, (c', d')) ∧ page_ok c d c' d' ∧
      dread d' b = view c d b
  | None => LRU_sync b (c, d) = (None, (c, d))
  end.
Proof.
  intros Hok Hb. unfold LRU_sync, bind, cache, upd_cache, modify; simpl.
  destruct (hashtable c !! b) as [s|] eqn:Hbs; [|done].
  destruct (get_page_hit c d fl b s Hok Hbs) as [_ [[fl1 Hok1] Hv]].
  pose proof (same_core_touch s c) as Hsc. set (c1 := LRU_touch s c) in *.
  assert (Hbs1 : hashtable c1 !! b = Some s) by by rewrite (sc_hash _ _ Hsc).
  pose proof Hok1 as (Hl1 & Hc1 & _).
  destruct (co_hash _ _ _ Hc1 _ _ Hbs1) as (_ & Hs & _ & _ & Hin & Hcl).
  assert (Hvb : view c d b = Some (data (slot_at c1 s))).
  { rewrite <- Hv by done. unfold view. by rewrite Hbs1. }
  rewrite Hvb. simpl. fold (LRU_touch s c). fold c1. destruct (is_dirty (stat c1 s)) eqn:Hd.
  - destruct (write_to_disk_ok (upd_stat s rev_dirty c1) d b b (data (slot_at c1 s)))
      as (d' & Hw & Hr & Hoth); [done|by apply u32_small|done|apply Hc1|].
    simpl. rewrite Hw. eexists _, d'. split; [done|]. split; [|done].
    destruct (slot_change_ok s (data (slot_at c1 s)) false c1 (upd_stat s rev_dirty c1) d d' fl1 b)
      as [Hok' Hv']; [by apply rev_dirty_clean|done|done|apply Hc1|by rewrite Hr|done|done|].
    split; [by exists fl1|]. intros b' Hb'. rewrite Hv' by done.
    case_decide; [by subst|]. by apply Hv.
  - exists c1, d. split; [done|]. split; [|by apply Hcl]. split; [by exists fl1|done].
Qed.

(** [sync_all], slot by slot: the dirty slots below [i] are on disk. *)
Definition synced_below c d0 (i : Z) d : Prop :=
  ∀ b, is_u32 b → dread d b =
    match hashtable c !! b with
    | Some s => if decide (s < i ∧ is_dirty (stat c s) = true)
                then Some (data (slot_at c s)) else dread d0 b
    | None => dread d0 b
    end.

Lemma synced_in c d0 fl i d b :
  cache_ok c d0 fl → synced_below c d0 i d → is_u32 b →
  is_Some (dread d b) ↔ is_Some (dread d0 b).
Proof.
  intros (_ & Hc & _) Hi Hb. rewrite Hi by done. destruct (hashtable c !! b) as [s|] eqn:E; [|done].
  case_decide; [|done]. destruct (co_hash _ _ _ Hc _ _ E) as (_&_&_&_&?&_). split; by eauto.
Qed.

Lemma sync_one_ok c d0 fl i d :
  cache_ok c d0 fl → in_slots c i → synced_below c d0 i d →
  ∃ d', (if is_dirty (stat c i) then write_to_disk (id (stat c i)) (data (slot_at c i))
         else ret tt) (c, d) = (Some tt, (c, d')) ∧ synced_below c d0 (i + 1) d'.
Proof.
  intros Hok Hi Hs. pose proof Hok as (_ & Hc & _).
  destruct (is_dirty (stat c i)) eqn:Hd.
  - assert (Hni : i ∉ fl) by (intros ?; rewrite (co_free _ _ _ Hc) in Hd; done).
    destruct (co_used _ _ _ Hc i Hi Hni) as [Hh|[? _]]; [|congruence].
    destruct (co_hash _ _ _ Hc _ _ Hh) as (Hu & _ & _ & Hid & Hin & _).
    destruct (write_to_disk_ok c d (u32 (id (stat c i))) (id (stat c i)) (data (slot_at c i)))
      as (d' & Hw & Hr & Hoth); [done|done| |apply Hc|].
    { by apply (synced_in c d0 fl i). }
    exists d'. split; [done|]. intros b Hb.
    destruct (decide (b = u32 (id (stat c i)))) as [->|Hne].
    + rewrite Hr, Hh, decide_True; [done|]. split; [lia|done].
    + rewrite Hoth, Hs by done. destruct (hashtable c !! b) as [s|] eqn:E; [|done].
      assert (s ≠ i) as Hsi.
      { intros ->. destruct (co_hash _ _ _ Hc _ _ E) as (?&_&_&Hid'&_).
        apply Hne. by rewrite Hid', u32_i32, u32_small. }
      destruct (is_dirty (stat c s)); repeat case_decide; (done || lia).
  - exists d. split; [done|]. intros b Hb. rewrite Hs by done.
    destruct (hashtable c !! b) as [s|] eqn:E; [|done].
    destruct (decide (s = i)) as [->|]; [rewrite Hd|destruct (is_dirty (stat c s))];
      repeat case_decide; (done || lia).
Qed.

Lemma sync_loop_ok c d0 fl n i d :
  cache_ok c d0 fl → 0 ≤ i → i + Z.of_nat n ≤ lru_size c → synced_below c d0 i d →
  ∃ d', for_range n i (λ i, c <- cache;;
      if is_dirty (stat c i) then write_to_disk (id (stat c i)) (data (slot_at c i))
      else ret tt) (c, d) = (Some tt, (c, d')) ∧ synced_below c d0 (i + Z.of_nat n) d'.
Proof.
  intros Hok. revert i d. induction n as [|n IH]; intros i d Hi Hn Hs.
  - exists d. split; [done|]. by rewrite Z.add_0_r.
  - destruct (sync_one_ok c d0 fl i d) as (d1 & Hw & Hs1); [done| |done|].
    { unfold in_slots. destruct (co_size _ _ _ (proj1 (proj2 Hok))). lia. }
    destruct (IH (i + 1) d1) as (d' & Hl & Hs'); [lia|lia|done|].
    exists d'. split; [|by replace (i + Z.of_nat (S n)) with (i + 1 + Z.of_nat n) by lia].
    simpl. unfold bind at 1, bind at 1, cache at 1. simpl. by rewrite Hw.
Qed.

Lemma LRU_sync_all_spec c d fl :
  cache_ok c d fl →
  ∃ d', LRU_sync_all (c, d) = (Some tt, (c, d')) ∧
    ∀ b, is_u32 b → dread d' b = view c d b.
Proof.
  intros Hok. pose proof Hok as (_ & Hc & _).
  destruct (co_size _ _ _ Hc) as [Hlen Hpos].
  destruct (sync_loop_ok c d fl (Z.to_nat (lru_size c)) 0 d) as (d' & Hl & Hs); [done|lia|lia| |].
  { intros b Hb. destruct (hashtable c !! b) as [s|] eqn:E; [|done].
    rewrite decide_False; [done|]. destruct (co_hash _ _ _ Hc _ _ E) as (_&Hs&_).
    unfold in_slots in Hs. lia. }
  exists d'. split.
  - unfold LRU_sync_all, bind at 1, cache at 1. simpl. exact Hl.
  - intros b Hb. rewrite Hs by done. unfold view.
    destruct (hashtable c !! b) as [s|] eqn:E; [|done].
    destruct (co_hash _ _ _ Hc _ _ E) as (_&Hin&_&_&_&Hcl). unfold in_slots in Hin.
    case_decide as Hd; [done|]. apply Hcl. destruct (is_dirty _); [|done].
    exfalso. apply Hd. split; [lia|done].
Qed.

(** Writing everything back keeps the invariant: the flags stay set. *)
Lemma sync_all_cache_ok c d d' fl :
  cache_ok c d fl → (∀ b, is_u32 b → dread d' b = view c d b) →
  cache_ok c d' fl ∧ ∀ b, is_u32 b → view c d' b = view c d b.
Proof.
  intros (Hl & Hc & Hne) Hd. split.
  - split_and!; [done| |done]. destruct Hc as [Hsz Hh Hu Hf Hda]. split; try done.
    + intros b s Hb. destruct (Hh b s Hb) as (?&?&?&?&?&?). rewrite Hd by done.
      unfold view. rewrite Hb. split_and!; eauto.
    + intros s Hs Hfl. destruct (Hu s Hs Hfl) as [|[? Hn]]; [by left|].
      destruct (hashtable c !! u32 (id (stat c s))) as [t|] eqn:E.
      * destruct (Hh _ _ E) as (_&_&_&_&[? ?]&_). congruence.
      * right. split; [done|]. rewrite Hd by apply u32_range. unfold view. by rewrite E.
  - intros b Hb. unfold view at 1. destruct (hashtable c !! b) eqn:E; [|by apply Hd].
    unfold view. by rewrite E.
Qed.
End specs.

(** ** The constructor *)

Lemma LRU_new_len cs : 0 ≤ cs / kBlockSize → zlen (buffer (LRU_new cs)) = cs / kBlockSize.
Proof. intros. unfold zlen. simpl. rewrite length_fmap, length_seqZ. lia. Qed.

Lemma LRU_new_slot_at cs s :
  0 ≤ s < cs / kBlockSize → slot_at (LRU_new cs) s = LRU_new_slot (cs / kBlockSize) s.
Proof.
  intros Hs. unfold slot_at, at_, LRU_new; simpl. destruct (Z.leb_spec 0 s); [|lia].
  rewrite list_lookup_fmap, lookup_seqZ_lt by lia. simpl. f_equal. lia.
Qed.

Lemma LRU_new_chain cs (n : nat) i :
  0 ≤ i → i + Z.of_nat n = cs / kBlockSize → (0 < n)%nat →
  free_chain (LRU_new cs) i (seqZ i (Z.of_nat n)).
Proof.
  revert i. induction n as [|n IH]; intros i Hi Hn Hpos; [lia|].
  rewrite seqZ_cons by lia. simpl. split; [done|]. split.
  { unfold in_slots. rewrite LRU_new_len; lia. }
  unfold stat. rewrite LRU_new_slot_at by lia. unfold LRU_new_slot; simpl.
  replace (Z.pred (Z.of_nat (S n))) with (Z.of_nat n) by lia.
  destruct n as [|n].
  - rewrite seqZ_nil by lia. simpl. destruct (Z.eqb_spec i (cs / kBlockSize - 1)); [done|lia].
  - destruct (Z.eqb_spec i (cs / kBlockSize - 1)); [lia|]. apply IH; lia.
Qed.

Section new.
Context {R : Type} `{RawDiskLaws R}.

Lemma LRU_new_ok cs (d : R) :
  0 < cs / kBlockSize → cache_ok (LRU_new cs) d (seqZ 0 (cs / kBlockSize)).
Proof.
  intros Hpos. set (n := cs / kBlockSize) in *.
  assert (Hlen : zlen (buffer (LRU_new cs)) = n) by (apply LRU_new_len; lia).
  assert (Hin : ∀ s, in_slots (LRU_new cs) s ↔ 0 ≤ s < n) by (intros; unfold in_slots; by rewrite Hlen).
  assert (Hfl : ∀ s, s ∈ seqZ 0 n ↔ 0 ≤ s < n) by (intros; rewrite elem_of_seqZ; lia).
  split_and!.
  - split.
    + replace n with (Z.of_nat (Z.to_nat n)) by lia. apply LRU_new_chain; lia.
    + apply NoDup_seqZ.
    + intros s Hs%Hin. unfold stat. rewrite LRU_new_slot_at by done. unfold ptr_ok. rewrite Hin.
      fold n. simpl. destruct (Z.eqb_spec s (n - 1)); [by left|lia].
    + intros s Hs%Hin Hni. by rewrite Hfl in Hni.
    + by left.
    + by left.
  - split.
    + by rewrite Hlen.
    + intros b s Hb. simpl in Hb. by rewrite lookup_empty in Hb.
    + intros s Hs%Hin Hni. by rewrite Hfl in Hni.
    + intros s Hs%Hfl. unfold stat. by rewrite LRU_new_slot_at.
    + intros s. destruct (decide (0 ≤ s < n)) as [Hs|Hs].
      * rewrite LRU_new_slot_at by done. apply zero_block_wf.
      * unfold slot_at. destruct (at_ _ s) eqn:E; [|apply zero_block_wf].
        apply at_Some_range in E. rewrite Hlen in E. contradiction.
  - intros _ Hnil. assert (0 ∈ seqZ 0 n) as Hz by (apply Hfl; lia).
    rewrite Hnil in Hz. by apply elem_of_nil in Hz.
Qed.

Lemma LRU_new_view cs (d : R) b : view (LRU_new cs) d b = dread d b.
Proof. unfold view. simpl. by rewrite lookup_empty. Qed.
End new.

(** ** Removal, and what an eviction leaves behind *)

Section policy.
Context {R : Type} `{RawDiskLaws R}.
Implicit Types (c : LRUCacheManager) (d : R).

(** [remove]: the block is on disk and no longer cached; the view of
    every block is kept. *)
Lemma LRU_remove_page_spec c d fl b s :
  cache_ok c d fl → hashtable c !! b = Some s →
  ∃ c' d', LRU_remove_page b (c, d) = (Some tt, (c', d')) ∧
    hashtable c' = delete b (hashtable c) ∧ dread d' b = view c d b ∧
    ∀ b', is_u32 b' → view c' d' b' = view c d b'.
Proof.
  intros (Hl & Hc & _) Hb. destruct (co_hash _ _ _ Hc _ _ Hb) as (Hu & Hs & _ & Hid & Hin & Hcl).
  assert (Hwb : ∃ d', (if is_dirty (stat c s) then write_to_disk b (data (slot_at c s)) else ret tt)
            (c, d) = (Some tt, (c, d')) ∧ dread d' b = Some (data (slot_at c s)) ∧
            ∀ b', is_u32 b' → b' ≠ b → dread d' b' = dread d b').
  { destruct (is_dirty (stat c s)) eqn:Hd.
    - apply write_to_disk_ok; [done|by apply u32_small|done|apply Hc].
    - exists d. split_and!; auto. }
  destruct Hwb as (d' & Hw & Hr & Hoth).
  set (c0 := set_hashtable (delete b (hashtable c)) c).
  exists (FREE_add s (LRU_remove s c0)), d'. split.
  { unfold LRU_remove_page, bind, cache; simpl. rewrite Hb.
    unfold bind, upd_cache, modify. simpl. by rewrite Hw. }
  pose proof (same_core_LRU_remove s c0) as Hsc.
  split; [exact (sc_hash _ _ Hsc)|]. split; [unfold view; by rewrite Hb|].
  intros b' Hb'. unfold view. simpl. rewrite (sc_hash _ _ Hsc). simpl.
  destruct (decide (b = b')) as [<-|Hne].
  - by rewrite lookup_delete_eq, Hb.
  - rewrite lookup_delete_ne by done.
    destruct (hashtable c !! b') as [t|]; [|by apply Hoth].
    unfold FREE_add. etrans; [exact (f_equal Some (data_upd_stat s _ (LRU_remove s c0) _))|].
    by rewrite (sc_data _ _ Hsc).
Qed.

#[local] Transparent LRU_add LRU_remove.

Lemma LRU_last_add s c :
  LRU_last (LRU_add s c) = if LRU_last c =? -1 then s else LRU_last c.
Proof.
  unfold LRU_add. cbn zeta. destruct (LRU_first _ =? -1); simpl;
    by destruct (LRU_last c =? -1).
Qed.

(** A dropped slot that was the tail of the LRU list is linked as its
    head and its tail at once. *)
Lemma LRU_last_touch_dropped s c :
  LRU_last c = s → s ≠ -1 → in_slots c s →
  next (stat c s) = -1 → prev (stat c s) = -1 → LRU_last (LRU_touch s c) = s.
Proof.
  intros Hla Hs1 Hs Hn Hp. unfold LRU_touch, LRU_remove.
  set (c1 := if s =? LRU_first c then _ else c).
  assert (H1 : LRU_last c1 = s ∧ stat c1 s = stat c s) by (unfold c1; by case_match).
  destruct H1 as [Hla1 Hst1]. clearbody c1.
  set (c2 := if s =? LRU_last c1 then _ else c1).
  assert (H2 : LRU_last c2 = -1 ∧ stat c2 s = stat c s).
  { unfold c2. rewrite Hla1, Z.eqb_refl. split; [|done]. simpl. by rewrite Hst1. }
  destruct H2 as [Hla2 Hst2]. clearbody c2.
  rewrite Hst2, Hn, Z.eqb_refl, Hst2, Hp, Z.eqb_refl.
  set (c3 := upd_stat s (set_prev (-1)) _).
  assert (Hla3 : LRU_last c3 = -1) by done. by rewrite LRU_last_add, Hla3.
Qed.

Lemma LRU_remove_FREE_first s c : FREE_first (LRU_remove s c) = FREE_first c.
Proof.
  unfold LRU_remove. cbn zeta.
  set (c1 := if s =? LRU_first c then _ else c).
  assert (FREE_first c1 = FREE_first c) as <- by (unfold c1; by case_match). clearbody c1.
  set (c2 := if s =? LRU_last c1 then _ else c1).
  assert (FREE_first c2 = FREE_first c1) as <- by (unfold c2; by case_match). clearbody c2.
  set (c3 := if next (stat c2 s) =? -1 then c2 else _).
  assert (FREE_first c3 = FREE_first c2) as <- by (unfold c3; by case_match). clearbody c3.
  by destruct (prev (stat c3 s) =? -1).
Qed.

Lemma FREE_first_touch s c : FREE_first (LRU_touch s c) = FREE_first c.
Proof.
  unfold LRU_touch. etrans.
  - unfold LRU_add. cbn zeta. destruct (LRU_first _ =? -1); simpl;
      destruct (LRU_last _ =? -1); reflexivity.
  - generalize (LRU_remove_FREE_first s c). done.
Qed.

#[local] Opaque LRU_add LRU_remove.

(** With no free slot, the victim is the slot at [LRU_last], and it is
    again at [LRU_last] once the new block is in it. *)
Lemma get_page_miss_full c d b x :
  cache_ok c d [] → FREE_first c = -1 → is_u32 b → hashtable c !! b = None →
  view c d b = Some x →
  ∃ c' d', LRU_get_page b (c, d) = (Some (LRU_last c), (c', d')) ∧ page_ok c d c' d' ∧
    cache_ok c' d' [] ∧ FREE_first c' = -1 ∧ LRU_last c' = LRU_last c ∧
    hashtable c' !! b = Some (LRU_last c) ∧
    (∀ b' t, hashtable c' !! b' = Some t → b' ≠ b → hashtable c !! b' = Some t).
Proof.
  intros Hok Hfr Hb Hbn Hx. pose proof Hok as (Hl & Hc & Hne).
  assert (Hla : LRU_last c ≠ -1) by (intros ?; by apply Hne).
  set (s := LRU_last c) in *.
  destruct (get_page_miss c d [] b Hok Hb Hbn) as (c' & d' & [[fl' Hok'] Hv] & Hg).
  unfold view in Hx. rewrite Hbn in Hx. rewrite Hx in Hg. destruct Hg as (t & Hg & Ht).
  destruct (alloc_evict_run c d Hl Hc Hfr Hla) as (d1 & Ha & Hs & He).
  pose proof (get_page_run _ _ _ _ _ _ _ Hbn Ha) as Hrun. clear Ha.
  assert (Hfl : LRU_last (LRU_touch s (drop_slot s c)) = s).
  { apply LRU_last_touch_dropped; [done|done|by apply drop_in_slots|..];
      unfold drop_slot; rewrite stat_upd_stat; by rewrite decide_True. }
  pose proof (FREE_first_touch s (drop_slot s c)) as Hfr'.
  pose proof (sc_hash _ _ (same_core_touch s (drop_slot s c))) as Hh.
  assert (Hdel : ∀ b' t, hashtable (drop_slot s c) !! b' = Some t → hashtable c !! b' = Some t)
    by (intros b' u; simpl; by intros [_ ?]%lookup_delete_Some).
  assert (Hfr0 : FREE_first (drop_slot s c) = -1) by done.
  revert Hrun Hfl Hfr' Hh Hdel Hfr0. fold s. generalize (LRU_touch s (drop_slot s c)).
  generalize (drop_slot s c). intros c0 c1 Hrun Hfl Hfr' Hh Hdel Hfr0.
  rewrite Hrun in Hg |- *. destruct (dread d1 b) as [y|]; [|done].
  injection Hg as <- <- <-. exists (fill_slot s b y c1), d1.
  assert (Hfr1 : FREE_first (fill_slot s b y c1) = -1) by (simpl; congruence).
  pose proof (free_none _ _ (proj1 Hok') Hfr1) as ->.
  split_and!; try done; [by split; [exists []|]|].
  intros b' u Hb' Hne'. simpl in Hb'. rewrite lookup_insert_ne, Hh in Hb' by done.
  by apply Hdel.
Qed.

(** Two misses in a row on a full cache use the same slot: the block
    just loaded is the one evicted. *)
Lemma two_misses_same_slot c d b1 b2 x1 x2 :
  cache_ok c d [] → FREE_first c = -1 → is_u32 b1 → is_u32 b2 → b1 ≠ b2 →
  hashtable c !! b1 = None → hashtable c !! b2 = None →
  view c d b1 = Some x1 → view c d b2 = Some x2 →
  ∃ s c1 d1 c2 d2,
    LRU_get_page b1 (c, d) = (Some s, (c1, d1)) ∧
    LRU_get_page b2 (c1, d1) = (Some s, (c2, d2)) ∧
    hashtable c1 !! b1 = Some s ∧ hashtable c2 !! b1 = None.
Proof.
  intros Hok Hfr Hb1 Hb2 Hne Hn1 Hn2 Hx1 Hx2.
  destruct (get_page_miss_full c d b1 x1) as (c1 & d1 & Hg1 & [_ Hv1] & Hok1 & Hfr1 & Hla1 & Hh1 & Hd1);
    [done..|].
  assert (Hn2' : hashtable c1 !! b2 = None).
  { destruct (hashtable c1 !! b2) eqn:E; [|done]. apply Hd1 in E; congruence. }
  destruct (get_page_miss_full c1 d1 b2 x2) as (c2 & d2 & Hg2 & _ & Hok2 & _ & _ & Hh2 & Hd2);
    [done..|by rewrite Hv1|].
  exists (LRU_last c), c1, d1, c2, d2. rewrite Hla1 in Hg2, Hh2. split_and!; try done.
  destruct (hashtable c2 !! b1) as [t|] eqn:E; [|done]. exfalso.
  pose proof (Hd2 b1 t E Hne) as E1. rewrite Hh1 in E1. injection E1 as <-.
  pose proof Hok2 as (_ & Hc2 & _).
  destruct (co_hash _ _ _ Hc2 _ _ E) as (_&_&_&Hi1&_).
  destruct (co_hash _ _ _ Hc2 _ _ Hh2) as (_&_&_&Hi2&_).
  apply Hne, i32_inj; congruence.
Qed.
End policy.
