(* ===== verification/BlkDevice.v ===== *)
(** * The block device ([src/blk_dev.cpp], [include/blk_dev.h])

    [BlockDevice] puts the block cache in front of the disk file.  With
    [BLOCK_CACHE] (the configuration that is built) the cache is
    [LRUCacheManager]; this file shows that the device then implements the
    block-device interface of [BlkIface.v], whatever was cached, evicted or
    written back before, and that a synced device can be reopened with
    nothing lost.  The pass-through [BlockCacheManager]
    ([src/blk_cache.cpp]) is modelled at the end. *)

From S2P Require Import Prelude Bytes Config BlkIface LruCache.

Record BlockDevice (R : Type) := mkDev {
  blk_cache_mgr_ : LRUCacheManager;
  fd_ : R;
  num_data_blocks_ : Z;
}.
Arguments mkDev {R}.
Arguments blk_cache_mgr_ {R}.
Arguments fd_ {R}.
Arguments num_data_blocks_ {R}.

Section device.
Context {R : Type} `{RawDisk R}.

(** The constructor, once [open] and [ftruncate] have given the file. *)
Definition BlockDevice_new (cache_size : Z) (fd : R) (size : Z) : BlockDevice R :=
  mkDev (LRU_new cache_size) fd (u32 (size / kBlockSize)).

Definition on_cache {A} (m : M (LRUCacheManager * R) A) : M (BlockDevice R) A := λ s,
  let '(r, (c, d)) := m (blk_cache_mgr_ s, fd_ s) in (r, mkDev c d (num_data_blocks_ s)).

Definition BlockDevice_read (block_id : Z) : M (BlockDevice R) block :=
  let block_id := u32 block_id in
  r <- attempt (on_cache (LRU_get block_id));;
  match r with
  | Some b => ret b
  | None =>
      b <- on_cache (read_from_disk block_id);;
      attempt (on_cache (LRU_upsert block_id b));;;
      ret b
  end.

Definition BlockDevice_write (block_id : Z) (buf : block) : M (BlockDevice R) unit :=
  on_cache (LRU_upsert (u32 block_id) buf).

Definition BlockDevice_write_tx (block_ids : list Z) (bufs : list block) : M (BlockDevice R) unit :=
  for_range (length block_ids) 0 (λ i,
    BlockDevice_write (default 0 (at_ block_ids i)) (default zero_block (at_ bufs i))).

Definition BlockDevice_sync (block_id : Z) : M (BlockDevice R) unit :=
  on_cache (LRU_sync (u32 block_id)).

Definition BlockDevice_sync_all : M (BlockDevice R) unit := on_cache LRU_sync_all.

#[export] Instance BlockDevice_BlkDev : BlkDev (BlockDevice R) := {
  dev_read := BlockDevice_read;
  dev_write := BlockDevice_write;
  dev_sync := BlockDevice_sync;
  dev_sync_all := BlockDevice_sync_all;
}.
End device.

(** ** The device implements the interface *)

Section refinement.
Context {R : Type} `{RawDiskLaws R}.
Implicit Types (dev : BlockDevice R) (m : store).

Definition cached_rel dev m : Prop :=
  (∃ fl, cache_ok (blk_cache_mgr_ dev) (fd_ dev) fl) ∧
  (∀ b, is_u32 b → m !! b = view (blk_cache_mgr_ dev) (fd_ dev) b) ∧
  store_wf m.

Lemma cached_rel_page c d c' d' n m :
  page_ok c d c' d' → cached_rel (mkDev c d n) m → cached_rel (mkDev c' d' n) m.
Proof.
  intros [Hok Hv] (_ & Hm & Hwf). split_and!; [done| |done].
  intros b Hb. simpl in *. rewrite Hm by done. symmetry. by apply Hv.
Qed.

Lemma view_hit c d fl b s :
  cache_ok c d fl → hashtable c !! b = Some s → view c d b = Some (data (slot_at c s)).
Proof. intros _ Hb. unfold view. by rewrite Hb. Qed.

Lemma read_refines b : msim cached_rel (BlockDevice_read b) (map_read b).
Proof.
  intros [c d n] m Hrel. pose proof Hrel as ([fl Hok] & Hm & Hwf). simpl in *.
  pose proof (u32_range b) as Hb. unfold map_read. rewrite Hm by done. simpl.
  unfold BlockDevice_read, bind, attempt, on_cache, read_from_disk; simpl.
  destruct (hashtable c !! u32 b) as [s|] eqn:Hs.
  - destruct (LRU_get_hit c d fl (u32 b) s) as (c' & -> & Hpg); [done..|].
    rewrite (view_hit c d fl _ s) by done. simpl. split; [done|].
    by eapply cached_rel_page.
  - rewrite LRU_get_miss by done. simpl. unfold view. rewrite Hs.
    fold (dread d (u32 b)). destruct (dread d (u32 b)) as [x|] eqn:Hx.
    + assert (Hvx : view c d (u32 b) = Some x) by (unfold view; by rewrite Hs).
      destruct (LRU_upsert_spec c d fl (u32 b) x Hok Hb) as (c' & d' & Hok' & Hup).
      rewrite Hvx in Hup. destruct Hup as [Hup Hv']. rewrite Hup. simpl. split; [done|].
      split_and!; [done| |done]. intros b' Hb'. simpl. rewrite Hm, Hv' by done.
      case_decide; [subst|done]. rewrite Hvx, blk_copy_id; [done|]. by eapply pread_wf.
    + done.
Qed.

Lemma write_refines b x : msim cached_rel (BlockDevice_write b x) (map_write b x).
Proof.
  intros [c d n] m Hrel. pose proof Hrel as ([fl Hok] & Hm & Hwf). simpl in *.
  pose proof (u32_range b) as Hb. unfold map_write. rewrite Hm by done. simpl.
  unfold BlockDevice_write, on_cache; simpl.
  destruct (LRU_upsert_spec c d fl (u32 b) x Hok Hb) as (c' & d' & Hok' & Hup).
  destruct (view c d (u32 b)); destruct Hup as [-> Hv]; simpl; split; try done.
  - split_and!; [done| |by apply store_wf_insert; [| |apply blk_copy_wf]].
    intros b' Hb'. simpl. rewrite Hv by done. destruct (decide (b' = u32 b)) as [->|].
    + by rewrite lookup_insert_eq.
    + rewrite lookup_insert_ne by done. by apply Hm.
  - eapply cached_rel_page; [|done]. by split.
Qed.

Lemma sync_refines b dev m : cached_rel dev m → cached_rel (BlockDevice_sync b dev).2 m.
Proof.
  destruct dev as [c d n]. intros Hrel. pose proof Hrel as ([fl Hok] & _). simpl in *.
  unfold BlockDevice_sync, on_cache; simpl.
  pose proof (LRU_sync_spec c d fl (u32 b) Hok (u32_range b)) as Hs.
  destruct (hashtable c !! u32 b).
  - destruct Hs as (c' & d' & -> & Hpg & _). simpl. by eapply cached_rel_page.
  - by rewrite Hs.
Qed.

Lemma sync_all_refines dev m : cached_rel dev m → cached_rel (BlockDevice_sync_all dev).2 m.
Proof.
  destruct dev as [c d n]. intros Hrel. pose proof Hrel as ([fl Hok] & _). simpl in *.
  unfold BlockDevice_sync_all, on_cache; simpl.
  destruct (LRU_sync_all_spec c d fl Hok) as (d' & -> & Hd). simpl.
  destruct (sync_all_cache_ok c d d' fl Hok Hd) as [Hok' Hv].
  eapply cached_rel_page; [|done]. split; [by exists fl|done].
Qed.

#[export] Program Instance BlockDevice_spec : BlkDevSpec (BlockDevice R) := {
  dev_rel := cached_rel;
}.
Next Obligation. by intros dev m (_ & _ & ?). Qed.
Next Obligation. apply read_refines. Qed.
Next Obligation. apply write_refines. Qed.
Next Obligation. intros. by apply sync_refines. Qed.
Next Obligation. intros. by apply sync_all_refines. Qed.
End refinement.

(** ** Durability *)

Section durability.
Context {R : Type} `{RawDiskLaws R}.
Implicit Types (dev : BlockDevice R) (m : store).

(** Blocks [m] are in the file itself, whatever the cache holds. *)
Definition on_disk (d : R) m : Prop := store_wf m ∧ ∀ b, is_u32 b → dread d b = m !! b.

Lemma sync_all_on_disk dev m :
  cached_rel dev m →
  ∃ dev', BlockDevice_sync_all dev = (Some tt, dev') ∧ on_disk (fd_ dev') m.
Proof.
  destruct dev as [c d n]. intros ([fl Hok] & Hm & Hwf). simpl in *.
  unfold BlockDevice_sync_all, on_cache; simpl.
  destruct (LRU_sync_all_spec c d fl Hok) as (d' & -> & Hd).
  eexists. split; [done|]. split; [done|]. intros b Hb. simpl. by rewrite Hd, Hm.
Qed.

(** A device opened on a file shows what is in the file. *)
Lemma new_device_rel cs d size m :
  0 < cs / kBlockSize → on_disk d m → cached_rel (BlockDevice_new cs d size) m.
Proof.
  intros Hcs [Hwf Hm]. split; [|split; [|done]].
  - eexists. by apply LRU_new_ok.
  - intros b Hb. simpl. by rewrite LRU_new_view, Hm.
Qed.

(** A single [sync] of a cached block puts that block on disk. *)
Lemma sync_on_disk dev m b dev' :
  cached_rel dev m → is_u32 b → BlockDevice_sync b dev = (Some tt, dev') →
  dread (fd_ dev') b = m !! b.
Proof.
  destruct dev as [c d n]. intros ([fl Hok] & Hm & Hwf) Hb. simpl in *.
  unfold BlockDevice_sync, on_cache; simpl. rewrite u32_small by done.
  pose proof (LRU_sync_spec c d fl b Hok Hb) as Hs.
  destruct (hashtable c !! b).
  - destruct Hs as (c' & d' & -> & _ & Hd). intros [= <-]. simpl. by rewrite Hd, Hm.
  - by rewrite Hs.
Qed.

(** [sync] of a block that is not cached is reported as a failure, even
    though the block is on disk. *)
Lemma sync_uncached dev m b :
  cached_rel dev m → is_u32 b → hashtable (blk_cache_mgr_ dev) !! b = None →
  BlockDevice_sync b dev = (None, dev) ∧ dread (fd_ dev) b = m !! b.
Proof.
  destruct dev as [c d n]. intros ([fl Hok] & Hm & Hwf) Hb Hn. simpl in *.
  unfold BlockDevice_sync, on_cache; simpl. rewrite u32_small by done.
  pose proof (LRU_sync_spec c d fl b Hok Hb) as Hs. rewrite Hn in Hs. rewrite Hs.
  split; [done|]. rewrite Hm by done. unfold view. by rewrite Hn.
Qed.
End durability.

(** ** The pass-through cache ([src/blk_cache.cpp])

    [BlockCacheManager] replaces the LRU cache when [BLOCK_CACHE] is not
    defined: [get] always misses, and [upsert] writes through, ignoring
    whether the write succeeded. *)

Section passthrough.
Context {R : Type} `{RawDisk R}.

Definition file_write (block_id : Z) (buf : block) : M R unit := λ d,
  match pwrite d (u64 (u32 block_id * kBlockSize)) buf with
  | Some d' => (Some tt, d')
  | None => (None, d)
  end.

Definition BCM_upsert (block_id : Z) (b : block) : M R unit :=
  attempt (file_write block_id b);;; ret tt.
Definition BCM_get (block_id : Z) : M R block := fail.
Definition BCM_remove (block_id : Z) : M R unit := ret tt.
Definition BCM_sync (block_id : Z) : M R unit := ret tt.
Definition BCM_sync_all : M R unit := ret tt.

Definition uncached_read (block_id : Z) : M R block :=
  let block_id := u32 block_id in
  r <- attempt (BCM_get block_id);;
  match r with
  | Some b => ret b
  | None => λ d,
      match pread d (u64 (block_id * kBlockSize)) with
      | Some b => (attempt (BCM_upsert block_id b);;; ret b) d
      | None => (None, d)
      end
  end.

Definition uncached_write (block_id : Z) (buf : block) : M R unit :=
  BCM_upsert (u32 block_id) buf.
End passthrough.

Section passthrough_spec.
Context {R : Type} `{RawDiskLaws R}.

Lemma BCM_upsert_in d b x m :
  on_disk d m → is_u32 b → is_Some (m !! b) → blk_wf x →
  ∃ d', BCM_upsert b x d = (Some tt, d') ∧ on_disk d' (<[b := x]> m).
Proof.
  intros [Hwf Hm] Hb Hin Hx.
  destruct (pwrite_in d (u64 (u32 b * kBlockSize)) x) as (d' & Hw & Hr & Hoth); [|done| |].
  { fold (dread d b). by rewrite Hm. }
  { rewrite file_off by done. by apply Z.mod_mul. }
  exists d'. split; [unfold BCM_upsert, bind, attempt, file_write; by rewrite Hw|].
  split; [by apply store_wf_insert|]. intros b' Hb'.
  destruct (decide (b = b')) as [<-|Hne].
  - by rewrite lookup_insert_eq.
  - rewrite lookup_insert_ne by done. unfold dread. rewrite Hoth; [by apply Hm| |].
    + rewrite file_off by done. by apply Z.mod_mul.
    + rewrite !file_off by done. unfold kBlockSize. lia.
Qed.

(** Without the LRU cache, in-range reads and writes are the abstract
    device's, and every write is on disk at once. *)
Lemma uncached_write_in d b x m :
  on_disk d m → is_Some (m !! u32 b) →
  ∃ d', uncached_write b (blk_copy x) d = ((map_write b x m).1, d') ∧
    on_disk d' (map_write b x m).2.
Proof.
  intros Hd [y Hy]. unfold uncached_write, map_write. rewrite Hy.
  apply BCM_upsert_in; [done|apply u32_range|by exists y|apply blk_copy_wf].
Qed.

Lemma uncached_read_in d b m :
  on_disk d m → ∃ d', uncached_read b d = (m !! u32 b, d') ∧ on_disk d' m.
Proof.
  intros Hd. pose proof Hd as [Hwf Hm]. pose proof (u32_range b) as Hb.
  unfold uncached_read, bind, attempt; simpl.
  pose proof (Hm (u32 b) Hb) as Hx. unfold dread in Hx. rewrite u32_idem in Hx. rewrite Hx.
  destruct (m !! u32 b) as [x|] eqn:Hy; [|by exists d].
  destruct (BCM_upsert_in d (u32 b) x m) as (d' & Hu & Hd');
    [done|done|by exists x|by destruct (Hwf _ _ Hy)|].
  exists d'. split; [by rewrite Hu|]. by rewrite insert_id in Hd'.
Qed.
End passthrough_spec.
