(* ===== verification/Bitmap.v ===== *)
(** * The allocation bitmaps ([src/bitmap.cpp], [Bitmap] of [include/fs_layout.h])

    A bitmap is [num_blocks] consecutive blocks from [start_block_id]; bit
    [i] of the bitmap is bit [i mod 64] of a little-endian 64-bit word.
    [alloc] takes the first clear bit, [free] clears one.  The ids they
    deal in are the bit number plus [data_segment_offset]. *)

From S2P Require Import Prelude Bytes Config BlkIface.

(** [__builtin_ctzll] on a nonzero 64-bit word: the trailing zero bits. *)
Fixpoint ctz (n : nat) (x : Z) : Z :=
  match n with
  | O => 0
  | S n' => if Z.odd x then 0 else 1 + ctz n' (x / 2)
  end.

Definition UINT64_MAX : Z := 2 ^ 64 - 1.

Definition leading_zero (x : Z) : Z :=
  if x =? UINT64_MAX then -1 else ctz 64 (u64 (Z.lnot x)).

Record Bitmap := mkBitmap {
  start_block_id : Z;
  num_blocks : Z;
  data_segment_offset : Z;
}.

Definition slot_per_block : Z := kBlockSize * 8.

(** The inner loop of [alloc]: the first word of the block with a clear
    bit, and that bit. *)
Fixpoint Bitmap_scan (n : nat) (j : Z) (buf : block) : option (Z * Z) :=
  match n with
  | O => None
  | S n' =>
      let k := leading_zero (get64 buf j) in
      if k =? -1 then Bitmap_scan n' (j + 1) buf else Some (j, k)
  end.

Section ops.
Context {D : Type} `{BlkDev D}.

(** The outer loop of [alloc], from bitmap block [i] on. *)
Fixpoint Bitmap_alloc_from (bm : Bitmap) (n : nat) (i : Z) : M D Z :=
  match n with
  | O => fail
  | S n' =>
      buf <- dev_read (u32 (start_block_id bm + i));;
      match Bitmap_scan (Z.to_nat (kBlockSize / 8)) 0 buf with
      | Some (j, k) =>
          let buf := set64 j (Z.lor (get64 buf j) (Z.shiftl 1 k)) buf in
          dev_write (u32 (start_block_id bm + i)) buf;;;
          ret (u32 (u64 (u32 (i * slot_per_block) + j * 8 * 8 + k + data_segment_offset bm)))
      | None => Bitmap_alloc_from bm n' (i + 1)
      end
  end.

(** [alloc] reports failure as the block id [kFail]. *)
Definition Bitmap_alloc (bm : Bitmap) : M D Z :=
  r <- attempt (Bitmap_alloc_from bm (Z.to_nat (num_blocks bm)) 0);;
  ret (default kFail_blk r).

Definition Bitmap_free (bm : Bitmap) (block_id : Z) : M D unit :=
  let block_id := u32 (block_id - data_segment_offset bm) in
  let block_id_in_bitmap := block_id / slot_per_block in
  let slot_id_in_bitmap := block_id mod slot_per_block in
  buf <- dev_read (u32 (start_block_id bm + block_id_in_bitmap));;
  let w := slot_id_in_bitmap / 64 in
  let mask := u64 (Z.lnot (Z.shiftl 1 (slot_id_in_bitmap mod 64))) in
  dev_write (u32 (start_block_id bm + block_id_in_bitmap))
    (set64 w (Z.land (get64 buf w) mask) buf).
End ops.

(** ** [leading_zero] *)

Lemma ctz_spec n x :
  0 < x < 2 ^ Z.of_nat n →
  0 ≤ ctz n x < Z.of_nat n ∧ Z.testbit x (ctz n x) = true ∧
  ∀ i, 0 ≤ i < ctz n x → Z.testbit x i = false.
Proof.
  revert x. induction n as [|n IH]; intros x Hx; [simpl in Hx; lia|].
  rewrite Nat2Z.inj_succ, Z.pow_succ_r in Hx by lia. simpl.
  destruct (Z.odd x) eqn:Ho.
  - split; [lia|]. rewrite Z.bit0_odd. split; [done|lia].
  - assert (He : x = 2 * (x / 2)).
    { pose proof (Zdiv2_odd_eqn x) as Hd. rewrite Ho, Z.div2_div in Hd. lia. }
    destruct (IH (x / 2)) as (Hr & Ht & Hlow); [lia|]. split; [lia|]. split.
    + pose proof (Z.testbit_even_succ (x / 2) (ctz n (x / 2))) as Hb.
      rewrite <- He in Hb. rewrite Z.add_1_l, Hb; [done|lia].
    + intros i Hi. rewrite He. destruct (decide (i = 0)) as [->|]; [apply Z.testbit_even_0|].
      replace i with (Z.succ (i - 1)) by lia. rewrite Z.testbit_even_succ by lia.
      apply Hlow. lia.
Qed.

Lemma u64_lnot x : 0 ≤ x < 2 ^ 64 → u64 (Z.lnot x) = UINT64_MAX - x.
Proof.
  intros. unfold u64, UINT64_MAX, Z.lnot.
  symmetry. apply (Z.mod_unique _ _ (-1)); lia.
Qed.

Lemma testbit_u64 x i : 0 ≤ i < 64 → Z.testbit (u64 x) i = Z.testbit x i.
Proof. intros. unfold u64. apply Z.mod_pow2_bits_low. lia. Qed.

Lemma testbit_u64_lnot x i : 0 ≤ i < 64 → Z.testbit (u64 (Z.lnot x)) i = negb (Z.testbit x i).
Proof. intros. rewrite testbit_u64 by done. apply Z.lnot_spec. lia. Qed.

Lemma testbit_UINT64_MAX i : 0 ≤ i < 64 → Z.testbit UINT64_MAX i = true.
Proof. intros. change UINT64_MAX with (Z.ones 64). apply Z.ones_spec_low. lia. Qed.

(** The position of the lowest clear bit, or -1 when there is none. *)
Lemma leading_zero_spec x :
  0 ≤ x < 2 ^ 64 →
  (leading_zero x = -1 ∧ ∀ i, 0 ≤ i < 64 → Z.testbit x i = true) ∨
  (0 ≤ leading_zero x < 64 ∧ Z.testbit x (leading_zero x) = false ∧
   ∀ i, 0 ≤ i < leading_zero x → Z.testbit x i = true).
Proof.
  intros Hx. unfold leading_zero. destruct (Z.eqb_spec x UINT64_MAX) as [->|Hne].
  - left. split; [done|]. apply testbit_UINT64_MAX.
  - right. pose proof (u64_lnot x Hx) as Hn.
    destruct (ctz_spec 64 (u64 (Z.lnot x))) as (Hr & Ht & Hlow).
    { rewrite Hn. unfold UINT64_MAX in *. change (2 ^ Z.of_nat 64) with (2 ^ 64). lia. }
    change (Z.of_nat 64) with 64 in Hr. split; [done|].
    rewrite testbit_u64_lnot in Ht by lia. apply negb_true_iff in Ht. split; [done|].
    intros i Hi. specialize (Hlow i Hi). rewrite testbit_u64_lnot in Hlow by lia.
    by apply negb_false_iff in Hlow.
Qed.

(** ** The bits of one bitmap block *)

Definition blk_bit (buf : block) (s : Z) : bool := Z.testbit (get64 buf (s / 64)) (s mod 64).

Lemma word_bit s : s = s / 64 * 64 + s mod 64 ∧ 0 ≤ s mod 64 < 64.
Proof. pose proof (Z.div_mod s 64). pose proof (Z.mod_pos_bound s 64). lia. Qed.

Lemma word_bit_eq j k : 0 ≤ k < 64 → (j * 64 + k) / 64 = j ∧ (j * 64 + k) mod 64 = k.
Proof.
  intros. split.
  - rewrite Z.div_add_l, Z.div_small by lia. lia.
  - rewrite Z.add_comm, Z.mod_add, Z.mod_small by lia. done.
Qed.

Lemma Bitmap_scan_spec n j buf :
  0 ≤ j →
  match Bitmap_scan n j buf with
  | Some (j', k) => j ≤ j' < j + Z.of_nat n ∧ 0 ≤ k < 64 ∧ blk_bit buf (j' * 64 + k) = false ∧
      ∀ s, j * 64 ≤ s < j' * 64 + k → blk_bit buf s = true
  | None => ∀ s, j * 64 ≤ s < (j + Z.of_nat n) * 64 → blk_bit buf s = true
  end.
Proof.
  revert j. induction n as [|n IH]; intros j Hj; simpl; [intros; lia|].
  destruct (leading_zero_spec (get64 buf j) (get64_range buf j)) as [[-> Hall]|(Hk & Hf & Hlow)].
  - assert (Hw : ∀ s, j * 64 ≤ s < (j + 1) * 64 → blk_bit buf s = true).
    { intros s Hs. destruct (word_bit s). unfold blk_bit.
      replace (s / 64) with j by lia. by apply Hall. }
    specialize (IH (j + 1)). simpl. destruct (Bitmap_scan n (j + 1) buf) as [[j' k]|].
    + destruct IH as (? & ? & ? & Ht); [lia|]. split_and!; try done; try lia.
      intros s Hs. destruct (decide (s < (j + 1) * 64)); [apply Hw|apply Ht]; lia.
    + intros s Hs. destruct (decide (s < (j + 1) * 64)); [apply Hw|apply IH]; lia.
  - destruct (Z.eqb_spec (leading_zero (get64 buf j)) (-1)); [lia|].
    destruct (word_bit_eq j _ Hk) as [Hd Hm]. split_and!; try lia.
    + unfold blk_bit. by rewrite Hd, Hm.
    + intros s Hs. destruct (word_bit s). unfold blk_bit.
      replace (s / 64) with j by lia. apply Hlow. lia.
Qed.

(** A word update changes exactly one bit of the block. *)
Lemma blk_bit_set64 buf j k w v s :
  blk_wf buf → 0 ≤ j < 512 → 0 ≤ k < 64 → 0 ≤ s →
  (∀ i, 0 ≤ i < 64 → Z.testbit w i = if decide (i = k) then v else Z.testbit (get64 buf j) i) →
  blk_bit (set64 j w buf) s = if decide (s = j * 64 + k) then v else blk_bit buf s.
Proof.
  intros Hwf Hj Hk Hs Hw. unfold blk_wf, kBlockSize in Hwf. unfold blk_bit.
  destruct (word_bit s) as [Hsd Hsm].
  rewrite get64_set64 by (try lia; apply Z.div_pos; lia).
  destruct (decide (j = s / 64)) as [->|Hne].
  - rewrite testbit_u64, Hw by lia. repeat case_decide; try done; lia.
  - rewrite decide_False; [done|]. intros ->. destruct (word_bit_eq j k); lia.
Qed.

Lemma testbit_shiftl_1 k i : 0 ≤ k → Z.testbit (Z.shiftl 1 k) i = bool_decide (i = k).
Proof.
  intros Hk. rewrite Z.shiftl_1_l. destruct (bool_decide_reflect (i = k)) as [->|Hne].
  - by apply Z.pow2_bits_true.
  - by apply Z.pow2_bits_false.
Qed.

Lemma or_bit w k i :
  0 ≤ k → Z.testbit (Z.lor w (Z.shiftl 1 k)) i = if decide (i = k) then true else Z.testbit w i.
Proof.
  intros. rewrite Z.lor_spec, testbit_shiftl_1 by done.
  case_decide; case_bool_decide; try done; [apply orb_true_r|apply orb_false_r].
Qed.

Lemma andnot_bit w k i :
  0 ≤ k → 0 ≤ i < 64 →
  Z.testbit (Z.land w (u64 (Z.lnot (Z.shiftl 1 k)))) i = if decide (i = k) then false else Z.testbit w i.
Proof.
  intros. rewrite Z.land_spec, testbit_u64_lnot, testbit_shiftl_1 by done.
  case_decide; case_bool_decide; try done; [apply andb_false_r|apply andb_true_r].
Qed.

(** ** A bitmap on the abstract device *)

Definition slots (bm : Bitmap) : Z := num_blocks bm * slot_per_block.

Definition in_bitmap (bm : Bitmap) (b : Z) : Prop :=
  start_block_id bm ≤ b < start_block_id bm + num_blocks bm.

#[export] Instance in_bitmap_dec bm b : Decision (in_bitmap bm b).
Proof. unfold in_bitmap. apply _. Defined.

(** The geometry of a bitmap: its blocks and the ids it hands out are
    [blk_id_t]s, none of them [kFail]. *)
Definition bitmap_geom (bm : Bitmap) : Prop :=
  0 ≤ start_block_id bm ∧ 0 ≤ num_blocks bm ∧ start_block_id bm + num_blocks bm ≤ 2 ^ 32 ∧
  0 ≤ data_segment_offset bm ∧ data_segment_offset bm + slots bm < 2 ^ 32.

Definition bitmap_ok (m : store) (bm : Bitmap) : Prop :=
  store_wf m ∧ bitmap_geom bm ∧ ∀ b, in_bitmap bm b → is_Some (m !! b).

(** Bit [s] of the bitmap. *)
Definition bm_bit (m : store) (bm : Bitmap) (s : Z) : bool :=
  match m !! (start_block_id bm + s / slot_per_block) with
  | Some buf => blk_bit buf (s mod slot_per_block)
  | None => false
  end.

(** [m'] is [m] with bit [s] set to [v] and nothing else changed. *)
Record bit_update (bm : Bitmap) (m m' : store) (s : Z) (v : bool) : Prop := {
  bu_ok : bitmap_ok m' bm;
  bu_bit t : 0 ≤ t < slots bm → bm_bit m' bm t = if decide (t = s) then v else bm_bit m bm t;
  bu_frame b : ¬ in_bitmap bm b → m' !! b = m !! b;
}.

Lemma slot_split s : s = s / slot_per_block * slot_per_block + s mod slot_per_block ∧
  0 ≤ s mod slot_per_block < slot_per_block.
Proof.
  pose proof (Z.div_mod s slot_per_block). pose proof (Z.mod_pos_bound s slot_per_block).
  unfold slot_per_block, kBlockSize in *. lia.
Qed.

Lemma slot_split_eq i s : 0 ≤ s < slot_per_block →
  (i * slot_per_block + s) / slot_per_block = i ∧ (i * slot_per_block + s) mod slot_per_block = s.
Proof.
  intros. split.
  - rewrite Z.div_add_l, Z.div_small by (unfold slot_per_block, kBlockSize in *; lia). lia.
  - rewrite Z.add_comm, Z.mod_add, Z.mod_small by (unfold slot_per_block, kBlockSize in *; lia).
    done.
Qed.

Lemma slot_split_in i t : i * slot_per_block ≤ t < (i + 1) * slot_per_block →
  t / slot_per_block = i ∧ t mod slot_per_block = t - i * slot_per_block.
Proof.
  intros Ht. destruct (slot_split_eq i (t - i * slot_per_block)) as [Hd Hm]; [lia|].
  by replace (i * slot_per_block + (t - i * slot_per_block)) with t in Hd, Hm by lia.
Qed.

Lemma slot_block_range bm s : 0 ≤ s < slots bm → 0 ≤ s / slot_per_block < num_blocks bm.
Proof.
  intros Hs. destruct (slot_split s). unfold slots, slot_per_block, kBlockSize in *. nia.
Qed.

Lemma bitmap_block m bm i :
  bitmap_ok m bm → 0 ≤ i < num_blocks bm →
  is_u32 (start_block_id bm + i) ∧
  ∃ buf, m !! (start_block_id bm + i) = Some buf ∧ blk_wf buf.
Proof.
  intros (Hwf & (? & ? & ? & ?) & Hin) Hi. split; [unfold is_u32; lia|].
  destruct (Hin (start_block_id bm + i)) as [buf Hb]; [unfold in_bitmap; lia|].
  exists buf. split; [done|]. by eapply Hwf.
Qed.

(** Rewriting block [i] of the bitmap with one bit changed. *)
Lemma bit_update_block m bm i j k w v buf :
  bitmap_ok m bm → 0 ≤ i < num_blocks bm → m !! (start_block_id bm + i) = Some buf →
  0 ≤ j < 512 → 0 ≤ k < 64 →
  (∀ t, 0 ≤ t < 64 → Z.testbit w t = if decide (t = k) then v else Z.testbit (get64 buf j) t) →
  bit_update bm m (<[start_block_id bm + i := set64 j w buf]> m)
    (i * slot_per_block + (j * 64 + k)) v.
Proof.
  intros Hok Hi Hb Hj Hk Hw. destruct (bitmap_block m bm i Hok Hi) as (Hu & buf' & Hb' & Hwf).
  rewrite Hb in Hb'. injection Hb' as <-.
  assert (Hwf' : blk_wf (set64 j w buf)).
  { unfold blk_wf, kBlockSize in *. rewrite zlen_set64; lia. }
  pose proof Hok as (Hm & Hg & Hin). split.
  - split; [by apply store_wf_insert|]. split; [done|]. intros b Hbm.
    destruct (decide (start_block_id bm + i = b)) as [<-|Hne].
    + rewrite lookup_insert_eq. by eexists.
    + rewrite lookup_insert_ne by done. by apply Hin.
  - intros t Ht. unfold bm_bit. destruct (slot_split t) as [Hd Hmod].
    set (s := j * 64 + k). assert (Hs : 0 ≤ s < slot_per_block) by (unfold s, slot_per_block, kBlockSize; lia).
    destruct (slot_split_eq i s Hs) as [Hi' Hs'].
    destruct (decide (start_block_id bm + i = start_block_id bm + t / slot_per_block)) as [Heq|Hne].
    + rewrite <- Heq, lookup_insert_eq, Hb. rewrite (blk_bit_set64 _ j k w v) by (done || lia).
      replace i with (t / slot_per_block) by lia. fold s.
      repeat case_decide; (done || lia).
    + rewrite lookup_insert_ne by done. rewrite decide_False; [done|]. intros ->. lia.
  - intros b Hbm. rewrite lookup_insert_ne; [done|]. unfold in_bitmap in Hbm. lia.
Qed.

(** ** [alloc] and [free] *)

(** [s] is the first clear bit of the bitmap. *)
Definition first_free (m : store) (bm : Bitmap) (s : Z) : Prop :=
  0 ≤ s < slots bm ∧ bm_bit m bm s = false ∧ ∀ t, 0 ≤ t < s → bm_bit m bm t = true.

Definition bitmap_full (m : store) (bm : Bitmap) : Prop :=
  ∀ t, 0 ≤ t < slots bm → bm_bit m bm t = true.

Lemma alloc_id_eq bm i j k :
  bitmap_geom bm → 0 ≤ i < num_blocks bm → 0 ≤ j < 512 → 0 ≤ k < 64 →
  u32 (u64 (u32 (i * slot_per_block) + j * 8 * 8 + k + data_segment_offset bm)) =
  i * slot_per_block + (j * 64 + k) + data_segment_offset bm.
Proof.
  intros (? & ? & ? & ? & Hs) Hi Hj Hk. unfold slots, slot_per_block, kBlockSize in *.
  rewrite (u32_small (i * _)) by (unfold is_u32; nia).
  rewrite u64_small by nia. rewrite u32_small by (unfold is_u32; nia). lia.
Qed.

Lemma Bitmap_alloc_from_spec m bm n i :
  bitmap_ok m bm → 0 ≤ i → i + Z.of_nat n = num_blocks bm →
  (∀ t, 0 ≤ t < i * slot_per_block → bm_bit m bm t = true) →
  (∃ s m', first_free m bm s ∧ bit_update bm m m' s true ∧
     Bitmap_alloc_from bm n i m = (Some (s + data_segment_offset bm), m')) ∨
  (bitmap_full m bm ∧ Bitmap_alloc_from bm n i m = (None, m)).
Proof.
  intros Hok. pose proof Hok as (Hm & Hg & _). revert i.
  induction n as [|n IH]; intros i Hi Hn Hlow.
  { right. split; [|done]. intros t Ht. apply Hlow. unfold slots in Ht.
    replace i with (num_blocks bm) by lia. done. }
  destruct (bitmap_block m bm i Hok) as (Hu & buf & Hb & Hwf); [lia|].
  cbn [Bitmap_alloc_from]. rewrite (u32_small _ Hu). cbn [dev_read MapDev].
  rewrite !(bind_Some _ _ _ _ _ (map_read_eq _ buf m Hu Hb)).
  pose proof (Bitmap_scan_spec (Z.to_nat (kBlockSize / 8)) 0 buf) as Hscan.
  change (Z.of_nat (Z.to_nat (kBlockSize / 8))) with 512 in Hscan.
  destruct (Bitmap_scan _ 0 buf) as [[j k]|].
  - destruct Hscan as (Hj & Hk & Hf & Ht); [lia|]. left.
    set (w := Z.lor (get64 buf j) (Z.shiftl 1 k)).
    assert (Hs : 0 ≤ j * 64 + k < slot_per_block) by (unfold slot_per_block, kBlockSize; lia).
    destruct (slot_split_eq i _ Hs) as [Hdi Hmo].
    exists (i * slot_per_block + (j * 64 + k)), (<[start_block_id bm + i := set64 j w buf]> m).
    split; [|split].
    + split; [unfold slots; nia|]. unfold bm_bit at 1. rewrite Hdi, Hmo, Hb. split; [done|].
      intros t Htr. destruct (decide (t < i * slot_per_block)); [apply Hlow; lia|].
      unfold bm_bit. destruct (slot_split_in i t) as [-> ->]; [lia|].
      rewrite Hb. apply Ht. lia.
    + apply bit_update_block; try done; [lia|]. intros t Htr. apply or_bit. lia.
    + cbn [dev_write MapDev]. unfold bind.
      rewrite map_write_eq; [|done|by exists buf|unfold blk_wf, kBlockSize in *; rewrite zlen_set64; lia].
      unfold ret. by rewrite alloc_id_eq by (done || lia).
  - apply IH; [lia|lia|]. intros t Htr.
    destruct (decide (t < i * slot_per_block)); [apply Hlow; lia|].
    unfold bm_bit. destruct (slot_split_in i t) as [-> ->]; [lia|].
    rewrite Hb. apply Hscan; unfold slot_per_block, kBlockSize in *; lia.
Qed.

(** [alloc] takes the first clear bit and sets it, or reports [kFail] and
    changes nothing when every bit is set. *)
Lemma Bitmap_alloc_spec m bm :
  bitmap_ok m bm →
  (∃ s m', first_free m bm s ∧ bit_update bm m m' s true ∧
     Bitmap_alloc bm m = (Some (s + data_segment_offset bm), m') ∧
     s + data_segment_offset bm ≠ kFail_blk) ∨
  (bitmap_full m bm ∧ Bitmap_alloc bm m = (Some kFail_blk, m)).
Proof.
  intros Hok. pose proof Hok as (_ & (?&?&?&?&?) & _). unfold Bitmap_alloc, bind, attempt.
  destruct (Bitmap_alloc_from_spec m bm (Z.to_nat (num_blocks bm)) 0)
    as [(s & m' & Hs & Hu & ->)|[Hf ->]]; [done|lia|lia|intros; lia| |by right].
  left. exists s, m'. split_and!; try done.
  destruct Hs as (Hs & _). change kFail_blk with (2 ^ 32 - 1). lia.
Qed.

Lemma Bitmap_free_spec m bm s :
  bitmap_ok m bm → 0 ≤ s < slots bm →
  ∃ m', Bitmap_free bm (s + data_segment_offset bm) m = (Some tt, m') ∧
    bit_update bm m m' s false.
Proof.
  intros Hok Hs. pose proof Hok as (Hm & (?&?&?&?&?) & _).
  pose proof (slot_block_range bm s Hs) as Hi. destruct (slot_split s) as [Hd Hmo].
  destruct (bitmap_block m bm (s / slot_per_block) Hok Hi) as (Hu & buf & Hb & Hwf).
  unfold Bitmap_free. rewrite Z.add_simpl_r, (u32_small s) by (unfold is_u32; lia).
  rewrite (u32_small _ Hu). unfold bind. cbn [dev_read dev_write MapDev].
  rewrite (map_read_eq _ buf) by done.
  set (t := s mod slot_per_block) in *. destruct (word_bit t) as [Ht Htm].
  assert (Hj : 0 ≤ t / 64 < 512) by (unfold slot_per_block, kBlockSize in *; lia).
  rewrite map_write_eq; [|done|by exists buf|unfold blk_wf, kBlockSize in *; rewrite zlen_set64; lia].
  eexists. split; [done|].
  assert (Heq : s / slot_per_block * slot_per_block + (t / 64 * 64 + t mod 64) = s)
    by (rewrite <- Ht; by symmetry).
  set (w := Z.land _ _).
  pose proof (bit_update_block m bm (s / slot_per_block) (t / 64) (t mod 64) w false buf) as Hbu.
  rewrite Heq in Hbu. apply Hbu; try done. intros i Hi'. apply andnot_bit; lia.
Qed.

(** The bitmap operations run alike on every device that implements the
    interface. *)
Section sim.
Context {D : Type} `{BlkDevSpec D}.

Lemma Bitmap_alloc_sim bm : msim dev_rel (Bitmap_alloc bm) (Bitmap_alloc (D := store) bm).
Proof.
  unfold Bitmap_alloc. apply msim_bind; [|auto with sim]. apply msim_attempt.
  generalize 0. induction (Z.to_nat (num_blocks bm)) as [|n IH]; intros i; [apply msim_fail|].
  cbn [Bitmap_alloc_from]. apply msim_bind; [apply dev_read_sim|]. intros buf.
  destruct (Bitmap_scan _ 0 buf) as [[j k]|]; [|apply IH].
  apply msim_bind; [apply dev_write_sim|auto with sim].
Qed.

Lemma Bitmap_free_sim bm b :
  msim dev_rel (Bitmap_free bm b) (Bitmap_free (D := store) bm b).
Proof.
  unfold Bitmap_free. apply msim_bind; [apply dev_read_sim|]. intros buf.
  apply dev_write_sim.
Qed.
End sim.

#[export] Hint Resolve Bitmap_alloc_sim Bitmap_free_sim : sim.
