(* ===== verification/DataArea.v ===== *)
(** * Allocating in an area of blocks

    What [Bitmap::alloc] and [Bitmap::free] mean for the area of blocks a
    bitmap describes ([data_segment_offset] up): the set of used blocks and
    the number of free ones. *)

From S2P Require Import Prelude Bytes Config BlkIface Bitmap.

(** The bitmap and the blocks it describes, which lie after it. *)
Record area_ok (m : store) (bm : Bitmap) : Prop := {
  a_bitmap : bitmap_ok m bm;
  a_above : start_block_id bm + num_blocks bm ≤ data_segment_offset bm ∧ 0 < data_segment_offset bm;
  a_blocks s : 0 ≤ s < slots bm → is_Some (m !! (data_segment_offset bm + s));
}.

Definition in_area (bm : Bitmap) (b : Z) : Prop :=
  data_segment_offset bm ≤ b < data_segment_offset bm + slots bm.

Definition used (m : store) (bm : Bitmap) (b : Z) : Prop :=
  in_area bm b ∧ bm_bit m bm (b - data_segment_offset bm) = true.

#[export] Instance used_dec m bm b : Decision (used m bm b).
Proof. unfold used, in_area. apply _. Defined.

Definition free_blocks (m : store) (bm : Bitmap) : Z :=
  zlen (filter (λ s, bm_bit m bm s = false) (seqZ 0 (slots bm))).

Lemma filter_false_ext (f g : Z → bool) (l : list Z) :
  (∀ t, t ∈ l → g t = f t) → filter (λ t, g t = false) l = filter (λ t, f t = false) l.
Proof.
  induction l as [|x l IH]; intros Heq; [done|].
  rewrite !filter_cons, (Heq x), IH by (left || (intros; apply Heq; by right)). done.
Qed.

(** Changing one bit changes the count of clear bits by one. *)
Lemma filter_flip (f g : Z → bool) (l : list Z) s :
  NoDup l → s ∈ l → f s = false → g s = true → (∀ t, t ∈ l → t ≠ s → g t = f t) →
  zlen (filter (λ t, g t = false) l) = zlen (filter (λ t, f t = false) l) - 1.
Proof.
  intros Hnd Hin Hf Hg Heq. induction Hnd as [|x l Hx Hnd IH]; [by apply elem_of_nil in Hin|].
  rewrite !filter_cons. destruct (decide (x = s)) as [->|Hxs].
  - rewrite Hf, Hg. rewrite decide_False by done. rewrite decide_True by done.
    assert (Hsame : filter (λ t, g t = false) l = filter (λ t, f t = false) l).
    { apply filter_false_ext. intros t Ht. apply Heq; [by right|]. by intros ->. }
    rewrite Hsame. unfold zlen. simpl length. lia.
  - apply elem_of_cons in Hin as [->|Hin]; [done|].
    rewrite (Heq x); [|by left|done]. specialize (IH Hin).
    assert (IH' : zlen (filter (λ t, g t = false) l) = zlen (filter (λ t, f t = false) l) - 1).
    { apply IH. intros t Ht. apply Heq. by right. }
    case_decide; [|done]. unfold zlen in *. simpl length. lia.
Qed.

Lemma free_blocks_flip m m' bm s :
  0 ≤ s < slots bm → bm_bit m bm s = false → bm_bit m' bm s = true →
  (∀ t, 0 ≤ t < slots bm → t ≠ s → bm_bit m' bm t = bm_bit m bm t) →
  free_blocks m' bm = free_blocks m bm - 1.
Proof.
  intros Hs Hf Ht Heq. apply (filter_flip _ _ _ s); [apply NoDup_seqZ|by apply elem_of_seqZ|done..|].
  intros t Hin%elem_of_seqZ Hne. by apply Heq.
Qed.

Lemma free_blocks_full m bm : bitmap_full m bm → free_blocks m bm = 0.
Proof.
  intros Hf. unfold free_blocks.
  assert (Hnil : filter (λ s, bm_bit m bm s = false) (seqZ 0 (slots bm)) = []).
  { apply elem_of_nil_inv. intros s [Hb Hs%elem_of_seqZ]%list_elem_of_filter.
    rewrite Hf in Hb by lia. done. }
  by rewrite Hnil.
Qed.

Lemma free_blocks_nonneg m bm : 0 ≤ free_blocks m bm.
Proof. apply zlen_nonneg. Qed.

Lemma in_area_not_bitmap m bm b : area_ok m bm → in_area bm b → ¬ in_bitmap bm b.
Proof. intros [_ [] _] [] []. lia. Qed.

Lemma in_area_block m bm b : area_ok m bm → in_area bm b → is_Some (m !! b).
Proof.
  intros [_ _ Hb] Hin. unfold in_area in Hin.
  replace b with (data_segment_offset bm + (b - data_segment_offset bm)) by lia. apply Hb. lia.
Qed.

Lemma in_area_u32 m bm b : area_ok m bm → in_area bm b → is_u32 b ∧ b ≠ 0 ∧ b ≠ kFail_blk.
Proof.
  intros [(_ & (?&?&?&?&?) & _) [] _] Hb. unfold in_area, is_u32 in *.
  change kFail_blk with (2 ^ 32 - 1). lia.
Qed.

(** [m'] is [m] with the free block [b] allocated. *)
Record allocd (bm : Bitmap) (m m' : store) (b : Z) : Prop := {
  al_area : area_ok m' bm;
  al_in : in_area bm b;
  al_free : ¬ used m bm b;
  al_used c : used m' bm c ↔ used m bm c ∨ c = b;
  al_frame c : ¬ in_bitmap bm c → m' !! c = m !! c;
  al_dom c : is_Some (m' !! c) ↔ is_Some (m !! c);
  al_count : free_blocks m' bm = free_blocks m bm - 1;
}.

(** [m'] is [m] with the used block [b] freed. *)
Record freed (bm : Bitmap) (m m' : store) (b : Z) : Prop := {
  fr_area : area_ok m' bm;
  fr_used c : used m' bm c ↔ used m bm c ∧ c ≠ b;
  fr_frame c : ¬ in_bitmap bm c → m' !! c = m !! c;
  fr_dom c : is_Some (m' !! c) ↔ is_Some (m !! c);
  fr_count : free_blocks m' bm = free_blocks m bm + 1;
}.

Lemma bit_update_dom bm m m' s v c :
  bitmap_ok m bm → bit_update bm m m' s v → is_Some (m' !! c) ↔ is_Some (m !! c).
Proof.
  intros (_ & _ & Hin) [(_ & _ & Hin') _ Hf]. destruct (decide (in_bitmap bm c)).
  - split; auto.
  - by rewrite Hf.
Qed.

Lemma bit_update_area bm m m' s v :
  area_ok m bm → bit_update bm m m' s v → area_ok m' bm.
Proof.
  intros [Hok Hab Hb] Hbu. split; [apply Hbu|done|].
  intros t Ht. rewrite bit_update_dom by done. by apply Hb.
Qed.

Lemma bit_update_used bm m m' s v c :
  bit_update bm m m' s v → 0 ≤ s < slots bm →
  used m' bm c ↔ if decide (c = s + data_segment_offset bm) then v = true else used m bm c.
Proof.
  intros [_ Hbit _] Hs. unfold used, in_area. case_decide as Hc.
  - subst c. rewrite Z.add_simpl_r, Hbit by done. rewrite decide_True by done.
    split; [tauto|]. intros; split; [lia|done].
  - split; intros [Hin Hb]; (split; [done|]).
    + rewrite Hbit in Hb by lia. by rewrite decide_False in Hb by lia.
    + rewrite Hbit by lia. by rewrite decide_False by lia.
Qed.

Lemma Bitmap_alloc_area m bm :
  area_ok m bm →
  (∃ b m', Bitmap_alloc bm m = (Some b, m') ∧ b ≠ kFail_blk ∧ allocd bm m m' b) ∨
  (Bitmap_alloc bm m = (Some kFail_blk, m) ∧ free_blocks m bm = 0).
Proof.
  intros Ha. destruct (Bitmap_alloc_spec m bm (a_bitmap _ _ Ha))
    as [(s & m' & (Hs & Hbit & _) & Hbu & Hrun & Hne)|[Hfull Hrun]].
  2:{ right. split; [done|]. by apply free_blocks_full. }
  left. exists (s + data_segment_offset bm), m'. split_and!; [done|done|].
  assert (Hu : ∀ c, used m' bm c ↔ if decide (c = s + data_segment_offset bm) then true = true else used m bm c)
    by (intros; by apply (bit_update_used _ _ _ s)).
  split.
  - by eapply bit_update_area.
  - unfold in_area. lia.
  - intros [_ Hb]. rewrite Z.add_simpl_r in Hb. congruence.
  - intros c. rewrite Hu. case_decide; tauto.
  - apply Hbu.
  - intros c. eapply bit_update_dom; [apply Ha|done].
  - apply (free_blocks_flip _ _ _ s); [done|done| |].
    + rewrite (bu_bit _ _ _ _ _ Hbu) by done. by rewrite decide_True.
    + intros t Ht Hne'. rewrite (bu_bit _ _ _ _ _ Hbu) by done. by rewrite decide_False.
Qed.

Lemma Bitmap_free_area m bm b :
  area_ok m bm → used m bm b →
  ∃ m', Bitmap_free bm b m = (Some tt, m') ∧ freed bm m m' b.
Proof.
  intros Ha [Hin Hb]. unfold in_area in Hin. set (s := b - data_segment_offset bm) in *.
  assert (Hs : 0 ≤ s < slots bm) by lia.
  destruct (Bitmap_free_spec m bm s (a_bitmap _ _ Ha) Hs) as (m' & Hrun & Hbu).
  replace (s + data_segment_offset bm) with b in Hrun by lia.
  exists m'. split; [done|]. split.
  - by eapply bit_update_area.
  - intros c. rewrite (bit_update_used _ _ _ s) by done. case_decide.
    + split; [done|]. intros [_ []]. lia.
    + split; [|tauto]. intros. split; [done|lia].
  - apply Hbu.
  - intros c. eapply bit_update_dom; [apply Ha|done].
  - assert (free_blocks m bm = free_blocks m' bm - 1); [|lia].
    apply (free_blocks_flip _ _ _ s); [done| |done|].
    + rewrite (bu_bit _ _ _ _ _ Hbu) by done. by rewrite decide_True.
    + intros t Ht Hne'. rewrite (bu_bit _ _ _ _ _ Hbu) by done. by rewrite decide_False.
Qed.

(** Blocks that are not in the bitmap do not matter to it. *)
Lemma bm_bit_frame m m' bm s :
  (∀ c, in_bitmap bm c → m' !! c = m !! c) → 0 ≤ s < slots bm → bm_bit m' bm s = bm_bit m bm s.
Proof.
  intros Hf Hs. unfold bm_bit. rewrite Hf; [done|].
  pose proof (slot_block_range bm s Hs). unfold in_bitmap. lia.
Qed.

Lemma insert_used m bm k v c :
  ¬ in_bitmap bm k → used (<[k := v]> m) bm c ↔ used m bm c.
Proof.
  intros Hk. unfold used, in_area. split; intros [Hin Hb]; (split; [done|]); rewrite <- Hb.
  - symmetry. apply bm_bit_frame; [|lia]. intros c' Hc'. apply lookup_insert_ne. by intros ->.
  - apply bm_bit_frame; [|lia]. intros c' Hc'. apply lookup_insert_ne. by intros ->.
Qed.

Lemma insert_free_blocks m bm k v :
  ¬ in_bitmap bm k → free_blocks (<[k := v]> m) bm = free_blocks m bm.
Proof.
  intros Hk. unfold free_blocks. f_equal. apply filter_false_ext.
  intros t Ht%elem_of_seqZ. apply bm_bit_frame; [|lia].
  intros c' Hc'. apply lookup_insert_ne. by intros ->.
Qed.

Lemma insert_dom (m : store) k v c :
  is_Some (m !! k) → is_Some (<[k := v]> m !! c) ↔ is_Some (m !! c).
Proof.
  intros Hk. rewrite lookup_insert_is_Some. split; [|destruct (decide (k = c)); tauto].
  by intros [<-|[]].
Qed.

Lemma insert_area m bm k v :
  area_ok m bm → ¬ in_bitmap bm k → is_Some (m !! k) → is_u32 k → blk_wf v →
  area_ok (<[k := v]> m) bm.
Proof.
  intros [(Hwf & Hg & Hin) Hab Hb] Hk Hm Hu Hv. split; [split_and!|done|].
  - by apply store_wf_insert.
  - done.
  - intros b Hb'. apply insert_dom; [done|]. by apply Hin.
  - intros s Hs. apply insert_dom; [done|]. by apply Hb.
Qed.

(** Allocation does not look at the blocks outside the bitmap. *)
Lemma allocd_insert bm m m' b k v :
  allocd bm m m' b → ¬ in_bitmap bm k → is_Some (m !! k) → is_u32 k → blk_wf v →
  allocd bm (<[k := v]> m) (<[k := v]> m') b.
Proof.
  intros [Ha Hin Hf Hu Hfr Hd Hc] Hk Hm Hku Hv. split.
  - apply insert_area; try done. by apply Hd.
  - done.
  - by rewrite insert_used.
  - intros c. rewrite !insert_used by done. apply Hu.
  - intros c Hc'. destruct (decide (k = c)) as [->|]; [by rewrite !lookup_insert_eq|].
    rewrite !lookup_insert_ne by done. by apply Hfr.
  - intros c. rewrite !insert_dom by (done || by apply Hd). apply Hd.
  - by rewrite !insert_free_blocks.
Qed.
