(* ===== verification/Layout.v ===== *)
(** * On-disk structures ([include/fs_layout.h])

    [SuperBlock], [DiskInode] and [DirEntry] with their in-memory byte
    layout: the program moves them to and from blocks with [memcpy], so
    [encode] and [decode] are the (x86-64, little-endian) object
    representation.  [Position] names a [DiskInode] by block and offset. *)

From S2P Require Import Prelude Bytes Config.

(** ** Records *)

Record Position := mkPosition { block_id : Z; block_offset : Z }.

Definition UINT32_MAX : Z := 2 ^ 32 - 1.
Definition Position_invalid : Position := mkPosition UINT32_MAX UINT32_MAX.
Definition Position_isValid (p : Position) : bool := negb (block_id p =? UINT32_MAX).

Record SuperBlock := mkSuperBlock {
  magic : Z;
  sb_total_blocks : Z;
  inode_bitmap_blocks : Z;
  inode_area_blocks : Z;
  data_bitmap_blocks : Z;
  data_area_blocks : Z;
  root_inode_pos : Position;
  padding : bytes;
}.

Definition SuperBlock_isValid (sb : SuperBlock) : bool := magic sb =? kFSMagic.

(** [enum DiskInodeType : uint32_t]; what is read back from disk may be
    any [uint32_t]. *)
Definition kFile : Z := 0.
Definition kDirectory : Z := 1.

Record DiskInode := mkDiskInode {
  size : Z;
  access_time : Z;
  change_time : Z;
  modify_time : Z;
  uid : Z;
  gid : Z;
  link_cnt : Z;
  mode : Z;
  direct : list Z;
  indirect1 : Z;
  indirect2 : Z;
  type_ : Z;
}.

Definition sizeof_DiskInode : Z := 128.
Definition sizeof_DirEntry : Z := 256.

Record DirEntry := mkDirEntry { name : bytes; inode : Z }.

(** What the C++ types guarantee of their values. *)
Definition is_u16 (z : Z) : Prop := 0 ≤ z < 2 ^ 16.

Record DiskInode_wf (di : DiskInode) : Prop := {
  wf_size : is_u32 (size di);
  wf_atime : is_u32 (access_time di);
  wf_ctime : is_u32 (change_time di);
  wf_mtime : is_u32 (modify_time di);
  wf_uid : is_u16 (uid di);
  wf_gid : is_u16 (gid di);
  wf_links : is_u16 (link_cnt di);
  wf_mode : is_u16 (mode di);
  wf_direct : zlen (direct di) = kInodeDirectCnt ∧ Forall is_u32 (direct di);
  wf_ind1 : is_u32 (indirect1 di);
  wf_ind2 : is_u32 (indirect2 di);
  wf_type : is_u32 (type_ di);
}.

Definition DirEntry_wf (e : DirEntry) : Prop :=
  zlen (name e) = kMaxDirNameLength + 1 ∧ is_u32 (inode e).

Definition SuperBlock_wf (sb : SuperBlock) : Prop :=
  is_u32 (magic sb) ∧ is_u32 (sb_total_blocks sb) ∧ is_u32 (inode_bitmap_blocks sb) ∧
  is_u32 (inode_area_blocks sb) ∧ is_u32 (data_bitmap_blocks sb) ∧
  is_u32 (data_area_blocks sb) ∧ is_u32 (block_id (root_inode_pos sb)) ∧
  is_u32 (block_offset (root_inode_pos sb)) ∧ zlen (padding sb) = kBlockSize - 32.

(** ** Object representations *)

Definition DiskInode_encode (di : DiskInode) : bytes :=
  le_split 4 (size di) ++ le_split 4 (access_time di) ++
  le_split 4 (change_time di) ++ le_split 4 (modify_time di) ++
  le_split 2 (uid di) ++ le_split 2 (gid di) ++
  le_split 2 (link_cnt di) ++ le_split 2 (mode di) ++
  (direct di ≫= le_split 4) ++
  le_split 4 (indirect1 di) ++ le_split 4 (indirect2 di) ++ le_split 4 (type_ di).

Definition DiskInode_decode (bs : bytes) : DiskInode :=
  mkDiskInode (load 4 0 bs) (load 4 4 bs) (load 4 8 bs) (load 4 12 bs)
    (load 2 16 bs) (load 2 18 bs) (load 2 20 bs) (load 2 22 bs)
    ((λ i, load 4 (24 + 4 * i) bs) <$> seqZ 0 kInodeDirectCnt)
    (load 4 116 bs) (load 4 120 bs) (load 4 124 bs).

Definition DirEntry_encode (e : DirEntry) : bytes := name e ++ le_split 4 (inode e).

Definition DirEntry_decode (bs : bytes) : DirEntry :=
  mkDirEntry (slice 0 (kMaxDirNameLength + 1) bs) (load 4 252 bs).

Definition SuperBlock_encode (sb : SuperBlock) : block :=
  le_split 4 (magic sb) ++ le_split 4 (sb_total_blocks sb) ++
  le_split 4 (inode_bitmap_blocks sb) ++ le_split 4 (inode_area_blocks sb) ++
  le_split 4 (data_bitmap_blocks sb) ++ le_split 4 (data_area_blocks sb) ++
  le_split 4 (block_id (root_inode_pos sb)) ++ le_split 4 (block_offset (root_inode_pos sb)) ++
  padding sb.

Definition SuperBlock_decode (bs : block) : SuperBlock :=
  mkSuperBlock (load 4 0 bs) (load 4 4 bs) (load 4 8 bs) (load 4 12 bs)
    (load 4 16 bs) (load 4 20 bs) (mkPosition (load 4 24 bs) (load 4 28 bs))
    (slice 32 (kBlockSize - 32) bs).

(** ** Constructors *)

(** What a call takes from its environment: [time(nullptr)], [getuid()],
    [getgid()]. *)
Record env := mkEnv { now : Z; cur_uid : Z; cur_gid : Z }.

Definition S_IFDIR : Z := 0x4000.
Definition S_IFREG : Z := 0x8000.

Definition DiskInode_new (e : env) (t : Z) : DiskInode :=
  mkDiskInode 0 (u32 (now e)) (u32 (now e)) (u32 (now e))
    (u16 (cur_uid e)) (u16 (cur_gid e)) 1 (if t =? kDirectory then S_IFDIR else S_IFREG)
    (replicate (Z.to_nat kInodeDirectCnt) 0) 0 0 t.

(** [strncpy(dst, src, n)] for a NUL-terminated [src]. *)
Definition strncpy (src : bytes) (n : Z) : bytes := slice 0 n (src ++ zeros n).

Definition DirEntry_new (nm : bytes) (i : Z) : DirEntry :=
  mkDirEntry (strncpy nm kMaxDirNameLength ++ zeros 1) (u32 i).

(** [DirEntry()]; the bytes of [name] after the first are not set by the
    constructor, and are taken to be zero here. *)
Definition DirEntry_default : DirEntry := mkDirEntry (zeros (kMaxDirNameLength + 1)) 0.

(** The C string in a [char] array, and [strcmp(a, b) == 0]. *)
Fixpoint cstr (bs : bytes) : bytes :=
  match bs with
  | [] => []
  | b :: bs' => if decide (b = Byte.x00) then [] else b :: cstr bs'
  end.

Definition strcmp_eq (a b : bytes) : bool := bool_decide (cstr a = cstr b).

Definition DirEntry_isValid (e : DirEntry) : bool := bool_decide (cstr (name e) ≠ []).

(** ** Sizes and round trips *)

Lemma zlen_DiskInode_encode di :
  zlen (direct di) = kInodeDirectCnt → zlen (DiskInode_encode di) = sizeof_DiskInode.
Proof.
  intros Hd. unfold DiskInode_encode. rewrite !zlen_app, !zlen_le_split, zlen_words, Hd. done.
Qed.

Lemma zlen_DirEntry_encode e : DirEntry_wf e → zlen (DirEntry_encode e) = sizeof_DirEntry.
Proof. intros [Hn _]. unfold DirEntry_encode. by rewrite zlen_app, zlen_le_split, Hn. Qed.

Lemma SuperBlock_encode_wf sb : SuperBlock_wf sb → blk_wf (SuperBlock_encode sb).
Proof.
  intros (_&_&_&_&_&_&_&_&Hp). unfold blk_wf, SuperBlock_encode.
  rewrite !zlen_app, !zlen_le_split, Hp. done.
Qed.

(** Reads a field of an encoded structure: skips the parts before it. *)
Ltac load_field :=
  repeat (rewrite load_app_r by (rewrite ?zlen_le_split, ?zlen_words; lia));
  rewrite ?zlen_le_split, ?zlen_words;
  try (rewrite load_app_l by (rewrite ?zlen_le_split; lia));
  match goal with |- load _ ?off (le_split _ _) = _ => replace off with 0 by lia end;
  rewrite load_le_split by lia; apply Z.mod_small; assumption.

Lemma DiskInode_decode_encode di :
  DiskInode_wf di → DiskInode_decode (DiskInode_encode di) = di.
Proof.
  intros [Hsz Hat Hct Hmt Hui Hgi Hlk Hmo [Hlen Hall] Hi1 Hi2 Hty].
  destruct di as [sz at_ ct mt ui gi lk mo di i1 i2 ty].
  cbn [size access_time change_time modify_time Layout.uid Layout.gid link_cnt mode direct
       indirect1 indirect2 type_] in *.
  unfold is_u32, is_u16, kInodeDirectCnt in *.
  unfold DiskInode_decode, DiskInode_encode.
  cbn [size access_time change_time modify_time Layout.uid Layout.gid link_cnt mode direct
       indirect1 indirect2 type_].
  f_equal; try load_field.
  rewrite !app_assoc, <- (app_assoc _ _ (le_split 4 ty)), <- (app_assoc _ _ (_ ++ le_split 4 ty)).
  rewrite <- (app_assoc _ (di ≫= le_split 4)).
  apply loads_of_words; [by rewrite !zlen_app, !zlen_le_split|done|done].
Qed.

Lemma DiskInode_encode_decode bs :
  zlen bs = sizeof_DiskInode → DiskInode_encode (DiskInode_decode bs) = bs.
Proof.
  unfold sizeof_DiskInode. intros Hlen. unfold DiskInode_encode, DiskInode_decode.
  cbn [size access_time change_time modify_time Layout.uid Layout.gid link_cnt mode direct
       indirect1 indirect2 type_].
  rewrite !le_split_load by lia.
  pose proof (words_of_loads bs 24 23 0) as Hw. change (Z.of_nat 23) with kInodeDirectCnt in Hw.
  rewrite Hw by (unfold kInodeDirectCnt; lia). unfold kInodeDirectCnt.
  repeat rewrite slice_cat by lia.
  replace (4 + _) with (zlen bs) by lia. apply slice_all.
Qed.

Lemma DirEntry_decode_encode e : DirEntry_wf e → DirEntry_decode (DirEntry_encode e) = e.
Proof.
  intros [Hn Hi]. destruct e as [nm i]. cbn [name inode] in *.
  unfold DirEntry_decode, DirEntry_encode, kMaxDirNameLength in *. cbn [name inode]. f_equal.
  - rewrite slice_app_l by lia. rewrite <- Hn. apply slice_all.
  - unfold is_u32 in Hi. load_field.
Qed.

Lemma DirEntry_encode_decode bs :
  zlen bs = sizeof_DirEntry → DirEntry_encode (DirEntry_decode bs) = bs.
Proof.
  unfold sizeof_DirEntry. intros Hlen. unfold DirEntry_encode, DirEntry_decode, kMaxDirNameLength.
  cbn [name inode]. rewrite le_split_load by lia. rewrite slice_cat by lia.
  replace (251 + 1 + 4) with (zlen bs) by lia. apply slice_all.
Qed.

Lemma SuperBlock_decode_encode sb :
  SuperBlock_wf sb → SuperBlock_decode (SuperBlock_encode sb) = sb.
Proof.
  destruct sb as [mg tb ib ia db da [rb ro] pad]. unfold SuperBlock_wf, is_u32.
  cbn [magic sb_total_blocks inode_bitmap_blocks inode_area_blocks data_bitmap_blocks
       data_area_blocks root_inode_pos padding block_id block_offset].
  intros (?&?&?&?&?&?&?&?&Hp). unfold SuperBlock_decode, SuperBlock_encode.
  cbn [magic sb_total_blocks inode_bitmap_blocks inode_area_blocks data_bitmap_blocks
       data_area_blocks root_inode_pos padding block_id block_offset].
  f_equal; [load_field..|f_equal; load_field|].
  repeat (rewrite slice_app_r by (rewrite ?zlen_le_split; lia)). rewrite !zlen_le_split.
  rewrite <- Hp. replace (32 - _ - _ - _ - _ - _ - _ - _ - _) with 0 by lia. apply slice_all.
Qed.

(** ** Decoded values are well-formed *)

Lemma load2_range off l : is_u16 (load 2 off l).
Proof. unfold is_u16. pose proof (load_range 2 off l). lia. Qed.

Lemma load4_range off l : is_u32 (load 4 off l).
Proof. unfold is_u32. pose proof (load_range 4 off l). lia. Qed.

Lemma DiskInode_decode_wf bs : DiskInode_wf (DiskInode_decode bs).
Proof.
  split; try apply load4_range; try apply load2_range.
  split; [done|]. apply Forall_fmap, Forall_true. intros i. apply load4_range.
Qed.

Lemma DiskInode_new_wf e t : is_u32 t → DiskInode_wf (DiskInode_new e t).
Proof.
  intros Ht. split; cbn -[Z.pow]; try apply u32_range; try done.
  - unfold is_u16, u16. apply Z.mod_pos_bound. done.
  - unfold is_u16, u16. apply Z.mod_pos_bound. done.
  - by destruct (t =? kDirectory).
  - split; [done|]. repeat constructor; done.
Qed.

(** ** Names *)

Definition no_nul (bs : bytes) : Prop := Forall (λ b, b ≠ Byte.x00) bs.

Lemma cstr_app_nul a b : no_nul a → cstr (a ++ Byte.x00 :: b) = a.
Proof.
  induction 1 as [|x a Hx _ IH]; simpl; [done|]. by rewrite decide_False, IH.
Qed.

Lemma cstr_zeros n : cstr (zeros n) = [].
Proof. unfold zeros. by destruct (Z.to_nat n). Qed.

Lemma cstr_app_zeros a n : no_nul a → cstr (a ++ zeros n) = a.
Proof.
  intros Ha. unfold zeros. destruct (Z.to_nat n); simpl.
  - rewrite app_nil_r. induction Ha as [|x a Hx _ IH]; simpl; [done|]. by rewrite decide_False, IH.
  - by apply cstr_app_nul.
Qed.

Lemma DirEntry_new_wf nm i : DirEntry_wf (DirEntry_new nm i).
Proof.
  split; [|apply u32_range]. unfold DirEntry_new, strncpy, kMaxDirNameLength. cbn [name].
  pose proof (zlen_nonneg nm). by rewrite zlen_app, zlen_slice, zlen_zeros
    by (rewrite ?zlen_app, ?zlen_zeros; lia).
Qed.

(** A new entry holds the first 251 characters of the name. *)
Lemma DirEntry_new_name nm i :
  no_nul nm → cstr (name (DirEntry_new nm i)) = slice 0 kMaxDirNameLength nm.
Proof.
  intros Hn. unfold DirEntry_new, strncpy, kMaxDirNameLength. cbn [name].
  destruct (decide (zlen nm ≤ 251)) as [Hs|Hs].
  - assert (Hz : slice 0 251 (nm ++ zeros 251) = nm ++ zeros (251 - zlen nm)).
    { unfold slice, zeros, zlen in *. rewrite drop_0, take_app_ge by lia.
      rewrite take_replicate. do 2 f_equal. lia. }
    rewrite Hz, <- app_assoc.
    replace (zeros (251 - zlen nm) ++ zeros 1) with (zeros (251 - zlen nm + 1)).
    + rewrite cstr_app_zeros by done. unfold slice. rewrite drop_0, take_ge; [done|].
      unfold zlen in Hs. lia.
    + unfold zeros. rewrite <- replicate_add. f_equal. lia.
  - rewrite slice_app_l by lia. apply cstr_app_zeros.
    unfold no_nul, slice in *. by apply Forall_take, Forall_drop.
Qed.
