(* ===== verification/InodeIO.v ===== *)
(** * Reading and writing a [DiskInode] in its block ([src/inode.cpp], lines 11-24)

    An [Inode] is the position of a [DiskInode] and a pointer to the file
    system; there is one file system, so the model keeps the position. *)

From S2P Require Import Prelude Bytes Config BlkIface Layout.

Section ops.
Context {D : Type} `{BlkDev D}.

Definition Inode_read_inode (pos : Position) : M D DiskInode :=
  blk <- dev_read (block_id pos);;
  ret (DiskInode_decode (slice (block_offset pos) sizeof_DiskInode blk)).

Definition Inode_write_inode (pos : Position) (buf : DiskInode) : M D unit :=
  blk <- dev_read (block_id pos);;
  dev_write (block_id pos) (splice (block_offset pos) (DiskInode_encode buf) blk).
End ops.

Section sim.
Context {D : Type} `{BlkDevSpec D}.

Lemma Inode_read_inode_sim pos :
  msim dev_rel (Inode_read_inode pos) (Inode_read_inode (D := store) pos).
Proof. unfold Inode_read_inode. apply msim_bind; [apply dev_read_sim|auto with sim]. Qed.

Lemma Inode_write_inode_sim pos di :
  msim dev_rel (Inode_write_inode pos di) (Inode_write_inode (D := store) pos di).
Proof.
  unfold Inode_write_inode. apply msim_bind; [apply dev_read_sim|]. intros blk.
  apply dev_write_sim.
Qed.
End sim.

#[export] Hint Resolve Inode_read_inode_sim Inode_write_inode_sim : sim.

(** The [DiskInode] stored at a position of the abstract device. *)
Definition inode_at (m : store) (pos : Position) : option DiskInode :=
  blk ← m !! block_id pos;
  Some (DiskInode_decode (slice (block_offset pos) sizeof_DiskInode blk)).

(** A position inside a block that exists. *)
Definition pos_ok (m : store) (pos : Position) : Prop :=
  is_u32 (block_id pos) ∧ is_Some (m !! block_id pos) ∧
  0 ≤ block_offset pos ∧ block_offset pos + sizeof_DiskInode ≤ kBlockSize.

Lemma Inode_read_inode_spec m pos :
  pos_ok m pos → ∃ di, inode_at m pos = Some di ∧ DiskInode_wf di ∧
    Inode_read_inode pos m = (Some di, m).
Proof.
  intros (Hu & [blk Hb] & Ho). unfold inode_at, Inode_read_inode. rewrite Hb.
  eexists. split; [done|]. split; [apply DiskInode_decode_wf|].
  cbn [dev_read MapDev]. by rewrite (bind_Some _ _ _ _ _ (map_read_eq _ blk m Hu Hb)).
Qed.

(** Writing an inode changes that inode and no byte outside it. *)
Lemma Inode_write_inode_spec m pos di :
  store_wf m → pos_ok m pos → DiskInode_wf di →
  ∃ blk, m !! block_id pos = Some blk ∧
    Inode_write_inode pos di m =
      (Some tt, <[block_id pos := splice (block_offset pos) (DiskInode_encode di) blk]> m) ∧
    inode_at (Inode_write_inode pos di m).2 pos = Some di ∧
    store_wf (Inode_write_inode pos di m).2.
Proof.
  intros Hm (Hu & [blk Hb] & Ho) Hdi. exists blk. split; [done|].
  pose proof (zlen_DiskInode_encode di (proj1 (wf_direct _ Hdi))) as Hlen.
  destruct (Hm _ _ Hb) as [_ Hwf]. unfold blk_wf in Hwf.
  assert (Hwf' : blk_wf (splice (block_offset pos) (DiskInode_encode di) blk)).
  { unfold blk_wf. rewrite zlen_splice; lia. }
  assert (Hrun : Inode_write_inode pos di m =
    (Some tt, <[block_id pos := splice (block_offset pos) (DiskInode_encode di) blk]> m)).
  { unfold Inode_write_inode. cbn [dev_read dev_write MapDev].
    rewrite (bind_Some _ _ _ _ _ (map_read_eq _ blk m Hu Hb)). by rewrite map_write_eq. }
  rewrite Hrun. split; [done|]. simpl. split; [|by apply store_wf_insert].
  unfold inode_at. rewrite lookup_insert_eq. simpl. f_equal.
  rewrite <- Hlen, slice_splice_eq by lia. by apply DiskInode_decode_encode.
Qed.

(** Two inodes at different offsets of a block, or in different blocks. *)
Definition pos_disjoint (p q : Position) : Prop :=
  block_id p ≠ block_id q ∨
  block_offset p + sizeof_DiskInode ≤ block_offset q ∨
  block_offset q + sizeof_DiskInode ≤ block_offset p.

Lemma Inode_write_inode_other m pos di q :
  store_wf m → pos_ok m pos → DiskInode_wf di → pos_disjoint pos q → 0 ≤ block_offset q →
  inode_at (Inode_write_inode pos di m).2 q = inode_at m q.
Proof.
  intros Hm Hp Hdi Hd Hq. pose proof Hp as (Hu & _ & Ho).
  destruct (Inode_write_inode_spec m pos di) as (blk & Hb & -> & _); [done..|].
  pose proof (zlen_DiskInode_encode di (proj1 (wf_direct _ Hdi))) as Hlen.
  destruct (Hm _ _ Hb) as [_ Hwf]. unfold blk_wf in Hwf. simpl. unfold inode_at.
  destruct (decide (block_id pos = block_id q)) as [He|Hne].
  - rewrite <- He, lookup_insert_eq, Hb. simpl. do 2 f_equal.
    apply slice_splice_ne; destruct Hd as [?|[?|?]]; try lia; done.
  - by rewrite lookup_insert_ne.
Qed.
