(* ===== verification/DiskInode.v ===== *)
(** * Files as blocks: the operations of [DiskInode] ([src/disk_inode.cpp])

    The data blocks of a file are named by 23 direct ids, then by the
    block [indirect1] of 1024 ids, then by the block [indirect2] of up to
    1024 blocks of ids.  This file models every operation: the index [block_id],
    the block counts, growing ([increase]) and shrinking ([decrease])
    behind [resize], [clear], which nothing calls any more, and reading,
    writing and syncing file data.

    The methods mutate the [DiskInode] they are called on, also on paths
    that fail: their state is the pair of it and the device. *)

From S2P Require Import Prelude Bytes Config BlkIface Bitmap Layout InodeIO.

Definition INODE_DIRECT_COUNT : Z := kInodeDirectCnt.
Definition INODE_INDIRECT_COUNT : Z := kBlockSize / 4.
Definition MAX_BLOCK_SIZE : Z :=
  INODE_DIRECT_COUNT + INODE_INDIRECT_COUNT + INODE_INDIRECT_COUNT * INODE_INDIRECT_COUNT.
Definition MAX_FILE_SIZE : Z := Z.min UINT32_MAX (MAX_BLOCK_SIZE * kBlockSize).

(** ** Field updates *)

Definition set_size (v : Z) (di : DiskInode) : DiskInode :=
  mkDiskInode v (access_time di) (change_time di) (modify_time di) (uid di) (gid di)
    (link_cnt di) (mode di) (direct di) (indirect1 di) (indirect2 di) (type_ di).
Definition set_times (a c m : Z) (di : DiskInode) : DiskInode :=
  mkDiskInode (size di) a c m (uid di) (gid di)
    (link_cnt di) (mode di) (direct di) (indirect1 di) (indirect2 di) (type_ di).
Definition set_direct (i v : Z) (di : DiskInode) : DiskInode :=
  mkDiskInode (size di) (access_time di) (change_time di) (modify_time di) (uid di) (gid di)
    (link_cnt di) (mode di) (upd_at (direct di) i (λ _, v)) (indirect1 di) (indirect2 di) (type_ di).
Definition set_indirect1 (v : Z) (di : DiskInode) : DiskInode :=
  mkDiskInode (size di) (access_time di) (change_time di) (modify_time di) (uid di) (gid di)
    (link_cnt di) (mode di) (direct di) v (indirect2 di) (type_ di).
Definition set_indirect2 (v : Z) (di : DiskInode) : DiskInode :=
  mkDiskInode (size di) (access_time di) (change_time di) (modify_time di) (uid di) (gid di)
    (link_cnt di) (mode di) (direct di) (indirect1 di) v (type_ di).
Definition set_link_cnt (v : Z) (di : DiskInode) : DiskInode :=
  mkDiskInode (size di) (access_time di) (change_time di) (modify_time di) (uid di) (gid di)
    v (mode di) (direct di) (indirect1 di) (indirect2 di) (type_ di).
Definition set_mode (v : Z) (di : DiskInode) : DiskInode :=
  mkDiskInode (size di) (access_time di) (change_time di) (modify_time di) (uid di) (gid di)
    (link_cnt di) v (direct di) (indirect1 di) (indirect2 di) (type_ di).
Definition set_owner (u g : Z) (di : DiskInode) : DiskInode :=
  mkDiskInode (size di) (access_time di) (change_time di) (modify_time di) u g
    (link_cnt di) (mode di) (direct di) (indirect1 di) (indirect2 di) (type_ di).

(** [direct[i]], for [0 <= i < 23]. *)
Definition direct_at (di : DiskInode) (i : Z) : Z := default 0 (at_ (direct di) i).

(** [update_meta(flag)]: 1 (access), 2 (modify), 4 (change). *)
Definition update_meta (e : env) (flag : Z) (di : DiskInode) : DiskInode :=
  set_times
    (if Z.testbit flag 0 then u32 (now e) else access_time di)
    (if Z.testbit flag 2 then u32 (now e) else change_time di)
    (if Z.testbit flag 1 then u32 (now e) else modify_time di) di.

(** ** Block counts *)

Definition data_blocks (sz : Z) : Z := u32 (u64 (sz + kBlockSize - 1) / kBlockSize).

Definition total_blocks (sz : Z) : Z :=
  let data := data_blocks sz in
  if data <? INODE_DIRECT_COUNT then data
  else if u32 (data - INODE_DIRECT_COUNT) <? INODE_INDIRECT_COUNT then u32 (data + 1)
  else
    let rest := u32 (data - INODE_DIRECT_COUNT - INODE_INDIRECT_COUNT) in
    u32 (data + 2 + u32 (rest + INODE_INDIRECT_COUNT - 1) / INODE_INDIRECT_COUNT).

Section ops.
Context {D : Type} `{BlkDev D}.

(** [block_id(inner_id)]; a failure is the id [kFail]. *)
Definition DiskInode_block_id (di : DiskInode) (inner_id : Z) : M D Z :=
  if MAX_BLOCK_SIZE <=? inner_id then ret kFail_blk
  else if inner_id <? INODE_DIRECT_COUNT then ret (direct_at di inner_id)
  else if inner_id <? INODE_DIRECT_COUNT + INODE_INDIRECT_COUNT then
    let idx := inner_id - INODE_DIRECT_COUNT in
    r <- attempt (dev_read (indirect1 di));;
    match r with
    | None => ret kFail_blk
    | Some buf => ret (get32 buf idx)
    end
  else
    let idx := inner_id - INODE_DIRECT_COUNT - INODE_INDIRECT_COUNT in
    r <- attempt (dev_read (indirect2 di));;
    match r with
    | None => ret kFail_blk
    | Some buf =>
        r2 <- attempt (dev_read (get32 buf (idx / INODE_INDIRECT_COUNT)));;
        match r2 with
        | None => ret kFail_blk
        | Some buf2 => ret (get32 buf2 (idx mod INODE_INDIRECT_COUNT))
        end
    end.

(** ** Growing *)

Abbreviation dm := (M (DiskInode * D)).

Definition this : dm DiskInode := λ s, (Some s.1, s).
Definition upd_this (f : DiskInode → DiskInode) : dm unit := modify (λ s, (f s.1, s.2)).

(** [blk = data_bitmap->alloc(dev); if (blk == kFail) return kFail;] *)
Definition alloc_blk (bm : Bitmap) : dm Z :=
  nb <- on_snd (Bitmap_alloc bm);;
  if nb =? kFail_blk then fail else ret nb.

(** Step one: direct blocks. *)
Definition increase_direct (bm : Bitmap) (old_data new_data : Z) : dm unit :=
  for_range (Z.to_nat (Z.min new_data INODE_DIRECT_COUNT - old_data)) old_data (λ i,
    nb <- alloc_blk bm;;
    upd_this (set_direct i nb)).

(** Step two: the blocks under [indirect1]. *)
Definition increase_ind1 (bm : Bitmap) (old_data new_data : Z) : dm unit :=
  if new_data <=? INODE_DIRECT_COUNT then ret tt
  else
    di <- this;;
    (if indirect1 di =? 0 then
       nb <- on_snd (Bitmap_alloc bm);;
       upd_this (set_indirect1 nb);;;
       (if nb =? kFail_blk then fail else ret tt)
     else ret tt);;;
    di <- this;;
    ind1 <- on_snd (dev_read (indirect1 di));;
    let a := Z.max old_data INODE_DIRECT_COUNT in
    let b := Z.min new_data (INODE_DIRECT_COUNT + INODE_INDIRECT_COUNT) in
    ind1 <- for_acc (Z.to_nat (b - a)) a ind1 (λ i ind1,
      nb <- alloc_blk bm;;
      ret (set32 (i - INODE_DIRECT_COUNT) nb ind1));;
    on_snd (dev_write (indirect1 di) ind1).

(** One iteration of the loop of step three, for data block [i]; [p] is
    the block [indirect2] and [lim] the variable [blk_limit]. *)
Definition increase_ind2_body (bm : Bitmap) (ind2_id : Z) (i : Z) (acc : block * Z) :
    dm (block * Z) :=
  let '(p, lim) := acc in
  let j := i - INODE_DIRECT_COUNT - INODE_INDIRECT_COUNT in
  let blk := j / INODE_INDIRECT_COUNT in
  acc <- (if lim <? blk then
            new_ind1 <- alloc_blk bm;;
            let p := set32 blk new_ind1 p in
            on_snd (dev_write ind2_id p);;;
            ret (p, lim + 1)
          else ret (p, lim));;
  let '(p, lim) := acc in
  ind21 <- on_snd (dev_read (get32 p blk));;
  nb <- alloc_blk bm;;
  on_snd (dev_write (get32 p blk) (set32 (j mod INODE_INDIRECT_COUNT) nb ind21));;;
  ret (p, lim).

(** Step three: the blocks under [indirect2]. *)
Definition increase_ind2 (bm : Bitmap) (old_data new_data : Z) : dm unit :=
  if new_data <=? INODE_DIRECT_COUNT + INODE_INDIRECT_COUNT then ret tt
  else
    di <- this;;
    (if indirect2 di =? 0 then
       nb <- on_snd (Bitmap_alloc bm);;
       upd_this (set_indirect2 nb);;;
       (if nb =? kFail_blk then fail else ret tt)
     else ret tt);;;
    di <- this;;
    p <- on_snd (dev_read (indirect2 di));;
    let old_idx_limit := old_data - INODE_DIRECT_COUNT - INODE_INDIRECT_COUNT - 1 in
    let lim := if old_idx_limit <? 0 then -1 else old_idx_limit / INODE_INDIRECT_COUNT in
    let a := Z.max old_data (INODE_DIRECT_COUNT + INODE_INDIRECT_COUNT) in
    for_acc (Z.to_nat (new_data - a)) a (p, lim) (increase_ind2_body bm (indirect2 di));;;
    ret tt.

Definition DiskInode_increase (bm : Bitmap) (old_data new_data : Z) : dm unit :=
  increase_direct bm old_data new_data;;;
  increase_ind1 bm old_data new_data;;;
  increase_ind2 bm old_data new_data.

(** ** Shrinking: the ids to free are collected first *)

(** [for (int j = a; j < b; ++j) { push_back(p[j]); p[j] = -1; }] *)
Fixpoint push_clear (n : nat) (j : Z) (p : block) (fl : list Z) : block * list Z :=
  match n with
  | O => (p, fl)
  | S n' => push_clear n' (j + 1) (set32 j kFail_blk p) (fl ++ [i32 (get32 p j)])
  end.

(** Step one: direct blocks. *)
Fixpoint decrease_direct (n : nat) (i : Z) (di : DiskInode) (fl : list Z) : DiskInode * list Z :=
  match n with
  | O => (di, fl)
  | S n' => decrease_direct n' (i + 1) (set_direct i kFail_blk di) (fl ++ [i32 (direct_at di i)])
  end.

(** Step two: the blocks under [indirect1]. *)
Definition decrease_ind1 (old_data new_data : Z) (fl : list Z) : dm (list Z) :=
  di <- this;;
  if indirect1 di =? 0 then ret fl
  else
    ind1 <- on_snd (dev_read (indirect1 di));;
    let a := Z.max new_data INODE_DIRECT_COUNT in
    let b := Z.min old_data (INODE_DIRECT_COUNT + INODE_INDIRECT_COUNT) in
    let '(ind1, fl) := push_clear (Z.to_nat (b - a)) (a - INODE_DIRECT_COUNT) ind1 fl in
    if new_data <=? INODE_DIRECT_COUNT then
      upd_this (set_indirect1 0);;;
      ret (fl ++ [i32 (indirect1 di)])
    else
      on_snd (dev_write (indirect1 di) ind1);;;
      ret fl.

(** Step three, when [indirect2] goes away: [ri < 0 && rj >= 0]. *)
Definition decrease_ind2_all_body (p : block) (posj1 posj2 i : Z) (fl : list Z) : dm (list Z) :=
  ind1 <- on_snd (dev_read (get32 p i));;
  let n := if negb (i =? posj1) then INODE_INDIRECT_COUNT else posj2 + 1 in
  let '(_, fl) := push_clear (Z.to_nat n) 0 ind1 fl in
  ret (fl ++ [i32 (get32 p i)]).

(** Step three, when some blocks under [indirect2] stay: [ri >= 0 &&
    rj >= 0].  The write back of the first partial block goes to block
    [i], the loop variable, as in the source. *)
Definition decrease_ind2_part_body (p : block) (posi1 posi2 posj1 posj2 i : Z) (fl : list Z) :
    dm (list Z) :=
  ind1 <- on_snd (dev_read (get32 p i));;
  if negb (i =? posi1) && negb (i =? posj1) then
    let '(_, fl) := push_clear (Z.to_nat INODE_INDIRECT_COUNT) 0 ind1 fl in
    ret (fl ++ [i32 (get32 p i)])
  else if (i =? posi1) && negb (i =? posj1) then
    let '(ind1, fl) := push_clear (Z.to_nat (INODE_INDIRECT_COUNT - (posi2 + 1))) (posi2 + 1) ind1 fl in
    on_snd (dev_write (u32 i) ind1);;;
    ret fl
  else if (i =? posj1) && negb (i =? posi1) then
    let '(_, fl) := push_clear (Z.to_nat (posj2 + 1)) 0 ind1 fl in
    ret (fl ++ [i32 (get32 p i)])
  else
    let '(ind1, fl) := push_clear (Z.to_nat (posj2 + 1 - (posi2 + 1))) (posi2 + 1) ind1 fl in
    on_snd (dev_write (u32 i) ind1);;;
    ret fl.

Definition decrease_ind2 (old_data new_data : Z) (fl : list Z) : dm (list Z) :=
  di <- this;;
  if indirect2 di =? 0 then ret fl
  else
    let ri := new_data - INODE_DIRECT_COUNT - INODE_INDIRECT_COUNT - 1 in
    let rj := old_data - INODE_DIRECT_COUNT - INODE_INDIRECT_COUNT - 1 in
    let posi1 := Z.quot ri INODE_INDIRECT_COUNT in
    let posi2 := Z.rem ri INODE_INDIRECT_COUNT in
    let posj1 := Z.quot rj INODE_INDIRECT_COUNT in
    let posj2 := Z.rem rj INODE_INDIRECT_COUNT in
    if (ri <? 0) && (0 <=? rj) then
      p <- on_snd (dev_read (indirect2 di));;
      fl <- for_acc (Z.to_nat (posj1 + 1)) 0 fl (decrease_ind2_all_body p posj1 posj2);;
      upd_this (set_indirect2 0);;;
      ret (fl ++ [i32 (indirect2 di)])
    else if (0 <=? ri) && (0 <=? rj) then
      p <- on_snd (dev_read (indirect2 di));;
      fl <- for_acc (Z.to_nat (posj1 + 1 - posi1)) posi1 fl
              (decrease_ind2_part_body p posi1 posi2 posj1 posj2);;
      on_snd (dev_write (indirect2 di) p);;;
      ret fl
    else ret fl.

(** [for (auto i : bitmap_to_free) ...] *)
Fixpoint free_all (bm : Bitmap) (fl : list Z) : M D unit :=
  match fl with
  | [] => ret tt
  | b :: fl' => Bitmap_free bm (u32 b);;; free_all bm fl'
  end.

(** [if (inode != nullptr) inode->write_inode(this);], the result ignored. *)
Definition write_back_inode (pos : option Position) : dm unit :=
  match pos with
  | None => ret tt
  | Some pos =>
      di <- this;;
      attempt (on_snd (Inode_write_inode pos di));;;
      ret tt
  end.

Definition DiskInode_decrease (bm : Bitmap) (old_data new_data : Z) (pos : option Position) : dm unit :=
  di <- this;;
  let '(di, fl) := decrease_direct
    (Z.to_nat (Z.min old_data INODE_DIRECT_COUNT - new_data)) new_data di [] in
  upd_this (λ _, di);;;
  fl <- decrease_ind1 old_data new_data fl;;
  fl <- decrease_ind2 old_data new_data fl;;
  write_back_inode pos;;;
  on_snd (free_all bm fl).

Definition DiskInode_resize (e : env) (bm : Bitmap) (new_size : Z) (pos : option Position) : dm unit :=
  upd_this (update_meta e 7);;;
  di <- this;;
  let old_size := size di in
  upd_this (set_size new_size);;;
  let old_data := data_blocks old_size in
  let new_data := data_blocks new_size in
  let old_blocks := total_blocks old_size in
  let new_blocks := total_blocks new_size in
  if old_blocks =? new_blocks then write_back_inode pos
  else if new_blocks <? old_blocks then DiskInode_decrease bm old_data new_data pos
  else DiskInode_increase bm old_data new_data.

(** ** [clear], called by nothing *)

(** [for (k = 0; k < n; ++k) if (data_bitmap->free(p[k], dev) != kSuccess)
    return kFail;] *)
Definition clear_ids (bm : Bitmap) (n : Z) (p : block) : M D unit :=
  for_range (Z.to_nat n) 0 (λ k, Bitmap_free bm (get32 p k)).

Definition clear_direct (bm : Bitmap) (data_blks : Z) : dm unit :=
  for_range (Z.to_nat (Z.min data_blks INODE_DIRECT_COUNT)) 0 (λ i,
    di <- this;;
    on_snd (Bitmap_free bm (direct_at di i));;;
    upd_this (set_direct i kFail_blk)).

Definition clear_ind1 (bm : Bitmap) (data_blks : Z) : dm unit :=
  di <- this;;
  if negb (indirect1 di =? 0) && (INODE_INDIRECT_COUNT <? data_blks) then
    ind <- on_snd (dev_read (indirect1 di));;
    on_snd (clear_ids bm
      (Z.min data_blks (INODE_DIRECT_COUNT + INODE_INDIRECT_COUNT) - INODE_DIRECT_COUNT) ind);;;
    on_snd (Bitmap_free bm (indirect1 di))
  else ret tt.

(** One iteration of the loop over [indirect2].  [p2] is indexed by [i],
    which counts data blocks and not blocks of ids: from the second
    iteration on the access is outside the block, and gets what the memory
    happens to hold there, [mem i]. *)
Definition clear_ind2_body (mem : Z → Z) (bm : Bitmap) (rest : Z) (p2 : block) (i : Z) : M D unit :=
  let id := if i <? INODE_INDIRECT_COUNT then get32 p2 i else mem i in
  ind1 <- dev_read id;;
  clear_ids bm (Z.min INODE_INDIRECT_COUNT (rest - i)) ind1;;;
  Bitmap_free bm id.

Definition clear_ind2 (mem : Z → Z) (bm : Bitmap) (data_blks : Z) : dm unit :=
  di <- this;;
  if negb (indirect2 di =? 0) && (INODE_DIRECT_COUNT + INODE_INDIRECT_COUNT <? data_blks) then
    ind2 <- on_snd (dev_read (indirect2 di));;
    let rest := data_blks - INODE_DIRECT_COUNT - INODE_INDIRECT_COUNT in
    on_snd (for_range (Z.to_nat ((rest + INODE_INDIRECT_COUNT - 1) / INODE_INDIRECT_COUNT)) 0
      (λ k, clear_ind2_body mem bm rest ind2 (k * INODE_INDIRECT_COUNT)));;;
    on_snd (Bitmap_free bm (indirect2 di))
  else ret tt.

Definition DiskInode_clear (mem : Z → Z) (bm : Bitmap) : dm unit :=
  di <- this;;
  let data_blks := i32 (data_blocks (size di)) in
  clear_direct bm data_blks;;;
  clear_ind1 bm data_blks;;;
  clear_ind2 mem bm data_blks.

(** ** Reading and writing data *)

(** [int l = offset]; then [l / kBlockSize] and [l % kBlockSize] in 64 bits. *)
Definition blk_of (l : Z) : Z := i32 (u64 (i32 l) / kBlockSize).
Definition off_of (l : Z) : Z := i32 (u64 (i32 l) mod kBlockSize).

(** The bytes of data block [i]: [dev->read(block_id(i, dev), &data)]. *)
Definition read_blk (di : DiskInode) (i : Z) : M D block :=
  blk <- DiskInode_block_id di (u32 i);;
  dev_read blk.

(** The number of bytes an access of [len] at [offset] may cover. *)
Definition clamp_len (sz offset len : Z) : Z :=
  if sz <=? u32 (offset + len) then u32 (sz - offset) else len.

(** [read_data]: the return value and the bytes stored at [buf]. *)
Definition DiskInode_read_data (e : env) (offset len : Z) : dm (Z * bytes) :=
  upd_this (update_meta e 1);;;
  di <- this;;
  if len =? 0 then ret (kSuccess, [])
  else if size di <? offset then fail
  else
    let len := clamp_len (size di) offset len in
    let lid := blk_of offset in
    let rid := blk_of (u32 (offset + len)) in
    let loff := off_of offset in
    let roff := off_of (u32 (offset + len)) in
    if lid =? rid then
      data <- on_snd (read_blk di lid);;
      ret (i32 len, slice loff (roff - loff) data)
    else
      data <- on_snd (read_blk di lid);;
      out <- for_acc (Z.to_nat (rid - (lid + 1))) (lid + 1) (slice loff (kBlockSize - loff) data)
        (λ i out,
          data <- on_snd (read_blk di i);;
          ret (out ++ data));;
      if 0 <? roff then
        data <- on_snd (read_blk di rid);;
        ret (i32 len, out ++ slice 0 roff data)
      else ret (i32 len, out).

(** Overwrites part of data block [i]. *)
Definition patch_blk (di : DiskInode) (i off : Z) (src : bytes) : M D unit :=
  blk <- DiskInode_block_id di (u32 i);;
  data <- dev_read blk;;
  dev_write blk (splice off src data).

Definition DiskInode_write_data (e : env) (offset : Z) (buf : bytes) (len : Z) : dm Z :=
  upd_this (update_meta e 3);;;
  di <- this;;
  if len =? 0 then ret kSuccess
  else if size di <? offset then fail
  else
    let len := clamp_len (size di) offset len in
    let lid := blk_of offset in
    let rid := blk_of (u32 (offset + len)) in
    let loff := off_of offset in
    let roff := off_of (u32 (offset + len)) in
    if lid =? rid then
      on_snd (patch_blk di lid loff (slice 0 (roff - loff) buf));;;
      ret (i32 len)
    else
      on_snd (patch_blk di lid loff (slice 0 (kBlockSize - loff) buf));;;
      bufoffset <- for_acc (Z.to_nat (rid - (lid + 1))) (lid + 1) (kBlockSize - loff)
        (λ i bufoffset,
          blk <- on_snd (DiskInode_block_id di (u32 i));;
          on_snd (dev_write blk (slice bufoffset kBlockSize buf));;;
          ret (bufoffset + kBlockSize));;
      (if 0 <? roff then on_snd (patch_blk di rid 0 (slice bufoffset roff buf)) else ret tt);;;
      ret (i32 len).

(** ** Syncing *)

Definition DiskInode_sync_data (di : DiskInode) (indirect : bool) : M D unit :=
  let data_blk := data_blocks (size di) in
  for_range (Z.to_nat data_blk) 0 (λ i,
    blk <- DiskInode_block_id di i;;
    dev_sync blk);;;
  if indirect then
    (if indirect1 di =? 0 then ret tt else dev_sync (indirect1 di));;;
    if indirect2 di =? 0 then ret tt
    else
      let rest := i32 (total_blocks (size di) - data_blk - 2) in
      buf <- dev_read (indirect2 di);;
      for_range (Z.to_nat rest) 0 (λ i, dev_sync (get32 buf i));;;
      dev_sync (indirect2 di)
  else ret tt.
End ops.

(** ** Every operation does the same over any device that meets the contract *)

Section sim.
Context {D : Type} `{BlkDevSpec D}.
Abbreviation sim2 := (msim (rel_snd (I := DiskInode) dev_rel)).

Lemma DiskInode_block_id_sim di i :
  msim dev_rel (DiskInode_block_id di i) (DiskInode_block_id (D := store) di i).
Proof. unfold DiskInode_block_id. sim_tac. Qed.

Lemma read_blk_sim di i : msim dev_rel (read_blk di i) (read_blk (D := store) di i).
Proof. pose proof DiskInode_block_id_sim. unfold read_blk. sim_tac. Qed.

Lemma patch_blk_sim di i off src :
  msim dev_rel (patch_blk di i off src) (patch_blk (D := store) di i off src).
Proof. pose proof DiskInode_block_id_sim. unfold patch_blk. sim_tac. Qed.

Lemma this_sim : sim2 this (this (D := store)).
Proof. intros s1 s2 [Hi HR]. simpl. by rewrite Hi. Qed.

Lemma upd_this_sim f : sim2 (upd_this f) (upd_this (D := store) f).
Proof. intros s1 s2 [Hi HR]. simpl. by rewrite Hi. Qed.
#[local] Hint Resolve DiskInode_block_id_sim read_blk_sim patch_blk_sim this_sim upd_this_sim : sim.

Lemma alloc_blk_sim bm : sim2 (alloc_blk bm) (alloc_blk (D := store) bm).
Proof. unfold alloc_blk. sim_tac. Qed.
#[local] Hint Resolve alloc_blk_sim : sim.

Lemma DiskInode_increase_sim bm old new :
  sim2 (DiskInode_increase bm old new) (DiskInode_increase (D := store) bm old new).
Proof.
  unfold DiskInode_increase, increase_direct, increase_ind1, increase_ind2, increase_ind2_body.
  sim_tac.
Qed.

Lemma decrease_ind1_sim old new fl :
  sim2 (decrease_ind1 old new fl) (decrease_ind1 (D := store) old new fl).
Proof. unfold decrease_ind1. sim_tac. Qed.

Lemma decrease_ind2_sim old new fl :
  sim2 (decrease_ind2 old new fl) (decrease_ind2 (D := store) old new fl).
Proof. unfold decrease_ind2, decrease_ind2_all_body, decrease_ind2_part_body. sim_tac. Qed.

Lemma free_all_sim bm fl : msim dev_rel (free_all bm fl) (free_all (D := store) bm fl).
Proof. induction fl; simpl; sim_tac. Qed.

Lemma write_back_inode_sim pos : sim2 (write_back_inode pos) (write_back_inode (D := store) pos).
Proof. unfold write_back_inode. sim_tac. Qed.
#[local] Hint Resolve DiskInode_increase_sim decrease_ind1_sim decrease_ind2_sim free_all_sim
  write_back_inode_sim : sim.

Lemma DiskInode_resize_sim e bm sz pos :
  sim2 (DiskInode_resize e bm sz pos) (DiskInode_resize (D := store) e bm sz pos).
Proof. unfold DiskInode_resize, DiskInode_decrease. sim_tac. Qed.

Lemma DiskInode_clear_sim mem bm : sim2 (DiskInode_clear mem bm) (DiskInode_clear (D := store) mem bm).
Proof.
  unfold DiskInode_clear, clear_direct, clear_ind1, clear_ind2, clear_ind2_body, clear_ids. sim_tac.
Qed.

Lemma DiskInode_read_data_sim e off len :
  sim2 (DiskInode_read_data e off len) (DiskInode_read_data (D := store) e off len).
Proof. unfold DiskInode_read_data. sim_tac. Qed.

Lemma DiskInode_write_data_sim e off buf len :
  sim2 (DiskInode_write_data e off buf len) (DiskInode_write_data (D := store) e off buf len).
Proof. unfold DiskInode_write_data. sim_tac. Qed.

Lemma DiskInode_sync_data_keeps di indirect : keeps (DiskInode_sync_data (D := D) di indirect).
Proof.
  assert (Hid : ∀ i, keeps (DiskInode_block_id (D := D) di i)).
  { intros i d st Hd. destruct (DiskInode_block_id_sim di i d st Hd) as [_ Hr].
    replace (DiskInode_block_id di i st).2 with st in Hr; [done|].
    unfold DiskInode_block_id, bind, attempt, ret. cbn [dev_read MapDev]. unfold map_read.
    repeat (case_match; simplify_eq; try done). }
  unfold DiskInode_sync_data. cbv zeta. repeat (intros; first [apply Hid|apply keeps_bind
    |apply keeps_for_range|apply keeps_if|solve [auto with keeps]]).
Qed.
End sim.

#[export] Hint Resolve DiskInode_sync_data_keeps : keeps.
#[export] Hint Resolve DiskInode_block_id_sim read_blk_sim DiskInode_resize_sim
  DiskInode_read_data_sim DiskInode_write_data_sim : sim.
