(* ===== verification/Sbfs.v ===== *)
(** * The file system object ([src/sbfs.cpp], [include/fs.h])

    [SBFileSystem] fixes where the inode bitmap, the inode area, the data
    bitmap and the data area lie, turns inode ids into positions, and
    creates the file system.  The handle is a pure value; the device is the
    state. *)

From S2P Require Import Prelude Bytes Config BlkIface Bitmap DataArea Layout InodeIO DiskInode.

Definition kInodesInABlock : Z := u32 (kBlockSize / sizeof_DiskInode).
Definition kDirEntries : Z := kBlockSize / sizeof_DirEntry.

Record SBFileSystem := mkFS {
  super_block_ : SuperBlock;
  inode_bitmap_ : Bitmap;
  data_bitmap_ : Bitmap;
  inode_area_start_block_ : Z;
  data_area_start_block_ : Z;
}.

(** [initBitmapAndBlock]: the layout that a super block describes. *)
Definition initBitmapAndBlock (sb : SuperBlock) : SBFileSystem :=
  let inode_bitmap_offset := 1 in
  let inode_area_offset := u32 (inode_bitmap_offset + inode_bitmap_blocks sb) in
  let data_bitmap_offset := u32 (inode_area_offset + inode_area_blocks sb) in
  let data_area_offset := u32 (data_bitmap_offset + data_bitmap_blocks sb) in
  mkFS sb
    (mkBitmap inode_bitmap_offset (inode_bitmap_blocks sb) inode_area_offset)
    (mkBitmap data_bitmap_offset (data_bitmap_blocks sb) data_area_offset)
    inode_area_offset data_area_offset.

(** The super block [create] computes from its arguments; [padding] is
    whatever the object held. *)
Definition create_super_block (pad : bytes) (total_blocks inode_bitmap_blocks : Z) : SuperBlock :=
  let inode_area_blocks := u32 (u64 (u64 (u32 (inode_bitmap_blocks * 8) * kBlockSize) / kInodesInABlock)) in
  let remaining_blocks := u32 (total_blocks - inode_bitmap_blocks - inode_area_blocks) in
  let data_bitmap_blocks := u32 (remaining_blocks / (1 + 8 * kBlockSize)) in
  let data_area_blocks := u32 (u64 (u32 (data_bitmap_blocks * 8) * kBlockSize)) in
  mkSuperBlock kFSMagic total_blocks inode_bitmap_blocks inode_area_blocks data_bitmap_blocks
    data_area_blocks Position_invalid pad.

Definition set_root (p : Position) (sb : SuperBlock) : SuperBlock :=
  mkSuperBlock (magic sb) (sb_total_blocks sb) (inode_bitmap_blocks sb) (inode_area_blocks sb)
    (data_bitmap_blocks sb) (data_area_blocks sb) p (padding sb).

Definition set_super (sb : SuperBlock) (fs : SBFileSystem) : SBFileSystem :=
  mkFS sb (inode_bitmap_ fs) (data_bitmap_ fs) (inode_area_start_block_ fs) (data_area_start_block_ fs).

Definition getDiskInodePos (fs : SBFileSystem) (inode_id : Z) : Position :=
  let inode_id := u32 inode_id in
  mkPosition (u32 (inode_area_start_block_ fs + inode_id / kInodesInABlock))
    (u32 (inode_id mod kInodesInABlock * sizeof_DiskInode)).

Definition getDiskInodeId (fs : SBFileSystem) (pos : Position) : Z :=
  u32 (u64 (u32 ((block_id pos - inode_area_start_block_ fs) * kInodesInABlock) +
            block_offset pos / sizeof_DiskInode)).

(** [root()]. *)
Definition SBFileSystem_root (fs : SBFileSystem) : Position := root_inode_pos (super_block_ fs).

(** ** Directory blocks

    A [DirBlock] is 16 entries; it is moved to and from files as bytes. *)

Definition strcpy (src : bytes) (dst : bytes) : bytes := splice 0 (src ++ [Byte.x00]) dst.

Definition DirBlock_new : bytes :=
  replicate (Z.to_nat kDirEntries) DirEntry_default ≫= DirEntry_encode.

Definition dir_entry (blk : bytes) (j : Z) : DirEntry :=
  DirEntry_decode (slice (j * sizeof_DirEntry) sizeof_DirEntry blk).

Definition set_dir_entry (j : Z) (e : DirEntry) (blk : bytes) : bytes :=
  splice (j * sizeof_DirEntry) (DirEntry_encode e) blk.

Definition dot : bytes := [Byte.x2e].
Definition dotdot : bytes := [Byte.x2e; Byte.x2e].

(** The root directory's block: ["."] and [".."], both the root. *)
Definition root_dir_block (root_inode_id : Z) : block :=
  set_dir_entry 1 (mkDirEntry (strcpy dotdot (name DirEntry_default)) root_inode_id)
    (set_dir_entry 0 (mkDirEntry (strcpy dot (name DirEntry_default)) root_inode_id) DirBlock_new).

Section ops.
Context {D : Type} `{BlkDev D}.

Definition alloc_inode (fs : SBFileSystem) : M D Z := Bitmap_alloc (inode_bitmap_ fs).
Definition alloc_data (fs : SBFileSystem) : M D Z := Bitmap_alloc (data_bitmap_ fs).
Definition free_inode (fs : SBFileSystem) (inode_id : Z) : M D unit :=
  Bitmap_free (inode_bitmap_ fs) inode_id.
Definition free_data (fs : SBFileSystem) (block_id : Z) : M D unit :=
  Bitmap_free (data_bitmap_ fs) block_id.

(** [createRoot]; the results of the calls are not tested. *)
Definition createRoot (e : env) (fs : SBFileSystem) : M D SBFileSystem :=
  root_inode_id <- alloc_inode fs;;
  root_data_id <- alloc_data fs;;
  let root := DiskInode_new e kDirectory in
  let root := set_size (2 * sizeof_DirEntry) root in
  let root := set_mode (Z.lor (mode root) 0x1ed) root in
  let root := set_direct 0 root_data_id root in
  attempt (Inode_write_inode (getDiskInodePos fs root_inode_id) root);;;
  attempt (dev_write root_data_id (root_dir_block root_inode_id));;;
  let fs := set_super (set_root (getDiskInodePos fs root_inode_id) (super_block_ fs)) fs in
  attempt (dev_write 0 (SuperBlock_encode (super_block_ fs)));;;
  ret fs.

(** [create], once the device is there. *)
Definition SBFileSystem_create (e : env) (pad : bytes) (total_blocks inode_bitmap_blocks : Z) :
    M D SBFileSystem :=
  let sb := create_super_block pad total_blocks inode_bitmap_blocks in
  attempt (dev_write 0 (SuperBlock_encode sb));;;
  createRoot e (initBitmapAndBlock sb).

(** [open], once the device is there; with a bad magic number the handle
    is returned without its bitmaps, which [None] stands for. *)
Definition SBFileSystem_open : M D (option SBFileSystem) :=
  buf <- attempt (dev_read 0);;
  match buf with
  | None => ret None
  | Some buf =>
      let sb := SuperBlock_decode buf in
      if negb (SuperBlock_isValid sb) then ret None
      else ret (Some (initBitmapAndBlock sb))
  end.
End ops.

(** ** The same over any device *)

Section sim.
Context {D : Type} `{BlkDevSpec D}.

Lemma createRoot_sim e fs : msim dev_rel (createRoot e fs) (createRoot (D := store) e fs).
Proof. unfold createRoot, alloc_inode, alloc_data. sim_tac. Qed.
#[local] Hint Resolve createRoot_sim : sim.

Lemma SBFileSystem_create_sim e pad tot ibb :
  msim dev_rel (SBFileSystem_create e pad tot ibb) (SBFileSystem_create (D := store) e pad tot ibb).
Proof. unfold SBFileSystem_create. sim_tac. Qed.

Lemma SBFileSystem_open_sim : msim dev_rel SBFileSystem_open (SBFileSystem_open (D := store)).
Proof. unfold SBFileSystem_open. sim_tac. Qed.
End sim.

#[export] Hint Resolve createRoot_sim SBFileSystem_create_sim SBFileSystem_open_sim : sim.
