(* ===== verification/Inode.v ===== *)
(** * Files and directories ([src/inode.cpp], [include/inode.h])

    The operations on an [Inode]: each reads the [DiskInode] into a local
    variable, works on it, and writes it back on the paths where the source
    does.  An [Inode] is modelled by its position; the [fs] pointer, the
    same everywhere, is the argument [fs].  Functions with an out-parameter
    [Inode *] keep it beside the device, [None] until it is assigned. *)

From S2P Require Import Prelude Bytes Config BlkIface Bitmap DataArea Layout InodeIO DiskInode Sbfs.

(** ** Local [DiskInode] variables *)

(** Runs [m] on the local variable [di]; the variable dies with the scope. *)
Definition with_inode {D A} (di : DiskInode) (m : M (DiskInode * D) A) : M D A := λ d,
  let '(r, (_, d')) := m (di, d) in (r, d').

(** The local variable's final value. *)
Definition returning {D A} (m : M (DiskInode * D) A) : M (DiskInode * D) (A * DiskInode) :=
  a <- m;; λ s, (Some (a, s.1), s).

(** [CHECK_RET(len)]: a length that is -1 is taken for a failure. *)
Definition check_len {S} (len : Z) : M S unit := if len =? kFail then fail else ret tt.

(** [entries[j].name] compared with [name], from [j] on. *)
Fixpoint dir_lookup (n : nat) (j : Z) (blk : bytes) (nm : bytes) : option Z :=
  match n with
  | O => None
  | S n' => if strcmp_eq (name (dir_entry blk j)) nm then Some j else dir_lookup n' (j + 1) blk nm
  end.

Section ops.
Context {D : Type} `{BlkDev D}.
Abbreviation dm := (M (DiskInode * D)).

Definition Inode_read_data (e : env) (pos : Position) (offset len : Z) : M D (Z * bytes) :=
  di <- Inode_read_inode pos;;
  r <- with_inode di (returning (DiskInode_read_data e offset len));;
  let '(n, out, di) := r in
  check_len n;;;
  Inode_write_inode pos di;;;
  ret (n, out).

Definition Inode_write_data (e : env) (fs : SBFileSystem) (pos : Position)
    (offset : Z) (buf : bytes) (len : Z) : M D Z :=
  di <- Inode_read_inode pos;;
  r <- with_inode di (returning (
    di <- this;;
    (if size di <? u32 (offset + len) then
       attempt (DiskInode_resize e (data_bitmap_ fs) (u32 (offset + len)) None);;; ret tt
     else ret tt);;;
    DiskInode_write_data e offset buf len));;
  let '(n, di) := r in
  check_len n;;;
  Inode_write_inode pos di;;;
  ret n.

(** Appends [buf] to the local directory or file: [resize] by its length,
    then [write_data] at the old end. *)
Definition append (e : env) (fs : SBFileSystem) (buf : bytes) : dm unit :=
  di <- this;;
  DiskInode_resize e (data_bitmap_ fs) (u32 (size di + zlen buf)) None;;;
  di <- this;;
  n <- DiskInode_write_data e (u32 (size di - zlen buf)) buf (zlen buf);;
  check_len n.

(** [create(name, disk_inode, inode)]. *)
Definition Inode_create (e : env) (fs : SBFileSystem) (pos : Position) (nm : bytes)
    (disk_inode : DiskInode) : M (option Position * D) unit :=
  cur <- on_snd (Inode_read_inode pos);;
  if negb (type_ cur =? kDirectory) then fail
  else
    new_inode_id <- on_snd (alloc_inode fs);;
    let child := getDiskInodePos fs new_inode_id in
    modify (λ s, (Some child, s.2));;;
    cur <- on_snd (with_inode cur (returning (
      append e fs (DirEntry_encode (DirEntry_new nm new_inode_id)))));;
    disk_inode <-
      (if type_ disk_inode =? kDirectory then
         r <- on_snd (with_inode disk_inode (returning (
           append e fs (DirEntry_encode (DirEntry_new dot new_inode_id) ++
                        DirEntry_encode (DirEntry_new dotdot (getDiskInodeId fs pos))))));;
         ret r.2
       else ret disk_inode);;
    on_snd (Inode_write_inode child disk_inode);;;
    on_snd (Inode_write_inode pos cur.2).

(** The loop all directory operations share: reads the blocks of the
    directory into one [DirBlock] that keeps its old bytes where a read is
    short, and stops at the first entry with the name. *)
Fixpoint dir_scan (e : env) (n : nat) (i : Z) (blk : bytes) (nm : bytes) :
    dm (option (Z * Z * bytes)) :=
  match n with
  | O => ret None
  | S n' =>
      r <- DiskInode_read_data e (u32 (i * kBlockSize)) kBlockSize;;
      check_len r.1;;;
      let blk := splice 0 r.2 blk in
      match dir_lookup (Z.to_nat kDirEntries) 0 blk nm with
      | Some j => ret (Some (i, j, blk))
      | None => dir_scan e n' (i + 1) blk nm
      end
  end.

Definition scan_dir (e : env) (nm : bytes) : dm (option (Z * Z * bytes)) :=
  di <- this;;
  dir_scan e (Z.to_nat (total_blocks (size di))) 0 DirBlock_new nm.

Definition Inode_find (e : env) (fs : SBFileSystem) (pos : Position) (nm : bytes) : M D Position :=
  di <- Inode_read_inode pos;;
  if negb (type_ di =? kDirectory) then fail
  else
    r <- with_inode di (scan_dir e nm);;
    match r with
    | Some (i, j, blk) => ret (getDiskInodePos fs (inode (dir_entry blk j)))
    | None => fail
    end.

Definition Inode_resize (e : env) (fs : SBFileSystem) (pos : Position) (new_size : Z) : M D unit :=
  di <- Inode_read_inode pos;;
  if negb (type_ di =? kFile) then fail
  else if size di <? new_size then
    di <- with_inode di (returning (DiskInode_resize e (data_bitmap_ fs) new_size None));;
    Inode_write_inode pos di.2
  else with_inode di (DiskInode_resize e (data_bitmap_ fs) new_size (Some pos)).

(** Overwrites entry [j] of block [i] with the last entry, when it is not
    itself the last one a directory of [tot_blocks] blocks can have. *)
Definition move_last (e : env) (tot_blocks i j : Z) : dm unit :=
  if negb (i =? u32 (tot_blocks - 1)) || negb (j =? kDirEntries - 1) then
    di <- this;;
    last <- DiskInode_read_data e (u32 (size di - sizeof_DirEntry)) sizeof_DirEntry;;
    check_len last.1;;;
    let last_entry := splice 0 last.2 (DirEntry_encode DirEntry_default) in
    n <- DiskInode_write_data e (u32 (i * kBlockSize + j * sizeof_DirEntry)) last_entry sizeof_DirEntry;;
    check_len n
  else ret tt.

Definition drop_last (e : env) (fs : SBFileSystem) (pos : Position) : dm unit :=
  di <- this;;
  DiskInode_resize e (data_bitmap_ fs) (u32 (size di - sizeof_DirEntry)) (Some pos).

Definition Inode_remove (e : env) (fs : SBFileSystem) (pos : Position) (nm : bytes) : M D unit :=
  di <- Inode_read_inode pos;;
  if negb (type_ di =? kDirectory) then fail
  else
    with_inode di (
      di <- this;;
      let tot_blocks := total_blocks (size di) in
      r <- scan_dir e nm;;
      match r with
      | None => fail
      | Some (i, j, blk) =>
          let del_id := inode (dir_entry blk j) in
          let del_inode := getDiskInodePos fs del_id in
          del <- on_snd (Inode_read_inode del_inode);;
          let del := set_link_cnt (u16 (link_cnt del - 1)) del in
          if link_cnt del =? 0 then
            move_last e tot_blocks i j;;;
            drop_last e fs pos;;;
            on_snd (free_inode fs del_id);;;
            on_snd (with_inode del (DiskInode_resize e (data_bitmap_ fs) 0 None))
          else
            di <- this;;
            on_snd (Inode_write_inode pos di)
      end).

(** The lambda [update_link_cnt] of [link]. *)
Definition update_link_cnt (target : Position) (delta : Z) : M D unit :=
  raw <- Inode_read_inode target;;
  Inode_write_inode target (set_link_cnt (u16 (link_cnt raw + delta)) raw).

Definition Inode_link (e : env) (fs : SBFileSystem) (pos : Position) (nm : bytes)
    (target : Position) (replace : bool) : M D unit :=
  di <- Inode_read_inode pos;;
  if negb (type_ di =? kDirectory) then fail
  else
    with_inode di (
      r <- scan_dir e nm;;
      match r with
      | Some (i, j, blk) =>
          if negb replace then fail
          else
            on_snd (update_link_cnt target 1);;;
            let entry := DirEntry_new (cstr (name (dir_entry blk j))) (getDiskInodeId fs target) in
            n <- DiskInode_write_data e (u32 (i * kBlockSize + j * sizeof_DirEntry))
                   (DirEntry_encode entry) sizeof_DirEntry;;
            check_len n
      | None =>
          on_snd (update_link_cnt target 1);;;
          append e fs (DirEntry_encode (DirEntry_new nm (getDiskInodeId fs target)))
      end;;;
      di <- this;;
      on_snd (Inode_write_inode pos di)).

(** [unlink(name, inode)]. *)
Definition Inode_unlink (e : env) (fs : SBFileSystem) (pos : Position) (nm : bytes) :
    M (option Position * D) unit :=
  di <- on_snd (Inode_read_inode pos);;
  if negb (type_ di =? kDirectory) then fail
  else
    r <- on_snd (with_inode di (returning (
      di <- this;;
      r <- scan_dir e nm;;
      ret (total_blocks (size di), r))));;
    let '(tot_blocks, r, di) := r in
    match r with
    | None => fail
    | Some (i, j, blk) =>
        let child := getDiskInodePos fs (inode (dir_entry blk j)) in
        modify (λ s, (Some child, s.2));;;
        on_snd (with_inode di (move_last e tot_blocks i j;;; drop_last e fs pos));;;
        on_snd (update_link_cnt child (-1))
    end.

Definition Inode_sync (pos : Position) (metadata : bool) : M D unit :=
  di <- Inode_read_inode pos;;
  DiskInode_sync_data di false;;;
  if metadata then dev_sync (block_id pos) else ret tt.
End ops.

(** ** The same over any device *)

Section sim.
Context {D : Type} `{BlkDevSpec D}.
Abbreviation sim2 := (msim (rel_snd (I := DiskInode) dev_rel)).
Abbreviation sim3 := (msim (rel_snd (I := option Position) dev_rel)).

Lemma with_inode_sim {A} di (m1 : M (DiskInode * D) A) m2 :
  sim2 m1 m2 → msim dev_rel (with_inode di m1) (with_inode di m2).
Proof.
  intros Hm d1 d2 HR. unfold with_inode. destruct (Hm (di, d1) (di, d2)) as [Hr [_ HR']]; [done|].
  destruct (m1 _) as [r1 [i1 x1]], (m2 _) as [r2 [i2 x2]]; simpl in *. by subst.
Qed.

Lemma returning_sim {A} (m1 : M (DiskInode * D) A) m2 :
  sim2 m1 m2 → sim2 (returning m1) (returning m2).
Proof.
  intros Hm. unfold returning. apply msim_bind; [done|]. intros a s1 s2 [Hi HR]. simpl. by rewrite Hi.
Qed.

Lemma this_sim' : sim2 (this (D := D)) (this (D := store)).
Proof. intros s1 s2 [Hi HR]. simpl. by rewrite Hi. Qed.

Lemma out_sim p : sim3 (modify (λ s, (Some p, s.2))) (modify (λ s, (Some p, s.2))).
Proof. intros s1 s2 [Hi HR]. done. Qed.

Lemma check_len_sim {S1 S2} (R : S1 → S2 → Prop) n : msim R (check_len n) (check_len n).
Proof. unfold check_len. sim_tac. Qed.
#[local] Hint Resolve with_inode_sim returning_sim this_sim' out_sim check_len_sim : sim.

Ltac isim :=
  repeat (intros; cbv zeta;
    lazymatch goal with
    | |- msim _ (with_inode _ _) _ => apply with_inode_sim
    | |- msim _ (returning _) _ => apply returning_sim
    | |- msim _ (modify _) _ => apply out_sim
    | |- msim _ (bind _ _) _ => apply msim_bind
    | |- msim _ (attempt _) _ => apply msim_attempt
    | |- msim _ (if ?b then _ else _) _ => destruct b
    | |- msim _ (match ?x with _ => _ end) _ => destruct x
    | |- msim (rel_snd _) (on_snd _) _ => apply msim_on_snd
    | _ => solve [auto with sim]
    end).

Lemma Inode_read_data_sim e pos off len :
  msim dev_rel (Inode_read_data e pos off len) (Inode_read_data (D := store) e pos off len).
Proof. unfold Inode_read_data. isim. Qed.

Lemma Inode_write_data_sim e fs pos off buf len :
  msim dev_rel (Inode_write_data e fs pos off buf len) (Inode_write_data (D := store) e fs pos off buf len).
Proof. unfold Inode_write_data. isim. Qed.

Lemma append_sim e fs buf : sim2 (append e fs buf) (append (D := store) e fs buf).
Proof. unfold append. isim. Qed.
#[local] Hint Resolve append_sim : sim.

Lemma Inode_create_sim e fs pos nm di :
  sim3 (Inode_create e fs pos nm di) (Inode_create (D := store) e fs pos nm di).
Proof. unfold Inode_create, alloc_inode. isim. Qed.

Lemma scan_dir_sim e nm : sim2 (scan_dir e nm) (scan_dir (D := store) e nm).
Proof.
  unfold scan_dir. apply msim_bind; [auto with sim|]. intros di.
  generalize DirBlock_new, 0. induction (Z.to_nat (total_blocks (size di))) as [|n IH];
    intros blk i; cbn [dir_scan]; isim.
Qed.
#[local] Hint Resolve scan_dir_sim : sim.

Lemma Inode_find_sim e fs pos nm :
  msim dev_rel (Inode_find e fs pos nm) (Inode_find (D := store) e fs pos nm).
Proof. unfold Inode_find. isim. Qed.

Lemma Inode_resize_sim e fs pos sz :
  msim dev_rel (Inode_resize e fs pos sz) (Inode_resize (D := store) e fs pos sz).
Proof. unfold Inode_resize. isim. Qed.

Lemma move_last_sim e t i j : sim2 (move_last e t i j) (move_last (D := store) e t i j).
Proof. unfold move_last. isim. Qed.

Lemma drop_last_sim e fs pos : sim2 (drop_last e fs pos) (drop_last (D := store) e fs pos).
Proof. unfold drop_last. isim. Qed.
#[local] Hint Resolve move_last_sim drop_last_sim : sim.

Lemma Inode_remove_sim e fs pos nm :
  msim dev_rel (Inode_remove e fs pos nm) (Inode_remove (D := store) e fs pos nm).
Proof. unfold Inode_remove, free_inode. isim. Qed.

Lemma update_link_cnt_sim t d : msim dev_rel (update_link_cnt t d) (update_link_cnt (D := store) t d).
Proof. unfold update_link_cnt. isim. Qed.
#[local] Hint Resolve update_link_cnt_sim : sim.

Lemma Inode_link_sim e fs pos nm t r :
  msim dev_rel (Inode_link e fs pos nm t r) (Inode_link (D := store) e fs pos nm t r).
Proof. unfold Inode_link. isim. Qed.

Lemma Inode_unlink_sim e fs pos nm :
  sim3 (Inode_unlink e fs pos nm) (Inode_unlink (D := store) e fs pos nm).
Proof. unfold Inode_unlink. isim. Qed.

(** [sync] changes what is cached and what is on disk, not what is read. *)
Lemma Inode_sync_keeps pos meta : keeps (Inode_sync (D := D) pos meta).
Proof.
  unfold Inode_sync, Inode_read_inode. apply keeps_bind; [auto with keeps|]. intros di.
  apply keeps_bind; [apply DiskInode_sync_data_keeps|]. intros _. auto with keeps.
Qed.
End sim.

#[export] Hint Resolve Inode_sync_keeps : keeps.
#[export] Hint Resolve Inode_read_data_sim Inode_write_data_sim Inode_create_sim Inode_find_sim
  Inode_resize_sim Inode_remove_sim Inode_link_sim Inode_unlink_sim : sim.
