(* ===== verification/FdManager.v ===== *)
(** * Open files ([include/fd_manager.h])

    [FDManager] maps file handles to inodes and counts, per inode, how
    often it is open.  The counts are [uint64_t]s; the theorem that matters
    is that they are exactly the number of open handles. *)

From S2P Require Import Prelude Bytes Config Layout.

#[export] Instance position_eq_dec : EqDecision Position.
Proof. solve_decision. Defined.

#[export] Program Instance position_countable : Countable Position :=
  inj_countable' (λ p, (block_id p, block_offset p)) (λ q, mkPosition q.1 q.2) _.
Next Obligation. by intros []. Qed.

(** [Inode::operator<] ([include/inode.h]), by which [reference_count], a
    [std::map], compares its keys: a strict total order, so that inodes are
    one key exactly when they are equal, as in a [gmap]. *)
Definition Inode_lt (p q : Position) : bool :=
  (block_id p <? block_id q) || ((block_id p =? block_id q) && (block_offset p <? block_offset q)).

#[export] Instance Inode_lt_strict : StrictOrder (λ p q, Inode_lt p q = true).
Proof.
  split.
  - intros p. unfold complement, Inode_lt. by rewrite !Z.ltb_irrefl, andb_false_r.
  - intros p q r. unfold Inode_lt.
    rewrite !orb_true_iff, !andb_true_iff, !Z.ltb_lt, !Z.eqb_eq. lia.
Qed.

Lemma Inode_lt_total p q : Inode_lt p q = false → Inode_lt q p = false → p = q.
Proof.
  unfold Inode_lt. rewrite !orb_false_iff, !andb_false_iff, !Z.ltb_ge, !Z.eqb_neq.
  intros. destruct p as [b1 o1], q as [b2 o2]. simpl in *. f_equal; lia.
Qed.

Record FDManager := mkFD {
  fd_manager : gmap Z Position;
  reference_count : gmap Position Z;
  fd_counter : Z;
}.

Definition FDManager_new : FDManager := mkFD ∅ ∅ 10.

Definition FDManager_deltaRefCnt (inode : Position) (delta : Z) (f : FDManager) : FDManager :=
  let cnt := match reference_count f !! inode with
             | None => u64 delta
             | Some c => u64 (c + delta)
             end in
  mkFD (fd_manager f) (<[inode := cnt]> (reference_count f)) (fd_counter f).

(** [map::insert] keeps an entry that is already there. *)
Definition map_insert {K V} `{Countable K} (k : K) (v : V) (m : gmap K V) : gmap K V :=
  match m !! k with Some _ => m | None => <[k := v]> m end.

Definition FDManager_open (inode : Position) (f : FDManager) : Z * FDManager :=
  let fd := fd_counter f in
  let f := mkFD (map_insert fd inode (fd_manager f)) (reference_count f) (u64 (fd_counter f + 1)) in
  (fd, FDManager_deltaRefCnt inode 1 f).

Definition FDManager_get (fd : Z) (f : FDManager) : option Position :=
  if fd =? 0 then None else fd_manager f !! fd.

Definition FDManager_close (fd : Z) (f : FDManager) : FDManager :=
  if fd =? 0 then f
  else match fd_manager f !! fd with
       | None => f
       | Some inode =>
           let f := FDManager_deltaRefCnt inode (-1) f in
           mkFD (delete fd (fd_manager f)) (reference_count f) (fd_counter f)
       end.

Definition FDManager_isOpen (inode : Position) (f : FDManager) : bool :=
  match reference_count f !! inode with
  | None => false
  | Some c => 0 <? c
  end.

(** ** The invariant *)

(** How many handles are open on an inode. *)
Definition handles (f : FDManager) (inode : Position) : Z :=
  Z.of_nat (base.size (filter (λ kv, kv.2 = inode) (fd_manager f))).

(** Handles are below the counter, which stays in 64 bits, and the counts
    are the numbers of handles. *)
Record fd_ok (f : FDManager) : Prop := {
  fd_counter_ok : 10 ≤ fd_counter f < 2 ^ 64;
  fd_below fd p : fd_manager f !! fd = Some p → 10 ≤ fd < fd_counter f;
  fd_counts p : default 0 (reference_count f !! p) = handles f p;
}.

Lemma handles_insert fd p m q :
  m !! fd = None →
  Z.of_nat (base.size (filter (λ kv, kv.2 = q) (<[fd := p]> m : gmap Z Position))) =
  Z.of_nat (base.size (filter (λ kv, kv.2 = q) m)) + if decide (p = q) then 1 else 0.
Proof.
  intros Hm. case_decide as Hpq.
  - rewrite map_filter_insert_True by done. rewrite map_size_insert_None; [lia|].
    apply map_lookup_filter_None. by left.
  - rewrite map_filter_insert_False, delete_id by done. lia.
Qed.

Lemma handles_delete fd p m q :
  m !! fd = Some p →
  Z.of_nat (base.size (filter (λ kv, kv.2 = q) (delete fd m : gmap Z Position))) =
  Z.of_nat (base.size (filter (λ kv, kv.2 = q) m)) - if decide (p = q) then 1 else 0.
Proof.
  intros Hm. pose proof (handles_insert fd p (delete fd m) q (lookup_delete_eq _ _)) as Hi.
  rewrite insert_delete_id in Hi by done. rewrite Hi. case_decide; lia.
Qed.

(** No more handles than the counter has handed out. *)
Lemma handles_bound f p : fd_ok f → 0 ≤ handles f p ≤ fd_counter f - 10.
Proof.
  intros [Hc Hb _]. unfold handles. split; [lia|].
  set (m := filter _ _).
  assert (Hsub : (base.size (dom m) ≤ base.size (list_to_set (seqZ 10 (fd_counter f - 10)) : gset Z))%nat).
  { apply subseteq_size. intros fd [q [Hq _]%map_lookup_filter_Some]%elem_of_dom.
    apply elem_of_list_to_set, elem_of_seqZ. apply Hb in Hq. lia. }
  rewrite size_dom, size_list_to_set, length_seqZ in Hsub by apply NoDup_seqZ. lia.
Qed.

Lemma FDManager_new_ok : fd_ok FDManager_new.
Proof.
  split; simpl; [lia|by intros fd p; rewrite lookup_empty|].
  intros p. unfold handles. simpl. rewrite lookup_empty, map_filter_empty. done.
Qed.

(** [open] hands out a new handle, until the 64-bit counter is used up. *)
Lemma FDManager_open_ok p f :
  fd_ok f → fd_counter f + 1 < 2 ^ 64 →
  fd_ok (FDManager_open p f).2 ∧ (FDManager_open p f).1 = fd_counter f ∧
  fd_manager f !! fd_counter f = None ∧
  fd_manager (FDManager_open p f).2 = <[fd_counter f := p]> (fd_manager f).
Proof.
  intros Hok Hlt. pose proof Hok as [Hc Hb Hr].
  assert (Hn : fd_manager f !! fd_counter f = None).
  { destruct (fd_manager f !! fd_counter f) eqn:E; [|done]. apply Hb in E. lia. }
  split_and!; [|done|done|].
  2:{ simpl. unfold map_insert. by rewrite Hn. }
  split; simpl.
  - rewrite u64_small by lia. lia.
  - intros fd q. unfold map_insert. rewrite Hn, u64_small by lia.
    destruct (decide (fd = fd_counter f)) as [->|]; [lia|].
    rewrite lookup_insert_ne by done. intros Hq%Hb. lia.
  - intros q. unfold handles. simpl. unfold map_insert. rewrite Hn, handles_insert by done.
    fold (handles f q). rewrite <- Hr. pose proof (handles_bound f p Hok) as Hp. rewrite <- Hr in Hp.
    destruct (decide (p = q)) as [->|Hne].
    + rewrite lookup_insert_eq. simpl. destruct (reference_count f !! q) as [c|]; simpl in *.
      * by rewrite u64_small by lia.
      * done.
    + rewrite lookup_insert_ne by done. lia.
Qed.

Lemma FDManager_close_ok fd f :
  fd_ok f → fd_ok (FDManager_close fd f) ∧
  fd_manager (FDManager_close fd f) = delete fd (fd_manager f).
Proof.
  intros Hok. pose proof Hok as [Hc Hb Hr]. unfold FDManager_close.
  destruct (Z.eqb_spec fd 0) as [->|Hne].
  { split; [done|]. rewrite delete_id; [done|].
    destruct (fd_manager f !! 0) eqn:E; [|done]. apply Hb in E. lia. }
  destruct (fd_manager f !! fd) as [p|] eqn:Hp; [|by rewrite delete_id].
  split; [|done]. split; simpl; [done| |].
  - intros fd' q [_ Hq]%lookup_delete_Some. by eapply Hb.
  - intros q. unfold handles. simpl. rewrite (handles_delete fd p) by done. fold (handles f q).
    rewrite <- Hr. destruct (decide (p = q)) as [->|Hpq].
    + pose proof (handles_bound f q Hok) as Hh. rewrite lookup_insert_eq. simpl.
      assert (H1 : 1 ≤ handles f q).
      { unfold handles. assert (base.size (filter (λ kv, kv.2 = q) (fd_manager f)) ≠ 0%nat); [|lia].
        intros Hz%map_size_empty_iff.
        assert (Hin : filter (λ kv : Z * Position, kv.2 = q) (fd_manager f) !! fd = Some q)
          by (by apply map_lookup_filter_Some).
        by rewrite Hz, lookup_empty in Hin. }
      rewrite <- Hr in *. destruct (reference_count f !! q) as [c|]; simpl in *; [|lia].
      by rewrite u64_small by lia.
    + rewrite lookup_insert_ne by done. lia.
Qed.
