(* ===== verification/PathResolver.v ===== *)
(** * Path resolution ([src/path_resolver.cpp], [include/path_resolver.h])

    A path is split at its slashes and looked up part by part; the
    positions found are kept in a cache keyed by the prefixes of the path,
    from which a clock evicts.  The cache is a [std::map]: an association
    list sorted by key, and the iterator [clock_iter_] the key it points
    at, [end()], or dangling.  In this file a computation fails where the
    source's behaviour is undefined (a dangling or past-the-end iterator is
    dereferenced); "not found" is the invalid position. *)

From S2P Require Import Prelude Bytes Config BlkIface Layout Sbfs Inode.

Definition slash : byte := Byte.x2f.

(** ** Strings *)

(** [operator<] on [std::string]. *)
Fixpoint bytes_ltb (a b : bytes) : bool :=
  match a, b with
  | _, [] => false
  | [], _ :: _ => true
  | x :: a', y :: b' =>
      if byte.unsigned x <? byte.unsigned y then true
      else if byte.unsigned y <? byte.unsigned x then false
      else bytes_ltb a' b'
  end.

(** [split(s, '/', reserve_prev)]: [pre] is what precedes [start], [cur] what
    has been read since. *)
Fixpoint split_go (reserve_prev : bool) (pre cur s : bytes) : list bytes :=
  match s with
  | [] => [if reserve_prev then pre ++ cur else cur]
  | c :: s' =>
      if decide (c = slash) then
        (if reserve_prev then pre ++ cur else cur) ::
        split_go reserve_prev (pre ++ cur ++ [c]) [] s'
      else split_go reserve_prev pre (cur ++ [c]) s'
  end.

Definition split (s : bytes) (reserve_prev : bool) : list bytes := split_go reserve_prev [] [] s.

(** [rfind('/')], -1 when there is none. *)
Definition rfind_slash (s : bytes) : Z :=
  match list_find (λ c, c = slash) (reverse s) with
  | None => -1
  | Some (i, _) => zlen s - 1 - Z.of_nat i
  end.

(** On an empty string both sides of the test are [npos]. *)
Definition removeEndSlash (path : bytes) : bytes :=
  if rfind_slash path =? zlen path - 1 then take (length path - 1) path else path.

(** ** The cache *)

Record PathCacheValue := mkPCV { pcv_inode : Position; visited : bool }.

Abbreviation path_cache_t := (list (bytes * PathCacheValue)).

Inductive iterator := AtEnd | At (key : bytes) | Dangling.

Record PathResolver := mkPR {
  path_cache_ : path_cache_t;
  clock_iter_ : iterator;
  cur_cache_size_ : Z;
  max_cache_size_ : Z;
}.

Definition PathResolver_new (path_cache_size : Z) : PathResolver := mkPR [] AtEnd 0 path_cache_size.

Fixpoint cache_find (k : bytes) (c : path_cache_t) : option PathCacheValue :=
  match c with
  | [] => None
  | (k', v) :: c' => if decide (k = k') then Some v else cache_find k c'
  end.

(** [path_cache_[k] = v]. *)
Fixpoint cache_set (k : bytes) (v : PathCacheValue) (c : path_cache_t) : path_cache_t :=
  match c with
  | [] => [(k, v)]
  | (k', v') :: c' =>
      if decide (k = k') then (k, v) :: c'
      else if bytes_ltb k k' then (k, v) :: c
      else (k', v') :: cache_set k v c'
  end.

Definition cache_erase (k : bytes) (c : path_cache_t) : path_cache_t :=
  filter (λ kv, kv.1 ≠ k) c.

Definition cache_begin (c : path_cache_t) : iterator :=
  match c with [] => AtEnd | (k, _) :: _ => At k end.

(** [++iter]. *)
Fixpoint cache_after (k : bytes) (c : path_cache_t) : iterator :=
  match c with
  | [] => AtEnd
  | (k', _) :: c' => if decide (k = k') then cache_begin c' else cache_after k c'
  end.

(** [next(iter)]. *)
Definition cache_next (k : bytes) (c : path_cache_t) : iterator :=
  match cache_after k c with
  | AtEnd => cache_begin c
  | it => it
  end.

Definition sizeof_path_cache_key_t : Z := 32.
Definition sizeof_path_cache_val_t : Z := 24.
Definition entry_size (k : bytes) : Z :=
  zlen k + sizeof_path_cache_key_t + sizeof_path_cache_val_t.

(** The inner loop of [evict]: clears [visited] flags until an entry without
    one; [None] if the iterator cannot be dereferenced. *)
Fixpoint clock_sweep (fuel : nat) (c : path_cache_t) (it : iterator) : option (path_cache_t * bytes) :=
  match fuel, it with
  | S fuel, At k =>
      match cache_find k c with
      | None => None
      | Some v =>
          if visited v then
            clock_sweep fuel (cache_set k (mkPCV (pcv_inode v) false) c) (cache_next k c)
          else Some (c, k)
      end
  | _, _ => None
  end.

(** The outer loop: returns the cache, the iterator and [cur_size]. *)
Fixpoint evict_loop (fuel : nat) (size cur_size : Z) (c : path_cache_t) (it : iterator) :
    option (path_cache_t * iterator * Z) :=
  if (cur_size <? size) && negb (bool_decide (c = [])) then
    match fuel with
    | O => None
    | S fuel =>
        let it := match it with AtEnd => cache_begin c | _ => it end in
        match clock_sweep (S (length c)) c it with
        | None => None
        | Some (c, k) =>
            evict_loop fuel size (u64 (cur_size + entry_size k)) (cache_erase k c) (cache_after k c)
        end
    end
  else Some (c, it, cur_size).

Definition PathResolver_evict {D} (size : Z) : M (PathResolver * D) unit := λ s,
  let r := s.1 in
  match evict_loop (length (path_cache_ r)) size 0 (path_cache_ r) (clock_iter_ r) with
  | None => (None, s)
  | Some (c, it, cur_size) => (Some tt, (mkPR c it cur_size (max_cache_size_ r), s.2))
  end.

(** [k.substr(0, p.size()) == p]. *)
Definition starts_with (p k : bytes) : bool := bool_decide (take (length p) k = p).

(** [lower_bound(p)]: the entries before it, and those from it on. *)
Fixpoint lower_bound (p : bytes) (c : path_cache_t) : path_cache_t * path_cache_t :=
  match c with
  | [] => ([], [])
  | (k, v) :: c' =>
      if bytes_ltb k p then let '(a, b) := lower_bound p c' in ((k, v) :: a, b) else ([], c)
  end.

(** The loop of [removePrefix] over the entries from [lower_bound] on: what
    is left of them, and the clock, which dangles when its entry is erased. *)
Fixpoint erase_loop (p : bytes) (c : path_cache_t) (clock : iterator) : path_cache_t * iterator :=
  match c with
  | [] => ([], clock)
  | (k, v) :: c' =>
      if starts_with p k then
        erase_loop p c'
          (match clock with At k' => if decide (k' = k) then Dangling else clock | _ => clock end)
      else let '(c'', clock') := erase_loop p c' clock in ((k, v) :: c'', clock')
  end.

Definition PathResolver_removePrefix {D} (prefix : bytes) : M (PathResolver * D) unit := λ s,
  match removeEndSlash prefix with
  | [] => (None, s)   (* substr(1) of an empty string throws *)
  | _ :: p =>
      let r := s.1 in
      let '(before, from) := lower_bound p (path_cache_ r) in
      let '(rest, it) := erase_loop p from (clock_iter_ r) in
      (Some tt, (mkPR (before ++ rest) it (cur_cache_size_ r) (max_cache_size_ r), s.2))
  end.

(** ** Resolving *)

Section ops.
Context {D : Type} `{BlkDev D}.
Abbreviation rm := (M (PathResolver * D)).

Definition get_cache : rm path_cache_t := λ s, (Some (path_cache_ s.1), s).
Definition set_cache (c : path_cache_t) : rm unit :=
  modify (λ s, (mkPR c (clock_iter_ s.1) (cur_cache_size_ s.1) (max_cache_size_ s.1), s.2)).

(** The first loop: the longest cached prefix. *)
Fixpoint lookup_cache (keys : list bytes) (i : Z) (cur : Position * Z) : rm (Position * Z) :=
  match keys with
  | [] => ret cur
  | k :: keys =>
      c <- get_cache;;
      match cache_find k c with
      | None => lookup_cache keys (i + 1) cur
      | Some v =>
          set_cache (cache_set k (mkPCV (pcv_inode v) true) c);;;
          lookup_cache keys (i + 1) (pcv_inode v, i + 1)
      end
  end.

(** Caches the position of [key], after making room. *)
Definition remember (key : bytes) (p : Position) : rm unit :=
  r <- (λ s, (Some s.1, s));;
  let size_to_evict := u64 (cur_cache_size_ r + entry_size key - max_cache_size_ r) in
  (if 0 <? size_to_evict then PathResolver_evict size_to_evict else ret tt);;;
  c <- get_cache;;
  set_cache (cache_set key (mkPCV p true) c).

(** The second loop, over the parts left and their keys. *)
Fixpoint walk (e : env) (fs : SBFileSystem) (parts : list (bytes * bytes)) (cur : Position) : rm Position :=
  match parts with
  | [] => ret cur
  | (part, key) :: parts =>
      n <- attempt (on_snd (Inode_find e fs cur part));;
      match n with
      | None => ret Position_invalid
      | Some n =>
          remember key n;;;
          walk e fs parts n
      end
  end.

Definition PathResolver_resolve (e : env) (fs : SBFileSystem) (path : bytes) : rm Position :=
  if negb (bool_decide (head path = Some slash)) then ret Position_invalid
  else if bool_decide (path = [slash]) then ret (SBFileSystem_root fs)
  else
    let p := tail (removeEndSlash path) in
    let path_vec := split p false in
    let cache_vec := split p true in
    r <- lookup_cache cache_vec 0 (SBFileSystem_root fs, 0);;
    let '(cur, idx) := r in
    walk e fs (drop (Z.to_nat idx) (zip path_vec cache_vec)) cur.

(** [resolveNoCache]. *)
Fixpoint walk_no_cache (e : env) (fs : SBFileSystem) (parts : list bytes) (cur : Position) : M D Position :=
  match parts with
  | [] => ret cur
  | part :: parts =>
      n <- attempt (Inode_find e fs cur part);;
      match n with
      | None => ret Position_invalid
      | Some n => walk_no_cache e fs parts n
      end
  end.

Definition PathResolver_resolveNoCache (e : env) (fs : SBFileSystem) (path : bytes) : M D Position :=
  if negb (bool_decide (head path = Some slash)) then ret Position_invalid
  else if bool_decide (path = [slash]) then ret (SBFileSystem_root fs)
  else walk_no_cache e fs (split (tail (removeEndSlash path)) false) (SBFileSystem_root fs).
End ops.

(** ** The same over any device *)

Section sim.
Context {D : Type} `{BlkDevSpec D}.
Abbreviation sim4 := (msim (rel_snd (I := PathResolver) dev_rel)).

Lemma evict_sim sz : sim4 (PathResolver_evict sz) (PathResolver_evict sz).
Proof.
  intros [r d1] [r2 d2] [Hi HR]. simpl in *. subst. unfold PathResolver_evict. simpl.
  by destruct (evict_loop _ _ _ _ _) as [[[c it] cs]|].
Qed.

Lemma removePrefix_sim p : sim4 (PathResolver_removePrefix p) (PathResolver_removePrefix p).
Proof.
  intros [r d1] [r2 d2] [Hi HR]. simpl in *. subst. unfold PathResolver_removePrefix. simpl.
  destruct (removeEndSlash p) as [|c p']; [done|]. destruct (lower_bound _ _) as [a b]. by destruct (erase_loop _ _ _).
Qed.

Lemma get_cache_sim : sim4 get_cache get_cache.
Proof. intros [r d1] [r2 d2] [Hi HR]. simpl in *. by subst. Qed.

Lemma set_cache_sim c : sim4 (set_cache c) (set_cache c).
Proof. intros [r d1] [r2 d2] [Hi HR]. simpl in *. by subst. Qed.

Lemma get_fst_sim : sim4 (λ s, (Some s.1, s)) (λ s, (Some s.1, s)).
Proof. intros [r d1] [r2 d2] [Hi HR]. simpl in *. by subst. Qed.
#[local] Hint Resolve evict_sim removePrefix_sim get_cache_sim set_cache_sim get_fst_sim : sim.

Lemma lookup_cache_sim keys : ∀ i cur, sim4 (lookup_cache keys i cur) (lookup_cache keys i cur).
Proof. induction keys as [|k keys IH]; intros i cur; simpl; sim_tac. Qed.

Lemma remember_sim key p : sim4 (remember key p) (remember key p).
Proof. unfold remember. sim_tac. Qed.
#[local] Hint Resolve lookup_cache_sim remember_sim : sim.

Lemma walk_sim e fs parts : ∀ cur, sim4 (walk e fs parts cur) (walk (D := store) e fs parts cur).
Proof. induction parts as [|[part key] parts IH]; intros cur; simpl; sim_tac. Qed.
#[local] Hint Resolve walk_sim : sim.

Lemma PathResolver_resolve_sim e fs path :
  sim4 (PathResolver_resolve e fs path) (PathResolver_resolve (D := store) e fs path).
Proof. unfold PathResolver_resolve. sim_tac. Qed.
End sim.

#[export] Hint Resolve removePrefix_sim PathResolver_resolve_sim : sim.
