(* ===== verification/Vfs.v ===== *)
(** * The FUSE handlers ([src/vfs.cpp])

    Every handler holds the one mutex from start to end, so each is one
    step from a state to a state.  The state is the open files, the path
    cache and the device; a computation that fails stands for undefined
    behaviour (a null or dangling pointer is dereferenced), every other
    outcome is the [int] the handler returns. *)

From S2P Require Import Prelude Bytes Config BlkIface Bitmap Layout InodeIO DiskInode Sbfs Inode FdManager PathResolver.
From Stdlib Require Import Floats.SpecFloat.

Definition ENOENT : Z := 2.
Definition EIO : Z := 5.
Definition EBADF : Z := 9.
Definition ENOTDIR : Z := 20.
Definition EINVAL : Z := 22.
Definition ENOTEMPTY : Z := 39.
Definition RENAME_NOREPLACE : Z := 0.   (* bit numbers in [flags] *)
Definition RENAME_EXCHANGE : Z := 1.

(** [splitFromLastSlash]: the parent with its slash, and the child. *)
Definition splitFromLastSlash (path : bytes) : bytes * bytes :=
  let pos := rfind_slash path in
  if pos =? -1 then ([], path)
  else (take (Z.to_nat (pos + 1)) path, drop (Z.to_nat (pos + 1)) path).

Record stat := mkStat {
  st_mode : Z; st_atime : Z; st_mtime : Z; st_ctime : Z; st_size : Z;
  st_nlink : Z; st_uid : Z; st_gid : Z; st_blocks : Z; st_blksize : Z;
}.

Record statvfs := mkStatvfs {
  f_bsize : Z; f_frsize : Z; f_blocks : Z; f_bfree : Z; f_bavail : Z;
  f_files : Z; f_ffree : Z; f_favail : Z; f_namemax : Z;
}.

(** [tv_sec + tv_nsec / 1000000000.0] in IEEE binary64, converted to
    [uint32_t]. *)
Definition dbl (z : Z) : spec_float := binary_normalize 53 1024 z 0 false.

Definition dbl_trunc (f : spec_float) : Z :=
  match f with
  | S754_finite s m ex =>
      let a := if 0 <=? ex then Z.pos m * 2 ^ ex else Z.pos m / 2 ^ (- ex) in
      if s then - a else a
  | _ => 0
  end.

Definition timespec_u32 (tv : Z * Z) : Z :=
  u32 (dbl_trunc (SFadd 53 1024 (dbl tv.1) (SFdiv 53 1024 (dbl tv.2) (dbl 1000000000)))).

Section handlers.
Context {D : Type} `{BlkDev D}.
Context (e : env) (fs : SBFileSystem).

Definition VFS : Type := FDManager * (PathResolver * D).
Abbreviation vm := (M VFS).

Definition on_dev {A} (m : M D A) : vm A := on_snd (on_snd m).
Definition resolve (path : bytes) : vm Position := on_snd (PathResolver_resolve e fs path).
Definition removePrefix (path : bytes) : vm unit := on_snd (PathResolver_removePrefix path).
Definition fd_get (fd : Z) : vm (option Position) := λ s, (Some (FDManager_get fd s.1), s).
Definition fd_open (p : Position) : vm Z := λ s,
  let '(fd, f) := FDManager_open p s.1 in (Some fd, (f, s.2)).
Definition fd_close (fd : Z) : vm unit := modify (λ s, (FDManager_close fd s.1, s.2)).

(** A call with an out-parameter [Inode *], unassigned before it. *)
Definition with_out {A} (m : M (option Position * D) A) : M D (option A * option Position) := λ d,
  let '(r, (out, d')) := m (None, d) in (Some (r, out), d').

(** A method called on an [Inode]: the invalid one has a null [fs]. *)
Definition deref {A} (p : Position) (m : M D A) : vm A :=
  if Position_isValid p then on_dev m else fail.

(** [sb_rmw_diskinode(path, fi, func)]: [func] returns an [int], the new
    inode, and what it stored elsewhere. *)
Definition sb_rmw_diskinode {A} (path : bytes) (fi : option Z) (func : DiskInode → Z * DiskInode * A) :
    vm (Z * option A) :=
  fd <- (match fi with
         | None => ret None
         | Some fh => if fh =? 0 then ret None else fd_get fh
         end);;
  inode <- (match fd with Some p => ret p | None => resolve path end);;
  if negb (Position_isValid inode) then ret (- ENOENT, None)
  else
    di <- attempt (on_dev (Inode_read_inode inode));;
    match di with
    | None => ret (- EIO, None)
    | Some di =>
        let '(r, di, a) := func di in
        if negb (r =? kSuccess) then ret (r, Some a)
        else
          w <- attempt (on_dev (Inode_write_inode inode di));;
          match w with
          | None => ret (- EIO, Some a)
          | Some _ => ret (0, Some a)
          end
    end.

Definition sb_destroy : vm unit := attempt (on_dev dev_sync_all);;; ret tt.

Definition sb_mkdir (path : bytes) (mode_ : Z) : vm Z :=
  let '(parent, child) := splitFromLastSlash path in
  parent_inode <- resolve parent;;
  if negb (Position_isValid parent_inode) then ret (- ENOENT)
  else
    let disk_inode := DiskInode_new e kDirectory in
    let disk_inode := set_mode (u16 (Z.lor (mode disk_inode) (Z.land mode_ 0x1ff))) disk_inode in
    on_dev (with_out (Inode_create e fs parent_inode child disk_inode));;;
    ret 0.

(** A [DirBlock] of its own, filled by [read_data]; a failure is ignored
    and leaves it as constructed. *)
Definition read_dir_block (p : Position) (block_id : Z) : vm bytes :=
  r <- attempt (on_dev (Inode_read_data e p (u32 (block_id * kBlockSize)) kBlockSize));;
  match r with
  | None => ret DirBlock_new
  | Some r => ret (splice 0 r.2 DirBlock_new)
  end.

Definition valid_entries (blk : bytes) : list DirEntry :=
  filter (λ x, DirEntry_isValid x = true) (dir_entry blk <$> seqZ 0 kDirEntries).

(** The names passed to [filler]. *)
Definition sb_readdir (path : bytes) : vm (Z * list bytes) :=
  inode <- resolve path;;
  if negb (Position_isValid inode) then ret (- ENOENT, [])
  else
    di <- attempt (on_dev (Inode_read_inode inode));;
    let di := default (DiskInode_new e kDirectory) di in
    if negb (type_ di =? kDirectory) then ret (- ENOTDIR, [])
    else
      names <- for_acc (Z.to_nat (total_blocks (size di))) 0 [] (λ i names,
        blk <- read_dir_block inode i;;
        ret (names ++ ((λ x, cstr (name x)) <$> valid_entries blk)));;
      ret (0, names).

Definition stat_of (di : DiskInode) : stat :=
  mkStat (mode di) (access_time di) (modify_time di) (change_time di) (size di)
    (link_cnt di) (uid di) (gid di) (total_blocks (size di)) kBlockSize.

Definition sb_getattr (path : bytes) (fi : option Z) : vm (Z * option stat) :=
  sb_rmw_diskinode path fi (λ di, (kSuccess, di, stat_of di)).

Definition sb_rmdir (path : bytes) : vm Z :=
  let '(parent, child) := splitFromLastSlash path in
  parent_inode <- resolve parent;;
  if negb (Position_isValid parent_inode) then ret (- ENOENT)
  else
    child_inode <- attempt (on_dev (Inode_find e fs parent_inode child));;
    match child_inode with
    | None => ret (- ENOENT)
    | Some child_inode =>
        di <- attempt (on_dev (Inode_read_inode child_inode));;
        let di := default (DiskInode_new e kDirectory) di in
        if negb (type_ di =? kDirectory) then ret (- ENOTDIR)
        else if 1 <? total_blocks (size di) then ret (- ENOTEMPTY)
        else
          blk <- read_dir_block child_inode 0;;
          if existsb (λ x, negb (strcmp_eq (name x) dot) && negb (strcmp_eq (name x) dotdot))
               (valid_entries blk)
          then ret (- ENOTEMPTY)
          else
            attempt (on_dev (Inode_remove e fs parent_inode child));;;
            removePrefix path;;;
            ret 0
    end.

(** The result and [fi->fh]; [junk] is what an [Inode] nobody assigned
    holds. *)
Definition sb_create (junk : Position) (path : bytes) (mode_ : Z) : vm (Z * option Z) :=
  let '(parent, child) := splitFromLastSlash path in
  parent_inode <- resolve parent;;
  if negb (Position_isValid parent_inode) then ret (- ENOENT, None)
  else
    let disk_inode := DiskInode_new e kFile in
    let disk_inode := set_mode (u16 (Z.lor (mode disk_inode) (Z.land mode_ 0x1ff))) disk_inode in
    r <- on_dev (with_out (Inode_create e fs parent_inode child disk_inode));;
    fh <- fd_open (default junk r.2);;
    ret (0, Some fh).

Definition sb_unlink (path : bytes) : vm Z :=
  let '(parent, child) := splitFromLastSlash path in
  parent_inode <- resolve parent;;
  if negb (Position_isValid parent_inode) then ret (- ENOENT)
  else
    child_inode <- attempt (on_dev (Inode_find e fs parent_inode child));;
    match child_inode with
    | None => ret (- ENOENT)
    | Some _ =>
        attempt (on_dev (Inode_remove e fs parent_inode child));;;
        removePrefix path;;;
        ret 0
    end.

Definition sb_rename (oldpath newpath : bytes) (flags : Z) : vm Z :=
  let '(old_parent, old_child) := splitFromLastSlash oldpath in
  old_parent_inode <- resolve old_parent;;
  if negb (Position_isValid old_parent_inode) then ret (- ENOENT)
  else
    let '(new_parent, new_child) := splitFromLastSlash newpath in
    new_parent_inode <- resolve new_parent;;
    u <- on_dev (with_out (Inode_unlink e fs old_parent_inode old_child));;
    match u with
    | (Some _, Some old_child_inode) =>
        let replace := negb (Z.testbit flags RENAME_NOREPLACE) in
        (if Z.testbit flags RENAME_EXCHANGE then
           u2 <- deref new_parent_inode (with_out (Inode_unlink e fs new_parent_inode new_child));;
           match u2.2 with
           | None => fail   (* new_child_inode was never assigned *)
           | Some new_child_inode =>
               attempt (on_dev (Inode_link e fs old_parent_inode old_child new_child_inode false));;;
               ret tt
           end
         else ret tt);;;
        deref new_parent_inode
          (attempt (Inode_link e fs new_parent_inode new_child old_child_inode replace));;;
        removePrefix oldpath;;;
        removePrefix newpath;;;
        ret 0
    | _ => ret (- ENOENT)
    end.

(** The result and [fi->fh]. *)
Definition sb_open (path : bytes) : vm (Z * option Z) :=
  inode <- resolve path;;
  if negb (Position_isValid inode) then ret (- ENOENT, None)
  else
    fh <- fd_open inode;;
    ret (0, Some fh).

Definition sb_release (fh : Z) : vm Z := fd_close fh;;; ret 0.

(** The result and the bytes put in [buf]; [offset] is an [off_t], passed
    on as a [uint32_t]. *)
Definition sb_read (fh : Z) (size_ offset : Z) : vm (Z * bytes) :=
  if UINT32_MAX <? size_ then ret (- EINVAL, [])
  else
    p <- fd_get fh;;
    match p with
    | None => ret (- EBADF, [])
    | Some p =>
        r <- attempt (on_dev (Inode_read_data e p (u32 offset) size_));;
        match r with
        | None => ret (- EIO, [])
        | Some r => ret r
        end
    end.

Definition sb_write (fh : Z) (buf : bytes) (size_ offset : Z) : vm Z :=
  if UINT32_MAX <? size_ then ret (- EINVAL)
  else
    p <- fd_get fh;;
    match p with
    | None => ret (- EBADF)
    | Some p =>
        r <- attempt (on_dev (Inode_write_data e fs p (u32 offset) buf size_));;
        match r with
        | None => ret (- EIO)
        | Some n => ret n
        end
    end.

(** [fi] is dereferenced without a test, although FUSE passes a null
    pointer for a file that is not open. *)
Definition sb_truncate (path : bytes) (off : Z) (fi : option Z) : vm Z :=
  if UINT32_MAX <? off then ret (- EINVAL)
  else
    match fi with
    | None => fail
    | Some fh =>
        p <- fd_get fh;;
        inode <- (match p with
                  | Some p => ret (Some p)
                  | None =>
                      p <- resolve path;;
                      ret (if Position_isValid p then Some p else None)
                  end);;
        match inode with
        | None => ret (- ENOENT)
        | Some inode =>
            r <- attempt (on_dev (Inode_resize e fs inode (u32 off)));;
            match r with
            | None => ret (- EIO)
            | Some _ => ret 0
            end
        end
    end.

Definition sb_statfs : vm (Z * statvfs) :=
  let blocks := u64 (kDiskSize / kBlockSize) in
  let files := u64 (kInodeBitmapBlocks * kBlockSize * 8) in
  ret (0, mkStatvfs kBlockSize kBlockSize blocks blocks blocks files files files 255).

Definition sb_fsync (fh : Z) (datasync : Z) : vm Z :=
  p <- fd_get fh;;
  match p with
  | None => ret (- EBADF)
  | Some p =>
      r <- attempt (on_dev (Inode_sync p (datasync =? 0)));;
      match r with
      | None => ret (- EIO)
      | Some _ => ret 0
      end
  end.

Definition rmw (path : bytes) (fi : option Z) (f : DiskInode → DiskInode) : vm Z :=
  r <- sb_rmw_diskinode path fi (λ di, (kSuccess, f di, tt));;
  ret r.1.

Definition sb_utimens (path : bytes) (tv0 tv1 : Z * Z) (fi : option Z) : vm Z :=
  rmw path fi (λ di, set_times (timespec_u32 tv0) (change_time di) (timespec_u32 tv1) di).

Definition sb_chmod (path : bytes) (mode_ : Z) (fi : option Z) : vm Z :=
  rmw path fi (set_mode (u16 mode_)).

Definition sb_chown (path : bytes) (uid_ gid_ : Z) (fi : option Z) : vm Z :=
  rmw path fi (set_owner (u16 uid_) (u16 gid_)).
End handlers.

(** [init_vfs], once the device is open: creates or opens the file system,
    with an empty path cache and no open file. *)
Definition init_vfs {D} `{BlkDev D} (e : env) (pad : bytes) (is_open : bool) : M D (option SBFileSystem) :=
  if is_open then SBFileSystem_open
  else fs <- SBFileSystem_create e pad kFSDataBlocks kInodeBitmapBlocks;; ret (Some fs).

Definition init_state {D} (d : D) : VFS := (FDManager_new, (PathResolver_new kPathCacheSize, d)).
