(* ===== verification/VfsRefine.v ===== *)
(** * The file system over the cached disk

    The handlers are written over the block-device interface.  Here a
    sequence of handler calls over the LRU-cached device is shown to return
    what it returns over the abstract device, a map from block ids to
    blocks: the cache, its evictions and its write-backs cannot be observed,
    except that [fsync] may fail for blocks that are not cached.  With
    [sb_destroy] at the end, the disk file holds the abstract device. *)

From S2P Require Import Prelude Bytes Config BlkIface LruCache BlkDevice Layout InodeIO DiskInode Sbfs Inode FdManager PathResolver Vfs.

(** ** Handler calls as data *)

Inductive vfs_op :=
  | OpMkdir (path : bytes) (mode_ : Z)
  | OpReaddir (path : bytes)
  | OpGetattr (path : bytes) (fi : option Z)
  | OpRmdir (path : bytes)
  | OpCreate (junk : Position) (path : bytes) (mode_ : Z)
  | OpUnlink (path : bytes)
  | OpRename (oldpath newpath : bytes) (flags : Z)
  | OpOpen (path : bytes)
  | OpRelease (fh : Z)
  | OpRead (fh size_ offset : Z)
  | OpWrite (fh : Z) (buf : bytes) (size_ offset : Z)
  | OpTruncate (path : bytes) (off : Z) (fi : option Z)
  | OpStatfs
  | OpFsync (fh datasync : Z)
  | OpUtimens (path : bytes) (tv0 tv1 : Z * Z) (fi : option Z)
  | OpChmod (path : bytes) (mode_ : Z) (fi : option Z)
  | OpChown (path : bytes) (uid_ gid_ : Z) (fi : option Z).

Inductive vfs_res :=
  | RInt (ret : Z)
  | RStat (ret : Z) (st : option stat)
  | RNames (ret : Z) (names : list bytes)
  | RFh (ret : Z) (fh : option Z)
  | RData (ret : Z) (buf : bytes)
  | RStatvfs (ret : Z) (st : statvfs).

Definition map_res {S A B} (f : A → B) (m : M S A) : M S B := a <- m;; ret (f a).

Definition vfs_step {D} `{BlkDev D} (fs : SBFileSystem) (e : env) (op : vfs_op) : M (VFS (D := D)) vfs_res :=
  match op with
  | OpMkdir p md => map_res RInt (sb_mkdir e fs p md)
  | OpReaddir p => map_res (λ r, RNames r.1 r.2) (sb_readdir e fs p)
  | OpGetattr p fi => map_res (λ r, RStat r.1 r.2) (sb_getattr e fs p fi)
  | OpRmdir p => map_res RInt (sb_rmdir e fs p)
  | OpCreate j p md => map_res (λ r, RFh r.1 r.2) (sb_create e fs j p md)
  | OpUnlink p => map_res RInt (sb_unlink e fs p)
  | OpRename p q fl => map_res RInt (sb_rename e fs p q fl)
  | OpOpen p => map_res (λ r, RFh r.1 r.2) (sb_open e fs p)
  | OpRelease fh => map_res RInt (sb_release fh)
  | OpRead fh n off => map_res (λ r, RData r.1 r.2) (sb_read e fh n off)
  | OpWrite fh buf n off => map_res RInt (sb_write e fs fh buf n off)
  | OpTruncate p off fi => map_res RInt (sb_truncate e fs p off fi)
  | OpStatfs => map_res (λ r, RStatvfs r.1 r.2) sb_statfs
  | OpFsync fh ds => map_res RInt (sb_fsync fh ds)
  | OpUtimens p a b fi => map_res RInt (sb_utimens e fs p a b fi)
  | OpChmod p md fi => map_res RInt (sb_chmod e fs p md fi)
  | OpChown p u g fi => map_res RInt (sb_chown e fs p u g fi)
  end.

(** What the caller of a handler may rely on. *)
Definition observe (op : vfs_op) (r : vfs_res) : vfs_res :=
  match op with OpFsync _ _ => RInt 0 | _ => r end.

(** A sequence of calls, up to undefined behaviour. *)
Fixpoint vfs_run {D} `{BlkDev D} (fs : SBFileSystem) (ops : list (env * vfs_op)) :
    M (VFS (D := D)) (list vfs_res) :=
  match ops with
  | [] => ret []
  | (e, op) :: ops =>
      r <- vfs_step fs e op;;
      rs <- vfs_run fs ops;;
      ret (observe op r :: rs)
  end.

(** ** Simulation *)

Section sim.
Context {D : Type} `{BlkDevSpec D}.

Definition vfs_rel : VFS (D := D) → VFS (D := store) → Prop := rel_snd (rel_snd dev_rel).

Lemma with_out_sim {A} (m1 : M (option Position * D) A) m2 :
  msim (rel_snd dev_rel) m1 m2 → msim dev_rel (with_out m1) (with_out m2).
Proof.
  intros Hm d1 d2 HR. unfold with_out. destruct (Hm (None, d1) (None, d2)) as [Hr [Ho HR']]; [done|].
  destruct (m1 _) as [r1 [o1 x1]], (m2 _) as [r2 [o2 x2]]; simpl in *. by subst.
Qed.

Lemma fd_get_sim fd : msim vfs_rel (fd_get fd) (fd_get fd).
Proof. intros s1 s2 [Hf HR]. simpl. by rewrite Hf. Qed.

Lemma fd_open_sim p : msim vfs_rel (fd_open p) (fd_open p).
Proof. intros [f1 s1] [f2 s2] [Hf HR]. simpl in *. by subst. Qed.

Lemma fd_close_sim fd : msim vfs_rel (fd_close fd) (fd_close fd).
Proof. intros [f1 s1] [f2 s2] [Hf HR]. simpl in *. by subst. Qed.
#[local] Hint Resolve with_out_sim fd_get_sim fd_open_sim fd_close_sim : sim.

Ltac vsim :=
  repeat (intros; cbv zeta;
    lazymatch goal with
    | |- msim _ (resolve _ _ _) _ => unfold resolve
    | |- msim _ (removePrefix _) _ => unfold removePrefix
    | |- msim _ (on_dev _) _ => unfold on_dev
    | |- msim _ (deref _ _) _ => unfold deref
    | |- msim _ (with_out _) _ => apply with_out_sim
    | |- msim _ (bind _ _) _ => apply msim_bind
    | |- msim _ (attempt _) _ => apply msim_attempt
    | |- msim _ (for_acc _ _ _ _) _ => apply msim_for_acc
    | |- msim _ (if ?b then _ else _) _ => destruct b
    | |- msim _ (match ?x with _ => _ end) _ => destruct x
    | |- msim _ (on_snd _) _ => apply msim_on_snd
    | _ => solve [auto with sim]
    end).

Lemma sb_rmw_sim {A} e fs path fi (f : DiskInode → Z * DiskInode * A) :
  msim vfs_rel (sb_rmw_diskinode e fs path fi f) (sb_rmw_diskinode e fs path fi f).
Proof. unfold sb_rmw_diskinode. vsim. Qed.
#[local] Hint Resolve sb_rmw_sim : sim.

Lemma read_dir_block_sim e p b : msim vfs_rel (read_dir_block e p b) (read_dir_block e p b).
Proof. unfold read_dir_block. vsim. Qed.
#[local] Hint Resolve read_dir_block_sim : sim.

Lemma vfs_step_sim fs e op :
  (∀ fh ds, op ≠ OpFsync fh ds) → msim vfs_rel (vfs_step fs e op) (vfs_step (D := store) fs e op).
Proof.
  intros Hop. destruct op; try (by destruct (Hop fh datasync)); simpl; unfold map_res;
    unfold sb_mkdir, sb_readdir, sb_getattr, sb_rmdir, sb_create, sb_unlink, sb_rename, sb_open,
      sb_release, sb_read, sb_write, sb_truncate, sb_statfs, sb_utimens, sb_chmod, sb_chown, rmw;
    vsim.
Qed.

(** [fsync] keeps the relation, and always returns. *)
Lemma sb_fsync_rel fh ds s1 s2 :
  vfs_rel s1 s2 →
  (∃ z, (sb_fsync fh ds s1).1 = Some z) ∧ vfs_rel (sb_fsync fh ds s1).2 s2.
Proof.
  destruct s1 as [f1 [r1 d1]], s2 as [f2 [r2 d2]]. intros (Hf & Hr & HR). simpl in *. subst.
  unfold sb_fsync, bind, fd_get, attempt, on_dev, on_snd, ret. simpl.
  destruct (FDManager_get fh f2) as [p|]; simpl; [|split; [by eexists|done]].
  pose proof (Inode_sync_keeps p (ds =? 0) d1 d2 HR) as Hk.
  destruct (Inode_sync p (ds =? 0) d1) as [[[]|] d1']; simpl in *; split; (done || by eexists).
Qed.
End sim.

(** The abstract device's [fsync] does not change it either. *)
Lemma sb_fsync_store fh ds (s : VFS (D := store)) :
  store_wf s.2.2 → (∃ z, (sb_fsync fh ds s).1 = Some z) ∧ (sb_fsync fh ds s).2 = s.
Proof.
  intros Hs. destruct (sb_fsync_rel (D := store) fh ds s s) as [Hz [Hf [Hr [Hd _]]]].
  { split; [done|]. split; [done|]. by split. }
  split; [done|]. destruct (sb_fsync fh ds s) as [r [f [x d]]], s as [f' [x' d']]; simpl in *. congruence.
Qed.

Section refinement.
Context {D : Type} `{BlkDevSpec D}.

Lemma vfs_run_sim fs ops : msim vfs_rel (vfs_run fs ops) (vfs_run (D := store) fs ops).
Proof.
  induction ops as [|[e op] ops IH]; simpl; [apply msim_ret|].
  assert (Htail : ∀ r1 r2, observe op r1 = observe op r2 →
    msim vfs_rel (rs <- vfs_run fs ops;; ret (observe op r1 :: rs))
      (rs <- vfs_run (D := store) fs ops;; ret (observe op r2 :: rs))).
  { intros r1 r2 ->. apply msim_bind; [done|]. intros rs. apply msim_ret. }
  assert (Hop : (∃ fh ds, op = OpFsync fh ds) ∨ ¬ ∃ fh ds, op = OpFsync fh ds)
    by (destruct op; (by left; eexists _, _) || (right; by intros (? & ? & ?))).
  destruct Hop as [(fh & ds & ->)|Hn].
  - intros s1 s2 HR. cbn [vfs_step].
    destruct (sb_fsync_rel fh ds s1 s2 HR) as [[z1 Hz1] HR1].
    destruct (sb_fsync_store fh ds s2) as [[z2 Hz2] Hs2]; [by eapply dev_rel_wf, HR|].
    destruct (sb_fsync fh ds s1) as [r1 s1'] eqn:E1, (sb_fsync (D := store) fh ds s2) as [r2 s2'] eqn:E2.
    simpl in *. subst. unfold map_res.
    rewrite (bind_Some _ _ s1 (RInt z1) s1') by (by rewrite (bind_Some _ _ _ _ _ E1)).
    rewrite (bind_Some _ _ s2 (RInt z2) s2) by (by rewrite (bind_Some _ _ _ _ _ E2)).
    by apply (Htail (RInt z1) (RInt z2)).
  - apply msim_bind; [|intros r; by apply Htail].
    apply vfs_step_sim. intros fh ds ->. apply Hn. by exists fh, ds.
Qed.
End refinement.

(** ** Over the cached disk *)

Section cached.
Context {R : Type} `{RawDiskLaws R}.

(** The state after [init_vfs] on a disk file that holds [m]. *)
Definition mounted (cache_size : Z) (d : R) (file_size : Z) : VFS :=
  init_state (BlockDevice_new cache_size d file_size).

Lemma mounted_rel cs d sz m :
  0 < cs / kBlockSize → on_disk d m → vfs_rel (mounted cs d sz) (init_state m).
Proof. intros Hcs Hd. split; [done|]. split; [done|]. by apply new_device_rel. Qed.

Lemma sb_destroy_on_disk (s1 : VFS) (s2 : VFS (D := store)) :
  vfs_rel s1 s2 → on_disk (fd_ (sb_destroy s1).2.2.2) s2.2.2.
Proof.
  destruct s1 as [f1 [r1 dev]], s2 as [f2 [r2 m]]. intros (_ & _ & HR). simpl in *.
  destruct (sync_all_on_disk dev m HR) as (dev' & Hrun & Hd).
  unfold sb_destroy, bind, attempt, on_dev, on_snd, ret. simpl.
  rewrite Hrun. done.
Qed.
End cached.
