(* ===== verification/Concurrent.v ===== *)
(** * Calls from several threads ([src/vfs.cpp])

    libfuse calls the handlers from several threads at once.  Each handler
    holds the mutex [mtx] by a [lock_guard] from its first statement to its
    end.  Here a call goes through five steps, between which other threads
    may run: it is made, takes the mutex, reads the state of the file
    system, writes the state the handler has computed from what it read,
    gives the mutex back, and returns.  Reading and writing are separate
    steps, so that without the mutex calls would overwrite each other's
    work.

    The result ([exec_linearizes]): whatever the interleaving, there is an
    order of the calls, in which a call that had returned before another
    was made comes first, such that the calls made one after the other in
    this order return the same results and leave the same state.  And no
    call waits forever ([exec_progress], [work_decreases]). *)

From S2P Require Import Prelude Bytes Config BlkIface LruCache BlkDevice Layout InodeIO DiskInode Sbfs Inode FdManager PathResolver Vfs VfsRefine.

Abbreviation call := (env * vfs_op)%type.

Section concurrent.
Context {D : Type} `{BlkDev D} (fs : SBFileSystem).

(** Where a thread is in the handler of its call, the [k]-th that was made. *)
Inductive phase :=
  | Called (k : nat) (c : call)                  (* before [lock_guard(mtx)] *)
  | Locked (k : nat) (c : call)                  (* holds the mutex *)
  | Loaded (k : nat) (c : call) (st : VFS (D := D))   (* has read the state *)
  | Stored (k : nat) (r : vfs_res)               (* has written it back *)
  | Released (k : nat) (r : vfs_res).            (* before the caller gets the result *)

Definition call_id (p : phase) : nat :=
  match p with Called k _ | Locked k _ | Loaded k _ _ | Stored k _ | Released k _ => k end.

(** Inside the scope of the guard. *)
Definition guarded (p : phase) : bool :=
  match p with Locked _ _ | Loaded _ _ _ | Stored _ _ => true | _ => false end.

(** The shared state: [sbfs], [path_resolver] and [fd_manager]; [mtx], with
    the thread that holds it; and the threads that are in a handler. *)
Record conf := mkConf {
  c_vfs : VFS (D := D);
  c_mtx : option nat;
  c_threads : gmap nat phase;
  c_next : nat;
}.

Definition c_init (st : VFS (D := D)) : conf := mkConf st None ∅ 0.

Definition set_thread (t : nat) (p : phase) (c : conf) : conf :=
  mkConf (c_vfs c) (c_mtx c) (<[t := p]> (c_threads c)) (c_next c).
Definition set_mtx (m : option nat) (c : conf) : conf := mkConf (c_vfs c) m (c_threads c) (c_next c).
Definition set_vfs (st : VFS (D := D)) (c : conf) : conf := mkConf st (c_mtx c) (c_threads c) (c_next c).

(** What the callers see. *)
Inductive event := ECall (k : nat) (c : call) | ERet (k : nat) (r : vfs_res).

(** One step of thread [t]. *)
Inductive cstep : conf → list event → conf → Prop :=
  | cs_call c t cl :
      c_threads c !! t = None →
      cstep c [ECall (c_next c) cl]
        (mkConf (c_vfs c) (c_mtx c) (<[t := Called (c_next c) cl]> (c_threads c)) (S (c_next c)))
  | cs_lock c t k cl :
      c_threads c !! t = Some (Called k cl) → c_mtx c = None →
      cstep c [] (set_mtx (Some t) (set_thread t (Locked k cl) c))
  | cs_load c t k cl :
      c_threads c !! t = Some (Locked k cl) →
      cstep c [] (set_thread t (Loaded k cl (c_vfs c)) c)
  | cs_store c t k cl st r st' :
      c_threads c !! t = Some (Loaded k cl st) → vfs_step fs cl.1 cl.2 st = (Some r, st') →
      cstep c [] (set_vfs st' (set_thread t (Stored k r) c))
  | cs_unlock c t k r :
      c_threads c !! t = Some (Stored k r) →
      cstep c [] (set_mtx None (set_thread t (Released k r) c))
  | cs_return c t k r :
      c_threads c !! t = Some (Released k r) →
      cstep c [ERet k r] (mkConf (c_vfs c) (c_mtx c) (delete t (c_threads c)) (c_next c)).

(** Executions, with what the callers saw. *)
Inductive exec (c0 : conf) : list event → conf → Prop :=
  | exec_nil : exec c0 [] c0
  | exec_step tr c es c' : exec c0 tr c → cstep c es c' → exec c0 (tr ++ es) c'.

(** ** Orders of calls *)

(** Calls in some order, with their results. *)
Definition history : Type := list (nat * call * vfs_res).

Definition h_ids (h : history) : list nat := (λ x, x.1.1) <$> h.
Definition h_calls (h : history) : list call := (λ x, x.1.2) <$> h.
Definition h_results (h : history) : list vfs_res := (λ x, observe x.1.2.2 x.2) <$> h.

Definition precedes (h : history) (k1 k2 : nat) : Prop :=
  ∃ a b, h = a ++ b ∧ k1 ∈ h_ids a ∧ k2 ∈ h_ids b.

(** The order [h] explains what the callers saw: a call that returned is in
    it, with the result it returned, and comes before all calls that were
    made later. *)
Record explains (h : history) (tr : list event) : Prop := {
  ex_once : NoDup (h_ids h);
  ex_called k cl r : (k, cl, r) ∈ h → ECall k cl ∈ tr;
  ex_returned k r : ERet k r ∈ tr → ∃ cl, (k, cl, r) ∈ h;
  ex_order i j k1 r k2 cl : tr !! i = Some (ERet k1 r) → tr !! j = Some (ECall k2 cl) → (i < j)%nat →
    k2 ∈ h_ids h → precedes h k1 k2;
}.

(** The calls, one after the other in the order [h], have these results and
    lead to [st']. *)
Definition runs (h : history) (st st' : VFS (D := D)) : Prop := vfs_run fs (h_calls h) st = (Some (h_results h), st').

Lemma vfs_run_snoc ops e op st rs st1 r st2 :
  vfs_run fs ops st = (Some rs, st1) → vfs_step fs e op st1 = (Some r, st2) →
  vfs_run fs (ops ++ [(e, op)]) st = (Some (rs ++ [observe op r]), st2).
Proof.
  revert st rs. induction ops as [|[e0 op0] ops IH]; intros st rs Hrun Hstep; cbn [vfs_run app] in *.
  - injection Hrun as <- <-. by rewrite (bind_Some _ _ _ _ _ Hstep).
  - unfold bind at 1 in Hrun. destruct (vfs_step fs e0 op0 st) as [[r0|] s0] eqn:H0; [|done].
    rewrite (bind_Some _ _ _ _ _ H0). unfold bind in Hrun. destruct (vfs_run fs ops s0) as [[rs0|] s1] eqn:H1; [|done].
    injection Hrun as <- <-. by rewrite (bind_Some _ _ _ _ _ (IH s0 rs0 H1 Hstep)).
Qed.

Lemma in_history h k cl r : (k, cl, r) ∈ h → k ∈ h_ids h.
Proof. intros Hin. apply list_elem_of_fmap. by exists (k, cl, r). Qed.

Lemma precedes_snoc h x k1 k2 : precedes h k1 k2 → precedes (h ++ [x]) k1 k2.
Proof.
  intros (a & b & -> & Ha & Hb). exists a, (b ++ [x]). rewrite <- app_assoc. split; [done|]. split; [done|].
  unfold h_ids in *. rewrite fmap_app. apply elem_of_app. by left.
Qed.

Lemma precedes_last h x k1 : k1 ∈ h_ids h → precedes (h ++ [x]) k1 x.1.1.
Proof. intros Hk. exists h, [x]. split; [done|]. split; [done|]. by apply list_elem_of_singleton. Qed.

(** ** The orders of longer executions *)

(** An event is seen: a call that is in no order yet, or the result of one that is. *)
Lemma explains_event tr h ev :
  explains h tr → (∀ k cl, ev = ECall k cl → k ∉ h_ids h) → (∀ k r, ev = ERet k r → ∃ cl, (k, cl, r) ∈ h) →
  explains h (tr ++ [ev]).
Proof.
  intros [Honce Hcall Hret Hord] Hnew Hdone. split; [done| | |].
  - intros k cl r Hin. apply elem_of_app. left. by apply (Hcall k cl r).
  - intros k r [Hin|Hin%list_elem_of_singleton]%elem_of_app; [by apply Hret|by apply Hdone].
  - intros i j k1 r k2 cl Hi Hj Hij Hk2. pose proof (lookup_lt_Some _ _ _ Hj) as Hlj. rewrite length_app in Hlj. simpl in Hlj.
    rewrite lookup_app_l in Hi by lia. destruct (decide (j < length tr)%nat) as [Hlt|Hge].
    + rewrite lookup_app_l in Hj by done. by apply (Hord i j k1 r k2 cl).
    + assert (j = length tr) as -> by lia. rewrite lookup_app_r, Nat.sub_diag in Hj by lia. injection Hj as ->.
      by destruct (Hnew k2 cl).
Qed.

(** A handler writes its state: its call is the last in the order. *)
Lemma explains_store tr h k cl r :
  explains h tr → k ∉ h_ids h → ECall k cl ∈ tr → explains (h ++ [(k, cl, r)]) tr.
Proof.
  intros [Honce Hcall Hret Hord] Hk Hin. split.
  - unfold h_ids. rewrite fmap_app. apply NoDup_app. split; [done|]. split; [|by apply NoDup_singleton].
    intros x Hx ->%list_elem_of_singleton. done.
  - intros k' cl' r' [Hx|Hx%list_elem_of_singleton]%elem_of_app; [by apply (Hcall k' cl' r')|by injection Hx as -> -> ->].
  - intros k' r' (cl' & Hx)%Hret. exists cl'. apply elem_of_app. by left.
  - intros i j k1 r1 k2 cl2 Hi Hj Hij. unfold h_ids at 1. rewrite fmap_app.
    intros [Hk2|Hk2%list_elem_of_singleton]%elem_of_app; [by apply precedes_snoc, (Hord i j k1 r1 k2 cl2)|].
    rewrite Hk2. apply precedes_last. destruct (Hret k1 r1) as (cl1 & Hx); [by eapply list_elem_of_lookup_2|].
    by eapply in_history.
Qed.

Lemma runs_store st h st' k cl r st2 :
  runs h st st' → vfs_step fs cl.1 cl.2 st' = (Some r, st2) → runs (h ++ [(k, cl, r)]) st st2.
Proof.
  intros Hrun Hstep. unfold runs, h_calls, h_results. rewrite !fmap_app. destruct cl as [e op].
  by apply vfs_run_snoc with (st1 := st').
Qed.

Lemma runs_undefined h st st' cl :
  runs h st st' → (vfs_step fs cl.1 cl.2 st').1 = None → (vfs_run fs (h_calls h ++ [cl]) st).1 = None.
Proof.
  intros Hrun Hstep. destruct cl as [e op]. cbn [fst snd] in Hstep. unfold runs in Hrun. revert Hrun. generalize (h_results h) (h_calls h). intros rs ops.
  revert st rs. induction ops as [|[e0 op0] ops IH]; intros st rs Hrun; cbn [vfs_run app] in *.
  - injection Hrun as _ ->. unfold bind. by destruct (vfs_step fs e op st') as [[]].
  - unfold bind at 1 in Hrun. destruct (vfs_step fs e0 op0 st) as [[r0|] s0] eqn:H0; [|done].
    unfold bind in Hrun. destruct (vfs_run fs ops s0) as [[rs0|] s1] eqn:H1; [|done]. injection Hrun as _ ->.
    rewrite (bind_Some _ _ _ _ _ H0). specialize (IH s0 rs0 H1). unfold bind. by destruct (vfs_run fs _ s0) as [[]].
Qed.

(** ** The invariant *)

Definition phase_ok (tr : list event) (h : history) (st : VFS (D := D)) (p : phase) : Prop :=
  match p with
  | Called k cl | Locked k cl => ECall k cl ∈ tr ∧ k ∉ h_ids h
  | Loaded k cl snap => ECall k cl ∈ tr ∧ (k ∉ h_ids h) ∧ snap = st
  | Stored k r | Released k r => ∃ cl, (k, cl, r) ∈ h
  end.

(** No two threads are in the same call. *)
Definition apart (th : gmap nat phase) : Prop :=
  ∀ t1 t2 p1 p2, th !! t1 = Some p1 → th !! t2 = Some p2 → call_id p1 = call_id p2 → t1 = t2.

(** The mutex is held by the one thread that is in the scope of its guard. *)
Definition holder (th : gmap nat phase) (m : option nat) : Prop :=
  ∀ t, m = Some t ↔ ∃ p, th !! t = Some p ∧ guarded p = true.

Record cinv (st : VFS (D := D)) (tr : list event) (h : history) (c : conf) : Prop := {
  ci_explains : explains h tr;
  ci_runs : runs h st (c_vfs c);
  ci_next k cl : ECall k cl ∈ tr → (k < c_next c)%nat;
  ci_phase t p : c_threads c !! t = Some p → phase_ok tr h (c_vfs c) p;
  ci_apart : apart (c_threads c);
  ci_mtx : holder (c_threads c) (c_mtx c);
}.

(** Mutual exclusion. *)
Lemma holder_one th m t1 t2 p1 p2 : holder th m → th !! t1 = Some p1 → th !! t2 = Some p2 →
  guarded p1 = true → guarded p2 = true → t1 = t2.
Proof.
  intros Hm H1 H2 G1 G2. assert (m = Some t1) by (apply Hm; by exists p1).
  assert (m = Some t2) by (apply Hm; by exists p2). congruence.
Qed.

Lemma holder_lock th t p : holder th None → guarded p = true → holder (<[t := p]> th) (Some t).
Proof.
  intros Hm Hp t'. split; [intros [= <-]; exists p; by rewrite lookup_insert_eq|].
  intros (q & [[-> _]|[_ Hq]]%lookup_insert_Some & Hg); [done|]. by assert (None = Some t') by (apply Hm; by exists q).
Qed.

Lemma holder_keep th m t p p' : holder th m → th !! t = Some p → guarded p' = guarded p → holder (<[t := p']> th) m.
Proof.
  intros Hm Ht Hg t'. rewrite (Hm t'). destruct (decide (t = t')) as [->|Hne].
  - rewrite lookup_insert_eq, Ht. split; intros (q & [= <-] & Hq); eexists; (split; [done|congruence]).
  - by rewrite lookup_insert_ne.
Qed.

Lemma holder_unlock th m t p p' : holder th m → th !! t = Some p → guarded p = true → guarded p' = false →
  holder (<[t := p']> th) None.
Proof.
  intros Hm Ht Hp Hp' t'. split; [done|]. intros (q & [[-> <-]|[Hne Hq]]%lookup_insert_Some & Hg); [congruence|].
  by destruct Hne; eapply holder_one.
Qed.

Lemma holder_delete th m t p : holder th m → th !! t = Some p → guarded p = false → holder (delete t th) m.
Proof.
  intros Hm Ht Hg t'. rewrite (Hm t'). destruct (decide (t = t')) as [->|Hne].
  - rewrite lookup_delete_eq, Ht. split; [intros (q & [= <-] & Hq); congruence|by intros (q & ? & _)].
  - by rewrite lookup_delete_ne.
Qed.

Lemma apart_insert th t p p' : apart th → th !! t = Some p → call_id p' = call_id p → apart (<[t := p']> th).
Proof.
  intros Ha Ht Hid t1 t2 p1 p2 [[-> <-]|[_ H1]]%lookup_insert_Some [[-> <-]|[_ H2]]%lookup_insert_Some He;
    [done|eapply Ha; eauto; congruence..|by eapply Ha].
Qed.

Lemma phase_id tr h st p : (∀ k cl r, (k, cl, r) ∈ h → ECall k cl ∈ tr) → phase_ok tr h st p → ∃ cl, ECall (call_id p) cl ∈ tr.
Proof.
  intros Hh. destruct p; simpl; [intros [? _]; by eexists..|intros (? & ? & _); by eexists| |];
    intros (cl & Hin); exists cl; by eapply Hh.
Qed.

Lemma phase_mono tr tr' h h' st p :
  (∀ ev, ev ∈ tr → ev ∈ tr') → (∀ x, x ∈ h → x ∈ h') → (call_id p ∈ h_ids h' → call_id p ∈ h_ids h) →
  phase_ok tr h st p → phase_ok tr' h' st p.
Proof.
  intros Htr Hh Hid. destruct p; simpl in *.
  1-2: intros [? Hk]; split; [by apply Htr|by intros ?%Hid].
  1: intros (? & Hk & ?); split; [by apply Htr|split; [by intros ?%Hid|done]].
  all: intros (cl & ?); exists cl; by apply Hh.
Qed.

(** A thread goes on; nothing else changes. *)
Lemma cinv_thread st tr h c t p p' m : cinv st tr h c → c_threads c !! t = Some p → call_id p' = call_id p →
  phase_ok tr h (c_vfs c) p' → holder (<[t := p']> (c_threads c)) m → cinv st tr h (set_mtx m (set_thread t p' c)).
Proof.
  intros [X L N Ph A Hm] Ht Hid Hp' Hm'. split; cbn; [done|done|done| |by eapply apart_insert|done].
  intros t' q [[_ <-]|[_ Hq]]%lookup_insert_Some; [done|by eapply Ph].
Qed.

Lemma cinv_call st tr h c t cl : cinv st tr h c → c_threads c !! t = None →
  cinv st (tr ++ [ECall (c_next c) cl]) h
    (mkConf (c_vfs c) (c_mtx c) (<[t := Called (c_next c) cl]> (c_threads c)) (S (c_next c))).
Proof.
  intros [X L N Ph A Hm] Ht. pose proof (ex_called _ _ X) as Hcalled.
  assert (Hnew : c_next c ∉ h_ids h).
  { intros ([[k cl'] r] & Hk & Hin)%list_elem_of_fmap. apply Hcalled, N in Hin. cbn in Hk. lia. }
  assert (Hold : ∀ t' p, c_threads c !! t' = Some p → call_id p ≠ c_next c).
  { intros t' p Hp Heq. destruct (phase_id _ _ _ _ Hcalled (Ph t' p Hp)) as (cl' & Hin%N). lia. }
  split; cbn.
  - apply explains_event; [done| |done]. by intros k cl' [= <- _].
  - done.
  - intros k cl' [Hin%N|[= -> _]%list_elem_of_singleton]%elem_of_app; lia.
  - intros t' p [[_ <-]|[_ Hp]]%lookup_insert_Some.
    + split; [|done]. apply elem_of_app. right. by apply list_elem_of_singleton.
    + apply (phase_mono tr _ h h); [|done|done|by eapply Ph]. intros ev Hev. apply elem_of_app. by left.
  - intros t1 t2 p1 p2 [[-> <-]|[_ H1]]%lookup_insert_Some [[-> <-]|[_ H2]]%lookup_insert_Some He; [done| | |by eapply A].
    + by destruct (Hold _ _ H2).
    + by destruct (Hold _ _ H1).
  - intros t'. rewrite (Hm t'). destruct (decide (t = t')) as [->|Hne]; [|by rewrite lookup_insert_ne].
    rewrite lookup_insert_eq, Ht. split; [by intros (q & ? & _)|by intros (q & [= <-] & ?)].
Qed.

Lemma cinv_store st tr h c t k cl r st' : cinv st tr h c → c_threads c !! t = Some (Loaded k cl (c_vfs c)) →
  vfs_step fs cl.1 cl.2 (c_vfs c) = (Some r, st') → cinv st tr (h ++ [(k, cl, r)]) (set_vfs st' (set_thread t (Stored k r) c)).
Proof.
  intros [X L N Ph A Hm] Ht Hstep. pose proof (Ph t _ Ht) as (Hin & Hk & _).
  split; cbn; [by apply explains_store|by apply (runs_store _ _ (c_vfs c))|done| |by eapply apart_insert|by eapply holder_keep].
  intros t' q [[_ <-]|[Hne Hq]]%lookup_insert_Some; [exists cl; apply elem_of_app; right; by apply list_elem_of_singleton|].
  assert (Hg : ∀ k0 cl0 s0, q ≠ Loaded k0 cl0 s0).
  { intros k0 cl0 s0 ->. by destruct Hne; eapply holder_one. }
  assert (Hq' : phase_ok tr h st' q) by (pose proof (Ph t' q Hq) as Hp; destruct q; try done; by destruct (Hg k0 c0 st0)).
  revert Hq'. apply phase_mono; [done| |].
  - intros x Hx. apply elem_of_app. by left.
  - unfold h_ids. rewrite fmap_app. intros [?|Heq%list_elem_of_singleton]%elem_of_app; [done|].
    by destruct Hne; eapply (A t t' _ q).
Qed.

Lemma cinv_return st tr h c t k r : cinv st tr h c → c_threads c !! t = Some (Released k r) →
  cinv st (tr ++ [ERet k r]) h (mkConf (c_vfs c) (c_mtx c) (delete t (c_threads c)) (c_next c)).
Proof.
  intros [X L N Ph A Hm] Ht. pose proof (Ph t _ Ht) as (cl & Hin). split; cbn.
  - apply explains_event; [done|done|]. intros k' r' [= <- <-]. by exists cl.
  - done.
  - intros k' cl' [?%N|?%list_elem_of_singleton]%elem_of_app; done.
  - intros t' p [_ Hp]%lookup_delete_Some. apply (phase_mono tr _ h h); [|done|done|by eapply Ph].
    intros ev Hev. apply elem_of_app. by left.
  - intros t1 t2 p1 p2 [_ H1]%lookup_delete_Some [_ H2]%lookup_delete_Some. by apply A.
  - by eapply holder_delete.
Qed.

Lemma cinv_step st tr h c es c' : cinv st tr h c → cstep c es c' → ∃ h', cinv st (tr ++ es) h' c'.
Proof.
  intros Hc Hstep. pose proof Hc as [X L N Ph A Hm]. destruct Hstep as
    [c t cl Ht|c t k cl Ht Hfree|c t k cl Ht|c t k cl snap r st' Ht Hrun|c t k r Ht|c t k r Ht]; rewrite ?app_nil_r.
  - exists h. by apply cinv_call.
  - exists h. apply (cinv_thread st tr h c t (Called k cl)); [done|done|done|by apply (Ph t (Called k cl))|].
    apply holder_lock; [by rewrite <- Hfree|done].
  - exists h. destruct c as [v m th n]. apply (cinv_thread st tr h (mkConf v m th n) t (Locked k cl) _ m); [done|done|done| |by eapply holder_keep].
    by destruct (Ph t (Locked k cl) Ht).
  - pose proof (Ph t _ Ht) as (_ & _ & ->). exists (h ++ [(k, cl, r)]). by apply cinv_store.
  - exists h. apply (cinv_thread st tr h c t (Stored k r)); [done|done|done|by apply (Ph t (Stored k r))|by eapply holder_unlock].
  - exists h. by apply cinv_return.
Qed.

Lemma cinv_init st : cinv st [] [] (c_init st).
Proof.
  split; cbn; try (intros *; by rewrite lookup_empty); try by intros ? ? ?%not_elem_of_nil.
  - split; [by apply NoDup_nil|by intros ? ? ? ?%not_elem_of_nil|by intros ? ? ?%not_elem_of_nil|].
    intros i j k1 r k2 cl Hi. by rewrite lookup_nil in Hi.
  - done.
  - intros t1 t2 p1 p2 H1. by rewrite lookup_empty in H1.
  - intros t. split; [done|]. intros (p & Hp & _). by rewrite lookup_empty in Hp.
Qed.

Lemma exec_cinv st tr c : exec (c_init st) tr c → ∃ h, cinv st tr h c.
Proof.
  induction 1 as [|tr c es c' _ [h Hc] Hstep]; [exists []; apply cinv_init|]. by apply (cinv_step st tr h c).
Qed.

(** Every execution can be explained by an order of its calls. *)
Lemma exec_linearizes st tr c : exec (c_init st) tr c → ∃ h, explains h tr ∧ runs h st (c_vfs c).
Proof. intros (h & [X L _ _ _ _])%exec_cinv. by exists h. Qed.

(** ** No call waits forever *)

(** The steps a call has left. *)
Definition phase_work (p : phase) : nat :=
  match p with Called _ _ => 5 | Locked _ _ => 4 | Loaded _ _ _ => 3 | Stored _ _ => 2 | Released _ _ => 1 end.

Definition work (c : conf) : nat := map_fold (λ _ p n, (phase_work p + n)%nat) 0%nat (c_threads c).

Lemma work_delete (th : gmap nat phase) t p : th !! t = Some p →
  map_fold (λ _ p n, (phase_work p + n)%nat) 0%nat th =
  (phase_work p + map_fold (λ _ p n, (phase_work p + n)%nat) 0%nat (delete t th))%nat.
Proof. intros Ht. by rewrite (map_fold_delete_L _ 0%nat t p th); [|intros; lia|]. Qed.

Lemma work_insert (th : gmap nat phase) t p p' : th !! t = Some p → (phase_work p' < phase_work p)%nat →
  (map_fold (λ _ p n, (phase_work p + n)%nat) 0%nat (<[t := p']> th) <
   map_fold (λ _ p n, (phase_work p + n)%nat) 0%nat th)%nat.
Proof.
  intros Ht Hlt. rewrite (work_delete th t p Ht). rewrite <- insert_delete_eq.
  rewrite map_fold_insert_L; [lia|intros; lia|apply lookup_delete_eq].
Qed.

Definition is_call (es : list event) : Prop := ∃ k cl, es = [ECall k cl].

(** Every step but the making of a call is a step towards the end. *)
Lemma work_decreases c es c' : cstep c es c' → is_call es ∨ (work c' < work c)%nat.
Proof.
  intros Hstep. destruct Hstep as [c t cl Ht|c t k cl Ht _|c t k cl Ht|c t k cl snap r st' Ht _|c t k r Ht|c t k r Ht];
    [left; by eexists _, _|right; eapply work_insert; [exact Ht|simpl; lia]..|right].
  unfold work. cbn [c_threads]. rewrite (work_delete _ _ _ Ht). simpl. lia.
Qed.

(** A handler whose behaviour is undefined. *)
Definition undefined (c : conf) : Prop :=
  ∃ t k cl, c_threads c !! t = Some (Loaded k cl (c_vfs c)) ∧ (vfs_step fs cl.1 cl.2 (c_vfs c)).1 = None.

(** No deadlock. *)
Lemma cinv_progress st tr h c : cinv st tr h c → c_threads c ≠ ∅ →
  undefined c ∨ ∃ es c', cstep c es c' ∧ ¬ is_call es ∧ (work c' < work c)%nat.
Proof.
  intros [X L N Ph A Hm] Hne.
  cut (undefined c ∨ ∃ es c', cstep c es c' ∧ ¬ is_call es).
  { intros [?|(es & c' & Hs & Hn)]; [by left|right]. exists es, c'. split; [done|]. split; [done|]. by destruct (work_decreases c es c' Hs). }
  assert (Hno : ∀ es, es = [] → ¬ is_call es) by (intros es -> (? & ? & ?); done).
  destruct (c_mtx c) as [t|] eqn:Hmtx.
  - destruct (proj1 (Hm t) eq_refl) as (p & Hp & Hg). pose proof (Ph t p Hp) as Hok. destruct p as [| k cl|k cl snap|k r|]; try done.
    + right. eexists [], _. split; [by apply (cs_load c t k cl)|by apply Hno].
    + destruct Hok as (_ & _ & ->). destruct (vfs_step fs cl.1 cl.2 (c_vfs c)) as [[r|] st'] eqn:Hrun.
      * right. eexists [], _. split; [by apply (cs_store c t k cl (c_vfs c) r st')|by apply Hno].
      * left. exists t, k, cl. by rewrite Hrun.
    + right. eexists [], _. split; [by apply (cs_unlock c t k r)|by apply Hno].
  - apply map_choose in Hne as (t & p & Hp). assert (Hg : guarded p ≠ true).
    { intros Hg. assert (None = Some t) by (apply Hm; by exists p). done. }
    right. destruct p as [k cl| | | |k r]; try by destruct Hg.
    + eexists [], _. split; [by apply (cs_lock c t k cl)|by apply Hno].
    + eexists [ERet k r], _. split; [by apply (cs_return c t k r)|]. by intros (? & ? & ?).
Qed.

Lemma cstep_no_call c es c' : cstep c es c' → ¬ is_call es → ∀ k cl, ECall k cl ∉ es.
Proof.
  intros Hstep Hno k cl Hin. destruct Hstep; try by apply not_elem_of_nil in Hin.
  - apply Hno. by eexists _, _.
  - by apply list_elem_of_singleton in Hin.
Qed.

(** From every reachable configuration, the calls that were made can be
    finished. *)
Lemma exec_progress st tr c : exec (c_init st) tr c →
  ∃ tr' c', exec (c_init st) (tr ++ tr') c' ∧ (∀ k cl, ECall k cl ∉ tr') ∧ (c_threads c' = ∅ ∨ undefined c').
Proof.
  intros Hex. remember (work c) as n eqn:Hn. revert tr c Hex Hn. induction n as [n IH] using lt_wf_ind. intros tr c Hex ->.
  destruct (decide (c_threads c = ∅)) as [He|Hne].
  { exists [], c. rewrite app_nil_r. split; [done|]. split; [by intros k cl ?%not_elem_of_nil|by left]. }
  destruct (exec_cinv st tr c Hex) as (h & Hc). destruct (cinv_progress st tr h c Hc Hne) as [Hu|(es & c1 & Hstep & Hno & Hlt)].
  { exists [], c. rewrite app_nil_r. split; [done|]. split; [by intros k cl ?%not_elem_of_nil|by right]. }
  destruct (IH (work c1) Hlt (tr ++ es) c1) as (tr' & c' & Hex' & Hno' & Hend); [by econstructor|done|].
  exists (es ++ tr'), c'. rewrite app_assoc. split; [done|]. split; [|done].
  intros k cl [Hin|Hin]%elem_of_app; [by apply (cstep_no_call c es c1 Hstep Hno k cl)|by apply (Hno' k cl)].
Qed.

(** ** Calls one after the other *)

(** A thread that has made its call goes through it, and no other thread runs. *)
Lemma exec_serve c0 tr st n th t k cl r st' :
  exec c0 tr (mkConf st None th n) → th !! t = Some (Called k cl) → vfs_step fs cl.1 cl.2 st = (Some r, st') →
  exec c0 (tr ++ [ERet k r]) (mkConf st' None (delete t th) n).
Proof.
  intros Hex Ht Hstep. set (th2 := <[t := Locked k cl]> th).
  set (th3 := <[t := Loaded k cl st]> th2). set (th4 := <[t := Stored k r]> th3). set (th5 := <[t := Released k r]> th4).
  assert (S2 : cstep (mkConf st None th n) [] (mkConf st (Some t) th2 n)) by by apply (cs_lock (mkConf st None th n)).
  assert (S3 : cstep (mkConf st (Some t) th2 n) [] (mkConf st (Some t) th3 n))
    by apply (cs_load (mkConf st (Some t) th2 n)), lookup_insert_eq.
  assert (S4 : cstep (mkConf st (Some t) th3 n) [] (mkConf st' (Some t) th4 n))
    by by apply (cs_store (mkConf st (Some t) th3 n) t k cl st r st'); [apply lookup_insert_eq|].
  assert (S5 : cstep (mkConf st' (Some t) th4 n) [] (mkConf st' None th5 n))
    by apply (cs_unlock (mkConf st' (Some t) th4 n)), lookup_insert_eq.
  assert (S6 : cstep (mkConf st' None th5 n) [ERet k r] (mkConf st' None (delete t th5) n))
    by apply (cs_return (mkConf st' None th5 n)), lookup_insert_eq.
  assert (He : delete t th5 = delete t th) by (unfold th5, th4, th3, th2; by rewrite !delete_insert_eq).
  rewrite He in S6. pose proof (exec_step _ _ _ _ _ (exec_step _ _ _ _ _ (exec_step _ _ _ _ _ (exec_step _ _ _ _ _
    (exec_step _ _ _ _ _ Hex S2) S3) S4) S5) S6) as Hall.
  by rewrite !app_nil_r in Hall.
Qed.

(** A thread alone makes a call. *)
Lemma exec_one c0 tr st n e op r st' :
  exec c0 tr (mkConf st None ∅ n) → vfs_step fs e op st = (Some r, st') →
  exec c0 (tr ++ [ECall n (e, op); ERet n r]) (mkConf st' None ∅ (S n)).
Proof.
  intros Hex Hstep. set (th := <[0%nat := Called n (e, op)]> (∅ : gmap nat phase)).
  assert (S1 : cstep (mkConf st None ∅ n) [ECall n (e, op)] (mkConf st None th (S n))) by by apply (cs_call (mkConf st None ∅ n)).
  pose proof (exec_serve c0 _ st (S n) th 0%nat n (e, op) r st' (exec_step _ _ _ _ _ Hex S1) (lookup_insert_eq _ _ _) Hstep) as Hall.
  assert (He : delete 0%nat th = ∅) by (unfold th; by rewrite delete_insert_id).
  by rewrite He, <- app_assoc in Hall.
Qed.

Lemma exec_sequential ops : ∀ c0 tr st n rs st', exec c0 tr (mkConf st None ∅ n) → vfs_run fs ops st = (Some rs, st') →
  ∃ tr' n', exec c0 (tr ++ tr') (mkConf st' None ∅ n').
Proof.
  induction ops as [|[e op] ops IH]; intros c0 tr st n rs st' Hex Hrun; cbn [vfs_run] in Hrun.
  { injection Hrun as _ <-. exists [], n. by rewrite app_nil_r. }
  unfold bind at 1 in Hrun. destruct (vfs_step fs e op st) as [[r|] s1] eqn:H1; [|done].
  unfold bind in Hrun. destruct (vfs_run fs ops s1) as [[rs1|] s2] eqn:H2; [|done]. injection Hrun as _ <-.
  destruct (IH c0 _ s1 (S n) rs1 s2 (exec_one c0 tr st n e op r s1 Hex H1) H2) as (tr' & n' & Hex').
  exists ([ECall n (e, op); ERet n r] ++ tr'), n'. by rewrite app_assoc.
Qed.
End concurrent.
