(* ===== verification/Main.v ===== *)
(** * The program ([src/main.cpp])

    [main] parses the options, initialises the file system on the disk file
    they name, and enters the loop of libfuse, which calls the handlers
    from several threads until the file system is unmounted, and then
    [sb_destroy].  What is not in the sources is a parameter: [fuse_opt_parse],
    and the disk files, by path, as [open] with [O_CREAT], [ftruncate] and
    [stat] give them.  [run_sessions] are several uses of one disk file, one
    after the other. *)

From S2P Require Import Prelude Bytes Config BlkIface LruCache BlkDevice Layout InodeIO DiskInode Sbfs Inode FdManager PathResolver Vfs VfsRefine Concurrent.

Record options := mkOptions { disk_path : bytes; opt_is_open : Z }.

(** ["/tmp/disk"], and not [--open]. *)
Definition default_options : options :=
  mkOptions [Byte.x2f; Byte.x74; Byte.x6d; Byte.x70; Byte.x2f; Byte.x64; Byte.x69; Byte.x73; Byte.x6b] 0.

Section program.
Context {R : Type} `{RawDisk R}.
Context (fuse_opt_parse : list bytes → options → Z * options) (stat_size : R → Z).

(** A failure of [fuse_opt_parse] is only logged. *)
Definition main_options (argv : list bytes) : options := (fuse_opt_parse argv default_options).2.

(** Up to [fuse_main]: [init_vfs] on the disk file.  A new file system gets
    a file of [kDiskSize] bytes, an old one keeps its size. *)
Definition main_init (e : env) (pad : bytes) (argv : list bytes) (files : bytes → R) :
    option SBFileSystem * BlockDevice R :=
  let opt := main_options argv in
  let is_open := negb (opt_is_open opt =? 0) in
  let file := files (disk_path opt) in
  let size := if is_open then stat_size file else kDiskSize in
  let '(fs, dev) := init_vfs e pad is_open (BlockDevice_new kBlockCacheSize file size) in
  (mjoin fs, dev).

Definition set_file (path : bytes) (file : R) (files : bytes → R) : bytes → R :=
  λ p, if decide (p = path) then file else files p.

(** A run of the program, with the calls and results [tr] that went through
    [fuse_main]; it leaves the disk files as [files']. *)
Inductive main_run (e : env) (pad : bytes) (argv : list bytes) (files : bytes → R) :
    list event → (bytes → R) → Prop :=
  | main_returns fs dev tr c :
      main_init e pad argv files = (Some fs, dev) →
      exec fs (c_init (init_state dev)) tr c → c_threads c = ∅ →
      main_run e pad argv files tr
        (set_file (disk_path (main_options argv)) (fd_ (sb_destroy (c_vfs c)).2.2.2) files).

(** ** One thread, any cache

    The disk file opened through a cache of any size, calls one after the
    other, and [sb_destroy]; and several such sessions. *)

Record session := mkSession { ses_cache : Z; ses_file : Z; ses_calls : list call }.

Definition run_session (x : session) (d : R) : option (SBFileSystem * list vfs_res) * R :=
  let '(o, dev) := SBFileSystem_open (BlockDevice_new (ses_cache x) d (ses_file x)) in
  match mjoin o with
  | None => (None, fd_ dev)
  | Some fs =>
      let '(rs, st) := vfs_run fs (ses_calls x) (init_state dev) in
      ((λ rs, (fs, rs)) <$> rs, fd_ (sb_destroy st).2.2.2)
  end.

Fixpoint run_sessions (xs : list session) (d : R) : list (option (SBFileSystem * list vfs_res)) * R :=
  match xs with
  | [] => ([], d)
  | x :: xs =>
      let '(r, d) := run_session x d in
      let '(rs, d) := run_sessions xs d in
      (r :: rs, d)
  end.
End program.
