(* ===== verification/Frame.v ===== *)
(** * What the operations may change

    No operation creates or destroys a block: over the abstract device,
    every one of them ends with the blocks it started with, each of them
    still [kBlockSize] bytes.  Looking a name up changes nothing at all. *)

From S2P Require Import Prelude Bytes Config BlkIface Bitmap Layout InodeIO DiskInode Sbfs Inode FdManager PathResolver Vfs VfsRefine.

(** The same blocks, well formed if they were. *)
Definition same_blocks (m m' : store) : Prop :=
  (store_wf m → store_wf m') ∧ ∀ b, is_Some (m' !! b) ↔ is_Some (m !! b).

#[export] Instance same_blocks_preorder : PreOrder same_blocks.
Proof.
  split; [by split|]. intros m1 m2 m3 [W1 D1] [W2 D2]. split; [auto|].
  intros b. by rewrite D2.
Qed.

Lemma map_read_steps (R : store → store → Prop) `{!PreOrder R} b : msteps R (dev_read (D := store) b).
Proof. intros m. simpl. reflexivity. Qed.

Lemma map_write_steps b x : msteps same_blocks (dev_write (D := store) b x).
Proof.
  intros m. split; [intros Hm; by apply map_write_wf|]. intros b'. simpl. unfold map_write.
  destruct (m !! u32 b) eqn:Hb; [|done]. simpl. destruct (decide (u32 b = b')) as [<-|].
  - rewrite lookup_insert_eq, Hb. by split; eauto.
  - by rewrite lookup_insert_ne.
Qed.

Lemma map_sync_steps (R : store → store → Prop) `{!PreOrder R} b : msteps R (dev_sync (D := store) b).
Proof. intros m. simpl. reflexivity. Qed.

#[export] Hint Extern 1 (msteps _ (dev_read _)) => apply map_read_steps; apply _ : msteps.
#[export] Hint Extern 1 (msteps _ (dev_sync _)) => apply map_sync_steps; apply _ : msteps.
#[export] Hint Resolve map_write_steps : msteps.

Section reads.
Context (R : store → store → Prop) `{!PreOrder R}.
Abbreviation R2 := (on_snd_rel (I := DiskInode) R).

Lemma block_id_steps di i : msteps R (DiskInode_block_id (D := store) di i).
Proof. unfold DiskInode_block_id. steps_tac. Qed.

Lemma read_inode_steps p : msteps R (Inode_read_inode (D := store) p).
Proof. unfold Inode_read_inode. steps_tac. Qed.

Lemma read_blk_steps di i : msteps R (read_blk (D := store) di i).
Proof. pose proof block_id_steps. unfold read_blk. steps_tac. Qed.

Lemma read_data_steps e off len : msteps R2 (DiskInode_read_data (D := store) e off len).
Proof. pose proof read_blk_steps. unfold DiskInode_read_data, upd_this, this. steps_tac. Qed.

Lemma with_inode_steps {A} di (m : M (DiskInode * store) A) :
  msteps R2 m → msteps R (with_inode di m).
Proof.
  intros Hm s. specialize (Hm (di, s)). unfold with_inode. by destruct (m (di, s)) as [r [di' s']].
Qed.

Lemma returning_steps {A} (m : M (DiskInode * store) A) : msteps R2 m → msteps R2 (returning m).
Proof. intros Hm. unfold returning. steps_tac. Qed.

Lemma scan_dir_steps e nm : msteps R2 (scan_dir (D := store) e nm).
Proof.
  pose proof read_data_steps. unfold scan_dir, this. apply msteps_bind; [apply _|steps_tac|].
  intros di. generalize DirBlock_new, 0. induction (Z.to_nat (total_blocks (size di))) as [|n IH];
    intros blk i; cbn [dir_scan]; unfold check_len; steps_tac.
Qed.

(** [find] only reads. *)
Lemma Inode_find_steps e fs p nm : msteps R (Inode_find (D := store) e fs p nm).
Proof.
  pose proof read_inode_steps. unfold Inode_find. apply msteps_bind; [apply _|done|]. intros di.
  destruct (negb _); [apply msteps_fail; apply _|]. apply msteps_bind; [apply _| |].
  - apply with_inode_steps, scan_dir_steps.
  - intros [[[i j] blk]|]; steps_tac.
Qed.
End reads.

Lemma Inode_find_pure e fs p nm (m : store) : (Inode_find e fs p nm m).2 = m.
Proof. symmetry. apply (Inode_find_steps eq). Qed.

(** What [find] does not find cannot be unlinked. *)
Lemma Inode_unlink_missing e fs p nm (m : store) :
  (Inode_find e fs p nm m).1 = None → Inode_unlink e fs p nm (None, m) = (None, (None, m)).
Proof.
  unfold Inode_find, Inode_unlink, bind, on_snd. cbn [fst snd]. pose proof (read_inode_steps eq p m) as Hr.
  destruct (Inode_read_inode p m) as [[di|] m1]; simpl in Hr; subst m1; [|done].
  destruct (negb _); [done|]. pose proof (scan_dir_steps eq e nm (di, m)) as Hs.
  unfold with_inode, returning, this, bind. cbn [fst snd].
  destruct (scan_dir e nm (di, m)) as [[[[[i j] blk]|]|] [d' m']]; unfold on_snd_rel in Hs; simpl in Hs; subst m'; done.
Qed.

Section writes.
Abbreviation R := same_blocks.
Abbreviation R2 := (on_snd_rel (I := DiskInode) same_blocks).
Abbreviation R3 := (on_snd_rel (I := option Position) same_blocks).

Ltac wsteps := unfold this, upd_this; repeat first
  [ progress steps_tac
  | apply with_inode_steps | apply returning_steps; [apply _|]
  | solve [auto with msteps] ].

Lemma alloc_steps bm : msteps R (Bitmap_alloc (D := store) bm).
Proof.
  unfold Bitmap_alloc. apply msteps_bind; [apply _| |steps_tac]. apply msteps_attempt.
  generalize 0. induction (Z.to_nat (num_blocks bm)) as [|n IH]; intros i; cbn [Bitmap_alloc_from]; steps_tac.
Qed.

Lemma free_steps bm b : msteps R (Bitmap_free (D := store) bm b).
Proof. unfold Bitmap_free. steps_tac. Qed.
#[local] Hint Resolve alloc_steps free_steps : msteps.

Lemma write_inode_steps p di : msteps R (Inode_write_inode (D := store) p di).
Proof. unfold Inode_write_inode. steps_tac. Qed.

Lemma read_inode_steps' p : msteps R (Inode_read_inode (D := store) p).
Proof. apply read_inode_steps. apply _. Qed.
#[local] Hint Resolve write_inode_steps read_inode_steps' : msteps.

Lemma alloc_blk_steps bm : msteps R2 (alloc_blk (D := store) bm).
Proof. unfold alloc_blk. wsteps. Qed.
#[local] Hint Resolve alloc_blk_steps : msteps.

Lemma increase_steps bm a b : msteps R2 (DiskInode_increase (D := store) bm a b).
Proof.
  unfold DiskInode_increase, increase_direct, increase_ind1, increase_ind2, increase_ind2_body. wsteps.
Qed.

Lemma free_all_steps bm fl : msteps R (free_all (D := store) bm fl).
Proof. induction fl; simpl; wsteps. Qed.
#[local] Hint Resolve free_all_steps increase_steps : msteps.

Lemma decrease_steps bm a b pos : msteps R2 (DiskInode_decrease (D := store) bm a b pos).
Proof.
  unfold DiskInode_decrease, decrease_ind1, decrease_ind2, decrease_ind2_all_body,
    decrease_ind2_part_body, write_back_inode. wsteps.
Qed.
#[local] Hint Resolve decrease_steps : msteps.

Lemma resize_steps e bm sz pos : msteps R2 (DiskInode_resize (D := store) e bm sz pos).
Proof. unfold DiskInode_resize, write_back_inode. wsteps. Qed.

Lemma block_id_steps' di i : msteps R (DiskInode_block_id (D := store) di i).
Proof. apply block_id_steps. apply _. Qed.
#[local] Hint Resolve block_id_steps' : msteps.

Lemma write_data_steps e off buf len : msteps R2 (DiskInode_write_data (D := store) e off buf len).
Proof. unfold DiskInode_write_data, patch_blk. wsteps. Qed.

Lemma read_data_steps' e off len : msteps R2 (DiskInode_read_data (D := store) e off len).
Proof. apply read_data_steps. apply _. Qed.

Lemma scan_dir_steps' e nm : msteps R2 (scan_dir (D := store) e nm).
Proof. apply scan_dir_steps. apply _. Qed.
#[local] Hint Resolve resize_steps write_data_steps read_data_steps' scan_dir_steps' : msteps.

Lemma createRoot_steps e fs : msteps R (createRoot (D := store) e fs).
Proof. unfold createRoot, alloc_inode, alloc_data. wsteps. Qed.

Lemma append_steps e fs buf : msteps R2 (append (D := store) e fs buf).
Proof. unfold append, check_len. wsteps. Qed.
#[local] Hint Resolve append_steps : msteps.

Lemma update_link_cnt_steps t d : msteps R (update_link_cnt (D := store) t d).
Proof. unfold update_link_cnt. wsteps. Qed.

Lemma move_last_steps e t i j : msteps R2 (move_last (D := store) e t i j).
Proof. unfold move_last, check_len. wsteps. Qed.

Lemma drop_last_steps e fs p : msteps R2 (drop_last (D := store) e fs p).
Proof. unfold drop_last. wsteps. Qed.
#[local] Hint Resolve update_link_cnt_steps move_last_steps drop_last_steps : msteps.

Lemma Inode_read_data_steps e p off len : msteps R (Inode_read_data (D := store) e p off len).
Proof. unfold Inode_read_data, check_len. wsteps. Qed.

Lemma Inode_write_data_steps e fs p off buf len : msteps R (Inode_write_data (D := store) e fs p off buf len).
Proof. unfold Inode_write_data, check_len. wsteps. Qed.

Lemma Inode_create_steps e fs p nm di : msteps R3 (Inode_create (D := store) e fs p nm di).
Proof. unfold Inode_create, alloc_inode. wsteps. Qed.

Lemma Inode_resize_steps e fs p sz : msteps R (Inode_resize (D := store) e fs p sz).
Proof. unfold Inode_resize. wsteps. Qed.

Lemma Inode_remove_steps e fs p nm : msteps R (Inode_remove (D := store) e fs p nm).
Proof. unfold Inode_remove, free_inode. wsteps. Qed.

Lemma Inode_link_steps e fs p nm t r : msteps R (Inode_link (D := store) e fs p nm t r).
Proof. unfold Inode_link, check_len. wsteps. Qed.

Lemma Inode_unlink_steps e fs p nm : msteps R3 (Inode_unlink (D := store) e fs p nm).
Proof. unfold Inode_unlink. wsteps. Qed.

Lemma create_steps e pad t i : msteps R (SBFileSystem_create (D := store) e pad t i).
Proof. pose proof createRoot_steps. unfold SBFileSystem_create. wsteps. Qed.
End writes.

#[export] Hint Resolve create_steps Inode_read_data_steps Inode_write_data_steps Inode_create_steps
  Inode_resize_steps Inode_remove_steps Inode_link_steps Inode_unlink_steps write_inode_steps
  read_inode_steps' : msteps.

(** ** The handlers *)

Section handlers.
Abbreviation Rr := (on_snd_rel (I := PathResolver) same_blocks).
Abbreviation Rv := (on_snd_rel (I := FDManager) Rr).

Lemma Inode_find_steps' e fs p nm : msteps same_blocks (Inode_find (D := store) e fs p nm).
Proof. apply Inode_find_steps. apply _. Qed.
#[local] Hint Resolve Inode_find_steps' : msteps.

Lemma set_cache_steps c : msteps Rr (set_cache (D := store) c).
Proof. apply msteps_modify; [apply _|done]. Qed.

Lemma evict_steps sz : msteps Rr (PathResolver_evict (D := store) sz).
Proof.
  intros [r m]. unfold PathResolver_evict. simpl.
  destruct (evict_loop _ _ _ _ _) as [[[c it] cs]|]; unfold on_snd_rel; simpl; reflexivity.
Qed.

Lemma removePrefix_steps p : msteps Rr (PathResolver_removePrefix (D := store) p).
Proof.
  intros [r m]. unfold PathResolver_removePrefix. simpl.
  destruct (removeEndSlash p) as [|c p']; [unfold on_snd_rel; simpl; reflexivity|].
  destruct (lower_bound _ _) as [a b]. destruct (erase_loop _ _ _). unfold on_snd_rel. simpl. reflexivity.
Qed.
#[local] Hint Resolve set_cache_steps evict_steps removePrefix_steps : msteps.

Lemma lookup_cache_steps keys : ∀ i cur, msteps Rr (lookup_cache (D := store) keys i cur).
Proof. unfold get_cache in *. induction keys; intros; simpl; unfold get_cache; steps_tac. Qed.

Lemma remember_steps k p : msteps Rr (remember (D := store) k p).
Proof. unfold remember, get_cache. steps_tac. Qed.
#[local] Hint Resolve lookup_cache_steps remember_steps : msteps.

Lemma walk_steps e fs parts : ∀ cur, msteps Rr (walk (D := store) e fs parts cur).
Proof. induction parts as [|[part key] parts IH]; intros cur; simpl; steps_tac. Qed.
#[local] Hint Resolve walk_steps : msteps.

Lemma resolve_steps e fs path : msteps Rr (PathResolver_resolve (D := store) e fs path).
Proof. unfold PathResolver_resolve. steps_tac. Qed.
#[local] Hint Resolve resolve_steps : msteps.

Lemma with_out_steps {A} (m : M (option Position * store) A) :
  msteps (on_snd_rel same_blocks) m → msteps same_blocks (with_out m).
Proof.
  intros Hm s. specialize (Hm (None, s)). unfold with_out. by destruct (m (None, s)) as [r [o s']].
Qed.
#[local] Hint Resolve with_out_steps : msteps.

Lemma fd_open_steps p : msteps Rv (fd_open (D := store) p).
Proof. intros [f s]. unfold fd_open, on_snd_rel. simpl. reflexivity. Qed.

Lemma sync_steps p b : msteps same_blocks (Inode_sync (D := store) p b).
Proof.
  pose proof block_id_steps'. unfold Inode_sync, DiskInode_sync_data. steps_tac.
Qed.
#[local] Hint Resolve fd_open_steps sync_steps : msteps.

Ltac vsteps :=
  unfold deref, on_dev, resolve, removePrefix, fd_get, fd_close, this;
  repeat first [progress steps_tac|apply with_out_steps|solve [auto with msteps]].

Lemma rmw_steps {A} e fs path fi (f : DiskInode → Z * DiskInode * A) :
  msteps Rv (sb_rmw_diskinode (D := store) e fs path fi f).
Proof. unfold sb_rmw_diskinode. vsteps. Qed.

Lemma read_dir_block_steps e p b : msteps Rv (read_dir_block (D := store) e p b).
Proof. unfold read_dir_block. vsteps. Qed.
#[local] Hint Resolve rmw_steps read_dir_block_steps : msteps.

Lemma vfs_step_steps fs e op : msteps Rv (vfs_step (D := store) fs e op).
Proof.
  destruct op; simpl; unfold map_res; unfold sb_mkdir, sb_readdir, sb_getattr, sb_rmdir, sb_create,
    sb_unlink, sb_rename, sb_open, sb_release, sb_read, sb_write, sb_truncate, sb_statfs, sb_fsync,
    sb_utimens, sb_chmod, sb_chown, rmw; vsteps.
Qed.
End handlers.
