(* ===== verification/SbfsProof.v ===== *)
(** * The layout of the disk, and what [create] leaves on it

    Inode ids and positions correspond; [create] lays the parts of the disk
    out one after the other; [open] recovers the handle [create] built.
    The places where the source's arithmetic is off by one are stated as
    theorems too. *)

From S2P Require Import Prelude Bytes Config BlkIface Bitmap DataArea Layout InodeIO DiskInode Sbfs Frame.

(** ** Inode ids and positions *)

(** An inode area that starts at [a] and has room for [n] inodes. *)
Definition ids_ok (fs : SBFileSystem) (n : Z) : Prop :=
  0 ≤ inode_area_start_block_ fs ∧ 0 ≤ n < 2 ^ 32 ∧
  inode_area_start_block_ fs + n / kInodesInABlock < 2 ^ 32.

Lemma kInodesInABlock_eq : kInodesInABlock = 32.
Proof. done. Qed.

Lemma getDiskInodePos_eq fs n i :
  ids_ok fs n → 0 ≤ i ≤ n →
  getDiskInodePos fs i = mkPosition (inode_area_start_block_ fs + i / 32) (i mod 32 * 128).
Proof.
  intros (Ha & Hn & Hb) Hi. unfold getDiskInodePos. rewrite kInodesInABlock_eq in *.
  change sizeof_DiskInode with 128. pose proof (Z.mod_pos_bound i 32).
  pose proof (Z.div_le_mono i n 32). pose proof (Z.div_pos i 32).
  rewrite (u32_small i) by (unfold is_u32; lia). rewrite !u32_small by (unfold is_u32; lia). done.
Qed.

Lemma id_of_pos fs n i :
  ids_ok fs n → 0 ≤ i ≤ n → getDiskInodeId fs (getDiskInodePos fs i) = i.
Proof.
  intros Hok Hi. rewrite (getDiskInodePos_eq fs n) by done. unfold getDiskInodeId. simpl.
  destruct Hok as (Ha & Hn & Hb). rewrite kInodesInABlock_eq in *. change sizeof_DiskInode with 128.
  replace (inode_area_start_block_ fs + i / 32 - inode_area_start_block_ fs) with (i / 32) by lia.
  pose proof (Z.div_mod i 32). pose proof (Z.mod_pos_bound i 32).
  rewrite Z.div_mul by lia. rewrite (u32_small (i / 32 * 32)) by (unfold is_u32; lia).
  rewrite u64_small, u32_small by (unfold is_u32; lia). lia.
Qed.

(** Distinct ids are stored apart, each inside one block. *)
Lemma pos_apart fs n i j :
  ids_ok fs n → 0 ≤ i ≤ n → 0 ≤ j ≤ n → i ≠ j →
  pos_disjoint (getDiskInodePos fs i) (getDiskInodePos fs j) ∧
  0 ≤ block_offset (getDiskInodePos fs i) ∧
  block_offset (getDiskInodePos fs i) + sizeof_DiskInode ≤ kBlockSize.
Proof.
  intros Hok Hi Hj Hne. rewrite !(getDiskInodePos_eq fs n) by done. unfold pos_disjoint. simpl.
  unfold sizeof_DiskInode, kBlockSize.
  pose proof (Z.div_mod i 32). pose proof (Z.mod_pos_bound i 32).
  pose proof (Z.div_mod j 32). pose proof (Z.mod_pos_bound j 32). lia.
Qed.

(** ** The regions of the disk *)

Definition regions_end (fs : SBFileSystem) : Z :=
  data_area_start_block_ fs + data_area_blocks (super_block_ fs).

(** Sizes for which [create] computes without wrapping. *)
Definition sizes_ok (total ibb : Z) : Prop :=
  0 < ibb ∧ ibb + ibb * 1024 < total ∧ total < 2 ^ 31 ∧ ibb < 2 ^ 16.

Lemma create_super_block_eq pad total ibb :
  sizes_ok total ibb →
  let dbb := (total - ibb - ibb * 1024) / 32769 in
  create_super_block pad total ibb =
    mkSuperBlock kFSMagic total ibb (ibb * 1024) dbb (dbb * 32768) Position_invalid pad.
Proof.
  intros (H0 & Hs & Ht & Hi). unfold create_super_block. rewrite kInodesInABlock_eq.
  unfold kBlockSize. cbv zeta.
  rewrite (u32_small (ibb * 8)) by (unfold is_u32; lia).
  rewrite (u64_small (ibb * 8 * 4096)) by lia.
  replace (ibb * 8 * 4096) with (ibb * 1024 * 32) by lia. rewrite Z.div_mul by lia.
  rewrite (u64_small (ibb * 1024)), (u32_small (ibb * 1024)) by (unfold is_u32; lia).
  rewrite (u32_small (total - ibb - ibb * 1024)) by (unfold is_u32; lia).
  change (1 + 8 * 4096) with 32769.
  pose proof (Z.div_mod (total - ibb - ibb * 1024) 32769).
  pose proof (Z.mod_pos_bound (total - ibb - ibb * 1024) 32769).
  set (dbb := (total - ibb - ibb * 1024) / 32769) in *.
  rewrite (u32_small dbb) by (unfold is_u32; lia).
  rewrite (u32_small (dbb * 8)) by (unfold is_u32; lia).
  rewrite u64_small, u32_small by (unfold is_u32; lia). f_equal. lia.
Qed.

(** The parts follow one another, and end at the latest one block past the
    blocks there are. *)
Lemma create_regions pad total ibb :
  sizes_ok total ibb →
  let fs := initBitmapAndBlock (create_super_block pad total ibb) in
  let dbb := (total - ibb - ibb * 1024) / 32769 in
  inode_bitmap_ fs = mkBitmap 1 ibb (1 + ibb) ∧
  inode_area_start_block_ fs = 1 + ibb ∧
  data_bitmap_ fs = mkBitmap (1 + ibb + ibb * 1024) dbb (1 + ibb + ibb * 1024 + dbb) ∧
  data_area_start_block_ fs = 1 + ibb + ibb * 1024 + dbb ∧
  slots (data_bitmap_ fs) = data_area_blocks (super_block_ fs) ∧
  regions_end fs = total + 1 - (total - ibb - ibb * 1024) mod 32769.
Proof.
  intros Hs. pose proof (create_super_block_eq pad total ibb Hs) as Hsb. cbv zeta in *. rewrite Hsb.
  destruct Hs as (H0 & Hs & Ht & Hi).
  pose proof (Z.div_mod (total - ibb - ibb * 1024) 32769 ltac:(lia)) as Hd.
  pose proof (Z.mod_pos_bound (total - ibb - ibb * 1024) 32769 ltac:(lia)) as Hm.
  unfold initBitmapAndBlock, regions_end, slots, slot_per_block, kBlockSize. simpl.
  set (dbb := (total - ibb - ibb * 1024) / 32769) in *.
  rewrite (u32_small (1 + ibb)) by (unfold is_u32; lia).
  rewrite (u32_small (1 + ibb + ibb * 1024)) by (unfold is_u32; lia).
  rewrite (u32_small (1 + ibb + ibb * 1024 + dbb)) by (unfold is_u32; lia).
  split_and!; try done; lia.
Qed.

(** ** [create] and then [open] *)

Lemma Bitmap_alloc_total {D} `{BlkDev D} bm (d : D) :
  ∃ b, Bitmap_alloc bm d = (Some b, (Bitmap_alloc bm d).2).
Proof.
  unfold Bitmap_alloc, bind, attempt, ret. destruct (Bitmap_alloc_from bm _ 0 d) as [r d']. by eexists.
Qed.

Lemma attempt_run {S A B} (m : M S A) (k : option A → M S B) s :
  bind (attempt m) k s = k (m s).1 (m s).2.
Proof. unfold bind, attempt. by destruct (m s). Qed.

(** The last thing [createRoot] does is to write the super block of the
    handle it returns. *)
Lemma createRoot_super e fs (m : store) :
  store_wf m → is_Some (m !! 0) →
  ∃ fs' m1, createRoot e fs m = (Some fs', <[0 := blk_copy (SuperBlock_encode (super_block_ fs'))]> m1) ∧
    same_blocks m m1 ∧
    ∃ id, fs' = set_super (set_root (getDiskInodePos fs id) (super_block_ fs)) fs.
Proof.
  intros Hwf H0. unfold createRoot.
  destruct (Bitmap_alloc_total (inode_bitmap_ fs) m) as [i Hi].
  pose proof (alloc_steps (inode_bitmap_ fs) m) as S1. set (m1 := (Bitmap_alloc _ m).2) in *.
  unfold alloc_inode. rewrite (bind_Some _ _ _ _ _ Hi).
  destruct (Bitmap_alloc_total (data_bitmap_ fs) m1) as [b Hb].
  pose proof (alloc_steps (data_bitmap_ fs) m1) as S2. set (m2 := (Bitmap_alloc _ m1).2) in *.
  unfold alloc_data. rewrite (bind_Some _ _ _ _ _ Hb). cbv zeta. rewrite attempt_run.
  set (root := set_direct 0 b _).
  pose proof (write_inode_steps (getDiskInodePos fs i) root m2) as S3.
  set (m3 := (Inode_write_inode _ root m2).2) in *. rewrite attempt_run.
  pose proof (map_write_steps b (root_dir_block i) m3) as S4. set (m4 := (dev_write b _ m3).2) in *.
  assert (S : same_blocks m m4) by (by rewrite S1, S2, S3, S4).
  rewrite attempt_run. set (fs' := set_super _ fs). exists fs', m4.
  split; [|split; [done|by exists i]].
  unfold ret. f_equal. cbn [dev_write MapDev]. unfold map_write.
  change (u32 0) with 0. destruct (proj2 (proj2 S 0) H0) as [x Hx]. by rewrite Hx.
Qed.

Lemma create_super_block_wf pad total ibb p :
  is_u32 total → is_u32 ibb → zlen pad = kBlockSize - 32 →
  is_u32 (block_id p) → is_u32 (block_offset p) →
  SuperBlock_wf (set_root p (create_super_block pad total ibb)).
Proof.
  intros Ht Hi Hp Hb Ho. unfold SuperBlock_wf, set_root, create_super_block. cbv zeta. simpl.
  split_and!; try done; apply u32_range.
Qed.

Lemma create_open e pad total ibb (m : store) :
  store_wf m → is_Some (m !! 0) → is_u32 total → is_u32 ibb → zlen pad = kBlockSize - 32 →
  ∃ fs m', SBFileSystem_create e pad total ibb m = (Some fs, m') ∧
    SBFileSystem_open m' = (Some (Some fs), m').
Proof.
  intros Hwf H0 Ht Hi Hp. unfold SBFileSystem_create. cbv zeta. rewrite attempt_run.
  set (sb := create_super_block pad total ibb).
  pose proof (map_write_steps 0 (SuperBlock_encode sb) m) as [W1 D1].
  set (m1 := (dev_write 0 (SuperBlock_encode sb) m).2) in *.
  destruct (createRoot_super e (initBitmapAndBlock sb) m1) as (fs & m2 & Hrun & _ & id & Hfs);
    [auto|by apply D1|].
  eexists fs, _. split; [done|]. set (m' := <[0 := _]> m2).
  set (pos := getDiskInodePos (initBitmapAndBlock sb) id) in *.
  assert (Hwfsb : SuperBlock_wf (super_block_ fs)).
  { subst fs. apply create_super_block_wf; [done..|apply u32_range|apply u32_range]. }
  pose proof (SuperBlock_encode_wf _ Hwfsb) as Henc.
  unfold SBFileSystem_open. rewrite attempt_run. cbn [dev_read MapDev].
  rewrite (map_read_eq 0 (SuperBlock_encode (super_block_ fs)) m'); [|by unfold is_u32|].
  2:{ unfold m'. by rewrite lookup_insert_eq, blk_copy_id. }
  cbn [fst snd]. rewrite SuperBlock_decode_encode by done.
  assert (Hval : SuperBlock_isValid (super_block_ fs) = true) by (by subst fs). rewrite Hval. cbn [negb].
  unfold ret. do 3 f_equal. by subst fs.
Qed.
