(* ===== verification/PathProof.v ===== *)
(** * Paths, and the path cache

    [split] cuts a path at its slashes; the cache keys are its prefixes.
    The arithmetic of [resolve] makes every insertion evict the whole
    cache, so it never holds more than one entry and its clock iterator
    never dangles; with entries that are what the directories say,
    resolving with the cache is resolving without it. *)

From S2P Require Import Prelude Bytes Config BlkIface Layout InodeIO DiskInode Sbfs Inode PathResolver Vfs VfsRefine Frame.

(** ** Splitting *)

(** The parts put together again, with slashes between. *)
Fixpoint join (parts : list bytes) : bytes :=
  match parts with
  | [] => []
  | [p] => p
  | p :: parts => p ++ slash :: join parts
  end.

Definition no_slash (p : bytes) : Prop := slash ∉ p.

Lemma split_go_ne r pre cur s : split_go r pre cur s ≠ [].
Proof. revert pre cur. induction s as [|c s IH]; intros; simpl; [done|]. by case_decide. Qed.

Lemma join_cons p ps : ps ≠ [] → join (p :: ps) = p ++ slash :: join ps.
Proof. by destruct ps. Qed.

Lemma join_split_go s : ∀ pre cur, join (split_go false pre cur s) = cur ++ s.
Proof.
  induction s as [|c s IH]; intros pre cur; [simpl; by rewrite app_nil_r|].
  cbn [split_go]. case_decide as Hc.
  - rewrite join_cons by apply split_go_ne. by rewrite IH, Hc.
  - rewrite IH. by rewrite <- app_assoc.
Qed.

Lemma split_go_no_slash s : ∀ pre cur, no_slash cur → Forall no_slash (split_go false pre cur s).
Proof.
  induction s as [|c s IH]; intros pre cur Hcur; cbn [split_go]; [by constructor|].
  case_decide as Hc; [constructor; [done|]; apply IH; apply not_elem_of_nil|].
  apply IH. unfold no_slash in *. rewrite elem_of_app, list_elem_of_singleton. by intros [?|<-].
Qed.

Lemma split_go_length s : ∀ pre1 cur1 pre2 cur2 r1 r2,
  length (split_go r1 pre1 cur1 s) = length (split_go r2 pre2 cur2 s).
Proof.
  induction s as [|c s IH]; intros; cbn [split_go]; [done|].
  case_decide; [simpl; f_equal|]; apply IH.
Qed.

(** A path's parts are determined by the path: splitting what was joined. *)
Lemma split_go_app_no_slash p : ∀ r pre cur s, no_slash p →
  split_go r pre cur (p ++ s) = split_go r pre (cur ++ p) s.
Proof.
  induction p as [|c p IH]; intros r pre cur s Hp; [by rewrite app_nil_r|].
  cbn [app split_go]. rewrite decide_False; [|intros ->; apply Hp; by left].
  rewrite IH; [by rewrite <- app_assoc|]. intros Hin. apply Hp. by right.
Qed.

Lemma split_go_join ps : ∀ pre, ps ≠ [] → Forall no_slash ps → split_go false pre [] (join ps) = ps.
Proof.
  induction ps as [|p ps IH]; intros pre Hne Hf; [done|]. inversion_clear Hf as [|? ? Hp Hps].
  destruct (decide (ps = [])) as [->|Hps'].
  - simpl. rewrite <- (app_nil_r p) at 1. by rewrite split_go_app_no_slash by done.
  - rewrite join_cons by done. rewrite split_go_app_no_slash by done. cbn [app split_go].
    rewrite decide_True by done. by rewrite IH.
Qed.

(** What precedes a part in the path. *)
Definition before (parts : list bytes) : bytes := parts ≫= λ p, p ++ [slash].

Lemma join_app_last ps p : join (ps ++ [p]) = before ps ++ p.
Proof.
  induction ps as [|q ps IH]; [done|]. cbn [app]. rewrite join_cons by (by destruct ps).
  rewrite IH. unfold before. cbn [mbind list_bind]. by rewrite <- !app_assoc.
Qed.

(** Key [i] is the path down to part [i]. *)
Lemma split_go_keys s : ∀ pre cur i p,
  split_go false pre cur s !! i = Some p →
  split_go true pre cur s !! i = Some (pre ++ before (take i (split_go false pre cur s)) ++ p).
Proof.
  induction s as [|c s IH]; intros pre cur i p; cbn [split_go].
  - destruct i; [|done]. simpl. by intros [= ->].
  - case_decide as Hc; [|apply IH]. destruct i as [|i]; simpl; [by intros [= ->]|].
    intros Hi. rewrite (IH _ _ _ _ Hi). f_equal. unfold before. cbn [mbind list_bind].
    rewrite <- !app_assoc. by rewrite Hc.
Qed.

Lemma split_keys s i p :
  split s false !! i = Some p → split s true !! i = Some (join (take (S i) (split s false))).
Proof.
  intros Hi. unfold split in *. rewrite (split_go_keys _ _ _ _ _ Hi). cbn [app].
  by rewrite (take_S_r _ _ _ Hi), join_app_last.
Qed.

(** ** Looking up does not depend on the time *)

Section env.
Context (e1 e2 : env).

(** The same inode up to its times, the same device. *)
Definition timeless (s1 s2 : DiskInode * store) : Prop :=
  s1.2 = s2.2 ∧ set_times 0 0 0 s1.1 = set_times 0 0 0 s2.1.

Lemma on_snd_timeless {A} (m : M store A) : msim timeless (on_snd m) (on_snd m).
Proof. intros [d1 m1] [d2 m2] [Hm Hd]. simpl in *. subst. unfold on_snd. simpl. by destruct (m m2). Qed.

Lemma read_blk_times a c t d : read_blk (D := store) (set_times a c t d) = read_blk d.
Proof. reflexivity. Qed.

Lemma size_times a c t d : size (set_times a c t d) = size d.
Proof. reflexivity. Qed.

Lemma timeless_inv s1 s2 : timeless s1 s2 → ∃ a c t, s2 = (set_times a c t s1.1, s1.2).
Proof.
  destruct s1 as [d1 m1], s2 as [d2 m2]. intros [Hm Hd]. simpl in *. subst m2.
  exists (access_time d2), (change_time d2), (modify_time d2).
  destruct d1, d2. injection Hd as -> -> -> -> -> -> -> -> ->. done.
Qed.

Lemma timeless_meta : msim timeless (upd_this (update_meta e1 1)) (upd_this (update_meta e2 1)).
Proof. intros s1 s2 (a & c & t & ->)%timeless_inv. by split. Qed.

(** What a computation does with the inode it is given, if it does the same
    for inodes that differ in their times. *)
Lemma this_timeless {A} (k1 k2 : DiskInode → M (DiskInode * store) A) :
  (∀ d a c t, msim timeless (k1 d) (k2 (set_times a c t d))) →
  msim timeless (bind this k1) (bind this k2).
Proof.
  intros Hk s1 s2 Hs. destruct (timeless_inv _ _ Hs) as (a & c & t & ->).
  rewrite (bind_Some this k1 s1 s1.1 s1) by done.
  rewrite (bind_Some this k2 _ (set_times a c t s1.1) (set_times a c t s1.1, s1.2)) by done.
  by apply Hk.
Qed.

Lemma read_data_timeless off len :
  msim timeless (DiskInode_read_data e1 off len) (DiskInode_read_data e2 off len).
Proof.
  unfold DiskInode_read_data. apply msim_bind; [apply timeless_meta|]. intros [].
  apply this_timeless. intros d a c t. rewrite !read_blk_times, !size_times.
  pose proof @on_snd_timeless. sim_tac.
Qed.

Lemma dir_scan_timeless n : ∀ i blk nm,
  msim timeless (dir_scan e1 n i blk nm) (dir_scan e2 n i blk nm).
Proof.
  pose proof read_data_timeless. pose proof (λ n, check_len_sim timeless n).
  induction n as [|n IH]; intros i blk nm; cbn [dir_scan]; sim_tac.
Qed.

Lemma Inode_find_env fs p nm (m : store) : Inode_find e1 fs p nm m = Inode_find e2 fs p nm m.
Proof.
  unfold Inode_find, bind. pose proof (read_inode_steps eq p m) as Hr.
  destruct (Inode_read_inode p m) as [[di|] m']; [|done]. simpl in Hr. subst m'.
  destruct (negb _); [done|]. unfold with_inode, scan_dir, bind, this; simpl.
  destruct (dir_scan_timeless (Z.to_nat (total_blocks (size di))) 0 DirBlock_new nm (di, m) (di, m))
    as [Hr [Hm _]]; [done|].
  destruct (dir_scan e1 _ _ _ _ _) as [r1 [d1 m1]], (dir_scan e2 _ _ _ _ _) as [r2 [d2 m2]].
  simpl in *. by subst.
Qed.
End env.

(** ** The directories as a tree *)

(** The inode a list of names leads to from [cur]. *)
Fixpoint lookup_path (m : store) (fs : SBFileSystem) (parts : list bytes) (cur : Position) : option Position :=
  match parts with
  | [] => Some cur
  | p :: parts =>
      match (Inode_find (mkEnv 0 0 0) fs cur p m).1 with
      | None => None
      | Some n => lookup_path m fs parts n
      end
  end.

Lemma Inode_find_run e fs p nm (m : store) :
  Inode_find e fs p nm m = ((Inode_find (mkEnv 0 0 0) fs p nm m).1, m).
Proof.
  rewrite (Inode_find_env (mkEnv 0 0 0) e). pose proof (Inode_find_pure e fs p nm m) as Hp.
  destruct (Inode_find e fs p nm m). simpl in *. by subst.
Qed.

Lemma walk_no_cache_eq e fs parts (m : store) : ∀ cur,
  walk_no_cache e fs parts cur m = (Some (default Position_invalid (lookup_path m fs parts cur)), m).
Proof.
  induction parts as [|p parts IH]; intros cur; [done|]. cbn [walk_no_cache lookup_path].
  unfold bind, attempt. rewrite Inode_find_run.
  destruct (Inode_find (mkEnv 0 0 0) fs cur p m).1; [apply IH|done].
Qed.

Lemma lookup_path_app m fs a b cur :
  lookup_path m fs (a ++ b) cur =
  match lookup_path m fs a cur with Some p => lookup_path m fs b p | None => None end.
Proof.
  revert cur. induction a as [|x a IH]; intros cur; [done|]. simpl.
  destruct (Inode_find (mkEnv 0 0 0) fs cur x m).1; [apply IH|done].
Qed.

(** ** The cache *)

Definition path_limit : Z := 2 ^ 20.

(** What the cache is like between any two calls: at most one entry, the
    clock at [end()], the size the size of what was last evicted. *)
Record resolver_ok (r : PathResolver) : Prop := {
  ro_one : (length (path_cache_ r) ≤ 1)%nat;
  ro_clock : clock_iter_ r = AtEnd;
  ro_keys k v : cache_find k (path_cache_ r) = Some v → zlen k ≤ path_limit;
  ro_size : 0 ≤ cur_cache_size_ r ≤ path_limit + 56;
  ro_max : 2 * (path_limit + 56) < max_cache_size_ r < 2 ^ 63;
}.

(** Its entries are what the directories say. *)
Definition coherent (m : store) (fs : SBFileSystem) (r : PathResolver) : Prop :=
  ∀ k v, cache_find k (path_cache_ r) = Some v →
    lookup_path m fs (split k false) (SBFileSystem_root fs) = Some (pcv_inode v).

(** Paths as FUSE passes them: no part is empty, ["."] or [".."]. *)
Record plain (p : bytes) : Prop := {
  pl_name : p ≠ [];
  pl_nul : no_nul p;
  pl_dots : p ≠ dot ∧ p ≠ dotdot;
}.

Definition good_parts (k : bytes) : Prop := Forall plain (split k false).

(** A path no longer than what the cache is analysed for, all of whose
    parts are plain. *)
Definition path_fine (path : bytes) : Prop :=
  zlen path ≤ path_limit ∧ (path = [slash] ∨ good_parts (tail (removeEndSlash path))).

Lemma plain_cstr p : plain p → cstr p = p.
Proof. intros [_ Hp _]. pose proof (cstr_app_zeros p 0 Hp) as Hz. simpl in Hz. by rewrite app_nil_r in Hz. Qed.

Lemma plain_named ps : Forall plain ps → Forall (λ p, cstr p ≠ []) ps.
Proof. intros Hp. apply (Forall_impl _ _ _ Hp). intros p Hq. rewrite (plain_cstr p Hq). apply Hq. Qed.

Definition keys_good (r : PathResolver) : Prop :=
  ∀ k v, cache_find k (path_cache_ r) = Some v → good_parts k.

Lemma PathResolver_new_ok : resolver_ok (PathResolver_new kPathCacheSize).
Proof. split; simpl; (done || lia). Qed.

(** Evicting that much empties the cache. *)
Lemma evict_all {D} r (d : D) size :
  resolver_ok r → path_limit + 56 < size →
  ∃ n, 0 ≤ n ≤ path_limit + 56 ∧
    PathResolver_evict size (r, d) = (Some tt, (mkPR [] AtEnd n (max_cache_size_ r), d)).
Proof.
  intros [H1 H2 Hk _ _] Hsz. unfold PathResolver_evict. cbn [fst snd]. rewrite H2.
  destruct (path_cache_ r) as [|[k v] [|? ?]] eqn:Hc; [| |simpl in H1; lia].
  { exists 0. split; [unfold path_limit; lia|]. simpl. by rewrite andb_false_r. }
  assert (Hkl : zlen k ≤ path_limit) by (apply (Hk k v); simpl; by rewrite decide_True).
  pose proof (zlen_nonneg k) as Hk0.
  exists (entry_size k). unfold entry_size, sizeof_path_cache_key_t, sizeof_path_cache_val_t in *.
  unfold path_limit in *. split; [lia|].
  cbn [length evict_loop cache_begin].
  destruct (Z.ltb_spec 0 size); [|lia]. cbn [andb negb bool_decide].
  assert (Hsw : ∃ b, clock_sweep 2 [(k, v)] (At k) = Some ([(k, mkPCV (pcv_inode v) b)], k)).
  { simpl. rewrite !decide_True by done. destruct v as [p [|]]; simpl.
    - exists false. unfold cache_next. simpl. by rewrite !decide_True by done.
    - by exists false. }
  destruct Hsw as [b Hsw]. rewrite bool_decide_eq_false_2 by done. cbn [negb]. rewrite Hsw.
  cbn [cache_erase cache_after]. rewrite decide_True by done.
  assert (He : cache_erase k [(k, mkPCV (pcv_inode v) b)] = []).
  { unfold cache_erase. rewrite filter_cons_False by (simpl; tauto). done. }
  rewrite He. unfold entry_size, sizeof_path_cache_key_t, sizeof_path_cache_val_t. cbn [evict_loop cache_begin].
  rewrite bool_decide_eq_true_2 by done. rewrite andb_false_r. rewrite u64_small by lia. done.
Qed.

Lemma evict_needed r key :
  resolver_ok r → zlen key ≤ path_limit →
  path_limit + 56 < u64 (cur_cache_size_ r + entry_size key - max_cache_size_ r).
Proof.
  intros [_ _ _ Hs Hm] Hk. pose proof (zlen_nonneg key). unfold path_limit, entry_size,
    sizeof_path_cache_key_t, sizeof_path_cache_val_t in *.
  unfold u64. rewrite <- (Z.mod_add _ 1) by lia. rewrite Z.mod_small by lia. lia.
Qed.

(** Remembering a position forgets all others. *)
Lemma remember_spec {D} `{BlkDev D} r (d : D) key p :
  resolver_ok r → zlen key ≤ path_limit →
  ∃ r', remember key p (r, d) = (Some tt, (r', d)) ∧ path_cache_ r' = [(key, mkPCV p true)] ∧ resolver_ok r'.
Proof.
  intros Hok Hk. pose proof (evict_needed r key Hok Hk) as Hn.
  destruct (evict_all r d _ Hok Hn) as (n & Hn0 & Hrun).
  unfold remember. rewrite (bind_Some _ _ (r, d) r (r, d)) by done. cbv zeta.
  destruct (Z.ltb_spec 0 (u64 (cur_cache_size_ r + entry_size key - max_cache_size_ r)));
    [|unfold path_limit in *; lia].
  rewrite (bind_Some _ _ _ _ _ Hrun).
  eexists. split; [reflexivity|]. split; [done|].
  destruct Hok as [_ _ _ _ Hm]. split; simpl; [done|done| |lia|done].
  intros k v. by case_decide as He; [subst|].
Qed.

Lemma cache_touch r k v b :
  (length (path_cache_ r) ≤ 1)%nat → cache_find k (path_cache_ r) = Some v →
  path_cache_ r = [(k, v)] ∧ cache_set k b (path_cache_ r) = [(k, b)].
Proof.
  destruct (path_cache_ r) as [|[k' v'] [|? ?]]; simpl; [done| |lia]. intros _.
  case_decide as He; [|done]. intros [= ->]. by subst.
Qed.

(** The same entries, but for their [visited] flags. *)
Definition same_entries (r r' : PathResolver) : Prop :=
  ∀ k, pcv_inode <$> cache_find k (path_cache_ r') = pcv_inode <$> cache_find k (path_cache_ r).

Lemma same_entries_coherent m fs r r' : same_entries r r' → coherent m fs r → coherent m fs r'.
Proof.
  intros Hs Hc k v Hk. specialize (Hs k). rewrite Hk in Hs. simpl in Hs. symmetry in Hs.
  apply fmap_Some in Hs as (v0 & Hv0 & ->). by apply Hc.
Qed.

Lemma same_entries_good r r' : same_entries r r' → keys_good r → keys_good r'.
Proof.
  intros Hs Hg k v Hk. specialize (Hs k). rewrite Hk in Hs. simpl in Hs. symmetry in Hs.
  apply fmap_Some in Hs as (v0 & Hv0 & _). by eapply Hg.
Qed.

Lemma lookup_cache_spec (m : store) keys : ∀ i cur r,
  resolver_ok r →
  ∃ r' res, lookup_cache keys i cur (r, m) = (Some res, (r', m)) ∧ resolver_ok r' ∧ same_entries r r' ∧
    (res = cur ∨ ∃ (j : nat) key v, keys !! j = Some key ∧ cache_find key (path_cache_ r) = Some v ∧
       res = (pcv_inode v, i + Z.of_nat j + 1)).
Proof.
  induction keys as [|k keys IH]; intros i cur r Hok.
  { exists r, cur. split_and!; [done|done|by intros ?|by left]. }
  cbn [lookup_cache]. rewrite (bind_Some _ _ _ (path_cache_ r) (r, m)) by done.
  destruct (cache_find k (path_cache_ r)) as [v|] eqn:Hk.
  - destruct (cache_touch r k v (mkPCV (pcv_inode v) true)) as [Hc Hset]; [apply Hok|done|].
    rewrite Hset. set (r1 := mkPR [(k, mkPCV (pcv_inode v) true)] (clock_iter_ r) (cur_cache_size_ r) (max_cache_size_ r)).
    rewrite (bind_Some _ _ _ tt (r1, m)) by done.
    assert (Hs1 : same_entries r r1).
    { intros k'. rewrite Hc. simpl. by case_decide. }
    assert (Hok1 : resolver_ok r1).
    { destruct Hok as [? ? Hkk ? ?]. split; simpl; [lia|done| |done|done].
      intros k' v'. case_decide as He; [|done]. intros _. subst. by eapply Hkk. }
    destruct (IH (i + 1) (pcv_inode v, i + 1) r1 Hok1) as (r2 & res & Hrun & Hok2 & Hs2 & Hres).
    exists r2, res. split_and!; [done|done|intros k'; by rewrite Hs2, Hs1|].
    right. destruct Hres as [->|(j & key & v' & Hj & Hv' & ->)].
    + exists O, k, v. split_and!; [done|done|]. f_equal. lia.
    + specialize (Hs1 key). rewrite Hv' in Hs1. simpl in Hs1. symmetry in Hs1.
      apply fmap_Some in Hs1 as (v0 & Hv0 & Ev). exists (S j), key, v0. split_and!; [done|done|].
      rewrite Ev. f_equal. lia.
  - destruct (IH (i + 1) cur r Hok) as (r2 & res & Hrun & Hok2 & Hs2 & Hres).
    exists r2, res. split_and!; [done|done|done|].
    destruct Hres as [->|(j & key & v' & Hj & Hv' & ->)]; [by left|right].
    exists (S j), key, v'. split_and!; [done|done|]. f_equal. lia.
Qed.

Lemma walk_spec e fs (m : store) parts : ∀ dn cur r,
  lookup_path m fs dn (SBFileSystem_root fs) = Some cur →
  (∀ i part key, parts !! i = Some (part, key) →
     split key false = dn ++ (take (S i) parts).*1 ∧ zlen key ≤ path_limit) →
  resolver_ok r → coherent m fs r →
  ∃ r', walk e fs parts cur (r, m) =
      (Some (default Position_invalid (lookup_path m fs parts.*1 cur)), (r', m)) ∧
    resolver_ok r' ∧ coherent m fs r' ∧
    (keys_good r → (∀ i part key, parts !! i = Some (part, key) → good_parts key) → keys_good r').
Proof.
  induction parts as [|[part key] parts IH]; intros dn cur r Hdn Hkeys Hok Hc; [by exists r|].
  cbn [walk fmap list_fmap fst lookup_path]. unfold bind at 1, attempt, on_snd at 1. cbn [fst snd].
  rewrite Inode_find_run. destruct (Inode_find (mkEnv 0 0 0) fs cur part m).1 as [n|] eqn:Hf;
    [|by exists r].
  destruct (Hkeys O part key) as [Hsp Hkl]; [done|].
  destruct (remember_spec r m key n Hok Hkl) as (r1 & Hrun & Hcache & Hok1).
  rewrite (bind_Some _ _ _ _ _ Hrun).
  assert (Hn : lookup_path m fs (dn ++ [part]) (SBFileSystem_root fs) = Some n).
  { rewrite lookup_path_app, Hdn. simpl. by rewrite Hf. }
  destruct (IH (dn ++ [part]) n r1) as (r' & Hrun' & Hok' & Hc' & Hg'); [done| |done| |].
  3: { exists r'. split_and!; [done..|]. intros Hg Hks. apply Hg'; [|intros i part' key'; apply (Hks (S i))].
       intros k v. rewrite Hcache. simpl. case_decide as He; [|done]. intros _. subst k. by apply (Hks O part). }
  - intros i part' key' Hi. destruct (Hkeys (S i) part' key') as [Hs Hl]; [done|].
    split; [|done]. rewrite Hs. cbn [take fmap list_fmap fst]. by rewrite <- app_assoc.
  - intros k v. rewrite Hcache. simpl. case_decide as He; [|done]. intros [= <-]. subst k. simpl.
    by rewrite Hsp.
Qed.

Lemma join_take_length ps : ∀ n, (length (join (take n ps)) ≤ length (join ps))%nat.
Proof.
  induction ps as [|p ps IH]; intros [|n]; cbn [take]; [simpl; lia..|].
  destruct (decide (ps = [])) as [->|Hne]; [by rewrite take_nil|].
  rewrite (join_cons p ps) by done. specialize (IH n).
  destruct (decide (take n ps = [])) as [->|Hne']; [simpl; rewrite length_app; simpl; lia|].
  rewrite (join_cons p) by done. rewrite !length_app. simpl. lia.
Qed.

(** With the cache and without it. *)
Lemma resolve_spec e fs (m : store) r path :
  resolver_ok r → coherent m fs r → zlen path ≤ path_limit →
  ∃ r', PathResolver_resolve e fs path (r, m) =
      ((PathResolver_resolveNoCache e fs path m).1, (r', m)) ∧
    resolver_ok r' ∧ coherent m fs r' ∧
    (good_parts (tail (removeEndSlash path)) → keys_good r → keys_good r').
Proof.
  intros Hok Hc Hlen. unfold PathResolver_resolve, PathResolver_resolveNoCache.
  destruct (negb _); [by exists r|]. destruct (bool_decide _); [by exists r|]. cbv zeta.
  set (p := tail (removeEndSlash path)). rewrite walk_no_cache_eq. cbn [fst].
  assert (Hpl : zlen p ≤ path_limit).
  { assert (Htl : ∀ l : bytes, (length (tail l) ≤ length l)%nat) by (intros [|? ?]; simpl; lia).
    unfold p, removeEndSlash, zlen in *. specialize (Htl (removeEndSlash path)).
    unfold removeEndSlash, zlen in *. destruct (_ =? _); rewrite ?length_take in *; lia. }
  destruct (lookup_cache_spec m (split p true) 0 (SBFileSystem_root fs, 0) r Hok)
    as (r1 & res & Hrun & Hok1 & Hs1 & Hres).
  rewrite (bind_Some _ _ _ _ _ Hrun).
  pose proof (same_entries_coherent m fs r r1 Hs1 Hc) as Hc1.
  assert (Hlens : length (split p true) = length (split p false)) by apply split_go_length.
  assert (Hns : Forall no_slash (split p false)) by (apply split_go_no_slash, not_elem_of_nil).
  assert (Hjoin : join (split p false) = p) by apply join_split_go.
  assert (Hkey : ∀ (i : nat) key, split p true !! i = Some key →
    split key false = take (S i) (split p false) ∧ zlen key ≤ path_limit).
  { intros i key Hi. destruct (lookup_lt_is_Some_2 (split p false) i) as [part Hp].
    { rewrite <- Hlens. by eapply lookup_lt_Some. }
    pose proof (split_keys p i part Hp) as Hk. rewrite Hk in Hi. injection Hi as <-. split.
    - apply split_go_join; [|by apply Forall_take]. intros Hnil.
      pose proof (split_go_ne false [] [] p) as Hne. unfold split in *. by destruct (split_go false [] [] p).
    - pose proof (join_take_length (split p false) (S i)) as Hj. rewrite Hjoin in Hj. unfold zlen in *. lia. }
  assert (Hgo : ∀ (idx : nat) cur, lookup_path m fs (take idx (split p false)) (SBFileSystem_root fs) = Some cur →
    ∃ r', walk e fs (drop idx (zip (split p false) (split p true))) cur (r1, m) =
      (Some (default Position_invalid (lookup_path m fs (split p false) (SBFileSystem_root fs))), (r', m)) ∧
      resolver_ok r' ∧ coherent m fs r' ∧ (good_parts p → keys_good r → keys_good r')).
  { intros idx cur Hcur.
    destruct (walk_spec e fs m (drop idx (zip (split p false) (split p true))) (take idx (split p false)) cur r1)
      as (r' & Hw & ? & ? & Hg); [done| |done|done|].
    - intros i part key Hi. rewrite lookup_drop in Hi. apply lookup_zip_Some in Hi as [_ Hi].
      destruct (Hkey _ _ Hi) as [Hs Hl]. split; [|done]. rewrite Hs.
      rewrite fmap_take, fmap_drop, fst_zip by lia. rewrite take_take_drop. f_equal. lia.
    - exists r'. split; [|split_and!; [done..|]].
      2: { intros Hp Hr. apply Hg; [by apply (same_entries_good r r1)|]. intros i part key Hi.
           rewrite lookup_drop in Hi. apply lookup_zip_Some in Hi as [_ Hi].
           unfold good_parts. rewrite (proj1 (Hkey _ _ Hi)). by apply Forall_take. }
      rewrite Hw. do 3 f_equal.
      rewrite fmap_drop, fst_zip by lia. rewrite <- (take_drop idx (split p false)) at 2.
      rewrite lookup_path_app, Hcur. done. }
  destruct Hres as [->|(j & key & v & Hj & Hv & ->)].
  - by apply (Hgo O).
  - replace (Z.to_nat (0 + Z.of_nat j + 1)) with (S j) by lia. apply Hgo.
    rewrite <- (proj1 (Hkey j key Hj)). by apply Hc.
Qed.

(** ** Forgetting paths *)

(** The keys [removePrefix] is to drop. *)
Definition removed (p k : bytes) : bool := bool_decide (p `prefix_of` k).

Lemma removed_true p k : removed p k = true ↔ p `prefix_of` k.
Proof. unfold removed. apply bool_decide_eq_true. Qed.

Lemma removed_false p k : removed p k = false ↔ ¬ p `prefix_of` k.
Proof. unfold removed. apply bool_decide_eq_false. Qed.

Lemma starts_with_removed p k : starts_with p k = removed p k.
Proof.
  unfold starts_with, removed. apply bool_decide_ext. split.
  - intros <-. exists (drop (length p) k). by rewrite take_drop.
  - intros [t ->]. apply take_app_length.
Qed.

(** A key that starts with [p] is not before [p]. *)
Lemma bytes_ltb_removed p k : bytes_ltb k p = true → removed p k = false.
Proof.
  intros Hlt. apply removed_false. intros [t ->]. revert Hlt. induction p as [|x p IH]; simpl.
  - by destruct t.
  - by rewrite Z.ltb_irrefl.
Qed.

Definition kept (p : bytes) (c : path_cache_t) : path_cache_t := filter (λ kv, ¬ p `prefix_of` kv.1) c.

Definition clock_after (p : bytes) (it : iterator) : iterator :=
  match it with At k => if decide (p `prefix_of` k) then Dangling else At k | it => it end.

Lemma erase_loop_kept p c : ∀ it, (erase_loop p c it).1 = kept p c.
Proof.
  unfold kept. induction c as [|[k v] c IH]; intros it; [done|]. cbn [erase_loop]. rewrite starts_with_removed.
  destruct (removed p k) eqn:Hr.
  - apply removed_true in Hr. rewrite filter_cons_False by (cbn [fst]; tauto). apply IH.
  - apply removed_false in Hr. rewrite filter_cons_True by done. specialize (IH it). destruct (erase_loop p c it). simpl in *. by subst.
Qed.

Lemma erase_loop_dangling p c : (erase_loop p c Dangling).2 = Dangling.
Proof.
  induction c as [|[k v] c IH]; [done|]. cbn [erase_loop]. destruct (starts_with p k); [done|]. by destruct (erase_loop p c Dangling).
Qed.

Lemma erase_loop_end p c : (erase_loop p c AtEnd).2 = AtEnd.
Proof.
  induction c as [|[k v] c IH]; [done|]. cbn [erase_loop]. destruct (starts_with p k); [done|]. by destruct (erase_loop p c AtEnd).
Qed.

Lemma erase_loop_clock p c k : (p `prefix_of` k → k ∈ c.*1) → (erase_loop p c (At k)).2 = clock_after p (At k).
Proof.
  cbn [clock_after]. induction c as [|[k1 v1] c IH]; intros Hin.
  { simpl. case_decide as Hp; [by apply Hin, not_elem_of_nil in Hp|done]. }
  cbn [erase_loop]. rewrite starts_with_removed. destruct (removed p k1) eqn:Hr.
  - apply removed_true in Hr. destruct (decide (k = k1)) as [->|Hne].
    + rewrite erase_loop_dangling. by rewrite decide_True.
    + apply IH. intros [->|?]%Hin%elem_of_cons; done.
  - apply removed_false in Hr. assert (Hin' : p `prefix_of` k → k ∈ c.*1).
    { intros Hp. destruct (proj1 (elem_of_cons _ _ _) (Hin Hp)) as [->|?]; done. }
    specialize (IH Hin'). by destruct (erase_loop p c (At k)).
Qed.

(** The entries before [lower_bound] stay. *)
Lemma lower_bound_split p c a b : lower_bound p c = (a, b) → c = a ++ b ∧ ∀ kv, kv ∈ a → ¬ p `prefix_of` kv.1.
Proof.
  revert a b. induction c as [|[k v] c IH]; intros a b; cbn [lower_bound].
  { intros [= <- <-]. split; [done|]. by intros ? ?%not_elem_of_nil. }
  destruct (bytes_ltb k p) eqn:Hlt; [|intros [= <- <-]; split; [done|by intros ? ?%not_elem_of_nil]].
  destruct (lower_bound p c) as [a' b'] eqn:Hlb. intros [= <- <-]. destruct (IH a' b' eq_refl) as [-> Ha]. split; [done|].
  intros kv [->|Hin]%elem_of_cons; [by apply removed_false, bytes_ltb_removed|by apply Ha].
Qed.

(** [removePrefix] on any cache whose clock is at an entry or at the end. *)
Lemma removePrefix_any {D} r (d : D) prefix c p :
  removeEndSlash prefix = c :: p → (∀ k, clock_iter_ r = At k → k ∈ (path_cache_ r).*1) →
  PathResolver_removePrefix prefix (r, d) =
    (Some tt, (mkPR (kept p (path_cache_ r)) (clock_after p (clock_iter_ r)) (cur_cache_size_ r) (max_cache_size_ r), d)).
Proof.
  intros Hp Hclk. unfold PathResolver_removePrefix. rewrite Hp. cbn [fst snd].
  destruct (lower_bound p (path_cache_ r)) as [a b] eqn:Hlb. apply lower_bound_split in Hlb as [Hc Ha].
  pose proof (erase_loop_kept p b (clock_iter_ r)) as H1.
  assert (H2 : (erase_loop p b (clock_iter_ r)).2 = clock_after p (clock_iter_ r)).
  { destruct (clock_iter_ r) as [|k|]; [apply erase_loop_end| |apply erase_loop_dangling]. apply erase_loop_clock. intros Hk.
    specialize (Hclk k eq_refl). rewrite Hc, fmap_app in Hclk. apply elem_of_app in Hclk as [Hin|]; [|done].
    apply list_elem_of_fmap in Hin as (kv & -> & Hin). by destruct (Ha kv). }
  destruct (erase_loop p b (clock_iter_ r)) as [rest it]. cbn [fst snd] in *. subst rest it.
  do 3 f_equal. rewrite Hc. unfold kept. rewrite filter_app. f_equal. symmetry. apply filter_all, Forall_forall, Ha.
Qed.

(** It drops what it should and keeps the invariant. *)
Lemma removePrefix_spec {D} r (d : D) prefix :
  resolver_ok r → removeEndSlash prefix ≠ [] →
  ∃ r', PathResolver_removePrefix prefix (r, d) = (Some tt, (r', d)) ∧ resolver_ok r' ∧
    (∀ k v, cache_find k (path_cache_ r') = Some v ↔
       cache_find k (path_cache_ r) = Some v ∧ removed (tail (removeEndSlash prefix)) k = false).
Proof.
  intros [H1 H2 Hk Hs Hm] Hne. destruct (removeEndSlash prefix) as [|c p] eqn:Hp; [done|]. cbn [tail].
  eexists. split; [apply (removePrefix_any r d prefix c p Hp); congruence|]. rewrite H2. cbn [clock_after]. unfold kept.
  destruct (path_cache_ r) as [|[k v] [|? ?]] eqn:Hc; [| |simpl in H1; lia].
  - split; [split; simpl; first [done|lia]|]. intros k v. simpl. by split; [|intros []].
  - destruct (removed p k) eqn:Hr.
    + apply removed_true in Hr as Hr'. rewrite filter_cons_False by (simpl; tauto).
      split; [split; simpl; first [done|lia]|]. intros k' v'. simpl. case_decide as He; [|by split; [|intros []]].
      subst. split; [done|]. intros []. congruence.
    + apply removed_false in Hr as Hr'. rewrite filter_cons_True by done.
      split; [split; simpl; [lia|done| |done|done]; by apply Hk|].
      intros k' v'. simpl. case_decide as He; [|by split; [|intros []]]. subst. tauto.
Qed.
