(* ===== verification/Evict.v ===== *)
(** * Eviction from the path cache

    The loops of [evict] ([src/path_resolver.cpp]) on any cache, not only
    on those of one entry that the program gets to: the inner loop ends,
    because each turn of the clock clears a flag, the outer one because
    each turn erases an entry, and the iterator can be dereferenced
    whenever it is. *)

From S2P Require Import Prelude Bytes Config Layout PathResolver.
From Stdlib Require Import Sorted.

(** ** The order of the keys *)

Definition key_lt (a b : bytes) : Prop := bytes_ltb a b = true.

#[export] Instance key_lt_irrefl : Irreflexive key_lt.
Proof.
  intros a. unfold key_lt, complement. induction a as [|x a IH]; simpl; [done|].
  by rewrite Z.ltb_irrefl.
Qed.

#[export] Instance key_lt_trans : Transitive key_lt.
Proof.
  unfold key_lt. intros a b c. revert b c. induction a as [|x a IH]; intros [|y b] [|z c]; simpl; try done.
  destruct (Z.ltb_spec (byte.unsigned x) (byte.unsigned y)), (Z.ltb_spec (byte.unsigned y) (byte.unsigned z)),
    (Z.ltb_spec (byte.unsigned x) (byte.unsigned z)), (Z.ltb_spec (byte.unsigned y) (byte.unsigned x)),
    (Z.ltb_spec (byte.unsigned z) (byte.unsigned y)), (Z.ltb_spec (byte.unsigned z) (byte.unsigned x));
    try done; try lia. apply IH.
Qed.

#[export] Instance key_lt_strict : StrictOrder key_lt.
Proof. split; apply _. Qed.

Lemma key_lt_asym a b : key_lt a b → bytes_ltb b a = false.
Proof. intros Hab. apply not_true_is_false. intros Hba. apply (key_lt_irrefl a). by apply (key_lt_trans a b a). Qed.

(** ** Caches *)

(** The invariant of a [std::map]. *)
Definition sorted (c : path_cache_t) : Prop := StronglySorted key_lt c.*1.

Definition in_cache (k : bytes) (c : path_cache_t) : Prop := k ∈ c.*1.

Definition iter_ok (it : iterator) (c : path_cache_t) : Prop :=
  match it with AtEnd => True | At k => in_cache k c | Dangling => False end.

Definition entries_size (c : path_cache_t) : Z := foldr (λ kv s, entry_size kv.1 + s) 0 c.

Definition flags (c : path_cache_t) : nat := length (filter (λ kv, visited kv.2 = true) c).

Lemma entry_size_pos k : 0 < entry_size k.
Proof. unfold entry_size, sizeof_path_cache_key_t, sizeof_path_cache_val_t. pose proof (zlen_nonneg k). lia. Qed.

Lemma entries_size_nonneg c : 0 ≤ entries_size c.
Proof. induction c as [|[k v] c IH]; simpl; [done|]. pose proof (entry_size_pos k). lia. Qed.

Lemma cache_find_in k c : is_Some (cache_find k c) ↔ in_cache k c.
Proof.
  unfold in_cache. induction c as [|[k' v] c IH]; simpl.
  - split; [by intros []|by intros ?%not_elem_of_nil].
  - rewrite elem_of_cons. case_decide as He; [subst; split; [by left|by eexists]|]. rewrite IH. tauto.
Qed.

Lemma sorted_cons k v c : sorted ((k, v) :: c) ↔ sorted c ∧ ∀ k', in_cache k' c → key_lt k k'.
Proof.
  unfold sorted, in_cache. cbn [fmap list_fmap fst]. split.
  - intros [Hs Hf]%StronglySorted_inv. split; [done|]. by apply Forall_forall.
  - intros [Hs Hf]. constructor; [done|]. by apply Forall_forall.
Qed.

Lemma sorted_filter (Q : bytes * PathCacheValue → Prop) `{∀ kv, Decision (Q kv)} c : sorted c → sorted (filter Q c).
Proof.
  induction c as [|[k v] c IH]; [done|]. intros [Hs Hlt]%sorted_cons. rewrite filter_cons.
  case_decide; [|by apply IH]. apply sorted_cons. split; [by apply IH|].
  intros k' (kv & -> & [_ Hin]%list_elem_of_filter)%list_elem_of_fmap. apply Hlt, list_elem_of_fmap. by exists kv.
Qed.

(** Setting an entry that is there changes its value only. *)
Lemma cache_set_in k v v0 c : sorted c → cache_find k c = Some v0 →
  (cache_set k v c).*1 = c.*1 ∧
  (∀ k', cache_find k' (cache_set k v c) = if decide (k = k') then Some v else cache_find k' c) ∧
  (visited v0 = true → visited v = false → S (flags (cache_set k v c)) = flags c).
Proof.
  induction c as [|[k1 v1] c IH]; [done|]. intros [Hs Hlt]%sorted_cons. cbn [cache_find cache_set].
  destruct (decide (k = k1)) as [<-|Hne].
  - intros [= ->]. split_and!; [done| |].
    + intros k'. simpl. destruct (decide (k' = k)), (decide (k = k')); congruence.
    + intros Hv0 Hv. unfold flags. rewrite filter_cons_False, filter_cons_True by (simpl; congruence). done.
  - intros Hf. rewrite (key_lt_asym k1 k); [|apply Hlt, cache_find_in; by eexists].
    destruct (IH Hs Hf) as (E1 & E2 & E3). split_and!.
    + cbn [fmap list_fmap fst]. f_equal. apply E1.
    + intros k'. simpl. rewrite E2. destruct (decide (k' = k1)), (decide (k = k')); congruence.
    + intros Hv0 Hv. specialize (E3 Hv0 Hv). unfold flags in *.
      destruct (visited v1) eqn:Hv1; [rewrite !filter_cons_True by done; simpl; lia|].
      by rewrite !filter_cons_False by (simpl; congruence).
Qed.

Lemma cache_after_ok k c : iter_ok (cache_after k c) c.
Proof.
  unfold in_cache. induction c as [|[k' v] c IH]; simpl; [done|].
  case_decide; [destruct c as [|[k2 v2] c]; simpl; [done|right; left]|].
  destruct (cache_after k c); simpl in *; [done|by right|done].
Qed.

Lemma cache_next_ok k c : c ≠ [] → ∃ k', cache_next k c = At k' ∧ in_cache k' c.
Proof.
  intros Hc. unfold cache_next. pose proof (cache_after_ok k c) as Ha.
  destruct (cache_after k c) as [|k'|]; [|by exists k'|done].
  destruct c as [|[k' v] c]; [done|]. exists k'. split; [done|left].
Qed.

(** ** The inner loop *)

(** The same entries, where flags may have been cleared. *)
Definition swept (c c' : path_cache_t) : Prop :=
  c'.*1 = c.*1 ∧
  ∀ k v', cache_find k c' = Some v' → ∃ v, cache_find k c = Some v ∧ pcv_inode v' = pcv_inode v ∧
    (visited v' = true → visited v = true).

#[export] Instance swept_preorder : PreOrder swept.
Proof.
  split.
  - intros c. split; [done|]. intros k v Hv. by exists v.
  - intros c1 c2 c3 [E1 H1] [E2 H2]. split; [congruence|]. intros k v3 (v2 & Hv2 & Hi2 & Hf2)%H2.
    destruct (H1 k v2 Hv2) as (v1 & Hv1 & Hi1 & Hf1). exists v1. split_and!; [done|congruence|tauto].
Qed.

(** The clock stops, after as many turns as there are flags, at an entry
    whose flag is off. *)
Lemma clock_sweep_ends fuel : ∀ c k, sorted c → in_cache k c → (flags c < fuel)%nat →
  ∃ c' k' v, clock_sweep fuel c (At k) = Some (c', k') ∧ swept c c' ∧
    cache_find k' c' = Some v ∧ visited v = false.
Proof.
  induction fuel as [|fuel IH]; intros c k Hs Hk Hfuel; [lia|]. cbn [clock_sweep].
  destruct (proj2 (cache_find_in k c) Hk) as [v Hv]. rewrite Hv.
  destruct (visited v) eqn:Hvis; [|by exists c, k, v].
  set (v' := mkPCV (pcv_inode v) false).
  destruct (cache_set_in k v' v c Hs Hv) as (E1 & E2 & E3).
  assert (Hne : c ≠ []) by by intros ->.
  destruct (cache_next_ok k c Hne) as (k1 & -> & Hk1).
  destruct (IH (cache_set k v' c) k1) as (c' & k' & v1 & Hrun & Hsw & Hrest).
  - unfold sorted. by rewrite E1.
  - unfold in_cache. by rewrite E1.
  - specialize (E3 Hvis eq_refl). lia.
  - exists c', k', v1. split; [done|]. split; [|done]. etrans; [|done]. split; [done|].
    intros k2 v2. rewrite E2. case_decide as He; [subst k2|intros Hv2; by exists v2].
    intros [= <-]. exists v. by split_and!.
Qed.

Lemma flags_length c : (flags c ≤ length c)%nat.
Proof. apply length_filter. Qed.

(** ** The outer loop *)

Lemma cache_erase_spec k c : sorted c → in_cache k c →
  sorted (cache_erase k c) ∧ S (length (cache_erase k c)) = length c ∧
  entries_size (cache_erase k c) + entry_size k = entries_size c ∧ iter_ok (cache_after k c) (cache_erase k c) ∧
  (∀ k', cache_find k' (cache_erase k c) = if decide (k' = k) then None else cache_find k' c).
Proof.
  unfold cache_erase. induction c as [|[k1 v1] c IH]; [by intros _ ?%not_elem_of_nil|].
  intros [Hs Hlt]%sorted_cons Hk. cbn [cache_after].
  assert (Hsub : ∀ x c0, in_cache x (filter (λ kv : bytes * PathCacheValue, kv.1 ≠ k) c0) → in_cache x c0).
  { intros x c0. unfold in_cache. rewrite !list_elem_of_fmap. intros (kv & -> & [_ ?]%list_elem_of_filter). by exists kv. }
  destruct (decide (k = k1)) as [<-|Hne].
  - rewrite filter_cons_False by (simpl; tauto).
    assert (filter (λ kv : bytes * PathCacheValue, kv.1 ≠ k) c = c) as ->.
    { apply filter_all, Forall_forall. intros [k2 v2] H2 Heq. simpl in Heq. subst k2.
      apply (key_lt_irrefl k), Hlt. unfold in_cache. apply list_elem_of_fmap. by exists (k, v2). }
    split_and!; [done|done|simpl; lia|destruct c as [|[k2 v2] c]; [done|left]|].
    intros k'. simpl. case_decide as He; [|done]. subst k'. apply eq_None_not_Some.
    intros Hin%cache_find_in. by apply (key_lt_irrefl k), Hlt.
  - rewrite filter_cons_True by (simpl; congruence).
    assert (Hk' : in_cache k c). { unfold in_cache in *. cbn in Hk. apply elem_of_cons in Hk. tauto. }
    destruct (IH Hs Hk') as (I1 & I2 & I3 & I4 & I5). split_and!.
    + apply sorted_cons. split; [done|]. intros k' Hin%Hsub. by apply Hlt.
    + simpl. lia.
    + simpl. lia.
    + destruct (cache_after k c); simpl in *; [done|by right|done].
    + intros k'. simpl. rewrite I5. destruct (decide (k' = k1)), (decide (k' = k)); congruence.
Qed.

Lemma swept_size c c' : swept c c' → entries_size c' = entries_size c ∧ length c' = length c.
Proof.
  intros [He _]. split.
  - assert (Hk : ∀ l : path_cache_t, entries_size l = foldr (λ k s, entry_size k + s) 0 l.*1).
    { induction l as [|[k v] l IH]; simpl; [done|]. by rewrite IH. }
    by rewrite !Hk, He.
  - apply (f_equal length) in He. by rewrite !length_fmap in He.
Qed.

(** [evict] ends: it erases entries until [size] bytes are free or the
    cache is empty. *)
Lemma evict_loop_ends fuel size : ∀ cur c it,
  sorted c → iter_ok it c → (length c ≤ fuel)%nat → 0 ≤ cur → cur + entries_size c < 2 ^ 64 →
  ∃ c' it' cur', evict_loop fuel size cur c it = Some (c', it', cur') ∧
    sorted c' ∧ iter_ok it' c' ∧ cur' + entries_size c' = cur + entries_size c ∧
    (size ≤ cur' ∨ c' = []) ∧
    (∀ k v', cache_find k c' = Some v' → ∃ v, cache_find k c = Some v ∧ pcv_inode v' = pcv_inode v ∧
       (visited v' = true → visited v = true)).
Proof.
  induction fuel as [|fuel IH]; intros cur c it Hs Hit Hlen Hcur Hsz.
  { destruct c as [|[]]; [|simpl in Hlen; lia]. exists [], it, cur. cbn [evict_loop].
    rewrite bool_decide_eq_true_2, andb_false_r by done. split_and!; try done; by right. }
  cbn [evict_loop]. destruct (Z.ltb_spec cur size) as [Hlt|Hge]; cbn [andb].
  2:{ exists c, it, cur. split_and!; try done; [by left|]. intros k v Hv. by exists v. }
  destruct (bool_decide_reflect (c = [])) as [->|Hne]; cbn [negb].
  { exists [], it, cur. split_and!; try done; by right. }
  set (it1 := match it with AtEnd => cache_begin c | _ => it end).
  assert (Hit1 : ∃ k, it1 = At k ∧ in_cache k c).
  { unfold it1. destruct it as [|k|]; [|by exists k|done]. destruct c as [|[k v] c]; [done|].
    exists k. split; [done|left]. }
  destruct Hit1 as (k & -> & Hk).
  destruct (clock_sweep_ends (S (length c)) c k Hs Hk) as (c1 & k1 & v1 & -> & Hsw & Hv1 & _).
  { pose proof (flags_length c). lia. }
  destruct (swept_size c c1 Hsw) as [Esz Elen]. destruct Hsw as [Ekeys Hback].
  assert (Hs1 : sorted c1) by (unfold sorted; by rewrite Ekeys).
  destruct (cache_erase_spec k1 c1 Hs1) as (I1 & I2 & I3 & I4 & I5); [apply cache_find_in; by eexists|].
  pose proof (entry_size_pos k1). pose proof (entries_size_nonneg (cache_erase k1 c1)).
  rewrite u64_small by lia.
  destruct (IH (cur + entry_size k1) (cache_erase k1 c1) (cache_after k1 c1)) as (c' & it' & cur' & -> & J1 & J2 & J3 & J4 & J5);
    [done|done|lia|lia|lia|].
  exists c', it', cur'. split_and!; try done; [lia|]. intros k2 v' (v2 & Hv2 & Hi2 & Hf2)%J5.
  rewrite I5 in Hv2. case_decide; [done|]. destruct (Hback k2 v2 Hv2) as (v3 & ? & ? & ?).
  exists v3. split_and!; [done|congruence|tauto].
Qed.
