(* ===== verification/FileMap.v ===== *)
(** * The blocks of a file

    The block tree of a [DiskInode] ([src/disk_inode.cpp]): its nodes, the
    block each of them is stored in, when a tree is well formed, the bytes
    it holds, and what [block_id] computes on it.  The specification side
    of [DiskInode.v]; the operations are verified against it in
    [FileData.v], [FileGrow.v] and [FileShrink.v]. *)

From S2P Require Import Prelude Bytes Config BlkIface Bitmap Layout DiskInode.

(** ** Nodes of the tree *)

(** Data block [i]; the block [indirect1]; the block [indirect2]; the
    block of ids number [j] under [indirect2]. *)
Inductive node := NData (i : Z) | NInd1 | NInd2 | NSub (j : Z).

#[export] Instance node_eq_dec : EqDecision node.
Proof. solve_decision. Defined.

(** How far a tree reaches: its data blocks, whether the two index blocks
    are there, and the blocks of ids under [indirect2]. *)
Record shape := mkShape { s_data : Z; s_ind1 : bool; s_ind2 : bool; s_sub : Z }.

Definition live (sh : shape) (x : node) : Prop :=
  match x with
  | NData i => 0 ≤ i < s_data sh
  | NInd1 => s_ind1 sh = true
  | NInd2 => s_ind2 sh = true
  | NSub j => 0 ≤ j < s_sub sh
  end.

#[export] Instance live_dec sh x : Decision (live sh x).
Proof. destruct x; simpl; apply _. Defined.

(** The shape of a file of [n] data blocks. *)
Definition subs (n : Z) : Z :=
  if n <=? 1047 then 0 else (n - 1047 + 1023) / 1024.

Definition file_shape (n : Z) : shape :=
  mkShape n (23 <? n) (1047 <? n) (subs n).

(** The number of blocks of a tree. *)
Definition nodes (sh : shape) : Z :=
  s_data sh + Z.b2z (s_ind1 sh) + Z.b2z (s_ind2 sh) + s_sub sh.

(** ** Where the nodes are stored *)

Definition blk_at (m : store) (b : Z) : block := default zero_block (m !! b).

Definition node_id (m : store) (di : DiskInode) (x : node) : Z :=
  match x with
  | NInd1 => indirect1 di
  | NInd2 => indirect2 di
  | NSub j => get32 (blk_at m (indirect2 di)) j
  | NData i =>
      if i <? 23 then direct_at di i
      else if i <? 1047 then get32 (blk_at m (indirect1 di)) (i - 23)
      else get32 (blk_at m (get32 (blk_at m (indirect2 di)) ((i - 1047) / 1024)))
             ((i - 1047) mod 1024)
  end.

Definition is_index (x : node) : Prop := ∀ i, x ≠ NData i.

(** A shape whose data blocks have the index blocks they need. *)
Definition shape_ok (sh : shape) : Prop :=
  0 ≤ s_data sh ≤ MAX_BLOCK_SIZE ∧ 0 ≤ s_sub sh ≤ 1024 ∧
  (23 < s_data sh → s_ind1 sh = true) ∧
  (0 < s_sub sh → s_ind2 sh = true) ∧
  s_data sh ≤ 1047 + 1024 * s_sub sh.

(** A tree: its nodes are stored in pairwise distinct existing blocks. *)
Record tree_ok (m : store) (di : DiskInode) (sh : shape) : Prop := {
  t_store : store_wf m;
  t_direct : zlen (direct di) = kInodeDirectCnt ∧ Forall is_u32 (direct di);
  t_ind : is_u32 (indirect1 di) ∧ is_u32 (indirect2 di);
  t_shape : shape_ok sh;
  t_in x : live sh x → is_Some (m !! node_id m di x);
  t_inj x y : live sh x → live sh y → node_id m di x = node_id m di y → x = y;
}.

(** The first [n] data blocks, one after the other. *)
Definition file_bytes (m : store) (di : DiskInode) (n : Z) : bytes :=
  seqZ 0 n ≫= λ i, blk_at m (node_id m di (NData i)).

(** ** Lemmas *)

Lemma subs_pos n : 1047 < n → 0 < subs n ∧ n ≤ 1047 + 1024 * subs n.
Proof.
  intros. unfold subs. destruct (Z.leb_spec n 1047); [lia|].
  pose proof (Z.div_mod (n - 1047 + 1023) 1024). pose proof (Z.mod_pos_bound (n - 1047 + 1023) 1024).
  lia.
Qed.

Lemma subs_bound n : n ≤ MAX_BLOCK_SIZE → 0 ≤ subs n ≤ 1024.
Proof.
  intros. change MAX_BLOCK_SIZE with 1049623 in *. unfold subs.
  destruct (Z.leb_spec n 1047); [lia|].
  pose proof (Z.div_mod (n - 1047 + 1023) 1024). pose proof (Z.mod_pos_bound (n - 1047 + 1023) 1024).
  lia.
Qed.

Lemma file_shape_ok n : 0 ≤ n ≤ MAX_BLOCK_SIZE → shape_ok (file_shape n).
Proof.
  intros Hn. unfold shape_ok, file_shape; simpl.
  pose proof (subs_bound n (proj2 Hn)). pose proof (subs_pos n).
  destruct (Z.ltb_spec 1047 n) as [H1|H1].
  - split_and!; lia.
  - assert (subs n = 0) as -> by (unfold subs; destruct (Z.leb_spec n 1047); lia).
    split_and!; lia.
Qed.

Lemma node_id_u32 m di x sh :
  tree_ok m di sh → is_u32 (node_id m di x).
Proof.
  intros [? [Hl Hd] [H1 H2] _ _ _]. destruct x as [i| | |j]; simpl; try done.
  - destruct (i <? 23).
    + unfold direct_at. destruct (at_ (direct di) i) as [v|] eqn:Hv; simpl; [|unfold is_u32; lia].
      unfold at_ in Hv. destruct (0 <=? i); [|done]. by eapply Forall_lookup_1.
    + destruct (i <? 1047); apply get32_range.
  - apply get32_range.
Qed.

Lemma blk_at_wf m b : store_wf m → blk_wf (blk_at m b).
Proof.
  intros Hm. unfold blk_at. destruct (m !! b) as [x|] eqn:Hx; simpl; [by destruct (Hm _ _ Hx)|].
  apply zero_block_wf.
Qed.

Lemma blk_at_Some m b : is_Some (m !! b) → m !! b = Some (blk_at m b).
Proof. intros [x Hx]. unfold blk_at. by rewrite Hx. Qed.

Lemma map_read_at b m : is_u32 b → is_Some (m !! b) → map_read b m = (Some (blk_at m b), m).
Proof. intros Hb Hm. apply map_read_eq; [done|]. by apply blk_at_Some. Qed.

Lemma data_ind1_live sh i :
  shape_ok sh → live sh (NData i) → 23 ≤ i → i < 1047 → live sh NInd1.
Proof. intros (_&_&H1&_) Hi ??. simpl in *. apply H1. lia. Qed.

Lemma sub_index_range i : 1047 ≤ i → 0 ≤ (i - 1047) / 1024 ∧ 0 ≤ (i - 1047) mod 1024 < 1024.
Proof.
  intros. pose proof (Z.mod_pos_bound (i - 1047) 1024).
  split; [apply Z.div_pos; lia|lia].
Qed.

Lemma data_sub_live sh i :
  shape_ok sh → live sh (NData i) → 1047 ≤ i →
  live sh NInd2 ∧ live sh (NSub ((i - 1047) / 1024)).
Proof.
  intros (_&_&_&H2&Hs) Hi ?. simpl in *.
  pose proof (sub_index_range i ltac:(lia)).
  pose proof (Z.div_mod (i - 1047) 1024). split; [apply H2|]; lia.
Qed.

(** ** [block_id] *)

Lemma DiskInode_block_id_spec m di sh i :
  tree_ok m di sh → live sh (NData i) →
  DiskInode_block_id di i m = (Some (node_id m di (NData i)), m).
Proof.
  intros Ht Hi. pose proof Ht as [Hm Hd [Hu1 Hu2] Hsh Hin _].
  assert (Hmax : (MAX_BLOCK_SIZE <=? i) = false) by (apply Z.leb_gt; destruct Hsh; simpl in *; lia).
  unfold DiskInode_block_id. rewrite Hmax.
  change INODE_DIRECT_COUNT with 23. change INODE_INDIRECT_COUNT with 1024.
  change (23 + 1024) with 1047. cbn [node_id].
  replace (i - 23 - 1024) with (i - 1047) by lia.
  destruct (Z.ltb_spec i 23); [done|].
  destruct (Z.ltb_spec i 1047).
  - pose proof (Hin NInd1 (data_ind1_live _ _ Hsh Hi ltac:(lia) ltac:(lia))) as H1.
    cbn [dev_read MapDev]. by rewrite (bind_attempt _ _ _ _ _ (map_read_at _ _ Hu1 H1)).
  - destruct (data_sub_live _ _ Hsh Hi ltac:(lia)) as [L2 Ls].
    pose proof (Hin _ L2) as H2. pose proof (Hin _ Ls) as Hs. simpl in H2, Hs.
    cbn [dev_read MapDev]. rewrite (bind_attempt _ _ _ _ _ (map_read_at _ _ Hu2 H2)).
    by rewrite (bind_attempt _ _ _ _ _ (map_read_at _ _ (get32_range _ _) Hs)).
Qed.

(** Out of the index's range, the id is [kFail]. *)
Lemma DiskInode_block_id_max (m : store) di i :
  MAX_BLOCK_SIZE ≤ i → DiskInode_block_id di i m = (Some kFail_blk, m).
Proof. intros. unfold DiskInode_block_id. by destruct (Z.leb_spec MAX_BLOCK_SIZE i); [|lia]. Qed.

(** ** The bytes of a file *)

Lemma zlen_bind_blocks m di a (n : nat) :
  store_wf m →
  zlen (seqZ a (Z.of_nat n) ≫= λ i, blk_at m (node_id m di (NData i))) = kBlockSize * Z.of_nat n.
Proof.
  intros Hm. revert a. induction n as [|n IH]; intros a.
  { rewrite seqZ_nil by lia. unfold zlen. simpl. lia. }
  rewrite seqZ_cons by lia. cbn [mbind list_bind]. rewrite zlen_app.
  replace (Z.pred (Z.of_nat (S n))) with (Z.of_nat n) by lia.
  setoid_rewrite IH. pose proof (blk_at_wf m (node_id m di (NData a)) Hm) as Hwf.
  unfold blk_wf in Hwf. unfold kBlockSize in *. lia.
Qed.

Lemma zlen_file_bytes m di n : store_wf m → 0 ≤ n → zlen (file_bytes m di n) = kBlockSize * n.
Proof.
  intros Hm Hn. unfold file_bytes. replace n with (Z.of_nat (Z.to_nat n)) by lia.
  by apply zlen_bind_blocks.
Qed.

(** The part of the file inside one block. *)
Lemma slice_file_bytes m di n i o l :
  store_wf m → 0 ≤ i < n → 0 ≤ o → 0 ≤ l → o + l ≤ kBlockSize →
  slice (kBlockSize * i + o) l (file_bytes m di n) = slice o l (blk_at m (node_id m di (NData i))).
Proof.
  intros Hm Hi Ho Hl Hol. unfold file_bytes.
  assert (Hsplit : seqZ 0 n = seqZ 0 i ++ seqZ i (n - i)).
  { replace n with (i + (n - i)) at 1 by lia. rewrite seqZ_app by lia. by rewrite Z.add_0_l. }
  rewrite Hsplit, bind_app.
  pose proof (zlen_bind_blocks m di 0 (Z.to_nat i) Hm) as Hz. rewrite Z2Nat.id in Hz by lia.
  rewrite slice_app_r by (unfold kBlockSize in *; lia). rewrite Hz.
  replace (kBlockSize * i + o - kBlockSize * i) with o by lia.
  rewrite seqZ_cons by lia. cbn [mbind list_bind]. rewrite slice_app_l; [done|done|].
  pose proof (blk_at_wf m (node_id m di (NData i)) Hm) as Hwf. unfold blk_wf in Hwf. lia.
Qed.

(** Files whose data blocks hold the same bytes. *)
Lemma file_bytes_ext m di m' di' n :
  (∀ i, 0 ≤ i < n → blk_at m' (node_id m' di' (NData i)) = blk_at m (node_id m di (NData i))) →
  file_bytes m' di' n = file_bytes m di n.
Proof.
  intros Heq. unfold file_bytes. apply Forall_bind_ext.
  apply Forall_forall. intros i Hi%elem_of_seqZ. apply Heq. lia.
Qed.
