(* ===== verification/FileData.v ===== *)
(** * Reading and writing the bytes of a file

    [read_data] returns the bytes of the file, and [write_data] overwrites
    them and nothing else, for files below 2 GiB (beyond, the [int]s of
    the source overflow). *)

From S2P Require Import Prelude Bytes Config BlkIface Bitmap Layout DiskInode FileMap.

(** Two inodes with the same block pointers. *)
Definition same_tree (di di' : DiskInode) : Prop :=
  direct di' = direct di ∧ indirect1 di' = indirect1 di ∧ indirect2 di' = indirect2 di.

Lemma same_tree_id m di di' x : same_tree di di' → node_id m di' x = node_id m di x.
Proof. intros (Hd & H1 & H2). destruct x; simpl; unfold direct_at; by rewrite ?Hd, ?H1, ?H2. Qed.

Lemma same_tree_ok m di di' sh : same_tree di di' → tree_ok m di sh → tree_ok m di' sh.
Proof.
  intros Hs [Hm Hd Hi Hsh Hin Hinj]. pose proof Hs as (Ed & E1 & E2).
  split; [done|by rewrite Ed|by rewrite E1, E2|done| |].
  - intros x. rewrite (same_tree_id m di di') by done. apply Hin.
  - intros x y. rewrite !(same_tree_id m di di') by done. apply Hinj.
Qed.

Lemma same_tree_bytes m di di' n : same_tree di di' → file_bytes m di' n = file_bytes m di n.
Proof. intros Hs. apply file_bytes_ext. intros. by rewrite (same_tree_id m di di'). Qed.

Lemma same_tree_meta e f di : same_tree di (update_meta e f di).
Proof. done. Qed.

(** ** Offsets *)

Lemma blk_of_small l : 0 ≤ l < 2 ^ 31 → blk_of l = l / kBlockSize.
Proof.
  intros Hl. unfold blk_of, kBlockSize. rewrite (i32_small l), u64_small by lia.
  pose proof (Z.div_pos l 4096). pose proof (Z.div_le_upper_bound l 4096 l).
  apply i32_small. lia.
Qed.

Lemma off_of_small l : 0 ≤ l < 2 ^ 31 → off_of l = l mod kBlockSize.
Proof.
  intros Hl. unfold off_of, kBlockSize. rewrite (i32_small l), u64_small by lia.
  pose proof (Z.mod_pos_bound l 4096). apply i32_small. lia.
Qed.

Lemma blk_off l : l = kBlockSize * (l / kBlockSize) + l mod kBlockSize ∧
  0 ≤ l mod kBlockSize < kBlockSize.
Proof.
  unfold kBlockSize. pose proof (Z.div_mod l 4096). pose proof (Z.mod_pos_bound l 4096). lia.
Qed.

(** The bytes an access may cover end where the file ends. *)
Lemma clamp_len_eq sz off len :
  0 ≤ off ≤ sz → sz < 2 ^ 31 → 0 ≤ len → off + len < 2 ^ 32 →
  clamp_len sz off len = Z.min len (sz - off).
Proof.
  intros. unfold clamp_len. rewrite (u32_small (off + len)) by (unfold is_u32; lia).
  destruct (Z.leb_spec sz (off + len)); [|lia].
  rewrite u32_small by (unfold is_u32; lia). lia.
Qed.

(** ** Reading *)

Lemma live_u32 sh i : shape_ok sh → live sh (NData i) → is_u32 i.
Proof.
  intros [Hn _] Hi. simpl in Hi. change MAX_BLOCK_SIZE with 1049623 in Hn. unfold is_u32. lia.
Qed.

Lemma read_blk_spec m di sh i :
  tree_ok m di sh → live sh (NData i) →
  read_blk di i m = (Some (blk_at m (node_id m di (NData i))), m).
Proof.
  intros Ht Hi. unfold read_blk. rewrite u32_small by (eapply live_u32; [apply Ht|done]).
  rewrite (bind_Some _ _ _ _ _ (DiskInode_block_id_spec _ _ _ _ Ht Hi)).
  apply map_read_at; [by eapply node_id_u32|]. by apply (t_in _ _ _ Ht).
Qed.

Section read.
Context (m : store) (di : DiskInode) (sh : shape) (Ht : tree_ok m di sh).
Abbreviation F := (file_bytes m di (s_data sh)).

Lemma read_blk_wp i (P : block → DiskInode * store → Prop) Q :
  live sh (NData i) → P (blk_at m (node_id m di (NData i))) (di, m) →
  wp (on_snd (read_blk di i)) P Q (di, m).
Proof. intros Hi HP. apply wp_on_snd. eapply wp_eq; [by eapply read_blk_spec|done]. Qed.

Lemma slice_F i o l :
  live sh (NData i) → 0 ≤ o → 0 ≤ l → o + l ≤ kBlockSize →
  slice o l (blk_at m (node_id m di (NData i))) = slice (kBlockSize * i + o) l F.
Proof. intros. rewrite slice_file_bytes; [done|apply Ht|done..]. Qed.

Lemma zlen_F : zlen F = kBlockSize * s_data sh.
Proof. apply zlen_file_bytes; [apply Ht|]. pose proof (t_shape _ _ _ Ht) as [? _]. lia. Qed.

(** The blocks in the middle. *)
Lemma read_middle off a n :
  0 ≤ off → off ≤ kBlockSize * a → live sh (NData a) ∨ n = O → a + Z.of_nat n ≤ s_data sh →
  wp (for_acc n a (slice off (kBlockSize * a - off) F)
        (λ i out, data <- on_snd (read_blk di i);; ret (out ++ data)))
    (λ out s, s = (di, m) ∧ out = slice off (kBlockSize * (a + Z.of_nat n) - off) F)
    never (di, m).
Proof.
  intros Ho Hoa Ha Hn.
  apply (wp_for_acc (λ i out s, s = (di, m) ∧ out = slice off (kBlockSize * i - off) F));
    [done|].
  intros j out s Hj [-> ->]. assert (Hlj : live sh (NData j)).
  { destruct Ha as [Ha| ->]; [|lia]. simpl in *. lia. }
  apply wp_bind, read_blk_wp; [done|]. apply wp_ret. split; [done|].
  pose proof (blk_at_wf m (node_id m di (NData j)) (t_store _ _ _ Ht)) as Hwf.
  rewrite <- (slice_all (blk_at m _)), Hwf, slice_F by (done || unfold kBlockSize; lia).
  pose proof zlen_F. simpl in Hlj. rewrite slice_cat by (unfold kBlockSize in *; lia).
  f_equal. unfold kBlockSize in *. lia.
Qed.
End read.

Lemma DiskInode_read_data_spec e m di sh off len :
  tree_ok m di sh → size di < 2 ^ 31 → size di ≤ kBlockSize * s_data sh →
  0 ≤ off ≤ size di → off < kBlockSize * s_data sh → 0 < len → off + len < 2 ^ 32 →
  DiskInode_read_data e off len (di, m) =
    (Some (Z.min len (size di - off),
           slice off (Z.min len (size di - off)) (file_bytes m di (s_data sh))),
     (update_meta e 1 di, m)).
Proof.
  intros Ht Hsz Hcap Hoff Hlast Hlen Hend.
  set (di1 := update_meta e 1 di). assert (Hst : same_tree di di1) by done.
  pose proof (same_tree_ok _ _ _ _ Hst Ht) as Ht1.
  rewrite <- (same_tree_bytes m di di1) by done.
  set (l := Z.min len (size di - off)). assert (Hl : 0 ≤ l ≤ size di - off) by (unfold l; lia).
  set (F := file_bytes m di1 (s_data sh)).
  cut (wp (DiskInode_read_data e off len) (λ a s, a = (l, slice off l F) ∧ s = (di1, m)) never (di, m)).
  { intros (? & ? & -> & -> & ->)%wp_never. done. }
  unfold DiskInode_read_data. apply wp_bind. eapply wp_eq; [reflexivity|]. fold di1.
  apply wp_bind. eapply wp_eq; [reflexivity|]. cbn [fst]. fold di1.
  destruct (Z.eqb_spec len 0); [lia|].
  change (size di1) with (size di). destruct (Z.ltb_spec (size di) off); [lia|].
  cbv zeta. rewrite clamp_len_eq by lia. fold l.
  rewrite (u32_small (off + l)) by (unfold is_u32; lia).
  rewrite !blk_of_small, !off_of_small, i32_small by lia.
  destruct (blk_off off) as [Ho Homod]. destruct (blk_off (off + l)) as [He Hemod].
  set (lid := off / kBlockSize) in *. set (rid := (off + l) / kBlockSize) in *.
  set (lo := off mod kBlockSize) in *. set (ro := (off + l) mod kBlockSize) in *.
  assert (Hlid : live sh (NData lid)) by (simpl; unfold kBlockSize in *; lia).
  pose proof (zlen_F m di1 sh Ht1) as HzF.
  destruct (Z.eqb_spec lid rid) as [Heq|Hne].
  - apply wp_bind, (read_blk_wp _ _ _ Ht1); [done|]. apply wp_ret.
    rewrite (slice_F _ _ _ Ht1) by (done || lia). split; [|done]. do 2 f_equal; lia.
  - assert (lid < rid) by (unfold kBlockSize in *; lia).
    apply wp_bind, (read_blk_wp _ _ _ Ht1); [done|].
    rewrite (slice_F _ _ _ Ht1) by (done || lia). rewrite <- Ho.
    replace (kBlockSize - lo) with (kBlockSize * (lid + 1) - off) by (unfold kBlockSize in *; lia).
    apply wp_bind. eapply wp_mono; [apply (read_middle _ _ _ Ht1); [lia| | | ]| |done].
    + unfold kBlockSize in *. lia.
    + simpl. unfold kBlockSize in *. destruct (decide (lid + 1 = rid)); [right|left]; lia.
    + unfold kBlockSize in *. lia.
    + intros out s [-> ->]. rewrite Z2Nat.id by lia.
      replace (lid + 1 + (rid - (lid + 1))) with rid by lia.
      destruct (Z.ltb_spec 0 ro).
      * apply wp_bind, (read_blk_wp _ _ _ Ht1); [simpl; unfold kBlockSize in *; lia|]. apply wp_ret.
        rewrite (slice_F _ _ _ Ht1) by (simpl; unfold kBlockSize in *; lia).
        rewrite slice_cat by (unfold kBlockSize in *; lia). split; [|done]. do 2 f_equal; lia.
      * apply wp_ret. split; [|done]. do 2 f_equal; unfold kBlockSize in *; lia.
Qed.

(** ** Writing *)

(** [m'] is [m] with data blocks of the file [di] overwritten: the tree is
    the same, and no other block changed. *)
Record data_written (di : DiskInode) (sh : shape) (m m' : store) : Prop := {
  dw_tree : tree_ok m' di sh;
  dw_ids x : live sh x → node_id m' di x = node_id m di x;
  dw_frame b : (∀ i, live sh (NData i) → b ≠ node_id m di (NData i)) → m' !! b = m !! b;
  dw_dom b : is_Some (m' !! b) ↔ is_Some (m !! b);
}.

Lemma data_written_refl di sh m : tree_ok m di sh → data_written di sh m m.
Proof. by split. Qed.

Lemma data_written_trans di sh m1 m2 m3 :
  data_written di sh m1 m2 → data_written di sh m2 m3 → data_written di sh m1 m3.
Proof.
  intros [T1 I1 F1 D1] [T2 I2 F2 D2]. split; [done| | |].
  - intros x Hx. by rewrite I2, I1.
  - intros b Hb. rewrite F2, F1; [done|done|]. intros i Hi. rewrite I1 by done. by apply Hb.
  - intros b. by rewrite D2.
Qed.

(** The ids of the nodes depend on the index blocks only. *)
Lemma node_id_frame m m' di sh x :
  shape_ok sh → live sh x →
  (∀ y, live sh y → is_index y → blk_at m' (node_id m di y) = blk_at m (node_id m di y)) →
  node_id m' di x = node_id m di x.
Proof.
  intros Hsh Hx Hidx.
  assert (H1 : live sh NInd1 → blk_at m' (indirect1 di) = blk_at m (indirect1 di))
    by (intros; by apply (Hidx NInd1)).
  assert (H2 : live sh NInd2 → blk_at m' (indirect2 di) = blk_at m (indirect2 di))
    by (intros; by apply (Hidx NInd2)).
  destruct x as [i| | |j]; cbn [node_id]; [|done|done|].
  - destruct (Z.ltb_spec i 23); [done|]. destruct (Z.ltb_spec i 1047).
    + rewrite H1; [done|]. by eapply data_ind1_live.
    + destruct (data_sub_live sh i) as [L2 Ls]; [done|done|lia|].
      rewrite H2 by done. pose proof (Hidx _ Ls ltac:(done)) as Hs. simpl in Hs. by rewrite Hs.
  - rewrite H2; [done|]. destruct Hsh as (_&_&_&Hs&_). simpl in *. apply Hs. lia.
Qed.

(** Storing a whole block of data. *)
Lemma store_data_block m di sh i x :
  tree_ok m di sh → live sh (NData i) → blk_wf x →
  let m' := <[node_id m di (NData i) := x]> m in
  map_write (node_id m di (NData i)) x m = (Some tt, m') ∧
  data_written di sh m m' ∧
  ∀ j, live sh (NData j) →
    blk_at m' (node_id m' di (NData j)) =
    if decide (j = i) then x else blk_at m (node_id m di (NData j)).
Proof.
  intros Ht Hi Hx m'. pose proof Ht as [Hm Hd Hu Hsh Hin Hinj].
  assert (Hids : ∀ y, live sh y → node_id m' di y = node_id m di y).
  { intros y Hy. apply (node_id_frame _ _ _ sh); [done|done|]. intros z Hz Hidx.
    unfold blk_at, m'. rewrite lookup_insert_ne; [done|].
    intros Heq%Hinj; [|done|done]. by apply (Hidx i). }
  assert (Hdom : ∀ b, is_Some (m' !! b) ↔ is_Some (m !! b)).
  { intros b. unfold m'. rewrite lookup_insert_is_Some. split; [|destruct (decide (node_id m di (NData i) = b)); tauto].
    intros [<-|[]]; [by apply Hin|done]. }
  split; [by apply map_write_eq; [eapply node_id_u32| apply Hin|]|]. split; [split|].
  - split; [|done|done|done| |].
    + apply store_wf_insert; [done|by eapply node_id_u32|done].
    + intros y Hy. rewrite Hids by done. apply Hdom. by apply Hin.
    + intros y z Hy Hz. rewrite !Hids by done. by apply Hinj.
  - done.
  - intros b Hb. unfold m'. rewrite lookup_insert_ne; [done|]. intros <-. by apply (Hb i).
  - done.
  - intros j Hj. rewrite Hids by done. unfold blk_at, m'. case_decide as Hji; [subst j|].
    + by rewrite lookup_insert_eq.
    + rewrite lookup_insert_ne; [done|]. intros Heq%Hinj; [|done|done]. congruence.
Qed.

(** Overwriting a part of the file inside one block. *)
Lemma splice_file_bytes m m' di n i o src :
  store_wf m → store_wf m' → 0 ≤ i < n → 0 ≤ o → o + zlen src ≤ kBlockSize →
  (∀ j, 0 ≤ j < n → blk_at m' (node_id m' di (NData j)) =
     if decide (j = i) then splice o src (blk_at m (node_id m di (NData i)))
     else blk_at m (node_id m di (NData j))) →
  file_bytes m' di n = splice (kBlockSize * i + o) src (file_bytes m di n).
Proof.
  intros Hm Hm' Hi Ho Hsrc Hblk. pose proof (zlen_nonneg src).
  pose proof (zlen_file_bytes m di n Hm ltac:(lia)) as Hz.
  pose proof (zlen_file_bytes m' di n Hm' ltac:(lia)) as Hz'.
  apply list_eq. intros k.
  destruct (decide (Z.of_nat k < kBlockSize * n)) as [Hk|Hk].
  2:{ rewrite !lookup_ge_None_2; [done| |unfold zlen in *; lia].
      pose proof (zlen_splice (kBlockSize * i + o) src (file_bytes m di n)) as Hs.
      unfold zlen, kBlockSize in *. lia. }
  destruct (blk_off (Z.of_nat k)) as [Ek Ekm].
  set (j := Z.of_nat k / kBlockSize) in *. set (r := Z.of_nat k mod kBlockSize) in *.
  assert (Hj : 0 ≤ j < n) by (unfold kBlockSize in *; lia).
  assert (Hbyte : ∀ mm, store_wf mm → file_bytes mm di n !! k = blk_at mm (node_id mm di (NData j)) !! Z.to_nat r).
  { intros mm Hmm. pose proof (slice_file_bytes mm di n j 0 kBlockSize Hmm Hj) as Hs.
    pose proof (blk_at_wf mm (node_id mm di (NData j)) Hmm) as Hwf.
    rewrite <- Hwf, slice_all, Hwf in Hs. rewrite <- Hs by (unfold kBlockSize; lia).
    rewrite lookup_slice by (unfold kBlockSize in *; lia). f_equal. unfold kBlockSize in *. lia. }
  rewrite Hbyte by done. rewrite Hblk by done.
  rewrite lookup_splice by (unfold kBlockSize in *; lia).
  rewrite Hbyte by done. case_decide as Hji.
  - rewrite Hji in *. pose proof (blk_at_wf m (node_id m di (NData i)) Hm) as Hwf. unfold blk_wf in Hwf.
    rewrite lookup_splice by lia.
    repeat case_decide; try (exfalso; unfold kBlockSize in *; lia); try done.
    f_equal. unfold kBlockSize in *. lia.
  - rewrite decide_False; [done|]. unfold kBlockSize in *. lia.
Qed.

(** [src] written at position [p] of the file. *)
Definition wrote (di : DiskInode) (sh : shape) (p : Z) (src : bytes) (m m' : store) : Prop :=
  data_written di sh m m' ∧
  file_bytes m' di (s_data sh) = splice p src (file_bytes m di (s_data sh)).

Lemma store_block_wrote m di sh i o src :
  tree_ok m di sh → live sh (NData i) → 0 ≤ o → o + zlen src ≤ kBlockSize →
  ∃ m', map_write (node_id m di (NData i)) (splice o src (blk_at m (node_id m di (NData i)))) m
      = (Some tt, m') ∧ wrote di sh (kBlockSize * i + o) src m m'.
Proof.
  intros Ht Hi Ho Hsrc.
  pose proof (blk_at_wf m (node_id m di (NData i)) (t_store _ _ _ Ht)) as Hwf.
  unfold blk_wf in Hwf.
  destruct (store_data_block m di sh i (splice o src (blk_at m (node_id m di (NData i)))))
    as (Hw & Hdw & Hblk); [done|done|unfold blk_wf; rewrite zlen_splice; lia|].
  eexists. split; [done|]. split; [done|].
  apply splice_file_bytes; [apply Ht|apply (dw_tree _ _ _ _ Hdw)|done|done|done|done].
Qed.

Lemma patch_blk_wp m di sh i o src (P : unit → DiskInode * store → Prop) Q :
  tree_ok m di sh → live sh (NData i) → 0 ≤ o → o + zlen src ≤ kBlockSize →
  (∀ m', wrote di sh (kBlockSize * i + o) src m m' → P tt (di, m')) →
  wp (on_snd (patch_blk di i o src)) P Q (di, m).
Proof.
  intros Ht Hi Ho Hsrc HP. apply wp_on_snd. cbn [fst snd].
  destruct (store_block_wrote m di sh i o src) as (m' & Hw & Hwr); [done..|].
  unfold patch_blk. rewrite u32_small by (eapply live_u32; [apply Ht|done]).
  apply wp_bind. eapply wp_eq; [by eapply DiskInode_block_id_spec|].
  apply wp_bind. eapply wp_eq; [apply map_read_at; [by eapply node_id_u32|by apply (t_in _ _ _ Ht)]|].
  cbn [dev_write MapDev]. eapply wp_eq; [done|]. by apply HP.
Qed.

Lemma whole_blk_wp m di sh i x {A} (k : unit → M (DiskInode * store) A) P Q :
  tree_ok m di sh → live sh (NData i) → blk_wf x →
  (∀ m', wrote di sh (kBlockSize * i) x m m' → wp (k tt) P Q (di, m')) →
  wp (blk <- on_snd (DiskInode_block_id di (u32 i));; on_snd (dev_write blk x);;; k tt) P Q (di, m).
Proof.
  intros Ht Hi Hx HP.
  pose proof (blk_at_wf m (node_id m di (NData i)) (t_store _ _ _ Ht)) as Hwf.
  destruct (store_block_wrote m di sh i 0 x) as (m' & Hw & Hwr);
    [done|done|done|by rewrite Hx|].
  rewrite splice_all in Hw by (unfold blk_wf in *; congruence). rewrite Z.add_0_r in Hwr.
  rewrite u32_small by (eapply live_u32; [apply Ht|done]).
  apply wp_bind, wp_on_snd. eapply wp_eq; [by eapply DiskInode_block_id_spec|].
  apply wp_bind, wp_on_snd. cbn [dev_write MapDev]. eapply wp_eq; [done|]. by apply HP.
Qed.

Lemma wrote_trans di sh p a b m1 m2 m3 :
  tree_ok m1 di sh → 0 ≤ p → p + zlen a + zlen b ≤ kBlockSize * s_data sh →
  wrote di sh p a m1 m2 → wrote di sh (p + zlen a) b m2 m3 → wrote di sh p (a ++ b) m1 m3.
Proof.
  intros Ht Hp Hb [D1 B1] [D2 B2]. split; [by eapply data_written_trans|].
  rewrite B2, B1, splice_app; [done|done|]. by rewrite (zlen_F m1 di sh).
Qed.

Lemma wrote_same_tree di di' sh p a m m' :
  same_tree di di' → wrote di' sh p a m m' → wrote di sh p a m m'.
Proof.
  intros Hs [[T I F Dm] B]. pose proof Hs as (Hd & H1 & H2).
  assert (Hs' : same_tree di' di) by done.
  split; [split|].
  - by eapply same_tree_ok.
  - intros x Hx. rewrite <- !(same_tree_id _ di di') by done. by apply I.
  - intros b Hb. apply F. intros i Hi. rewrite (same_tree_id _ di di') by done. by apply Hb.
  - done.
  - by rewrite <- !(same_tree_bytes _ di di').
Qed.

(** The blocks in the middle. *)
Lemma write_middle m0 m di sh off buf a n :
  tree_ok m0 di sh → 0 ≤ off ≤ kBlockSize * a → live sh (NData a) ∨ n = O →
  a + Z.of_nat n ≤ s_data sh → kBlockSize * (a + Z.of_nat n) - off ≤ zlen buf →
  wrote di sh off (slice 0 (kBlockSize * a - off) buf) m0 m →
  wp (for_acc n a (kBlockSize * a - off)
        (λ i bufoffset,
          blk <- on_snd (DiskInode_block_id di (u32 i));;
          on_snd (dev_write blk (slice bufoffset kBlockSize buf));;;
          ret (bufoffset + kBlockSize)))
    (λ bo s, ∃ m', s = (di, m') ∧ bo = kBlockSize * (a + Z.of_nat n) - off ∧
       wrote di sh off (slice 0 (kBlockSize * (a + Z.of_nat n) - off) buf) m0 m')
    never (di, m).
Proof.
  intros Ht Hoff Ha Hn Hbuf Hw.
  apply (wp_for_acc (λ i bo s, ∃ m', s = (di, m') ∧ bo = kBlockSize * i - off ∧
       wrote di sh off (slice 0 (kBlockSize * i - off) buf) m0 m')).
  { by exists m. }
  intros j bo s Hj (m1 & -> & -> & Hw1).
  assert (Hlj : live sh (NData j)) by (destruct Ha as [Ha| ->]; simpl in *; lia).
  assert (Hz : ∀ o l, 0 ≤ o → 0 ≤ l → o + l ≤ kBlockSize * (j + 1) - off → zlen (slice o l buf) = l)
    by (intros; apply zlen_slice; unfold kBlockSize in *; lia).
  eapply (whole_blk_wp m1 di sh j _ (λ _, ret _)); [apply Hw1|done|apply Hz; unfold kBlockSize in *; lia|].
  intros m2 Hw2. apply wp_ret. exists m2. split; [done|]. split; [unfold kBlockSize; lia|].
  replace (kBlockSize * (j + 1) - off) with (kBlockSize * j - off + kBlockSize)
    by (unfold kBlockSize; lia).
  rewrite slice_app by (unfold kBlockSize in *; lia).
  simpl in Hlj. eapply wrote_trans; [done|lia| |done|].
  - rewrite !Hz by (unfold kBlockSize in *; lia). unfold kBlockSize in *. lia.
  - rewrite Hz by (unfold kBlockSize in *; lia).
    by replace (off + (kBlockSize * j - off)) with (kBlockSize * j) by lia.
Qed.

Lemma DiskInode_write_data_spec e m di sh off buf len :
  tree_ok m di sh → size di < 2 ^ 31 → size di ≤ kBlockSize * s_data sh →
  0 ≤ off ≤ size di → off < kBlockSize * s_data sh → 0 < len → off + len < 2 ^ 32 →
  zlen buf = len →
  ∃ m', DiskInode_write_data e off buf len (di, m) =
      (Some (Z.min len (size di - off)), (update_meta e 3 di, m')) ∧
    wrote di sh off (slice 0 (Z.min len (size di - off)) buf) m m'.
Proof.
  intros Ht Hsz Hcap Hoff Hlast Hlen Hend Hbuf.
  set (di1 := update_meta e 3 di). assert (Hst : same_tree di di1) by done.
  pose proof (same_tree_ok _ _ _ _ Hst Ht) as Ht1.
  set (l := Z.min len (size di - off)). assert (Hl : 0 ≤ l ≤ size di - off ∧ l ≤ zlen buf) by (unfold l; lia).
  cut (wp (DiskInode_write_data e off buf len)
         (λ a s, a = l ∧ ∃ m', s = (di1, m') ∧ wrote di1 sh off (slice 0 l buf) m m') never (di, m)).
  { intros (? & ? & -> & -> & m' & -> & Hw)%wp_never. exists m'. split; [done|].
    by apply (wrote_same_tree di di1). }
  unfold DiskInode_write_data. apply wp_bind. eapply wp_eq; [reflexivity|]. fold di1.
  apply wp_bind. eapply wp_eq; [reflexivity|]. cbn [fst]. fold di1.
  destruct (Z.eqb_spec len 0); [lia|].
  change (size di1) with (size di). destruct (Z.ltb_spec (size di) off); [lia|].
  cbv zeta. rewrite clamp_len_eq by lia. fold l. clearbody l.
  rewrite (u32_small (off + l)) by (unfold is_u32; lia).
  rewrite !blk_of_small, !off_of_small, i32_small by lia.
  destruct (blk_off off) as [Ho Homod]. destruct (blk_off (off + l)) as [He Hemod].
  set (lid := off / kBlockSize) in *. set (rid := (off + l) / kBlockSize) in *.
  set (lo := off mod kBlockSize) in *. set (ro := (off + l) mod kBlockSize) in *.
  assert (Hlid : live sh (NData lid)) by (simpl; unfold kBlockSize in *; lia).
  assert (Hz : ∀ o k, 0 ≤ o → 0 ≤ k → o + k ≤ l → zlen (slice o k buf) = k)
    by (intros; apply zlen_slice; lia).
  destruct (Z.eqb_spec lid rid) as [Heq|Hne].
  - apply wp_bind. apply (patch_blk_wp m di1 sh); [done|done|lia| |].
    { rewrite Hz by lia. lia. }
    intros m' Hw. apply wp_ret. split; [done|]. exists m'. split; [done|].
    rewrite <- Ho in Hw. by replace (ro - lo) with l in Hw by lia.
  - assert (lid < rid) by (unfold kBlockSize in *; lia).
    apply wp_bind. apply (patch_blk_wp m di1 sh); [done|done|lia| |].
    { rewrite Hz by (unfold kBlockSize in *; lia). lia. }
    intros m1 Hw1. rewrite <- Ho in Hw1.
    replace (kBlockSize - lo) with (kBlockSize * (lid + 1) - off) in * by (unfold kBlockSize in *; lia).
    apply wp_bind. eapply wp_mono; [apply (write_middle m m1 di1 sh); [done| | | | |done]| |done].
    + unfold kBlockSize in *. lia.
    + simpl. unfold kBlockSize in *. destruct (decide (lid + 1 = rid)); [right|left]; lia.
    + unfold kBlockSize in *. lia.
    + unfold kBlockSize in *. lia.
    + rewrite Z2Nat.id by lia. replace (lid + 1 + (rid - (lid + 1))) with rid by lia.
      intros bo s (m2 & -> & -> & Hw2). apply wp_bind. destruct (Z.ltb_spec 0 ro).
      * assert (Hrid : live sh (NData rid)) by (simpl; unfold kBlockSize in *; lia).
        apply (patch_blk_wp m2 di1 sh); [apply Hw2|done|done| |].
        { rewrite Hz by (unfold kBlockSize in *; lia). lia. }
        intros m3 Hw3. apply wp_ret. split; [done|]. exists m3. split; [done|].
        replace l with (kBlockSize * rid - off + ro) by lia.
        rewrite slice_app by (unfold kBlockSize in *; lia).
        eapply wrote_trans; [done|lia| |done|].
        { rewrite !Hz by (unfold kBlockSize in *; lia). simpl in Hrid. unfold kBlockSize in *. lia. }
        rewrite Hz by (unfold kBlockSize in *; lia).
        by replace (off + (kBlockSize * rid - off)) with (kBlockSize * rid + 0) by lia.
      * apply wp_ret, wp_ret. split; [done|]. exists m2. split; [done|].
        by replace l with (kBlockSize * rid - off) by lia.
Qed.
