(* ===== verification/FileGrow.v ===== *)
(** * Growing a file

    [increase] turns a tree of [old_data] data blocks into one of
    [new_data], taking every new block, index blocks included, from the
    free blocks of the data bitmap and keeping what the file holds; it
    fails exactly when the bitmap has too few free blocks.  Each elementary
    step (allocate a block, hang it into the tree) is an instance of the
    relation [grown], which composes. *)

From S2P Require Import Prelude Bytes Config BlkIface Bitmap DataArea Layout DiskInode FileMap FileData.

(** Everything of an inode but its block pointers. *)
Definition meta (di : DiskInode) : DiskInode :=
  mkDiskInode (size di) (access_time di) (change_time di) (modify_time di) (uid di) (gid di)
    (link_cnt di) (mode di) [] 0 0 (type_ di).

(** A file whose blocks are allocated in the bitmap; the absent index
    blocks are marked by 0. *)
Record file_own (m : store) (bm : Bitmap) (di : DiskInode) (sh : shape) : Prop := {
  o_tree : tree_ok m di sh;
  o_area : area_ok m bm;
  o_used x : live sh x → used m bm (node_id m di x);
  o_zero1 : s_ind1 sh = false → indirect1 di = 0;
  o_zero2 : s_ind2 sh = false → indirect2 di = 0;
}.

Record grown (bm : Bitmap) (m : store) (di : DiskInode) (sh : shape)
    (m' : store) (di' : DiskInode) (sh' : shape) : Prop := {
  g_own : file_own m' bm di' sh';
  g_old x : live sh x → live sh' x ∧ node_id m' di' x = node_id m di x;
  g_new x : live sh' x → ¬ live sh x → ¬ used m bm (node_id m' di' x);
  g_used b : used m' bm b ↔ used m bm b ∨ ∃ x, live sh' x ∧ ¬ live sh x ∧ b = node_id m' di' x;
  g_frame b : ¬ in_bitmap bm b → (∀ x, live sh' x → is_index x → b ≠ node_id m' di' x) →
    m' !! b = m !! b;
  g_dom b : is_Some (m' !! b) ↔ is_Some (m !! b);
  g_count : free_blocks m' bm + nodes sh' = free_blocks m bm + nodes sh;
  g_meta : meta di' = meta di;
}.

Lemma grown_refl bm m di sh : file_own m bm di sh → grown bm m di sh m di sh.
Proof.
  intros Ho. split; try done.
  intros b. split; [by left|]. by intros [?|(x & ? & ? & _)].
Qed.

Lemma grown_trans bm m1 d1 s1 m2 d2 s2 m3 d3 s3 :
  grown bm m1 d1 s1 m2 d2 s2 → grown bm m2 d2 s2 m3 d3 s3 → grown bm m1 d1 s1 m3 d3 s3.
Proof.
  intros [O2 L2 N2 U2 F2 D2 C2 M2] [O3 L3 N3 U3 F3 D3 C3 M3].
  split; [done| | | | | |lia|congruence].
  - intros x Hx. destruct (L2 x Hx) as [Hx2 E2]. destruct (L3 x Hx2) as [Hx3 E3].
    split; [done|congruence].
  - intros x Hx Hn. destruct (decide (live s2 x)) as [Hx2|Hn2].
    + destruct (L3 x Hx2) as [_ ->]. by apply N2.
    + intros Hu. apply (N3 x Hx Hn2). apply U2. by left.
  - intros b. rewrite U3, U2. split.
    + intros [[?|(x & Hx & Hn & ->)]|(x & Hx & Hn & ->)]; [by left| |].
      * right. exists x. destruct (L3 x Hx) as [Hx3 E3]. by rewrite E3.
      * right. exists x. split_and!; [done| |done]. intros Hx1. by apply Hn, L2.
    + intros [?|(x & Hx & Hn & ->)]; [by left; left|].
      destruct (decide (live s2 x)) as [Hx2|Hn2].
      * left. right. exists x. destruct (L3 x Hx2) as [_ E3]. done.
      * right. by exists x.
  - intros b Hb Hi. rewrite F3 by done. apply F2; [done|]. intros x Hx Hidx.
    destruct (L3 x Hx) as [Hx3 E3]. rewrite <- E3. by apply Hi.
  - intros b. by rewrite D3.
Qed.

(** A new block [b] hung into the tree as node [x0]; an index block that
    names it may have been rewritten. *)
Lemma grown_step bm m di sh m1 b m' di' sh' x0 :
  file_own m bm di sh → allocd bm m m1 b →
  (∀ x, live sh' x ↔ live sh x ∨ x = x0) → ¬ live sh x0 → nodes sh' = nodes sh + 1 →
  shape_ok sh' →
  (m' = m1 ∨ ∃ y v, live sh y ∧ is_index y ∧ blk_wf v ∧ m' = <[node_id m di y := v]> m1) →
  zlen (direct di') = kInodeDirectCnt ∧ Forall is_u32 (direct di') →
  is_u32 (indirect1 di') ∧ is_u32 (indirect2 di') →
  (s_ind1 sh' = false → indirect1 di' = 0) → (s_ind2 sh' = false → indirect2 di' = 0) →
  meta di' = meta di →
  (∀ x, live sh x → node_id m' di' x = node_id m di x) → node_id m' di' x0 = b →
  grown bm m di sh m' di' sh'.
Proof.
  intros Hown [Aa Ain Af Au Afr Ad Ac] Hlive Hn0 Hcnt Hsh Hm' Hd' Hi' Hz1 Hz2 Hmeta Hold Hb.
  pose proof Hown as [Ht _ Hus _ _].
  assert (HU : ∀ c, used m' bm c ↔ used m1 bm c).
  { intros c. destruct Hm' as [->|(y & v & Hy & _ & _ & ->)]; [done|]. apply insert_used.
    eapply in_area_not_bitmap; [apply Hown|]. by apply Hus. }
  assert (HD : ∀ c, is_Some (m' !! c) ↔ is_Some (m1 !! c)).
  { intros c. destruct Hm' as [->|(y & v & Hy & _ & _ & ->)]; [done|]. apply insert_dom.
    apply Ad. by apply (t_in _ _ _ Ht). }
  assert (Hids : ∀ x, live sh' x → (live sh x ∧ node_id m' di' x = node_id m di x) ∨ (x = x0 ∧ node_id m' di' x = b)).
  { intros x Hx. apply Hlive in Hx as [Hx| ->]; [left; auto|by right]. }
  assert (HA : area_ok m' bm).
  { destruct Hm' as [->|(y & v & Hy & _ & Hv & ->)]; [done|].
    apply insert_area; [done| | | |done].
    - eapply in_area_not_bitmap; [apply Hown|]. by apply Hus.
    - apply Ad. by apply (t_in _ _ _ Ht).
    - by eapply node_id_u32. }
  assert (Hnu : ∀ x, live sh x → node_id m di x ≠ b).
  { intros x Hx <-. by apply Af, Hus. }
  split.
  - split; [|done| |done|done].
    + split; [apply (a_bitmap _ _ HA)|done|done|done| |].
      * intros x Hx. apply HD. destruct (Hids x Hx) as [[Hl ->]|[_ ->]].
        -- apply Ad. by apply (t_in _ _ _ Ht).
        -- by eapply in_area_block.
      * intros x y Hx Hy Heq.
        destruct (Hids x Hx) as [[Hlx Ex]|[Ex1 Ex]], (Hids y Hy) as [[Hly Ey]|[Ey1 Ey]];
          rewrite Ex, Ey in Heq.
        -- by apply (t_inj _ _ _ Ht).
        -- by apply Hnu in Heq.
        -- symmetry in Heq. by apply Hnu in Heq.
        -- congruence.
    + intros x Hx. apply HU, Au. destruct (Hids x Hx) as [[Hl ->]|[_ ->]]; [left; auto|by right].
  - intros x Hx. split; [apply Hlive; by left|by apply Hold].
  - intros x Hx Hnx. destruct (Hids x Hx) as [[Hl _]|[_ ->]]; done.
  - intros c. rewrite HU, Au. split; (intros [?|Hc]; [by left|right]).
    + exists x0. subst c. split_and!; [apply Hlive; by right|done|done].
    + destruct Hc as (x & Hx & Hnx & ->). by destruct (Hids x Hx) as [[? _]|[_ ?]].
  - intros c Hc Hi. rewrite <- Afr by done.
    destruct Hm' as [->|(y & v & Hy & Hidx & _ & ->)]; [done|].
    rewrite lookup_insert_ne; [done|]. rewrite <- Hold by done. symmetry.
    apply Hi; [|done]. apply Hlive. by left.
  - intros c. by rewrite HD.
  - destruct Hm' as [->|(y & v & Hy & _ & _ & ->)]; [lia|].
    rewrite insert_free_blocks; [lia|]. eapply in_area_not_bitmap; [apply Hown|]. by apply Hus.
  - done.
Qed.

(** ** The elementary steps *)

Lemma blk_after bm m m1 b k v c :
  allocd bm m m1 b → ¬ in_bitmap bm c →
  blk_at (<[k := v]> m1) c = if decide (c = k) then v else blk_at m c.
Proof.
  intros Ha Hc. unfold blk_at. case_decide as Hck; [subst; by rewrite lookup_insert_eq|].
  rewrite lookup_insert_ne by done. by rewrite (al_frame _ _ _ _ Ha).
Qed.

Lemma own_not_bitmap m bm di sh x : file_own m bm di sh → live sh x → ¬ in_bitmap bm (node_id m di x).
Proof. intros Ho Hx. eapply in_area_not_bitmap; [apply Ho|]. by apply (o_used _ _ _ _ Ho). Qed.

(** The block of a live index node after the write of another. *)
Lemma idx_after bm m m1 b di sh x y v :
  file_own m bm di sh → allocd bm m m1 b → live sh x → live sh y →
  blk_at (<[node_id m di y := v]> m1) (node_id m di x) =
  if decide (x = y) then v else blk_at m (node_id m di x).
Proof.
  intros Ho Ha Hx Hy. rewrite (blk_after _ m _ b) by (done || by eapply own_not_bitmap).
  destruct (decide (x = y)) as [->|Hne]; [by rewrite decide_True|].
  rewrite decide_False; [done|]. intros Heq. by apply Hne, (t_inj _ _ _ (o_tree _ _ _ _ Ho)).
Qed.

Lemma idx_same bm m m1 b di sh x :
  file_own m bm di sh → allocd bm m m1 b → live sh x →
  blk_at m1 (node_id m di x) = blk_at m (node_id m di x).
Proof.
  intros Ho Ha Hx. unfold blk_at. rewrite (al_frame _ _ _ _ Ha); [done|]. by eapply own_not_bitmap.
Qed.

Lemma upd_direct_ok l i v :
  zlen l = kInodeDirectCnt ∧ Forall is_u32 l → is_u32 v →
  zlen (upd_at l i (λ _, v)) = kInodeDirectCnt ∧ Forall is_u32 (upd_at l i (λ _, v)).
Proof.
  intros [Hl Hf] Hv. rewrite zlen_upd_at. split; [done|]. unfold upd_at. destruct (0 <=? i); [|done].
  by apply Forall_alter.
Qed.

Definition with_data (n : Z) (sh : shape) : shape := mkShape n (s_ind1 sh) (s_ind2 sh) (s_sub sh).

Lemma live_more_data sh i x :
  s_data sh = i → 0 ≤ i → live (with_data (i + 1) sh) x ↔ live sh x ∨ x = NData i.
Proof.
  intros Hi H0. destruct x as [k| | |k]; simpl; try (split; [by left|by intros [?|?]]).
  split; [|intros [?|[= ->]]; lia]. intros. destruct (decide (k = i)) as [->|]; [by right|left; lia].
Qed.

Lemma not_live_data sh i : s_data sh ≤ i → ¬ live sh (NData i).
Proof. simpl. lia. Qed.

(** [direct[i] = b]. *)
Lemma grow_direct bm m di sh m1 b i :
  file_own m bm di sh → allocd bm m m1 b → s_data sh = i → i < 23 →
  grown bm m di sh m1 (set_direct i b di) (with_data (i + 1) sh).
Proof.
  intros Ho Ha Hi Hi23. pose proof Ho as [Ht Har _ Hz1 Hz2]. pose proof Ht as [_ Hd Hu Hsh _ _].
  assert (H0 : 0 ≤ i) by (destruct Hsh; lia).
  assert (Hbu : is_u32 b) by (eapply in_area_u32; [exact Har|apply Ha]).
  eapply (grown_step bm m di sh m1 b _ _ _ (NData i)); try done.
  - intros x. by apply live_more_data.
  - apply not_live_data. lia.
  - unfold nodes. simpl. lia.
  - destruct Hsh as (?&?&?&?&?). split_and!; simpl; try lia; try done.
    change MAX_BLOCK_SIZE with 1049623. lia.
  - by left.
  - by apply upd_direct_ok.
  - intros [k| | |k] Hk; simpl in *; [|done|done|].
    + destruct (Z.ltb_spec k 23) as [Hk23|]; [|lia].
      unfold direct_at. simpl. by rewrite at_upd_at_ne by lia.
    + pose proof (idx_same bm m m1 b di sh NInd2 Ho Ha) as Hs. simpl in Hs. rewrite Hs; [done|].
      destruct Hsh as (_&_&_&H2&_). apply H2. lia.
  - simpl. destruct (Z.ltb_spec i 23); [|lia]. unfold direct_at. simpl. rewrite at_upd_at_eq.
    destruct (at_range (direct di) i) as [x ->]; [|done].
    destruct Hd as [-> _]. unfold kInodeDirectCnt. lia.
Qed.

(** [indirect1 = b]. *)
Lemma grow_ind1 bm m di sh m1 b :
  file_own m bm di sh → allocd bm m m1 b → s_ind1 sh = false →
  grown bm m di sh m1 (set_indirect1 b di) (mkShape (s_data sh) true (s_ind2 sh) (s_sub sh)).
Proof.
  intros Ho Ha H1. pose proof Ho as [Ht Har _ Hz1 Hz2]. pose proof Ht as [_ Hd Hu Hsh _ _].
  assert (Hbu : is_u32 b) by (eapply in_area_u32; [exact Har|apply Ha]).
  assert (Hdat : s_data sh ≤ 23).
  { destruct (decide (23 < s_data sh)) as [Hlt|]; [|lia].
    destruct Hsh as (_&_&H&_). rewrite H in H1 by done. done. }
  eapply (grown_step bm m di sh m1 b _ _ _ NInd1); try done.
  - intros [k| | |k]; simpl; (split; [|by intros [?|?]]); auto.
  - simpl. by rewrite H1.
  - unfold nodes. simpl. rewrite H1. simpl. lia.
  - destruct Hsh as (?&?&?&?&?). split_and!; simpl; try lia; done.
  - by left.
  - simpl. tauto.
  - intros [k| | |k] Hk; simpl in *; [|congruence|done|].
    + by destruct (Z.ltb_spec k 23) as [Hk23|]; [|lia].
    + pose proof (idx_same bm m m1 b di sh NInd2 Ho Ha) as Hs. simpl in Hs. rewrite Hs; [done|].
      destruct Hsh as (_&_&_&H2&_). apply H2. lia.
Qed.

(** [indirect2 = b]. *)
Lemma grow_ind2 bm m di sh m1 b :
  file_own m bm di sh → allocd bm m m1 b → s_ind2 sh = false →
  grown bm m di sh m1 (set_indirect2 b di) (mkShape (s_data sh) (s_ind1 sh) true (s_sub sh)).
Proof.
  intros Ho Ha H2. pose proof Ho as [Ht Har _ Hz1 Hz2]. pose proof Ht as [_ Hd Hu Hsh _ _].
  assert (Hbu : is_u32 b) by (eapply in_area_u32; [exact Har|apply Ha]).
  assert (Hsub : s_sub sh = 0).
  { destruct (decide (0 < s_sub sh)) as [Hlt|]; [|destruct Hsh; lia].
    destruct Hsh as (_&_&_&H&_). rewrite H in H2 by done. done. }
  assert (Hdat : s_data sh ≤ 1047) by (destruct Hsh as (_&_&_&_&?); lia).
  eapply (grown_step bm m di sh m1 b _ _ _ NInd2); try done.
  - intros [k| | |k]; simpl; (split; [|by intros [?|?]]); auto.
  - simpl. by rewrite H2.
  - unfold nodes. simpl. rewrite H2. simpl. lia.
  - destruct Hsh as (?&?&?&?&?). split_and!; simpl; try lia; done.
  - by left.
  - simpl. tauto.
  - intros [k| | |k] Hk; simpl in *; [|done|congruence|lia].
    destruct (Z.ltb_spec k 23) as [Hk23|]; [done|]. destruct (Z.ltb_spec k 1047); [|lia].
    pose proof (idx_same bm m m1 b di sh NInd1 Ho Ha) as Hs. simpl in Hs. rewrite Hs; [done|].
    destruct Hsh as (_&_&Hi1&_). apply Hi1. lia.
Qed.

(** ** Steps that write an index block *)

Lemma get32_set32_blk blk i j v :
  blk_wf blk → 0 ≤ i < 1024 → 0 ≤ j →
  get32 (set32 i v blk) j = if decide (i = j) then u32 v else get32 blk j.
Proof. intros Hb Hi Hj. unfold blk_wf, kBlockSize in Hb. apply get32_set32; lia. Qed.

Lemma set32_wf blk i v : blk_wf blk → 0 ≤ i < 1024 → blk_wf (set32 i v blk).
Proof. unfold blk_wf, kBlockSize. intros Hb Hi. rewrite zlen_set32; lia. Qed.

Section index_write.
Context (bm : Bitmap) (m : store) (di : DiskInode) (sh : shape) (m1 : store) (b : Z).
Context (Ho : file_own m bm di sh) (Ha : allocd bm m m1 b).

Let Hsh : shape_ok sh := t_shape _ _ _ (o_tree _ _ _ _ Ho).

Lemma blk_wf_at c : blk_wf (blk_at m c).
Proof. apply blk_at_wf. apply (t_store _ _ _ (o_tree _ _ _ _ Ho)). Qed.

Lemma new_blk_u32 : is_u32 b.
Proof. eapply in_area_u32; [apply Ho|apply Ha]. Qed.

Lemma sub_data_live i : live sh (NData i) → 1047 ≤ i →
  live sh NInd2 ∧ live sh (NSub ((i - 1047) / 1024)).
Proof. by apply data_sub_live. Qed.

(** Entry [s_data - 23] of the block [indirect1]. *)
Lemma grow_data_ind1 i :
  s_data sh = i → 23 ≤ i < 1047 → s_ind1 sh = true →
  grown bm m di sh (<[indirect1 di := set32 (i - 23) b (blk_at m (indirect1 di))]> m1) di
    (with_data (i + 1) sh).
Proof.
  intros Hi Hr H1. pose proof Ho as [Ht Har _ Hz1 Hz2]. pose proof Ht as [_ Hd Hu _ _ _].
  pose proof (blk_wf_at (indirect1 di)) as Hwf.
  pose proof (λ x v, idx_after bm m m1 b di sh x NInd1 v Ho Ha) as Hidx. simpl in Hidx.
  eapply (grown_step bm m di sh m1 b _ _ _ (NData i)); try done.
  - intros x. apply live_more_data; lia.
  - apply not_live_data. lia.
  - unfold nodes. simpl. lia.
  - destruct Hsh as (?&?&?&?&?). split_and!; simpl; try lia; try done.
    change MAX_BLOCK_SIZE with 1049623. lia.
  - right. exists NInd1, (set32 (i - 23) b (blk_at m (indirect1 di))).
    split_and!; try done. apply set32_wf; [done|lia].
  - intros [k| | |k] Hk; simpl in *; [|done|done|].
    + destruct (Z.ltb_spec k 23) as [Hk23|]; [done|]. destruct (Z.ltb_spec k 1047); [|lia].
      rewrite (Hidx NInd1) by done. rewrite decide_True by done.
      rewrite get32_set32_blk by (done || lia). by rewrite decide_False by lia.
    + assert (L2 : live sh NInd2) by (destruct Hsh as (_&_&_&H2&_); apply H2; lia).
      rewrite (Hidx NInd2) by done. by rewrite decide_False.
  - simpl. destruct (Z.ltb_spec i 23); [lia|]. destruct (Z.ltb_spec i 1047); [|lia].
    rewrite (Hidx NInd1) by done. rewrite decide_True by done.
    rewrite get32_set32_blk by (done || lia). rewrite decide_True by done.
    apply u32_small, new_blk_u32.
Qed.

(** Entry [s_sub] of the block [indirect2]. *)
Lemma grow_sub :
  s_ind2 sh = true → s_sub sh < 1024 →
  grown bm m di sh (<[indirect2 di := set32 (s_sub sh) b (blk_at m (indirect2 di))]> m1) di
    (mkShape (s_data sh) (s_ind1 sh) (s_ind2 sh) (s_sub sh + 1)).
Proof.
  intros H2 Hs. pose proof Ho as [Ht Har _ Hz1 Hz2]. pose proof Ht as [_ Hd Hu _ _ _].
  pose proof (blk_wf_at (indirect2 di)) as Hwf.
  pose proof (λ x v, idx_after bm m m1 b di sh x NInd2 v Ho Ha) as Hidx. simpl in Hidx.
  assert (H0 : 0 ≤ s_sub sh) by (destruct Hsh; lia).
  assert (Hent : ∀ j, 0 ≤ j < s_sub sh →
    get32 (blk_at (<[indirect2 di := set32 (s_sub sh) b (blk_at m (indirect2 di))]> m1) (indirect2 di)) j =
    get32 (blk_at m (indirect2 di)) j).
  { intros j Hj. rewrite (Hidx NInd2) by done. rewrite decide_True by done.
    rewrite get32_set32_blk by (done || lia). by rewrite decide_False by lia. }
  eapply (grown_step bm m di sh m1 b _ _ _ (NSub (s_sub sh))); try done.
  - intros [k| | |k]; simpl; try (split; [by left|by intros [?|?]]).
    split; [|intros [?|[= ->]]; lia]. intros.
    destruct (decide (k = s_sub sh)) as [->|]; [by right|left; lia].
  - simpl. lia.
  - unfold nodes. simpl. lia.
  - destruct Hsh as (?&?&?&?&?). split_and!; simpl; try lia; done.
  - right. exists NInd2, (set32 (s_sub sh) b (blk_at m (indirect2 di))).
    split_and!; try done. apply set32_wf; [done|lia].
  - intros [k| | |k] Hk; simpl in *; [|done|done|by apply Hent].
    destruct (Z.ltb_spec k 23) as [Hk23|]; [done|]. destruct (Z.ltb_spec k 1047).
    + assert (L1 : live sh NInd1) by (eapply (data_ind1_live _ k Hsh); [done|lia|lia]).
      rewrite (Hidx NInd1) by done. by rewrite decide_False.
    + destruct (sub_data_live k Hk) as [L2 Ls]; [lia|]. rewrite Hent by done.
      pose proof (Hidx (NSub ((k - 1047) / 1024))) as Hs'. simpl in Hs'.
      by rewrite Hs'.
  - simpl. rewrite (Hidx NInd2) by done. rewrite decide_True by done.
    rewrite get32_set32_blk by (done || lia). rewrite decide_True by done.
    apply u32_small, new_blk_u32.
Qed.

(** Entry [(s_data - 1047) mod 1024] of a block under [indirect2]. *)
Lemma grow_data_sub i c :
  s_data sh = i → 1047 ≤ i → i < 1047 + 1024 * s_sub sh →
  c = node_id m di (NSub ((i - 1047) / 1024)) →
  grown bm m di sh (<[c := set32 ((i - 1047) mod 1024) b (blk_at m c)]> m1) di
    (with_data (i + 1) sh).
Proof.
  intros Hi Hr Hcap ->. pose proof Ho as [Ht Har _ Hz1 Hz2]. pose proof Ht as [_ Hd Hu _ _ _].
  destruct (sub_index_range i Hr) as [Hj0 Hjm]. pose proof (Z.div_mod (i - 1047) 1024 ltac:(lia)) as Hdm.
  set (jj := (i - 1047) / 1024) in *.
  assert (Ls : live sh (NSub jj)) by (simpl; lia).
  assert (H2 : s_ind2 sh = true) by (destruct Hsh as (_&_&_&H2&_); apply H2; lia).
  set (c := node_id m di (NSub jj)). pose proof (blk_wf_at c) as Hwf.
  pose proof (λ x v, idx_after bm m m1 b di sh x (NSub jj) v Ho Ha) as Hidx. fold c in Hidx.
  assert (Hi2 : ∀ v, blk_at (<[c := v]> m1) (indirect2 di) = blk_at m (indirect2 di)).
  { intros v. pose proof (Hidx NInd2 v H2 Ls) as Hx. simpl in Hx. by rewrite Hx. }
  eapply (grown_step bm m di sh m1 b _ _ _ (NData i)); try done.
  - intros x. apply live_more_data; lia.
  - apply not_live_data. lia.
  - unfold nodes. simpl. lia.
  - destruct Hsh as (?&?&Hs1&?&?).
    split_and!; simpl; change MAX_BLOCK_SIZE with 1049623; try lia; try done.
    intros. apply Hs1. lia.
  - right. exists (NSub jj), (set32 ((i - 1047) mod 1024) b (blk_at m c)).
    split_and!; try done. by apply set32_wf.
  - intros [k| | |k] Hk; simpl in *; [|done|done|by rewrite Hi2].
    destruct (Z.ltb_spec k 23) as [Hk23|]; [done|]. destruct (Z.ltb_spec k 1047).
    + assert (L1 : live sh NInd1) by (eapply (data_ind1_live _ k Hsh); [done|lia|lia]).
      pose proof (Hidx NInd1 (set32 ((i - 1047) mod 1024) b (blk_at m c)) L1 Ls) as Hx.
      simpl in Hx. by rewrite Hx.
    + destruct (sub_data_live k Hk) as [_ Lk]; [lia|]. rewrite Hi2.
      pose proof (Hidx _ (set32 ((i - 1047) mod 1024) b (blk_at m c)) Lk Ls) as Hx.
      simpl in Hx. rewrite Hx. destruct (sub_index_range k) as [Hk0 Hkm]; [lia|].
      pose proof (Z.div_mod (k - 1047) 1024 ltac:(lia)).
      case_decide as Heq; [|done]. injection Heq as Heq.
      rewrite get32_set32_blk by (done || lia). rewrite decide_False by lia.
      by rewrite Heq.
  - simpl. destruct (Z.ltb_spec i 23); [lia|]. destruct (Z.ltb_spec i 1047); [lia|].
    fold jj. rewrite Hi2.
    pose proof (Hidx _ (set32 ((i - 1047) mod 1024) b (blk_at m c)) Ls Ls) as Hx.
    simpl in Hx. rewrite Hx. rewrite decide_True by done.
    rewrite get32_set32_blk by (done || lia). rewrite decide_True by done.
    apply u32_small, new_blk_u32.
Qed.
End index_write.

(** ** Running out of blocks *)

(** [m'] and [di'] are what a growth that needed [need] blocks leaves when
    it finds the bitmap full: the old file is as it was. *)
Record stopped (bm : Bitmap) (m : store) (di : DiskInode) (sh : shape)
    (m' : store) (di' : DiskInode) (need : Z) : Prop := {
  st_area : area_ok m' bm;
  st_full : free_blocks m' bm = 0;
  st_need : free_blocks m bm < need;
  st_ids x : live sh x → node_id m' di' x = node_id m di x;
  st_used b : used m bm b → used m' bm b;
  st_frame b : ¬ in_bitmap bm b → (in_area bm b → used m bm b) →
    (∀ x, live sh x → is_index x → b ≠ node_id m di x) → m' !! b = m !! b;
  st_meta : meta di' = meta di;
}.

Lemma grown_frame bm m di sh m' di' sh' b :
  grown bm m di sh m' di' sh' → ¬ in_bitmap bm b → (in_area bm b → used m bm b) →
  (∀ x, live sh x → is_index x → b ≠ node_id m di x) → m' !! b = m !! b.
Proof.
  intros Hg Hb Hu Hi. apply (g_frame _ _ _ _ _ _ _ Hg); [done|]. intros x Hx Hidx ->.
  destruct (decide (live sh x)) as [Hl|Hn].
  - destruct (g_old _ _ _ _ _ _ _ Hg x Hl) as [_ He]. by apply (Hi x).
  - apply (g_new _ _ _ _ _ _ _ Hg x Hx Hn), Hu.
    by apply (o_used _ _ _ _ (g_own _ _ _ _ _ _ _ Hg)).
Qed.

Lemma grown_used bm m di sh m' di' sh' b :
  grown bm m di sh m' di' sh' → used m bm b → used m' bm b.
Proof. intros Hg Hu. apply (g_used _ _ _ _ _ _ _ Hg). by left. Qed.

(** A stop after some growth, when the state differs from the one reached
    by blocks of the bitmap and pointers of dead nodes only. *)
Lemma stopped_after bm m di sh m1 d1 s1 m' di' need :
  grown bm m di sh m1 d1 s1 → stopped bm m1 d1 s1 m' di' need →
  stopped bm m di sh m' di' (need + nodes s1 - nodes sh).
Proof.
  intros Hg [Sa Sf Sn Si Su Sfr Sm]. pose proof (g_count _ _ _ _ _ _ _ Hg).
  split; try done; try lia.
  - intros x Hx. destruct (g_old _ _ _ _ _ _ _ Hg x Hx) as [Hx1 He]. by rewrite Si, He.
  - intros b Hb. apply Su. by eapply grown_used.
  - intros b Hb Hub Hi. rewrite Sfr; [by eapply grown_frame|done| |].
    + intros Hin. eapply grown_used; [done|]. by apply Hub.
    + intros x Hx Hidx ->. destruct (decide (live sh x)) as [Hl|Hn].
      * destruct (g_old _ _ _ _ _ _ _ Hg x Hl) as [_ He]. by apply (Hi x).
      * pose proof (o_used _ _ _ _ (g_own _ _ _ _ _ _ _ Hg) x Hx) as Hux.
        apply (g_new _ _ _ _ _ _ _ Hg x Hx Hn), Hub. apply Hux.
  - rewrite Sm. apply Hg.
Qed.

Lemma stopped_here bm m di sh need :
  file_own m bm di sh → free_blocks m bm = 0 → 0 < need → stopped bm m di sh m di need.
Proof. intros Ho Hf Hn. split; try done; [apply Ho|lia]. Qed.

(** ** Allocation in the loops *)

Lemma alloc_blk_wp bm m di (P : Z → DiskInode * store → Prop) (Q : DiskInode * store → Prop) :
  area_ok m bm →
  (∀ b m', allocd bm m m' b → P b (di, m')) → (free_blocks m bm = 0 → Q (di, m)) →
  wp (alloc_blk bm) P Q (di, m).
Proof.
  intros Ha HP HQ. unfold alloc_blk. apply wp_bind, wp_on_snd. cbn [fst snd].
  destruct (Bitmap_alloc_area m bm Ha) as [(b & m' & Hrun & Hne & Hal)|[Hrun Hf]].
  - eapply wp_eq; [done|]. destruct (Z.eqb_spec b kFail_blk); [done|]. by apply HP.
  - eapply wp_eq; [done|]. rewrite Z.eqb_refl. by apply HQ.
Qed.

(** [blk = data_bitmap->alloc(dev)] stored in the inode, then tested. *)
Lemma alloc_field_wp bm m di (f : Z → DiskInode → DiskInode) P (Q : DiskInode * store → Prop) :
  area_ok m bm →
  (∀ b m', allocd bm m m' b → P tt (f b di, m')) →
  (free_blocks m bm = 0 → Q (f kFail_blk di, m)) →
  wp (nb <- on_snd (Bitmap_alloc bm);; upd_this (f nb);;; (if nb =? kFail_blk then fail else ret tt))
    P Q (di, m).
Proof.
  intros Ha HP HQ. apply wp_bind, wp_on_snd. cbn [fst snd].
  destruct (Bitmap_alloc_area m bm Ha) as [(b & m' & Hrun & Hne & Hal)|[Hrun Hf]].
  - eapply wp_eq; [done|]. apply wp_bind. eapply wp_eq; [done|]. cbn [fst snd].
    destruct (Z.eqb_spec b kFail_blk); [done|]. by apply HP.
  - eapply wp_eq; [done|]. apply wp_bind. eapply wp_eq; [done|]. cbn [fst snd].
    rewrite Z.eqb_refl. by apply HQ.
Qed.

(** ** Shapes of files *)

Lemma file_shape_small n : n ≤ 23 → file_shape n = mkShape n false false 0.
Proof.
  intros. unfold file_shape, subs. destruct (Z.ltb_spec 23 n), (Z.ltb_spec 1047 n), (Z.leb_spec n 1047); done || lia.
Qed.

Lemma file_shape_mid n : 23 < n ≤ 1047 → file_shape n = mkShape n true false 0.
Proof.
  intros. unfold file_shape, subs. destruct (Z.ltb_spec 23 n), (Z.ltb_spec 1047 n), (Z.leb_spec n 1047); done || lia.
Qed.

Lemma file_shape_big n : 1047 < n → file_shape n = mkShape n true true (subs n).
Proof.
  intros. unfold file_shape. destruct (Z.ltb_spec 23 n), (Z.ltb_spec 1047 n); done || lia.
Qed.

Lemma subs_succ n : 1047 ≤ n →
  subs (n + 1) = if (n - 1047) / 1024 <? subs n then subs n else subs n + 1.
Proof.
  intros Hn. pose proof (Z.div_mod (n - 1047) 1024). pose proof (Z.mod_pos_bound (n - 1047) 1024).
  assert (E1 : subs (n + 1) = (n - 1047) / 1024 + 1).
  { unfold subs. destruct (Z.leb_spec (n + 1) 1047); [lia|].
    replace (n + 1 - 1047 + 1023) with (n - 1047 + 1 * 1024) by lia. by rewrite Z.div_add. }
  assert (E2 : subs n = (n - 1047) / 1024 ∧ (n - 1047) mod 1024 = 0 ∨ subs n = (n - 1047) / 1024 + 1).
  { unfold subs. destruct (Z.leb_spec n 1047).
    - left. by replace n with 1047 by lia.
    - pose proof (Z.div_mod (n - 1047 + 1023) 1024). pose proof (Z.mod_pos_bound (n - 1047 + 1023) 1024). lia. }
  destruct (Z.ltb_spec ((n - 1047) / 1024) (subs n)); lia.
Qed.

Lemma nodes_mono a b : 0 ≤ a ≤ b → nodes (file_shape a) + (b - a) ≤ nodes (file_shape b).
Proof.
  intros Hab. unfold nodes, file_shape; simpl. unfold subs.
  pose proof (Z.div_le_mono (a - 1047 + 1023) (b - 1047 + 1023) 1024).
  pose proof (Z.div_pos (b - 1047 + 1023) 1024).
  destruct (Z.ltb_spec 23 a), (Z.ltb_spec 1047 a), (Z.leb_spec a 1047),
    (Z.ltb_spec 23 b), (Z.ltb_spec 1047 b), (Z.leb_spec b 1047); simpl; lia.
Qed.

Lemma own_ind_nonzero m bm di sh x : file_own m bm di sh → live sh x → node_id m di x ≠ 0.
Proof. intros Ho Hx. eapply in_area_u32; [apply Ho|]. by apply (o_used _ _ _ _ Ho). Qed.

(** ** [increase], step by step *)

Definition needed (a b : Z) : Z := nodes (file_shape b) - nodes (file_shape a).

(** A phase from [a] to [b] data blocks of a growth to [n]. *)
Definition grows (bm : Bitmap) (m : store) (di : DiskInode) (sh sh' : shape) (need : Z)
    (prog : M (DiskInode * store) unit) : Prop :=
  wp prog (λ _ s, grown bm m di sh s.2 s.1 sh')
    (λ s, stopped bm m di sh s.2 s.1 need) (di, m).

Lemma grows_bind bm m di s1 s2 s3 need p k :
  grows bm m di s1 s2 need p →
  (∀ m' di', grown bm m di s1 m' di' s2 → grows bm m' di' s2 s3 (need - (nodes s2 - nodes s1)) k) →
  grows bm m di s1 s3 need (p;;; k).
Proof.
  intros Hp Hk. apply wp_bind. eapply wp_mono; [exact Hp| |done].
  intros ? [di' m'] Hg. simpl in Hg. eapply wp_mono; [by apply Hk| |].
  - intros ? s Hs. simpl in Hs. by eapply grown_trans.
  - intros s Hs. simpl in Hs. eapply stopped_after in Hs; [|done].
    by replace (need - (nodes s2 - nodes s1) + nodes s2 - nodes s1) with need in Hs by lia.
Qed.

Lemma increase_direct_grows bm m di old new :
  file_own m bm di (file_shape old) → 0 ≤ old < new →
  grows bm m di (file_shape old) (file_shape (Z.max old (Z.min new 23))) (needed old new)
    (increase_direct bm old new).
Proof.
  intros Ho Hon. unfold increase_direct. change INODE_DIRECT_COUNT with 23.
  set (n := Z.to_nat (Z.min new 23 - old)).
  replace (Z.max old (Z.min new 23)) with (old + Z.of_nat n) by lia.
  apply (wp_for_range (λ i s, grown bm m di (file_shape old) s.2 s.1 (file_shape i))).
  { by apply grown_refl. }
  intros i [d1 m1] Hi Hg. simpl in Hg. pose proof (g_own _ _ _ _ _ _ _ Hg) as Ho1.
  apply wp_bind, alloc_blk_wp; [apply Ho1| |].
  - intros b m2 Ha. eapply wp_eq; [done|]. cbn [fst snd]. eapply grown_trans; [done|].
    pose proof (grow_direct bm m1 d1 (file_shape i) m2 b i Ho1 Ha ltac:(done) ltac:(lia)) as Hd.
    rewrite !file_shape_small in * by lia. done.
  - intros Hf. cbn [fst snd].
    assert (Hs : stopped bm m1 d1 (file_shape i) m1 d1 (needed i new)).
    { apply stopped_here; [done..|]. unfold needed. pose proof (nodes_mono i new). lia. }
    eapply stopped_after in Hs; [|done]. unfold needed in *.
    by replace (nodes (file_shape new) - nodes (file_shape i) + nodes (file_shape i) -
        nodes (file_shape old)) with (nodes (file_shape new) - nodes (file_shape old)) in Hs by lia.
Qed.

(** The block [indirect1], allocated when it is absent. *)
Lemma ind1_block_grows bm m di sh need k sh' :
  file_own m bm di sh → 0 < need →
  (∀ m' di', grown bm m di sh m' di' (mkShape (s_data sh) true (s_ind2 sh) (s_sub sh)) →
     grows bm m' di' (mkShape (s_data sh) true (s_ind2 sh) (s_sub sh)) sh'
       (need - (1 - Z.b2z (s_ind1 sh))) k) →
  grows bm m di sh sh' need
    (di <- this;;
     (if indirect1 di =? 0 then
        nb <- on_snd (Bitmap_alloc bm);;
        upd_this (set_indirect1 nb);;;
        (if nb =? kFail_blk then fail else ret tt)
      else ret tt);;; k).
Proof.
  intros Ho Hneed Hk. unfold grows. apply wp_bind. eapply wp_eq; [done|]. cbn [fst snd].
  set (sh1 := mkShape (s_data sh) true (s_ind2 sh) (s_sub sh)) in *.
  eapply (grows_bind bm m di sh sh1).
  - destruct (s_ind1 sh) eqn:H1.
    + pose proof (own_ind_nonzero m bm di sh NInd1 Ho H1) as Hnz. simpl in Hnz.
      destruct (Z.eqb_spec (indirect1 di) 0); [done|]. apply wp_ret. cbn [fst snd].
      replace sh1 with sh by (unfold sh1; destruct sh; simpl in *; by rewrite H1).
      by apply grown_refl.
    + pose proof (o_zero1 _ _ _ _ Ho H1) as ->. rewrite Z.eqb_refl. apply alloc_field_wp; [apply Ho| |].
      * intros b m' Ha. cbn [fst snd]. by apply grow_ind1.
      * intros Hf. cbn [fst snd]. pose proof (stopped_here bm m di sh need Ho Hf Hneed) as [Sa Sf Sn Si Su Sfr Sm].
        split; try done. intros x Hx. pose proof (t_shape _ _ _ (o_tree _ _ _ _ Ho)) as Hsh.
        destruct x as [i| | |j]; simpl in *; [|congruence|done|done].
        destruct (Z.ltb_spec i 23); [done|]. destruct Hsh as (_ & _ & Hs1 & _).
        rewrite Hs1 in H1 by lia. done.
  - intros m' di' Hg. replace (need - (nodes sh1 - nodes sh)) with (need - (1 - Z.b2z (s_ind1 sh))).
    + by apply Hk.
    + unfold nodes, sh1. simpl. lia.
Qed.

(** The loop over the ids of [indirect1], which are collected in a local
    block: writing that block makes the file grown. *)
Lemma ind1_loop bm m di sh a n need :
  file_own m bm di sh → s_ind1 sh = true → s_data sh = a → 23 ≤ a →
  a + Z.of_nat n ≤ 1047 ∨ n = O → Z.of_nat n ≤ need →
  wp (for_acc n a (blk_at m (indirect1 di)) (λ i ind1,
        nb <- alloc_blk bm;; ret (set32 (i - INODE_DIRECT_COUNT) nb ind1)))
    (λ ind1 s, s.1 = di ∧ (∀ c, ¬ in_bitmap bm c → s.2 !! c = m !! c) ∧
       grown bm m di sh (<[indirect1 di := ind1]> s.2) di (with_data (a + Z.of_nat n) sh))
    (λ s, stopped bm m di sh s.2 s.1 need) (di, m).
Proof.
  intros Ho H1 Ha H23 Hn Hneed. set (k := indirect1 di).
  pose proof (own_not_bitmap m bm di sh NInd1 Ho H1) as Hk. simpl in Hk. fold k in Hk.
  assert (Hkm : is_Some (m !! k)) by (apply (t_in _ _ _ (o_tree _ _ _ _ Ho) NInd1); done).
  assert (Hku : is_u32 k) by apply (t_ind _ _ _ (o_tree _ _ _ _ Ho)).
  apply (wp_for_acc (λ i ind1 s, s.1 = di ∧ (∀ c, ¬ in_bitmap bm c → s.2 !! c = m !! c) ∧
    grown bm m di sh (<[k := ind1]> s.2) di (with_data i sh))).
  { split_and!; [done|done|]. cbn [fst snd]. rewrite insert_id by (by apply blk_at_Some).
    replace (with_data a sh) with sh by (unfold with_data; destruct sh; simpl in *; congruence).
    by apply grown_refl. }
  intros i ind1 [d' m'] Hi Hinv. cbn [fst snd] in Hinv. destruct Hinv as (-> & Hfr & Hg).
  pose proof (g_own _ _ _ _ _ _ _ Hg) as Hov.
  assert (Hkm' : is_Some (m' !! k)) by (rewrite Hfr by done; done).
  assert (Hind1 : blk_at (<[k:=ind1]> m') k = ind1) by (unfold blk_at; by rewrite lookup_insert_eq).
  assert (Hwf1 : blk_wf ind1).
  { destruct (t_store _ _ _ (o_tree _ _ _ _ Hov) k ind1) as [_ ?]; [by rewrite lookup_insert_eq|done]. }
  assert (Hwf0 : blk_wf (blk_at m k)) by (apply blk_at_wf; apply Ho).
  assert (Har' : area_ok m' bm).
  { assert (E : <[k := blk_at m k]> (<[k := ind1]> m') = m').
    { rewrite insert_insert_eq. apply insert_id. rewrite Hfr by done. by apply blk_at_Some. }
    rewrite <- E. apply insert_area; try done; [apply Hov|by apply insert_dom]. }
  apply wp_bind, alloc_blk_wp; [done| |].
  - intros b m2 Hal. apply wp_ret. cbn [fst snd]. split_and!; [done| |].
    { intros c Hc. rewrite (al_frame _ _ _ _ Hal) by done. by apply Hfr. }
    eapply grown_trans; [exact Hg|].
    pose proof (allocd_insert bm m' m2 b k ind1 Hal Hk Hkm' Hku Hwf1) as Hal'.
    pose proof (grow_data_ind1 bm _ di _ _ b Hov Hal' i ltac:(done) ltac:(lia) ltac:(done)) as Hstep.
    fold k in Hstep. rewrite Hind1, insert_insert_eq in Hstep. exact Hstep.
  - intros Hf. cbn [fst snd]. pose proof (g_count _ _ _ _ _ _ _ Hg) as Hc.
    rewrite insert_free_blocks in Hc by done. unfold nodes in Hc. simpl in Hc.
    split; try done.
    + lia.
    + intros x Hx. apply (node_id_frame _ _ _ sh); [apply Ho|done|].
      intros y Hy _. unfold blk_at. rewrite Hfr; [done|]. by eapply own_not_bitmap.
    + intros b Hb. apply (insert_used m' bm k ind1); [done|]. by eapply grown_used.
    + intros b Hb _ _. by apply Hfr.
Qed.

Lemma needed_nonneg a b : 0 ≤ a ≤ b → b - a ≤ needed a b.
Proof. intros Hab. unfold needed. pose proof (nodes_mono a b). lia. Qed.

Lemma increase_ind1_grows bm m di old new a :
  file_own m bm di (file_shape a) → a = Z.max old 23 → old < new → 23 < new →
  grows bm m di (file_shape a) (file_shape (Z.max a (Z.min new 1047))) (needed a new)
    (increase_ind1 bm old new).
Proof.
  intros Ho Ha Hon Hnew. unfold increase_ind1. change INODE_DIRECT_COUNT with 23.
  change INODE_INDIRECT_COUNT with 1024. change (23 + 1024) with 1047.
  destruct (Z.leb_spec new 23); [lia|].
  pose proof (needed_nonneg a new) as Hneed.
  apply ind1_block_grows; [done|lia|]. intros m1 d1 Hg.
  set (sh1 := mkShape _ _ _ _) in *. pose proof (g_own _ _ _ _ _ _ _ Hg) as Ho1.
  unfold grows. apply wp_bind. eapply wp_eq; [done|]. cbn [fst snd].
  pose proof (t_in _ _ _ (o_tree _ _ _ _ Ho1) NInd1 ltac:(done)) as Hk. simpl in Hk.
  assert (Hku : is_u32 (indirect1 d1)) by apply (t_ind _ _ _ (o_tree _ _ _ _ Ho1)).
  apply wp_bind, wp_on_snd. cbn [fst snd dev_read MapDev]. eapply wp_eq; [by apply map_read_at|].
  rewrite <- Ha. set (n := Z.to_nat (Z.min new 1047 - a)).
  assert (Hn : Z.of_nat n = Z.max 0 (Z.min new 1047 - a)) by lia. clearbody n. apply wp_bind.
  eapply wp_mono; [apply (ind1_loop bm m1 d1 sh1 a n (needed a new - (1 - Z.b2z (s_ind1 (file_shape a)))));
    [done|done|done|lia|lia|]| |done].
  - assert (needed a new - (1 - Z.b2z (s_ind1 (file_shape a))) >= Z.of_nat n); [|lia].
    simpl. destruct (Z.ltb_spec 23 a); simpl; [lia|]. replace a with 23 in * by lia.
    unfold needed, nodes. rewrite (file_shape_small 23) by lia. simpl.
    pose proof (subs_pos new). unfold file_shape; simpl.
    assert (0 ≤ subs new).
    { destruct (decide (1047 < new)); [lia|]. unfold subs. destruct (Z.leb_spec new 1047); lia. }
    destruct (Z.ltb_spec 23 new), (Z.ltb_spec 1047 new); simpl; lia.
  - intros ind1 [d2 m2] Hinv. cbn [fst snd] in Hinv. destruct Hinv as (-> & Hfr & Hg2).
    pose proof (g_own _ _ _ _ _ _ _ Hg2) as Ho2.
    apply wp_on_snd. cbn [fst snd dev_write MapDev]. eapply wp_eq; [apply map_write_eq; [done| |]|].
    + rewrite Hfr; [done|]. by apply (own_not_bitmap m1 bm d1 sh1 NInd1 Ho1).
    + destruct (t_store _ _ _ (o_tree _ _ _ _ Ho2) (indirect1 d1) ind1) as [_ ?];
        [by rewrite lookup_insert_eq|done].
    + cbn [fst snd].
      replace (file_shape (a `max` (new `min` 1047))) with (with_data (a + Z.of_nat n) sh1); [done|].
      unfold with_data, sh1. simpl. destruct (decide (a ≤ 1047)) as [Hle|Hgt].
      * replace (a + Z.of_nat n) with (Z.max a (Z.min new 1047)) by lia.
        rewrite file_shape_mid by lia. f_equal; [by apply Z.ltb_ge|]. unfold subs.
        by destruct (Z.leb_spec a 1047); [|lia].
      * replace (a + Z.of_nat n) with a by lia. replace (Z.max a (Z.min new 1047)) with a by lia.
        rewrite file_shape_big by lia. f_equal. by apply Z.ltb_lt; lia.
Qed.

(** The block [indirect2], allocated when it is absent. *)
Lemma ind2_block_grows bm m di sh need k sh' :
  file_own m bm di sh → 0 < need →
  (∀ m' di', grown bm m di sh m' di' (mkShape (s_data sh) (s_ind1 sh) true (s_sub sh)) →
     grows bm m' di' (mkShape (s_data sh) (s_ind1 sh) true (s_sub sh)) sh'
       (need - (1 - Z.b2z (s_ind2 sh))) k) →
  grows bm m di sh sh' need
    (di <- this;;
     (if indirect2 di =? 0 then
        nb <- on_snd (Bitmap_alloc bm);;
        upd_this (set_indirect2 nb);;;
        (if nb =? kFail_blk then fail else ret tt)
      else ret tt);;; k).
Proof.
  intros Ho Hneed Hk. unfold grows. apply wp_bind. eapply wp_eq; [done|]. cbn [fst snd].
  set (sh1 := mkShape (s_data sh) (s_ind1 sh) true (s_sub sh)) in *.
  eapply (grows_bind bm m di sh sh1).
  - destruct (s_ind2 sh) eqn:H1.
    + pose proof (own_ind_nonzero m bm di sh NInd2 Ho H1) as Hnz. simpl in Hnz.
      destruct (Z.eqb_spec (indirect2 di) 0); [done|]. apply wp_ret. cbn [fst snd].
      replace sh1 with sh by (unfold sh1; destruct sh; simpl in *; by rewrite H1).
      by apply grown_refl.
    + pose proof (o_zero2 _ _ _ _ Ho H1) as ->. rewrite Z.eqb_refl. apply alloc_field_wp; [apply Ho| |].
      * intros b m' Ha. cbn [fst snd]. by apply grow_ind2.
      * intros Hf. cbn [fst snd]. pose proof (stopped_here bm m di sh need Ho Hf Hneed) as [Sa Sf Sn Si Su Sfr Sm].
        split; try done. intros x Hx. pose proof (t_shape _ _ _ (o_tree _ _ _ _ Ho)) as Hsh.
        destruct Hsh as (_ & _ & _ & Hs2 & Hcap).
        destruct (decide (0 < s_sub sh)) as [Hs|Hs]; [rewrite Hs2 in H1; done|].
        destruct x as [i| | |j]; simpl in *; [|done|congruence|lia].
        destruct (Z.ltb_spec i 23); [done|]. destruct (Z.ltb_spec i 1047); [done|lia].
  - intros m' di' Hg. replace (need - (nodes sh1 - nodes sh)) with (need - (1 - Z.b2z (s_ind2 sh))).
    + by apply Hk.
    + unfold nodes, sh1. simpl. lia.
Qed.

Definition big_shape (i : Z) : shape := mkShape i true true (subs i).

(** One round of the loop over the blocks under [indirect2]. *)
Lemma increase_ind2_body_wp bm m di i need :
  file_own m bm di (big_shape i) → 1047 ≤ i < MAX_BLOCK_SIZE → 
  nodes (big_shape (i + 1)) - nodes (big_shape i) ≤ need →
  wp (increase_ind2_body bm (indirect2 di) i (blk_at m (indirect2 di), subs i - 1))
    (λ acc s, s.1 = di ∧ acc = (blk_at s.2 (indirect2 di), subs (i + 1) - 1) ∧
       grown bm m di (big_shape i) s.2 di (big_shape (i + 1)))
    (λ s, stopped bm m di (big_shape i) s.2 s.1 need) (di, m).
Proof.
  intros Ho Hi Hneed. unfold increase_ind2_body.
  change INODE_DIRECT_COUNT with 23. change INODE_INDIRECT_COUNT with 1024. cbv zeta.
  replace (i - 23 - 1024) with (i - 1047) by lia.
  pose proof (t_shape _ _ _ (o_tree _ _ _ _ Ho)) as Hsh.
  pose proof (subs_succ i ltac:(lia)) as Hsucc.
  destruct (sub_index_range i) as [Hj Hjm]; [lia|].
  assert (Hcap : i ≤ 1047 + 1024 * subs i) by (destruct Hsh as (_&_&_&_&?); done).
  pose proof (Z.div_mod (i - 1047) 1024 ltac:(lia)) as Hdm.
  assert (Hjlt : (i - 1047) / 1024 < 1024) by (change MAX_BLOCK_SIZE with 1049623 in *; lia).
  set (j := (i - 1047) / 1024) in *.
  assert (Hu2 : is_u32 (indirect2 di)) by apply (t_ind _ _ _ (o_tree _ _ _ _ Ho)).
  (* the block of ids *)
  apply wp_bind.
  apply (wp_mono _ (λ acc s, s.1 = di ∧ acc = (blk_at s.2 (indirect2 di), subs (i + 1) - 1) ∧
    grown bm m di (big_shape i) s.2 di (mkShape i true true (subs (i + 1)))) _
    (λ s, stopped bm m di (big_shape i) s.2 s.1 need)); [| |done].
  - destruct (Z.ltb_spec j (subs i)).
    + destruct (Z.ltb_spec (subs i - 1) j); [lia|]. apply wp_ret. cbn [fst snd].
      split_and!; [done|by rewrite Hsucc|]. rewrite Hsucc. by apply grown_refl.
    + destruct (Z.ltb_spec (subs i - 1) j); [|lia].
      assert (Ej : j = subs i) by lia.
      apply wp_bind, alloc_blk_wp; [apply Ho| |].
      * intros b m1 Ha.
        pose proof (grow_sub bm m di _ m1 b Ho Ha ltac:(done) ltac:(simpl; lia)) as Hg.
        cbn [s_sub s_data s_ind1 s_ind2 big_shape] in Hg. rewrite <- Ej in Hg.
        apply wp_bind, wp_on_snd. cbn [fst snd dev_write MapDev].
        eapply wp_eq; [apply map_write_eq; [done| |]|].
        -- apply (al_dom _ _ _ _ Ha). by apply (t_in _ _ _ (o_tree _ _ _ _ Ho) NInd2).
        -- apply set32_wf; [|lia]. apply blk_at_wf, Ho.
        -- apply wp_ret. cbn [fst snd]. split_and!; [done| |].
           ++ unfold blk_at at 2. rewrite lookup_insert_eq. simpl. f_equal. lia.
           ++ replace (subs (i + 1)) with (j + 1) by lia. exact Hg.
      * intros Hf. cbn [fst snd]. apply stopped_here; [done..|].
        assert (0 < nodes (big_shape (i + 1)) - nodes (big_shape i)); [|lia].
        unfold nodes. simpl. lia.
  - intros [p lim] [d1 m1] Hinv. cbn [fst snd] in Hinv. destruct Hinv as (-> & [= -> ->] & Hg).
    pose proof (g_own _ _ _ _ _ _ _ Hg) as Ho1. set (sh1 := mkShape _ _ _ _) in *.
    assert (Hjs : 0 ≤ j < subs (i + 1)) by (rewrite Hsucc; destruct (Z.ltb_spec j (subs i)); lia).
    pose proof (t_in _ _ _ (o_tree _ _ _ _ Ho1) (NSub j) Hjs) as Hc. simpl in Hc.
    set (c := get32 (blk_at m1 (indirect2 di)) j) in *.
    assert (Hcu : is_u32 c) by apply get32_range.
    apply wp_bind, wp_on_snd. cbn [fst snd dev_read MapDev]. eapply wp_eq; [by apply map_read_at|].
    apply wp_bind, alloc_blk_wp; [apply Ho1| |].
    + intros b m2 Ha.
      pose proof (grow_data_sub bm m1 di sh1 m2 b Ho1 Ha i c ltac:(done) ltac:(lia) ltac:(simpl; lia) ltac:(done)) as Hg2.
      apply wp_bind, wp_on_snd. cbn [fst snd dev_write MapDev].
      eapply wp_eq; [apply map_write_eq; [done|by apply (al_dom _ _ _ _ Ha)|]|].
      { apply set32_wf; [|lia]. apply blk_at_wf, Ho1. }
      apply wp_ret. cbn [fst snd]. split_and!; [done| |by eapply grown_trans].
      f_equal. assert (L2 : live sh1 NInd2) by done.
      pose proof (idx_after bm m1 m2 b di sh1 NInd2 (NSub j) (set32 ((i - 1047) mod 1024) b (blk_at m1 c)) Ho1 Ha L2 Hjs) as Hx.
      simpl in Hx. fold c in Hx. by rewrite Hx.
    + intros Hf. cbn [fst snd].
      assert (Hs : stopped bm m1 di sh1 m1 di 1) by (by apply stopped_here).
      eapply stopped_after in Hs; [|exact Hg]. destruct Hs as [Sa Sf Sn Si Su Sfr Sm].
      split; try done. unfold nodes in *. simpl in *. lia.
Qed.

Lemma nodes_big i : nodes (big_shape i) = i + 2 + subs i.
Proof. unfold nodes. simpl. lia. Qed.

Lemma subs_mono a b : a ≤ b → subs a ≤ subs b.
Proof.
  intros. unfold subs. pose proof (Z.div_le_mono (a - 1047 + 1023) (b - 1047 + 1023) 1024).
  pose proof (Z.div_pos (b - 1047 + 1023) 1024).
  destruct (Z.leb_spec a 1047), (Z.leb_spec b 1047); lia.
Qed.

Lemma ind2_loop bm m di a n :
  file_own m bm di (big_shape a) → 1047 ≤ a → a + Z.of_nat n ≤ MAX_BLOCK_SIZE →
  wp (for_acc n a (blk_at m (indirect2 di), subs a - 1) (increase_ind2_body bm (indirect2 di)))
    (λ _ s, grown bm m di (big_shape a) s.2 s.1 (big_shape (a + Z.of_nat n)))
    (λ s, stopped bm m di (big_shape a) s.2 s.1 (nodes (big_shape (a + Z.of_nat n)) - nodes (big_shape a)))
    (di, m).
Proof.
  intros Ho Ha Hn.
  eapply wp_mono; [apply (wp_for_acc (λ i acc s, s.1 = di ∧
      acc = (blk_at s.2 (indirect2 di), subs i - 1) ∧ grown bm m di (big_shape a) s.2 di (big_shape i))
    (λ s, stopped bm m di (big_shape a) s.2 s.1
       (nodes (big_shape (a + Z.of_nat n)) - nodes (big_shape a))))| |].
  - split_and!; [done|done|]. by apply grown_refl.
  - intros i acc [d1 m1] Hi Hinv. cbn [fst snd] in Hinv. destruct Hinv as (-> & -> & Hg).
    eapply wp_mono; [apply (increase_ind2_body_wp _ _ _ _ (nodes (big_shape (i + 1)) - nodes (big_shape i)));
      [apply Hg|lia|lia]| |].
    + intros acc [d2 m2] Hinv. cbn [fst snd] in Hinv. destruct Hinv as (-> & -> & Hg2).
      cbn [fst snd]. split_and!; [done|done|by eapply grown_trans].
    + intros [d2 m2] Hs. cbn [fst snd] in Hs. eapply stopped_after in Hs; [|exact Hg].
      destruct Hs as [Sa Sf Sn Si Su Sfr Sm]. split; try done. cbn [fst snd].
      rewrite !nodes_big in *. pose proof (subs_mono (i + 1) (a + Z.of_nat n)). lia.
  - intros acc [d1 m1] Hinv. cbn [fst snd] in *. destruct Hinv as (-> & _ & Hg). done.
  - done.
Qed.

Lemma increase_ind2_grows bm m di old new a :
  file_own m bm di (file_shape a) → a = Z.max old 1047 → old < new → 1047 < new ≤ MAX_BLOCK_SIZE →
  grows bm m di (file_shape a) (file_shape new) (needed a new) (increase_ind2 bm old new).
Proof.
  intros Ho Ha Hon Hnew. unfold increase_ind2. change INODE_DIRECT_COUNT with 23.
  change INODE_INDIRECT_COUNT with 1024. change (23 + 1024) with 1047.
  destruct (Z.leb_spec new 1047); [lia|].
  pose proof (needed_nonneg a new) as Hneed.
  apply ind2_block_grows; [done|lia|]. intros m1 d1 Hg.
  replace (mkShape _ _ _ _) with (big_shape a) in *.
  2:{ unfold big_shape. simpl. f_equal. symmetry. apply Z.ltb_lt. lia. }
  pose proof (g_own _ _ _ _ _ _ _ Hg) as Ho1.
  unfold grows. apply wp_bind. eapply wp_eq; [done|]. cbn [fst snd].
  pose proof (t_in _ _ _ (o_tree _ _ _ _ Ho1) NInd2 ltac:(done)) as Hk. simpl in Hk.
  assert (Hku : is_u32 (indirect2 d1)) by apply (t_ind _ _ _ (o_tree _ _ _ _ Ho1)).
  apply wp_bind, wp_on_snd. cbn [fst snd dev_read MapDev]. eapply wp_eq; [by apply map_read_at|].
  rewrite <- Ha.
  assert (Hlim : (if old - 23 - 1024 - 1 <? 0 then -1 else (old - 23 - 1024 - 1) / 1024) = subs a - 1).
  { unfold subs. destruct (Z.leb_spec a 1047), (Z.ltb_spec (old - 23 - 1024 - 1) 0); try lia.
    replace (a - 1047 + 1023) with (old - 23 - 1024 - 1 + 1 * 1024) by lia.
    rewrite Z.div_add by lia. lia. }
  rewrite Hlim. set (n := Z.to_nat (new - a)).
  assert (Hn : a + Z.of_nat n = new) by lia. clearbody n.
  pose proof (ind2_loop bm m1 d1 a n Ho1 ltac:(lia) ltac:(lia)) as Hloop. rewrite Hn in Hloop.
  assert (Hnew' : big_shape new = file_shape new) by (by rewrite file_shape_big by lia).
  apply wp_bind. eapply wp_mono; [exact Hloop| |].
  - intros ? s Hs. apply wp_ret. by rewrite <- Hnew'.
  - intros s Hs. cbv beta in Hs. destruct Hs as [Sa Sf Sn Si Su Sfr Sm].
    split; try done. unfold needed. rewrite Hnew' in Sn. unfold nodes in *.
    simpl in *. destruct (Z.ltb_spec 23 a); simpl in *; lia.
Qed.

(** [increase]: the whole growth. *)
Lemma DiskInode_increase_grows bm m di old new :
  file_own m bm di (file_shape old) → 0 ≤ old < new → new ≤ MAX_BLOCK_SIZE →
  grows bm m di (file_shape old) (file_shape new) (needed old new) (DiskInode_increase bm old new).
Proof.
  intros Ho Hon Hmax. unfold DiskInode_increase.
  eapply grows_bind; [by apply increase_direct_grows|]. intros m1 d1 Hg1.
  pose proof (g_own _ _ _ _ _ _ _ Hg1) as Ho1. clear Hg1 Ho.
  set (a := Z.max old (Z.min new 23)) in *.
  replace (needed old new - (nodes (file_shape a) - nodes (file_shape old))) with (needed a new)
    by (unfold needed; lia).
  destruct (decide (new ≤ 23)) as [H23|H23].
  { unfold increase_ind1, increase_ind2. change INODE_DIRECT_COUNT with 23.
    change INODE_INDIRECT_COUNT with 1024.
    destruct (Z.leb_spec new 23), (Z.leb_spec new (23 + 1024)); try lia.
    apply wp_bind, wp_ret, wp_ret. cbn [fst snd]. replace new with a by lia. by apply grown_refl. }
  eapply grows_bind; [apply increase_ind1_grows; [done|lia|lia|lia]|]. intros m2 d2 Hg2.
  pose proof (g_own _ _ _ _ _ _ _ Hg2) as Ho2. clear Hg2 Ho1.
  set (b := Z.max a (Z.min new 1047)) in *.
  replace (needed a new - (nodes (file_shape b) - nodes (file_shape a))) with (needed b new)
    by (unfold needed; lia).
  destruct (decide (new ≤ 1047)) as [H1047|H1047].
  { unfold increase_ind2. change INODE_DIRECT_COUNT with 23. change INODE_INDIRECT_COUNT with 1024.
    destruct (Z.leb_spec new (23 + 1024)); [|lia].
    apply wp_ret. cbn [fst snd]. replace new with b by lia. by apply grown_refl. }
  apply increase_ind2_grows; [done|lia|lia|lia].
Qed.
