(* ===== verification/FileShrink.v ===== *)
(** * Shrinking a file

    [decrease] collects the ids of the blocks past [new_data], index blocks
    included, and frees each of them once, keeping the rest of the file.
    That holds when no block of the part under [indirect2] stays; what
    happens when some do is the subject of [FileShrinkPart.v]. *)

From S2P Require Import Prelude Bytes Config BlkIface Bitmap DataArea Layout InodeIO DiskInode FileMap FileData FileGrow.

(** ** Freeing a list of blocks *)

Lemma free_all_spec bm bs m :
  area_ok m bm → NoDup bs → (∀ b, b ∈ bs → used m bm b) →
  ∃ m', free_all bm (i32 <$> bs) m = (Some tt, m') ∧ area_ok m' bm ∧
    (∀ b, used m' bm b ↔ used m bm b ∧ b ∉ bs) ∧
    (∀ b, ¬ in_bitmap bm b → m' !! b = m !! b) ∧
    (∀ b, is_Some (m' !! b) ↔ is_Some (m !! b)) ∧
    free_blocks m' bm = free_blocks m bm + zlen bs.
Proof.
  intros Ha Hnd. revert m Ha. induction Hnd as [|b bs Hb Hnd IH]; intros m Ha Hu.
  { exists m. split_and!; try done; [|unfold zlen; simpl; lia].
    intros b. split; [intros; split; [done|apply not_elem_of_nil]|tauto]. }
  destruct (Bitmap_free_area m bm b Ha) as (m1 & Hrun & [Fa Fu Ff Fd Fc]); [apply Hu; by left|].
  destruct (IH m1 Fa) as (m2 & Hrun2 & Ha2 & Hu2 & Hf2 & Hd2 & Hc2).
  { intros c Hc. apply Fu. split; [apply Hu; by right|by intros ->]. }
  exists m2. split_and!; [|done| | | |].
  - cbn [fmap list_fmap free_all]. rewrite u32_i32.
    destruct (in_area_u32 m bm b Ha) as [Hbu _]; [apply (Hu b); by left|].
    rewrite u32_small by done. by rewrite (bind_Some _ _ _ _ _ Hrun).
  - intros c. rewrite Hu2, Fu, not_elem_of_cons. tauto.
  - intros c Hc. rewrite Hf2, Ff by done. done.
  - intros c. by rewrite Hd2, Fd.
  - unfold zlen in *. simpl length. lia.
Qed.

(** ** Collecting ids *)

Lemma seqZ_S i (n : nat) : seqZ i (Z.of_nat (S n)) = i :: seqZ (i + 1) (Z.of_nat n).
Proof. rewrite seqZ_cons by lia. by replace (Z.pred (Z.of_nat (S n))) with (Z.of_nat n) by lia. Qed.

Lemma push_clear_spec n : ∀ j p fl,
  blk_wf p → 0 ≤ j → j + Z.of_nat n ≤ 1024 →
  ∃ p', push_clear n j p fl = (p', fl ++ ((λ k, i32 (get32 p k)) <$> seqZ j (Z.of_nat n))) ∧
    blk_wf p' ∧ ∀ k, 0 ≤ k → (k < j ∨ j + Z.of_nat n ≤ k) → get32 p' k = get32 p k.
Proof.
  induction n as [|n IH]; intros j p fl Hp Hj Hn.
  { exists p. by rewrite app_nil_r. }
  cbn [push_clear].
  destruct (IH (j + 1) (set32 j kFail_blk p) (fl ++ [i32 (get32 p j)])) as (p' & -> & Hp' & Hg);
    [apply set32_wf; [done|lia]|lia|lia|].
  assert (Hset : ∀ k, 0 ≤ k → k ≠ j → get32 (set32 j kFail_blk p) k = get32 p k).
  { intros k Hk Hne. rewrite get32_set32_blk by (done || lia). by rewrite decide_False by done. }
  exists p'. split_and!; [|done|].
  - rewrite seqZ_S, <- app_assoc. cbn [fmap list_fmap app]. do 3 f_equal.
    apply list_fmap_ext. intros i k Hk%list_elem_of_lookup_2%elem_of_seqZ. rewrite Hset by lia. done.
  - intros k Hk Hout. rewrite Hg by lia. apply Hset; lia.
Qed.

Lemma decrease_direct_spec n : ∀ i di fl,
  zlen (direct di) = kInodeDirectCnt ∧ Forall is_u32 (direct di) → 0 ≤ i → i + Z.of_nat n ≤ 23 →
  ∃ di', decrease_direct n i di fl = (di', fl ++ ((λ k, i32 (direct_at di k)) <$> seqZ i (Z.of_nat n))) ∧
    (zlen (direct di') = kInodeDirectCnt ∧ Forall is_u32 (direct di')) ∧
    indirect1 di' = indirect1 di ∧ indirect2 di' = indirect2 di ∧ meta di' = meta di ∧
    ∀ k, (k < i ∨ i + Z.of_nat n ≤ k) → direct_at di' k = direct_at di k.
Proof.
  induction n as [|n IH]; intros i di fl Hd Hi Hn.
  { exists di. by rewrite app_nil_r. }
  cbn [decrease_direct].
  destruct (IH (i + 1) (set_direct i kFail_blk di) (fl ++ [i32 (direct_at di i)]))
    as (di' & -> & [Hd1 Hd2] & H1 & H2 & Hm & Hg); [by apply upd_direct_ok|lia|lia|].
  assert (Hset : ∀ k, k ≠ i → direct_at (set_direct i kFail_blk di) k = direct_at di k).
  { intros k Hne. unfold direct_at. simpl. by rewrite at_upd_at_ne by done. }
  exists di'. split_and!; try done.
  - rewrite seqZ_S, <- app_assoc. cbn [fmap list_fmap app]. do 3 f_equal.
    apply list_fmap_ext. intros j k Hk%list_elem_of_lookup_2%elem_of_seqZ. rewrite Hset by lia. done.
  - intros k Hout. rewrite Hg by lia. apply Hset. lia.
Qed.

(** ** The nodes that go *)

Definition gone_direct (old new : Z) : list node := NData <$> seqZ new (Z.min old 23 - new).

Definition gone_ind1 (old new : Z) : list node :=
  if 23 <? old then
    (NData <$> seqZ (Z.max new 23) (Z.min old 1047 - Z.max new 23)) ++
    (if new <=? 23 then [NInd1] else [])
  else [].

(** The blocks under node [NSub i], and that node. *)
Definition gone_sub (old i : Z) : list node :=
  (NData <$> seqZ (1047 + 1024 * i) (Z.min 1024 (old - (1047 + 1024 * i)))) ++ [NSub i].

Definition gone_ind2 (old : Z) : list node :=
  if 1047 <? old then (seqZ 0 (subs old) ≫= gone_sub old) ++ [NInd2] else [].

Definition gone (old new : Z) : list node :=
  gone_direct old new ++ gone_ind1 old new ++ gone_ind2 old.

Lemma elem_NData x a n : x ∈ NData <$> seqZ a n ↔ ∃ i, x = NData i ∧ a ≤ i < a + n.
Proof.
  rewrite list_elem_of_fmap. split; intros (i & -> & Hi); exists i; (split; [done|]);
    by apply elem_of_seqZ.
Qed.

Lemma subs_div old : 1047 < old → subs old = (old - 1048) / 1024 + 1.
Proof.
  intros. unfold subs. destruct (Z.leb_spec old 1047); [lia|].
  replace (old - 1047 + 1023) with (old - 1048 + 1 * 1024) by lia. by rewrite Z.div_add.
Qed.

Lemma elem_gone_sub x old i : x ∈ gone_sub old i ↔
  x = NSub i ∨ ∃ k, x = NData k ∧ 1047 + 1024 * i ≤ k < old ∧ k < 1047 + 1024 * i + 1024.
Proof.
  unfold gone_sub. rewrite elem_of_app, elem_NData, list_elem_of_singleton. split.
  - intros [(k & -> & Hk)| ->]; [right|by left]. exists k. split; [done|lia].
  - intros [->|(k & -> & Hk)]; [by right|left]. exists k. split; [done|lia].
Qed.

Lemma elem_gone_ind2 x old : x ∈ gone_ind2 old ↔
  1047 < old ∧ match x with NData k => 1047 ≤ k < old | NInd1 => False | NInd2 => True
    | NSub j => 0 ≤ j < subs old end.
Proof.
  unfold gone_ind2. destruct (Z.ltb_spec 1047 old) as [Hold|]; [|rewrite elem_of_nil; lia].
  rewrite elem_of_app, list_elem_of_singleton, list_elem_of_bind.
  pose proof (subs_pos old Hold). pose proof (subs_div old Hold).
  pose proof (Z.div_mod (old - 1048) 1024 ltac:(lia)).
  split.
  - intros [(i & Hx%elem_gone_sub & Hi%elem_of_seqZ)| ->]; [|done].
    split; [done|]. destruct Hx as [->|(k & -> & Hk)]; lia.
  - intros [_ Hx]. destruct x as [k| | |j]; [|done|by right|].
    + left. exists ((k - 1047) / 1024). destruct (sub_index_range k) as [Hk0 Hkm]; [lia|].
      pose proof (Z.div_mod (k - 1047) 1024 ltac:(lia)).
      split; [apply elem_gone_sub; right; exists k; split; [done|lia]|]. apply elem_of_seqZ.
      split; [lia|]. pose proof (Z.div_le_mono (k - 1047) (old - 1048) 1024). lia.
    + left. exists j. split; [apply elem_gone_sub; by left|]. apply elem_of_seqZ. lia.
Qed.

Lemma elem_gone_ind1 x old new : 0 ≤ new < old → x ∈ gone_ind1 old new ↔
  23 < old ∧ match x with NData k => Z.max new 23 ≤ k < Z.min old 1047 | NInd1 => new ≤ 23
    | _ => False end.
Proof.
  intros Hon. unfold gone_ind1. destruct (Z.ltb_spec 23 old) as [Hold|]; [|rewrite elem_of_nil; lia].
  rewrite elem_of_app, elem_NData. destruct (Z.leb_spec new 23).
  - rewrite list_elem_of_singleton. split.
    + intros [(k & -> & Hk)| ->]; lia.
    + intros [_ Hx]. destruct x as [k| | |j]; try done; [left; exists k; split; [done|lia]|by right].
  - rewrite elem_of_nil. split.
    + intros [(k & -> & Hk)|[]]. lia.
    + intros [_ Hx]. destruct x as [k| | |j]; try done; [left; exists k; split; [done|lia]|lia].
Qed.

(** Every node past [new_data], and no other. *)
Lemma elem_gone x old new : 0 ≤ new < old → new ≤ 1047 →
  x ∈ gone old new ↔ live (file_shape old) x ∧ ¬ live (file_shape new) x.
Proof.
  intros Hon Hnew. unfold gone. rewrite !elem_of_app, elem_gone_ind1, elem_gone_ind2 by done.
  unfold gone_direct. rewrite elem_NData.
  assert (Hs : subs new = 0) by (unfold subs; destruct (Z.leb_spec new 1047); lia).
  assert (Hs' : old ≤ 1047 → subs old = 0) by (intros; unfold subs; destruct (Z.leb_spec old 1047); lia).
  destruct x as [k| | |j]; simpl.
  - split.
    + intros [(i & [= <-] & Hi)|[[_ Hi]|[_ Hi]]]; lia.
    + intros Hk. destruct (decide (k < 23)).
      * left. exists k. split; [done|lia].
      * destruct (decide (k < 1047)); right; [left|right]; lia.
  - rewrite Z.ltb_lt, Z.ltb_nlt || rewrite Z.ltb_lt. split.
    + intros [(i & [=] & Hi)|[[? Hi]|[_ []]]]. split; [done|]. intros ?%Z.ltb_lt. lia.
    + intros [? Hn]. right. left. split; [done|]. destruct (decide (new ≤ 23)); [done|].
      exfalso. apply Hn. apply Z.ltb_lt. lia.
  - rewrite Z.ltb_lt. split.
    + intros [(i & [=] & Hi)|[[? []]|[? _]]]. split; [done|]. intros ?%Z.ltb_lt. lia.
    + intros [? Hn]. right. by right.
  - rewrite Hs. split.
    + intros [(i & [=] & Hi)|[[? []]|[? Hi]]]. lia.
    + intros [Hj _]. right. right. destruct (decide (old ≤ 1047)); [|lia]. rewrite Hs' in Hj by done. lia.
Qed.

Lemma NoDup_NData a n : NoDup (NData <$> seqZ a n).
Proof. apply NoDup_fmap; [by intros ?? [=]|apply NoDup_seqZ]. Qed.

Lemma NoDup_gone_subs old a n : NoDup (seqZ a n ≫= gone_sub old).
Proof.
  apply NoDup_bind; [| |apply NoDup_seqZ].
  - intros i j x _ _ Hi%elem_gone_sub Hj%elem_gone_sub.
    destruct Hi as [->|(k & -> & Hk)], Hj as [Hj|(k' & Hj & Hk')]; simplify_eq; lia.
  - intros i _. unfold gone_sub. apply NoDup_app.
    split_and!; [apply NoDup_NData| |apply NoDup_singleton].
    intros x (k & -> & Hk)%elem_NData. by rewrite list_elem_of_singleton.
Qed.

(** Each node once. *)
Lemma NoDup_gone old new : 0 ≤ new < old → NoDup (gone old new).
Proof.
  intros Hon. unfold gone. apply NoDup_app. split_and!.
  - apply NoDup_NData.
  - intros x (k & -> & Hk)%elem_NData.
    rewrite elem_of_app, elem_gone_ind1, elem_gone_ind2 by done. lia.
  - apply NoDup_app. split_and!.
    + unfold gone_ind1. destruct (23 <? old); [|by apply NoDup_nil]. apply NoDup_app.
      split_and!; [apply NoDup_NData| |destruct (new <=? 23); [apply NoDup_singleton|by apply NoDup_nil]].
      intros x (k & -> & Hk)%elem_NData. destruct (new <=? 23); [|apply not_elem_of_nil].
      by rewrite list_elem_of_singleton.
    + intros x. rewrite elem_gone_ind1, elem_gone_ind2 by done. destruct x; lia.
    + unfold gone_ind2. destruct (1047 <? old); [|by apply NoDup_nil]. apply NoDup_app. split_and!.
      * apply NoDup_gone_subs.
      * intros x (i & Hx%elem_gone_sub & _)%list_elem_of_bind. rewrite list_elem_of_singleton.
        by destruct Hx as [->|(k & -> & _)].
      * apply NoDup_singleton.
Qed.

(** ** The three steps of [decrease] *)

Definition ids (m : store) (di : DiskInode) (xs : list node) : list Z := node_id m di <$> xs.

Lemma ids_app m di a b : ids m di (a ++ b) = ids m di a ++ ids m di b.
Proof. apply fmap_app. Qed.

Lemma ids_NData m di (g : Z → Z) a a' n :
  (∀ k, 0 ≤ k < n → g (a' + k) = node_id m di (NData (a + k))) →
  (λ k, i32 (g k)) <$> seqZ a' n = i32 <$> ids m di (NData <$> seqZ a n).
Proof.
  intros Hg. unfold ids. rewrite <- !list_fmap_compose.
  rewrite <- (Z.add_0_r a'), <- (Z.add_0_r a), <- !fmap_add_seqZ, <- !list_fmap_compose.
  apply list_fmap_ext. intros i k Hk%list_elem_of_lookup_2%elem_of_seqZ. simpl.
  rewrite Hg by lia. done.
Qed.

Section decrease.
Context (bm : Bitmap) (m : store) (di : DiskInode) (old new : Z).
Context (Ho : file_own m bm di (file_shape old)) (Hon : 0 ≤ new < old) (Hnew : new ≤ 1047).

Let Ht : tree_ok m di (file_shape old) := o_tree _ _ _ _ Ho.

Lemma live_ind1 : live (file_shape old) NInd1 ↔ 23 < old.
Proof. simpl. apply Z.ltb_lt. Qed.

Lemma live_ind2 : live (file_shape old) NInd2 ↔ 1047 < old.
Proof. simpl. apply Z.ltb_lt. Qed.

(** What is left of the block [indirect1]. *)
Definition ind1_kept (m2 : store) : Prop :=
  m2 = m ∨ 23 < old ∧ ∃ v, blk_wf v ∧ m2 = <[indirect1 di := v]> m ∧
    ∀ k, 0 ≤ k < new - 23 → get32 v k = get32 (blk_at m (indirect1 di)) k.

Lemma decrease_ind1_wp d1 fl :
  indirect1 d1 = indirect1 di →
  wp (decrease_ind1 old new fl)
    (λ fl' s, fl' = fl ++ (i32 <$> ids m di (gone_ind1 old new)) ∧
       s.1 = (if new <=? 23 then set_indirect1 0 d1 else d1) ∧ ind1_kept s.2)
    never (d1, m).
Proof.
  intros E1. unfold decrease_ind1. change INODE_DIRECT_COUNT with 23.
  change INODE_INDIRECT_COUNT with 1024. change (23 + 1024) with 1047.
  apply wp_bind. eapply wp_eq; [done|]. cbn [fst snd]. rewrite E1. unfold gone_ind1.
  destruct (Z.ltb_spec 23 old) as [Hold|Hold].
  - pose proof (proj2 live_ind1 Hold) as L1.
    pose proof (own_ind_nonzero m bm di _ NInd1 Ho L1) as Hnz. simpl in Hnz.
    destruct (Z.eqb_spec (indirect1 di) 0) as [|_]; [done|].
    assert (Hu : is_u32 (indirect1 di)) by apply (t_ind _ _ _ Ht).
    pose proof (t_in _ _ _ Ht NInd1 L1) as Hin. simpl in Hin.
    pose proof (blk_at_wf m (indirect1 di) (t_store _ _ _ Ht)) as Hwf.
    apply wp_bind, wp_on_snd. cbn [fst snd dev_read MapDev]. eapply wp_eq; [by apply map_read_at|].
    cbv zeta. set (n := Z.to_nat (Z.min old 1047 - Z.max new 23)).
    destruct (push_clear_spec n (Z.max new 23 - 23) (blk_at m (indirect1 di)) fl)
      as (p' & -> & Hp' & Hg); [done|lia|lia|].
    rewrite (ids_NData m di _ (Z.max new 23)).
    2:{ intros k Hk. simpl. destruct (Z.ltb_spec (Z.max new 23 + k) 23); [lia|].
        destruct (Z.ltb_spec (Z.max new 23 + k) 1047); [|lia]. f_equal. lia. }
    destruct (Z.leb_spec new 23) as [H23|H23].
    + apply wp_bind. eapply wp_eq; [done|]. apply wp_ret. cbn [fst snd].
      split_and!; [|done|by left]. rewrite ids_app, fmap_app, app_assoc. repeat f_equal. lia.
    + apply wp_bind, wp_on_snd. cbn [fst snd dev_write MapDev].
      eapply wp_eq; [by apply map_write_eq|]. apply wp_ret. cbn [fst snd]. split_and!; [|done|].
      * rewrite app_nil_r. repeat f_equal. lia.
      * right. split; [done|]. exists p'. split_and!; [done|done|]. intros k Hk. apply Hg; lia.
  - assert (Hz : indirect1 di = 0) by (apply (o_zero1 _ _ _ _ Ho); simpl; by apply Z.ltb_ge).
    rewrite Hz. apply wp_ret. cbn [fst snd]. split_and!; [by rewrite app_nil_r| |by left].
    destruct (Z.leb_spec new 23); [|lia]. rewrite Hz in E1. destruct d1; simpl in *. by subst.
Qed.

Lemma kept_blk m2 b : ind1_kept m2 → b ≠ indirect1 di → blk_at m2 b = blk_at m b.
Proof.
  intros [->|(_ & v & _ & -> & _)] Hb; [done|]. unfold blk_at. by rewrite lookup_insert_ne.
Qed.

Lemma kept_in m2 b : ind1_kept m2 → is_Some (m2 !! b) ↔ is_Some (m !! b).
Proof.
  intros [->|(Hold & v & _ & -> & _)]; [done|]. apply insert_dom.
  by apply (t_in _ _ _ Ht NInd1), live_ind1.
Qed.

(** Nodes under [indirect2] are read as they were. *)
Lemma kept_lookup m2 x : ind1_kept m2 → live (file_shape old) x → x ≠ NInd1 →
  m2 !! node_id m di x = m !! node_id m di x.
Proof.
  intros Hk Hx Hne. destruct Hk as [->|(Hold & v & Hv & -> & Hg)]; [done|].
  rewrite lookup_insert_ne; [done|]. intros Heq.
  apply Hne, (t_inj _ _ _ Ht); [done|by apply live_ind1|done].
Qed.

Lemma kept_sub m2 x : ind1_kept m2 → live (file_shape old) x → x ≠ NInd1 →
  blk_at m2 (node_id m di x) = blk_at m (node_id m di x).
Proof. intros. unfold blk_at. by rewrite kept_lookup. Qed.

Lemma decrease_ind2_all_wp d2 m2 fl i :
  m2 !! node_id m di (NSub i) = m !! node_id m di (NSub i) → 1047 < old → 0 ≤ i < subs old →
  wp (decrease_ind2_all_body (blk_at m (indirect2 di)) (Z.quot (old - 1048) 1024)
        (Z.rem (old - 1048) 1024) i fl)
    (λ fl' s, fl' = fl ++ (i32 <$> ids m di (gone_sub old i)) ∧ s = (d2, m2)) never (d2, m2).
Proof.
  intros Hk Hold Hi. unfold decrease_ind2_all_body. change INODE_INDIRECT_COUNT with 1024.
  rewrite Z.quot_div_nonneg, Z.rem_mod_nonneg by lia.
  pose proof (subs_div old Hold) as Hsd. pose proof (Z.div_mod (old - 1048) 1024 ltac:(lia)) as Hdm.
  pose proof (Z.mod_pos_bound (old - 1048) 1024 ltac:(lia)) as Hmp.
  assert (Ls : live (file_shape old) (NSub i)) by done.
  pose proof (t_in _ _ _ Ht _ Ls) as Hin. simpl in Hin, Hk.
  apply wp_bind, wp_on_snd. cbn [fst snd dev_read MapDev].
  eapply wp_eq; [apply map_read_at; [apply get32_range|by rewrite Hk]|].
  unfold blk_at at 1. rewrite Hk. fold (blk_at m (get32 (blk_at m (indirect2 di)) i)).
  set (n := if negb (i =? (old - 1048) / 1024) then 1024 else (old - 1048) mod 1024 + 1).
  assert (Hn : n = Z.min 1024 (old - (1047 + 1024 * i))).
  { unfold n. destruct (Z.eqb_spec i ((old - 1048) / 1024)); simpl; lia. }
  cbv zeta. destruct (push_clear_spec (Z.to_nat n) 0 (blk_at m (get32 (blk_at m (indirect2 di)) i)) fl)
    as (p' & -> & _ & _); [apply blk_at_wf, Ht|lia|lia|].
  apply wp_ret. cbn [fst snd]. split; [|done].
  rewrite Z2Nat.id by lia. rewrite (ids_NData m di _ (1047 + 1024 * i)).
  2:{ intros k Hk'. simpl. destruct (Z.ltb_spec (1047 + 1024 * i + k) 23); [lia|].
      destruct (Z.ltb_spec (1047 + 1024 * i + k) 1047); [lia|].
      replace (1047 + 1024 * i + k - 1047) with (k + i * 1024) by lia.
      rewrite Z.div_add, Z.mod_add by lia. by rewrite Z.div_small, Z.mod_small by lia. }
  unfold gone_sub. rewrite ids_app, fmap_app, <- app_assoc, Hn. done.
Qed.

Lemma decrease_ind2_wp d2 m2 fl :
  ind1_kept m2 → indirect2 d2 = indirect2 di →
  wp (decrease_ind2 old new fl)
    (λ fl' s, fl' = fl ++ (i32 <$> ids m di (gone_ind2 old)) ∧
       s = (set_indirect2 0 d2, m2)) never (d2, m2).
Proof.
  intros Hk E2. unfold decrease_ind2. change INODE_DIRECT_COUNT with 23.
  change INODE_INDIRECT_COUNT with 1024. cbv zeta.
  replace (old - 23 - 1024 - 1) with (old - 1048) by lia.
  replace (new - 23 - 1024 - 1) with (new - 1048) by lia.
  apply wp_bind. eapply wp_eq; [done|]. cbn [fst snd]. rewrite E2. unfold gone_ind2.
  destruct (Z.ltb_spec 1047 old) as [Hold|Hold].
  - pose proof (proj2 live_ind2 Hold) as L2.
    pose proof (own_ind_nonzero m bm di _ NInd2 Ho L2) as Hnz. simpl in Hnz.
    destruct (Z.eqb_spec (indirect2 di) 0) as [|_]; [done|].
    assert (Hu : is_u32 (indirect2 di)) by apply (t_ind _ _ _ Ht).
    pose proof (t_in _ _ _ Ht NInd2 L2) as Hin. simpl in Hin.
    destruct (Z.ltb_spec (new - 1048) 0), (Z.leb_spec 0 (old - 1048)); try lia. cbn [andb].
    apply wp_bind, wp_on_snd. cbn [fst snd dev_read MapDev].
    eapply wp_eq; [apply map_read_at; [done|by apply kept_in]|].
    pose proof (kept_sub m2 NInd2 Hk L2 ltac:(done)) as Hb. simpl in Hb. rewrite Hb.
    set (n := Z.to_nat (Z.quot (old - 1048) 1024 + 1)).
    assert (Hn : Z.of_nat n = subs old).
    { unfold n. rewrite Z.quot_div_nonneg by lia. pose proof (subs_div old Hold).
      pose proof (Z.div_pos (old - 1048) 1024). lia. }
    apply wp_bind. eapply wp_mono; [apply (wp_for_acc (λ i fl' s,
      fl' = fl ++ (i32 <$> ids m di (seqZ 0 i ≫= gone_sub old)) ∧ s = (d2, m2)) never)| |done].
    + split; [|done]. rewrite seqZ_nil by lia. by rewrite app_nil_r.
    + intros i fl1 s Hi [-> ->]. assert (Ls : live (file_shape old) (NSub i)) by (simpl; lia).
      eapply wp_mono; [apply decrease_ind2_all_wp; [by apply kept_lookup|done|lia]| |done].
      intros fl2 s [-> ->]. split; [|done].
      rewrite <- app_assoc, <- fmap_app, <- ids_app. do 3 f_equal.
      rewrite seqZ_app by lia. rewrite bind_app, Z.add_0_l. f_equal.
      rewrite seqZ_cons, (seqZ_nil _ (Z.pred 1)) by lia. cbn [mbind list_bind].
      by rewrite app_nil_r.
    + intros fl1 s [-> ->]. apply wp_bind. eapply wp_eq; [done|]. apply wp_ret. cbn [fst snd].
      split; [|done]. rewrite Z.add_0_l, Hn, ids_app, fmap_app, app_assoc. done.
  - assert (Hz : indirect2 di = 0) by (apply (o_zero2 _ _ _ _ Ho); simpl; by apply Z.ltb_ge).
    rewrite Hz. apply wp_ret. cbn [fst snd]. split; [by rewrite app_nil_r|].
    f_equal. rewrite Hz in E2. destruct d2; simpl in *. by subst.
Qed.
End decrease.

(** ** The whole shrink *)

(** The inode is written back, if at all, to a block of the inode area. *)
Definition write_back_ok (bm : Bitmap) (m : store) (pos : option Position) : Prop :=
  ∀ p, pos = Some p → pos_ok m p ∧ ¬ in_bitmap bm (block_id p) ∧ ¬ in_area bm (block_id p).

Record shrunk (bm : Bitmap) (pos : option Position) (m : store) (di : DiskInode) (sh : shape)
    (m' : store) (di' : DiskInode) (sh' : shape) : Prop := {
  sk_own : file_own m' bm di' sh';
  sk_ids x : live sh' x → live sh x ∧ node_id m' di' x = node_id m di x;
  sk_used b : used m' bm b ↔
    used m bm b ∧ ∀ x, live sh x → ¬ live sh' x → b ≠ node_id m di x;
  sk_frame b : ¬ in_bitmap bm b → (∀ p, pos = Some p → b ≠ block_id p) →
    (∀ x, live sh x → is_index x → b ≠ node_id m di x) → m' !! b = m !! b;
  sk_dom b : is_Some (m' !! b) ↔ is_Some (m !! b);
  sk_pos p blk : pos = Some p → m !! block_id p = Some blk →
    m' !! block_id p = Some (splice (block_offset p) (DiskInode_encode di') blk);
  sk_count : free_blocks m' bm + nodes sh' = free_blocks m bm + nodes sh;
  sk_meta : meta di' = meta di;
}.

Lemma write_back_wp bm m di pos P :
  store_wf m → zlen (direct di) = kInodeDirectCnt → write_back_ok bm m pos →
  (∀ m', store_wf m' → (∀ b, (∀ p, pos = Some p → b ≠ block_id p) → m' !! b = m !! b) →
     (∀ b, is_Some (m' !! b) ↔ is_Some (m !! b)) →
     (∀ p blk, pos = Some p → m !! block_id p = Some blk →
       m' !! block_id p = Some (splice (block_offset p) (DiskInode_encode di) blk)) →
     P tt (di, m')) →
  wp (write_back_inode pos) P never (di, m).
Proof.
  intros Hm Hd Hpos HP. destruct pos as [p|]; [|by apply wp_ret, HP].
  destruct (Hpos p eq_refl) as [(Hu & [blk Hb] & Ho) _].
  unfold write_back_inode. apply wp_bind. eapply wp_eq; [done|]. cbn [fst snd].
  apply wp_bind, wp_attempt, wp_on_snd. cbn [fst snd]. unfold Inode_write_inode. cbn [dev_read dev_write MapDev].
  apply wp_bind. eapply wp_eq; [by apply map_read_eq|].
  pose proof (zlen_DiskInode_encode di Hd) as Hz. unfold sizeof_DiskInode in *.
  destruct (Hm _ _ Hb) as [_ Hwf].
  assert (Hwf' : blk_wf (splice (block_offset p) (DiskInode_encode di) blk)).
  { unfold blk_wf in *. rewrite zlen_splice; lia. }
  eapply wp_eq; [by apply map_write_eq|]. apply wp_ret. apply HP.
  - by apply store_wf_insert.
  - intros b Hne. rewrite lookup_insert_ne; [done|]. intros <-. by apply (Hne p).
  - intros b. by apply insert_dom.
  - intros p' blk' [= <-]. rewrite Hb. intros [= <-]. by rewrite lookup_insert_eq.
Qed.

(** The tree that is left once the pointers are cut. *)
Lemma pruned_own bm m di old new d1 m1 :
  file_own m bm di (file_shape old) → 0 ≤ new < old → new ≤ 1047 →
  zlen (direct d1) = kInodeDirectCnt ∧ Forall is_u32 (direct d1) →
  (∀ k, 0 ≤ k < new → k < 23 → direct_at d1 k = direct_at di k) →
  indirect1 d1 = (if new <=? 23 then 0 else indirect1 di) → indirect2 d1 = 0 →
  ind1_kept m di old new m1 →
  file_own m1 bm d1 (file_shape new) ∧
  (∀ x, live (file_shape new) x → live (file_shape old) x ∧ node_id m1 d1 x = node_id m di x).
Proof.
  intros Ho Hon Hnew Hd Hdir E1 E2 Hk. pose proof (o_tree _ _ _ _ Ho) as Ht.
  assert (Hids : ∀ x, live (file_shape new) x → live (file_shape old) x ∧ node_id m1 d1 x = node_id m di x).
  { intros x Hx. destruct x as [k| | |j]; simpl in *.
    - split; [lia|]. destruct (Z.ltb_spec k 23); [apply Hdir; lia|].
      destruct (Z.ltb_spec k 1047); [|lia]. rewrite E1. destruct (Z.leb_spec new 23); [lia|].
      destruct Hk as [->|(_ & v & _ & -> & Hg)]; [done|].
      unfold blk_at at 1. rewrite lookup_insert_eq. simpl. apply Hg. lia.
    - split; [apply Z.ltb_lt in Hx; by apply Z.ltb_lt; lia|]. rewrite E1.
      destruct (Z.leb_spec new 23); [|done]. apply Z.ltb_lt in Hx. lia.
    - apply Z.ltb_lt in Hx. lia.
    - unfold subs in Hx. destruct (Z.leb_spec new 1047); lia. }
  assert (Hdom : ∀ b, is_Some (m1 !! b) ↔ is_Some (m !! b)) by (intros; by apply (kept_in bm m di old new)).
  assert (Hkb : 23 < old → ¬ in_bitmap bm (indirect1 di) ∧ is_Some (m !! indirect1 di)).
  { intros Hold. assert (L1 : live (file_shape old) NInd1) by (by apply live_ind1).
    split; [by apply (own_not_bitmap _ _ _ _ NInd1 Ho)|by apply (t_in _ _ _ Ht NInd1)]. }
  split; [|done]. pose proof (t_shape _ _ _ Ht) as [Hmax _]. simpl in Hmax.
  split.
  - split; [|done| |apply file_shape_ok; lia| |].
    + destruct Hk as [->|(Hold & v & Hv & -> & _)]; [apply Ht|].
      apply store_wf_insert; [apply Ht|apply Ht|done].
    + rewrite E1, E2. destruct (new <=? 23); [|split; [apply Ht|]]; unfold is_u32; lia.
    + intros x Hx. apply Hdom. destruct (Hids x Hx) as [Hl ->]. by apply (t_in _ _ _ Ht).
    + intros x y Hx Hy. destruct (Hids x Hx) as [Hlx ->], (Hids y Hy) as [Hly ->].
      by apply (t_inj _ _ _ Ht).
  - destruct Hk as [->|(Hold & v & Hv & -> & _)]; [apply Ho|]. destruct (Hkb Hold).
    apply insert_area; [apply Ho|done|done|apply Ht|done].
  - intros x Hx. destruct (Hids x Hx) as [Hl ->].
    destruct Hk as [->|(Hold & v & Hv & -> & _)]; [by apply (o_used _ _ _ _ Ho)|].
    destruct (Hkb Hold). apply insert_used; [done|]. by apply (o_used _ _ _ _ Ho).
  - simpl. intros Hx%Z.ltb_ge. rewrite E1. by destruct (Z.leb_spec new 23); [|lia].
  - done.
Qed.

Lemma zlen_NData a n : zlen (NData <$> seqZ a n) = Z.max 0 n.
Proof. unfold zlen. rewrite length_fmap, length_seqZ. lia. Qed.

Lemma zlen_gone_subs old (i : nat) :
  1047 < old → Z.of_nat i ≤ subs old →
  zlen (seqZ 0 (Z.of_nat i) ≫= gone_sub old) = Z.of_nat i + Z.min (1024 * Z.of_nat i) (old - 1047).
Proof.
  intros Hold. induction i as [|i IH]; intros Hi; [rewrite seqZ_nil by lia; unfold zlen; simpl; lia|].
  rewrite Nat2Z.inj_succ in *. unfold Z.succ. rewrite seqZ_app, bind_app, zlen_app, IH by lia.
  rewrite seqZ_cons, (seqZ_nil _ (Z.pred 1)) by lia. cbn [mbind list_bind].
  rewrite app_nil_r. unfold gone_sub. rewrite zlen_app, zlen_NData.
  pose proof (subs_div old Hold). pose proof (Z.div_mod (old - 1048) 1024 ltac:(lia)).
  pose proof (Z.mod_pos_bound (old - 1048) 1024 ltac:(lia)).
  unfold zlen. simpl length. lia.
Qed.

Lemma zlen_gone old new :
  0 ≤ new < old → new ≤ 1047 → zlen (gone old new) = nodes (file_shape old) - nodes (file_shape new).
Proof.
  intros Hon Hnew. unfold gone, gone_direct, gone_ind1, gone_ind2, nodes, file_shape.
  cbn [s_data s_ind1 s_ind2 s_sub]. rewrite !zlen_app, zlen_NData.
  assert (Hsn : subs new = 0) by (unfold subs; destruct (Z.leb_spec new 1047); lia). rewrite Hsn.
  replace (1047 <? new) with false by (symmetry; apply Z.ltb_ge; lia).
  assert (Hnil : zlen (@nil node) = 0) by done.
  assert (Hone : ∀ x : node, zlen [x] = 1) by done.
  destruct (Z.ltb_spec 23 old), (Z.ltb_spec 1047 old) as [Hold|Hold]; try lia.
  - rewrite !zlen_app, zlen_NData, Hone. pose proof (subs_pos old Hold).
    pose proof (zlen_gone_subs old (Z.to_nat (subs old)) Hold ltac:(lia)) as Hz.
    rewrite Z2Nat.id in Hz by lia. rewrite Hz.
    destruct (Z.leb_spec new 23), (Z.ltb_spec 23 new); rewrite ?Hone, ?Hnil; simpl; lia.
  - assert (subs old = 0) as -> by (unfold subs; destruct (Z.leb_spec old 1047); lia).
    rewrite !zlen_app, zlen_NData, Hnil.
    destruct (Z.leb_spec new 23), (Z.ltb_spec 23 new); rewrite ?Hone, ?Hnil; simpl; lia.
  - assert (subs old = 0) as -> by (unfold subs; destruct (Z.leb_spec old 1047); lia).
    rewrite !Hnil. destruct (Z.ltb_spec 23 new); simpl; lia.
Qed.

(** Freeing the blocks of the dead nodes of a pruned file. *)
Lemma free_gone bm pos m di old new m1 d1 :
  file_own m bm di (file_shape old) → 0 ≤ new < old → new ≤ 1047 → write_back_ok bm m pos →
  file_own m1 bm d1 (file_shape new) →
  (∀ x, live (file_shape new) x → live (file_shape old) x ∧ node_id m1 d1 x = node_id m di x) →
  ind1_kept m di old new m1 →
  (∀ m2, store_wf m2 → (∀ b, (∀ p, pos = Some p → b ≠ block_id p) → m2 !! b = m1 !! b) →
     (∀ b, is_Some (m2 !! b) ↔ is_Some (m1 !! b)) →
     (∀ p blk, pos = Some p → m1 !! block_id p = Some blk →
       m2 !! block_id p = Some (splice (block_offset p) (DiskInode_encode d1) blk)) →
     meta d1 = meta di →
   ∃ m', free_all bm (i32 <$> ids m di (gone old new)) m2 = (Some tt, m') ∧
     shrunk bm pos m di (file_shape old) m' d1 (file_shape new)).
Proof.
  intros Ho Hon Hnew Hpos Ho1 Hids Hk m2 Hm2 Hf2 Hd2 Hp2 Hmeta.
  pose proof (o_tree _ _ _ _ Ho) as Ht.
  assert (Hpb : ∀ p, pos = Some p → ¬ in_bitmap bm (block_id p) ∧ ¬ in_area bm (block_id p))
    by (intros p Hp; by destruct (Hpos p Hp) as [_ ?]).
  assert (Hidx : ∀ b, (∀ x, live (file_shape old) x → is_index x → b ≠ node_id m di x) → m1 !! b = m !! b).
  { intros b Hb. destruct Hk as [->|(Hold & v & _ & -> & _)]; [done|]. apply lookup_insert_ne.
    intros <-. by apply (Hb NInd1); [apply live_ind1|..]. }
  assert (Hbit : ∀ b, in_bitmap bm b → m1 !! b = m !! b).
  { intros b Hb. apply Hidx. intros x Hx _ ->. by apply (own_not_bitmap m bm di _ x Ho Hx). }
  assert (Hbit2 : ∀ b, in_bitmap bm b → m2 !! b = m !! b).
  { intros b Hb. rewrite Hf2; [by apply Hbit|]. intros p Hp ->. by destruct (Hpb p Hp). }
  assert (Hused2 : ∀ b, used m2 bm b ↔ used m bm b).
  { intros b. unfold used, in_area. split; intros [Hin Hb]; (split; [done|]); rewrite <- Hb;
      [symmetry|]; (apply bm_bit_frame; [apply Hbit2|lia]). }
  assert (Hfree2 : free_blocks m2 bm = free_blocks m bm).
  { unfold free_blocks. f_equal. apply filter_false_ext. intros t Ht'%elem_of_seqZ.
    apply bm_bit_frame; [apply Hbit2|lia]. }
  assert (Hdom1 : ∀ b, is_Some (m1 !! b) ↔ is_Some (m !! b)) by (intros; by apply (kept_in bm m di old new)).
  assert (Ha2 : area_ok m2 bm).
  { destruct (o_area _ _ _ _ Ho) as [(_ & Hg & Hin) Hab Hb]. split; [split_and!; [done|done|]|done|].
    - intros b Hbb. by apply Hd2, Hdom1, Hin.
    - intros s Hs. by apply Hd2, Hdom1, Hb. }
  assert (Hmem : ∀ b, b ∈ ids m di (gone old new) ↔
    ∃ x, live (file_shape old) x ∧ ¬ live (file_shape new) x ∧ b = node_id m di x).
  { intros b. unfold ids. rewrite list_elem_of_fmap. split.
    - intros (x & -> & Hx). apply elem_gone in Hx as [??]; [|done..]. by exists x.
    - intros (x & ? & ? & ->). exists x. split; [done|]. by apply elem_gone. }
  destruct (free_all_spec bm (ids m di (gone old new)) m2 Ha2) as (m' & Hrun & Ha' & Hu' & Hf' & Hd' & Hc').
  { unfold ids. apply NoDup_fmap_2_strong; [|by apply NoDup_gone].
    intros x y Hx Hy. apply elem_gone in Hx as [??]; [|done..]. apply elem_gone in Hy as [??]; [|done..].
    by apply (t_inj _ _ _ Ht). }
  { intros b (x & Hx & _ & ->)%Hmem. apply Hused2. by apply (o_used _ _ _ _ Ho). }
  exists m'. split; [done|].
  assert (Hsame : ∀ x, live (file_shape new) x → m' !! node_id m1 d1 x = m1 !! node_id m1 d1 x).
  { intros x Hx. rewrite Hf' by (by eapply own_not_bitmap). apply Hf2. intros p Hp Heq.
    apply (proj2 (Hpb p Hp)). rewrite <- Heq. by apply (o_used _ _ _ _ Ho1). }
  assert (Hids' : ∀ x, live (file_shape new) x → node_id m' d1 x = node_id m1 d1 x).
  { intros x Hx. apply (node_id_frame _ _ _ (file_shape new)); [apply Ho1|done|].
    intros y Hy _. unfold blk_at. by rewrite Hsame. }
  split.
  - split; [|done| |apply Ho1|apply Ho1].
    + split; [apply Ha'|apply Ho1|apply Ho1|apply Ho1| |].
      * intros x Hx. rewrite Hids' by done. rewrite Hsame by done. by apply (t_in _ _ _ (o_tree _ _ _ _ Ho1)).
      * intros x y Hx Hy. rewrite !Hids' by done. by apply (t_inj _ _ _ (o_tree _ _ _ _ Ho1)).
    + intros x Hx. rewrite Hids' by done. apply Hu'. destruct (Hids x Hx) as [Hl ->].
      split; [by apply Hused2, (o_used _ _ _ _ Ho)|]. intros (y & Hy & Hny & Heq)%Hmem.
      apply Hny. apply (t_inj _ _ _ Ht) in Heq; [by subst|done..].
  - intros x Hx. rewrite Hids' by done. by apply Hids.
  - intros b. rewrite Hu', Hused2, Hmem. split.
    + intros [Hub Hn]. split; [done|]. intros x Hx Hnx ->. apply Hn. by exists x.
    + intros [Hub Hn]. split; [done|]. intros (x & Hx & Hnx & ->). by apply (Hn x).
  - intros b Hb Hp Hi. rewrite Hf', Hf2 by done. by apply Hidx.
  - intros b. by rewrite Hd', Hd2.
  - intros p blk Hp Hblk. destruct (Hpb p Hp) as [Hnb Hna]. rewrite Hf' by done. apply Hp2; [done|].
    rewrite Hidx; [done|]. intros x Hx _ Heq. apply Hna. rewrite Heq. by apply (o_used _ _ _ _ Ho).
  - rewrite Hc', Hfree2. pose proof (zlen_gone old new Hon Hnew) as Hz.
    unfold ids, zlen in *. rewrite length_fmap. lia.
  - done.
Qed.

Lemma DiskInode_decrease_spec bm m di old new pos :
  file_own m bm di (file_shape old) → 0 ≤ new < old → new ≤ 1047 → write_back_ok bm m pos →
  ∃ m' di', DiskInode_decrease bm old new pos (di, m) = (Some tt, (di', m')) ∧
    shrunk bm pos m di (file_shape old) m' di' (file_shape new).
Proof.
  intros Ho Hon Hnew Hpos. pose proof (o_tree _ _ _ _ Ho) as Ht.
  cut (wp (DiskInode_decrease bm old new pos)
        (λ _ s, shrunk bm pos m di (file_shape old) s.2 s.1 (file_shape new)) never (di, m)).
  { intros ([] & [d' m'] & ? & ?)%wp_never. by exists m', d'. }
  unfold DiskInode_decrease. change INODE_DIRECT_COUNT with 23.
  apply wp_bind. eapply wp_eq; [done|]. cbn [fst snd].
  set (n := Z.to_nat (Z.min old 23 - new)).
  assert (Hdir : ∃ d1, decrease_direct n new di [] = (d1, i32 <$> ids m di (gone_direct old new)) ∧
    (zlen (direct d1) = kInodeDirectCnt ∧ Forall is_u32 (direct d1)) ∧
    indirect1 d1 = indirect1 di ∧ indirect2 d1 = indirect2 di ∧ meta d1 = meta di ∧
    ∀ k, 0 ≤ k < new → k < 23 → direct_at d1 k = direct_at di k).
  { unfold gone_direct. destruct (decide (new < 23)) as [H23|H23].
    - destruct (decrease_direct_spec n new di [] (t_direct _ _ _ Ht)) as (d1 & -> & Hd & E1 & E2 & Em & Eg);
        [lia|lia|].
      exists d1. split; [|split; [done|]; split_and!; [done..|intros; apply Eg; lia]].
      rewrite app_nil_l, (ids_NData m di _ new).
      + unfold n. rewrite Z2Nat.id by lia. done.
      + intros k Hk. simpl. destruct (Z.ltb_spec (new + k) 23); [done|lia].
    - exists di. replace n with O by lia. rewrite seqZ_nil by lia.
      split_and!; try done; apply (t_direct _ _ _ Ht). }
  destruct Hdir as (d1 & -> & Hd & E1 & E2 & Em & Eg).
  apply wp_bind. eapply wp_eq; [done|]. cbn [fst snd].
  apply wp_bind. eapply wp_mono; [by apply (decrease_ind1_wp bm m di old new Ho)| |done].
  intros fl2 [d2 m2] Hinv. cbn [fst snd] in Hinv. destruct Hinv as (-> & -> & Hk).
  set (d2 := if new <=? 23 then set_indirect1 0 d1 else d1).
  assert (Hd2 : direct d2 = direct d1 ∧ indirect2 d2 = indirect2 d1 ∧ meta d2 = meta d1 ∧
    indirect1 d2 = if new <=? 23 then 0 else indirect1 di) by (unfold d2; by destruct (new <=? 23)).
  destruct Hd2 as (D2 & I2 & M2 & I1). clearbody d2.
  apply wp_bind. eapply wp_mono; [apply (decrease_ind2_wp bm m di old new Ho Hnew d2); [done|congruence]| |done].
  intros fl3 s [-> ->]. set (d3 := set_indirect2 0 d2).
  destruct (pruned_own bm m di old new d3 m2) as [Ho3 Hids3]; try done.
  { by rewrite <- D2 in Hd. }
  { intros k Hk1 Hk2. unfold direct_at. simpl. rewrite D2. by apply Eg. }
  rewrite <- !fmap_app, <- !ids_app, <- app_assoc. fold (gone old new).
  apply wp_bind. apply (write_back_wp bm m2 d3 pos); [apply Ho3|apply Ho3| |].
  { intros p Hp. destruct (Hpos p Hp) as [(? & ? & ?) ?]. split; [|done]. split_and!; try done; try lia.
    by apply (kept_in bm m di old new). }
  intros m3 Hm3 Hf3 Hdm3 Hp3. apply wp_on_snd. cbn [fst snd].
  destruct (free_gone bm pos m di old new m2 d3 Ho Hon Hnew Hpos Ho3 Hids3 Hk m3 Hm3 Hf3 Hdm3 Hp3)
    as (m' & Hrun & Hsk); [by rewrite <- Em, <- M2|].
  by eapply wp_eq.
Qed.
