(* ===== verification/FileShrinkPart.v ===== *)
(** * Shrinking a file inside [indirect2]

    When data blocks under [indirect2] stay, [decrease] clears the ids past
    [new_data] in the first index block that is cut, and writes that block
    back to the device block whose number is the loop variable, not to the
    block it was read from.  The file keeps its contents and the blocks
    past its end are freed; but block [(new_data - 1048) / 1024] of the
    disk (block 0, the super block, for a file that keeps at most 1024
    blocks under [indirect2]) is overwritten with an index block. *)

From S2P Require Import Prelude Bytes Config BlkIface Bitmap DataArea Layout InodeIO DiskInode FileMap FileData FileGrow FileShrink.

(** The block the source writes to. *)
Definition clobbered (new : Z) : Z := (new - 1048) / 1024.

(** The nodes that go: the tail of the first index block that is cut, and
    the index blocks after it. *)
Definition gone_first (old new : Z) : list node :=
  NData <$> seqZ new (Z.min old (1047 + 1024 * (clobbered new + 1)) - new).

Definition gone_part (old new : Z) : list node :=
  gone_first old new ++
  (seqZ (clobbered new + 1) (subs old - (clobbered new + 1)) ≫= gone_sub old).

(** What is written there: the kept ids of the index block. *)
Definition misplaced (m : store) (di : DiskInode) (new : Z) (v : block) : Prop :=
  blk_wf v ∧ ∀ k, 1047 + 1024 * clobbered new ≤ k < new →
    get32 v (k - (1047 + 1024 * clobbered new)) = node_id m di (NData k).

Lemma clobbered_bounds old new : 1047 < new < old →
  0 ≤ clobbered new ∧ clobbered new + 1 ≤ subs old ∧ subs new = clobbered new + 1 ∧
  1047 + 1024 * clobbered new < new ≤ 1047 + 1024 * (clobbered new + 1) ∧
  1047 + 1024 * (subs old - 1) < old ≤ 1047 + 1024 * subs old.
Proof.
  intros Hon. unfold clobbered. rewrite !subs_div by lia.
  pose proof (Z.div_mod (new - 1048) 1024). pose proof (Z.mod_pos_bound (new - 1048) 1024).
  pose proof (Z.div_mod (old - 1048) 1024). pose proof (Z.mod_pos_bound (old - 1048) 1024).
  pose proof (Z.div_le_mono (new - 1048) (old - 1048) 1024). lia.
Qed.

Lemma elem_gone_part x old new : 1047 < new < old →
  x ∈ gone_part old new ↔ live (file_shape old) x ∧ ¬ live (file_shape new) x.
Proof.
  intros Hon. destruct (clobbered_bounds old new Hon) as (H0 & H1 & Hs & Hb & Hb').
  unfold gone_part, gone_first. rewrite elem_of_app, elem_NData, list_elem_of_bind. split.
  - intros [(k & -> & Hk)|(i & Hx%elem_gone_sub & Hi%elem_of_seqZ)]; [simpl; lia|].
    destruct Hx as [->|(k & -> & Hk)]; simpl; lia.
  - intros [Hl Hn]. destruct x as [k| | |j]; simpl in *.
    + destruct (decide (k < 1047 + 1024 * (clobbered new + 1))) as [Hk|Hk].
      * left. exists k. split; [done|lia].
      * right. exists ((k - 1047) / 1024). pose proof (Z.div_mod (k - 1047) 1024).
        pose proof (Z.mod_pos_bound (k - 1047) 1024).
        split; [apply elem_gone_sub; right; exists k; split; [done|lia]|]. apply elem_of_seqZ. lia.
    + destruct Hn. apply Z.ltb_lt. lia.
    + destruct Hn. apply Z.ltb_lt. lia.
    + right. exists j. split; [apply elem_gone_sub; by left|]. apply elem_of_seqZ. lia.
Qed.

Lemma NoDup_gone_part old new : 1047 < new < old → NoDup (gone_part old new).
Proof.
  intros Hon. destruct (clobbered_bounds old new Hon) as (H0 & H1 & Hs & Hb & Hb').
  unfold gone_part. apply NoDup_app. split_and!; [apply NoDup_NData| |apply NoDup_gone_subs].
  intros x (k & -> & Hk)%elem_NData (i & Hx%elem_gone_sub & Hi%elem_of_seqZ)%list_elem_of_bind.
  destruct Hx as [|(k' & [= ->] & Hk')]; [done|lia].
Qed.

(** An iteration past the first index block that is cut is an iteration of
    the loop that drops all of them. *)
Lemma part_body_all {D} `{BlkDev D} p posi1 posi2 posj1 posj2 i fl :
  i ≠ posi1 →
  decrease_ind2_part_body (D := D) p posi1 posi2 posj1 posj2 i fl =
  decrease_ind2_all_body p posj1 posj2 i fl.
Proof.
  intros Hi%Z.eqb_neq. unfold decrease_ind2_part_body, decrease_ind2_all_body.
  rewrite Hi. by destruct (i =? posj1).
Qed.

Section part.
Context (bm : Bitmap) (m : store) (di : DiskInode) (old new : Z).
Context (Ho : file_own m bm di (file_shape old)) (Hon : 1047 < new < old).
Abbreviation i0 := (clobbered new).
Context (Hin0 : is_Some (m !! i0)) (Hnb0 : ¬ in_bitmap bm i0) (Hna0 : ¬ in_area bm i0).

Let Ht : tree_ok m di (file_shape old) := o_tree _ _ _ _ Ho.
Let Hcb := clobbered_bounds old new Hon.

Lemma i0_u32 : is_u32 i0.
Proof. destruct Hin0 as [x Hx]. by destruct (t_store _ _ _ Ht _ _ Hx). Qed.

(** The blocks of the file are not the one that is clobbered. *)
Lemma node_not_i0 x : live (file_shape old) x → i0 ≠ node_id m di x.
Proof. intros Hx Heq. apply Hna0. rewrite Heq. by apply (o_used _ _ _ _ Ho). Qed.

Lemma node_id_sub k : 0 ≤ k → 1047 + 1024 * i0 ≤ k < 1047 + 1024 * (i0 + 1) →
  node_id m di (NData k) = get32 (blk_at m (node_id m di (NSub i0))) (k - (1047 + 1024 * i0)).
Proof.
  intros H0 Hk. cbn [node_id]. destruct (Z.ltb_spec k 23); [lia|]. destruct (Z.ltb_spec k 1047); [lia|].
  replace (k - 1047) with (k - (1047 + 1024 * i0) + i0 * 1024) by lia.
  rewrite Z.div_add, Z.mod_add by lia. by rewrite Z.div_small, Z.mod_small by lia.
Qed.

Lemma part_first_wp fl :
  wp (decrease_ind2_part_body (blk_at m (indirect2 di)) i0 (Z.rem (new - 1048) 1024)
        (Z.quot (old - 1048) 1024) (Z.rem (old - 1048) 1024) i0 fl)
    (λ fl' s, fl' = fl ++ (i32 <$> ids m di (gone_first old new)) ∧
       ∃ v, misplaced m di new v ∧ s = (di, <[i0 := v]> m)) never (di, m).
Proof.
  destruct Hcb as (H0 & H1 & Hs & Hb & Hb'). unfold decrease_ind2_part_body.
  change INODE_INDIRECT_COUNT with 1024. rewrite Z.quot_div_nonneg, !Z.rem_mod_nonneg by lia.
  pose proof (subs_div old ltac:(lia)) as Hsd.
  pose proof (Z.div_mod (old - 1048) 1024 ltac:(lia)) as Hdm.
  pose proof (Z.mod_pos_bound (old - 1048) 1024 ltac:(lia)) as Hmp.
  pose proof (Z.div_mod (new - 1048) 1024 ltac:(lia)) as Hdn.
  pose proof (Z.mod_pos_bound (new - 1048) 1024 ltac:(lia)) as Hmn. fold i0 in Hdn.
  assert (Ls : live (file_shape old) (NSub i0)) by (simpl; lia).
  pose proof (t_in _ _ _ Ht _ Ls) as Hin. simpl in Hin.
  apply wp_bind, wp_on_snd. cbn [fst snd dev_read MapDev].
  eapply wp_eq; [apply map_read_at; [apply get32_range|done]|].
  change (get32 (blk_at m (indirect2 di)) i0) with (node_id m di (NSub i0)) in *.
  set (x := blk_at m (node_id m di (NSub i0))).
  set (n := Z.min old (1047 + 1024 * (i0 + 1)) - new).
  destruct (push_clear_spec (Z.to_nat n) ((new - 1048) mod 1024 + 1) x fl) as (p' & Hp & Hwf & Hg);
    [apply blk_at_wf, Ht|lia|lia|].
  rewrite Z2Nat.id in Hp by lia. rewrite (ids_NData m di _ new) in Hp.
  2:{ intros k Hk. rewrite node_id_sub by lia. fold x. f_equal. lia. }
  fold (gone_first old new) in Hp.
  assert (Hmis : misplaced m di new p').
  { split; [done|]. intros k Hk. rewrite node_id_sub by lia. apply Hg; lia. }
  rewrite Z.eqb_refl. cbn [andb negb].
  destruct (Z.eqb_spec i0 ((old - 1048) / 1024)) as [He|He]; cbn [andb negb].
  - replace ((old - 1048) mod 1024 + 1 - ((new - 1048) mod 1024 + 1)) with n by lia. rewrite Hp.
    rewrite u32_small by apply i0_u32. apply wp_bind, wp_on_snd. cbn [fst snd dev_write MapDev].
    eapply wp_eq; [by apply map_write_eq; [apply i0_u32|..]|]. apply wp_ret. split; [done|]. by exists p'.
  - replace (1024 - ((new - 1048) mod 1024 + 1)) with n by lia. rewrite Hp.
    rewrite u32_small by apply i0_u32. apply wp_bind, wp_on_snd. cbn [fst snd dev_write MapDev].
    eapply wp_eq; [by apply map_write_eq; [apply i0_u32|..]|]. apply wp_ret. split; [done|]. by exists p'.
Qed.
(** [indirect1] is read and written back unchanged. *)
Lemma part_ind1_wp fl :
  wp (decrease_ind1 old new fl) (λ fl' s, fl' = fl ∧ s = (di, m)) never (di, m).
Proof.
  unfold decrease_ind1. change INODE_DIRECT_COUNT with 23. change INODE_INDIRECT_COUNT with 1024.
  change (23 + 1024) with 1047. apply wp_bind. eapply wp_eq; [done|]. cbn [fst snd].
  assert (L1 : live (file_shape old) NInd1) by (apply (live_ind1 old); lia).
  pose proof (own_ind_nonzero m bm di _ NInd1 Ho L1) as Hnz. simpl in Hnz.
  destruct (Z.eqb_spec (indirect1 di) 0) as [|_]; [done|].
  assert (Hu : is_u32 (indirect1 di)) by apply (t_ind _ _ _ Ht).
  pose proof (t_in _ _ _ Ht NInd1 L1) as Hin. simpl in Hin.
  apply wp_bind, wp_on_snd. cbn [fst snd dev_read MapDev]. eapply wp_eq; [by apply map_read_at|].
  cbv zeta. replace (Z.to_nat _) with O by lia. cbn [push_clear].
  destruct (Z.leb_spec new 23); [lia|]. apply wp_bind, wp_on_snd. cbn [fst snd dev_write MapDev].
  eapply wp_eq; [apply map_write_eq; [done|done|apply blk_at_wf, Ht]|]. apply wp_ret. split; [done|].
  f_equal. apply insert_id. by apply blk_at_Some.
Qed.

(** The loop over the index blocks. *)
Lemma part_loop_wp fl :
  wp (for_acc (Z.to_nat (Z.quot (old - 1048) 1024 + 1 - i0)) i0 fl
       (decrease_ind2_part_body (blk_at m (indirect2 di)) i0 (Z.rem (new - 1048) 1024)
          (Z.quot (old - 1048) 1024) (Z.rem (old - 1048) 1024)))
    (λ fl' s, fl' = fl ++ (i32 <$> ids m di (gone_part old new)) ∧
       ∃ v, misplaced m di new v ∧ s = (di, <[i0 := v]> m)) never (di, m).
Proof.
  destruct Hcb as (H0 & H1 & Hs & Hb & Hb').
  pose proof (subs_div old ltac:(lia)) as Hsd.
  replace (Z.quot (old - 1048) 1024 + 1 - i0) with (subs old - i0)
    by (rewrite Z.quot_div_nonneg by lia; lia).
  destruct (Z.to_nat (subs old - i0)) as [|n] eqn:En; [lia|]. cbn [for_acc].
  apply wp_bind. eapply wp_mono; [apply part_first_wp| |done].
  intros fl1 s [-> (v & Hv & ->)].
  eapply wp_mono; [apply (wp_for_acc (λ i fl' s,
    fl' = (fl ++ (i32 <$> ids m di (gone_first old new))) ++
          (i32 <$> ids m di (seqZ (i0 + 1) (i - (i0 + 1)) ≫= gone_sub old)) ∧
    s = (di, <[i0 := v]> m)) never)| |done].
  - split; [|done]. rewrite Z.sub_diag, seqZ_nil by lia. by rewrite app_nil_r.
  - intros i fl2 s Hi [-> ->]. rewrite part_body_all by lia.
    assert (Ls : live (file_shape old) (NSub i)) by (simpl; lia).
    eapply wp_mono; [apply (decrease_ind2_all_wp bm m di old Ho); [|lia|lia]| |done].
    { apply lookup_insert_ne. by apply node_not_i0. }
    intros fl3 s [-> ->]. split; [|done].
    rewrite <- app_assoc, <- fmap_app, <- ids_app. do 3 f_equal.
    replace (i + 1 - (i0 + 1)) with (i - (i0 + 1) + 1) by lia.
    rewrite seqZ_app, bind_app by lia. f_equal.
    replace (i0 + 1 + (i - (i0 + 1))) with i by lia.
    rewrite seqZ_cons, (seqZ_nil _ (Z.pred 1)) by lia. cbn [mbind list_bind]. by rewrite app_nil_r.
  - intros fl2 s [-> ->]. split; [|by exists v]. unfold gone_part.
    rewrite ids_app, fmap_app, app_assoc. do 5 f_equal. lia.
Qed.

Lemma part_ind2_wp fl :
  wp (decrease_ind2 old new fl)
    (λ fl' s, fl' = fl ++ (i32 <$> ids m di (gone_part old new)) ∧
       ∃ v, misplaced m di new v ∧ s = (di, <[i0 := v]> m)) never (di, m).
Proof.
  unfold decrease_ind2. change INODE_DIRECT_COUNT with 23. change INODE_INDIRECT_COUNT with 1024.
  cbv zeta. replace (old - 23 - 1024 - 1) with (old - 1048) by lia.
  replace (new - 23 - 1024 - 1) with (new - 1048) by lia.
  rewrite (Z.quot_div_nonneg (new - 1048)) by lia. fold i0.
  apply wp_bind. eapply wp_eq; [done|]. cbn [fst snd].
  assert (L2 : live (file_shape old) NInd2) by (apply (live_ind2 old); lia).
  pose proof (own_ind_nonzero m bm di _ NInd2 Ho L2) as Hnz. simpl in Hnz.
  destruct (Z.eqb_spec (indirect2 di) 0) as [|_]; [done|].
  destruct (Z.ltb_spec (new - 1048) 0); [lia|]. destruct (Z.leb_spec 0 (old - 1048)); [|lia].
  destruct (Z.leb_spec 0 (new - 1048)); [|lia]. cbn [andb].
  assert (Hu : is_u32 (indirect2 di)) by apply (t_ind _ _ _ Ht).
  pose proof (t_in _ _ _ Ht NInd2 L2) as Hin. simpl in Hin.
  apply wp_bind, wp_on_snd. cbn [fst snd dev_read MapDev]. eapply wp_eq; [by apply map_read_at|].
  apply wp_bind. eapply wp_mono; [apply part_loop_wp| |done].
  intros fl1 s [-> (v & Hv & ->)]. apply wp_bind, wp_on_snd. cbn [fst snd dev_write MapDev].
  pose proof (node_not_i0 NInd2 L2) as Hne. simpl in Hne.
  assert (Hl : <[i0 := v]> m !! indirect2 di = Some (blk_at m (indirect2 di)))
    by (rewrite lookup_insert_ne by done; by apply blk_at_Some).
  eapply wp_eq; [apply map_write_eq; [done|by eexists|apply blk_at_wf, Ht]|]. apply wp_ret.
  split; [done|]. exists v. split; [done|]. f_equal. by apply insert_id.
Qed.
End part.

(** ** The whole shrink *)

(** The file of [new] data blocks, its other blocks freed, and the disk as
    it was but for the bitmap, the inode and the clobbered block. *)
Record shrunk_part (bm : Bitmap) (pos : option Position) (m : store) (di : DiskInode) (old new : Z)
    (m' : store) : Prop := {
  sp_own : file_own m' bm di (file_shape new);
  sp_ids x : live (file_shape new) x →
    live (file_shape old) x ∧ node_id m' di x = node_id m di x ∧
    m' !! node_id m di x = m !! node_id m di x;
  sp_used b : used m' bm b ↔
    used m bm b ∧ ∀ x, live (file_shape old) x → ¬ live (file_shape new) x → b ≠ node_id m di x;
  sp_frame b : ¬ in_bitmap bm b → (∀ p, pos = Some p → b ≠ block_id p) → b ≠ clobbered new →
    m' !! b = m !! b;
  sp_clobbered : ∃ v, m' !! clobbered new = Some v ∧ misplaced m di new v;
}.

(** The disk between the cut and the freeing differs from [m] only where
    the file and the bitmap are not. *)
Lemma free_gone_part bm m di old new m2 :
  file_own m bm di (file_shape old) → 1047 < new < old → store_wf m2 →
  (∀ b, in_bitmap bm b → m2 !! b = m !! b) → (∀ b, is_Some (m2 !! b) ↔ is_Some (m !! b)) →
  (∀ x, live (file_shape old) x → m2 !! node_id m di x = m !! node_id m di x) →
  ∃ m', free_all bm (i32 <$> ids m di (gone_part old new)) m2 = (Some tt, m') ∧
    file_own m' bm di (file_shape new) ∧
    (∀ x, live (file_shape new) x → live (file_shape old) x ∧ node_id m' di x = node_id m di x ∧
       m' !! node_id m di x = m !! node_id m di x) ∧
    (∀ b, used m' bm b ↔
       used m bm b ∧ ∀ x, live (file_shape old) x → ¬ live (file_shape new) x → b ≠ node_id m di x) ∧
    (∀ b, ¬ in_bitmap bm b → m' !! b = m2 !! b).
Proof.
  intros Ho Hon Hm2 Hbit Hdom Hnodes. pose proof (o_tree _ _ _ _ Ho) as Ht.
  assert (Hused2 : ∀ b, used m2 bm b ↔ used m bm b).
  { intros b. unfold used, in_area. split; intros [Hin Hb]; (split; [done|]); rewrite <- Hb;
      [symmetry|]; (apply bm_bit_frame; [apply Hbit|lia]). }
  assert (Ha2 : area_ok m2 bm).
  { destruct (o_area _ _ _ _ Ho) as [(_ & Hg & Hin) Hab Hb]. split; [split_and!; [done|done|]|done|].
    - intros b Hbb. by apply Hdom, Hin.
    - intros s Hs. by apply Hdom, Hb. }
  assert (Hmem : ∀ b, b ∈ ids m di (gone_part old new) ↔
    ∃ x, live (file_shape old) x ∧ ¬ live (file_shape new) x ∧ b = node_id m di x).
  { intros b. unfold ids. rewrite list_elem_of_fmap. split.
    - intros (x & -> & Hx). apply elem_gone_part in Hx as [??]; [|done]. by exists x.
    - intros (x & ? & ? & ->). exists x. split; [done|]. by apply elem_gone_part. }
  destruct (free_all_spec bm (ids m di (gone_part old new)) m2 Ha2) as (m' & Hrun & Ha' & Hu' & Hf' & Hd' & _).
  { unfold ids. apply NoDup_fmap_2_strong; [|by apply NoDup_gone_part].
    intros x y Hx Hy. apply elem_gone_part in Hx as [??]; [|done]. apply elem_gone_part in Hy as [??]; [|done].
    by apply (t_inj _ _ _ Ht). }
  { intros b (x & Hx & _ & ->)%Hmem. apply Hused2. by apply (o_used _ _ _ _ Ho). }
  assert (Hsame : ∀ x, live (file_shape old) x → m' !! node_id m di x = m !! node_id m di x).
  { intros x Hx. rewrite Hf' by (by eapply own_not_bitmap). by apply Hnodes. }
  assert (Hids : ∀ x, live (file_shape old) x → node_id m' di x = node_id m di x).
  { intros x Hx. apply (node_id_frame _ _ _ (file_shape old)); [apply Ht|done|].
    intros y Hy _. unfold blk_at. by rewrite Hsame. }
  destruct (clobbered_bounds old new Hon) as (H0 & H1 & Hs & _ & _).
  assert (Hmono : ∀ x, live (file_shape new) x → live (file_shape old) x).
  { intros [k| | |j]; simpl; rewrite ?Z.ltb_lt; lia. }
  pose proof (t_shape _ _ _ Ht) as [Hmax _]. simpl in Hmax.
  assert (Hu : ∀ b, used m' bm b ↔
    used m bm b ∧ ∀ x, live (file_shape old) x → ¬ live (file_shape new) x → b ≠ node_id m di x).
  { intros b. rewrite Hu', Hused2, Hmem. split; (intros [Hub Hn]; split; [done|]).
    - intros x Hx Hnx ->. apply Hn. by exists x.
    - intros (x & Hx & Hnx & ->). by apply (Hn x). }
  exists m'. split_and!; [done| |intros x Hx; split_and!; auto|done|done].
  split; [|done| | |].
  - split; [apply Ha'|apply Ht|apply Ht|apply file_shape_ok; lia| |].
    + intros x Hx%Hmono. rewrite Hids, Hsame by done. by apply (t_in _ _ _ Ht).
    + intros x y Hx%Hmono Hy%Hmono. rewrite !Hids by done. by apply (t_inj _ _ _ Ht).
  - intros x Hx. pose proof (Hmono x Hx) as Hxo. rewrite Hids by done. apply Hu.
    split; [by apply (o_used _ _ _ _ Ho)|]. intros y Hy Hny Heq. apply Hny.
    apply (t_inj _ _ _ Ht) in Heq; [by subst|done..].
  - simpl. intros ?%Z.ltb_ge. lia.
  - simpl. intros ?%Z.ltb_ge. lia.
Qed.

Lemma DiskInode_decrease_part bm m di old new pos :
  file_own m bm di (file_shape old) → 1047 < new < old → write_back_ok bm m pos →
  is_Some (m !! clobbered new) → ¬ in_bitmap bm (clobbered new) → ¬ in_area bm (clobbered new) →
  (∀ p, pos = Some p → block_id p ≠ clobbered new) →
  ∃ m', DiskInode_decrease bm old new pos (di, m) = (Some tt, (di, m')) ∧
    shrunk_part bm pos m di old new m'.
Proof.
  intros Ho Hon Hpos Hin0 Hnb0 Hna0 Hp0. pose proof (o_tree _ _ _ _ Ho) as Ht.
  cut (wp (DiskInode_decrease bm old new pos)
        (λ _ s, s.1 = di ∧ shrunk_part bm pos m di old new s.2) never (di, m)).
  { intros ([] & [d' m'] & ? & ? & ?)%wp_never. simpl in *. subst. by exists m'. }
  unfold DiskInode_decrease. change INODE_DIRECT_COUNT with 23.
  apply wp_bind. eapply wp_eq; [done|]. cbn [fst snd].
  replace (Z.to_nat (Z.min old 23 - new)) with O by lia. cbn [decrease_direct].
  apply wp_bind. eapply wp_eq; [done|]. cbn [fst snd].
  apply wp_bind. eapply wp_mono; [by apply (part_ind1_wp bm m di old new Ho Hon)| |done].
  intros fl s [-> ->]. apply wp_bind.
  eapply wp_mono; [by apply (part_ind2_wp bm m di old new Ho Hon Hin0 Hna0)| |done].
  intros fl s [-> (v & Hv & ->)]. cbn [app]. set (m1 := <[clobbered new := v]> m).
  assert (Hu0 : is_u32 (clobbered new)) by (by apply (i0_u32 bm m di old new Ho)).
  assert (Hm1 : store_wf m1) by (apply store_wf_insert; [apply Ht|done|apply Hv]).
  assert (Hd1 : ∀ b, is_Some (m1 !! b) ↔ is_Some (m !! b)) by (intros; by apply insert_dom).
  apply wp_bind. apply (write_back_wp bm m1 di pos); [done|apply Ht| |].
  { intros p Hp. destruct (Hpos p Hp) as [(? & ? & ?) ?]. split; [|done]. split_and!; try done; try lia.
    by apply Hd1. }
  intros m2 Hm2 Hf2 Hd2 _. apply wp_on_snd. cbn [fst snd].
  assert (Hpb : ∀ p b, pos = Some p → in_bitmap bm b ∨ in_area bm b → b ≠ block_id p).
  { intros p b Hp Hb ->. destruct (Hpos p Hp) as [_ [? ?]]. by destruct Hb. }
  assert (Hf : ∀ b, in_bitmap bm b ∨ in_area bm b → m2 !! b = m !! b).
  { intros b Hb. rewrite Hf2 by (intros; by eapply Hpb). apply lookup_insert_ne. intros <-. by destruct Hb. }
  destruct (free_gone_part bm m di old new m2 Ho Hon Hm2) as (m' & Hrun & Ho' & Hi' & Hu' & Hf').
  - intros b Hb. apply Hf. by left.
  - intros b. by rewrite Hd2, Hd1.
  - intros x Hx. apply Hf. right. by apply (o_used _ _ _ _ Ho).
  - eapply wp_eq; [done|]. cbn [fst snd]. split; [done|]. split; [done|done|done| |].
    + intros b Hb Hp Hne. rewrite Hf', Hf2 by done. by apply lookup_insert_ne.
    + exists v. split; [|done]. rewrite Hf' by done. rewrite Hf2.
      * apply lookup_insert_eq.
      * intros p Hp Heq. by apply (Hp0 p Hp).
Qed.
