(* ===== verification/FileClear.v ===== *)
(** * Clearing a file

    What [clear] ([src/disk_inode.cpp]) would do to the blocks of a file,
    were it called: it frees every block of files without index blocks and
    of files of 1025 to 2071 data blocks; between the two it leaves all
    blocks but the direct ones in use; above it indexes past the end of a block of
    ids, and goes on with what the memory holds there. *)

From S2P Require Import Prelude Bytes Config BlkIface Bitmap DataArea Layout InodeIO DiskInode FileMap FileData FileGrow FileShrink.

(** The nodes [clear] frees in a file of [n] data blocks, in order. *)
Definition clear_nodes (n : Z) : list node := gone_direct n 0 ++ if n <=? 1024 then [] else gone_ind1 n 0 ++ gone_ind2 n.

Lemma clear_nodes_all n : 1024 < n → clear_nodes n = gone n 0.
Proof. intros Hn. unfold clear_nodes, gone. by destruct (Z.leb_spec n 1024); [lia|]. Qed.

Lemma elem_clear_nodes x n : 0 ≤ n →
  x ∈ clear_nodes n ↔ live (file_shape n) x ∧ (n ≤ 1024 → ∃ i, x = NData i ∧ i < 23).
Proof.
  intros Hn. destruct (decide (n ≤ 1024)) as [Hs|Hs].
  - unfold clear_nodes. destruct (Z.leb_spec n 1024); [|lia]. rewrite app_nil_r. unfold gone_direct.
    rewrite elem_NData. split.
    + intros (i & -> & Hi). split; [simpl; lia|]. intros _. exists i. split; [done|lia].
    + intros [Hl Hi]. destruct (Hi Hs) as (i & -> & Hlt). exists i. split; [done|]. simpl in Hl. lia.
  - rewrite clear_nodes_all, elem_gone by lia. split; [intros [Hl _]; split; [done|lia]|]. intros [Hl _].
    split; [done|]. destruct x; simpl; [lia|done|done|]. unfold subs. simpl. lia.
Qed.

Lemma zlen_clear_nodes n : 0 ≤ n →
  zlen (clear_nodes n) = if n <=? 1024 then Z.min n 23 else nodes (file_shape n).
Proof.
  intros Hn. destruct (Z.leb_spec n 1024) as [Hs|Hs].
  - unfold clear_nodes. destruct (Z.leb_spec n 1024); [|lia]. rewrite app_nil_r. unfold gone_direct.
    rewrite zlen_NData. lia.
  - rewrite clear_nodes_all, zlen_gone by lia. change (nodes (file_shape 0)) with 0. lia.
Qed.

Lemma gone_ind2_one n : 1047 < n ≤ 2071 → gone_ind2 n = (NData <$> seqZ 1047 (n - 1047)) ++ [NSub 0; NInd2].
Proof.
  intros Hn. unfold gone_ind2. destruct (Z.ltb_spec 1047 n); [|lia].
  rewrite subs_div, Z.div_small by lia. rewrite seqZ_cons, (seqZ_nil _ (Z.pred (0 + 1))) by lia.
  cbn [mbind list_bind]. rewrite app_nil_r. unfold gone_sub. replace (Z.min 1024 _) with (n - 1047) by lia.
  by rewrite <- app_assoc.
Qed.

Section clear.
Variables (mem : Z → Z) (bm : Bitmap) (m : store) (di : DiskInode) (n : Z).
Hypothesis Ho : file_own m bm di (file_shape n).

(** The blocks of the nodes [xs] are free, and nothing else changed. *)
Record released (xs : list node) (m' : store) : Prop := {
  rl_area : area_ok m' bm;
  rl_used b : used m' bm b ↔ used m bm b ∧ b ∉ ids m di xs;
  rl_frame b : ¬ in_bitmap bm b → m' !! b = m !! b;
  rl_dom b : is_Some (m' !! b) ↔ is_Some (m !! b);
  rl_count : free_blocks m' bm = free_blocks m bm + zlen xs;
}.

Lemma released_nil : released [] m.
Proof.
  split; [apply Ho| |done|done|unfold zlen; simpl; lia]. intros b.
  split; [intros; split; [done|apply not_elem_of_nil]|tauto].
Qed.

Lemma free_wp y xs m1 P Q :
  released xs m1 → y ∉ xs → live (file_shape n) y → (∀ x, x ∈ xs → live (file_shape n) x) →
  (∀ m2, released (xs ++ [y]) m2 → P tt m2) → wp (Bitmap_free bm (node_id m di y)) P Q m1.
Proof.
  intros [Ra Ru Rf Rd Rc] Hy Hl Hxs HP.
  assert (Hn : node_id m di y ∉ ids m di xs).
  { unfold ids. intros (x & Heq & Hx)%list_elem_of_fmap. apply Hy.
    apply (t_inj _ _ _ (o_tree _ _ _ _ Ho)) in Heq; [by subst|done|by apply Hxs]. }
  destruct (Bitmap_free_area m1 bm (node_id m di y) Ra) as (m2 & Hrun & [Fa Fu Ff Fd Fc]).
  { apply Ru. split; [by apply (o_used _ _ _ _ Ho)|done]. }
  eapply wp_eq; [done|]. apply HP. split; [done| | | |].
  - intros b. rewrite Fu, Ru. unfold ids. rewrite fmap_app, elem_of_app. cbn [fmap list_fmap].
    rewrite list_elem_of_singleton. tauto.
  - intros b Hb. by rewrite Ff, Rf.
  - intros b. by rewrite Fd, Rd.
  - rewrite Fc, Rc, zlen_app. unfold zlen. simpl. lia.
Qed.

(** Blocks of the file are read as they were. *)
Lemma released_blk xs m1 y : released xs m1 → live (file_shape n) y → m1 !! node_id m di y = m !! node_id m di y.
Proof. intros HR Hy. apply (rl_frame _ _ HR). by eapply own_not_bitmap. Qed.

Lemma released_read xs m1 y : released xs m1 → live (file_shape n) y →
  map_read (node_id m di y) m1 = (Some (blk_at m (node_id m di y)), m1).
Proof.
  intros HR Hy. pose proof (o_tree _ _ _ _ Ho) as Ht.
  apply map_read_eq; [by eapply node_id_u32|]. rewrite (released_blk xs) by done.
  by apply blk_at_Some, (t_in _ _ _ Ht).
Qed.

Lemma clear_ids_wp p a k xs m1 P Q :
  0 ≤ k → released xs m1 → (∀ x, x ∈ xs → live (file_shape n) x) →
  (∀ i, 0 ≤ i < k → get32 p i = node_id m di (NData (a + i)) ∧ 0 ≤ a + i < n ∧ NData (a + i) ∉ xs) →
  (∀ m2, released (xs ++ (NData <$> seqZ a k)) m2 → P tt m2) →
  wp (clear_ids bm k p) P Q m1.
Proof.
  intros Hk HR Hxs Hp HP. unfold clear_ids.
  eapply wp_mono; [apply (wp_for_range (λ j m2, released (xs ++ (NData <$> seqZ a j)) m2) Q)| |done].
  - rewrite seqZ_nil by lia. by rewrite app_nil_r.
  - intros j m2 Hj HR2. destruct (Hp j) as (-> & Hl & Hne); [lia|].
    rewrite seqZ_app, fmap_app by lia. rewrite (seqZ_cons (a + j)), (seqZ_nil _ (Z.pred 1)) by lia.
    rewrite app_assoc. eapply free_wp; [done| |done| |done].
    + intros [?|(i & [= ?] & ?)%elem_NData]%elem_of_app; [done|lia].
    + intros x [?|(i & -> & Hi)%elem_NData]%elem_of_app; [by apply Hxs|]. destruct (Hp (i - a)) as (_ & ? & _); [lia|].
      simpl. lia.
  - intros [] m2. replace (0 + Z.of_nat (Z.to_nat k)) with k by lia. apply HP.
Qed.

(** The inode after [clear]: the ids of the direct blocks are overwritten,
    those of the index blocks are not. *)
Definition cleared (k : Z) (d : DiskInode) : Prop :=
  (zlen (direct d) = kInodeDirectCnt ∧ Forall is_u32 (direct d)) ∧
  indirect1 d = indirect1 di ∧ indirect2 d = indirect2 di ∧ meta d = meta di ∧
  ∀ i, 0 ≤ i → direct_at d i = if i <? k then kFail_blk else direct_at di i.

Lemma clear_direct_wp P Q :
  (∀ d1 m1, cleared (Z.min n 23) d1 → released (gone_direct n 0) m1 → P tt (d1, m1)) →
  0 ≤ n → wp (clear_direct bm n) P Q (di, m).
Proof.
  intros HP Hn. unfold clear_direct. change INODE_DIRECT_COUNT with 23. pose proof (o_tree _ _ _ _ Ho) as Ht.
  eapply wp_mono; [apply (wp_for_range (λ j s, cleared j s.1 ∧ released (NData <$> seqZ 0 j) s.2) Q)| |done].
  - split; [|apply released_nil]. split; [apply Ht|]. split_and!; try done. intros i Hi. by destruct (Z.ltb_spec i 0); [lia|].
  - intros j [d m1] Hj [(Hd & E1 & E2 & Em & Eg) HR]. cbn [fst snd] in *.
    apply wp_bind. eapply wp_eq; [done|]. cbn [fst snd].
    assert (direct_at d j = node_id m di (NData j)) as ->.
    { rewrite Eg, Z.ltb_irrefl by lia. simpl. destruct (Z.ltb_spec j 23); [done|lia]. }
    rewrite (seqZ_app 0 j 1), fmap_app by lia. rewrite (seqZ_cons (0 + j)), (seqZ_nil _ (Z.pred 1)) by lia.
    apply wp_bind, wp_on_snd. eapply free_wp; [done| |simpl; lia| |].
    + intros (i & [= ?] & ?)%elem_NData. lia.
    + intros x (i & -> & Hi)%elem_NData. simpl. lia.
    + intros m2 HR2. eapply wp_eq; [done|]. cbn [fst snd]. split; [|done].
      split; [apply upd_direct_ok; [done|by vm_compute]|]. split_and!; try done. intros i Hi. unfold direct_at. cbn [direct set_direct].
      destruct (decide (i = j)) as [->|Hne].
      * rewrite at_upd_at_eq. destruct (at_range (direct d) j) as [v ->].
        { destruct Hd as [-> _]. unfold kInodeDirectCnt. lia. }
        simpl. by destruct (Z.ltb_spec j (j + 1)); [|lia].
      * rewrite at_upd_at_ne by done. specialize (Eg i Hi). unfold direct_at in Eg. rewrite Eg.
        destruct (Z.ltb_spec i j), (Z.ltb_spec i (j + 1)); (done || lia).
  - intros [] [d m1]. cbn [fst snd]. replace (0 + Z.of_nat _) with (Z.min n 23) by lia. intros [Hc HR]. apply HP; [done|].
    unfold gone_direct. by rewrite Z.sub_0_r.
Qed.

Lemma clear_ind1_wp d1 m1 P Q :
  indirect1 d1 = indirect1 di → released (gone_direct n 0) m1 →
  (∀ m2, released (gone_direct n 0 ++ if n <=? 1024 then [] else gone_ind1 n 0) m2 → P tt (d1, m2)) →
  wp (clear_ind1 bm n) P Q (d1, m1).
Proof.
  intros E1 HR HP. unfold clear_ind1. change INODE_DIRECT_COUNT with 23. change INODE_INDIRECT_COUNT with 1024.
  apply wp_bind. eapply wp_eq; [done|]. cbn [fst snd]. rewrite E1.
  destruct (Z.leb_spec n 1024) as [Hn|Hn].
  { replace (1024 <? n) with false by (symmetry; by apply Z.ltb_ge). rewrite andb_false_r. apply wp_ret.
    rewrite app_nil_r in HP. by apply HP. }
  assert (Hl : live (file_shape n) NInd1) by (simpl; apply Z.ltb_lt; lia).
  pose proof (own_ind_nonzero m bm di _ NInd1 Ho Hl) as Hnz. simpl in Hnz.
  destruct (Z.eqb_spec (indirect1 di) 0) as [|_]; [done|]. destruct (Z.ltb_spec 1024 n); [|lia].
  cbn [negb andb]. apply wp_bind, wp_on_snd. eapply wp_eq; [apply (released_read _ _ NInd1 HR Hl)|]. cbn [fst snd node_id].
  assert (Hdir : ∀ x, x ∈ gone_direct n 0 → live (file_shape n) x).
  { intros x (i & -> & Hi)%elem_NData. simpl. lia. }
  apply wp_bind, wp_on_snd. apply (clear_ids_wp _ 23 _ (gone_direct n 0)); [lia|done|done| |].
  - intros i Hi. split; [|split; [lia|intros (j & [= ?] & ?)%elem_NData; lia]].
    simpl. destruct (Z.ltb_spec (23 + i) 23); [lia|]. destruct (Z.ltb_spec (23 + i) 1047); [|lia]. f_equal. lia.
  - intros m2 HR2. apply wp_on_snd. cbn [fst snd]. apply (free_wp NInd1 (gone_direct n 0 ++ (NData <$> seqZ 23 (Z.min n (23 + 1024) - 23)))); [done| |done| |].
    + intros [(j & [=] & _)%elem_NData|(j & [=] & _)%elem_NData]%elem_of_app.
    + intros x [Hx|(j & -> & Hj)%elem_NData]%elem_of_app; [by apply Hdir|]. simpl. lia.
    + intros m3 HR3. apply HP. unfold gone_ind1. destruct (Z.ltb_spec 23 n); [|lia]. by rewrite app_assoc.
Qed.

(** The first iteration of the loop over [indirect2]. *)
Lemma clear_ind2_body_wp xs m1 P Q :
  1047 < n → released xs m1 → (∀ x, x ∈ xs ↔ x ∈ gone_direct n 0 ++ gone_ind1 n 0) →
  (∀ m2, released (xs ++ gone_sub n 0) m2 → P tt m2) →
  wp (clear_ind2_body mem bm (n - 1047) (blk_at m (indirect2 di)) 0) P Q m1.
Proof.
  intros Hn HR Hxs HP. unfold clear_ind2_body. change INODE_INDIRECT_COUNT with 1024. change (0 <? 1024) with true. cbv zeta iota.
  pose proof (subs_pos n Hn) as [Hs _]. assert (Hl : live (file_shape n) (NSub 0)) by (simpl; lia).
  assert (Hin : ∀ x, x ∈ xs → live (file_shape n) x ∧ (∀ i, x = NData i → i < 1047) ∧ ∀ j, x ≠ NSub j).
  { intros x Hx%Hxs. apply elem_of_app in Hx as [(i & -> & Hi)%elem_NData|Hx%elem_gone_ind1]; [| |lia].
    - split_and!; [simpl; lia|intros ? [= <-]; lia|done].
    - destruct Hx as [H23 Hx], x as [i| | |j]; try done.
      + split_and!; [simpl; lia|intros ? [= <-]; lia|done].
      + split_and!; [simpl; apply Z.ltb_lt; lia|done|done]. }
  apply wp_bind. eapply wp_eq; [apply (released_read _ _ (NSub 0) HR Hl)|]. cbv beta. rewrite Z.sub_0_r.
  apply wp_bind. apply (clear_ids_wp _ 1047 _ xs); [lia|done|intros x Hx; by apply Hin| |].
  - intros i Hi. split; [|split; [lia|intros Hx; destruct (Hin _ Hx) as (_ & Hlt & _); specialize (Hlt _ eq_refl); lia]].
    simpl. destruct (Z.ltb_spec (1047 + i) 23); [lia|]. destruct (Z.ltb_spec (1047 + i) 1047); [lia|].
    replace (1047 + i - 1047) with i by lia. by rewrite Z.div_small, Z.mod_small by lia.
  - intros m2 HR2. apply (free_wp (NSub 0) (xs ++ (NData <$> seqZ 1047 (Z.min 1024 (n - 1047))))); [done| |done| |].
    + intros [Hx|(j & ? & _)%elem_NData]%elem_of_app; [|done]. by apply (proj2 (proj2 (Hin _ Hx)) 0).
    + intros x [Hx|(j & -> & Hj)%elem_NData]%elem_of_app; [by apply Hin|]. simpl. lia.
    + intros m3 HR3. apply HP. unfold gone_sub. replace (1047 + 1024 * 0) with 1047 by lia. by rewrite app_assoc.
Qed.

(** What is free before the loop over [indirect2] is entered. *)
Definition before_ind2 : list node := gone_direct n 0 ++ if n <=? 1024 then [] else gone_ind1 n 0.

Lemma clear_ind2_wp d1 m1 P (Q : DiskInode * store → Prop) :
  indirect2 d1 = indirect2 di → released before_ind2 m1 →
  (n ≤ 2071 → ∀ m2, released (clear_nodes n) m2 → P tt (d1, m2)) →
  (2071 < n → m !! u32 (mem 1024) = None) → (2071 < n → ∀ m2, Q (d1, m2)) →
  wp (clear_ind2 mem bm n) P Q (d1, m1).
Proof.
  intros E2 HR HP Hmem HQ. unfold clear_ind2. change INODE_DIRECT_COUNT with 23. change INODE_INDIRECT_COUNT with 1024.
  change (23 + 1024) with 1047. apply wp_bind. eapply wp_eq; [done|]. cbn [fst snd]. rewrite E2.
  unfold before_ind2 in HR. unfold clear_nodes in HP.
  destruct (Z.ltb_spec 1047 n) as [Hn|Hn].
  2:{ rewrite andb_false_r. apply wp_ret. apply HP; [lia|]. destruct (n <=? 1024); [done|].
      unfold gone_ind2. destruct (Z.ltb_spec 1047 n); [lia|]. by rewrite app_nil_r. }
  replace (n <=? 1024) with false in * by (symmetry; apply Z.leb_gt; lia).
  assert (Hl : live (file_shape n) NInd2) by (simpl; apply Z.ltb_lt; lia).
  pose proof (own_ind_nonzero m bm di _ NInd2 Ho Hl) as Hnz. simpl in Hnz.
  destruct (Z.eqb_spec (indirect2 di) 0) as [|_]; [done|]. cbn [negb andb].
  apply wp_bind, wp_on_snd. eapply wp_eq; [apply (released_read _ _ NInd2 HR Hl)|]. cbn [fst snd node_id].
  replace (n - 23 - 1024) with (n - 1047) by lia. apply wp_bind, wp_on_snd. cbn [fst snd].
  replace (Z.to_nat ((n - 1047 + 1024 - 1) / 1024)) with (S (Z.to_nat ((n - 1048) / 1024))).
  2:{ replace (n - 1047 + 1024 - 1) with (n - 1048 + 1 * 1024) by lia. rewrite Z.div_add by lia.
      pose proof (Z.div_pos (n - 1048) 1024). lia. }
  cbn [for_range]. apply wp_bind. change (0 * 1024) with 0.
  eapply clear_ind2_body_wp; [done|done|done|]. intros m2 HR2. destruct (decide (n ≤ 2071)) as [Hs|Hs].
  - rewrite (Z.div_small (n - 1048)) by lia. apply wp_ret. apply wp_on_snd. cbn [fst snd].
    apply (free_wp NInd2 ((gone_direct n 0 ++ gone_ind1 n 0) ++ gone_sub n 0)); [done| |done| |].
    + rewrite !elem_of_app, elem_gone_ind1, elem_gone_sub by lia. intros [[(j & [=] & _)%elem_NData|[_ []]]|[[=]|(j & [=] & _)]].
    + intros x Hx. apply (elem_gone x n 0); [lia|lia|]. unfold gone. rewrite gone_ind2_one by lia.
      unfold gone_sub in Hx. replace (1047 + 1024 * 0) with 1047 in Hx by lia.
      replace (Z.min 1024 (n - 1047)) with (n - 1047) in Hx by lia. rewrite !elem_of_app, list_elem_of_singleton in Hx.
      rewrite !elem_of_app, elem_of_cons. tauto.
    + intros m3 HR3. apply HP; [done|]. rewrite gone_ind2_one by lia. unfold gone_sub in HR3.
      replace (1047 + 1024 * 0) with 1047 in HR3 by lia. replace (Z.min 1024 (n - 1047)) with (n - 1047) in HR3 by lia.
      rewrite <- !app_assoc in HR3. exact HR3.
  - assert (1 ≤ (n - 1048) / 1024) by (apply Z.div_le_lower_bound; lia).
    destruct (Z.to_nat ((n - 1048) / 1024)) as [|k] eqn:Hk; [lia|]. cbn [for_range]. apply wp_bind.
    unfold clear_ind2_body. change INODE_INDIRECT_COUNT with 1024. change ((0 + 1) * 1024 <? 1024) with false. cbv zeta iota.
    change ((0 + 1) * 1024) with 1024. apply wp_bind. unfold wp, dev_read, MapDev, map_read.
    assert (Hnone : m2 !! u32 (mem 1024) = None).
    { apply eq_None_not_Some. intros Hs2%(rl_dom _ _ HR2). rewrite Hmem in Hs2 by lia. by destruct Hs2. }
    rewrite Hnone. apply HQ. lia.
Qed.

Lemma DiskInode_clear_wp P (Q : DiskInode * store → Prop) :
  data_blocks (size di) = n → n ≤ MAX_BLOCK_SIZE →
  (n ≤ 2071 → ∀ d1 m1, cleared (Z.min n 23) d1 → released (clear_nodes n) m1 → P tt (d1, m1)) →
  (2071 < n → m !! u32 (mem 1024) = None) → (2071 < n → ∀ d1 m1, Q (d1, m1)) →
  wp (DiskInode_clear mem bm) P Q (di, m).
Proof.
  intros Hn Hmax HP Hmem HQ. change MAX_BLOCK_SIZE with 1049623 in Hmax. unfold DiskInode_clear.
  apply wp_bind. eapply wp_eq; [done|]. cbn [fst snd]. rewrite Hn.
  assert (0 ≤ n) by (subst n; unfold data_blocks; apply u32_range). rewrite i32_small by lia.
  apply wp_bind, clear_direct_wp; [|done]. intros d1 m1 Hc HR.
  apply wp_bind, clear_ind1_wp; [apply Hc|done|]. intros m2 HR2.
  apply clear_ind2_wp; [apply Hc|done| |done|].
  - intros Hs m3 HR3. by apply HP.
  - intros Hs m3. by apply HQ.
Qed.
End clear.
