(* ===== verification/FileResize.v ===== *)
(** * Block counts and [resize]

    What [data_blocks] and [total_blocks] compute, and which way [resize]
    goes: it compares the two totals, and although [total_blocks] is one
    too many when a file ends exactly at the direct blocks or exactly at
    the blocks of [indirect1], it orders the sizes correctly. *)

From S2P Require Import Prelude Bytes Config BlkIface Bitmap DataArea Layout InodeIO DiskInode FileMap FileData FileGrow FileShrink.

(** [ceil(size / kBlockSize)]. *)
Lemma data_blocks_eq sz : 0 ≤ sz < 2 ^ 32 →
  data_blocks sz = (sz + 4095) / 4096 ∧ 0 ≤ data_blocks sz ≤ 1048576 ∧
  kBlockSize * (data_blocks sz - 1) < sz ≤ kBlockSize * data_blocks sz.
Proof.
  intros Hsz. unfold data_blocks, kBlockSize. replace (sz + 4096 - 1) with (sz + 4095) by lia.
  rewrite u64_small by lia. pose proof (Z.div_mod (sz + 4095) 4096).
  pose proof (Z.mod_pos_bound (sz + 4095) 4096). rewrite u32_small by (unfold is_u32; lia). lia.
Qed.

Lemma data_blocks_mono a b : 0 ≤ a ≤ b → b < 2 ^ 32 → data_blocks a ≤ data_blocks b.
Proof.
  intros Ha Hb. destruct (data_blocks_eq a), (data_blocks_eq b); try lia.
  unfold kBlockSize in *. lia.
Qed.

(** The blocks of the tree, and one more at the two boundaries. *)
Definition boundary (n : Z) : bool := (n =? 23) || (n =? 1047).

Lemma total_blocks_eq sz : 0 ≤ sz < 2 ^ 32 →
  total_blocks sz = nodes (file_shape (data_blocks sz)) + Z.b2z (boundary (data_blocks sz)).
Proof.
  intros Hsz. destruct (data_blocks_eq sz Hsz) as (_ & Hr & _).
  unfold total_blocks. set (n := data_blocks sz) in *. clearbody n.
  change INODE_DIRECT_COUNT with 23. change INODE_INDIRECT_COUNT with 1024. cbv zeta.
  unfold boundary, nodes, file_shape, subs. cbn [s_data s_ind1 s_ind2 s_sub].
  destruct (Z.ltb_spec n 23).
  - destruct (Z.ltb_spec 23 n), (Z.ltb_spec 1047 n), (Z.leb_spec n 1047),
      (Z.eqb_spec n 23), (Z.eqb_spec n 1047); simpl; lia.
  - rewrite (u32_small (n - 23)) by (unfold is_u32; lia). destruct (Z.ltb_spec (n - 23) 1024).
    + rewrite u32_small by (unfold is_u32; lia).
      destruct (Z.ltb_spec 23 n), (Z.ltb_spec 1047 n), (Z.leb_spec n 1047),
        (Z.eqb_spec n 23), (Z.eqb_spec n 1047); simpl; lia.
    + replace (n - 23 - 1024) with (n - 1047) by lia.
      rewrite (u32_small (n - 1047)) by (unfold is_u32; lia).
      replace (n - 1047 + 1024 - 1) with (n - 1047 + 1023) by lia.
      rewrite (u32_small (n - 1047 + 1023)) by (unfold is_u32; lia).
      pose proof (Z.div_mod (n - 1047 + 1023) 1024). pose proof (Z.mod_pos_bound (n - 1047 + 1023) 1024).
      rewrite u32_small by (unfold is_u32; lia).
      destruct (Z.ltb_spec 23 n), (Z.ltb_spec 1047 n), (Z.leb_spec n 1047),
        (Z.eqb_spec n 23), (Z.eqb_spec n 1047); simpl; lia.
Qed.

Lemma total_lt a b : 0 ≤ a < b →
  nodes (file_shape a) + Z.b2z (boundary a) < nodes (file_shape b) + Z.b2z (boundary b).
Proof.
  intros Hab. unfold nodes, file_shape, boundary. cbn [s_data s_ind1 s_ind2 s_sub].
  pose proof (subs_mono a b). pose proof (subs_pos b).
  assert (a ≤ 1047 → subs a = 0) by (intros; unfold subs; destruct (Z.leb_spec a 1047); lia).
  destruct (Z.ltb_spec 23 a), (Z.ltb_spec 1047 a), (Z.eqb_spec a 23), (Z.eqb_spec a 1047),
    (Z.ltb_spec 23 b), (Z.ltb_spec 1047 b), (Z.eqb_spec b 23), (Z.eqb_spec b 1047); simpl; lia.
Qed.

(** [resize] compares block totals; that compares block counts. *)
Lemma total_blocks_compare a b : 0 ≤ a < 2 ^ 32 → 0 ≤ b < 2 ^ 32 →
  (total_blocks a ?= total_blocks b) = (data_blocks a ?= data_blocks b).
Proof.
  intros Ha Hb. rewrite !total_blocks_eq by done.
  destruct (data_blocks_eq a Ha) as (_ & Ra & _), (data_blocks_eq b Hb) as (_ & Rb & _).
  destruct (Z.compare_spec (data_blocks a) (data_blocks b)) as [->|Hlt|Hgt].
  - apply Z.compare_refl.
  - apply Z.compare_lt_iff, total_lt. lia.
  - apply Z.compare_gt_iff, total_lt. lia.
Qed.

Lemma total_blocks_eqb a b : 0 ≤ a < 2 ^ 32 → 0 ≤ b < 2 ^ 32 →
  (total_blocks a =? total_blocks b) = (data_blocks a =? data_blocks b) ∧
  (total_blocks a <? total_blocks b) = (data_blocks a <? data_blocks b).
Proof.
  intros Ha Hb. pose proof (total_blocks_compare a b Ha Hb) as Hc.
  unfold Z.ltb. rewrite !Z.eqb_compare, Hc. done.
Qed.

(** ** [resize] *)

(** The inode [resize] stores: the new size and fresh times. *)
Definition resized (e : env) (di : DiskInode) (sz : Z) : DiskInode :=
  set_size sz (update_meta e 7 di).

Lemma same_tree_resized e di sz : same_tree di (resized e di sz).
Proof. done. Qed.

Lemma same_tree_own m bm di di' sh : same_tree di di' → file_own m bm di sh → file_own m bm di' sh.
Proof.
  intros Hs [Ht Ha Hu H1 H2]. pose proof Hs as (_ & E1 & E2).
  split; [by eapply same_tree_ok|done| |by rewrite E1|by rewrite E2].
  intros x Hx. rewrite (same_tree_id m di di') by done. by apply Hu.
Qed.

Section resize.
Context (e : env) (bm : Bitmap) (m : store) (di : DiskInode) (sz : Z) (pos : option Position).
Context (Hsz : is_u32 (size di)) (Hsz' : is_u32 sz).
Abbreviation old := (data_blocks (size di)).
Abbreviation new := (data_blocks sz).
Context (Ho : file_own m bm di (file_shape old)).

Lemma resize_step P Q :
  wp (if old =? new then write_back_inode pos
      else if new <? old then DiskInode_decrease bm old new pos
      else DiskInode_increase bm old new) P Q (resized e di sz, m) →
  wp (DiskInode_resize e bm sz pos) P Q (di, m).
Proof.
  intros Hw. unfold DiskInode_resize.
  apply wp_bind. eapply wp_eq; [done|]. apply wp_bind. eapply wp_eq; [done|].
  apply wp_bind. eapply wp_eq; [done|]. cbn [fst snd]. cbv zeta.
  change (size (update_meta e 7 di)) with (size di).
  destruct (total_blocks_eqb (size di) sz Hsz Hsz') as [-> _].
  destruct (total_blocks_eqb sz (size di) Hsz' Hsz) as [_ ->]. exact Hw.
Qed.

Lemma own_resized : file_own m bm (resized e di sz) (file_shape old).
Proof. by apply (same_tree_own m bm di). Qed.

(** Growing: the blocks are there, or the bitmap is exhausted. *)
Lemma DiskInode_resize_grow :
  old < new →
  wp (DiskInode_resize e bm sz pos)
    (λ _ s, grown bm m (resized e di sz) (file_shape old) s.2 s.1 (file_shape new))
    (λ s, stopped bm m (resized e di sz) (file_shape old) s.2 s.1 (needed old new)) (di, m).
Proof.
  intros Hlt. apply resize_step.
  destruct (Z.eqb_spec old new), (Z.ltb_spec new old); try lia.
  destruct (data_blocks_eq (size di) Hsz) as (_ & Hr & _), (data_blocks_eq sz Hsz') as (_ & Hr' & _).
  apply DiskInode_increase_grows; [apply own_resized|lia|]. change MAX_BLOCK_SIZE with 1049623. lia.
Qed.

(** Shrinking to at most the direct blocks and those of [indirect1]. *)
Lemma DiskInode_resize_shrink :
  new < old → new ≤ 1047 → write_back_ok bm m pos →
  ∃ m' di', DiskInode_resize e bm sz pos (di, m) = (Some tt, (di', m')) ∧
    shrunk bm pos m (resized e di sz) (file_shape old) m' di' (file_shape new).
Proof.
  intros Hlt Hnew Hpos. destruct (data_blocks_eq sz Hsz') as (_ & Hr' & _).
  destruct (DiskInode_decrease_spec bm m (resized e di sz) old new pos) as (m' & di' & Hrun & Hsk);
    [apply own_resized|lia|done|done|].
  exists m', di'. split; [|done].
  cut (wp (DiskInode_resize e bm sz pos) (λ _ s, s = (di', m')) never (di, m)).
  { by intros ([] & s & -> & ->)%wp_never. }
  apply resize_step. destruct (Z.eqb_spec old new), (Z.ltb_spec new old); try lia.
  by eapply wp_eq.
Qed.

(** Same number of blocks: only the inode changes. *)
Lemma DiskInode_resize_same :
  old = new → pos = None →
  DiskInode_resize e bm sz pos (di, m) = (Some tt, (resized e di sz, m)).
Proof.
  intros Heq Hp. cut (wp (DiskInode_resize e bm sz pos) (λ _ s, s = (resized e di sz, m)) never (di, m)).
  { by intros ([] & s & -> & ->)%wp_never. }
  apply resize_step. rewrite Heq, Z.eqb_refl, Hp. by eapply wp_eq.
Qed.
End resize.
