(* ===== verification/FileIO.v ===== *)
(** * Reading and writing a file through its inode ([src/inode.cpp])

    [Inode::read_data] and [Inode::write_data] on a file of the file
    system: the bytes read are the file's content, a write replaces the
    bytes it covers and extends the file where it passes its end, and both
    leave every other file's blocks alone. *)

From S2P Require Import Prelude Bytes Config BlkIface Bitmap DataArea Layout InodeIO DiskInode Sbfs Inode FileMap FileData FileGrow FileShrink FileResize.

(** The bytes of a file. *)
Definition content (m : store) (di : DiskInode) : bytes :=
  slice 0 (size di) (file_bytes m di (data_blocks (size di))).

(** The blocks of a file. *)
Definition tree_blocks (m : store) (di : DiskInode) (b : Z) : Prop :=
  ∃ x, live (file_shape (data_blocks (size di))) x ∧ b = node_id m di x.

(** What neither reading, writing nor resizing changes of an inode. *)
Definition attrs (di : DiskInode) : Z * Z * Z * Z * Z :=
  (uid di, gid di, link_cnt di, mode di, type_ di).

Lemma attrs_meta di di' : meta di' = meta di → attrs di' = attrs di ∧ size di' = size di.
Proof. intros [= ?????????]. unfold attrs. split; congruence. Qed.

(** The file [di] of [m] has become [di'] of [m']: its blocks are blocks it
    had or blocks that were free, the blocks it has no more are free, and
    the bitmap has changed in nothing else; its attributes are as before. *)
Record retree (bm : Bitmap) (m : store) (di : DiskInode) (m' : store) (di' : DiskInode) : Prop := {
  rt_fresh b : tree_blocks m' di' b → used m bm b → tree_blocks m di b;
  rt_used b : used m' bm b ↔
    (used m bm b ∧ (tree_blocks m di b → tree_blocks m' di' b)) ∨ tree_blocks m' di' b;
  rt_count : free_blocks m' bm + nodes (file_shape (data_blocks (size di'))) =
    free_blocks m bm + nodes (file_shape (data_blocks (size di)));
  rt_attrs : attrs di' = attrs di;
}.

(** The same file, its bytes changed. *)
Definition same_blocks_of (bm : Bitmap) (m : store) (di : DiskInode) (m' : store) (di' : DiskInode) : Prop :=
  (∀ b, tree_blocks m' di' b ↔ tree_blocks m di b) ∧ (∀ b, used m' bm b ↔ used m bm b) ∧
  free_blocks m' bm = free_blocks m bm ∧ size di' = size di ∧ attrs di' = attrs di.

(** A file of [fs]: its inode, stored outside the data area, and its blocks. *)
Record file_at (m : store) (bm : Bitmap) (pos : Position) (di : DiskInode) : Prop := {
  fa_pos : pos_ok m pos;
  fa_inode : inode_at m pos = Some di;
  fa_out : ¬ in_bitmap bm (block_id pos) ∧ ¬ in_area bm (block_id pos);
  fa_own : file_own m bm di (file_shape (data_blocks (size di)));
}.

(** Two states that agree outside the blocks of [di], the free blocks, the
    bitmap and the block of the inode at [pos], where only that inode
    differs. *)
Record only_file (bm : Bitmap) (pos : Position) (di : DiskInode) (m m' : store) : Prop := {
  of_blocks b : ¬ in_bitmap bm b → b ≠ block_id pos → (in_area bm b → used m bm b) →
    (∀ x, live (file_shape (data_blocks (size di))) x → b ≠ node_id m di x) → m' !! b = m !! b;
  of_inodes q : block_id q = block_id pos → pos_disjoint pos q → 0 ≤ block_offset q →
    inode_at m' q = inode_at m q;
  of_used b : used m bm b → used m' bm b;
}.

Lemma inode_at_wf m pos di : inode_at m pos = Some di → DiskInode_wf di.
Proof.
  unfold inode_at. destruct (m !! block_id pos); simpl; [|done]. intros [= <-].
  apply DiskInode_decode_wf.
Qed.

Lemma zlen_content m di :
  store_wf m → is_u32 (size di) → zlen (content m di) = size di.
Proof.
  intros Hm Hs. destruct (data_blocks_eq (size di) Hs) as (_ & Hr & Hb).
  unfold content. unfold is_u32 in Hs. apply zlen_slice; [lia|lia|]. rewrite zlen_file_bytes by (done || lia). lia.
Qed.

Lemma slice_content m di off l :
  0 ≤ off → 0 ≤ l → off + l ≤ size di →
  slice off l (content m di) = slice off l (file_bytes m di (data_blocks (size di))).
Proof. intros. unfold content. rewrite slice_slice by lia. by rewrite Z.add_0_l. Qed.

(** Everything but the pointers and the times and size is kept. *)
Lemma wf_same_meta di di' :
  DiskInode_wf di → meta di' = meta di →
  zlen (direct di') = kInodeDirectCnt ∧ Forall is_u32 (direct di') →
  is_u32 (indirect1 di') ∧ is_u32 (indirect2 di') → DiskInode_wf di'.
Proof.
  intros [] Hm Hd [H1 H2]. destruct di, di'. unfold meta in Hm. simpl in *.
  injection Hm as -> -> -> -> -> -> -> -> ->. by split.
Qed.

Lemma wf_times di a c m' :
  DiskInode_wf di → is_u32 a → is_u32 c → is_u32 m' → DiskInode_wf (set_times a c m' di).
Proof. intros [] ???. by split. Qed.

Lemma wf_meta e f di : DiskInode_wf di → DiskInode_wf (update_meta e f di).
Proof.
  intros Hd. pose proof Hd as []. unfold update_meta. apply wf_times; [done|..];
    (destruct (Z.testbit _ _); [apply u32_range|done]).
Qed.

Lemma wf_resized e di sz : DiskInode_wf di → is_u32 sz → DiskInode_wf (resized e di sz).
Proof. intros Hd Hs. apply (wf_meta e 7) in Hd as []. by split. Qed.

(** ** Ownership survives changes elsewhere *)

Lemma used_same m m' bm b :
  (∀ c, in_bitmap bm c → m' !! c = m !! c) → used m' bm b ↔ used m bm b.
Proof.
  intros Hf. unfold used, in_area. split; intros [Hin Hb]; (split; [done|]); rewrite <- Hb;
    [symmetry|]; (apply bm_bit_frame; [done|lia]).
Qed.

Lemma own_move m m' bm di di' sh :
  file_own m bm di sh → tree_ok m' di' sh →
  (∀ x, live sh x → node_id m' di' x = node_id m di x) →
  indirect1 di' = indirect1 di → indirect2 di' = indirect2 di →
  (∀ c, in_bitmap bm c → m' !! c = m !! c) → (∀ c, is_Some (m' !! c) ↔ is_Some (m !! c)) →
  file_own m' bm di' sh.
Proof.
  intros [Ht Ha Hu H1 H2] Ht' Hids E1 E2 Hb Hd. split; [done| | |by rewrite E1|by rewrite E2].
  - destruct Ha as [(_ & Hg & Hin) Hab Hbl]. split; [split_and!; [apply Ht'|done|]|done|].
    + intros b Hbb. by apply Hd, Hin.
    + intros s Hs. by apply Hd, Hbl.
  - intros x Hx. apply (used_same m); [done|]. rewrite Hids by done. by apply Hu.
Qed.

(** Writing the inode itself. *)
Lemma own_inode_write m bm di sh pos v :
  file_own m bm di sh → ¬ in_bitmap bm (block_id pos) → ¬ in_area bm (block_id pos) →
  is_u32 (block_id pos) → is_Some (m !! block_id pos) → blk_wf v →
  let m' := <[block_id pos := v]> m in
  file_own m' bm di sh ∧ (∀ x, live sh x → node_id m' di x = node_id m di x) ∧
  (∀ i, live sh (NData i) → blk_at m' (node_id m' di (NData i)) = blk_at m (node_id m di (NData i))).
Proof.
  intros Ho Hb Ha Hu Hin Hv m'. pose proof (o_tree _ _ _ _ Ho) as Ht.
  assert (Hblk : ∀ x, live sh x → blk_at m' (node_id m di x) = blk_at m (node_id m di x)).
  { intros x Hx. unfold blk_at, m'. rewrite lookup_insert_ne; [done|]. intros Heq.
    apply Ha. rewrite Heq. by apply (o_used _ _ _ _ Ho). }
  assert (Hids : ∀ x, live sh x → node_id m' di x = node_id m di x).
  { intros x Hx. apply (node_id_frame _ _ _ sh); [apply Ht|done|]. intros y Hy _. by apply Hblk. }
  assert (Hdom : ∀ c, is_Some (m' !! c) ↔ is_Some (m !! c)) by (intros; by apply insert_dom).
  split_and!; [|done|].
  - apply (own_move m _ bm di di); try done.
    + destruct Ht as [Hm Hd Hi Hsh Hin' Hinj]. split; [by apply store_wf_insert|done|done|done| |].
      * intros x Hx. rewrite Hids by done. apply Hdom. by apply Hin'.
      * intros x y Hx Hy. rewrite !Hids by done. by apply Hinj.
    + intros c Hc. unfold m'. rewrite lookup_insert_ne; [done|]. by intros <-.
  - intros i Hi. rewrite Hids by done. by apply Hblk.
Qed.

(** ** Storing the inode at the end of an operation *)

Lemma own_not_out m bm di sh x b :
  file_own m bm di sh → live sh x → ¬ in_area bm b → b ≠ node_id m di x.
Proof. intros Ho Hx Hb ->. apply Hb. by apply (o_used _ _ _ _ Ho). Qed.

Lemma store_inode m2 bm pos di2 :
  pos_ok m2 pos → ¬ in_bitmap bm (block_id pos) ∧ ¬ in_area bm (block_id pos) →
  DiskInode_wf di2 → file_own m2 bm di2 (file_shape (data_blocks (size di2))) →
  ∃ m3, Inode_write_inode pos di2 m2 = (Some tt, m3) ∧ file_at m3 bm pos di2 ∧
    content m3 di2 = content m2 di2 ∧
    (∀ b, b ≠ block_id pos → m3 !! b = m2 !! b) ∧
    (∀ q, block_id q = block_id pos → pos_disjoint pos q → 0 ≤ block_offset q →
       inode_at m3 q = inode_at m2 q) ∧
    (∀ b, used m3 bm b ↔ used m2 bm b).
Proof.
  intros Hpos [Hnb Hna] Hwf Ho. pose proof (t_store _ _ _ (o_tree _ _ _ _ Ho)) as Hm.
  pose proof Hpos as (Hu & Hin & Hoff).
  destruct (Inode_write_inode_spec m2 pos di2 Hm Hpos Hwf) as (blk & Hblk & Hrun & Hat & Hm3).
  rewrite Hrun in Hat, Hm3. simpl in Hat, Hm3.
  set (v := splice (block_offset pos) (DiskInode_encode di2) blk) in *.
  assert (Hv : blk_wf v) by (destruct (Hm3 (block_id pos) v) as [_ ?]; [by rewrite lookup_insert_eq|done]).
  destruct (own_inode_write m2 bm di2 _ pos v Ho Hnb Hna Hu Hin Hv) as (Ho3 & Hids & Hblks).
  exists (<[block_id pos := v]> m2). split; [done|]. split_and!.
  - split; [|done|done|done]. split_and!; [done| |lia|lia]. by apply insert_dom.
  - unfold content. f_equal. apply file_bytes_ext. intros i Hi. by apply Hblks.
  - intros b Hb. by rewrite lookup_insert_ne.
  - intros q Hq Hd Hq0. pose proof (Inode_write_inode_other m2 pos di2 q Hm Hpos Hwf Hd Hq0) as He.
    by rewrite Hrun in He.
  - intros b. apply used_same. intros c Hc. rewrite lookup_insert_ne; [done|]. by intros <-.
Qed.

Lemma with_inode_run {D A} di (m : M (DiskInode * D) A) d r di' d' :
  m (di, d) = (r, (di', d')) → with_inode di m d = (r, d').
Proof. unfold with_inode. by intros ->. Qed.

Lemma returning_run {D A} (m : M (DiskInode * D) A) s a di' d' :
  m s = (Some a, (di', d')) → returning m s = (Some (a, di'), (di', d')).
Proof. unfold returning, bind. by intros ->. Qed.

Lemma check_len_ok {S} n (s : S) : 0 ≤ n → check_len n s = (Some tt, s).
Proof. intros Hn. unfold check_len. destruct (Z.eqb_spec n kFail) as [->|]; [done|done]. Qed.

(** ** Changes of a file's blocks *)

Lemma own_tree_used m bm di b :
  file_own m bm di (file_shape (data_blocks (size di))) → tree_blocks m di b → used m bm b.
Proof. intros Ho (x & Hx & ->). by apply (o_used _ _ _ _ Ho). Qed.

Lemma retree_same bm m di m' di' :
  file_own m bm di (file_shape (data_blocks (size di))) → same_blocks_of bm m di m' di' →
  retree bm m di m' di'.
Proof.
  intros Ho (Ht & Hu & Hf & Hs & Ha). split; [|intros b; rewrite Hu, Ht|by rewrite Hf, Hs|done].
  - intros b Hb _. by apply Ht.
  - split; [tauto|]. intros [[? _]|Hb]; [done|by apply (own_tree_used m bm di)].
Qed.

Lemma retree_then_same bm m di m1 d1 m2 d2 :
  retree bm m di m1 d1 → same_blocks_of bm m1 d1 m2 d2 → retree bm m di m2 d2.
Proof.
  intros [F U C A] (Ht & Hu & Hf & Hs & Ha).
  split; [|intros b; rewrite Hu, U, Ht; tauto|by rewrite Hf, Hs|congruence].
  intros b Hb. apply F. by apply Ht.
Qed.

Lemma same_then_retree bm m di m1 d1 m2 d2 :
  same_blocks_of bm m di m1 d1 → retree bm m1 d1 m2 d2 → retree bm m di m2 d2.
Proof.
  intros (Ht & Hu & Hf & Hs & Ha) [F U C A].
  split; [|intros b; rewrite U, Hu, Ht; tauto|by rewrite <- Hf, <- Hs|congruence].
  intros b Hb Hub. by apply Ht, F, Hu.
Qed.

Lemma same_tree_blocks m di dx :
  same_tree di dx → size dx = size di → ∀ b, tree_blocks m dx b ↔ tree_blocks m di b.
Proof.
  intros Hs Hz b. unfold tree_blocks. rewrite Hz.
  split; intros (x & Hx & ->); exists x; (split; [done|]); by rewrite (same_tree_id m di dx).
Qed.

Lemma grown_retree bm m di dx m1 di1 :
  file_own m bm di (file_shape (data_blocks (size di))) → same_tree di dx → attrs di1 = attrs di →
  grown bm m dx (file_shape (data_blocks (size di))) m1 di1 (file_shape (data_blocks (size di1))) →
  retree bm m di m1 di1.
Proof.
  intros Ho Hsx Hattrs [O L N U _ _ C _]. set (sh := file_shape (data_blocks (size di))) in *.
  assert (Hold : ∀ x, live sh x → node_id m1 di1 x = node_id m di x).
  { intros x Hx. destruct (L x Hx) as [_ ->]. by apply same_tree_id. }
  split; [| |done|done].
  - intros b (x & Hx & ->) Hu. destruct (decide (live sh x)) as [Hl|Hn]; [|by destruct (N x Hx Hn)].
    exists x. by rewrite Hold.
  - intros b. rewrite U. split.
    + intros [Hu|(x & Hx & _ & ->)]; [left; split; [done|]|right; by exists x].
      intros (x & Hx & ->). exists x. rewrite Hold by done. by destruct (L x Hx).
    + intros [[Hu _]|(x & Hx & ->)]; [by left|]. destruct (decide (live sh x)) as [Hl|Hn].
      * left. rewrite Hold by done. by apply (o_used _ _ _ _ Ho).
      * right. by exists x.
Qed.

(** Storing an inode changes the blocks of no file. *)
Lemma store_inode_same m2 bm pos v m3 di :
  Inode_write_inode pos v m2 = (Some tt, m3) → DiskInode_wf v → pos_ok m2 pos →
  ¬ in_bitmap bm (block_id pos) → ¬ in_area bm (block_id pos) →
  file_own m2 bm di (file_shape (data_blocks (size di))) → same_blocks_of bm m2 di m3 di.
Proof.
  intros Hst Hwf Hpos Hnb Hna Ho. pose proof (t_store _ _ _ (o_tree _ _ _ _ Ho)) as Hm.
  destruct (Inode_write_inode_spec m2 pos v Hm Hpos Hwf) as (blk & Hblk & Hrun & _ & Hm3).
  rewrite Hst in Hrun. injection Hrun as ->. set (x := splice _ _ blk) in *.
  assert (Hx : blk_wf x).
  { rewrite Hst in Hm3. cbn [snd] in Hm3. destruct (Hm3 (block_id pos) x) as [_ ?]; [by rewrite lookup_insert_eq|done]. }
  destruct (own_inode_write m2 bm di _ pos x Ho Hnb Hna) as (_ & Hids & _); [apply Hpos|by eexists|done|].
  split_and!; [|intros b; by apply insert_used|by apply insert_free_blocks|done|done].
  intros b. split; intros (y & Hy & ->); exists y; (split; [done|]); [|symmetry]; by apply Hids.
Qed.

(** ** Reading *)

(** What [Inode::read_data] does around the [read_data] of the inode. *)
Lemma Inode_read_data_done e m bm pos di off len l bs :
  file_at m bm pos di → 0 ≤ l →
  DiskInode_read_data e off len (di, m) = (Some (l, bs), (update_meta e 1 di, m)) →
  ∃ m', Inode_read_data e pos off len m = (Some (l, bs), m') ∧
    file_at m' bm pos (update_meta e 1 di) ∧
    content m' (update_meta e 1 di) = content m di ∧ only_file bm pos di m m' ∧
    same_blocks_of bm m di m' (update_meta e 1 di).
Proof.
  intros [Hpos Hat Hout Ho] Hl Hread. pose proof (inode_at_wf _ _ _ Hat) as Hwf.
  destruct (Inode_read_inode_spec m pos Hpos) as (di' & Hat' & _ & Hrun).
  assert (di' = di) as -> by congruence. set (di1 := update_meta e 1 di) in *.
  assert (Ho1 : file_own m bm di1 (file_shape (data_blocks (size di1)))) by (by apply (same_tree_own m bm di)).
  destruct (store_inode m bm pos di1 Hpos Hout (wf_meta e 1 di Hwf) Ho1)
    as (m3 & Hw & Hat3 & Hc3 & Hf3 & Hi3 & Hu3).
  exists m3. split; [|split; [done|split; [|split]]].
  - unfold Inode_read_data. rewrite (bind_Some _ _ _ _ _ Hrun).
    rewrite (bind_Some _ _ _ _ _ (with_inode_run _ _ _ _ _ _ (returning_run _ _ _ _ _ Hread))).
    rewrite (bind_Some _ _ _ _ _ (check_len_ok l _ Hl)).
    by rewrite (bind_Some _ _ _ _ _ Hw).
  - rewrite Hc3. unfold content. by rewrite (same_tree_bytes m di di1).
  - split; [|done|intros b; apply Hu3]. intros b _ Hne _ _. by apply Hf3.
  - destruct (store_inode_same m bm pos di1 m3 di1) as (Htb & Hus & Hf & _);
      [done|by apply wf_meta|done|apply Hout|apply Hout|done|].
    split_and!; [|done..]. intros b. rewrite Htb. by apply same_tree_blocks.
Qed.

Lemma Inode_read_data_spec e m bm pos di off len :
  file_at m bm pos di → size di < 2 ^ 31 → 0 ≤ off < size di → 0 < len → off + len < 2 ^ 32 →
  ∃ m', Inode_read_data e pos off len m =
      (Some (Z.min len (size di - off), slice off (Z.min len (size di - off)) (content m di)), m') ∧
    file_at m' bm pos (update_meta e 1 di) ∧
    content m' (update_meta e 1 di) = content m di ∧ only_file bm pos di m m' ∧
    same_blocks_of bm m di m' (update_meta e 1 di).
Proof.
  intros Hf Hsz Hoff Hlen Hend. pose proof Hf as [Hpos Hat Hout Ho]. pose proof (inode_at_wf _ _ _ Hat) as Hwf.
  set (l := Z.min len (size di - off)). apply Inode_read_data_done; [done|lia|].
  pose proof (wf_size _ Hwf) as Hu. unfold is_u32 in Hu.
  destruct (data_blocks_eq (size di)) as (_ & Hr & Hb); [lia|].
  rewrite slice_content by lia.
  rewrite (DiskInode_read_data_spec e m di _ off len (o_tree _ _ _ _ Ho)); simpl;
    unfold kBlockSize in *; (done || lia).
Qed.

(** ** Writing *)


(** What a file holds once [buf] is written at [off], no further than its
    end. *)
Definition overwrite (off : Z) (buf old : bytes) : bytes :=
  take (Z.to_nat off) old ++ buf ++ drop (Z.to_nat off + length buf) old.

(** The old bytes are the first bytes of the grown file. *)
Lemma grown_bytes bm m di a m' di' b :
  file_own m bm di (file_shape a) → 0 ≤ a ≤ b →
  grown bm m di (file_shape a) m' di' (file_shape b) →
  slice 0 (kBlockSize * a) (file_bytes m' di' b) = file_bytes m di a.
Proof.
  intros Ho Hab Hg. pose proof (g_own _ _ _ _ _ _ _ Hg) as Ho'.
  assert (Hsplit : file_bytes m' di' b = file_bytes m' di' a ++
     (seqZ a (b - a) ≫= λ i, blk_at m' (node_id m' di' (NData i)))).
  { unfold file_bytes. rewrite <- bind_app. f_equal.
    replace b with (a + (b - a)) at 1 by lia. rewrite seqZ_app by lia. by rewrite Z.add_0_l. }
  rewrite Hsplit.
  pose proof (zlen_file_bytes m' di' a (t_store _ _ _ (o_tree _ _ _ _ Ho')) ltac:(lia)) as Hz.
  rewrite slice_app_l by (unfold kBlockSize in *; lia). rewrite <- Hz, slice_all.
  apply file_bytes_ext. intros i Hi.
  destruct (g_old _ _ _ _ _ _ _ Hg (NData i)) as [Hl He]; [done|]. rewrite He.
  unfold blk_at. rewrite (g_frame _ _ _ _ _ _ _ Hg); [done| |].
  - by apply (own_not_bitmap m bm di (file_shape a) (NData i) Ho).
  - intros x Hx Hidx Heq. rewrite <- He in Heq.
    apply (t_inj _ _ _ (o_tree _ _ _ _ Ho')) in Heq; [|done|done]. by apply (Hidx i).
Qed.

(** [di1] in [m1] is the file [di] of [m] made longer, its bytes kept. *)
Record extended (bm : Bitmap) (m : store) (di : DiskInode) (m1 : store) (di1 : DiskInode) : Prop := {
  ex_wf : DiskInode_wf di1;
  ex_attrs : attrs di1 = attrs di;
  ex_grown : ∃ dx, same_tree di dx ∧
    grown bm m dx (file_shape (data_blocks (size di))) m1 di1 (file_shape (data_blocks (size di1)));
}.

Lemma resize_up e m bm di new :
  DiskInode_wf di → file_own m bm di (file_shape (data_blocks (size di))) → is_u32 new → size di < new →
  needed (data_blocks (size di)) (data_blocks new) ≤ free_blocks m bm →
  ∃ m1 di1, DiskInode_resize e bm new None (di, m) = (Some tt, (di1, m1)) ∧
    size di1 = new ∧ extended bm m di m1 di1.
Proof.
  intros Hwf Ho Hnew Hlt Hfree. pose proof (wf_size _ Hwf) as Hu. set (dx := resized e di new).
  assert (Hox : file_own m bm dx (file_shape (data_blocks (size di)))) by (by apply (same_tree_own m bm di)).
  unfold is_u32 in *. pose proof (data_blocks_mono (size di) new ltac:(lia) ltac:(lia)) as Hmono.
  destruct (decide (data_blocks (size di) = data_blocks new)) as [Heq|Hne].
  - rewrite (DiskInode_resize_same e bm m di new None Hu Hnew Heq eq_refl).
    exists m, dx. split_and!; [done|done|]. split; [by apply wf_resized|done|].
    exists dx. split; [done|]. change (size dx) with new. rewrite <- Heq. by apply grown_refl.
  - pose proof (DiskInode_resize_grow e bm m di new None Hu Hnew Ho ltac:(lia)) as Hg. unfold wp in Hg.
    destruct (DiskInode_resize e bm new None (di, m)) as [[[]|] [di1 m1]]; cbn [fst snd] in *.
    2:{ destruct Hg. lia. }
    destruct (attrs_meta _ _ (g_meta _ _ _ _ _ _ _ Hg)) as [Ha Hs]. change (size (resized e di new)) with new in Hs.
    exists m1, di1. split_and!; [done|done|]. split; [|done|exists dx; by rewrite Hs].
    apply (wf_same_meta dx); [by apply wf_resized|apply Hg|apply Hg|apply Hg].
Qed.

(** The first half of [write_data]: the file is made long enough. *)
Lemma write_grow e m bm di new :
  DiskInode_wf di → file_own m bm di (file_shape (data_blocks (size di))) → is_u32 new →
  needed (data_blocks (size di)) (data_blocks (Z.max (size di) new)) ≤ free_blocks m bm →
  ∃ m1 di1, (if size di <? new then
       attempt (DiskInode_resize e bm new None);;; ret tt else ret tt) (di, m) = (Some tt, (di1, m1)) ∧
    size di1 = Z.max (size di) new ∧ extended bm m di m1 di1.
Proof.
  intros Hwf Ho Hnew Hfree. destruct (Z.ltb_spec (size di) new) as [Hlt|Hge].
  - replace (Z.max (size di) new) with new in * by lia.
    destruct (resize_up e m bm di new) as (m1 & di1 & Hrun & ? & ?); [done..|].
    exists m1, di1. split; [|done]. unfold bind, attempt, ret. by rewrite Hrun.
  - exists m, di. split_and!; [done|lia|]. split; [done|done|].
    exists di. split; [done|by apply grown_refl].
Qed.

Lemma overwrite_splice off buf F s :
  0 ≤ off ≤ s → s ≤ zlen F → off + zlen buf ≤ zlen F →
  slice 0 (Z.max s (off + zlen buf)) (splice off buf F) = overwrite off buf (slice 0 s F).
Proof.
  intros Ho Hs Hb. pose proof (zlen_nonneg buf).
  assert (Hz : zlen (overwrite off buf (slice 0 s F)) = Z.max s (off + zlen buf)).
  { unfold overwrite. pose proof (zlen_slice 0 s F ltac:(lia) ltac:(lia) ltac:(lia)) as Hsl.
    unfold zlen in *. rewrite !length_app, length_take, length_drop. lia. }
  apply list_eq. intros i. destruct (decide (Z.of_nat i < Z.max s (off + zlen buf))) as [Hi|Hi].
  - rewrite lookup_slice by lia. rewrite lookup_splice by lia. simpl. unfold overwrite.
    pose proof (zlen_slice 0 s F ltac:(lia) ltac:(lia) ltac:(lia)) as Hsl. unfold zlen in *.
    case_decide as Hd.
    + rewrite lookup_app_r by (rewrite length_take; lia). rewrite length_take.
      rewrite lookup_app_l by lia. f_equal. lia.
    + destruct (decide (Z.of_nat i < off)).
      * rewrite lookup_app_l by (rewrite length_take; lia). rewrite lookup_take_lt by lia.
        by rewrite lookup_slice by lia.
      * rewrite lookup_app_r by (rewrite length_take; lia). rewrite length_take.
        rewrite lookup_app_r by lia. rewrite lookup_drop.
        assert (Hmin : (Z.to_nat off `min` length (slice 0 s F) = Z.to_nat off)%nat) by lia.
        rewrite Hmin, lookup_slice by lia. f_equal. lia.
  - rewrite lookup_slice_ge by lia. symmetry. apply lookup_ge_None. unfold zlen in *. lia.
Qed.

Lemma zlen_overwrite off buf (b : bytes) : 0 ≤ off ≤ zlen b → zlen (overwrite off buf b) = Z.max (zlen b) (off + zlen buf).
Proof. intros. unfold overwrite, zlen in *. rewrite !length_app, length_take, length_drop. lia. Qed.

(** A write where the bytes end appends. *)
Lemma overwrite_end buf (b : bytes) : overwrite (zlen b) buf b = b ++ buf.
Proof. unfold overwrite, zlen. rewrite take_ge, drop_ge by lia. by rewrite app_nil_r. Qed.

(** The new file's bytes are the old file's, overwritten and extended; where
    the write starts past the end, some bytes [x] come between. *)
Lemma overwritten_content m di F' off buf sz :
  store_wf m → is_u32 (size di) → 0 ≤ off → off + zlen buf ≤ zlen F' →
  sz = Z.max (size di) (off + zlen buf) → kBlockSize * data_blocks (size di) ≤ zlen F' →
  slice 0 (kBlockSize * data_blocks (size di)) F' = file_bytes m di (data_blocks (size di)) →
  ∃ x, zlen x = Z.max 0 (off - size di) ∧ slice 0 sz (splice off buf F') = overwrite off buf (content m di ++ x).
Proof.
  intros Hm Hu Hoff Hbuf -> Hcap HF. destruct (data_blocks_eq (size di) Hu) as (_ & Hr & Hb).
  pose proof (zlen_nonneg buf). unfold is_u32, kBlockSize in *. set (s := Z.max (size di) off).
  exists (slice (size di) (s - size di) F'). split; [rewrite zlen_slice by lia; lia|].
  replace (Z.max (size di) (off + zlen buf)) with (Z.max s (off + zlen buf)) by lia.
  rewrite overwrite_splice by lia. f_equal. unfold content. rewrite <- HF, slice_slice by lia.
  replace s with (size di + (s - size di)) at 1 by lia. rewrite slice_app by lia. done.
Qed.

Lemma no_gap (x : bytes) off s : zlen x = Z.max 0 (off - s) → off ≤ s → x = [].
Proof. intros Hx Ho. apply nil_length_inv. unfold zlen in Hx. lia. Qed.

(** Overwriting data blocks keeps the file's blocks. *)
Lemma wrote_own bm m di sh p src m' :
  file_own m bm di sh → wrote di sh p src m m' → file_own m' bm di sh ∧
  (∀ b, used m' bm b ↔ used m bm b) ∧ free_blocks m' bm = free_blocks m bm.
Proof.
  intros Ho [[T I F Dm] B].
  assert (Hbit : ∀ c, in_bitmap bm c → m' !! c = m !! c).
  { intros c Hc. apply F. intros i Hi ->. by apply (own_not_bitmap m bm di sh (NData i) Ho). }
  split_and!; [by apply (own_move m _ bm di di)|intros b; by apply used_same|].
  unfold free_blocks. f_equal. apply filter_false_ext. intros t Ht%elem_of_seqZ.
  apply bm_bit_frame; [done|lia].
Qed.

(** The second half: the bytes are written. *)
Lemma extended_write e m bm di m1 di1 off buf len :
  DiskInode_wf di → file_own m bm di (file_shape (data_blocks (size di))) →
  extended bm m di m1 di1 → size di1 = Z.max (size di) (off + len) → size di1 < 2 ^ 31 →
  0 ≤ off → 0 < len → zlen buf = len →
  ∃ m2 x, zlen x = Z.max 0 (off - size di) ∧
    DiskInode_write_data e off buf len (di1, m1) = (Some len, (update_meta e 3 di1, m2)) ∧
    file_own m2 bm (update_meta e 3 di1) (file_shape (data_blocks (size di1))) ∧
    content m2 (update_meta e 3 di1) = overwrite off buf (content m di ++ x) ∧
    (∀ b, ¬ in_bitmap bm b → (in_area bm b → used m bm b) →
       (∀ x, live (file_shape (data_blocks (size di))) x → b ≠ node_id m di x) → m2 !! b = m !! b) ∧
    (∀ b, used m bm b → used m2 bm b) ∧ free_blocks m2 bm = free_blocks m1 bm ∧
    retree bm m di m2 (update_meta e 3 di1).
Proof.
  intros Hwf Ho [Hwf1 Ha1 (dx & Hsx & Hg)] Hs1 Hlt Hoff Hlen Hbuf.
  pose proof (wf_size _ Hwf) as Hu. pose proof (g_own _ _ _ _ _ _ _ Hg) as Ho1.
  assert (Hu1 : is_u32 (size di1)) by apply (wf_size _ Hwf1). unfold is_u32 in *.
  destruct (data_blocks_eq (size di1) Hu1) as (_ & Hr1 & Hb1).
  destruct (data_blocks_eq (size di) Hu) as (_ & Hr0 & Hb0).
  pose proof (data_blocks_mono (size di) (size di1) ltac:(lia) ltac:(lia)) as Hmono.
  destruct (DiskInode_write_data_spec e m1 di1 _ off buf len (o_tree _ _ _ _ Ho1)) as (m2 & Hwr & Hw);
    simpl; try (unfold kBlockSize in *; lia).
  replace (Z.min len (size di1 - off)) with len in * by lia.
  rewrite <- Hbuf, slice_all in Hw at 1. cbn [s_data file_shape] in Hw.
  destruct (wrote_own bm m1 di1 _ off buf m2 Ho1 Hw) as (Ho2 & Hu2 & Hf2).
  assert (Hox : file_own m bm dx (file_shape (data_blocks (size di)))) by (by apply (same_tree_own m bm di)).
  pose proof (zlen_file_bytes m1 di1 (data_blocks (size di1)) (t_store _ _ _ (o_tree _ _ _ _ Ho1)) ltac:(lia)) as Hz.
  destruct (overwritten_content m di (file_bytes m1 di1 (data_blocks (size di1))) off buf (size di1)) as (x & Hx & Hsx');
    try (rewrite ?Hz; unfold kBlockSize in *; lia); [apply (t_store _ _ _ (o_tree _ _ _ _ Ho))|done|..].
  { rewrite (grown_bytes bm m dx _ m1 di1 _ Hox); [|lia|done]. by rewrite (same_tree_bytes m di dx). }
  exists m2, x. split; [done|]. split; [done|]. split_and!.
  - by apply (same_tree_own m2 bm di1).
  - rewrite <- Hsx'. unfold content at 1. change (size (update_meta e 3 di1)) with (size di1).
    rewrite (same_tree_bytes m2 di1 (update_meta e 3 di1)) by done. destruct Hw as [_ HB].
    cbn [s_data file_shape] in HB. by rewrite HB.
  - intros b Hb Hub Hnb. destruct Hw as [[_ _ F _] _]. rewrite F.
    + apply (grown_frame _ _ _ _ _ _ _ _ Hg); [done|done|]. intros y Hy _.
      rewrite (same_tree_id m di dx) by done. by apply Hnb.
    + intros i Hi Heq. destruct (decide (live (file_shape (data_blocks (size di))) (NData i))) as [Hl|Hn].
      * destruct (g_old _ _ _ _ _ _ _ Hg _ Hl) as [_ He].
        rewrite (same_tree_id m di dx) in He by done. apply (Hnb _ Hl). congruence.
      * apply (g_new _ _ _ _ _ _ _ Hg _ Hi Hn). rewrite <- Heq. apply Hub. rewrite Heq.
        by apply (o_used _ _ _ _ Ho1).
  - intros b Hb. apply Hu2. eapply grown_used; [exact Hg|done].
  - done.
  - apply (retree_then_same bm m di m1 di1); [by apply (grown_retree bm m di dx)|].
    split_and!; [|done..]. destruct Hw as [[_ I _ _] _].
    intros b. split; intros (y & Hy & ->); exists y; (split; [done|]);
      rewrite (same_tree_id m2 di1 (update_meta e 3 di1)) by done; [by apply I|by rewrite I].
Qed.

Lemma Inode_write_data_spec e fs m pos di off buf len :
  let bm := data_bitmap_ fs in
  file_at m bm pos di → size di < 2 ^ 31 → 0 ≤ off → 0 < len → off + len < 2 ^ 31 →
  zlen buf = len →
  needed (data_blocks (size di)) (data_blocks (Z.max (size di) (off + len))) ≤ free_blocks m bm →
  ∃ m' di' x, zlen x = Z.max 0 (off - size di) ∧ Inode_write_data e fs pos off buf len m = (Some len, m') ∧
    file_at m' bm pos di' ∧ size di' = Z.max (size di) (off + len) ∧ attrs di' = attrs di ∧
    content m' di' = overwrite off buf (content m di ++ x) ∧ only_file bm pos di m m' ∧ retree bm m di m' di'.
Proof.
  intros bm [Hpos Hat Hout Ho] Hsz Hoff Hlen Hend Hbuf Hfree.
  pose proof (inode_at_wf _ _ _ Hat) as Hwf.
  destruct (Inode_read_inode_spec m pos Hpos) as (di0 & Hat0 & _ & Hrun).
  assert (di0 = di) as -> by congruence. clear Hat0.
  destruct (write_grow e m bm di (off + len) Hwf Ho) as (m1 & di1 & Hg1 & Hs1 & Hex);
    [unfold is_u32; lia|done|].
  destruct (extended_write e m bm di m1 di1 off buf len Hwf Ho Hex) as (m2 & x & Hx & Hwr & Ho2 & Hc2 & Hfr & Hu2 & _ & Hrt);
    [done|lia|done..|].
  set (di2 := update_meta e 3 di1) in *.
  destruct Hout as [Hnb Hna].
  assert (Hblk : m2 !! block_id pos = m !! block_id pos).
  { apply Hfr; [done|by intros|]. intros y Hy. by eapply own_not_out. }
  assert (Hpos2 : pos_ok m2 pos).
  { destruct Hpos as (? & ? & ?). split_and!; try done; try lia. by rewrite Hblk. }
  destruct (store_inode m2 bm pos di2 Hpos2 (conj Hnb Hna) (wf_meta e 3 di1 (ex_wf _ _ _ _ _ Hex)) Ho2)
    as (m3 & Hst & Hat3 & Hc3 & Hf3 & Hi3 & Hu3).
  exists m3, di2, x. split; [done|]. split_and!; [|done|done|apply (ex_attrs _ _ _ _ _ Hex)|by rewrite Hc3| |].
  - unfold Inode_write_data. rewrite (bind_Some _ _ _ _ _ Hrun).
    assert (Hbody : (di <- this;; (if size di <? u32 (off + len) then
         attempt (DiskInode_resize e (data_bitmap_ fs) (u32 (off + len)) None);;; ret tt
       else ret tt);;; DiskInode_write_data e off buf len) (di, m) = (Some len, (di2, m2))).
    { rewrite (bind_Some _ _ _ di (di, m)) by done. rewrite u32_small by (unfold is_u32; lia).
      rewrite (bind_Some _ _ _ _ _ Hg1). exact Hwr. }
    rewrite (bind_Some _ _ _ _ _ (with_inode_run _ _ _ _ _ _ (returning_run _ _ _ _ _ Hbody))).
    rewrite (bind_Some _ _ _ _ _ (check_len_ok len _ ltac:(lia))).
    by rewrite (bind_Some _ _ _ _ _ Hst).
  - split.
    + intros b Hb Hne Hub Hnbx. rewrite Hf3 by done. by apply Hfr.
    + intros q Hq Hd Hq0. rewrite Hi3 by done. unfold inode_at. by rewrite Hq, Hblk.
    + intros b Hb. apply Hu3. by apply Hu2.
  - apply (retree_then_same bm m di m2 di2 _ _ Hrt).
    apply (store_inode_same m2 bm pos di2 m3 di2); try done. by apply wf_meta, Hex.
Qed.

(** [append]: the bytes go at the end. *)
Lemma append_spec e fs m di buf :
  let bm := data_bitmap_ fs in
  DiskInode_wf di → file_own m bm di (file_shape (data_blocks (size di))) →
  0 < zlen buf → size di + zlen buf < 2 ^ 31 →
  needed (data_blocks (size di)) (data_blocks (size di + zlen buf)) ≤ free_blocks m bm →
  ∃ m2 di2, append e fs buf (di, m) = (Some tt, (di2, m2)) ∧ DiskInode_wf di2 ∧
    file_own m2 bm di2 (file_shape (data_blocks (size di2))) ∧
    size di2 = size di + zlen buf ∧ attrs di2 = attrs di ∧ content m2 di2 = content m di ++ buf ∧
    (∀ b, ¬ in_bitmap bm b → (in_area bm b → used m bm b) →
       (∀ x, live (file_shape (data_blocks (size di))) x → b ≠ node_id m di x) → m2 !! b = m !! b) ∧
    (∀ b, used m bm b → used m2 bm b) ∧
    free_blocks m2 bm = free_blocks m bm - needed (data_blocks (size di)) (data_blocks (size di2)) ∧
    retree bm m di m2 di2.
Proof.
  intros bm Hwf Ho Hbuf Hmax Hfree. pose proof (wf_size _ Hwf) as Hu. unfold is_u32 in Hu.
  destruct (resize_up e m bm di (size di + zlen buf) Hwf Ho) as (m1 & di1 & Hrs & Hs1 & Hex);
    [unfold is_u32; lia|lia|done|].
  destruct (extended_write e m bm di m1 di1 (size di) buf (zlen buf) Hwf Ho Hex)
    as (m2 & x & Hx & Hwr & Ho2 & Hc2 & Hfr & Hu2 & Hf2 & Hrt); [lia|lia|lia|done|done|].
  rewrite (no_gap x _ _ Hx), app_nil_r in Hc2 by lia.
  exists m2, (update_meta e 3 di1). split_and!; [|by apply wf_meta, Hex|done|done|apply Hex| |done|done| |done].
  - unfold append. rewrite (bind_Some _ _ _ di (di, m)) by done.
    rewrite u32_small by (unfold is_u32; lia). rewrite (bind_Some _ _ _ _ _ Hrs).
    rewrite (bind_Some _ _ _ di1 (di1, m1)) by done. rewrite Hs1.
    replace (size di + zlen buf - zlen buf) with (size di) by lia.
    rewrite u32_small by (unfold is_u32; lia). rewrite (bind_Some _ _ _ _ _ Hwr).
    apply check_len_ok. lia.
  - rewrite Hc2. unfold overwrite.
    pose proof (zlen_content m di (t_store _ _ _ (o_tree _ _ _ _ Ho)) (wf_size _ Hwf)) as Hz.
    unfold zlen in Hz. rewrite take_ge by lia. rewrite drop_ge by lia. by rewrite app_nil_r.
  - destruct (ex_grown _ _ _ _ _ Hex) as (dx & _ & Hg). pose proof (g_count _ _ _ _ _ _ _ Hg) as Hct.
    change (size (update_meta e 3 di1)) with (size di1). rewrite Hf2. unfold needed. lia.
Qed.
