(* ===== verification/Dir.v ===== *)
(** * Directories

    A directory is a file of [DirEntry]s.  The scan shared by [find],
    [remove], [link] and [unlink] reads it block by block into one buffer
    and, although a short last block leaves old entries in the buffer and
    [total_blocks] may count blocks that are not data, stops at the first
    entry that has the name. *)

From S2P Require Import Prelude Bytes Config BlkIface Bitmap DataArea Layout InodeIO DiskInode Sbfs Inode Frame FileMap FileData FileGrow FileResize FileIO.

(** ** Entries as bytes *)

Definition entries_bytes (es : list DirEntry) : bytes := es ≫= DirEntry_encode.

Definition has_name (nm : bytes) (x : DirEntry) : Prop := cstr (name x) = cstr nm.

#[export] Instance has_name_dec nm x : Decision (has_name nm x).
Proof. unfold has_name. apply _. Defined.

(** The first entry with a name. *)
Definition find_entry (nm : bytes) (es : list DirEntry) : option (nat * DirEntry) :=
  list_find (has_name nm) es.

Lemma strcmp_eq_true a b : strcmp_eq a b = true ↔ cstr a = cstr b.
Proof. unfold strcmp_eq. by rewrite bool_decide_eq_true. Qed.

Lemma strcmp_eq_false a b : strcmp_eq a b = false ↔ cstr a ≠ cstr b.
Proof. unfold strcmp_eq. by rewrite bool_decide_eq_false. Qed.

Lemma zlen_entries es : Forall DirEntry_wf es → zlen (entries_bytes es) = sizeof_DirEntry * zlen es.
Proof.
  induction 1 as [|x es Hx _ IH]; [done|]. unfold entries_bytes in *. cbn [mbind list_bind].
  rewrite zlen_app, zlen_DirEntry_encode by done. setoid_rewrite IH.
  unfold zlen, sizeof_DirEntry. simpl length. lia.
Qed.

Lemma slice_entries es (t : nat) x :
  Forall DirEntry_wf es → es !! t = Some x →
  slice (sizeof_DirEntry * Z.of_nat t) sizeof_DirEntry (entries_bytes es) = DirEntry_encode x.
Proof.
  intros Hes. revert t. induction Hes as [|y es Hy Hes IH]; intros t Ht; [done|].
  unfold entries_bytes in *. cbn [mbind list_bind]. pose proof (zlen_DirEntry_encode y Hy) as Hz.
  unfold sizeof_DirEntry in *. destruct t as [|t]; simpl in Ht.
  - injection Ht as ->. rewrite slice_app_l by lia. replace (256 * Z.of_nat 0) with 0 by lia.
    rewrite <- Hz. apply slice_all.
  - rewrite slice_app_r by lia. rewrite Hz.
    replace (256 * Z.of_nat (S t) - 256) with (256 * Z.of_nat t) by lia. by apply IH.
Qed.

(** ** One block *)

Lemma dir_lookup_spec n : ∀ j blk nm,
  match dir_lookup n j blk nm with
  | Some j' => j ≤ j' < j + Z.of_nat n ∧ has_name nm (dir_entry blk j') ∧
      ∀ t, j ≤ t < j' → ¬ has_name nm (dir_entry blk t)
  | None => ∀ t, j ≤ t < j + Z.of_nat n → ¬ has_name nm (dir_entry blk t)
  end.
Proof.
  induction n as [|n IH]; intros j blk nm; cbn [dir_lookup]; [lia|].
  destruct (strcmp_eq (name (dir_entry blk j)) nm) eqn:Hj.
  - apply strcmp_eq_true in Hj. split_and!; [lia|lia|done|lia].
  - apply strcmp_eq_false in Hj. specialize (IH (j + 1) blk nm).
    destruct (dir_lookup n (j + 1) blk nm) as [j'|].
    + destruct IH as (Hr & Hh & Hn). split_and!; [lia|lia|done|].
      intros t Ht. destruct (decide (t = j)) as [->|]; [done|]. apply Hn. lia.
    + intros t Ht. destruct (decide (t = j)) as [->|]; [done|]. apply IH. lia.
Qed.

(** A block none of whose entries has the name. *)
Definition block_without (nm : bytes) (blk : bytes) : Prop :=
  zlen blk = kBlockSize ∧ ∀ t, 0 ≤ t < 16 → ¬ has_name nm (dir_entry blk t).

Lemma zlen_DirBlock_new : zlen DirBlock_new = kBlockSize.
Proof. reflexivity. Qed.

Lemma DirBlock_new_without nm : cstr nm ≠ [] → block_without nm DirBlock_new.
Proof.
  intros Hnm. split; [done|]. intros t Ht. unfold has_name.
  assert (He : cstr (name (dir_entry DirBlock_new t)) = []); [|congruence].
  assert (Hc : t = 0 ∨ t = 1 ∨ t = 2 ∨ t = 3 ∨ t = 4 ∨ t = 5 ∨ t = 6 ∨ t = 7 ∨ t = 8 ∨ t = 9 ∨
    t = 10 ∨ t = 11 ∨ t = 12 ∨ t = 13 ∨ t = 14 ∨ t = 15) by lia.
  repeat (destruct Hc as [->|Hc]; [vm_compute; reflexivity|]). subst. vm_compute. reflexivity.
Qed.

(** The buffer after a block of the directory has been read over it. *)
Lemma dir_entry_read es blk i l (t : Z) :
  Forall DirEntry_wf es → zlen blk = kBlockSize → 0 ≤ i → 0 ≤ t < 16 →
  l = Z.min kBlockSize (sizeof_DirEntry * zlen es - kBlockSize * i) → 0 ≤ l →
  dir_entry (splice 0 (slice (kBlockSize * i) l (entries_bytes es)) blk) t =
  match es !! Z.to_nat (16 * i + t) with Some x => x | None => dir_entry blk t end.
Proof.
  intros Hes Hb Hi Ht Hl Hl0. pose proof (zlen_entries es Hes) as Hz.
  unfold dir_entry, sizeof_DirEntry, kBlockSize in *.
  assert (Hzs : zlen (slice (4096 * i) l (entries_bytes es)) = l) by (apply zlen_slice; lia).
  destruct (es !! Z.to_nat (16 * i + t)) as [x|] eqn:Hx.
  - pose proof (lookup_lt_Some _ _ _ Hx) as Hlt. unfold zlen in Hz, Hl.
    assert (Hsl : slice (t * 256) 256 (splice 0 (slice (4096 * i) l (entries_bytes es)) blk) = DirEntry_encode x).
    { rewrite <- (slice_entries es (Z.to_nat (16 * i + t)) x Hes Hx). unfold sizeof_DirEntry.
      assert (Hcut : slice 0 l (splice 0 (slice (4096 * i) l (entries_bytes es)) blk) =
        slice (4096 * i) l (entries_bytes es)).
      { rewrite <- Hzs at 1. apply slice_splice_eq; lia. }
      replace (t * 256) with (0 + t * 256) by lia.
      rewrite <- (slice_slice 0 l (t * 256) 256) by lia. rewrite Hcut.
      rewrite slice_slice by lia. f_equal. lia. }
    rewrite Hsl. apply DirEntry_decode_encode. by eapply Forall_lookup_1.
  - apply lookup_ge_None in Hx. f_equal. apply slice_splice_ne; unfold zlen in *; lia.
Qed.

(** ** The scan *)

(** The same inode up to its times. *)
Definition same_but_times (di d : DiskInode) : Prop := ∃ a c t, d = set_times a c t di.

Lemma same_but_times_refl di : same_but_times di di.
Proof. exists (access_time di), (change_time di), (modify_time di). by destruct di. Qed.

Lemma same_but_times_meta e f di d : same_but_times di d → same_but_times di (update_meta e f d).
Proof. intros (a & c & t & ->). unfold update_meta. simpl. eexists _, _, _. reflexivity. Qed.

Lemma same_but_times_tree di d : same_but_times di d → same_tree di d ∧ size d = size di.
Proof. by intros (a & c & t & ->). Qed.

Lemma same_but_times_attrs di d : same_but_times di d → attrs d = attrs di.
Proof. by intros (a & c & t & ->). Qed.

(** Reading where the file ends gives nothing, if it succeeds. *)
Lemma read_past_end e (m : store) d off len :
  is_u32 (size d) → size d ≤ off → 0 < len → off + len < 2 ^ 32 →
  ∃ r, DiskInode_read_data e off len (d, m) = (r, (update_meta e 1 d, m)) ∧
    (r = None ∨ r = Some (0, []) ∧ off = size d).
Proof.
  intros Hu Hoff Hlen Hend. unfold is_u32, kBlockSize in *. unfold DiskInode_read_data.
  rewrite (bind_Some _ _ (d, m) tt (update_meta e 1 d, m)) by done.
  rewrite (bind_Some _ _ (update_meta e 1 d, m) (update_meta e 1 d) (update_meta e 1 d, m)) by done.
  rewrite (proj2 (Z.eqb_neq len 0)) by lia. change (size (update_meta e 1 d)) with (size d).
  destruct (Z.ltb_spec (size d) off); [eexists; split; [reflexivity|by left]|].
  assert (off = size d) as -> by lia. cbv zeta.
  assert (Hc : clamp_len (size d) (size d) len = 0).
  { unfold clamp_len. rewrite (u32_small (size d + len)) by (unfold is_u32; lia).
    destruct (Z.leb_spec (size d) (size d + len)); [|lia]. by rewrite Z.sub_diag. }
  rewrite Hc, Z.add_0_r, (u32_small (size d)), Z.eqb_refl by (unfold is_u32; lia).
  unfold bind, on_snd. cbn [fst snd].
  pose proof (read_blk_steps eq (update_meta e 1 d) (blk_of (size d)) m) as Hr.
  destruct (read_blk _ _ m) as [[x|] m']; simpl in Hr; subst m'.
  - eexists. split; [reflexivity|]. right. split; [|done]. by rewrite Z.sub_diag.
  - eexists. split; [reflexivity|by left].
Qed.

Record dir_data (m : store) (di : DiskInode) (es : list DirEntry) : Prop := {
  dd_entries : Forall DirEntry_wf es;
  dd_tree : tree_ok m di (file_shape (data_blocks (size di)));
  dd_size : size di = sizeof_DirEntry * zlen es ∧ size di < 2 ^ 31;
  dd_bytes : content m di = entries_bytes es;
}.

Lemma dir_data_blocks m di es :
  dir_data m di es → is_u32 (size di) ∧ zlen es ≤ 16 * data_blocks (size di) ∧
  0 ≤ data_blocks (size di) ≤ 2 ^ 19 ∧
  (∀ i, 0 ≤ i < data_blocks (size di) → kBlockSize * i < size di).
Proof.
  intros [_ _ [Hs Hlt] _]. pose proof (zlen_nonneg es). unfold sizeof_DirEntry in Hs.
  assert (Hu : is_u32 (size di)) by (unfold is_u32; lia).
  destruct (data_blocks_eq (size di)) as (_ & Hr & Hb); [unfold is_u32 in Hu; lia|].
  unfold kBlockSize in *. split_and!; [done|lia|lia|lia|]. intros i Hi. nia.
Qed.

Section scan.
Context (e : env) (m : store) (di : DiskInode) (es : list DirEntry) (nm : bytes).
Context (Hdir : dir_data m di es).
Abbreviation n := (data_blocks (size di)).

Lemma read_dir_blk d i :
  same_but_times di d → 0 ≤ i < n →
  let l := Z.min kBlockSize (sizeof_DirEntry * zlen es - kBlockSize * i) in
  0 ≤ l ∧ DiskInode_read_data e (u32 (i * kBlockSize)) kBlockSize (d, m) =
    (Some (l, slice (kBlockSize * i) l (entries_bytes es)), (update_meta e 1 d, m)).
Proof.
  intros Hd Hi l. destruct (dir_data_blocks m di es Hdir) as (Hu & Hk & Hn & Hlast).
  destruct (same_but_times_tree di d Hd) as [Hst Hsz]. destruct Hdir as [_ Ht [Hs Hlt] Hc].
  specialize (Hlast i Hi). split; [unfold l, kBlockSize in *; lia|].
  assert (Hcap : size di ≤ kBlockSize * n).
  { destruct (data_blocks_eq (size di)) as (_ & _ & Hb); [unfold is_u32 in Hu; lia|lia]. }
  rewrite u32_small by (unfold is_u32, kBlockSize in *; lia).
  replace (i * kBlockSize) with (kBlockSize * i) by lia.
  rewrite (DiskInode_read_data_spec e m d (file_shape n)); try (rewrite ?Hsz; simpl; unfold kBlockSize in *; lia);
    [|by apply (same_tree_ok m di)].
  assert (El : Z.min kBlockSize (size d - kBlockSize * i) = l) by (rewrite Hsz, Hs; done).
  rewrite El. cbn [s_data file_shape]. rewrite (same_tree_bytes m di d) by done.
  rewrite <- Hc, slice_content; [done|unfold kBlockSize; lia|unfold l, kBlockSize in *; lia|lia].
Qed.

Lemma dir_scan_spec N : ∀ i blk d,
  0 ≤ i → n ≤ i + Z.of_nat N → i + Z.of_nat N < 2 ^ 20 →
  block_without nm blk → same_but_times di d →
  (∀ (t : nat) x, Z.of_nat t < 16 * i → es !! t = Some x → ¬ has_name nm x) →
  i ≤ n ∨ size di = kBlockSize * n →
  wp (dir_scan e N i blk nm)
    (λ r s, s.2 = m ∧ same_but_times di s.1 ∧
       match r with
       | None => find_entry nm es = None ∧ (i + Z.of_nat N ≤ n ∨ size di = kBlockSize * n)
       | Some (i', j, blk') => ∃ t x, find_entry nm es = Some (t, x) ∧
           Z.of_nat t = 16 * i' + j ∧ 0 ≤ i' ∧ 0 ≤ j < 16 ∧ dir_entry blk' j = x
       end)
    (λ s, s.2 = m ∧ find_entry nm es = None ∧ n < i + Z.of_nat N) (d, m).
Proof.
  destruct (dir_data_blocks m di es Hdir) as (Hu & Hk & Hn & Hlast).
  induction N as [|N IH]; intros i blk d Hi Hcov Hmax [Hbl Hbw] Hd Hbefore Hpast.
  { apply wp_ret. split_and!; [done|done| |by rewrite Z.add_0_r]. apply list_find_None, Forall_lookup.
    intros t x Ht. apply (Hbefore t); [|done]. apply lookup_lt_Some in Ht. unfold zlen in *. lia. }
  cbn [dir_scan]. destruct (decide (i < n)) as [Hin|Hin].
  - destruct (read_dir_blk d i Hd ltac:(lia)) as [Hl Hread].
    set (l := Z.min _ _) in *. apply wp_bind. eapply wp_eq; [exact Hread|]. cbn [fst snd].
    apply wp_bind. eapply wp_eq; [by apply check_len_ok|]. cbv zeta.
    set (blk' := splice 0 _ blk).
    assert (Hent : ∀ t, 0 ≤ t < 16 → dir_entry blk' t =
      match es !! Z.to_nat (16 * i + t) with Some x => x | None => dir_entry blk t end).
    { intros t Ht. apply dir_entry_read; try done. apply Hdir. }
    pose proof (dir_lookup_spec (Z.to_nat kDirEntries) 0 blk' nm) as Hlk.
    change (Z.of_nat (Z.to_nat kDirEntries)) with 16 in Hlk.
    destruct (dir_lookup _ 0 blk' nm) as [j|].
    + destruct Hlk as (Hj & Hh & Hfirst). apply wp_ret. cbn [fst snd].
      split_and!; [done|by apply same_but_times_meta|].
      rewrite Hent in Hh by lia. destruct (es !! Z.to_nat (16 * i + j)) as [x|] eqn:Hx.
      2:{ exfalso. by apply (Hbw j). }
      exists (Z.to_nat (16 * i + j)), x. split_and!; [|lia|lia|lia|lia|by rewrite Hent, Hx by lia].
      apply list_find_Some. split_and!; [done|done|]. intros t y Ht Hlt.
      destruct (decide (Z.of_nat t < 16 * i)); [by eapply Hbefore|].
      specialize (Hfirst (Z.of_nat t - 16 * i) ltac:(lia)). rewrite Hent in Hfirst by lia.
      replace (Z.to_nat (16 * i + (Z.of_nat t - 16 * i))) with t in Hfirst by lia.
      by rewrite Ht in Hfirst.
    + replace (i + Z.of_nat (S N)) with (i + 1 + Z.of_nat N) by lia.
      apply IH; [lia|lia|lia| |by apply same_but_times_meta| |by left; lia].
      * split; [|intros t Ht; apply Hlk; lia]. unfold blk'. rewrite zlen_splice; [done|lia|].
        pose proof (zlen_entries es (dd_entries _ _ _ Hdir)) as Hz. unfold sizeof_DirEntry, kBlockSize in *.
        rewrite zlen_slice by lia. lia.
      * intros t x Ht Hx. destruct (decide (Z.of_nat t < 16 * i)); [by eapply Hbefore|].
        specialize (Hlk (Z.of_nat t - 16 * i) ltac:(lia)). rewrite Hent in Hlk by lia.
        replace (Z.to_nat (16 * i + (Z.of_nat t - 16 * i))) with t in Hlk by lia.
        by rewrite Hx in Hlk.
  - assert (Hnone : find_entry nm es = None).
    { apply list_find_None, Forall_lookup. intros t x Ht. apply (Hbefore t); [|done].
      apply lookup_lt_Some in Ht. unfold zlen in *. lia. }
    destruct (same_but_times_tree di d Hd) as [Hst Hsz].
    destruct (data_blocks_eq (size di)) as (_ & _ & Hb); [unfold is_u32 in Hu; lia|].
    destruct (read_past_end e m d (u32 (i * kBlockSize)) kBlockSize) as (r & Hread & Hr); try done.
    { by rewrite Hsz. }
    { rewrite u32_small by (unfold is_u32, kBlockSize in *; lia). unfold kBlockSize in *. lia. }
    { rewrite u32_small by (unfold is_u32, kBlockSize in *; lia). unfold kBlockSize in *. lia. }
    apply wp_bind. unfold wp. rewrite Hread. destruct Hr as [->|[-> Hend]]; [cbn [fst snd]; split_and!; [done|done|lia]|].
    cbn [fst snd]. apply wp_bind. eapply wp_eq; [by apply check_len_ok|]. cbv zeta.
    assert (Hsame : splice 0 [] blk = blk).
    { unfold splice. simpl. by rewrite drop_0. }
    rewrite Hsame. pose proof (dir_lookup_spec (Z.to_nat kDirEntries) 0 blk nm) as Hlk.
    change (Z.of_nat (Z.to_nat kDirEntries)) with 16 in Hlk.
    destruct (dir_lookup _ 0 blk nm) as [j|].
    { destruct Hlk as (Hj & Hh & _). exfalso. by apply (Hbw j ltac:(lia)). }
    assert (Hfull : size di = kBlockSize * n).
    { rewrite Hsz, u32_small in Hend by (unfold is_u32, kBlockSize in *; lia). unfold kBlockSize in *. lia. }
    replace (i + Z.of_nat (S N)) with (i + 1 + Z.of_nat N) by lia.
    apply IH; [lia|lia|lia|done|by apply same_but_times_meta| |by right].
    intros t x Ht Hx. apply list_find_None in Hnone. by eapply Forall_lookup_1 in Hnone.
Qed.
End scan.

(** ** [find] *)

Lemma total_blocks_cover sz : 0 ≤ sz < 2 ^ 31 →
  data_blocks sz ≤ total_blocks sz < 2 ^ 20.
Proof.
  intros Hsz. destruct (data_blocks_eq sz) as (Hd & Hr & Hb); [lia|].
  rewrite total_blocks_eq by lia. unfold nodes, file_shape, boundary. cbn [s_data s_ind1 s_ind2 s_sub].
  assert (Hsub : 0 ≤ subs (data_blocks sz) ≤ 1024).
  { apply subs_bound. change MAX_BLOCK_SIZE with 1049623. lia. }
  unfold kBlockSize in *.
  destruct (23 <? _), (1047 <? _), (_ =? 23), (_ =? 1047); simpl; lia.
Qed.

Lemma scan_dir_spec e m di es nm :
  dir_data m di es → cstr nm ≠ [] →
  wp (scan_dir e nm)
    (λ r s, s.2 = m ∧ same_but_times di s.1 ∧
       match r with
       | None => find_entry nm es = None ∧
           (total_blocks (size di) ≤ data_blocks (size di) ∨ size di = kBlockSize * data_blocks (size di))
       | Some (i', j, blk') => ∃ t x, find_entry nm es = Some (t, x) ∧
           Z.of_nat t = 16 * i' + j ∧ 0 ≤ i' ∧ 0 ≤ j < 16 ∧ dir_entry blk' j = x
       end)
    (λ s, s.2 = m ∧ find_entry nm es = None ∧ data_blocks (size di) < total_blocks (size di)) (di, m).
Proof.
  intros Hd Hnm. unfold scan_dir. apply wp_bind. eapply wp_eq; [done|]. cbn [fst snd].
  pose proof (total_blocks_cover (size di)) as Ht.
  destruct (dir_data_blocks m di es Hd) as ([Hu _] & _ & Hn & _). destruct (dd_size _ _ _ Hd) as [_ Hlt].
  pose proof (dir_scan_spec e m di es nm Hd (Z.to_nat (total_blocks (size di))) 0 DirBlock_new di) as Hs.
  rewrite Z.add_0_l, Z2Nat.id in Hs by lia.
  apply Hs; [lia|lia|lia|by apply DirBlock_new_without|apply same_but_times_refl|lia|left; lia].
Qed.

Lemma Inode_find_spec e fs m pos di es nm :
  pos_ok m pos → inode_at m pos = Some di → type_ di = kDirectory → dir_data m di es → cstr nm ≠ [] →
  Inode_find e fs pos nm m =
    ((λ x, getDiskInodePos fs (inode x.2)) <$> find_entry nm es, m).
Proof.
  intros Hpos Hat Hty Hd Hnm. destruct (Inode_read_inode_spec m pos Hpos) as (di' & Hat' & _ & Hrun).
  assert (di' = di) as -> by congruence. unfold Inode_find.
  rewrite (bind_Some _ _ _ _ _ Hrun). rewrite Hty.
  change (negb (kDirectory =? kDirectory)) with false. cbv iota.
  pose proof (scan_dir_spec e m di es nm Hd Hnm) as Hs. unfold wp in Hs. unfold bind, with_inode.
  destruct (scan_dir e nm (di, m)) as [[[[[i j] blk]|]|] [d' m']]; simpl in Hs.
  - destruct Hs as (-> & _ & t & x & -> & _ & _ & _ & <-). done.
  - by destruct Hs as (-> & _ & -> & _).
  - by destruct Hs as (-> & -> & _).
Qed.
