(* ===== verification/Touched.v ===== *)
(** * What an operation leaves alone

    An operation on a file or directory changes the inodes it is given,
    the blocks of the trees it works on, the data bitmap, and blocks that
    were free.  [only_touched] states this so that operations compose, and
    a file none of whose blocks is in the set survives it unchanged. *)

From S2P Require Import Prelude Bytes Config BlkIface Bitmap DataArea Layout InodeIO DiskInode Sbfs Inode Frame FileMap FileData FileGrow FileShrink FileResize FileIO.

(** From [m] to [m'], only the inodes at [ps], the blocks of [T], the data
    bitmap [bm] and free blocks have changed. *)
Record only_touched (bm : Bitmap) (ps : list Position) (T : Z → Prop) (m m' : store) : Prop := {
  ot_area : area_ok m' bm;
  ot_blocks b : ¬ in_bitmap bm b → (∀ p, p ∈ ps → b ≠ block_id p) → (in_area bm b → used m bm b) →
    ¬ T b → m' !! b = m !! b;
  ot_inodes q : ¬ in_bitmap bm (block_id q) → ¬ in_area bm (block_id q) → ¬ T (block_id q) →
    (∀ p, p ∈ ps → pos_disjoint p q) → 0 ≤ block_offset q → inode_at m' q = inode_at m q;
  ot_used b : used m bm b → ¬ T b → used m' bm b;
  ot_dom b : is_Some (m' !! b) ↔ is_Some (m !! b);
}.

Lemma only_touched_refl bm ps T m : area_ok m bm → only_touched bm ps T m m.
Proof. by split. Qed.

Lemma only_touched_weaken bm ps ps' T T' m m' :
  (∀ p, p ∈ ps → p ∈ ps') → (∀ b, T b → T' b) → only_touched bm ps T m m' → only_touched bm ps' T' m m'.
Proof.
  intros Hp HT [A B I U D]. split; [done| | | |done].
  - intros b Hb Hps Hu Ht. apply B; auto.
  - intros q Hb Ha Ht Hq H0. apply I; auto.
  - intros b Hb Ht. apply U; auto.
Qed.

Lemma only_touched_trans bm ps T T2 m1 m2 m3 :
  only_touched bm ps T m1 m2 → only_touched bm ps T2 m2 m3 →
  (∀ b, T2 b → T b ∨ in_area bm b ∧ ¬ used m1 bm b) → only_touched bm ps T m1 m3.
Proof.
  intros [A1 B1 I1 U1 D1] [A2 B2 I2 U2 D2] HT.
  assert (HT' : ∀ b, (in_area bm b → used m1 bm b) → ¬ T b → ¬ T2 b).
  { intros b Hu Ht [?|[Ha Hn]]%HT; [done|]. by apply Hn, Hu. }
  split; [done| | | |].
  - intros b Hb Hps Hu Ht. rewrite B2; [by apply B1|done|done| |by apply HT'].
    intros Ha. by apply U1; [apply Hu|].
  - intros q Hb Ha Ht Hq H0. rewrite I2; [by apply I1|done|done| |done|done].
    by apply HT'.
  - intros b Hb Ht. apply U2; [by apply U1|]. by apply HT'.
  - intros b. by rewrite D2.
Qed.

(** ** Files elsewhere *)

Section untouched.
Context (bm : Bitmap) (ps : list Position) (T : Z → Prop) (m m' : store).
Context (Ht : only_touched bm ps T m m') (Hps : ∀ p, p ∈ ps → ¬ in_area bm (block_id p)).

Lemma used_untouched b : used m bm b → area_ok m bm → ¬ T b → m' !! b = m !! b.
Proof.
  intros Hu Ha Hn. apply (ot_blocks _ _ _ _ _ Ht); [|intros p Hp ->|done|done].
  - eapply in_area_not_bitmap; [done|]. apply Hu.
  - by apply (Hps p Hp), Hu.
Qed.

Lemma own_untouched di sh :
  file_own m bm di sh → (∀ x, live sh x → ¬ T (node_id m di x)) →
  file_own m' bm di sh ∧
  ∀ x, live sh x → node_id m' di x = node_id m di x ∧ blk_at m' (node_id m di x) = blk_at m (node_id m di x).
Proof.
  intros Ho HT. pose proof (o_tree _ _ _ _ Ho) as Htree.
  assert (Hblk : ∀ x, live sh x → m' !! node_id m di x = m !! node_id m di x).
  { intros x Hx. apply used_untouched; [by apply (o_used _ _ _ _ Ho)|apply Ho|by apply HT]. }
  assert (Hat : ∀ x, live sh x → blk_at m' (node_id m di x) = blk_at m (node_id m di x)).
  { intros x Hx. unfold blk_at. by rewrite Hblk. }
  assert (Hids : ∀ x, live sh x → node_id m' di x = node_id m di x).
  { intros x Hx. apply (node_id_frame _ _ _ sh); [apply Htree|done|]. auto. }
  split; [|by auto]. destruct Htree as [Hm Hd Hi Hsh Hin Hinj]. destruct Ho as [_ Ha Hu H1 H2].
  split; [split|apply Ht| |done|done]; try done.
  - apply (ot_area _ _ _ _ _ Ht).
  - intros x Hx. rewrite Hids by done. apply (ot_dom _ _ _ _ _ Ht). by apply Hin.
  - intros x y Hx Hy. rewrite !Hids by done. by apply Hinj.
  - intros x Hx. rewrite Hids by done. apply (ot_used _ _ _ _ _ Ht); auto.
Qed.

Lemma content_untouched di :
  file_own m bm di (file_shape (data_blocks (size di))) → (∀ b, tree_blocks m di b → ¬ T b) →
  content m' di = content m di ∧ (∀ b, tree_blocks m' di b ↔ tree_blocks m di b).
Proof.
  intros Ho HT. destruct (own_untouched di _ Ho) as [_ Hs]; [intros x Hx; apply HT; by exists x|].
  split.
  - unfold content. f_equal. apply file_bytes_ext. intros i Hi.
    destruct (Hs (NData i) Hi) as [-> ->]. done.
  - intros b. split; intros (x & Hx & ->); exists x; (split; [done|]); by destruct (Hs x Hx).
Qed.

Lemma tree_untouched di :
  file_own m bm di (file_shape (data_blocks (size di))) → (∀ b, tree_blocks m di b → ¬ T b) →
  file_own m' bm di (file_shape (data_blocks (size di))) ∧ content m' di = content m di ∧
  ∀ b, tree_blocks m' di b ↔ tree_blocks m di b.
Proof.
  intros Ho HT. destruct (content_untouched di Ho HT). split; [|done].
  apply own_untouched; [done|]. intros x Hx. apply HT. by exists x.
Qed.

(** A file at a position of its own, with blocks of its own, is as before. *)
Lemma file_untouched q dq :
  file_at m bm q dq → (∀ p, p ∈ ps → pos_disjoint p q) → ¬ T (block_id q) →
  (∀ b, tree_blocks m dq b → ¬ T b) →
  file_at m' bm q dq ∧ content m' dq = content m dq.
Proof.
  intros [Hpos Hat [Hnb Hna] Ho] Hd HTq HT. split; [|by apply content_untouched].
  split; [| |done|].
  - destruct Hpos as (? & ? & ? & ?). split_and!; try done. by apply (ot_dom _ _ _ _ _ Ht).
  - rewrite (ot_inodes _ _ _ _ _ Ht); try done. apply Hpos.
  - apply own_untouched; [done|]. intros x Hx. apply HT. by exists x.
Qed.
End untouched.

(** ** Elementary steps *)

Lemma touched_inode m bm p di :
  area_ok m bm → pos_ok m p → DiskInode_wf di → ¬ in_bitmap bm (block_id p) →
  ∃ m', Inode_write_inode p di m = (Some tt, m') ∧ inode_at m' p = Some di ∧ pos_ok m' p ∧
    only_touched bm [p] (λ _, False) m m' ∧ free_blocks m' bm = free_blocks m bm.
Proof.
  intros Ha Hp Hd Hnb. assert (Hm : store_wf m) by apply Ha.
  destruct (Inode_write_inode_spec m p di Hm Hp Hd) as (blk & Hb & Hrun & Hat & Hwf).
  assert (Hother : ∀ q, pos_disjoint p q → 0 ≤ block_offset q →
    inode_at (Inode_write_inode p di m).2 q = inode_at m q) by (intros; by apply Inode_write_inode_other).
  rewrite Hrun in Hat, Hwf, Hother. cbn [snd] in *. set (m' := <[_ := _]> m) in *.
  assert (Hin : is_Some (m !! block_id p)) by (by eexists).
  assert (Hv : blk_wf (splice (block_offset p) (DiskInode_encode di) blk)).
  { destruct (Hwf (block_id p) (splice (block_offset p) (DiskInode_encode di) blk)) as [_ ?]; [|done].
    unfold m'. by rewrite lookup_insert_eq. }
  exists m'. split_and!; [done|done| | |by apply insert_free_blocks].
  - destruct Hp as (? & ? & ? & ?). split_and!; try done. by apply insert_dom.
  - split; [| | | |intros b; by apply insert_dom].
    + apply insert_area; try done. apply Hp.
    + intros b _ Hps _ _. unfold m'. rewrite lookup_insert_ne; [done|]. intros E. apply (Hps p); [by left|done].
    + intros q _ _ _ Hq H0. apply Hother; [|done]. apply Hq. by left.
    + intros b Hb' _. by apply insert_used.
Qed.

Lemma append_touched e fs m di buf :
  let bm := data_bitmap_ fs in
  DiskInode_wf di → file_own m bm di (file_shape (data_blocks (size di))) →
  0 < zlen buf → size di + zlen buf < 2 ^ 31 →
  needed (data_blocks (size di)) (data_blocks (size di + zlen buf)) ≤ free_blocks m bm →
  ∃ m2 di2, append e fs buf (di, m) = (Some tt, (di2, m2)) ∧ DiskInode_wf di2 ∧
    file_own m2 bm di2 (file_shape (data_blocks (size di2))) ∧
    size di2 = size di + zlen buf ∧ attrs di2 = attrs di ∧ content m2 di2 = content m di ++ buf ∧
    only_touched bm [] (tree_blocks m di) m m2 ∧
    free_blocks m2 bm = free_blocks m bm - needed (data_blocks (size di)) (data_blocks (size di2)) ∧
    retree bm m di m2 di2.
Proof.
  intros bm Hwf Ho Hbuf Hmax Hfree.
  destruct (append_spec e fs m di buf Hwf Ho Hbuf Hmax Hfree)
    as (m2 & di2 & Hrun & Hwf2 & Ho2 & Hs2 & Hat2 & Hc2 & Hfr & Hu & Hct & Hrt).
  exists m2, di2. split_and!; try done.
  assert (Hdom : ∀ b, is_Some (m2 !! b) ↔ is_Some (m !! b)).
  { pose proof (append_steps e fs buf (di, m)) as Hs. rewrite Hrun in Hs. apply Hs. }
  assert (Hblk : ∀ b, ¬ in_bitmap bm b → (in_area bm b → used m bm b) → ¬ tree_blocks m di b → m2 !! b = m !! b).
  { intros b Hb Hub Ht. apply Hfr; [done|done|]. intros x Hx ->. apply Ht. by exists x. }
  split; [apply Ho2|auto| |auto|done].
  intros q Hb Ha Ht _ _. unfold inode_at. rewrite Hblk; [done|done|by intros|done].
Qed.

(** Overwriting bytes inside a file. *)
Lemma write_touched e m bm di off buf :
  DiskInode_wf di → file_own m bm di (file_shape (data_blocks (size di))) →
  0 ≤ off → 0 < zlen buf → off + zlen buf ≤ size di → size di < 2 ^ 31 →
  ∃ m2, let di2 := update_meta e 3 di in
    DiskInode_write_data e off buf (zlen buf) (di, m) = (Some (zlen buf), (di2, m2)) ∧
    file_own m2 bm di2 (file_shape (data_blocks (size di2))) ∧
    content m2 di2 = overwrite off buf (content m di) ∧
    only_touched bm [] (tree_blocks m di) m m2 ∧
    same_blocks_of bm m di m2 di2.
Proof.
  intros Hwf Ho Hoff Hbuf Hend Hlt. cbv zeta. set (di2 := update_meta e 3 di).
  pose proof (wf_size _ Hwf) as Hu. unfold is_u32 in Hu.
  destruct (data_blocks_eq (size di) Hu) as (_ & Hr & Hb).
  destruct (DiskInode_write_data_spec e m di _ off buf (zlen buf) (o_tree _ _ _ _ Ho)) as (m2 & Hrun & Hw);
    simpl; try (unfold kBlockSize in *; lia).
  replace (Z.min (zlen buf) (size di - off)) with (zlen buf) in * by lia.
  rewrite slice_all in Hw.
  destruct (extended_write e m bm di m di off buf (zlen buf) Hwf Ho) as (m2' & x & Hx & Hrun' & Ho2 & Hc & Hfr & _ & Hf2 & _);
    [|lia|lia|lia|lia|done|].
  { split; [done|done|]. exists di. split; [done|by apply grown_refl]. }
  rewrite (no_gap x _ _ Hx), app_nil_r in Hc by lia.
  rewrite Hrun in Hrun'. injection Hrun' as <-. destruct (wrote_own bm m di _ off buf m2 Ho Hw) as (_ & Hus & _).
  pose proof Hw as [[_ I F Dm] _].
  assert (Hfr' : ∀ b, ¬ tree_blocks m di b → m2 !! b = m !! b).
  { intros b Ht. apply F. intros i Hi ->. apply Ht. by exists (NData i). }
  exists m2. split; [done|split; [done|split; [done|split; [|split; [|by split_and!]]]]].
  - split; [apply Ho2|auto| |intros b Hb' _; by apply Hus|done].
    intros q _ _ Ht _ _. unfold inode_at. by rewrite Hfr'.
  - intros b. split; intros (y & Hy & ->); exists y; (split; [done|]).
    + rewrite (same_tree_id m2 di di2) by done. by apply I.
    + rewrite (same_tree_id m2 di di2) by done. symmetry. by apply I.
Qed.

(** ** Inodes in their slots *)

(** An inode that can be written without hurting a file: outside the bitmap
    and the data area. *)
Definition inode_slot (m : store) (bm : Bitmap) (p : Position) : Prop :=
  pos_ok m p ∧ ¬ in_bitmap bm (block_id p) ∧ ¬ in_area bm (block_id p).

Lemma file_at_slot m bm pos di : file_at m bm pos di → inode_slot m bm pos.
Proof. by intros [Hp _ [] _]. Qed.

Lemma slot_untouched bm ps T m m' p :
  only_touched bm ps T m m' → inode_slot m bm p → inode_slot m' bm p.
Proof.
  intros Ht [(Hu & Hin & Ho) Hout]. split; [|done]. split_and!; [done| |lia|lia].
  by apply (ot_dom _ _ _ _ _ Ht).
Qed.

Lemma tree_in_area m bm di b :
  file_own m bm di (file_shape (data_blocks (size di))) → tree_blocks m di b → in_area bm b ∧ used m bm b.
Proof. intros Ho (x & Hx & ->). pose proof (o_used _ _ _ _ Ho x Hx) as Hu. split; [apply Hu|done]. Qed.

(** Writing an inode leaves files alone, those of the same block included. *)
Section store_inode.
Context (m : store) (bm : Bitmap) (p : Position) (v : DiskInode).
Context (Ha : area_ok m bm) (Hp : inode_slot m bm p) (Hv : DiskInode_wf v).

Lemma write_slot :
  ∃ m', Inode_write_inode p v m = (Some tt, m') ∧ inode_at m' p = Some v ∧ inode_slot m' bm p ∧
    only_touched bm [p] (λ _, False) m m' ∧ free_blocks m' bm = free_blocks m bm ∧
    ∀ di, file_own m bm di (file_shape (data_blocks (size di))) →
      file_own m' bm di (file_shape (data_blocks (size di))) ∧ content m' di = content m di ∧
      ∀ b, tree_blocks m' di b ↔ tree_blocks m di b.
Proof.
  destruct Hp as (Hpos & Hnb & Hna).
  destruct (touched_inode m bm p v Ha Hpos Hv Hnb) as (m' & Hrun & Hat & Hpos' & Ht & Hf).
  assert (Hps : ∀ q, q ∈ [p] → ¬ in_area bm (block_id q)) by (by intros q ->%list_elem_of_singleton).
  exists m'. split_and!; try done. intros di Ho. split.
  - apply (own_untouched bm [p] (λ _, False) m m' Ht Hps di _ Ho). by intros x _ [].
  - apply (content_untouched bm [p] (λ _, False) m m' Ht Hps di Ho). by intros b _ [].
Qed.
End store_inode.

Lemma slot_read m bm p : inode_slot m bm p → ∃ di, inode_at m p = Some di ∧ DiskInode_wf di ∧
  Inode_read_inode p m = (Some di, m).
Proof. intros [Hp _]. by apply Inode_read_inode_spec. Qed.

Lemma read_at m bm p di :
  inode_slot m bm p → inode_at m p = Some di → Inode_read_inode p m = (Some di, m) ∧ DiskInode_wf di.
Proof. intros Hp Hat. destruct (slot_read m bm p Hp) as (di' & Hat' & ? & ?). by simplify_eq. Qed.

Lemma write_bitmap m bm p di m' c :
  Inode_write_inode p di m = (Some tt, m') → inode_slot m bm p → in_bitmap bm c → store_wf m → DiskInode_wf di →
  m' !! c = m !! c.
Proof.
  intros Hrun (Hp & Hnb & _) Hc Hm Hd. destruct (Inode_write_inode_spec m p di Hm Hp Hd) as (blk & _ & Hrun' & _).
  rewrite Hrun in Hrun'. injection Hrun' as ->. rewrite lookup_insert_ne; [done|]. by intros <-.
Qed.
