(* ===== verification/FileTrunc.v ===== *)
(** * Cutting a file ([DiskInode::resize], [Inode::resize])

    Making a file shorter, or keeping its length: the bytes that remain
    stay, the blocks past the end are freed, exactly those, and the inode
    is written back before the blocks are freed. *)

From S2P Require Import Prelude Bytes Config BlkIface Bitmap DataArea Layout InodeIO DiskInode Sbfs Inode Frame FileMap FileData FileGrow FileShrink FileResize FileIO Touched.

Lemma file_bytes_prefix m di a b :
  store_wf m → 0 ≤ a ≤ b → slice 0 (kBlockSize * a) (file_bytes m di b) = file_bytes m di a.
Proof.
  intros Hm Hab. assert (Hsplit : file_bytes m di b = file_bytes m di a ++
     (seqZ a (b - a) ≫= λ i, blk_at m (node_id m di (NData i)))).
  { unfold file_bytes. rewrite <- bind_app. f_equal.
    replace b with (a + (b - a)) at 1 by lia. rewrite seqZ_app by lia. by rewrite Z.add_0_l. }
  pose proof (zlen_file_bytes m di a Hm ltac:(lia)) as Hz.
  rewrite Hsplit, slice_app_l by (unfold kBlockSize in *; lia). by rewrite <- Hz, slice_all.
Qed.

(** What cutting [d] to [d'] means. *)
Record cut_to (bm : Bitmap) (pos : option Position) (m : store) (d : DiskInode) (sz : Z)
    (m' : store) (d' : DiskInode) : Prop := {
  ct_wf : DiskInode_wf d';
  ct_size : size d' = sz;
  ct_attrs : attrs d' = attrs d;
  ct_own : file_own m' bm d' (file_shape (data_blocks sz));
  ct_content : content m' d' = slice 0 sz (content m d);
  ct_touched : only_touched bm (option_list pos) (tree_blocks m d) m m';
  ct_tree b : tree_blocks m' d' b → tree_blocks m d b;
  ct_used b : used m' bm b ↔ used m bm b ∧ (tree_blocks m d b → tree_blocks m' d' b);
  ct_inode p : pos = Some p → inode_at m' p = Some d';
  ct_count : free_blocks m' bm + nodes (file_shape (data_blocks sz)) =
    free_blocks m bm + nodes (file_shape (data_blocks (size d)));
}.

Lemma cut_retree bm pos m d sz m' d' :
  file_own m bm d (file_shape (data_blocks (size d))) → cut_to bm pos m d sz m' d' → retree bm m d m' d'.
Proof.
  intros Ho Hc. split; [|intros b; rewrite (ct_used _ _ _ _ _ _ _ Hc)| |].
  - intros b Hb _. by apply (ct_tree _ _ _ _ _ _ _ Hc).
  - split; [by left|]. intros [?|Hb]; [done|]. pose proof (ct_tree _ _ _ _ _ _ _ Hc b Hb).
    split; [by apply (own_tree_used m bm d)|done].
  - rewrite (ct_size _ _ _ _ _ _ _ Hc). apply Hc.
  - apply Hc.
Qed.

Section cut.
Context (e : env) (m : store) (bm : Bitmap) (d : DiskInode) (sz : Z) (pos : option Position).
Context (Hwf : DiskInode_wf d) (Ho : file_own m bm d (file_shape (data_blocks (size d)))).
Context (Hsz : 0 ≤ sz ≤ size d) (Hsmall : data_blocks sz ≤ 1047).
Context (Hpos : ∀ p, pos = Some p → inode_slot m bm p).

Lemma cut_u32 : is_u32 (size d) ∧ is_u32 sz ∧ 0 ≤ data_blocks sz ≤ data_blocks (size d) ∧ sz ≤ kBlockSize * data_blocks sz.
Proof.
  pose proof (wf_size _ Hwf) as Hu. unfold is_u32 in *.
  pose proof (data_blocks_mono sz (size d) ltac:(lia) ltac:(lia)).
  destruct (data_blocks_eq sz) as (_ & Hr & Hb); [lia|]. unfold kBlockSize in *. lia.
Qed.

(** The same number of blocks: the inode is written back and nothing else. *)
Lemma cut_same :
  data_blocks sz = data_blocks (size d) →
  ∃ m' d', DiskInode_resize e bm sz pos (d, m) = (Some tt, (d', m')) ∧ cut_to bm pos m d sz m' d'.
Proof.
  intros Heq. destruct cut_u32 as (Hu & Hu' & _ & Hcap). set (d1 := resized e d sz).
  assert (Hwf1 : DiskInode_wf d1) by by apply wf_resized.
  assert (Ho1 : file_own m bm d1 (file_shape (data_blocks (size d1)))).
  { change (size d1) with sz. rewrite Heq. by apply (same_tree_own m bm d). }
  assert (Hc1 : content m d1 = slice 0 sz (content m d)).
  { unfold content. change (size d1) with sz. rewrite Heq, slice_slice by lia.
    by rewrite (same_tree_bytes m d d1), Z.add_0_l by done. }
  assert (Htb1 : ∀ b, tree_blocks m d1 b ↔ tree_blocks m d b).
  { intros b. unfold tree_blocks. change (size d1) with sz. rewrite Heq.
    split; intros (x & Hx & ->); exists x; (split; [done|]); by rewrite (same_tree_id m d d1). }
  assert (Hstep : ∀ m', wp (write_back_inode pos) (λ _ s, s = (d1, m')) never (d1, m) →
    DiskInode_resize e bm sz pos (d, m) = (Some tt, (d1, m'))).
  { intros m' Hw. cut (wp (DiskInode_resize e bm sz pos) (λ _ s, s = (d1, m')) never (d, m)).
    { by intros ([] & s & -> & ->)%wp_never. }
    apply (resize_step e bm m d sz pos Hu Hu'). by rewrite Heq, Z.eqb_refl. }
  destruct pos as [p|].
  - destruct (write_slot m bm p d1 (o_area _ _ _ _ Ho) (Hpos p eq_refl) Hwf1)
      as (m' & Hrun & Hat & _ & Ht & Hf & Hfiles).
    destruct (Hfiles d1 Ho1) as (Ho' & Hc' & Htb'). exists m', d1. split.
    { apply Hstep. unfold write_back_inode. apply wp_bind. eapply wp_eq; [done|]. cbn [fst snd].
      apply wp_bind, wp_attempt, wp_on_snd. cbn [fst snd]. eapply wp_eq; [exact Hrun|]. by apply wp_ret. }
    split; try done.
    + by rewrite Hc'.
    + eapply only_touched_weaken; [| |exact Ht]; [done|by intros b []].
    + intros b Hb. by apply Htb1, Htb'.
    + intros b. assert (Hus : used m' bm b ↔ used m bm b).
      { apply used_same. intros c Hc. apply (write_bitmap m bm p d1 m'); [done|by apply Hpos|done|apply Ho|done]. }
      rewrite Hus, Htb', Htb1. tauto.
    + intros p' [= <-]. done.
    + rewrite Heq. lia.
  - exists m, d1. split; [apply Hstep; by apply wp_ret|]. split; try done.
    + by apply only_touched_refl, Ho.
    + intros b. apply Htb1.
    + intros b. rewrite Htb1. tauto.
    + by rewrite Heq.
Qed.

(** Fewer blocks. *)
Lemma cut_less :
  data_blocks sz < data_blocks (size d) →
  ∃ m' d', DiskInode_resize e bm sz pos (d, m) = (Some tt, (d', m')) ∧ cut_to bm pos m d sz m' d'.
Proof.
  intros Hlt. destruct cut_u32 as (Hu & Hu' & Hb & Hcap).
  destruct (DiskInode_resize_shrink e bm m d sz pos Hu Hu' Ho Hlt Hsmall) as (m' & d' & Hrun & Hsk);
    [intros p Hp; by apply Hpos|].
  exists m', d'. split; [done|]. set (dx := resized e d sz) in *. set (old := data_blocks (size d)) in *.
  assert (Hox : file_own m bm dx (file_shape old)) by (by apply (same_tree_own m bm d)).
  assert (Hid : ∀ x, node_id m dx x = node_id m d x) by (intros; by apply same_tree_id).
  destruct (attrs_meta _ _ (sk_meta _ _ _ _ _ _ _ _ Hsk)) as [Hat Hs]. change (size dx) with sz in Hs.
  pose proof (sk_own _ _ _ _ _ _ _ _ Hsk) as Ho'. pose proof (o_tree _ _ _ _ Ho') as Ht'.
  assert (Hwf' : DiskInode_wf d').
  { apply (wf_same_meta dx); [by apply wf_resized|apply Hsk|apply Ht'|apply Ht']. }
  assert (Hpb : ∀ p b, pos = Some p → in_area bm b → b ≠ block_id p).
  { intros p b Hp Hb' ->. by apply (Hpos p Hp). }
  assert (Hnt : ∀ b, ¬ tree_blocks m d b → ∀ x, live (file_shape old) x → b ≠ node_id m dx x).
  { intros b Hn x Hx ->. apply Hn. exists x. by rewrite Hid. }
  split; try done.
  - unfold content. rewrite Hs, slice_slice, Z.add_0_l by lia.
    rewrite <- (Z.add_0_l sz) at 1.
    assert (Hf : file_bytes m' d' (data_blocks sz) = file_bytes m d (data_blocks sz)).
    { apply file_bytes_ext. intros i Hi. destruct (sk_ids _ _ _ _ _ _ _ _ Hsk (NData i) Hi) as [Hl ->].
      rewrite Hid. unfold blk_at. rewrite (sk_frame _ _ _ _ _ _ _ _ Hsk); [done| | |].
      - by apply (own_not_bitmap m bm d _ (NData i) Ho).
      - intros p Hp. apply (Hpb p _ Hp). by apply (o_used _ _ _ _ Ho).
      - intros x Hx Hidx. rewrite Hid. intros Heq.
        apply (t_inj _ _ _ (o_tree _ _ _ _ Ho)) in Heq; [|done|done]. by apply (Hidx i). }
    rewrite Z.add_0_l, Hf. fold old.
    rewrite <- (file_bytes_prefix m d (data_blocks sz) old) by (lia || apply (o_area _ _ _ _ Ho)).
    rewrite slice_slice by lia. by rewrite Z.add_0_l.
  - split; [apply Ho'| | | |apply Hsk].
    + intros b Hnb Hps _ Hn. apply (sk_frame _ _ _ _ _ _ _ _ Hsk); [done| |].
      * intros p Hp. apply Hps. rewrite Hp. by left.
      * intros x Hx _. by apply Hnt.
    + intros q Hnb Hna Hn Hd Hq0. unfold inode_at.
      destruct pos as [p|] eqn:Hp; [destruct (decide (block_id q = block_id p)) as [Hqp|Hqp]|].
      * destruct (Hpos p eq_refl) as [(_ & [blk Hblk] & Ho1 & Ho2) _].
        rewrite Hqp, Hblk, (sk_pos _ _ _ _ _ _ _ _ Hsk p blk eq_refl Hblk). simpl. do 2 f_equal.
        destruct (t_store _ _ _ (o_tree _ _ _ _ Ho) _ _ Hblk) as [_ Hbw]. unfold blk_wf in Hbw.
        pose proof (zlen_DiskInode_encode d' (proj1 (wf_direct _ Hwf'))) as Hz.
        destruct (Hd p) as [?|[?|?]]; [by left|congruence|..]; apply slice_splice_ne; lia.
      * rewrite (sk_frame _ _ _ _ _ _ _ _ Hsk); [done|done|by intros p' [= <-]|].
        intros x Hx _. by apply Hnt.
      * rewrite (sk_frame _ _ _ _ _ _ _ _ Hsk); [done|done|done|]. intros x Hx _. by apply Hnt.
    + intros b Hb' Hn. apply (sk_used _ _ _ _ _ _ _ _ Hsk). split; [done|]. intros x Hx _. by apply Hnt.
  - intros b (x & Hx & ->). rewrite Hs in Hx. destruct (sk_ids _ _ _ _ _ _ _ _ Hsk x Hx) as [Hl ->].
    exists x. by rewrite Hid.
  - intros b. rewrite (sk_used _ _ _ _ _ _ _ _ Hsk). split; intros [Hub Hx]; (split; [done|]).
    + intros (x & Hl & ->). destruct (decide (live (file_shape (data_blocks sz)) x)) as [Hl'|Hn].
      * exists x. rewrite Hs. split; [done|]. destruct (sk_ids _ _ _ _ _ _ _ _ Hsk x Hl') as [_ ->]. by rewrite Hid.
      * exfalso. apply (Hx x Hl Hn). by rewrite Hid.
    + intros x Hl Hn ->. rewrite Hid in Hx. destruct Hx as (y & Hy & Heq); [by exists x|].
      rewrite Hs in Hy. destruct (sk_ids _ _ _ _ _ _ _ _ Hsk y Hy) as [Hly Ey]. rewrite Ey, Hid in Heq.
      apply (t_inj _ _ _ (o_tree _ _ _ _ Ho)) in Heq; [|done|done]. by subst.
  - intros p Hp. destruct (Hpos p Hp) as [(_ & [blk Hblk] & Ho1 & Ho2) _]. unfold inode_at.
    rewrite (sk_pos _ _ _ _ _ _ _ _ Hsk p blk Hp Hblk). simpl. f_equal.
    destruct (t_store _ _ _ (o_tree _ _ _ _ Ho) _ _ Hblk) as [_ Hbw]. unfold blk_wf in Hbw.
    pose proof (zlen_DiskInode_encode d' (proj1 (wf_direct _ Hwf'))) as Hz.
    rewrite <- Hz, slice_splice_eq by lia. by apply DiskInode_decode_encode.
  - apply Hsk.
Qed.

Lemma resize_cut :
  ∃ m' d', DiskInode_resize e bm sz pos (d, m) = (Some tt, (d', m')) ∧ cut_to bm pos m d sz m' d'.
Proof.
  destruct cut_u32 as (_ & _ & Hb & _).
  destruct (decide (data_blocks sz = data_blocks (size d))); [by apply cut_same|apply cut_less; lia].
Qed.
End cut.

(** ** [Inode::resize] *)

Lemma grown_touched bm m di dx m1 di1 :
  file_own m bm di (file_shape (data_blocks (size di))) → same_tree di dx →
  grown bm m dx (file_shape (data_blocks (size di))) m1 di1 (file_shape (data_blocks (size di1))) →
  only_touched bm [] (tree_blocks m di) m m1.
Proof.
  intros Ho Hsx Hg. pose proof (g_own _ _ _ _ _ _ _ Hg) as Ho1.
  assert (Hblk : ∀ b, ¬ in_bitmap bm b → (in_area bm b → used m bm b) → ¬ tree_blocks m di b → m1 !! b = m !! b).
  { intros b Hb Hu Hn. apply (grown_frame _ _ _ _ _ _ _ _ Hg Hb Hu). intros x Hx _ ->. apply Hn. exists x.
    by rewrite (same_tree_id m di dx). }
  split; [apply Ho1|auto| |intros b Hb _; by apply (grown_used _ _ _ _ _ _ _ _ Hg)|apply Hg].
  intros q Hb Ha Hn _ _. unfold inode_at. by rewrite Hblk.
Qed.

Lemma Inode_resize_cut e fs m pos di sz :
  let bm := data_bitmap_ fs in
  file_at m bm pos di → type_ di = kFile → 0 ≤ sz ≤ size di → data_blocks sz ≤ 1047 →
  ∃ m' di', Inode_resize e fs pos sz m = (Some tt, m') ∧ file_at m' bm pos di' ∧
    size di' = sz ∧ attrs di' = attrs di ∧ content m' di' = slice 0 sz (content m di) ∧
    only_touched bm [pos] (tree_blocks m di) m m' ∧ retree bm m di m' di' ∧
    ∀ b, used m' bm b ↔ used m bm b ∧ (tree_blocks m di b → tree_blocks m' di' b).
Proof.
  intros bm [Hpos Hat Hout Ho] Hty Hsz Hsmall. pose proof (inode_at_wf _ _ _ Hat) as Hwf.
  assert (Hslot : inode_slot m bm pos) by done.
  destruct (resize_cut e m bm di sz (Some pos) Hwf Ho Hsz Hsmall) as (m' & di' & Hrun & Hc); [by intros p [= <-]|].
  exists m', di'. split_and!; try apply Hc; [| |by apply (cut_retree bm (Some pos) m di sz)].
  - unfold Inode_resize. rewrite (bind_Some _ _ _ _ _ (proj1 (read_at m bm pos di Hslot Hat))), Hty.
    change (negb (kFile =? kFile)) with false. cbv iota. destruct (Z.ltb_spec (size di) sz); [lia|].
    by apply (with_inode_run _ _ _ _ di').
  - destruct (slot_untouched bm _ _ m m' pos (ct_touched _ _ _ _ _ _ _ Hc) Hslot) as (Hp' & _ & _).
    split; [done|by apply Hc|done|]. rewrite (ct_size _ _ _ _ _ _ _ Hc). apply Hc.
Qed.

(** Growing keeps the bytes; what comes after them is what the new blocks
    held. *)
Lemma Inode_resize_grow e fs m pos di sz :
  let bm := data_bitmap_ fs in
  file_at m bm pos di → type_ di = kFile → size di < sz → is_u32 sz →
  needed (data_blocks (size di)) (data_blocks sz) ≤ free_blocks m bm →
  ∃ m' di', Inode_resize e fs pos sz m = (Some tt, m') ∧ file_at m' bm pos di' ∧
    size di' = sz ∧ attrs di' = attrs di ∧ slice 0 (size di) (content m' di') = content m di ∧
    only_touched bm [pos] (tree_blocks m di) m m' ∧ retree bm m di m' di'.
Proof.
  intros bm [Hpos Hat Hout Ho] Hty Hsz Hu Hfree. pose proof (inode_at_wf _ _ _ Hat) as Hwf.
  assert (Hslot : inode_slot m bm pos) by done.
  destruct (resize_up e m bm di sz Hwf Ho Hu Hsz Hfree) as (m1 & d1 & Hrun & Hs1 & [Hwf1 Ha1 (dx & Hsx & Hg)]).
  pose proof (g_own _ _ _ _ _ _ _ Hg) as Ho1.
  assert (Hpos1 : inode_slot m1 bm pos).
  { destruct Hpos as (? & ? & ? & ?). split; [|done]. split_and!; try done. by apply (g_dom _ _ _ _ _ _ _ Hg). }
  destruct (store_inode m1 bm pos d1 (proj1 Hpos1) Hout Hwf1 Ho1) as (m2 & Hst & Hf2 & Hc2 & _).
  destruct (write_slot m1 bm pos d1 (o_area _ _ _ _ Ho1) Hpos1 Hwf1) as (m2' & Hst' & _ & _ & Ht2 & _ & _).
  rewrite Hst in Hst'. injection Hst' as <-.
  exists m2, d1. split_and!; try done.
  - unfold Inode_resize. rewrite (bind_Some _ _ _ _ _ (proj1 (read_at m bm pos di Hslot Hat))), Hty.
    change (negb (kFile =? kFile)) with false. cbv iota. destruct (Z.ltb_spec (size di) sz); [|lia].
    rewrite (bind_Some _ _ _ _ _ (with_inode_run _ _ _ _ _ _ (returning_run _ _ _ _ _ Hrun))). done.
  - pose proof (wf_size _ Hwf) as Hu0. unfold is_u32 in *.
    pose proof (data_blocks_mono (size di) sz ltac:(lia) ltac:(lia)) as Hmono.
    destruct (data_blocks_eq (size di)) as (_ & Hr & Hb); [lia|].
    rewrite Hc2. unfold content. rewrite Hs1 in *.
    assert (Hox : file_own m bm dx (file_shape (data_blocks (size di)))) by (by apply (same_tree_own m bm di)).
    rewrite slice_slice, Z.add_0_l by lia.
    rewrite <- (same_tree_bytes m di dx) by done.
    rewrite <- (grown_bytes bm m dx _ m1 d1 (data_blocks sz) Hox) by (done || lia).
    rewrite slice_slice by (unfold kBlockSize in *; lia). by rewrite Z.add_0_l.
  - apply (only_touched_trans _ _ _ (λ _, False) m m1 m2); [|eapply only_touched_weaken; [| |exact Ht2]; done|by intros b []].
    eapply only_touched_weaken; [| |by eapply (grown_touched bm m di dx m1 d1)]; [by intros p ?%not_elem_of_nil|done].
  - apply (retree_then_same bm m di m1 d1); [by apply (grown_retree bm m di dx m1 d1)|].
    apply (store_inode_same m1 bm pos d1 m2 d1); try done; apply Hpos1.
Qed.
