(* ===== verification/DirOps.v ===== *)
(** * Directory operations ([src/inode.cpp])

    [link], [create], [unlink] and [remove] seen as operations on the list
    of a directory's entries: an entry is appended, or one is replaced by
    the last and the list gets shorter.  Everything that does not belong
    to the inodes and trees involved is left alone ([only_touched]). *)

From S2P Require Import Prelude Bytes Config BlkIface Bitmap DataArea Layout InodeIO DiskInode Sbfs Inode Frame FileMap FileData FileGrow FileShrink FileResize FileIO Dir Touched.

(** A directory of entries [es], described by the inode [di] (a local
    variable of the operation, or the one stored). *)
Record dir_in (m : store) (bm : Bitmap) (di : DiskInode) (es : list DirEntry) : Prop := {
  di_wf : DiskInode_wf di;
  di_own : file_own m bm di (file_shape (data_blocks (size di)));
  di_type : type_ di = kDirectory;
  di_entries : Forall DirEntry_wf es;
  di_size : size di = sizeof_DirEntry * zlen es ∧ size di < 2 ^ 31;
  di_bytes : content m di = entries_bytes es;
}.

(** The directory whose inode is stored at [pos]. *)
Record dir_at (m : store) (bm : Bitmap) (pos : Position) (di : DiskInode) (es : list DirEntry) : Prop := {
  da_file : file_at m bm pos di;
  da_in : dir_in m bm di es;
}.

Lemma dir_in_data m bm di es : dir_in m bm di es → dir_data m di es.
Proof. intros [_ Ho _ He Hs Hb]. split; [done|apply Ho|done|done]. Qed.

(** The end of every operation: the directory's inode is stored. *)
Lemma store_dir m bm pos di es :
  inode_slot m bm pos → dir_in m bm di es →
  ∃ m', Inode_write_inode pos di m = (Some tt, m') ∧ dir_at m' bm pos di es ∧
    only_touched bm [pos] (λ _, False) m m' ∧ same_blocks_of bm m di m' di.
Proof.
  intros Hp [Hwf Ho Hty He Hs Hc].
  destruct (write_slot m bm pos di (o_area _ _ _ _ Ho) Hp Hwf) as (m' & Hrun & Hat & Hp' & Ht & _ & Hf).
  destruct (Hf di Ho) as (Ho' & Hc' & _). exists m'. split_and!; [done| |done|].
  - destruct Hp' as (? & ? & ?). split; [by split|]. split; try done. by rewrite Hc'.
  - destruct Hp as (Hpos & Hnb & Hna). by apply (store_inode_same m bm pos di m' di).
Qed.

Lemma dir_in_untouched bm ps T m m' di es :
  only_touched bm ps T m m' → (∀ p, p ∈ ps → ¬ in_area bm (block_id p)) →
  (∀ b, tree_blocks m di b → ¬ T b) → dir_in m bm di es →
  dir_in m' bm di es ∧ ∀ b, tree_blocks m' di b ↔ tree_blocks m di b.
Proof.
  intros Ht Hps HT [Hwf Ho Hty He Hs Hc].
  destruct (content_untouched bm ps T m m' Ht Hps di Ho HT) as [Hc' Htb].
  destruct (own_untouched bm ps T m m' Ht Hps di _ Ho) as [Ho' _]; [intros x Hx; apply HT; by exists x|].
  split; [|done]. split; try done. by rewrite Hc'.
Qed.

Lemma dir_at_untouched bm ps T m m' pos di es :
  only_touched bm ps T m m' → (∀ p, p ∈ ps → ¬ in_area bm (block_id p)) →
  (∀ p, p ∈ ps → pos_disjoint p pos) → ¬ T (block_id pos) → (∀ b, tree_blocks m di b → ¬ T b) →
  dir_at m bm pos di es → dir_at m' bm pos di es ∧ ∀ b, tree_blocks m' di b ↔ tree_blocks m di b.
Proof.
  intros Ht Hps Hd Hp HT [Hf Hin].
  destruct (file_untouched bm ps T m m' Ht Hps pos di Hf Hd Hp HT) as [Hf' _].
  by destruct (dir_in_untouched bm ps T m m' di es Ht Hps HT Hin).
Qed.

(** ** The scan *)

Definition wf_kept (s s' : DiskInode * store) : Prop := DiskInode_wf s.1 → DiskInode_wf s'.1.

#[export] Instance wf_kept_preorder : PreOrder wf_kept.
Proof. split; [by intros s Hs|]. unfold wf_kept. intros s1 s2 s3. auto. Qed.

Lemma on_snd_wf_kept {A} (k : M store A) : msteps wf_kept (on_snd k).
Proof. intros [d m]. unfold wf_kept, on_snd. simpl. by destruct (k m). Qed.

Lemma read_data_wf e off len d (m : store) :
  DiskInode_wf d → DiskInode_wf (DiskInode_read_data e off len (d, m)).2.1.
Proof.
  intros Hd. assert (Hs : msteps wf_kept (DiskInode_read_data e off len)); [|by apply (Hs (d, m))].
  pose proof @on_snd_wf_kept. unfold DiskInode_read_data, this.
  apply msteps_bind; [apply _|intros [d1 m1]; unfold wf_kept; simpl; apply wf_meta|]. intros []. steps_tac.
Qed.

Lemma dir_scan_wf e nm N : ∀ i blk d (m : store),
  DiskInode_wf d → DiskInode_wf (dir_scan e N i blk nm (d, m)).2.1.
Proof.
  induction N as [|N IH]; intros i blk d m Hd; [done|]. cbn [dir_scan].
  pose proof (read_data_wf e (u32 (i * kBlockSize)) kBlockSize d m Hd) as Hr. unfold bind.
  destruct (DiskInode_read_data _ _ _ _) as [[[l x]|] [d' m']]; [|done]. cbn [fst snd] in *.
  unfold check_len. destruct (_ =? kFail); [done|]. cbn [ret]. destruct (dir_lookup _ _ _ _); [done|].
  by apply IH.
Qed.

(** What the scan finds, on the way to another operation. *)
Lemma scan_run e m bm di es nm fd d' m' :
  dir_in m bm di es → cstr nm ≠ [] → scan_dir e nm (di, m) = (Some fd, (d', m')) →
  m' = m ∧ same_but_times di d' ∧ dir_in m bm d' es ∧
  match fd with
  | None => find_entry nm es = None
  | Some (i, j, blk) => ∃ t x, find_entry nm es = Some (t, x) ∧ Z.of_nat t = 16 * i + j ∧
      0 ≤ i ∧ 0 ≤ j < 16 ∧ dir_entry blk j = x
  end.
Proof.
  intros Hd Hnm Hrun. pose proof (scan_dir_spec e m di es nm (dir_in_data _ _ _ _ Hd) Hnm) as Hs.
  unfold wp in Hs. rewrite Hrun in Hs. cbn [fst snd] in Hs. destruct Hs as (-> & Hsame & Hfd).
  destruct (same_but_times_tree _ _ Hsame) as [Hst Hsz]. split_and!; [done|done| |].
  - destruct Hd as [Hwf Ho Hty He Hs Hc]. split; [| | |done| |].
    + pose proof (dir_scan_wf e nm (Z.to_nat (total_blocks (size di))) 0 DirBlock_new di m Hwf) as Hw.
      unfold scan_dir, bind, this in Hrun. cbn [fst snd] in Hrun. by rewrite Hrun in Hw.
    + rewrite Hsz. by apply (same_tree_own m bm di).
    + by destruct Hsame as (? & ? & ? & ->).
    + by rewrite Hsz.
    + unfold content. by rewrite Hsz, (same_tree_bytes m di d').
  - destruct fd as [[[i j] blk]|]; [done|]. apply Hfd.
Qed.

(** In a directory of at most 22 blocks the scan always succeeds; a name
    that is there is found in any directory. *)
Lemma scan_total e m bm di es nm :
  dir_in m bm di es → cstr nm ≠ [] →
  data_blocks (size di) < 23 ∨ find_entry nm es ≠ None →
  ∃ fd d', scan_dir e nm (di, m) = (Some fd, (d', m)).
Proof.
  intros Hd Hnm Hcase. pose proof (scan_dir_spec e m di es nm (dir_in_data _ _ _ _ Hd) Hnm) as Hs.
  unfold wp in Hs. destruct (scan_dir e nm (di, m)) as [[fd|] [d' m']]; cbn [fst snd] in Hs.
  - destruct Hs as (-> & _ & _). by exists fd, d'.
  - exfalso. destruct Hs as (_ & Hnone & Hlt). destruct Hcase as [Hsmall|?]; [|done].
    pose proof (di_size _ _ _ _ Hd) as [_ H31]. pose proof (wf_size _ (di_wf _ _ _ _ Hd)) as Hu.
    rewrite total_blocks_eq in Hlt by (unfold is_u32 in Hu; lia).
    destruct (data_blocks_eq (size di)) as (_ & Hr & _); [unfold is_u32 in Hu; lia|].
    unfold nodes, file_shape, boundary, subs in Hlt. cbn [s_data s_ind1 s_ind2 s_sub] in Hlt.
    destruct (Z.ltb_spec 23 (data_blocks (size di))), (Z.ltb_spec 1047 (data_blocks (size di))),
      (Z.leb_spec (data_blocks (size di)) 1047), (Z.eqb_spec (data_blocks (size di)) 23),
      (Z.eqb_spec (data_blocks (size di)) 1047); simpl in Hlt; lia.
Qed.

(** In a larger directory that does not end at a block boundary, the scan
    for a name that is not there reads past the end and fails. *)
Lemma scan_fails e m bm di es nm :
  dir_in m bm di es → cstr nm ≠ [] → find_entry nm es = None →
  23 ≤ data_blocks (size di) → size di ≠ kBlockSize * data_blocks (size di) →
  ∃ d', scan_dir e nm (di, m) = (None, (d', m)).
Proof.
  intros Hd Hnm Hnone Hbig Hpart.
  pose proof (scan_dir_spec e m di es nm (dir_in_data _ _ _ _ Hd) Hnm) as Hs. unfold wp in Hs.
  destruct (scan_dir e nm (di, m)) as [[fd|] [d' m']]; cbn [fst snd] in Hs.
  2: { destruct Hs as (-> & _). by exists d'. }
  exfalso. destruct Hs as (_ & _ & Hfd). destruct fd as [[[i j] blk]|].
  - destruct Hfd as (t & x & Hf & _). congruence.
  - destruct Hfd as [_ [Hle|?]]; [|done].
    pose proof (wf_size _ (di_wf _ _ _ _ Hd)) as Hu.
    destruct (data_blocks_eq (size di)) as (_ & Hr & _); [unfold is_u32 in Hu; lia|].
    rewrite total_blocks_eq in Hle by (unfold is_u32 in Hu; lia).
    pose proof (subs_bound (data_blocks (size di))) as Hsub.
    change MAX_BLOCK_SIZE with 1049623 in Hsub.
    unfold nodes, file_shape, boundary in Hle. cbn [s_data s_ind1 s_ind2 s_sub] in Hle.
    pose proof (di_size _ _ _ _ Hd) as [_ H31].
    destruct (data_blocks_eq (size di)) as (_ & _ & Hcap); [unfold is_u32 in Hu; lia|].
    unfold kBlockSize in *. specialize (Hsub ltac:(lia)).
    destruct (Z.ltb_spec 23 (data_blocks (size di))), (Z.ltb_spec 1047 (data_blocks (size di))),
      (Z.eqb_spec (data_blocks (size di)) 23),
      (Z.eqb_spec (data_blocks (size di)) 1047); simpl in Hle; lia.
Qed.

(** ** Entries and their bytes *)

Lemma entries_split es n :
  Forall DirEntry_wf es →
  take (256 * n) (entries_bytes es) = entries_bytes (take n es) ∧
  drop (256 * n) (entries_bytes es) = entries_bytes (drop n es).
Proof.
  intros Hes. revert n. induction Hes as [|x es Hx _ IH]; intros n.
  { change (entries_bytes []) with ([] : bytes). by rewrite !take_nil, !drop_nil. }
  assert (Hl : length (DirEntry_encode x) = 256%nat).
  { pose proof (zlen_DirEntry_encode x Hx) as Hz. unfold zlen, sizeof_DirEntry in Hz. lia. }
  destruct n as [|n]; [done|]. destruct (IH n) as [IH1 IH2].
  change (entries_bytes (x :: es)) with (DirEntry_encode x ++ entries_bytes es).
  replace (256 * S n)%nat with (length (DirEntry_encode x) + 256 * n)%nat by lia.
  rewrite take_app_add, drop_app_add. by rewrite IH1, IH2.
Qed.

Lemma overwrite_entry es (t : nat) x :
  Forall DirEntry_wf es → DirEntry_wf x → (t < length es)%nat →
  overwrite (sizeof_DirEntry * Z.of_nat t) (DirEntry_encode x) (entries_bytes es) =
  entries_bytes (<[t := x]> es).
Proof.
  intros Hes Hx Ht. unfold overwrite, sizeof_DirEntry.
  replace (Z.to_nat (256 * Z.of_nat t)) with (256 * t)%nat by lia.
  assert (Hl : length (DirEntry_encode x) = 256%nat).
  { pose proof (zlen_DirEntry_encode x Hx) as Hz. unfold zlen, sizeof_DirEntry in Hz. lia. }
  rewrite Hl. replace (256 * t + 256)%nat with (256 * S t)%nat by lia.
  destruct (entries_split es t Hes) as [-> _]. destruct (entries_split es (S t) Hes) as [_ ->].
  rewrite insert_take_drop by done. unfold entries_bytes. rewrite bind_app. done.
Qed.

(** ** Adding an entry *)

Lemma append_entries e fs m d es xs :
  let bm := data_bitmap_ fs in
  dir_in m bm d es → Forall DirEntry_wf xs → xs ≠ [] → size d + sizeof_DirEntry * zlen xs < 2 ^ 31 →
  needed (data_blocks (size d)) (data_blocks (size d + sizeof_DirEntry * zlen xs)) ≤ free_blocks m bm →
  ∃ m2 d2, append e fs (entries_bytes xs) (d, m) = (Some tt, (d2, m2)) ∧ dir_in m2 bm d2 (es ++ xs) ∧
    attrs d2 = attrs d ∧ only_touched bm [] (tree_blocks m d) m m2 ∧
    free_blocks m2 bm =
      free_blocks m bm - needed (data_blocks (size d)) (data_blocks (size d + sizeof_DirEntry * zlen xs)) ∧
    retree bm m d m2 d2.
Proof.
  intros bm [Hwf Ho Hty He [Hs Hlt] Hc] Hx Hne Hmax Hfree. pose proof (zlen_entries xs Hx) as Hz.
  assert (Hpos : 0 < zlen xs) by (destruct xs; [done|unfold zlen; simpl; lia]).
  destruct (append_touched e fs m d (entries_bytes xs) Hwf Ho)
    as (m2 & d2 & Hrun & Hwf2 & Ho2 & Hs2 & Hat & Hc2 & Ht & Hct & Hrt);
    [rewrite ?Hz; done || (unfold sizeof_DirEntry in *; lia)..|].
  exists m2, d2. rewrite Hz in Hs2. split_and!; [done| |done|done|by rewrite <- Hs2|done]. split; [done|done| | | |].
  - unfold attrs in Hat. congruence.
  - by apply Forall_app.
  - unfold zlen in *. rewrite length_app. unfold sizeof_DirEntry in *. lia.
  - rewrite Hc2, Hc. unfold entries_bytes. by rewrite bind_app.
Qed.

Lemma append_entry e fs m d es x :
  let bm := data_bitmap_ fs in
  dir_in m bm d es → DirEntry_wf x → size d + sizeof_DirEntry < 2 ^ 31 →
  needed (data_blocks (size d)) (data_blocks (size d + sizeof_DirEntry)) ≤ free_blocks m bm →
  ∃ m2 d2, append e fs (DirEntry_encode x) (d, m) = (Some tt, (d2, m2)) ∧ dir_in m2 bm d2 (es ++ [x]) ∧
    attrs d2 = attrs d ∧ only_touched bm [] (tree_blocks m d) m m2 ∧
    free_blocks m2 bm = free_blocks m bm - needed (data_blocks (size d)) (data_blocks (size d + sizeof_DirEntry)) ∧
    retree bm m d m2 d2.
Proof.
  intros bm Hd Hx Hmax Hfree. pose proof (append_entries e fs m d es [x] Hd) as Ha.
  change (entries_bytes [x]) with (DirEntry_encode x ++ []) in Ha. rewrite app_nil_r in Ha.
  change (sizeof_DirEntry * zlen [x]) with sizeof_DirEntry in Ha. apply Ha; [by constructor|done|done|done].
Qed.

(** Overwriting one. *)
Lemma find_entry_lt nm es t x : find_entry nm es = Some (t, x) → (t < length es)%nat ∧ es !! t = Some x.
Proof. intros (Ht & _)%list_find_Some. split; [|done]. by apply lookup_lt_Some in Ht. Qed.

Lemma write_entry e m bm d es (t : nat) y :
  dir_in m bm d es → (t < length es)%nat → DirEntry_wf y →
  ∃ m2, let d2 := update_meta e 3 d in
    DiskInode_write_data e (sizeof_DirEntry * Z.of_nat t) (DirEntry_encode y) sizeof_DirEntry (d, m) =
      (Some sizeof_DirEntry, (d2, m2)) ∧
    dir_in m2 bm d2 (<[t := y]> es) ∧ only_touched bm [] (tree_blocks m d) m m2 ∧
    same_blocks_of bm m d m2 d2.
Proof.
  intros [Hwf Ho Hty He [Hs Hlt] Hc] Ht Hy. pose proof (zlen_DirEntry_encode y Hy) as Hz.
  destruct (write_touched e m bm d (sizeof_DirEntry * Z.of_nat t) (DirEntry_encode y) Hwf Ho)
    as (m2 & Hrun & Ho2 & Hc2 & Hot & Hsb); [unfold zlen, sizeof_DirEntry in *; lia..|].
  rewrite Hz in Hrun. exists m2. cbv zeta. split; [done|]. split; [|by split].
  split; [by apply wf_meta|done|done|by apply Forall_insert| |].
  - unfold zlen. by rewrite length_insert.
  - by rewrite Hc2, Hc, overwrite_entry.
Qed.

(** The offset of entry [j] of block [i]. *)
Lemma entry_offset m bm d es (t : nat) i j :
  dir_in m bm d es → (t < length es)%nat → Z.of_nat t = 16 * i + j →
  u32 (i * kBlockSize + j * sizeof_DirEntry) = sizeof_DirEntry * Z.of_nat t.
Proof.
  intros [_ _ _ _ [Hs Hlt] _] Ht Htij. unfold zlen, sizeof_DirEntry, kBlockSize in *.
  rewrite u32_small by (unfold is_u32; lia). lia.
Qed.

(** ** [link] *)

Definition linked (delta : Z) (di : DiskInode) : DiskInode := set_link_cnt (u16 (link_cnt di + delta)) di.

Lemma linked_wf delta di : DiskInode_wf di → DiskInode_wf (linked delta di).
Proof. intros []. split; try done. apply Z.mod_pos_bound. lia. Qed.

Lemma update_link_cnt_spec m bm p tdi delta :
  area_ok m bm → inode_slot m bm p → inode_at m p = Some tdi →
  ∃ m', update_link_cnt p delta m = (Some tt, m') ∧ inode_at m' p = Some (linked delta tdi) ∧
    inode_slot m' bm p ∧ only_touched bm [p] (λ _, False) m m' ∧ free_blocks m' bm = free_blocks m bm ∧
    ∀ d, file_own m bm d (file_shape (data_blocks (size d))) → same_blocks_of bm m d m' d.
Proof.
  intros Ha Hp Hat. destruct (read_at m bm p tdi Hp Hat) as [Hr Hwf].
  destruct (write_slot m bm p (linked delta tdi) Ha Hp (linked_wf _ _ Hwf)) as (m' & Hrun & Hat' & Hp' & Ht & Hf & _).
  exists m'. split_and!; try done.
  - unfold update_link_cnt. by rewrite (bind_Some _ _ _ _ _ Hr).
  - intros d Hd. destruct Hp as (Hpos & Hnb & Hna).
    apply (store_inode_same m bm p (linked delta tdi) m' d); try done. by apply linked_wf.
Qed.

Lemma same_times_tree m di d : same_but_times di d → ∀ b, tree_blocks m d b ↔ tree_blocks m di b.
Proof.
  intros Hs b. destruct (same_but_times_tree _ _ Hs) as [Hst Hsz]. unfold tree_blocks. rewrite Hsz.
  split; intros (x & Hx & ->); exists x; (split; [done|]); by rewrite (same_tree_id m di d).
Qed.

(** An inode outside the bitmap and the area is no block of a file. *)
Lemma slot_not_tree m bm di es p : dir_in m bm di es → inode_slot m bm p → ¬ tree_blocks m di (block_id p).
Proof. intros Hd (_ & _ & Hna) Hb. apply Hna. by apply (tree_in_area m bm di); [apply Hd|]. Qed.

Section link.
Context (e : env) (fs : SBFileSystem) (m : store) (pos : Position) (di : DiskInode) (es : list DirEntry).
Context (nm : bytes) (target : Position) (tdi : DiskInode).
Abbreviation bm := (data_bitmap_ fs).
Context (Hdir : dir_at m bm pos di es) (Hnm : cstr nm ≠ []).
Context (Htgt : inode_slot m bm target) (Htat : inode_at m target = Some tdi) (Hdis : pos_disjoint target pos).

Lemma dir_at_slot : inode_slot m bm pos.
Proof. by destruct Hdir as [[Hp _ [] _] _]. Qed.

Lemma dir_at_read : Inode_read_inode pos m = (Some di, m).
Proof. apply (read_at m bm pos di dir_at_slot). apply Hdir. Qed.

Lemma pos_disjoint_sym p q : pos_disjoint p q → pos_disjoint q p.
Proof. unfold pos_disjoint. intros [?|[?|?]]; [left; congruence|right; by right|right; by left]. Qed.

(** What all three ways through [link] share: the target's count goes up
    after the scan, the directory is intact. *)
Lemma link_count d' :
  dir_in m bm d' es →
  ∃ m1, update_link_cnt target 1 m = (Some tt, m1) ∧ dir_in m1 bm d' es ∧
    same_blocks_of bm m d' m1 d' ∧ inode_at m1 target = Some (linked 1 tdi) ∧
    inode_slot m1 bm target ∧ inode_slot m1 bm pos ∧ only_touched bm [target] (λ _, False) m m1.
Proof.
  intros Hd. destruct (update_link_cnt_spec m bm target tdi 1) as (m1 & Hrun & Hat & Hsl & Ht & Hf & Hsb);
    [apply (di_own _ _ _ _ Hd)|done|done|].
  destruct (dir_in_untouched bm [target] (λ _, False) m m1 d' es Ht) as [Hd1 _]; [|by intros b _ []|done|].
  { intros p ->%list_elem_of_singleton. apply Htgt. }
  exists m1. split; [done|]. split; [done|]. split; [apply Hsb, Hd|]. split_and!; try done.
  by apply (slot_untouched _ _ _ _ _ _ Ht), dir_at_slot.
Qed.

(** The end: the directory, changed to [es'], is stored. *)
Lemma link_store m1 m2 d1 d2 es' :
  inode_at m1 target = Some (linked 1 tdi) → inode_slot m1 bm target → inode_slot m1 bm pos →
  only_touched bm [target] (λ _, False) m m1 → dir_in m1 bm d1 es → same_but_times di d1 →
  same_blocks_of bm m d1 m1 d1 →
  dir_in m2 bm d2 es' → only_touched bm [] (tree_blocks m1 d1) m1 m2 → retree bm m1 d1 m2 d2 →
  ∃ m3, Inode_write_inode pos d2 m2 = (Some tt, m3) ∧ dir_at m3 bm pos d2 es' ∧
    inode_at m3 target = Some (linked 1 tdi) ∧ only_touched bm [target; pos] (tree_blocks m di) m m3 ∧
    retree bm m di m3 d2.
Proof.
  intros Hat1 Ht1 Hp1 Hot1 Hd1 Hsame Hsb Hd2 Hot2 Hrt.
  destruct (store_dir m2 bm pos d2 es') as (m3 & Hrun & Hd3 & Hot3 & Hsb3); [by eapply slot_untouched|done|].
  pose proof (proj1 Hsb) as Htb. pose proof (same_times_tree m di d1 Hsame) as Htd.
  exists m3. split_and!; [done|done| | |].
  - rewrite (ot_inodes _ _ _ _ _ Hot3 target); try (by intros []); try apply Htgt.
    + rewrite (ot_inodes _ _ _ _ _ Hot2 target); try done; try apply Htgt.
      * by eapply slot_not_tree.
      * by intros p ?%not_elem_of_nil.
    + intros p ->%list_elem_of_singleton. by apply pos_disjoint_sym.
  - assert (HT : ∀ b, tree_blocks m1 d1 b → tree_blocks m di b).
    { intros b Hb. by apply Htd, Htb. }
    eapply (only_touched_trans _ _ _ (tree_blocks m di)); [|eapply only_touched_weaken; [| |exact Hot3]|by left].
    + eapply (only_touched_trans _ _ _ (tree_blocks m di)); [|eapply only_touched_weaken; [| |exact Hot2]|by left].
      * eapply only_touched_weaken; [| |exact Hot1]; [|done].
        intros p ->%list_elem_of_singleton. by left.
      * by intros p ?%not_elem_of_nil.
      * done.
    + intros p ->%list_elem_of_singleton. right. by left.
    + done.
  - eapply retree_then_same; [|done]. eapply same_then_retree; [|exact Hrt].
    destruct Hsb as (Ht & Hu & Hf & _). split_and!; [|done|done|by apply same_but_times_tree|by apply same_but_times_attrs].
    intros b. by rewrite Ht.
Qed.

(** A new name: the entry goes at the end. *)
Lemma Inode_link_new replace :
  find_entry nm es = None → data_blocks (size di) < 23 →
  needed (data_blocks (size di)) (data_blocks (size di + sizeof_DirEntry)) ≤ free_blocks m bm →
  ∃ m' di', Inode_link e fs pos nm target replace m = (Some tt, m') ∧
    dir_at m' bm pos di' (es ++ [DirEntry_new nm (getDiskInodeId fs target)]) ∧
    inode_at m' target = Some (linked 1 tdi) ∧ only_touched bm [target; pos] (tree_blocks m di) m m' ∧
    retree bm m di m' di'.
Proof.
  intros Hnone Hsmall Hfree. pose proof (da_in _ _ _ _ _ Hdir) as Hin.
  destruct (scan_total e m bm di es nm Hin Hnm) as (fd & d1 & Hscan); [by left|].
  destruct (scan_run e m bm di es nm _ _ _ Hin Hnm Hscan) as (_ & Hsame & Hd1 & Hfd).
  destruct fd as [[[i j] blk]|]; [destruct Hfd as (? & ? & ? & _); congruence|].
  destruct (same_but_times_tree _ _ Hsame) as [_ Hsz].
  destruct (link_count d1 Hd1) as (m1 & Hup & Hd1' & Htb & Hat1 & Ht1 & Hp1 & Hot1).
  assert (Hf1 : free_blocks m1 bm = free_blocks m bm) by apply Htb.
  assert (Hmax : size d1 + sizeof_DirEntry < 2 ^ 31).
  { rewrite Hsz. pose proof (wf_size _ (di_wf _ _ _ _ Hin)) as Hu.
    destruct (data_blocks_eq (size di)) as (_ & _ & Hcap); [unfold is_u32 in Hu; lia|].
    unfold kBlockSize, sizeof_DirEntry in *. lia. }
  destruct (append_entry e fs m1 d1 es (DirEntry_new nm (getDiskInodeId fs target)) Hd1')
    as (m2 & d2 & Happ & Hd2 & _ & Hot2 & _ & Hrt); [apply DirEntry_new_wf|done|by rewrite Hsz, Hf1|].
  destruct (link_store m1 m2 d1 d2 _ Hat1 Ht1 Hp1 Hot1 Hd1' Hsame Htb Hd2 Hot2 Hrt) as (m3 & Hst & Hd3 & Hat3 & Hot3 & Hrt3).
  exists m3, d2. split_and!; [|done|done|done|done].
  unfold Inode_link. rewrite (bind_Some _ _ _ _ _ dir_at_read), (di_type _ _ _ _ Hin).
  change (negb (kDirectory =? kDirectory)) with false. cbv iota. apply (with_inode_run _ _ _ _ d2).
  rewrite (bind_Some _ _ _ _ _ Hscan). cbv beta iota.
  assert (Hon : on_snd (I := DiskInode) (update_link_cnt target 1) (d1, m) = (Some tt, (d1, m1))).
  { unfold on_snd. simpl. by rewrite Hup. }
  assert (Hbody : (on_snd (update_link_cnt target 1);;;
     append e fs (DirEntry_encode (DirEntry_new nm (getDiskInodeId fs target)))) (d1, m) = (Some tt, (d2, m2))).
  { by rewrite (bind_Some _ _ _ _ _ Hon). }
  rewrite (bind_Some _ _ _ _ _ Hbody).
  rewrite (bind_Some _ _ _ d2 (d2, m2)) by done. unfold on_snd. simpl. by rewrite Hst.
Qed.

(** A name that is there: without [replace] nothing happens, *)
Lemma Inode_link_exists t x :
  find_entry nm es = Some (t, x) → Inode_link e fs pos nm target false m = (None, m).
Proof.
  intros Hf. pose proof (da_in _ _ _ _ _ Hdir) as Hin.
  destruct (scan_total e m bm di es nm Hin Hnm) as (fd & d1 & Hscan); [right; congruence|].
  destruct (scan_run e m bm di es nm _ _ _ Hin Hnm Hscan) as (_ & _ & _ & Hfd).
  destruct fd as [[[i j] blk]|]; [|congruence].
  unfold Inode_link. rewrite (bind_Some _ _ _ _ _ dir_at_read), (di_type _ _ _ _ Hin).
  change (negb (kDirectory =? kDirectory)) with false. cbv iota. apply (with_inode_run _ _ _ _ d1).
  by rewrite (bind_Some _ _ _ _ _ Hscan).
Qed.

(** with it, the entry is overwritten.  (The inode it named keeps its link
    count.) *)
Lemma Inode_link_replace t x :
  find_entry nm es = Some (t, x) →
  ∃ m' di', Inode_link e fs pos nm target true m = (Some tt, m') ∧
    dir_at m' bm pos di' (<[t := DirEntry_new (cstr (name x)) (getDiskInodeId fs target)]> es) ∧
    inode_at m' target = Some (linked 1 tdi) ∧ only_touched bm [target; pos] (tree_blocks m di) m m' ∧
    retree bm m di m' di'.
Proof.
  intros Hf. pose proof (da_in _ _ _ _ _ Hdir) as Hin.
  destruct (scan_total e m bm di es nm Hin Hnm) as (fd & d1 & Hscan); [right; congruence|].
  destruct (scan_run e m bm di es nm _ _ _ Hin Hnm Hscan) as (_ & Hsame & Hd1 & Hfd).
  destruct fd as [[[i j] blk]|]; [|congruence].
  destruct Hfd as (t' & x' & Hf' & Htij & Hi & Hj & Hent). rewrite Hf in Hf'. injection Hf' as <- <-.
  destruct (link_count d1 Hd1) as (m1 & Hup & Hd1' & Htb & Hat1 & Ht1 & Hp1 & Hot1).
  set (y := DirEntry_new (cstr (name x)) (getDiskInodeId fs target)).
  destruct (write_entry e m1 bm d1 es t y Hd1') as (m2 & Hw & Hd2 & Hot2 & Hsb2);
    [by apply (find_entry_lt _ _ _ _ Hf)|apply DirEntry_new_wf|]. cbv zeta in *. set (d2 := update_meta e 3 d1) in *.
  pose proof (retree_same _ _ _ _ _ (di_own _ _ _ _ Hd1') Hsb2) as Hrt.
  destruct (link_store m1 m2 d1 d2 _ Hat1 Ht1 Hp1 Hot1 Hd1' Hsame Htb Hd2 Hot2 Hrt) as (m3 & Hst & Hd3 & Hat3 & Hot3 & Hrt3).
  exists m3, d2. split_and!; [|done|done|done|done].
  unfold Inode_link. rewrite (bind_Some _ _ _ _ _ dir_at_read), (di_type _ _ _ _ Hin).
  change (negb (kDirectory =? kDirectory)) with false. cbv iota. apply (with_inode_run _ _ _ _ d2).
  rewrite (bind_Some _ _ _ _ _ Hscan). cbv beta iota. change (negb true) with false. cbv iota zeta.
  assert (Hon : on_snd (I := DiskInode) (update_link_cnt target 1) (d1, m) = (Some tt, (d1, m1))).
  { unfold on_snd. simpl. by rewrite Hup. }
  rewrite Hent. fold y. rewrite (entry_offset m bm di es t i j Hin) by (done || by apply (find_entry_lt _ _ _ _ Hf)).
  match goal with |- bind ?b _ _ = _ => assert (Hbody : b (d1, m) = (Some tt, (d2, m2))) end.
  { by rewrite (bind_Some _ _ _ _ _ Hon), (bind_Some _ _ _ _ _ Hw). }
  rewrite (bind_Some _ _ _ _ _ Hbody).
  rewrite (bind_Some _ _ _ d2 (d2, m2)) by done. unfold on_snd. simpl. by rewrite Hst.
Qed.

(** and in a large directory no new name can be linked: the scan fails. *)
Lemma Inode_link_large replace :
  find_entry nm es = None → 23 ≤ data_blocks (size di) → size di ≠ kBlockSize * data_blocks (size di) →
  Inode_link e fs pos nm target replace m = (None, m).
Proof.
  intros Hf Hbig Hpart. pose proof (da_in _ _ _ _ _ Hdir) as Hin.
  destruct (scan_fails e m bm di es nm Hin Hnm Hf Hbig Hpart) as (d1 & Hscan).
  unfold Inode_link. rewrite (bind_Some _ _ _ _ _ dir_at_read), (di_type _ _ _ _ Hin).
  change (negb (kDirectory =? kDirectory)) with false. cbv iota. apply (with_inode_run _ _ _ _ d1).
  unfold bind. by rewrite Hscan.
Qed.
End link.
