(* ===== verification/DirCreate.v ===== *)
(** * Creating files and directories ([Inode::create] of [src/inode.cpp])

    [create] takes an inode id from the inode bitmap, appends the entry to
    the parent, gives a new directory its entries for itself and for its
    parent, and stores both inodes. *)

From S2P Require Import Prelude Bytes Config BlkIface Bitmap DataArea Layout InodeIO DiskInode Sbfs Inode Frame FileMap FileData FileGrow FileShrink FileResize FileIO Dir Touched DirOps.

(** The inode bitmap is apart from the data bitmap and the data blocks. *)
Record ibm_ok (m : store) (fs : SBFileSystem) : Prop := {
  ib_ok : bitmap_ok m (inode_bitmap_ fs);
  ib_apart b : in_bitmap (inode_bitmap_ fs) b → ¬ in_bitmap (data_bitmap_ fs) b ∧ ¬ in_area (data_bitmap_ fs) b;
}.

(** A position that is in no bitmap and no data block. *)
Definition child_slot (m : store) (fs : SBFileSystem) (p : Position) : Prop :=
  inode_slot m (data_bitmap_ fs) p ∧ ¬ in_bitmap (inode_bitmap_ fs) (block_id p).

Lemma ibm_touched m fs m' s v :
  area_ok m (data_bitmap_ fs) → ibm_ok m fs → bit_update (inode_bitmap_ fs) m m' s v →
  only_touched (data_bitmap_ fs) [] (in_bitmap (inode_bitmap_ fs)) m m' ∧
  free_blocks m' (data_bitmap_ fs) = free_blocks m (data_bitmap_ fs) ∧ ibm_ok m' fs ∧
  ∀ b, used m' (data_bitmap_ fs) b ↔ used m (data_bitmap_ fs) b.
Proof.
  intros Ha [Hok Hap] Hbu.
  assert (Hdom : ∀ c, is_Some (m' !! c) ↔ is_Some (m !! c)) by (intros c; apply (bit_update_dom _ _ _ _ _ c Hok Hbu)).
  assert (Hfr : ∀ c, in_bitmap (data_bitmap_ fs) c → m' !! c = m !! c).
  { intros c Hc. apply (bu_frame _ _ _ _ _ Hbu). intros Hi. by apply Hap in Hi as [? _]. }
  split_and!.
  - split; [| | | |done].
    + destruct Ha as [(_ & Hg & Hin) Hab Hbl]. split; [split_and!; [apply Hbu|done|]|done|].
      * intros b Hb. apply Hdom. by apply Hin.
      * intros t Ht. apply Hdom. by apply Hbl.
    + intros b _ _ _ Hn. by apply (bu_frame _ _ _ _ _ Hbu).
    + intros q _ _ Hn _ _. unfold inode_at. by rewrite (bu_frame _ _ _ _ _ Hbu).
    + intros b Hb _. by apply (used_same m).
  - unfold free_blocks. f_equal. apply filter_false_ext. intros t Ht%elem_of_seqZ.
    apply bm_bit_frame; [done|lia].
  - split; [apply Hbu|done].
  - intros b. by apply used_same.
Qed.

Lemma ibm_untouched fs ps T m m' :
  only_touched (data_bitmap_ fs) ps T m m' → (∀ p, p ∈ ps → ¬ in_bitmap (inode_bitmap_ fs) (block_id p)) →
  (∀ b, T b → ¬ in_bitmap (inode_bitmap_ fs) b) → ibm_ok m fs →
  ibm_ok m' fs ∧ ∀ t, 0 ≤ t < slots (inode_bitmap_ fs) →
    bm_bit m' (inode_bitmap_ fs) t = bm_bit m (inode_bitmap_ fs) t.
Proof.
  intros Ht Hps HT [(Hwf & Hg & Hin) Hap].
  assert (Hfr : ∀ c, in_bitmap (inode_bitmap_ fs) c → m' !! c = m !! c).
  { intros c Hc. destruct (Hap c Hc). apply (ot_blocks _ _ _ _ _ Ht); try done.
    - intros p Hp ->. by apply (Hps p Hp).
    - intros Hc'. by apply (HT c Hc'). }
  split; [|intros t Htt; by apply bm_bit_frame].
  split; [split_and!; [apply (ot_area _ _ _ _ _ Ht)|done|]|done].
  intros b Hb. apply (ot_dom _ _ _ _ _ Ht). by apply Hin.
Qed.

(** A fresh inode has no blocks. *)
Definition fresh_inode (ci : DiskInode) : Prop :=
  DiskInode_wf ci ∧ size ci = 0 ∧ indirect1 ci = 0 ∧ indirect2 ci = 0.

Lemma fresh_live ci x : fresh_inode ci → ¬ live (file_shape (data_blocks (size ci))) x.
Proof. intros (_ & -> & _). change (data_blocks 0) with 0. destruct x; simpl; try done; change (subs 0) with 0; lia. Qed.

Lemma fresh_own m bm ci : area_ok m bm → fresh_inode ci →
  file_own m bm ci (file_shape (data_blocks (size ci))) ∧ content m ci = [].
Proof.
  intros Ha Hci. pose proof Hci as (Hwf & Hs & H1 & H2). split.
  - split; [|done| |done|done].
    + split; [apply Ha|apply Hwf| | |intros x Hx|intros x y Hx]; try by destruct (fresh_live ci x Hci).
      * rewrite H1, H2. unfold is_u32. lia.
      * rewrite Hs. by apply file_shape_ok.
    + intros x Hx. by destruct (fresh_live ci x Hci).
  - unfold content. by rewrite Hs.
Qed.

Lemma fresh_tree m ci b : fresh_inode ci → ¬ tree_blocks m ci b.
Proof. intros Hci (x & Hx & _). by destruct (fresh_live ci x Hci). Qed.

Lemma DiskInode_new_fresh e t md : is_u32 t → fresh_inode (set_mode (u16 md) (DiskInode_new e t)).
Proof.
  intros Ht. split_and!; try done. pose proof (DiskInode_new_wf e t Ht) as []. split; try done.
  apply Z.mod_pos_bound. lia.
Qed.

Lemma on_snd_run {I D A} (k : M D A) (i : I) d a d' : k d = (Some a, d') → on_snd k (i, d) = (Some a, (i, d')).
Proof. unfold on_snd. simpl. by intros ->. Qed.

Section create.
Context (e : env) (fs : SBFileSystem) (pos : Position) (nm : bytes) (ci : DiskInode).
Abbreviation bm := (data_bitmap_ fs).
Abbreviation ibm := (inode_bitmap_ fs).

(** The two entries of a new directory. *)
Definition dots (id : Z) : list DirEntry := [DirEntry_new dot id; DirEntry_new dotdot (getDiskInodeId fs pos)].

(** What [create] makes of the new inode. *)
Definition created (m : store) (id : Z) (ci' : DiskInode) : Prop :=
  if type_ ci =? kDirectory then dir_in m bm ci' (dots id)
  else ci' = ci ∧ file_own m bm ci (file_shape (data_blocks (size ci))) ∧ content m ci = [].

Lemma created_own m id ci' :
  fresh_inode ci → created m id ci' → DiskInode_wf ci' ∧ file_own m bm ci' (file_shape (data_blocks (size ci'))).
Proof.
  intros Hci. unfold created. destruct (_ =? _); [by intros []|]. intros (-> & Ho & _).
  split; [apply Hci|done].
Qed.

Lemma created_untouched m m' ps T id ci' :
  only_touched bm ps T m m' → (∀ p, p ∈ ps → ¬ in_area bm (block_id p)) → (∀ b, tree_blocks m ci' b → ¬ T b) →
  created m id ci' → created m' id ci'.
Proof.
  intros Ht Hps HT. unfold created. destruct (_ =? _).
  - intros Hd. by apply (dir_in_untouched bm ps T m m').
  - intros (-> & Ho & Hc). split_and!; [done| |].
    + apply (own_untouched bm ps T m m' Ht Hps ci _ Ho). intros x Hx. apply HT. by exists x.
    + destruct (content_untouched bm ps T m m' Ht Hps ci Ho HT) as [-> _]. done.
Qed.

(** The new inode's own blocks. *)
Lemma create_child m id :
  area_ok m bm → fresh_inode ci → (type_ ci = kDirectory → 1 ≤ free_blocks m bm) →
  ∀ (o : option Position), ∃ ci' m',
    (if type_ ci =? kDirectory then
       r <- on_snd (with_inode ci (returning (
         append e fs (DirEntry_encode (DirEntry_new dot id) ++
                      DirEntry_encode (DirEntry_new dotdot (getDiskInodeId fs pos))))));;
       ret r.2
     else ret ci) (o, m) = (Some ci', (o, m')) ∧
    created m' id ci' ∧ only_touched bm [] (λ _, False) m m' ∧ retree bm m ci m' ci'.
Proof.
  intros Ha Hci Hfree o. unfold created. destruct (Z.eqb_spec (type_ ci) kDirectory) as [Hty|Hty].
  2: { exists ci, m. destruct (fresh_own m bm ci Ha Hci). split_and!; [done..|by apply only_touched_refl|by apply retree_same]. }
  destruct (fresh_own m bm ci Ha Hci) as [Ho Hc]. pose proof Hci as (Hwf & Hs & _).
  assert (Hd : dir_in m bm ci []) by (split; try done; by rewrite Hs).
  destruct (append_entries e fs m ci [] (dots id) Hd) as (m' & ci' & Hrun & Hd' & _ & Ht & _ & Hrt).
  { repeat constructor; apply DirEntry_new_wf. }
  { done. }
  { by rewrite Hs. }
  { rewrite Hs. change (needed _ _) with 1. by apply Hfree. }
  exists ci', m'. split_and!; [|done| |done].
  - assert (Hb : entries_bytes (dots id) = DirEntry_encode (DirEntry_new dot id) ++
      DirEntry_encode (DirEntry_new dotdot (getDiskInodeId fs pos))).
    { unfold entries_bytes, dots. cbn [mbind list_bind]. by rewrite app_nil_r. }
    rewrite <- Hb. by rewrite (bind_Some _ _ _ _ _ (on_snd_run _ o m _ _
      (with_inode_run _ _ _ _ _ _ (returning_run _ _ _ _ _ Hrun)))).
  - eapply only_touched_weaken; [done| |exact Ht]. intros b Hb. by eapply fresh_tree.
Qed.

Lemma Inode_create_spec m di es s :
  dir_at m bm pos di es → ibm_ok m fs → fresh_inode ci →
  first_free m ibm s →
  let id := s + data_segment_offset ibm in
  let child := getDiskInodePos fs id in
  child_slot m fs pos → child_slot m fs child → pos_disjoint pos child →
  size di + sizeof_DirEntry < 2 ^ 31 →
  needed (data_blocks (size di)) (data_blocks (size di + sizeof_DirEntry)) + 1 ≤ free_blocks m bm →
  ∃ m' di' ci', Inode_create e fs pos nm ci (None, m) = (Some tt, (Some child, m')) ∧
    dir_at m' bm pos di' (es ++ [DirEntry_new nm id]) ∧
    file_at m' bm child ci' ∧ created m' id ci' ∧
    ibm_ok m' fs ∧ (∀ t, 0 ≤ t < slots ibm → bm_bit m' ibm t = if decide (t = s) then true else bm_bit m ibm t) ∧
    only_touched bm [child; pos] (λ b, tree_blocks m di b ∨ in_bitmap ibm b) m m' ∧
    ∃ mid, dir_in mid bm di' (es ++ [DirEntry_new nm id]) ∧ retree bm m di mid di' ∧
      only_touched bm [] (λ b, tree_blocks m di b ∨ in_bitmap ibm b) m mid ∧
      retree bm mid ci m' ci' ∧ only_touched bm [child; pos] (λ _, False) mid m'.
Proof.
  intros Hdir Hib Hci Hs id child Hpos Hchild Hdis Hmax Hfree.
  pose proof (da_in _ _ _ _ _ Hdir) as Hin. pose proof (di_own _ _ _ _ Hin) as Hown.
  (* the inode id *)
  destruct (Bitmap_alloc_spec m ibm (ib_ok _ _ Hib)) as [(s' & m1 & Hs' & Hbu & Halloc & _)|[Hfull _]].
  2: { destruct Hs as (Hr & Hb & _). rewrite Hfull in Hb by done. done. }
  assert (s' = s) as ->.
  { destruct Hs as (Hr & Hb & Hlt), Hs' as (Hr' & Hb' & Hlt').
    destruct (Z.lt_trichotomy s s') as [H|[H|H]]; [|done|]; [rewrite Hlt' in Hb by lia|rewrite Hlt in Hb' by lia]; done. }
  destruct (ibm_touched m fs m1 s true (o_area _ _ _ _ Hown) Hib Hbu) as (Ht1 & Hf1 & Hib1 & Hu1).
  assert (Hps0 : ∀ p : Position, p ∈ [] → ¬ in_area bm (block_id p)) by (by intros p ?%not_elem_of_nil).
  assert (Htib : ∀ b, tree_blocks m di b → ¬ in_bitmap ibm b).
  { intros b Hb Hi. apply (ib_apart _ _ Hib) in Hi as [_ Hi]. by apply Hi, (tree_in_area m bm di). }
  destruct (dir_in_untouched bm [] _ m m1 di es Ht1 Hps0 Htib Hin) as [Hin1 Htb1].
  (* the entry in the parent *)
  destruct (append_entry e fs m1 di es (DirEntry_new nm id) Hin1) as (m2 & d2 & Happ & Hin2 & _ & Ht2 & Hf2 & Hrt2);
    [apply DirEntry_new_wf|done|lia|].
  pose proof (di_own _ _ _ _ Hin2) as Hown2.
  (* the new inode's own blocks *)
  destruct (create_child m2 id (o_area _ _ _ _ Hown2) Hci ltac:(lia) (Some child)) as (ci' & m3 & Hrun3 & Hc3 & Ht3 & Hrt3).
  destruct (dir_in_untouched bm [] _ m2 m3 d2 (es ++ [DirEntry_new nm id]) Ht3 Hps0) as [Hin3 _]; [by intros b _ []|done|].
  destruct (created_own m3 id ci' Hci Hc3) as [Hwf' Hown3].
  assert (Hsl : ∀ p, inode_slot m bm p → inode_slot m3 bm p).
  { intros p Hp. by do 3 (eapply slot_untouched; [done|]). }
  (* storing both inodes *)
  destruct (write_slot m3 bm child ci' (o_area _ _ _ _ Hown3) (Hsl _ (proj1 Hchild)) Hwf')
    as (m4 & Hrun4 & Hat4 & Hsl4 & Ht4 & _ & _).
  assert (Hps4 : ∀ p, p ∈ [child] → ¬ in_area bm (block_id p)).
  { intros p ->%list_elem_of_singleton. apply Hchild. }
  destruct (dir_in_untouched bm [child] _ m3 m4 d2 (es ++ [DirEntry_new nm id]) Ht4 Hps4) as [Hin4 _]; [by intros b _ []|done|].
  assert (Hc4 : created m4 id ci').
  { eapply (created_untouched m3 m4 [child] (λ _, False)); try done. by intros b _ []. }
  destruct (created_own m4 id ci' Hci Hc4) as [_ Hown4].
  destruct (store_dir m4 bm pos d2 (es ++ [DirEntry_new nm id])) as (m5 & Hrun5 & Hdir5 & Ht5 & _);
    [by eapply slot_untouched, Hsl, Hpos|done|].
  assert (Hps5 : ∀ p, p ∈ [pos] → ¬ in_area bm (block_id p)).
  { intros p ->%list_elem_of_singleton. apply Hpos. }
  assert (Hfile4 : file_at m4 bm child ci') by (destruct Hsl4 as (? & ? & ?); by split).
  destruct (file_untouched bm [pos] (λ _, False) m4 m5 Ht5 Hps5 child ci' Hfile4) as [Hfile5 _];
    [by intros p ->%list_elem_of_singleton|by intros []|by intros b _ []|].
  exists m5, d2, ci'. split; [|split; [done|split; [done|split; [|]]]].
  - unfold Inode_create.
    rewrite (bind_Some _ _ _ _ _ (on_snd_run _ None m _ _ (proj1 (read_at m bm pos di (proj1 Hpos) (fa_inode _ _ _ _ (da_file _ _ _ _ _ Hdir)))))).
    rewrite (di_type _ _ _ _ Hin). change (negb (kDirectory =? kDirectory)) with false. cbv iota.
    unfold alloc_inode. rewrite (bind_Some _ _ _ _ _ (on_snd_run _ None m _ _ Halloc)). fold id. cbv zeta. fold child.
    rewrite (bind_Some _ _ _ tt (Some child, m1)) by done.
    rewrite (bind_Some _ _ _ _ _ (on_snd_run _ (Some child) m1 _ _
      (with_inode_run _ _ _ _ _ _ (returning_run _ _ _ _ _ Happ)))).
    rewrite (bind_Some _ _ _ _ _ Hrun3).
    rewrite (bind_Some _ _ _ _ _ (on_snd_run _ (Some child) m3 _ _ Hrun4)). by apply on_snd_run.
  - eapply (created_untouched m4 m5 [pos] (λ _, False)); try done. by intros b _ [].
  - assert (HF : ∀ T (b : Z), False → T b) by (by intros T b []).
    assert (Ht25 : only_touched bm [child; pos] (λ _, False) m2 m5).
    { apply (only_touched_trans _ _ _ (λ _, False) m2 m4 m5); [|by eapply only_touched_weaken; [| |exact Ht5]; [intros p ->%list_elem_of_singleton; right; left|]|by intros b []].
      apply (only_touched_trans _ _ _ (λ _, False) m2 m3 m4); [|by eapply only_touched_weaken; [| |exact Ht4]; [intros p ->%list_elem_of_singleton; left|]|by intros b []].
      by eapply only_touched_weaken; [| |exact Ht3]; [by intros p ?%not_elem_of_nil|]. }
    assert (Ht15 : only_touched bm [child; pos] (tree_blocks m di) m1 m5).
    { apply (only_touched_trans _ _ _ (λ _, False) m1 m2 m5); [|done|by intros b []].
      eapply only_touched_weaken; [| |exact Ht2]; [by intros p ?%not_elem_of_nil|]. intros b. apply Htb1. }
    destruct (ibm_untouched fs [child; pos] _ m1 m5 Ht15) as [Hib5 Hbits]; [|done|done|].
    { intros p [->|[->|[]%not_elem_of_nil]%elem_of_cons]%elem_of_cons; [apply Hchild|apply Hpos]. }
    assert (Ht1' : ∀ ps, only_touched bm ps (λ b, tree_blocks m di b ∨ in_bitmap ibm b) m m1).
    { intros ps. eapply only_touched_weaken; [| |exact Ht1]; [by intros p ?%not_elem_of_nil|by right]. }
    split; [done|split; [|split]].
    + intros t Ht. rewrite Hbits by done. by apply (bu_bit _ _ _ _ _ Hbu).
    + apply (only_touched_trans _ _ _ (tree_blocks m di) m m1 m5); [done|done|intros b ?; left; by left].
    + exists m2. split; [done|]. split; [|split; [|split; [|done]]].
      * apply (same_then_retree bm m di m1 di); [|done]. by split_and!.
      * apply (only_touched_trans _ _ _ (tree_blocks m1 di) m m1 m2); [done|done|]. intros b ?%Htb1. left. by left.
      * apply (retree_then_same bm m2 ci m4 ci'); [apply (retree_then_same bm m2 ci m3 ci' _ _ Hrt3)|];
          [apply (store_inode_same m3 bm child ci' m4 ci')|apply (store_inode_same m4 bm pos d2 m5 ci')]; try done;
          try apply Hchild; try apply Hpos; try (by apply Hsl, Hchild); [apply Hin4|].
        by apply (slot_untouched bm [child] (λ _, False) m3 m4 pos Ht4 (Hsl pos (proj1 Hpos))).
Qed.
End create.
