(* ===== verification/DirRemove.v ===== *)
(** * Removing directory entries ([unlink] and [remove] of [src/inode.cpp])

    An entry goes away by being overwritten with the last one, which is
    then cut off.  [unlink] decrements the link count of the inode;
    [remove], when that was the last link, frees the inode's id and its
    blocks. *)

From S2P Require Import Prelude Bytes Config BlkIface Bitmap DataArea Layout InodeIO DiskInode Sbfs Inode Frame FileMap FileData FileGrow FileShrink FileResize FileIO Dir Touched FileTrunc DirOps DirCreate.

(** The entries once entry [t] is gone. *)
Definition remove_at (t : nat) (es : list DirEntry) : list DirEntry :=
  match last es with
  | None => []
  | Some y => take (length es - 1) (<[t := y]> es)
  end.

Lemma remove_at_perm t es x : es !! t = Some x → es ≡ₚ x :: remove_at t es.
Proof.
  intros Ht. unfold remove_at. destruct (last es) as [y|] eqn:Hy.
  2: { apply last_None in Hy. by subst. }
  apply last_Some in Hy as [es' ->]. rewrite length_app. simpl. replace (length es' + 1 - 1)%nat with (length es') by lia.
  destruct (decide (t < length es')%nat) as [Hlt|Hge].
  - rewrite insert_app_l, take_app_length' by (by rewrite ?length_insert).
    rewrite lookup_app_l in Ht by done.
    assert (Hx : es' ≡ₚ x :: take t es' ++ drop (S t) es').
    { rewrite <- (take_drop_middle es' t x Ht) at 1. by rewrite Permutation_middle. }
    rewrite (insert_take_drop es' t y) by done. trans (y :: es'); [by rewrite (Permutation_app_comm es')|].
    rewrite Hx at 1. trans (x :: y :: take t es' ++ drop (S t) es'); [apply perm_swap|].
    constructor. apply Permutation_middle.
  - rewrite insert_app_r_alt by lia. pose proof (lookup_lt_Some _ _ _ Ht) as Hl. rewrite length_app in Hl. simpl in Hl.
    replace (t - length es')%nat with 0%nat by lia. simpl. rewrite take_app_length.
    rewrite lookup_app_r in Ht by lia. replace (t - length es')%nat with 0%nat in Ht by lia. injection Ht as ->.
    by rewrite (Permutation_app_comm _ [x]).
Qed.

Lemma dir_in_meta e f m bm d es :
  dir_in m bm d es → dir_in m bm (update_meta e f d) es ∧
  ∀ b, tree_blocks m (update_meta e f d) b ↔ tree_blocks m d b.
Proof.
  intros [Hwf Ho Hty He Hs Hc]. split.
  - split; [by apply wf_meta|by apply (same_tree_own m bm d)|done..].
  - intros b. unfold tree_blocks. change (size (update_meta e f d)) with (size d).
    split; intros (x & Hx & ->); exists x; (split; [done|]); by rewrite (same_tree_id m d (update_meta e f d)).
Qed.

(** Reading an entry. *)
Lemma read_entry e m bm d es (t : nat) y :
  dir_in m bm d es → es !! t = Some y →
  DiskInode_read_data e (sizeof_DirEntry * Z.of_nat t) sizeof_DirEntry (d, m) =
    (Some (sizeof_DirEntry, DirEntry_encode y), (update_meta e 1 d, m)).
Proof.
  intros [Hwf Ho Hty He [Hs Hlt] Hc] Ht. pose proof (lookup_lt_Some _ _ _ Ht) as Hl.
  pose proof (wf_size _ Hwf) as Hu. unfold is_u32 in Hu.
  destruct (data_blocks_eq (size d) Hu) as (_ & Hr & Hb). unfold zlen, sizeof_DirEntry, kBlockSize in *.
  rewrite (DiskInode_read_data_spec e m d _ (256 * Z.of_nat t) 256 (o_tree _ _ _ _ Ho)); simpl;
    unfold kBlockSize; try lia.
  replace (Z.min 256 (size d - 256 * Z.of_nat t)) with 256 by lia.
  rewrite <- slice_content by lia. rewrite Hc. pose proof (slice_entries es t y He Ht) as Hsl.
  unfold sizeof_DirEntry in Hsl. by rewrite Hsl.
Qed.

Lemma move_last_spec e m bm d es (t : nat) x y i j :
  dir_in m bm d es → es !! t = Some x → last es = Some y →
  Z.of_nat t = 16 * i + j → 0 ≤ i → 0 ≤ j < 16 →
  ∃ m2 d2, move_last e (total_blocks (size d)) i j (d, m) = (Some tt, (d2, m2)) ∧
    dir_in m2 bm d2 (<[t := y]> es) ∧ only_touched bm [] (tree_blocks m d) m m2 ∧
    same_blocks_of bm m d m2 d2.
Proof.
  intros Hd Ht Hy Htij Hi Hj. pose proof (lookup_lt_Some _ _ _ Ht) as Hl.
  destruct (di_size _ _ _ _ Hd) as [Hs Hlt]. rewrite last_lookup in Hy.
  destruct (dir_data_blocks m d es (dir_in_data _ _ _ _ Hd)) as (Hu & Hk & Hn & _).
  unfold zlen, sizeof_DirEntry, is_u32 in *.
  pose proof (total_blocks_cover (size d) ltac:(lia)) as Htot.
  unfold move_last. rewrite u32_small by (unfold is_u32; lia). change (kDirEntries - 1) with 15.
  destruct (negb (i =? total_blocks (size d) - 1) || negb (j =? 15)) eqn:Hcond.
  - destruct (write_entry e m bm (update_meta e 1 d) es t y) as (m2 & Hw & Hd2 & Hot & Htb & Hrest);
      [by apply dir_in_meta|done|by apply (Forall_lookup_1 _ _ _ _ (di_entries _ _ _ _ Hd) Hy)|].
    cbv zeta in *. destruct (dir_in_meta e 1 m bm d es Hd) as [_ Htb1].
    exists m2, (update_meta e 3 (update_meta e 1 d)). split; [|split; [done|split; [|split; [|done]]]].
    + rewrite (bind_Some _ _ _ d (d, m)) by done.
      replace (u32 (size d - sizeof_DirEntry)) with (sizeof_DirEntry * Z.of_nat (Nat.pred (length es)))
        by (rewrite u32_small; unfold is_u32, sizeof_DirEntry; lia).
      rewrite (bind_Some _ _ _ _ _ (read_entry e m bm d es _ y Hd Hy)). cbn [fst snd].
      rewrite (bind_Some _ _ _ _ _ (check_len_ok sizeof_DirEntry _ ltac:(done))). cbv zeta.
      rewrite (entry_offset m bm d es t i j Hd Hl Htij).
      assert (Hspl : splice 0 (DirEntry_encode y) (DirEntry_encode DirEntry_default) = DirEntry_encode y).
      { apply splice_all. pose proof (Forall_lookup_1 _ _ _ _ (di_entries _ _ _ _ Hd) Hy) as Hwy.
        by rewrite (zlen_DirEntry_encode y Hwy). }
      rewrite Hspl, (bind_Some _ _ _ _ _ Hw). by apply check_len_ok.
    + eapply only_touched_weaken; [done| |exact Hot]. intros b. apply Htb1.
    + intros b. by rewrite Htb, Htb1.
  - apply orb_false_iff in Hcond as [H1 H2]. apply negb_false_iff, Z.eqb_eq in H1, H2.
    assert (t = Nat.pred (length es)) as -> by lia. assert (x = y) as -> by congruence.
    exists m, d. split_and!; try done; [by rewrite list_insert_id|]. apply only_touched_refl, (di_own _ _ _ _ Hd).
Qed.

Lemma drop_last_spec e fs pos m d es :
  let bm := data_bitmap_ fs in
  dir_in m bm d es → es ≠ [] → inode_slot m bm pos → data_blocks (size d) ≤ 1047 →
  ∃ m' d', drop_last e fs pos (d, m) = (Some tt, (d', m')) ∧ dir_at m' bm pos d' (take (length es - 1) es) ∧
    only_touched bm [pos] (tree_blocks m d) m m' ∧ (∀ b, tree_blocks m' d' b → tree_blocks m d b) ∧
    retree bm m d m' d'.
Proof.
  intros bm [Hwf Ho Hty He [Hs Hlt] Hc] Hne Hslot Hsmall.
  assert (Hlen : (0 < length es)%nat) by (destruct es; [done|simpl; lia]).
  unfold zlen, sizeof_DirEntry in *. set (sz := size d - 256).
  assert (Hblk : data_blocks sz ≤ 1047).
  { pose proof (wf_size _ Hwf) as Hu. unfold is_u32 in Hu.
    pose proof (data_blocks_mono sz (size d) ltac:(unfold sz; lia) ltac:(unfold sz; lia)). lia. }
  destruct (resize_cut e m bm d sz (Some pos) Hwf Ho) as (m' & d' & Hrun & Hcut);
    [unfold sz; lia|done|by intros p [= <-]|].
  exists m', d'. split_and!; [| |apply Hcut|apply Hcut|by apply (cut_retree bm (Some pos) m d sz)].
  - unfold drop_last. rewrite (bind_Some _ _ _ d (d, m)) by done.
    rewrite u32_small by (unfold is_u32, sizeof_DirEntry; lia). exact Hrun.
  - destruct (slot_untouched bm _ _ m m' pos (ct_touched _ _ _ _ _ _ _ Hcut) Hslot) as (Hp' & Hout).
    pose proof (ct_own _ _ _ _ _ _ _ Hcut) as Ho'. pose proof (ct_size _ _ _ _ _ _ _ Hcut) as Hs'.
    pose proof (ct_attrs _ _ _ _ _ _ _ Hcut) as Hat. rewrite <- Hs' in Ho'.
    split; [by split; [| apply Hcut| |]|]. split; [apply Hcut|done| | | |].
    + unfold attrs in Hat. congruence.
    + by apply Forall_take.
    + unfold zlen, sizeof_DirEntry. rewrite length_take. unfold sz in *. lia.
    + rewrite (ct_content _ _ _ _ _ _ _ Hcut), Hc.
      destruct (entries_split es (length es - 1) He) as [<- _]. unfold slice. simpl. f_equal. unfold sz. lia.
Qed.

(** ** [unlink] *)

Lemma elem_of_pair {A} (a b : A) (P : A → Prop) : P a → P b → ∀ p, p ∈ [a; b] → P p.
Proof. by intros Ha Hb p [->| ->%list_elem_of_singleton]%elem_of_cons. Qed.

Lemma elem_of_one {A} (a : A) (P : A → Prop) : P a → ∀ p, p ∈ [a] → P p.
Proof. by intros Ha p ->%list_elem_of_singleton. Qed.

Lemma elem_of_none {A} (P : A → Prop) : ∀ p : A, p ∈ [] → P p.
Proof. by intros p ?%not_elem_of_nil. Qed.

(** Taking entry [t], which the scan found, out of the local directory. *)
Lemma take_out e fs pos m d es (t : nat) x i j :
  let bm := data_bitmap_ fs in
  dir_in m bm d es → es !! t = Some x → Z.of_nat t = 16 * i + j → 0 ≤ i → 0 ≤ j < 16 →
  inode_slot m bm pos → data_blocks (size d) ≤ 1047 →
  ∃ m' d', (move_last e (total_blocks (size d)) i j;;; drop_last e fs pos) (d, m) = (Some tt, (d', m')) ∧
    dir_at m' bm pos d' (remove_at t es) ∧ only_touched bm [pos] (tree_blocks m d) m m' ∧
    (∀ b, tree_blocks m' d' b → tree_blocks m d b) ∧
    retree bm m d m' d'.
Proof.
  intros bm Hd Ht Htij Hi Hj Hslot Hsmall. pose proof (lookup_lt_Some _ _ _ Ht) as Hl.
  destruct (last es) as [y|] eqn:Hy; [|apply last_None in Hy; by subst].
  destruct (move_last_spec e m bm d es t x y i j Hd Ht Hy Htij Hi Hj) as (m1 & d1 & Hmv & Hd1 & Hot1 & Hsb1).
  pose proof (proj1 Hsb1) as Htb1.
  assert (Hs1 : size d1 = size d).
  { destruct (di_size _ _ _ _ Hd1) as [-> _], (di_size _ _ _ _ Hd) as [-> _]. unfold zlen. by rewrite length_insert. }
  destruct (drop_last_spec e fs pos m1 d1 (<[t:=y]> es) Hd1) as (m2 & d2 & Hdr & Hd2 & Hot2 & Htb2 & Hrt2);
    [|by eapply slot_untouched|by rewrite Hs1|].
  { intros Hnil. apply (f_equal length) in Hnil. rewrite length_insert in Hnil. simpl in Hnil. lia. }
  exists m2, d2. split_and!.
  - by rewrite (bind_Some _ _ _ _ _ Hmv).
  - unfold remove_at. rewrite Hy. by rewrite length_insert in Hd2.
  - apply (only_touched_trans _ _ _ (tree_blocks m1 d1) m m1 m2); [|done|intros b Hb; left; by apply Htb1].
    eapply only_touched_weaken; [| |exact Hot1]; [apply elem_of_none|done].
  - intros b Hb. by apply Htb1, Htb2.
  - by apply (same_then_retree bm m d m1 d1).
Qed.

Lemma ibm_not_tree m fs d :
  ibm_ok m fs → file_own m (data_bitmap_ fs) d (file_shape (data_blocks (size d))) →
  ∀ b, tree_blocks m d b → ¬ in_bitmap (inode_bitmap_ fs) b.
Proof.
  intros Hib Ho b Hb Hi. apply (ib_apart _ _ Hib) in Hi as [_ Hi].
  by apply Hi, (tree_in_area m (data_bitmap_ fs) d).
Qed.

(** Giving an inode's id and its blocks back. *)
Lemma release_inode e fs m ci s :
  let bm := data_bitmap_ fs in
  let ibm := inode_bitmap_ fs in
  ibm_ok m fs → DiskInode_wf ci → file_own m bm ci (file_shape (data_blocks (size ci))) → 0 ≤ s < slots ibm →
  ∃ m1 m2, free_inode fs (s + data_segment_offset ibm) m = (Some tt, m1) ∧
    with_inode (linked (-1) ci) (DiskInode_resize e bm 0 None) m1 = (Some tt, m2) ∧ ibm_ok m2 fs ∧
    (∀ t, 0 ≤ t < slots ibm → bm_bit m2 ibm t = if decide (t = s) then false else bm_bit m ibm t) ∧
    (∀ b, tree_blocks m ci b → ¬ used m2 bm b) ∧
    only_touched bm [] (λ b, tree_blocks m ci b ∨ in_bitmap ibm b) m m2 ∧
    ∃ cd', size cd' = 0 ∧ file_own m2 bm cd' (file_shape 0) ∧ retree bm m (linked (-1) ci) m2 cd'.
Proof.
  intros bm ibm Hib Hwf Ho Hs. set (cd := linked (-1) ci).
  destruct (Bitmap_free_spec m ibm s (ib_ok _ _ Hib) Hs) as (m1 & Hfree & Hbu).
  destruct (ibm_touched m fs m1 s false (o_area _ _ _ _ Ho) Hib Hbu) as (Hot1 & Hf1 & Hib1 & Hu1).
  assert (Hp0 : ∀ p : Position, p ∈ [] → ¬ in_area bm (block_id p)) by apply elem_of_none.
  destruct (tree_untouched bm [] _ m m1 Hot1 Hp0 ci Ho (ibm_not_tree m fs ci Hib Ho)) as (Ho1 & _ & Htb1).
  assert (Ho1' : file_own m1 bm cd (file_shape (data_blocks (size cd)))) by (by apply (same_tree_own m1 bm ci)).
  assert (Htc : ∀ b, tree_blocks m1 cd b ↔ tree_blocks m ci b).
  { intros b. rewrite <- Htb1. split; intros (y & Hy & ->); exists y; (split; [done|]);
      by rewrite (same_tree_id m1 ci cd). }
  pose proof (linked_wf (-1) ci Hwf) as Hwfc.
  destruct (resize_cut e m1 bm cd 0 None Hwfc Ho1') as (m2 & cd' & Hcut & Hct);
    [split; [lia|apply (wf_size _ Hwfc)]|by vm_compute|done|].
  pose proof (ct_touched _ _ _ _ _ _ _ Hct) as Hot2.
  destruct (ibm_untouched fs [] _ m1 m2 Hot2) as [Hib2 Hbits2]; [apply elem_of_none| |done|].
  { intros b Hb. apply (ibm_not_tree m fs ci Hib Ho). by apply Htc. }
  exists m1, m2. split_and!; [done|by apply (with_inode_run _ _ _ _ cd')|done| | | |].
  - intros t Ht. rewrite Hbits2 by done. by apply (bu_bit _ _ _ _ _ Hbu).
  - intros b Hb Hu. apply (ct_used _ _ _ _ _ _ _ Hct) in Hu as [_ Hu]. destruct Hu as (y & Hy & _); [by apply Htc|].
    rewrite (ct_size _ _ _ _ _ _ _ Hct) in Hy. change (data_blocks 0) with 0 in Hy.
    destruct y; simpl in Hy; try done; [lia|]. change (subs 0) with 0 in Hy. lia.
  - apply (only_touched_trans _ _ _ (tree_blocks m1 cd) m m1 m2); [|done|intros b Hb; left; left; by apply Htc].
    eapply only_touched_weaken; [done| |exact Hot1]. by right.
  - exists cd'. split; [apply Hct|split; [apply Hct|]].
    apply (same_then_retree bm m cd m1 cd); [|by apply (cut_retree bm None m1 cd 0)].
    split_and!; done.
Qed.

Section unlink.
Context (e : env) (fs : SBFileSystem) (m : store) (pos : Position) (di : DiskInode) (es : list DirEntry).
Context (nm : bytes) (t : nat) (x : DirEntry).
Abbreviation bm := (data_bitmap_ fs).
Abbreviation child := (getDiskInodePos fs (inode x)).
Context (Hdir : dir_at m bm pos di es) (Hnm : cstr nm ≠ []) (Hfind : find_entry nm es = Some (t, x)).
Context (Hsmall : data_blocks (size di) ≤ 1047) (cdi : DiskInode).
Context (Hslot : inode_slot m bm child) (Hat : inode_at m child = Some cdi) (Hdis : pos_disjoint pos child).

(** The scan finds the entry, and the blocks to work on. *)
Lemma unlink_scan :
  ∃ i j blk d1, scan_dir e nm (di, m) = (Some (Some (i, j, blk)), (d1, m)) ∧ dir_in m bm d1 es ∧
    size d1 = size di ∧ attrs d1 = attrs di ∧ (∀ b, tree_blocks m d1 b ↔ tree_blocks m di b) ∧
    Z.of_nat t = 16 * i + j ∧ 0 ≤ i ∧ 0 ≤ j < 16 ∧ dir_entry blk j = x.
Proof.
  pose proof (da_in _ _ _ _ _ Hdir) as Hin.
  destruct (scan_total e m bm di es nm Hin Hnm) as (fd & d1 & Hscan); [right; congruence|].
  destruct (scan_run e m bm di es nm _ _ _ Hin Hnm Hscan) as (_ & Hsame & Hd1 & Hfd).
  destruct fd as [[[i j] blk]|]; [|congruence]. destruct Hfd as (t' & x' & Hf & ? & ? & ? & ?).
  rewrite Hfind in Hf. injection Hf as <- <-. exists i, j, blk, d1.
  split_and!; try done; try lia; [apply (same_but_times_tree _ _ Hsame)|by apply same_but_times_attrs|by apply same_times_tree].
Qed.

(** [unlink] takes the entry out and decrements the link count. *)
Lemma Inode_unlink_spec :
  ∃ m' di', Inode_unlink e fs pos nm (None, m) = (Some tt, (Some child, m')) ∧
    dir_at m' bm pos di' (remove_at t es) ∧ inode_at m' child = Some (linked (-1) cdi) ∧
    only_touched bm [pos; child] (tree_blocks m di) m m' ∧ retree bm m di m' di'.
Proof.
  destruct unlink_scan as (i & j & blk & d1 & Hscan & Hd1 & Hs1 & Has1 & Htb1 & Htij & Hi & Hj & Hx).
  pose proof (dir_at_slot _ _ _ _ _ Hdir) as Hp. pose proof (da_in _ _ _ _ _ Hdir) as Hin.
  destruct (find_entry_lt _ _ _ _ Hfind) as [Hl Ht].
  destruct (take_out e fs pos m d1 es t x i j Hd1 Ht Htij Hi Hj Hp) as (m1 & d2 & Hrun & Hd2 & Hot & Htb & Hrt);
    [by rewrite Hs1|].
  assert (Hat1 : inode_at m1 child = Some cdi).
  { rewrite (ot_inodes _ _ _ _ _ Hot child); try apply Hslot; [done| |by apply elem_of_one].
    by eapply slot_not_tree. }
  destruct (update_link_cnt_spec m1 bm child cdi (-1)) as (m2 & Hup & Hat2 & _ & Hot2 & _ & Hsb2);
    [apply (o_area _ _ _ _ (di_own _ _ _ _ (da_in _ _ _ _ _ Hd2)))|by eapply slot_untouched|done|].
  assert (Hpc : ∀ p, p ∈ [child] → ¬ in_area bm (block_id p)) by (apply elem_of_one, Hslot).
  destruct (file_untouched bm [child] _ m1 m2 Hot2 Hpc pos d2) as [Hf2 _];
    [apply Hd2|by apply elem_of_one, pos_disjoint_sym|by intros []|by intros b _ []|].
  destruct (dir_in_untouched bm [child] _ m1 m2 d2 (remove_at t es) Hot2 Hpc) as [Hd3 _]; [by intros b _ []|apply Hd2|].
  exists m2, d2. split; [|split; [by split|split; [done|split]]].
  - unfold Inode_unlink.
    rewrite (bind_Some _ _ _ _ _ (on_snd_run _ None m _ _ (dir_at_read _ _ _ _ _ Hdir))).
    rewrite (di_type _ _ _ _ Hin). change (negb (kDirectory =? kDirectory)) with false. cbv iota.
    assert (Hloc : (di <- this;; r <- scan_dir e nm;; ret (total_blocks (size di), r)) (di, m) =
      (Some (total_blocks (size di), Some (i, j, blk)), (d1, m))).
    { rewrite (bind_Some _ _ _ di (di, m)) by done. by rewrite (bind_Some _ _ _ _ _ Hscan). }
    rewrite (bind_Some _ _ _ _ _ (on_snd_run _ None m _ _
      (with_inode_run _ _ _ _ _ _ (returning_run _ _ _ _ _ Hloc)))). cbv beta iota.
    rewrite Hx. cbv zeta. rewrite (bind_Some _ _ _ tt (Some child, m)) by done.
    rewrite <- Hs1. rewrite (bind_Some _ _ _ _ _ (on_snd_run _ (Some child) m _ _ (with_inode_run _ _ _ _ _ _ Hrun))).
    by apply on_snd_run.
  - apply (only_touched_trans _ _ _ (λ _, False) m m1 m2);
      [|eapply only_touched_weaken; [| |exact Hot2]; [apply elem_of_one; right; by left|done]|by intros b []].
    eapply only_touched_weaken; [| |exact Hot]; [apply elem_of_one; by left|]. intros b. apply Htb1.
  - apply (retree_then_same bm m di m1 d2); [|apply Hsb2, Hd2].
    by apply (same_then_retree bm m di m d1).
Qed.

(** ** [remove] *)

(** An inode with more links: only the parent's inode is stored again, with
    new access times; the entry stays, and so does the link count. *)
Lemma Inode_remove_linked :
  link_cnt cdi ≠ 1 →
  ∃ m' di', Inode_remove e fs pos nm m = (Some tt, m') ∧ dir_at m' bm pos di' es ∧
    inode_at m' child = Some cdi ∧ only_touched bm [pos] (tree_blocks m di) m m' ∧ retree bm m di m' di'.
Proof.
  intros Hcnt. destruct unlink_scan as (i & j & blk & d1 & Hscan & Hd1 & Hs1 & Has1 & Htb1 & _ & _ & _ & Hx).
  pose proof (dir_at_slot _ _ _ _ _ Hdir) as Hp. pose proof (da_in _ _ _ _ _ Hdir) as Hin.
  destruct (read_at m bm child cdi Hslot Hat) as [Hr Hwf].
  destruct (store_dir m bm pos d1 es Hp Hd1) as (m1 & Hst & Hd1' & Hot & Hsb).
  exists m1, d1. split; [|split; [done|split; [|split]]].
  - unfold Inode_remove. rewrite (bind_Some _ _ _ _ _ (dir_at_read _ _ _ _ _ Hdir)).
    rewrite (di_type _ _ _ _ Hin). change (negb (kDirectory =? kDirectory)) with false. cbv iota.
    apply (with_inode_run _ _ _ _ d1). rewrite (bind_Some _ _ _ di (di, m)) by done. cbv zeta.
    rewrite (bind_Some _ _ _ _ _ Hscan). cbv beta iota. rewrite Hx.
    rewrite (bind_Some _ _ _ _ _ (on_snd_run _ d1 m _ _ Hr)). cbn [link_cnt set_link_cnt].
    pose proof (wf_links _ Hwf) as Hl. unfold is_u16 in Hl.
    destruct (Z.eqb_spec (u16 (link_cnt cdi - 1)) 0) as [Hz|_].
    { exfalso. unfold u16 in Hz. apply Z.mod_divide in Hz as [k Hk]; [|lia]. lia. }
    rewrite (bind_Some _ _ _ d1 (d1, m)) by done. by apply on_snd_run.
  - rewrite (ot_inodes _ _ _ _ _ Hot child); try apply Hslot; [done|by intros []|by apply elem_of_one].
  - eapply only_touched_weaken; [done| |exact Hot]. by intros b [].
  - apply (retree_then_same bm m di m d1); [|done]. apply retree_same; [apply Hin|by split_and!].
Qed.

(** The last link: the entry goes, the inode's id and all its blocks are
    free again. *)
Lemma Inode_remove_last s :
  link_cnt cdi = 1 → file_own m bm cdi (file_shape (data_blocks (size cdi))) →
  (∀ b, tree_blocks m cdi b → ¬ tree_blocks m di b) →
  ibm_ok m fs → child_slot m fs pos →
  0 ≤ s < slots (inode_bitmap_ fs) → inode x = s + data_segment_offset (inode_bitmap_ fs) →
  ∃ m' di', Inode_remove e fs pos nm m = (Some tt, m') ∧ dir_at m' bm pos di' (remove_at t es) ∧
    ibm_ok m' fs ∧
    (∀ t', 0 ≤ t' < slots (inode_bitmap_ fs) →
       bm_bit m' (inode_bitmap_ fs) t' = if decide (t' = s) then false else bm_bit m (inode_bitmap_ fs) t') ∧
    (∀ b, tree_blocks m cdi b → ¬ used m' bm b) ∧
    only_touched bm [pos] (λ b, tree_blocks m di b ∨ tree_blocks m cdi b ∨ in_bitmap (inode_bitmap_ fs) b) m m' ∧
    ∃ mid cdi', dir_at mid bm pos di' (remove_at t es) ∧ retree bm m di mid di' ∧
      only_touched bm [pos] (tree_blocks m di) m mid ∧
      size cdi' = 0 ∧ file_own m' bm cdi' (file_shape 0) ∧ retree bm mid (linked (-1) cdi) m' cdi' ∧
      only_touched bm [] (λ b, tree_blocks mid cdi b ∨ in_bitmap (inode_bitmap_ fs) b) mid m'.
Proof.
  intros Hcnt Hoc Hapart Hib Hps Hs Hid.
  destruct unlink_scan as (i & j & blk & d1 & Hscan & Hd1 & Hs1 & Has1 & Htb1 & Htij & Hi & Hj & Hx).
  pose proof (dir_at_slot _ _ _ _ _ Hdir) as Hp. pose proof (da_in _ _ _ _ _ Hdir) as Hin.
  destruct (read_at m bm child cdi Hslot Hat) as [Hr Hwf]. destruct (find_entry_lt _ _ _ _ Hfind) as [Hl Ht].
  destruct (take_out e fs pos m d1 es t x i j Hd1 Ht Htij Hi Hj Hp) as (m1 & d2 & Hrun & Hd2 & Hot & Htb & Hrt);
    [by rewrite Hs1|].
  assert (Hpp : ∀ p, p ∈ [pos] → ¬ in_area bm (block_id p)) by (apply elem_of_one, Hp).
  destruct (ibm_untouched fs [pos] _ m m1 Hot) as [Hib1 Hbits1];
    [by apply elem_of_one, Hps|intros b; apply (ibm_not_tree m fs d1 Hib), Hd1|done|].
  destruct (tree_untouched bm [pos] _ m m1 Hot Hpp cdi Hoc) as (Hoc1 & _ & Htc1).
  { intros b Hb. rewrite Htb1. by apply Hapart. }
  destruct (release_inode e fs m1 cdi s Hib1 Hwf Hoc1 Hs) as (m2 & m3 & Hfree & Hrs & Hib3 & Hbits3 & Hu3 & Hot3 & cd' & Hcs & Hco & Hcr).
  destruct (dir_at_untouched bm [] _ m1 m3 pos d2 (remove_at t es) Hot3) as [Hd3 _];
    [apply elem_of_none|apply elem_of_none| | |done|].
  { rewrite Htc1. intros [Hb|Hb]; [|by apply Hps]. apply (proj2 (proj2 Hp)). by apply (tree_in_area m bm cdi). }
  { intros b Hb. rewrite Htc1. intros [Hc|Hc].
    - apply (Hapart b Hc). by apply Htb1, Htb.
    - by apply (ibm_not_tree m fs d1 Hib (di_own _ _ _ _ Hd1) b (Htb b Hb)). }
  exists m3, d2. split; [|split; [done|split; [done|split; [|split; [|split]]]]].
  - unfold Inode_remove. rewrite (bind_Some _ _ _ _ _ (dir_at_read _ _ _ _ _ Hdir)).
    rewrite (di_type _ _ _ _ Hin). change (negb (kDirectory =? kDirectory)) with false. cbv iota.
    apply (with_inode_run _ _ _ _ d2). rewrite (bind_Some _ _ _ di (di, m)) by done. cbv zeta.
    rewrite (bind_Some _ _ _ _ _ Hscan). cbv beta iota. rewrite Hx.
    rewrite (bind_Some _ _ _ _ _ (on_snd_run _ d1 m _ _ Hr)). cbn [link_cnt set_link_cnt].
    rewrite Hcnt. change (u16 (1 - 1) =? 0) with true. cbv iota. rewrite <- Hs1.
    unfold bind in Hrun |- *. destruct (move_last _ _ _ _ _) as [[u|] s1]; [|done].
    rewrite Hrun, (on_snd_run _ d2 m1 tt m2) by (by rewrite Hid).
    assert (Hcd : set_link_cnt (u16 (1 - 1)) cdi = linked (-1) cdi) by (unfold linked; by rewrite Hcnt).
    rewrite Hcd. by apply on_snd_run.
  - intros t' Ht'. by rewrite Hbits3, Hbits1.
  - intros b Hb. by apply Hu3, Htc1.
  - apply (only_touched_trans _ _ _ (λ b, tree_blocks m1 cdi b ∨ in_bitmap (inode_bitmap_ fs) b) m m1 m3);
      [|eapply only_touched_weaken; [| |exact Hot3]; [apply elem_of_none|done]|].
    + eapply only_touched_weaken; [done| |exact Hot]. intros b Hb. left. by apply Htb1.
    + intros b [Hb|Hb]; left; right; [left; by apply Htc1|by right].
  - exists m1, cd'. split; [done|]. split; [by apply (same_then_retree bm m di m d1)|]. split; [|done].
    eapply only_touched_weaken; [done| |exact Hot]. intros b. apply Htb1.
Qed.
End unlink.
