(* ===== verification/FreshFs.v ===== *)
(** * A new file system

    What [SBFileSystem::create] leaves on a disk whose bitmaps are zero (a
    new, hence zero-filled, disk file): the root is a directory of two
    entries, both leading to itself, and every data block but the root's
    is free.  All hypotheses of the theorems on directories hold of it. *)

From S2P Require Import Prelude Bytes Config BlkIface Bitmap DataArea Layout InodeIO DiskInode Sbfs Inode Frame SbfsProof FileMap FileData FileGrow FileShrink FileResize FileIO Dir Touched DirOps DirCreate.

(** ** Zero bitmaps *)

Lemma le_combine_zeros n : le_combine (replicate n Byte.x00) = 0.
Proof. induction n as [|n IH]; [done|]. change (replicate (S n) Byte.x00) with (Byte.x00 :: replicate n Byte.x00).
  change (Z.lor (byte.unsigned Byte.x00) (Z.shiftl (le_combine (replicate n Byte.x00)) 8) = 0). by rewrite IH.
Qed.

Lemma load_zeros n off k : load n off (zeros k) = 0.
Proof.
  unfold load, slice, zeros. rewrite drop_replicate, take_replicate. apply le_combine_zeros.
Qed.

Lemma zero_bit s : blk_bit zero_block s = false.
Proof. unfold blk_bit, get64, zero_block. by rewrite load_zeros, Z.bits_0. Qed.

Definition bitmap_zero (m : store) (bm : Bitmap) : Prop := ∀ b, in_bitmap bm b → m !! b = Some zero_block.

Lemma zero_free m bm s : bitmap_geom bm → bitmap_zero m bm → 0 ≤ s < slots bm → bm_bit m bm s = false.
Proof.
  intros Hg Hz Hs. unfold bm_bit. pose proof (slot_block_range bm s Hs) as Hr.
  rewrite Hz by (unfold in_bitmap; lia). apply zero_bit.
Qed.

Lemma zero_free_blocks m bm : bitmap_geom bm → bitmap_zero m bm → free_blocks m bm = slots bm.
Proof.
  intros Hg Hz. unfold free_blocks. rewrite filter_all.
  - unfold zlen. rewrite length_seqZ. destruct Hg as (? & ? & ? & ? & ?).
    unfold slots, slot_per_block, kBlockSize in *. lia.
  - apply Forall_forall. intros s Hs%elem_of_seqZ. apply zero_free; [done|done|lia].
Qed.

(** ** The root's block *)

Lemma root_entry id : is_u32 id →
  mkDirEntry (strcpy dot (name DirEntry_default)) id = DirEntry_new dot id ∧
  mkDirEntry (strcpy dotdot (name DirEntry_default)) id = DirEntry_new dotdot id.
Proof. intros Hu. unfold DirEntry_new. rewrite u32_small by done. split; f_equal; by vm_compute. Qed.

Definition root_entries (id : Z) : list DirEntry := [DirEntry_new dot id; DirEntry_new dotdot id].

Lemma root_block id :
  is_u32 id → blk_wf (root_dir_block id) ∧ slice 0 512 (root_dir_block id) = entries_bytes (root_entries id).
Proof.
  intros Hu. unfold root_dir_block. destruct (root_entry id Hu) as [-> ->]. unfold set_dir_entry.
  pose proof (zlen_DirEntry_encode _ (DirEntry_new_wf dot id)) as Z0.
  pose proof (zlen_DirEntry_encode _ (DirEntry_new_wf dotdot id)) as Z1.
  unfold entries_bytes, root_entries. cbn [mbind list_bind]. rewrite app_nil_r.
  set (E0 := DirEntry_encode (DirEntry_new dot id)) in *. set (E1 := DirEntry_encode (DirEntry_new dotdot id)) in *.
  unfold sizeof_DirEntry in *. change (0 * 256) with 0. change (1 * 256) with 256.
  assert (Hz : zlen DirBlock_new = 4096) by done.
  assert (H0 : zlen (splice 0 E0 DirBlock_new) = 4096) by (rewrite zlen_splice; lia).
  assert (H1 : zlen (splice 256 E1 (splice 0 E0 DirBlock_new)) = 4096) by (rewrite zlen_splice; lia).
  split; [exact H1|]. rewrite <- (slice_cat 0 256 256 256) by lia. f_equal.
Qed.

(** ** A file of one block *)

Section one_block.
Context (m : store) (bm : Bitmap) (d : DiskInode) (b : Z).
Context (Ha : area_ok m bm) (Hb : used m bm b) (Hwf : DiskInode_wf d).
Context (Hd : direct_at d 0 = b) (H1 : indirect1 d = 0) (H2 : indirect2 d = 0).

Lemma one_block_live x : live (file_shape 1) x → x = NData 0.
Proof.
  destruct x as [i| | |j]; simpl; [intros; f_equal; lia|done|done|]. change (subs 1) with 0. lia.
Qed.

Lemma one_block_own : file_own m bm d (file_shape 1) ∧ file_bytes m d 1 = blk_at m b.
Proof.
  split.
  - split; [split| | |done|done]; try apply Ha.
    + apply (wf_direct _ Hwf).
    + split; [apply (wf_ind1 _ Hwf)|apply (wf_ind2 _ Hwf)].
    + by apply file_shape_ok.
    + intros x ->%one_block_live. change (node_id m d (NData 0)) with (direct_at d 0). rewrite Hd.
      apply (in_area_block m bm); [done|apply Hb].
    + by intros x y ->%one_block_live ->%one_block_live.
    + intros x ->%one_block_live. change (node_id m d (NData 0)) with (direct_at d 0). by rewrite Hd.
  - unfold file_bytes. change (seqZ 0 1) with [0]. cbn [mbind list_bind]. rewrite app_nil_r.
    change (node_id m d (NData 0)) with (direct_at d 0). by rewrite Hd.
Qed.
End one_block.
