(* ===== verification/Volume.v ===== *)
(** * A whole file system, and what it means

    [volume] is the invariant of a mounted file system: its files and
    directories own pairwise disjoint sets of blocks, every block the data
    bitmap marks is a block of one of them, the inode bitmap marks the ids
    of the inodes there are, each inode is stored where its id says, and
    block 0 is the super block of the handle.

    [vol] is its abstraction, against which the operations are specified in
    [VolumeOps.v]: a map from inode ids to objects, which are the bytes and
    the attributes (not the times) of a file, and the number of free
    blocks. *)

From S2P Require Import Prelude Bytes Config BlkIface Bitmap DataArea Layout InodeIO DiskInode Sbfs Inode Frame SbfsProof FileMap FileData FileGrow FileShrink FileResize FileIO Dir Touched FileTrunc DirOps DirCreate.

(** ** Files side by side *)

Record forest (m : store) (bm : Bitmap) (F : gmap Z DiskInode) : Prop := {
  fo_area : area_ok m bm;
  fo_own i di : F !! i = Some di → file_own m bm di (file_shape (data_blocks (size di)));
  fo_apart i j di dj b : F !! i = Some di → F !! j = Some dj → i ≠ j →
    tree_blocks m di b → ¬ tree_blocks m dj b;
  fo_used b : used m bm b → ∃ i di, F !! i = Some di ∧ tree_blocks m di b;
}.

(** The other files after one of them has changed. *)
Definition others_kept (m m' : store) (F : gmap Z DiskInode) (i : Z) : Prop :=
  ∀ j dj, j ≠ i → F !! j = Some dj →
    content m' dj = content m dj ∧ ∀ b, tree_blocks m' dj b ↔ tree_blocks m dj b.

Section step.
Context (m : store) (bm : Bitmap) (F : gmap Z DiskInode) (i : Z) (di : DiskInode).
Context (Hfo : forest m bm F) (Hi : F !! i = Some di).
Context (ps : list Position) (T : Z → Prop) (m' : store) (di' : DiskInode).
Context (Hot : only_touched bm ps T m m') (Hps : ∀ p, p ∈ ps → ¬ in_area bm (block_id p)).
Context (HT : ∀ b, T b → tree_blocks m di b ∨ ¬ in_area bm b).

Lemma others_step j dj : j ≠ i → F !! j = Some dj →
  file_own m' bm dj (file_shape (data_blocks (size dj))) ∧ content m' dj = content m dj ∧
  ∀ b, tree_blocks m' dj b ↔ tree_blocks m dj b.
Proof.
  intros Hj Hdj. pose proof (fo_own _ _ _ Hfo _ _ Hdj) as Ho.
  apply (tree_untouched bm ps T m m' Hot Hps dj Ho). intros b Hb [Hd|Hn]%HT.
  - by apply (fo_apart _ _ _ Hfo j i dj di b).
  - by apply Hn, (tree_in_area m bm dj).
Qed.

Lemma forest_change :
  file_own m' bm di' (file_shape (data_blocks (size di'))) →
  (∀ b, tree_blocks m' di' b → used m bm b → tree_blocks m di b) →
  (∀ b, used m' bm b → (used m bm b ∧ (tree_blocks m di b → tree_blocks m' di' b)) ∨ tree_blocks m' di' b) →
  forest m' bm (<[i := di']> F) ∧ others_kept m m' F i.
Proof.
  intros Ho' Hfresh Hused. split; [|intros j dj Hj Hdj; exact (proj2 (others_step j dj Hj Hdj))].
  assert (Hother : ∀ j dj b, j ≠ i → F !! j = Some dj → tree_blocks m' di' b → ¬ tree_blocks m' dj b).
  { intros j dj b Hj Hdj Hb Hb'. destruct (others_step j dj Hj Hdj) as (_ & _ & Htb). apply Htb in Hb'.
    apply (fo_apart _ _ _ Hfo i j di dj b); try done. apply Hfresh; [done|].
    by apply (own_tree_used m bm dj); [apply (fo_own _ _ _ Hfo j)|]. }
  split.
  - apply Ho'.
  - intros j dj. destruct (decide (j = i)) as [->|Hj].
    + rewrite lookup_insert_eq. by intros [= <-].
    + rewrite lookup_insert_ne by done. intros Hdj. apply (others_step j dj Hj Hdj).
  - intros j k dj dk b. destruct (decide (j = i)) as [->|Hj], (decide (k = i)) as [->|Hk];
      rewrite ?lookup_insert_eq, ?lookup_insert_ne by done.
    + done.
    + intros [= <-] Hdk _ Hb. by apply (Hother k dk b).
    + intros Hdj [= <-] _ Hb Hb'. by apply (Hother j dj b).
    + intros Hdj Hdk Hne Hb Hb'. apply (others_step j dj Hj Hdj) in Hb. apply (others_step k dk Hk Hdk) in Hb'.
      by apply (fo_apart _ _ _ Hfo j k dj dk b).
  - intros b [[Hu Hb]|Hb]%Hused.
    2: { exists i, di'. by rewrite lookup_insert_eq. }
    destruct (fo_used _ _ _ Hfo b Hu) as (k & dk & Hdk & Htk). destruct (decide (k = i)) as [->|Hk].
    + exists i, di'. rewrite lookup_insert_eq. split; [done|]. apply Hb. by simplify_eq.
    + exists k, dk. rewrite lookup_insert_ne by done. split; [done|]. by apply (others_step k dk).
Qed.

Lemma forest_step :
  file_own m' bm di' (file_shape (data_blocks (size di'))) → retree bm m di m' di' →
  forest m' bm (<[i := di']> F) ∧ others_kept m m' F i.
Proof. intros Ho' [Hfresh Hused _ _]. apply forest_change; [done|done|]. intros b. apply Hused. Qed.
End step.

(** Another inode for the same blocks. *)
Lemma forest_same m bm F i di di' :
  forest m bm F → F !! i = Some di → same_tree di di' → size di' = size di →
  forest m bm (<[i := di']> F).
Proof.
  intros Hfo Hi Hst Hs. pose proof (same_tree_blocks m di di' Hst Hs) as Htb.
  pose proof (fo_own _ _ _ Hfo i di Hi) as Ho.
  apply (forest_change m bm F i di Hfo Hi [] (λ _, False) m di').
  - by apply only_touched_refl, Hfo.
  - by intros p ?%not_elem_of_nil.
  - by intros b [].
  - rewrite Hs. by apply (same_tree_own m bm di).
  - intros b. by rewrite Htb.
  - intros b Hb. left. split; [done|]. by rewrite Htb.
Qed.

(** A file without blocks comes and goes. *)
Lemma forest_insert m bm F i d :
  forest m bm F → F !! i = None → file_own m bm d (file_shape (data_blocks (size d))) →
  (∀ b, ¬ tree_blocks m d b) → forest m bm (<[i := d]> F).
Proof.
  intros [A O P U] Hi Ho Hn. split; [done| | |].
  - intros j dj. destruct (decide (j = i)) as [->|Hj].
    + rewrite lookup_insert_eq. by intros [= <-].
    + rewrite lookup_insert_ne by done. apply O.
  - intros j k dj dk b. destruct (decide (j = i)) as [->|Hj], (decide (k = i)) as [->|Hk];
      rewrite ?lookup_insert_eq, ?lookup_insert_ne by done.
    + done.
    + intros [= <-] _ _ Hb. by destruct (Hn b).
    + intros _ [= <-] _ _. apply Hn.
    + apply P.
  - intros b Hb. destruct (U b Hb) as (k & dk & Hdk & Htk). exists k, dk.
    split; [|done]. rewrite lookup_insert_ne; [done|]. intros ->. congruence.
Qed.

Lemma forest_delete m bm F i d :
  forest m bm F → F !! i = Some d → (∀ b, ¬ tree_blocks m d b) → forest m bm (delete i F).
Proof.
  intros [A O P U] Hi Hn. split; [done| | |].
  - intros j dj [_ Hj]%lookup_delete_Some. by apply (O j).
  - intros j k dj dk b [_ Hj]%lookup_delete_Some [_ Hk]%lookup_delete_Some. by apply P.
  - intros b Hb. destruct (U b Hb) as (k & dk & Hdk & Htk). exists k, dk.
    split; [|done]. apply lookup_delete_Some. split; [|done]. intros <-. simplify_eq. by destruct (Hn b).
Qed.

(** ** The invariant *)

(** The ids whose inodes lie in the inode area. *)
Definition valid_id (fs : SBFileSystem) (i : Z) : Prop :=
  data_segment_offset (inode_bitmap_ fs) ≤ i < slots (inode_bitmap_ fs).

(** The regions of the disk are apart. *)
Record vol_geom (fs : SBFileSystem) : Prop := {
  vg_open : fs = initBitmapAndBlock (super_block_ fs) ∧ SuperBlock_wf (super_block_ fs) ∧
    SuperBlock_isValid (super_block_ fs) = true;
  vg_ids : ids_ok fs (slots (inode_bitmap_ fs)) ∧ 0 < data_segment_offset (inode_bitmap_ fs);
  vg_place i : valid_id fs i →
    let b := block_id (getDiskInodePos fs i) in
    ¬ in_bitmap (data_bitmap_ fs) b ∧ ¬ in_area (data_bitmap_ fs) b ∧ ¬ in_bitmap (inode_bitmap_ fs) b ∧ b ≠ 0;
  vg_zero : ¬ in_bitmap (data_bitmap_ fs) 0 ∧ ¬ in_area (data_bitmap_ fs) 0 ∧ ¬ in_bitmap (inode_bitmap_ fs) 0;
}.

Section volume.
Context (fs : SBFileSystem).
Abbreviation bm := (data_bitmap_ fs).
Abbreviation ibm := (inode_bitmap_ fs).
Abbreviation P := (getDiskInodePos fs).
Abbreviation off := (data_segment_offset ibm).

Record volume (m : store) (F : gmap Z DiskInode) : Prop := {
  vo_geom : vol_geom fs;
  vo_forest : forest m bm F;
  vo_ibm : ibm_ok m fs;
  vo_in i : valid_id fs i → is_Some (m !! block_id (P i));
  vo_inode i di : F !! i = Some di → valid_id fs i ∧ inode_at m (P i) = Some di;
  vo_bits i : off ≤ i < off + slots ibm → bm_bit m ibm (i - off) = true ↔ is_Some (F !! i);
  vo_super : m !! 0 = Some (SuperBlock_encode (super_block_ fs));
}.

Lemma valid_range i : vol_geom fs → valid_id fs i → 0 ≤ i ≤ slots ibm.
Proof. intros [_ [_ ?] _ _] ?. unfold valid_id in *. lia. Qed.

Lemma vol_disjoint i j : vol_geom fs → valid_id fs i → valid_id fs j → i ≠ j → pos_disjoint (P i) (P j).
Proof.
  intros Hg Hi Hj Hne. apply (pos_apart fs (slots ibm) i j); [apply Hg|by apply valid_range..|done].
Qed.

Lemma vol_id i : vol_geom fs → valid_id fs i → getDiskInodeId fs (P i) = i.
Proof. intros Hg Hi. apply (id_of_pos fs (slots ibm)); [apply Hg|by apply valid_range]. Qed.

Lemma vol_offset i : vol_geom fs → valid_id fs i →
  is_u32 (block_id (P i)) ∧ 0 ≤ block_offset (P i) ∧ block_offset (P i) + sizeof_DiskInode ≤ kBlockSize.
Proof.
  intros Hg Hi. split; [apply u32_range|]. pose proof (valid_range i Hg Hi) as Hr.
  apply (pos_apart fs (slots ibm) i 0); [apply Hg|done|lia|]. pose proof (vg_ids _ Hg). unfold valid_id in Hi. lia.
Qed.

Lemma vol_slot m F i : volume m F → valid_id fs i → child_slot m fs (P i).
Proof.
  intros Hv Hi. pose proof (vo_geom _ _ Hv) as Hg. destruct (vg_place _ Hg i Hi) as (H1 & H2 & H3 & _).
  destruct (vol_offset i Hg Hi) as (Hu & Ho). split; [|done]. split; [|done].
  split_and!; try apply Ho; [done|by apply (vo_in _ _ Hv)].
Qed.

Lemma vol_file m F i di : volume m F → F !! i = Some di → file_at m bm (P i) di.
Proof.
  intros Hv Hi. destruct (vo_inode _ _ Hv i di Hi) as [Hval Hat].
  destruct (vol_slot m F i Hv Hval) as [(Hp & Hnb & Hna) _].
  split; [done|done|done|]. by apply (fo_own _ _ _ (vo_forest _ _ Hv) i).
Qed.

(** Establishing the invariant after an operation that stores inodes at
    [ps] and changes blocks of the data area and of the inode bitmap. *)
Lemma vol_commit m F m' F' (ks : list Z) T :
  volume m F → forest m' bm F' → only_touched bm (P <$> ks) T m m' → (∀ k, k ∈ ks → valid_id fs k) →
  (∀ b, T b → in_area bm b ∨ in_bitmap ibm b) →
  (∀ j dj, F' !! j = Some dj → valid_id fs j ∧ inode_at m' (P j) = Some dj ∨ F !! j = Some dj ∧ j ∉ ks) →
  ibm_ok m' fs →
  (∀ j, off ≤ j < off + slots ibm → bm_bit m' ibm (j - off) = true ↔ is_Some (F' !! j)) →
  volume m' F'.
Proof.
  intros Hv Hfo Hot Hks HT Hin Hib Hbits. pose proof (vo_geom _ _ Hv) as Hg.
  assert (HTp : ∀ j, valid_id fs j → ¬ T (block_id (P j))).
  { intros j Hj [?|?]%HT; by destruct (vg_place _ Hg j Hj) as (? & ? & ? & _). }
  split; [done|done|done| | |done|].
  - intros j Hj. apply (ot_dom _ _ _ _ _ Hot). by apply (vo_in _ _ Hv).
  - intros j dj [?|[Hj Hn]]%Hin; [done|]. destruct (vo_inode _ _ Hv j dj Hj) as [Hval Hat]. split; [done|].
    destruct (vg_place _ Hg j Hval) as (? & ? & ? & _).
    rewrite (ot_inodes _ _ _ _ _ Hot); try done; [by apply HTp| |by apply vol_offset].
    intros p (k & -> & Hk)%list_elem_of_fmap. apply vol_disjoint; auto. by intros ->.
  - destruct (vg_zero _ Hg) as (? & ? & ?).
    rewrite (ot_blocks _ _ _ _ _ Hot); [apply Hv|done| |done|].
    + intros p (k & -> & Hk)%list_elem_of_fmap. by destruct (vg_place _ Hg k (Hks k Hk)) as (_ & _ & _ & ?).
    + by intros [?|?]%HT.
Qed.

(** The inode bitmap after an operation that does not touch it. *)
Lemma vol_bits m F m' (ks : list Z) T :
  volume m F → only_touched bm (P <$> ks) T m m' → (∀ k, k ∈ ks → valid_id fs k) →
  (∀ b, T b → in_area bm b) →
  ibm_ok m' fs ∧ ∀ t, 0 ≤ t < slots ibm → bm_bit m' ibm t = bm_bit m ibm t.
Proof.
  intros Hv Hot Hks HT. apply (ibm_untouched fs (P <$> ks) T m m' Hot); [| |apply Hv].
  - intros p (k & -> & Hk)%list_elem_of_fmap. by destruct (vg_place _ (vo_geom _ _ Hv) k (Hks k Hk)) as (_ & _ & ? & _).
  - intros b Hb%HT Hi. by apply (ib_apart _ _ (vo_ibm _ _ Hv)) in Hi as [_ ?].
Qed.

(** ** The abstraction *)

Definition obj : Type := (Z * Z * Z * Z * Z) * bytes.

Record vstate := mkV { v_objs : gmap Z obj; v_free : Z }.

Definition objs (m : store) (F : gmap Z DiskInode) : gmap Z obj := (λ di, (attrs di, content m di)) <$> F.

Definition vol (m : store) (v : vstate) : Prop :=
  ∃ F, volume m F ∧ v = mkV (objs m F) (free_blocks m bm).

(** The blocks an object takes, index blocks included. *)
Definition cost (o : obj) : Z := nodes (file_shape (data_blocks (zlen o.2))).

Definition v_put (i : Z) (o : obj) (v : vstate) : vstate :=
  mkV (<[i := o]> (v_objs v)) (v_free v + from_option cost 0 (v_objs v !! i) - cost o).

Definition v_del (i : Z) (v : vstate) : vstate :=
  mkV (delete i (v_objs v)) (v_free v + from_option cost 0 (v_objs v !! i)).

Lemma vol_size m F i di : volume m F → F !! i = Some di →
  DiskInode_wf di ∧ zlen (content m di) = size di ∧ cost (attrs di, content m di) = nodes (file_shape (data_blocks (size di))).
Proof.
  intros Hv Hi. destruct (vol_file m F i di Hv Hi) as [_ Hat _ Ho]. pose proof (inode_at_wf _ _ _ Hat) as Hwf.
  assert (Hz : zlen (content m di) = size di).
  { apply zlen_content; [apply (o_tree _ _ _ _ Ho)|apply Hwf]. }
  split_and!; [done|done|]. unfold cost. simpl. by rewrite Hz.
Qed.

Lemma objs_insert m m' F i di' :
  others_kept m m' F i → objs m' (<[i := di']> F) = <[i := (attrs di', content m' di')]> (objs m F).
Proof.
  intros Hk. apply map_eq. intros j. unfold objs. rewrite lookup_fmap. destruct (decide (j = i)) as [->|Hj].
  - by rewrite !lookup_insert_eq.
  - rewrite !lookup_insert_ne, lookup_fmap by done. destruct (F !! j) as [dj|] eqn:Hdj; [|done]. simpl.
    by destruct (Hk j dj Hj Hdj) as [-> _].
Qed.

Lemma vol_lookup m v i a b :
  vol m v → v_objs v !! i = Some (a, b) →
  ∃ F di, volume m F ∧ v = mkV (objs m F) (free_blocks m bm) ∧ F !! i = Some di ∧ attrs di = a ∧
    content m di = b ∧ size di = zlen b ∧ DiskInode_wf di.
Proof.
  intros (F & Hv & ->) Hi. simpl in Hi. unfold objs in Hi. rewrite lookup_fmap in Hi.
  destruct (F !! i) as [di|] eqn:Hdi; [|done]. injection Hi as <- <-. exists F, di.
  destruct (vol_size m F i di Hv Hdi) as (? & ? & _). by split_and!.
Qed.

(** One file changed and its inode stored. *)
Lemma volume_put m F i di m' di' :
  volume m F → F !! i = Some di → file_at m' bm (P i) di' →
  only_touched bm [P i] (tree_blocks m di) m m' → retree bm m di m' di' →
  volume m' (<[i := di']> F) ∧
  mkV (objs m' (<[i := di']> F)) (free_blocks m' bm) =
    v_put i (attrs di', content m' di') (mkV (objs m F) (free_blocks m bm)).
Proof.
  intros Hv Hi Hf Hot Hrt. pose proof (vo_geom _ _ Hv) as Hg.
  destruct (vo_inode _ _ Hv i di Hi) as [Hval _].
  destruct (forest_step m bm F i di (vo_forest _ _ Hv) Hi [P i] _ m' di' Hot) as [Hfo Hk];
    [intros p ->%list_elem_of_singleton; by apply (vol_slot m F i)|by left|apply Hf|done|].
  assert (Hks : ∀ k, k ∈ [i] → valid_id fs k) by by intros k ->%list_elem_of_singleton.
  assert (HT : ∀ b, tree_blocks m di b → in_area bm b).
  { intros b. apply (tree_in_area m bm di). by apply (fo_own _ _ _ (vo_forest _ _ Hv) i). }
  destruct (vol_bits m F m' [i] _ Hv Hot Hks HT) as [Hib Hb].
  assert (Hv' : volume m' (<[i := di']> F)).
  { apply (vol_commit m F m' _ [i] (tree_blocks m di)); try done.
    - intros b Hb'. left. auto.
    - intros j dj. destruct (decide (j = i)) as [->|Hj].
      + rewrite lookup_insert_eq. intros [= <-]. left. split; [done|apply Hf].
      + rewrite lookup_insert_ne by done. intros Hdj. right. split; [done|]. by intros ->%list_elem_of_singleton.
    - intros j Hj. rewrite Hb, (vo_bits _ _ Hv j Hj) by lia. destruct (decide (j = i)) as [->|Hne].
      + rewrite lookup_insert_eq, Hi. by split; eexists.
      + by rewrite lookup_insert_ne. }
  split; [done|]. unfold v_put. simpl. rewrite (objs_insert m m' F i di' Hk). f_equal.
  unfold objs. rewrite lookup_fmap, Hi. simpl.
  destruct (vol_size m F i di Hv Hi) as (_ & _ & ->).
  destruct (vol_size m' _ i di' Hv') as (_ & _ & ->); [by rewrite lookup_insert_eq|].
  pose proof (rt_count _ _ _ _ _ Hrt). lia.
Qed.
End volume.
