(* ===== verification/VolumeOps.v ===== *)
(** * The operations of [Inode] on a whole file system

    Each operation of [src/inode.cpp] on a volume does to the objects of
    the volume ([vstate] of [Volume.v]) what its specification says, and
    leaves a volume behind: reading gives the bytes and changes nothing,
    writing replaces bytes of one object, a directory operation changes the
    directory's entries and the link count, and every other object is as it
    was.  The number of free blocks is accounted for exactly. *)

From S2P Require Import Prelude Bytes Config BlkIface Bitmap DataArea Layout InodeIO DiskInode Sbfs Inode Frame SbfsProof FileMap FileData FileGrow FileShrink FileResize FileIO Dir Touched FileTrunc DirOps DirCreate DirRemove Volume.

(** ** Attributes *)

Definition a_type (a : Z * Z * Z * Z * Z) : Z := a.2.
Definition a_links (a : Z * Z * Z * Z * Z) : Z := a.1.1.2.
Definition a_bump (delta : Z) (a : Z * Z * Z * Z * Z) : Z * Z * Z * Z * Z :=
  (a.1.1.1, u16 (a_links a + delta), a.1.2, a.2).

Lemma attrs_linked delta di : attrs (linked delta di) = a_bump delta (attrs di).
Proof. done. Qed.

(** A directory with entries [es]. *)
Record is_dir (o : obj) (es : list DirEntry) : Prop := {
  id_type : a_type o.1 = kDirectory;
  id_entries : Forall DirEntry_wf es;
  id_bytes : o.2 = entries_bytes es;
  id_small : zlen o.2 < 2 ^ 31;
}.

Section ops.
Context (fs : SBFileSystem).
Abbreviation bm := (data_bitmap_ fs).
Abbreviation ibm := (inode_bitmap_ fs).
Abbreviation P := (getDiskInodePos fs).
Abbreviation off := (data_segment_offset ibm).

Lemma only_file_touched pos di di' m m' :
  file_at m' bm pos di' → (∀ b, is_Some (m' !! b) ↔ is_Some (m !! b)) → only_file bm pos di m m' →
  only_touched bm [pos] (tree_blocks m di) m m'.
Proof.
  intros Hf Hd [B I U]. split; [apply (fa_own _ _ _ _ Hf)| | |auto|done].
  - intros b Hb Hp Hu Ht. apply B; [done|apply Hp; by left|done|]. intros x Hx ->. apply Ht. by exists x.
  - intros q Hnb Hna Ht Hq H0. pose proof (Hq pos ltac:(by left)) as Hdis.
    destruct (decide (block_id q = block_id pos)) as [He|He]; [by apply I|].
    unfold inode_at. rewrite B; [done|done|done|done|]. intros x Hx He'. apply Ht. by exists x.
Qed.

Lemma vol_put m F i di m' di' :
  volume fs m F → F !! i = Some di → file_at m' bm (P i) di' →
  only_touched bm [P i] (tree_blocks m di) m m' → retree bm m di m' di' →
  vol fs m' (v_put i (attrs di, content m' di') (mkV (objs m F) (free_blocks m bm))).
Proof.
  intros Hv Hi Hf Hot Hrt. destruct (volume_put fs m F i di m' di' Hv Hi Hf Hot Hrt) as [Hv' He].
  rewrite (rt_attrs _ _ _ _ _ Hrt) in He. by exists (<[i := di']> F).
Qed.

Lemma v_put_same i o v : v_objs v !! i = Some o → v_put i o v = v.
Proof.
  intros Hi. unfold v_put. rewrite Hi, insert_id by done. simpl. destruct v. f_equal. simpl. lia.
Qed.

(** ** Files *)

(** A read keeps all objects. *)
Lemma vol_read_keeps e m F i di o len r m' :
  volume fs m F → F !! i = Some di → Inode_read_data e (P i) o len m = (r, m') →
  file_at m' bm (P i) (update_meta e 1 di) → content m' (update_meta e 1 di) = content m di →
  only_file bm (P i) di m m' → same_blocks_of bm m di m' (update_meta e 1 di) → vol fs m' (mkV (objs m F) (free_blocks m bm)).
Proof.
  intros Hv Hdi Hrun Hf' Hc Hof Hsb. pose proof (vol_file fs m F i di Hv Hdi) as Hf.
  assert (Hot : only_touched bm [P i] (tree_blocks m di) m m').
  { apply (only_file_touched (P i) di _ m m' Hf'); [|done].
    pose proof (Inode_read_data_steps e (P i) o len m) as St. rewrite Hrun in St. apply St. }
  pose proof (vol_put m F i di m' _ Hv Hdi Hf' Hot (retree_same _ _ _ _ _ (fa_own _ _ _ _ Hf) Hsb)) as Hp.
  rewrite Hc, v_put_same in Hp; [done|]. cbn [v_objs]. unfold objs. by rewrite lookup_fmap, Hdi.
Qed.

Lemma vol_read e m v i a b o len :
  vol fs m v → v_objs v !! i = Some (a, b) → zlen b < 2 ^ 31 → 0 ≤ o < zlen b → 0 < len → o + len < 2 ^ 32 →
  ∃ m', Inode_read_data e (P i) o len m =
      (Some (Z.min len (zlen b - o), slice o (Z.min len (zlen b - o)) b), m') ∧ vol fs m' v.
Proof.
  intros Hvol Hi Hb Ho Hlen Hend.
  destruct (vol_lookup fs m v i a b Hvol Hi) as (F & di & Hv & -> & Hdi & <- & <- & Hs & Hwf).
  rewrite <- Hs in *. pose proof (vol_file fs m F i di Hv Hdi) as Hf.
  destruct (Inode_read_data_spec e m bm (P i) di o len Hf Hb Ho Hlen Hend) as (m' & Hrun & Hf' & Hc & Hof & Hsb).
  exists m'. split; [done|]. by eapply vol_read_keeps.
Qed.

(** A read where the object ends gives nothing, or fails; past the end it fails. *)
Lemma vol_read_end e m v i a b o len :
  vol fs m v → v_objs v !! i = Some (a, b) → zlen b ≤ o → 0 < len → o + len < 2 ^ 32 →
  ∃ r m', Inode_read_data e (P i) o len m = (r, m') ∧ vol fs m' v ∧ (r = None ∨ r = Some (0, []) ∧ o = zlen b).
Proof.
  intros Hvol Hi Ho Hlen Hend. destruct (vol_lookup fs m v i a b Hvol Hi) as (F & di & Hv & -> & Hdi & <- & <- & Hs & Hwf).
  rewrite <- Hs in *. pose proof (vol_file fs m F i di Hv Hdi) as Hf.
  destruct (read_past_end e m di o len (wf_size _ Hwf) Ho Hlen Hend) as (r & Hread & [->|[-> Hoe]]).
  - exists None, m. split; [|split; [done|by left]].
    destruct (Inode_read_inode_spec m (P i) (fa_pos _ _ _ _ Hf)) as (di' & Hat' & _ & Hrun).
    assert (di' = di) as -> by (pose proof (fa_inode _ _ _ _ Hf); congruence).
    unfold Inode_read_data. rewrite (bind_Some _ _ _ _ _ Hrun). apply bind_None. unfold with_inode, returning.
    by rewrite (bind_None _ _ _ _ Hread).
  - destruct (Inode_read_data_done e m bm (P i) di o len 0 [] Hf ltac:(done) Hread) as (m' & Hrun & Hf' & Hc & Hof & Hsb).
    exists (Some (0, [])), m'. split; [done|]. split; [by eapply vol_read_keeps|by right].
Qed.

Lemma vol_write e m v i a b o buf :
  vol fs m v → v_objs v !! i = Some (a, b) → zlen b < 2 ^ 31 → 0 ≤ o → 0 < zlen buf →
  o + zlen buf < 2 ^ 31 → nodes (file_shape (data_blocks (Z.max (zlen b) (o + zlen buf)))) - cost (a, b) ≤ v_free v →
  ∃ m' x, zlen x = Z.max 0 (o - zlen b) ∧ Inode_write_data e fs (P i) o buf (zlen buf) m = (Some (zlen buf), m') ∧
    vol fs m' (v_put i (a, overwrite o buf (b ++ x)) v).
Proof.
  intros Hvol Hi Hb Ho Hlen Hend Hfree.
  destruct (vol_lookup fs m v i a b Hvol Hi) as (F & di & Hv & -> & Hdi & <- & <- & Hs & Hwf).
  pose proof (vol_file fs m F i di Hv Hdi) as Hf. unfold cost in Hfree. cbn [snd v_free] in Hfree.
  rewrite <- Hs in *.
  destruct (Inode_write_data_spec e fs m (P i) di o buf (zlen buf) Hf Hb Ho Hlen Hend eq_refl Hfree)
    as (m' & di' & x & Hx & Hrun & Hf' & Hs' & _ & Hc & Hof & Hrt).
  exists m', x. split; [done|]. split; [done|].
  assert (Hot : only_touched bm [P i] (tree_blocks m di) m m').
  { apply (only_file_touched (P i) di di' m m' Hf'); [|done].
    pose proof (Inode_write_data_steps e fs (P i) o buf (zlen buf) m) as St. rewrite Hrun in St. apply St. }
  rewrite <- Hc. by apply vol_put.
Qed.

(** Truncating to a size of at most 1047 blocks. *)
Lemma vol_cut e m v i a b sz :
  vol fs m v → v_objs v !! i = Some (a, b) → a_type a = kFile → 0 ≤ sz ≤ zlen b → data_blocks sz ≤ 1047 →
  ∃ m', Inode_resize e fs (P i) sz m = (Some tt, m') ∧ vol fs m' (v_put i (a, slice 0 sz b) v).
Proof.
  intros Hvol Hi Hty Hsz Hsmall.
  destruct (vol_lookup fs m v i a b Hvol Hi) as (F & di & Hv & -> & Hdi & <- & <- & Hs & Hwf).
  rewrite <- Hs in Hsz. pose proof (vol_file fs m F i di Hv Hdi) as Hf.
  destruct (Inode_resize_cut e fs m (P i) di sz Hf Hty Hsz Hsmall)
    as (m' & di' & Hrun & Hf' & _ & _ & Hc & Hot & Hrt & _).
  exists m'. split; [done|]. rewrite <- Hc. by apply vol_put.
Qed.

(** Extending: the new bytes are whatever the new blocks held. *)
Lemma vol_extend e m v i a b sz :
  vol fs m v → v_objs v !! i = Some (a, b) → a_type a = kFile → zlen b < sz → is_u32 sz →
  nodes (file_shape (data_blocks sz)) - cost (a, b) ≤ v_free v →
  ∃ m' x, Inode_resize e fs (P i) sz m = (Some tt, m') ∧ zlen (b ++ x) = sz ∧
    vol fs m' (v_put i (a, b ++ x) v).
Proof.
  intros Hvol Hi Hty Hsz Hu Hfree.
  destruct (vol_lookup fs m v i a b Hvol Hi) as (F & di & Hv & -> & Hdi & <- & <- & Hs & Hwf).
  unfold cost in Hfree. cbn [snd v_free] in Hfree. rewrite <- Hs in *.
  pose proof (vol_file fs m F i di Hv Hdi) as Hf.
  destruct (Inode_resize_grow e fs m (P i) di sz Hf Hty Hsz Hu Hfree)
    as (m' & di' & Hrun & Hf' & Hs' & _ & Hc & Hot & Hrt).
  assert (Hz : zlen (content m' di') = sz).
  { rewrite <- Hs'. apply zlen_content; [apply (o_tree _ _ _ _ (fa_own _ _ _ _ Hf'))|by rewrite Hs']. }
  assert (Hx : content m' di' = content m di ++ drop (Z.to_nat (size di)) (content m' di')).
  { rewrite <- Hc at 1. unfold slice. by rewrite drop_0, take_drop. }
  exists m', (drop (Z.to_nat (size di)) (content m' di')). split; [done|]. rewrite <- Hx. split; [done|].
  by apply vol_put.
Qed.
End ops.
