(* ===== verification/VolumeDir.v ===== *)
(** * Directory operations on a whole file system

    [find], [link], [unlink], [create] and [remove] of [src/inode.cpp] as
    operations on the objects of a volume: entries are added at the end of
    the directory or replaced by its last one, link counts change by one,
    [create] makes an object with the smallest free id, and [remove] of the
    last link deletes the object and gives its blocks back. *)

From S2P Require Import Prelude Bytes Config BlkIface Bitmap DataArea Layout InodeIO DiskInode Sbfs Inode Frame SbfsProof FileMap FileData FileGrow FileShrink FileResize FileIO Dir Touched FileTrunc DirOps DirCreate DirRemove Volume VolumeOps.

Section dirs.
Context (fs : SBFileSystem).
Abbreviation bm := (data_bitmap_ fs).
Abbreviation ibm := (inode_bitmap_ fs).
Abbreviation P := (getDiskInodePos fs).
Abbreviation off := (data_segment_offset ibm).

Lemma vol_dir m F d di es :
  volume fs m F → F !! d = Some di → is_dir (attrs di, content m di) es → dir_at m bm (P d) di es.
Proof.
  intros Hv Hd [Hty He Hb Hlt]. cbn [fst snd] in *. pose proof (vol_file fs m F d di Hv Hd) as Hf.
  destruct (vol_size fs m F d di Hv Hd) as (Hwf & Hz & _). split; [done|].
  split; [done|apply Hf|done|done| |done]. rewrite <- Hz. split; [|done]. by rewrite Hb, zlen_entries.
Qed.

(** A directory changed, and the link count of another inode. *)
Lemma volume_put2 m F d di m' di' t tdi delta :
  volume fs m F → F !! d = Some di → F !! t = Some tdi → t ≠ d →
  file_at m' bm (P d) di' → inode_at m' (P t) = Some (linked delta tdi) →
  only_touched bm (P <$> [d; t]) (tree_blocks m di) m m' → retree bm m di m' di' →
  vol fs m' (v_put d (attrs di, content m' di')
    (v_put t (a_bump delta (attrs tdi), content m tdi) (mkV (objs m F) (free_blocks m bm)))).
Proof.
  intros Hv Hd Ht Hne Hf Hat Hot Hrt. pose proof (vo_geom _ _ _ Hv) as Hg.
  destruct (vo_inode _ _ _ Hv d di Hd) as [Hvd _]. destruct (vo_inode _ _ _ Hv t tdi Ht) as [Hvt _].
  assert (Hks : ∀ k, k ∈ [d; t] → valid_id fs k).
  { by intros k [->| ->%list_elem_of_singleton]%elem_of_cons. }
  assert (Hps : ∀ p, p ∈ P <$> [d; t] → ¬ in_area bm (block_id p)).
  { intros p (k & -> & Hk)%list_elem_of_fmap. by apply (vol_slot fs m F k Hv (Hks k Hk)). }
  destruct (forest_step m bm F d di (vo_forest _ _ _ Hv) Hd _ _ m' di' Hot Hps) as [Hfo Hk];
    [by left|apply Hf|done|].
  assert (HT : ∀ b, tree_blocks m di b → in_area bm b).
  { intros b. apply (tree_in_area m bm di). by apply (fo_own _ _ _ (vo_forest _ _ _ Hv) d). }
  destruct (vol_bits fs m F m' [d; t] _ Hv Hot Hks HT) as [Hib Hb].
  set (F1 := <[d := di']> F) in *.
  assert (Ht1 : F1 !! t = Some tdi) by (unfold F1; by rewrite lookup_insert_ne).
  destruct (Hk t tdi Hne Ht) as [Hct Htt]. pose proof (fo_own _ _ _ Hfo t tdi Ht1) as Hot1.
  pose proof (forest_same m' bm F1 t tdi (linked delta tdi) Hfo Ht1 ltac:(done) ltac:(done)) as Hfo2.
  set (F2 := <[t := linked delta tdi]> F1) in *.
  assert (Hlk : ∀ j dj, F2 !! j = Some dj →
    valid_id fs j ∧ inode_at m' (P j) = Some dj ∨ F !! j = Some dj ∧ j ∉ [d; t]).
  { intros j dj. unfold F2, F1. destruct (decide (j = t)) as [->|Hjt]; [|destruct (decide (j = d)) as [->|Hjd]].
    - rewrite lookup_insert_eq. intros [= <-]. by left.
    - rewrite lookup_insert_ne, lookup_insert_eq by done. intros [= <-]. left. split; [done|apply Hf].
    - rewrite !lookup_insert_ne by done. intros Hj. right. split; [done|].
      by intros [?| ?%list_elem_of_singleton]%elem_of_cons. }
  assert (Hv2 : volume fs m' F2).
  { apply (vol_commit fs m F m' F2 [d; t] (tree_blocks m di)); try done; [intros b Hb'; left; auto|].
    intros j Hj. rewrite Hb, (vo_bits _ _ _ Hv j Hj) by lia. unfold F2, F1.
    destruct (decide (j = t)) as [->|Hjt]; [|destruct (decide (j = d)) as [->|Hjd]].
    - rewrite lookup_insert_eq, Ht. by split; eexists.
    - rewrite lookup_insert_ne, lookup_insert_eq, Hd by done. by split; eexists.
    - by rewrite !lookup_insert_ne. }
  exists F2. split; [done|]. unfold v_put. cbn [v_objs v_free].
  assert (Ho : objs m' F2 = <[d := (attrs di, content m' di')]>
    (<[t := (a_bump delta (attrs tdi), content m tdi)]> (objs m F))).
  { unfold F2. rewrite (objs_insert m' m' F1 t (linked delta tdi)) by done. unfold F1.
    rewrite (objs_insert m m' F d di' Hk), (rt_attrs _ _ _ _ _ Hrt), insert_insert_ne by done.
    change (content m' (linked delta tdi)) with (content m' tdi). by rewrite Hct. }
  rewrite Ho. f_equal. unfold objs. rewrite lookup_insert_ne by done. rewrite !lookup_fmap, Hd, Ht. simpl.
  destruct (vol_size fs m F d di Hv Hd) as (_ & _ & ->). destruct (vol_size fs m F t tdi Hv Ht) as (_ & _ & ->).
  destruct (vol_size fs m F t tdi Hv Ht) as (_ & Hzt & _). unfold cost at 1. cbn [snd]. rewrite Hzt.
  assert (Hd2 : F2 !! d = Some di') by (unfold F2, F1; by rewrite lookup_insert_ne, lookup_insert_eq).
  destruct (vol_size fs m' F2 d di' Hv2 Hd2) as (_ & Hzd & _). unfold cost. cbn [snd]. rewrite Hzd.
  pose proof (rt_count _ _ _ _ _ Hrt). lia.
Qed.

(** ** The directory and the entry an operation works on *)

Lemma dir_is_dir m bm' di es : dir_in m bm' di es → is_dir (attrs di, content m di) es.
Proof.
  intros [Hwf Ho Hty He [_ Hlt] Hb]. split; [done|done|done|]. cbn [snd].
  rewrite zlen_content; [done|apply (o_tree _ _ _ _ Ho)|apply Hwf].
Qed.

Lemma dir_bytes o es x : is_dir o es → entries_bytes (es ++ [x]) = o.2 ++ DirEntry_encode x.
Proof.
  intros [_ _ Hb _]. unfold entries_bytes. rewrite bind_app, Hb. cbn [mbind list_bind]. by rewrite app_nil_r.
Qed.

Section dir.
Context (e : env) (m : store) (v : vstate) (d : Z) (a : Z * Z * Z * Z * Z) (b : bytes) (es : list DirEntry).
Context (nm : bytes).
Context (Hvol : vol fs m v) (Hd : v_objs v !! d = Some (a, b)) (Hdir : is_dir (a, b) es) (Hnm : cstr nm ≠ []).

(** [find]. *)
Lemma vol_find : Inode_find e fs (P d) nm m = ((λ x, P (inode x.2)) <$> find_entry nm es, m).
Proof.
  destruct (vol_lookup fs m v d a b Hvol Hd) as (F & di & Hv & -> & Hdi & <- & <- & Hs & Hwf).
  destruct (vol_dir m F d di es Hv Hdi Hdir) as [[Hp Hat _ _] Hin].
  apply (Inode_find_spec e fs m (P d) di es nm Hp Hat); [apply Hin|by eapply dir_in_data|done].
Qed.

(** [link] of the inode [t] under a new name; its link count goes up. *)
Lemma vol_link t ta tb replace :
  v_objs v !! t = Some (ta, tb) → t ≠ d → find_entry nm es = None → data_blocks (zlen b) < 23 →
  let o := (a, b ++ DirEntry_encode (DirEntry_new nm t)) in
  cost o - cost (a, b) ≤ v_free v →
  ∃ m', Inode_link e fs (P d) nm (P t) replace m = (Some tt, m') ∧
    vol fs m' (v_put d o (v_put t (a_bump 1 ta, tb) v)) ∧
    is_dir o (es ++ [DirEntry_new nm t]).
Proof.
  intros Ht Hne Hnone Hsmall o Hfree.
  destruct (vol_lookup fs m v d a b Hvol Hd) as (F & di & Hv & -> & Hdi & <- & <- & Hs & Hwf).
  cbn [v_objs v_free] in *. unfold objs in Ht. rewrite lookup_fmap in Ht.
  destruct (F !! t) as [tdi|] eqn:Htdi; [|done]. injection Ht as <- <-.
  pose proof (vol_dir m F d di es Hv Hdi Hdir) as Hda. pose proof (vo_geom _ _ _ Hv) as Hg.
  destruct (vo_inode _ _ _ Hv d di Hdi) as [Hvd _]. destruct (vo_inode _ _ _ Hv t tdi Htdi) as [Hvt Hat].
  assert (Hx : DirEntry_wf (DirEntry_new nm t)) by apply DirEntry_new_wf.
  assert (Hz : zlen (content m di ++ DirEntry_encode (DirEntry_new nm t)) = size di + sizeof_DirEntry).
  { rewrite zlen_app, zlen_DirEntry_encode by done. lia. }
  destruct (Inode_link_new e fs m (P d) di es nm (P t) tdi Hda Hnm) with (replace := replace)
    as (m' & di' & Hrun & Hda' & Hat' & Hot & Hrt).
  { apply (vol_slot fs m F t Hv Hvt). }
  { done. }
  { by apply vol_disjoint. }
  { done. }
  { by rewrite Hs. }
  { unfold cost, o in Hfree. cbn [snd] in Hfree. by rewrite Hz, <- Hs in Hfree. }
  rewrite (vol_id fs t Hg Hvt) in Hda'. exists m'. split; [done|].
  assert (Hc : content m' di' = content m di ++ DirEntry_encode (DirEntry_new nm t)).
  { rewrite (di_bytes _ _ _ _ (da_in _ _ _ _ _ Hda')). apply (dir_bytes _ _ _ Hdir). }
  split.
  - unfold o. rewrite <- Hc. apply (volume_put2 m F d di m' di' t tdi 1); try done; [apply Hda'|].
    eapply only_touched_weaken; [|done|exact Hot].
    intros p [->| ->%list_elem_of_singleton]%elem_of_cons; set_solver.
  - destruct Hda' as [_ [_ _ Hty He [Hs' Hlt] Hb]]. split; [apply Hdir|done|unfold o; cbn [snd]; by rewrite <- Hc|].
    unfold o. cbn [snd]. rewrite Hz. rewrite Hs in *.
    destruct (data_blocks_eq (zlen (content m di))) as (_ & _ & Hcap); [rewrite <- Hs; apply Hwf|].
    unfold kBlockSize, sizeof_DirEntry in *. lia.
Qed.

(** [link] onto a name that is there: with [replace] the entry now leads to
    [t]; the object it led to keeps its link count. *)
Lemma vol_link_replace t ta tb (k : nat) x :
  v_objs v !! t = Some (ta, tb) → t ≠ d → find_entry nm es = Some (k, x) →
  let es' := <[k := DirEntry_new (cstr (name x)) t]> es in
  let o := (a, entries_bytes es') in
  ∃ m', Inode_link e fs (P d) nm (P t) true m = (Some tt, m') ∧
    vol fs m' (v_put d o (v_put t (a_bump 1 ta, tb) v)) ∧ is_dir o es'.
Proof.
  intros Ht Hne Hfind es' o.
  destruct (vol_lookup fs m v d a b Hvol Hd) as (F & di & Hv & -> & Hdi & <- & <- & Hs & Hwf).
  cbn [v_objs v_free] in *. unfold objs in Ht. rewrite lookup_fmap in Ht.
  destruct (F !! t) as [tdi|] eqn:Htdi; [|done]. injection Ht as <- <-.
  pose proof (vol_dir m F d di es Hv Hdi Hdir) as Hda. pose proof (vo_geom _ _ _ Hv) as Hg.
  destruct (vo_inode _ _ _ Hv d di Hdi) as [Hvd _]. destruct (vo_inode _ _ _ Hv t tdi Htdi) as [Hvt Hat].
  destruct (Inode_link_replace e fs m (P d) di es nm (P t) tdi Hda Hnm) with (t := k) (x := x)
    as (m' & di' & Hrun & Hda' & Hat' & Hot & Hrt).
  { apply (vol_slot fs m F t Hv Hvt). }
  { done. }
  { by apply vol_disjoint. }
  { done. }
  rewrite (vol_id fs t Hg Hvt) in Hda'. fold es' in Hda'. exists m'. split; [done|].
  pose proof (dir_is_dir m' bm di' es' (da_in _ _ _ _ _ Hda')) as Hdir'.
  rewrite (rt_attrs _ _ _ _ _ Hrt), (di_bytes _ _ _ _ (da_in _ _ _ _ _ Hda')) in Hdir'. split; [|done].
  unfold o. rewrite <- (di_bytes _ _ _ _ (da_in _ _ _ _ _ Hda')).
  apply (volume_put2 m F d di m' di' t tdi 1); try done; [apply Hda'|].
  eapply only_touched_weaken; [|done|exact Hot].
  intros p [->| ->%list_elem_of_singleton]%elem_of_cons; set_solver.
Qed.

(** Without [replace] nothing happens, and in a directory of 23 blocks or
    more that does not fill its last block, nothing happens either. *)
Lemma vol_link_fails t ta tb replace :
  v_objs v !! t = Some (ta, tb) →
  find_entry nm es ≠ None ∧ replace = false ∨
  find_entry nm es = None ∧ 23 ≤ data_blocks (zlen b) ∧ zlen b ≠ kBlockSize * data_blocks (zlen b) →
  Inode_link e fs (P d) nm (P t) replace m = (None, m).
Proof.
  intros Ht Hcase.
  destruct (vol_lookup fs m v d a b Hvol Hd) as (F & di & Hv & -> & Hdi & <- & <- & Hs & Hwf).
  pose proof (vol_dir m F d di es Hv Hdi Hdir) as Hda. rewrite <- Hs in Hcase.
  destruct Hcase as [[Hf ->]|(Hf & Hbig & Hpart)].
  - destruct (find_entry nm es) as [[k x]|] eqn:Hfe; [|done].
    by apply (Inode_link_exists e fs m (P d) di es nm (P t) Hda Hnm k x).
  - by apply (Inode_link_large e fs m (P d) di es nm (P t) Hda Hnm).
Qed.

(** [unlink]: the entry goes, the link count of its inode goes down. *)
Lemma vol_unlink (k : nat) x ta tb :
  find_entry nm es = Some (k, x) → v_objs v !! inode x = Some (ta, tb) → inode x ≠ d →
  data_blocks (zlen b) ≤ 1047 →
  let es' := remove_at k es in
  let o := (a, entries_bytes es') in
  ∃ m', Inode_unlink e fs (P d) nm (None, m) = (Some tt, (Some (P (inode x)), m')) ∧
    vol fs m' (v_put d o (v_put (inode x) (a_bump (-1) ta, tb) v)) ∧ is_dir o es'.
Proof.
  intros Hfind Ht Hne Hsmall es' o.
  destruct (vol_lookup fs m v d a b Hvol Hd) as (F & di & Hv & -> & Hdi & <- & <- & Hs & Hwf).
  cbn [v_objs v_free] in *. unfold objs in Ht. rewrite lookup_fmap in Ht. set (t := inode x) in *.
  destruct (F !! t) as [tdi|] eqn:Htdi; [|done]. injection Ht as <- <-. rewrite <- Hs in Hsmall.
  pose proof (vol_dir m F d di es Hv Hdi Hdir) as Hda. pose proof (vo_geom _ _ _ Hv) as Hg.
  destruct (vo_inode _ _ _ Hv d di Hdi) as [Hvd _]. destruct (vo_inode _ _ _ Hv t tdi Htdi) as [Hvt Hat].
  destruct (Inode_unlink_spec e fs m (P d) di es nm k x Hda Hnm Hfind Hsmall tdi)
    as (m' & di' & Hrun & Hda' & Hat' & Hot & Hrt).
  { apply (vol_slot fs m F t Hv Hvt). }
  { done. }
  { by apply vol_disjoint. }
  exists m'. split; [done|]. fold es' in Hda'. fold t in Hat', Hot.
  pose proof (dir_is_dir m' bm di' es' (da_in _ _ _ _ _ Hda')) as Hdir'.
  rewrite (rt_attrs _ _ _ _ _ Hrt), (di_bytes _ _ _ _ (da_in _ _ _ _ _ Hda')) in Hdir'. split; [|done].
  unfold o. rewrite <- (di_bytes _ _ _ _ (da_in _ _ _ _ _ Hda')).
  apply (volume_put2 m F d di m' di' t tdi (-1)); try done. apply Hda'.
Qed.

(** [remove] of an inode with more than one link changes nothing but times. *)
Lemma vol_remove_linked (k : nat) x ta tb :
  find_entry nm es = Some (k, x) → v_objs v !! inode x = Some (ta, tb) → inode x ≠ d →
  data_blocks (zlen b) ≤ 1047 → a_links ta ≠ 1 →
  ∃ m', Inode_remove e fs (P d) nm m = (Some tt, m') ∧ vol fs m' v.
Proof.
  intros Hfind Ht Hne Hsmall Hcnt.
  destruct (vol_lookup fs m v d a b Hvol Hd) as (F & di & Hv & -> & Hdi & <- & <- & Hs & Hwf).
  cbn [v_objs v_free] in *. unfold objs in Ht. rewrite lookup_fmap in Ht. set (t := inode x) in *.
  destruct (F !! t) as [tdi|] eqn:Htdi; [|done]. injection Ht as <- <-. rewrite <- Hs in Hsmall.
  pose proof (vol_dir m F d di es Hv Hdi Hdir) as Hda. pose proof (vo_geom _ _ _ Hv) as Hg.
  destruct (vo_inode _ _ _ Hv d di Hdi) as [Hvd _]. destruct (vo_inode _ _ _ Hv t tdi Htdi) as [Hvt Hat].
  destruct (Inode_remove_linked e fs m (P d) di es nm k x Hda Hnm Hfind tdi)
    as (m' & di' & Hrun & Hda' & Hat' & Hot & Hrt).
  { apply (vol_slot fs m F t Hv Hvt). }
  { done. }
  { by apply vol_disjoint. }
  { done. }
  exists m'. split; [done|].
  pose proof (vol_put fs m F d di m' di' Hv Hdi (da_file _ _ _ _ _ Hda') Hot Hrt) as Hp.
  assert (Hc : content m' di' = content m di).
  { by rewrite (di_bytes _ _ _ _ (da_in _ _ _ _ _ Hda')), (di_bytes _ _ _ _ (da_in _ _ _ _ _ Hda)). }
  rewrite Hc, v_put_same in Hp; done.
Qed.

(** [remove] of the last link: the entry and the object go, the id and all
    blocks are free again. *)
Lemma vol_remove (k : nat) x ta tb :
  find_entry nm es = Some (k, x) → v_objs v !! inode x = Some (ta, tb) → inode x ≠ d →
  data_blocks (zlen b) ≤ 1047 → a_links ta = 1 →
  let es' := remove_at k es in
  let o := (a, entries_bytes es') in
  ∃ m', Inode_remove e fs (P d) nm m = (Some tt, m') ∧
    vol fs m' (v_del (inode x) (v_put d o v)) ∧ is_dir o es'.
Proof.
  intros Hfind Ht Hne Hsmall Hcnt es' o.
  destruct (vol_lookup fs m v d a b Hvol Hd) as (F & di & Hv & -> & Hdi & <- & <- & Hs & Hwf).
  cbn [v_objs v_free] in *. unfold objs in Ht. rewrite lookup_fmap in Ht. set (t := inode x) in *.
  destruct (F !! t) as [tdi|] eqn:Htdi; [|done]. injection Ht as <- <-. rewrite <- Hs in Hsmall.
  pose proof (vol_dir m F d di es Hv Hdi Hdir) as Hda. pose proof (vo_geom _ _ _ Hv) as Hg.
  pose proof (vo_forest _ _ _ Hv) as Hfo.
  destruct (vo_inode _ _ _ Hv d di Hdi) as [Hvd _]. destruct (vo_inode _ _ _ Hv t tdi Htdi) as [Hvt Hat].
  assert (Hrange : off ≤ t < off + slots ibm).
  { unfold valid_id in Hvt. pose proof (vg_ids _ Hg). lia. }
  destruct (Inode_remove_last e fs m (P d) di es nm k x Hda Hnm Hfind Hsmall tdi) with (s := t - off)
    as (m' & di' & Hrun & Hda' & Hib' & Hbits & _ & Hot & mid & cdi & Hmid & Hrt & Hot1 & Hc0 & Hco & Hrt2 & Hot2).
  { apply (vol_slot fs m F t Hv Hvt). }
  { done. }
  { done. }
  { by apply (fo_own _ _ _ Hfo t). }
  { intros c Hc Hc'. by apply (fo_apart _ _ _ Hfo t d tdi di c). }
  { apply Hv. }
  { by apply (vol_slot fs m F d Hv). }
  { lia. }
  { fold t. lia. }
  exists m'. split; [done|]. fold es' in Hda', Hmid.
  (* the two steps of the forest *)
  destruct (forest_step m bm F d di Hfo Hdi [P d] _ mid di' Hot1) as [Hfo1 Hk1];
    [intros p ->%list_elem_of_singleton; by apply (vol_slot fs m F d)|by left|apply Hmid|done|].
  set (F1 := <[d := di']> F) in *.
  assert (Ht1 : F1 !! t = Some tdi) by (unfold F1; by rewrite lookup_insert_ne).
  pose proof (forest_same mid bm F1 t tdi (linked (-1) tdi) Hfo1 Ht1 ltac:(done) ltac:(done)) as Hfo2.
  set (F2 := <[t := linked (-1) tdi]> F1) in *.
  assert (Ht2 : F2 !! t = Some (linked (-1) tdi)) by apply lookup_insert_eq.
  assert (Hn : ∀ c, ¬ tree_blocks m' cdi c).
  { intros c (y & Hy & _). rewrite Hc0 in Hy. change (data_blocks 0) with 0 in Hy.
    destruct y; simpl in Hy; try done; [lia|]. change (subs 0) with 0 in Hy. lia. }
  destruct (forest_step mid bm F2 t _ Hfo2 Ht2 [] _ m' cdi Hot2) as [Hfo3 Hk2];
    [by intros p ?%not_elem_of_nil| |by rewrite Hc0|done|].
  { intros c [Hc|Hc]; [by left|right]. by apply (ib_apart _ _ (vo_ibm _ _ _ Hv)). }
  pose proof (forest_delete m' bm _ t cdi Hfo3 (lookup_insert_eq _ _ _) Hn) as Hfo4.
  assert (HF : delete t (<[t := cdi]> F2) = delete t F1).
  { unfold F2. by rewrite !delete_insert_eq. }
  rewrite HF in Hfo4. set (F' := delete t F1) in *.
  assert (HF' : ∀ j, j ≠ t → F' !! j = F1 !! j) by (intros j Hj; by apply lookup_delete_ne).
  assert (Hv' : volume fs m' F').
  { apply (vol_commit fs m F m' F' [d] _ Hv Hfo4 Hot).
    - by intros j ->%list_elem_of_singleton.
    - intros c [Hc|[Hc|Hc]]; [left|left|by right];
        [apply (tree_in_area m bm di)|apply (tree_in_area m bm tdi)]; try done; by eapply fo_own.
    - intros j dj [Hjt Hj]%lookup_delete_Some. unfold F1 in Hj.
      apply lookup_insert_Some in Hj as [[<- <-]|[Hjd Hj]].
      + left. split; [done|apply Hda'].
      + right. split; [done|]. by intros ->%list_elem_of_singleton.
    - done.
    - intros j Hj. rewrite Hbits by lia. destruct (decide (j = t)) as [->|Hjt].
      + rewrite decide_True by done. unfold F'. rewrite lookup_delete_eq. split; [done|by intros []].
      + rewrite decide_False by lia. rewrite HF' by done. unfold F1. rewrite (vo_bits _ _ _ Hv j Hj).
        destruct (decide (j = d)) as [->|Hjd]; [rewrite lookup_insert_eq, Hdi; by split; eexists|].
        by rewrite lookup_insert_ne. }
  pose proof (dir_is_dir m' bm di' es' (da_in _ _ _ _ _ Hda')) as Hdir'.
  rewrite (rt_attrs _ _ _ _ _ Hrt), (di_bytes _ _ _ _ (da_in _ _ _ _ _ Hda')) in Hdir'. split; [|done].
  exists F'. split; [done|]. unfold v_del, v_put, o. cbn [v_objs v_free].
  assert (Hcd : content m' di' = entries_bytes es') by apply (di_bytes _ _ _ _ (da_in _ _ _ _ _ Hda')).
  f_equal.
  - apply map_eq. intros j. unfold objs. rewrite lookup_fmap. destruct (decide (j = t)) as [->|Hjt].
    { unfold F'. by rewrite !lookup_delete_eq. }
    rewrite HF', lookup_delete_ne by done. unfold F1. destruct (decide (j = d)) as [->|Hjd].
    { rewrite !lookup_insert_eq. simpl. by rewrite Hcd, (rt_attrs _ _ _ _ _ Hrt). }
    rewrite !lookup_insert_ne, lookup_fmap by done. destruct (F !! j) as [dj|] eqn:Hj; [|done]. simpl.
    destruct (Hk1 j dj Hjd Hj) as [<- _].
    destruct (Hk2 j dj Hjt) as [<- _]; [unfold F2, F1; by rewrite !lookup_insert_ne|done].
  - rewrite lookup_insert_ne by done. unfold objs. rewrite !lookup_fmap, Hdi, Htdi. simpl.
    destruct (vol_size fs m F d di Hv Hdi) as (_ & _ & ->). destruct (vol_size fs m F t tdi Hv Htdi) as (_ & _ & ->).
    assert (Hd' : F' !! d = Some di') by (rewrite HF' by done; apply lookup_insert_eq).
    destruct (vol_size fs m' F' d di' Hv' Hd') as (_ & Hzd & _). unfold cost. cbn [snd]. rewrite <- Hcd, Hzd.
    pose proof (rt_count _ _ _ _ _ Hrt). pose proof (rt_count _ _ _ _ _ Hrt2) as Hct. rewrite Hc0 in Hct.
    change (nodes (file_shape (data_blocks 0))) with 0 in Hct. change (size (linked (-1) tdi)) with (size tdi) in Hct.
    lia.
Qed.

(** [create]: the new object takes the smallest free id; a directory gets
    its entries for itself and for its parent. *)
Definition first_id (objs : gmap Z obj) (i : Z) : Prop :=
  off ≤ i ∧ objs !! i = None ∧ ∀ j, off ≤ j < i → is_Some (objs !! j).

Definition child_bytes (ci : DiskInode) (id : Z) : bytes :=
  if type_ ci =? kDirectory then entries_bytes [DirEntry_new dot id; DirEntry_new dotdot d] else [].

Lemma created_content ci m' ci' id :
  vol_geom fs → valid_id fs d → created fs (P d) ci m' id ci' → content m' ci' = child_bytes ci id.
Proof.
  intros Hg Hvd. unfold created, child_bytes. destruct (type_ ci =? kDirectory).
  - intros Hin. rewrite (di_bytes _ _ _ _ Hin). unfold dots. by rewrite vol_id.
  - by intros (-> & _ & Hc).
Qed.

Lemma vol_create ci id :
  fresh_inode ci → first_id (v_objs v) id → id < slots ibm →
  let x := DirEntry_new nm id in
  let o := (a, b ++ DirEntry_encode x) in
  zlen o.2 < 2 ^ 31 → cost o - cost (a, b) + 1 ≤ v_free v →
  ∃ m', Inode_create e fs (P d) nm ci (None, m) = (Some tt, (Some (P id), m')) ∧
    vol fs m' (v_put id (attrs ci, child_bytes ci id) (v_put d o v)) ∧ is_dir o (es ++ [x]).
Proof.
  intros Hci (Hid & Hnone & Hfirst) Hlt x o Hmax Hfree.
  destruct (vol_lookup fs m v d a b Hvol Hd) as (F & di & Hv & -> & Hdi & <- & <- & Hs & Hwf).
  cbn [v_objs v_free] in *. unfold objs in Hnone. rewrite lookup_fmap in Hnone.
  assert (Hidn : F !! id = None) by (by destruct (F !! id)). clear Hnone.
  pose proof (vol_dir m F d di es Hv Hdi Hdir) as Hda. pose proof (vo_geom _ _ _ Hv) as Hg.
  pose proof (vo_forest _ _ _ Hv) as Hfo. destruct (vo_inode _ _ _ Hv d di Hdi) as [Hvd _].
  assert (Hvid : valid_id fs id) by (by split).
  assert (Hrange : off ≤ id < off + slots ibm) by (pose proof (vg_ids _ Hg); lia).
  assert (Hne : id ≠ d) by (intros ->; congruence).
  assert (Hx : DirEntry_wf x) by apply DirEntry_new_wf.
  assert (Hz : zlen o.2 = size di + sizeof_DirEntry).
  { unfold o. cbn [snd]. rewrite zlen_app, zlen_DirEntry_encode by done. lia. }
  assert (Hsl : first_free m ibm (id - off)).
  { split; [lia|]. split.
    - apply not_true_is_false. intros Hb. apply (vo_bits _ _ _ Hv id Hrange) in Hb. rewrite Hidn in Hb. by destruct Hb.
    - intros t Ht. replace t with (t + off - off) by lia. apply (vo_bits _ _ _ Hv); [lia|].
      specialize (Hfirst (t + off) ltac:(lia)). unfold objs in Hfirst. rewrite lookup_fmap in Hfirst.
      by apply fmap_is_Some in Hfirst. }
  destruct (Inode_create_spec e fs (P d) nm ci m di es (id - off) Hda (vo_ibm _ _ _ Hv) Hci Hsl)
    as (m' & di' & ci' & Hrun & Hda' & Hcf & Hcr & Hib' & Hbits & Hot & mid & Hmid & Hrt & Hot1 & Hrt2 & Hot2).
  { by apply (vol_slot fs m F d Hv). }
  { replace (id - off + off) with id by lia. by apply (vol_slot fs m F id Hv). }
  { replace (id - off + off) with id by lia. apply vol_disjoint; try done. }
  { by rewrite <- Hz. }
  { unfold cost in Hfree. rewrite Hz in Hfree. cbn [snd] in Hfree. rewrite <- Hs in Hfree. unfold needed. lia. }
  replace (id - off + off) with id in * by lia. exists m'. split; [done|]. fold x in Hda', Hmid.
  set (T := λ c, tree_blocks m di c ∨ in_bitmap ibm c) in *.
  assert (HT : ∀ c, T c → tree_blocks m di c ∨ ¬ in_area bm c).
  { intros c [?|Hc]; [by left|right]. by apply (ib_apart _ _ (vo_ibm _ _ _ Hv)). }
  (* the parent, then the child *)
  destruct (forest_step m bm F d di Hfo Hdi [] T mid di' Hot1) as [Hfo1 Hk1];
    [by intros p ?%not_elem_of_nil|done|apply Hmid|done|].
  set (F1 := <[d := di']> F) in *.
  assert (Hid1 : F1 !! id = None) by (unfold F1; by rewrite lookup_insert_ne).
  destruct (fresh_own mid bm ci (fo_area _ _ _ Hfo1) Hci) as [Hoc Hcc].
  assert (Htn : ∀ c, ¬ tree_blocks mid ci c) by (intros c; by apply fresh_tree).
  pose proof (forest_insert mid bm F1 id ci Hfo1 Hid1 Hoc Htn) as Hfo2. set (F2 := <[id := ci]> F1) in *.
  assert (Hps : ∀ p, p ∈ [P id; P d] → ¬ in_area bm (block_id p)).
  { intros p [->| ->%list_elem_of_singleton]%elem_of_cons; by apply (vol_slot fs m F). }
  destruct (forest_step mid bm F2 id ci Hfo2 (lookup_insert_eq _ _ _) [P id; P d] _ m' ci' Hot2 Hps) as [Hfo3 Hk2];
    [by intros c []|apply Hcf|done|].
  assert (HF : <[id := ci']> F2 = <[id := ci']> F1) by (unfold F2; by rewrite insert_insert_eq).
  rewrite HF in Hfo3. set (F' := <[id := ci']> F1) in *.
  assert (Hv' : volume fs m' F').
  { apply (vol_commit fs m F m' F' [id; d] T Hv Hfo3 Hot).
    - by intros j [->| ->%list_elem_of_singleton]%elem_of_cons.
    - intros c [Hc|Hc]; [left|by right]. apply (tree_in_area m bm di); [by eapply fo_own|done].
    - intros j dj. unfold F', F1. destruct (decide (j = id)) as [->|Hji]; [|destruct (decide (j = d)) as [->|Hjd]].
      + rewrite lookup_insert_eq. intros [= <-]. left. split; [done|apply Hcf].
      + rewrite lookup_insert_ne, lookup_insert_eq by done. intros [= <-]. left. split; [done|apply Hda'].
      + rewrite !lookup_insert_ne by done. intros Hj. right. split; [done|].
        by intros [?| ?%list_elem_of_singleton]%elem_of_cons.
    - done.
    - intros j Hj. rewrite Hbits by lia. unfold F', F1. destruct (decide (j = id)) as [->|Hji].
      + rewrite decide_True, lookup_insert_eq by done. split; [by eexists|done].
      + rewrite decide_False by lia. rewrite lookup_insert_ne, (vo_bits _ _ _ Hv j Hj) by done.
        destruct (decide (j = d)) as [->|Hjd]; [rewrite lookup_insert_eq, Hdi; by split; eexists|].
        by rewrite lookup_insert_ne. }
  pose proof (dir_is_dir m' bm di' _ (da_in _ _ _ _ _ Hda')) as Hdir'.
  assert (Hcd : content m' di' = o.2).
  { rewrite (di_bytes _ _ _ _ (da_in _ _ _ _ _ Hda')). apply (dir_bytes _ _ _ Hdir). }
  rewrite (rt_attrs _ _ _ _ _ Hrt), Hcd in Hdir'. split; [|done].
  pose proof (created_content ci m' ci' id Hg Hvd Hcr) as Hcb. rewrite <- Hcb.
  exists F'. split; [done|]. unfold v_put. cbn [v_objs v_free]. f_equal.
  - apply map_eq. intros j. unfold objs. rewrite lookup_fmap. unfold F', F1.
    destruct (decide (j = id)) as [->|Hji]; [|destruct (decide (j = d)) as [->|Hjd]].
    + rewrite !lookup_insert_eq. simpl. by rewrite (rt_attrs _ _ _ _ _ Hrt2).
    + rewrite !(lookup_insert_ne _ id), !lookup_insert_eq by done. simpl.
      by rewrite (rt_attrs _ _ _ _ _ Hrt), Hcd.
    + rewrite !lookup_insert_ne, lookup_fmap by done. destruct (F !! j) as [dj|] eqn:Hj; [|done]. simpl.
      destruct (Hk1 j dj Hjd Hj) as [<- _].
      destruct (Hk2 j dj Hji) as [<- _]; [unfold F2, F1; by rewrite !lookup_insert_ne|done].
  - rewrite lookup_insert_ne by done. unfold objs. rewrite !lookup_fmap, Hdi, Hidn. simpl.
    destruct (vol_size fs m F d di Hv Hdi) as (_ & _ & ->).
    destruct (vol_size fs m' F' d di' Hv') as (_ & Hzd & _);
      [unfold F', F1; by rewrite lookup_insert_ne, lookup_insert_eq|].
    destruct (vol_size fs m' F' id ci' Hv') as (_ & Hzi & _); [apply lookup_insert_eq|].
    unfold cost. cbn [snd]. rewrite Hzi.
    change (content m di ++ DirEntry_encode x) with o.2. rewrite <- Hcd, Hzd.
    pose proof (rt_count _ _ _ _ _ Hrt). pose proof (rt_count _ _ _ _ _ Hrt2) as Hct.
    rewrite (proj1 (proj2 Hci)) in Hct. change (nodes (file_shape (data_blocks 0))) with 0 in Hct. lia.
Qed.
End dir.
End dirs.
