(* ===== verification/FreshVolume.v ===== *)
(** * [SBFileSystem::create] makes a volume

    On a disk of zeroed blocks, [create] of [src/sbfs.cpp] leaves a volume
    of one object: the root directory, which has the smallest inode id, the
    entries ["."] and [".."] that lead to itself, and one data block.  So
    the theorems on [vol] hold of every file system that [create] has made
    and the operations have worked on. *)

From S2P Require Import Prelude Bytes Config BlkIface Bitmap DataArea Layout InodeIO DiskInode Sbfs Inode Frame SbfsProof FileMap FileData FileGrow FileShrink FileResize FileIO Dir Touched DirOps DirCreate FreshFs Volume VolumeOps VolumeDir.

(** The root's inode. *)
Definition root_inode (e : env) (b : Z) : DiskInode :=
  set_direct 0 b (set_mode (Z.lor S_IFDIR 0x1ed) (set_size 512 (DiskInode_new e kDirectory))).

Lemma root_inode_wf e b : is_u32 b → DiskInode_wf (root_inode e b).
Proof.
  intros Hb. destruct (DiskInode_new_wf e kDirectory) as []; [done|].
  split; [unfold is_u32; simpl; lia|done|done|done|done|done|done|by vm_compute| |done|done|done].
  split; [done|]. change (Forall is_u32 (b :: replicate 22 0)).
  apply Forall_cons. split; [done|]. by apply Forall_replicate.
Qed.

Section create.
Context (total ibb : Z) (Hsz : sizes_ok total ibb) (Hroom : 32769 ≤ total - ibb - ibb * 1024).
Context (pad : bytes) (Hpad : zlen pad = kBlockSize - 32).

Definition new_fs : SBFileSystem := initBitmapAndBlock (create_super_block pad total ibb).
Abbreviation bm := (data_bitmap_ new_fs).
Abbreviation ibm := (inode_bitmap_ new_fs).
Abbreviation P := (getDiskInodePos new_fs).

(** The id of the root. *)
Definition root_id : Z := 1 + ibb.

Definition mounted_fs : SBFileSystem := set_super (set_root (P root_id) (super_block_ new_fs)) new_fs.

(** The numbers everything below is computed from. *)
Lemma new_layout :
  let dbb := (total - ibb - ibb * 1024) / 32769 in
  ibm = mkBitmap 1 ibb (1 + ibb) ∧ inode_area_start_block_ new_fs = 1 + ibb ∧
  bm = mkBitmap (1 + ibb + ibb * 1024) dbb (1 + ibb + ibb * 1024 + dbb) ∧
  slots ibm = ibb * 32768 ∧ slots bm = dbb * 32768 ∧ 1 ≤ dbb ∧
  1 + ibb + ibb * 1024 + dbb + dbb * 32768 ≤ total + 1.
Proof.
  intros dbb. destruct (create_regions pad total ibb Hsz) as (H1 & H2 & H3 & H4 & H5 & H6).
  fold dbb in H3, H4. fold new_fs in *. pose proof (Z.mod_pos_bound (total - ibb - ibb * 1024) 32769 ltac:(lia)).
  pose proof (Z.div_mod (total - ibb - ibb * 1024) 32769 ltac:(lia)) as Hd. fold dbb in Hd.
  split_and!; try done; unfold slots; rewrite ?H1, ?H3; unfold slot_per_block, kBlockSize; cbn [num_blocks]; lia.
Qed.

Lemma new_pos i : valid_id new_fs i → P i = mkPosition (1 + ibb + i / 32) (i mod 32 * 128) ∧ 0 ≤ i / 32 < ibb * 1024.
Proof.
  destruct new_layout as (H1 & H2 & _ & H4 & _). unfold valid_id. rewrite H1 at 1. rewrite H4. cbn [data_segment_offset].
  intros Hi. destruct Hsz as (? & ? & ? & ?). pose proof (Z.div_mod i 32). pose proof (Z.mod_pos_bound i 32).
  rewrite (getDiskInodePos_eq new_fs (ibb * 32768)); [|split_and!; rewrite ?H2, ?kInodesInABlock_eq; try lia|lia].
  - rewrite H2. split; [done|]. lia.
  - replace (ibb * 32768) with (ibb * 1024 * 32) by lia. rewrite Z.div_mul by lia. lia.
Qed.

Lemma root_valid : valid_id new_fs root_id.
Proof.
  destruct new_layout as (H1 & _ & _ & H4 & _). unfold valid_id. rewrite H1 at 1. rewrite H4.
  unfold root_id. cbn [data_segment_offset]. destruct Hsz. lia.
Qed.

Lemma new_geom : vol_geom mounted_fs.
Proof.
  destruct new_layout as (H1 & H2 & H3 & H4 & H5 & Hd & Hend). destruct Hsz as (S1 & S2 & S3 & S4).
  assert (Hu : is_u32 total ∧ is_u32 ibb) by (unfold is_u32; lia).
  split; change (inode_bitmap_ mounted_fs) with ibm; change (data_bitmap_ mounted_fs) with bm.
  - split; [done|]. split; [|done].
    apply create_super_block_wf; [apply Hu|apply Hu|done|apply u32_range|apply u32_range].
  - rewrite H4, H1. split; [|cbn [data_segment_offset]; lia].
    split_and!; change (inode_area_start_block_ mounted_fs) with (inode_area_start_block_ new_fs);
      rewrite ?H2, ?kInodesInABlock_eq; try lia.
    replace (ibb * 32768) with (ibb * 1024 * 32) by lia. rewrite Z.div_mul by lia. lia.
  - intros i Hi. change (getDiskInodePos mounted_fs i) with (P i). destruct (new_pos i Hi) as [-> Hr]. cbn [block_id].
    unfold in_bitmap, in_area. rewrite H5, H3, H1. cbn [start_block_id num_blocks data_segment_offset]. lia.
  - unfold in_bitmap, in_area. rewrite H5, H3, H1. cbn [start_block_id num_blocks data_segment_offset]. lia.
Qed.

(** ** The disk while it is created *)

(** Bitmaps in which the blocks of [U] and the inode ids of [S] are marked. *)
Record base (m : store) (U : Z → Prop) (n : Z) (S : Z → bool) : Prop := {
  ba_area : area_ok m bm;
  ba_ibm : ibm_ok m new_fs;
  ba_used c : used m bm c ↔ U c;
  ba_free : free_blocks m bm = n;
  ba_bits t : 0 ≤ t < slots ibm → bm_bit m ibm t = S t;
}.

Lemma base_insert m U n S k x :
  base m U n S → ¬ in_bitmap bm k → ¬ in_bitmap ibm k → is_Some (m !! k) → is_u32 k → blk_wf x →
  base (<[k := x]> m) U n S.
Proof.
  intros [A [(Hwf & Hg & Hin) Hap] Hu Hf Hb] Hk Hki Hm Hku Hx. split.
  - by apply insert_area.
  - split; [|done]. split; [by apply store_wf_insert|]. split; [done|].
    intros b Hb'. apply insert_dom; [done|]. by apply Hin.
  - intros c. by rewrite insert_used.
  - by rewrite insert_free_blocks.
  - intros t Ht. rewrite <- Hb by done. apply bm_bit_frame; [|done]. intros c Hc. apply lookup_insert_ne. by intros ->.
Qed.

(** The blocks the layout uses: where the data area ends. *)
Definition layout_end : Z := 1 + ibb + ibb * 1024 + (total - ibb - ibb * 1024) / 32769 * 32769.

Lemma layout_end_ge : 1 + ibb + ibb * 1024 ≤ layout_end.
Proof. unfold layout_end. destruct new_layout as (_ & _ & _ & _ & _ & Hd & _). lia. Qed.

Definition zero_disk (m : store) : Prop :=
  store_wf m ∧ (∀ b, 0 ≤ b < layout_end → is_Some (m !! b)) ∧ bitmap_zero m bm ∧ bitmap_zero m ibm.

Lemma base_zero m : zero_disk m → base m (λ _, False) (slots bm) (λ _, false).
Proof.
  intros (Hwf & Hin & Hz & Hzi). unfold layout_end in Hin. destruct new_layout as (H1 & H2 & H3 & H4 & H5 & Hd & Hend).
  destruct Hsz as (S1 & S2 & S3 & S4). set (dbb := (total - ibb - ibb * 1024) / 32769) in *.
  assert (Hg : bitmap_geom bm).
  { unfold bitmap_geom. rewrite H5, H3. cbn [start_block_id num_blocks data_segment_offset]. lia. }
  assert (Hgi : bitmap_geom ibm).
  { unfold bitmap_geom. rewrite H4, H1. cbn [start_block_id num_blocks data_segment_offset]. lia. }
  assert (Ha : area_ok m bm).
  { split.
    - split_and!; [done|done|]. intros b. unfold in_bitmap. rewrite H3. cbn [start_block_id num_blocks]. intros ?.
      apply Hin. lia.
    - rewrite H3. cbn [start_block_id num_blocks data_segment_offset]. lia.
    - intros s. rewrite H5, H3. cbn [data_segment_offset]. intros ?. apply Hin. lia. }
  split; [done| | |by apply zero_free_blocks|intros t; by apply zero_free].
  - split.
    + split_and!; [done|done|]. intros b. unfold in_bitmap. rewrite H1. cbn [start_block_id num_blocks]. intros ?.
      apply Hin. lia.
    + intros b. unfold in_bitmap, in_area. rewrite H5, H3, H1. cbn [start_block_id num_blocks data_segment_offset]. lia.
  - intros c. split; [|done]. intros [Hc Hbit]. rewrite zero_free in Hbit; [done..|]. unfold in_area in Hc. lia.
Qed.

(** The blocks [create] writes to, apart from the bitmaps. *)
Lemma new_blocks b : in_area bm b →
  let p := block_id (P root_id) in
  b ≠ 0 ∧ b ≠ p ∧ p ≠ 0 ∧ 0 ≤ p < layout_end ∧ is_u32 p ∧ ¬ in_bitmap bm p ∧ ¬ in_bitmap ibm p ∧ ¬ in_area bm p ∧
  ¬ in_bitmap bm b ∧ ¬ in_bitmap ibm b.
Proof.
  intros Hb. destruct new_layout as (H1 & H2 & H3 & H4 & H5 & Hd & Hend). destruct Hsz as (S1 & S2 & S3 & S4).
  destruct (new_pos root_id root_valid) as [-> Hr]. unfold in_area, in_bitmap in *. rewrite H5, H3 in *. rewrite H1 in *.
  cbn [block_id start_block_id num_blocks data_segment_offset] in *. unfold is_u32.
  unfold layout_end. set (q := root_id / 32) in *. clearbody q. cbv zeta. lia.
Qed.

(** The two allocations. *)
Lemma base_alloc_inode m U n :
  base m U n (λ _, false) → ∃ m', Bitmap_alloc ibm m = (Some root_id, m') ∧ base m' U n (λ t, bool_decide (t = 0)) ∧
    (∀ c, ¬ in_bitmap ibm c → m' !! c = m !! c) ∧ ∀ c, is_Some (m' !! c) ↔ is_Some (m !! c).
Proof.
  intros [A Hi Hu Hf Hb]. destruct new_layout as (H1 & _ & _ & H4 & _). destruct Hsz as (S1 & _).
  destruct (Bitmap_alloc_spec m ibm (ib_ok _ _ Hi)) as [(s & m' & (Hs & Hbit & Hlow) & Hbu & Hrun & _)|[Hfull _]].
  2: { specialize (Hfull 0 ltac:(lia)). by rewrite Hb in Hfull by lia. }
  assert (s = 0) as ->.
  { destruct (decide (s = 0)); [done|]. specialize (Hlow 0 ltac:(lia)). by rewrite Hb in Hlow by lia. }
  exists m'. split; [by rewrite Hrun, H1|]. destruct (ibm_touched m new_fs m' 0 true A Hi Hbu) as (Hot & Hf' & Hi' & Hu').
  split; [|split; [apply Hbu|apply Hot]]. split; [apply Hot|done| |congruence|].
  - intros c. by rewrite Hu'.
  - intros t Ht. rewrite (bu_bit _ _ _ _ _ Hbu) by done. case_decide as Hd.
    + by rewrite bool_decide_eq_true_2.
    + rewrite bool_decide_eq_false_2 by done. by apply Hb.
Qed.

Lemma base_alloc_data m n S :
  base m (λ _, False) n S → 0 < n →
  ∃ b m', Bitmap_alloc bm m = (Some b, m') ∧ in_area bm b ∧ base m' (λ c, c = b) (n - 1) S ∧
    (∀ c, ¬ in_bitmap bm c → m' !! c = m !! c) ∧ ∀ c, is_Some (m' !! c) ↔ is_Some (m !! c).
Proof.
  intros [A Hi Hu Hf Hb] Hn. destruct (Bitmap_alloc_area m bm A) as [(b & m' & Hrun & _ & Hal)|[_ Hz]]; [|lia].
  exists b, m'. split; [done|]. split; [apply Hal|]. split; [|split; apply Hal].
  assert (Hfr : ∀ c, in_bitmap ibm c → m' !! c = m !! c).
  { intros c Hc. apply (al_frame _ _ _ _ Hal). by apply (ib_apart _ _ Hi). }
  split; [apply Hal| | |by rewrite (al_count _ _ _ _ Hal), Hf|].
  - destruct Hi as [(Hwf & Hg & Hin) Hap]. split; [|done].
    split; [apply (a_bitmap _ _ (al_area _ _ _ _ Hal))|]. split; [done|].
    intros c Hc. apply (al_dom _ _ _ _ Hal). by apply Hin.
  - intros c. rewrite (al_used _ _ _ _ Hal), Hu. tauto.
  - intros t Ht. rewrite <- Hb by done. by apply bm_bit_frame.
Qed.

(** ** What [create] leaves *)

Definition root_attrs (e : env) : Z * Z * Z * Z * Z := attrs (root_inode e 0).

Definition new_volume (e : env) : vstate :=
  mkV {[ root_id := (root_attrs e, entries_bytes (root_entries root_id)) ]} (slots bm - 1).

Lemma create_run e m :
  zero_disk m →
  ∃ b m3 m', SBFileSystem_create e pad total ibb m = (Some mounted_fs, m') ∧ in_area bm b ∧
    base m3 (λ c, c = b) (slots bm - 1) (λ t, bool_decide (t = 0)) ∧
    base m' (λ c, c = b) (slots bm - 1) (λ t, bool_decide (t = 0)) ∧
    (∀ c, is_Some (m' !! c) ↔ is_Some (m !! c)) ∧
    m' !! 0 = Some (SuperBlock_encode (super_block_ mounted_fs)) ∧
    m' !! b = Some (root_dir_block root_id) ∧
    inode_at m' (P root_id) = Some (root_inode e b).
Proof.
  intros Hz. pose proof Hz as (Hwf & Hin & _). pose proof new_geom as Hg.
  destruct (vg_zero _ Hg) as (Hz1 & _ & Hz2). change (data_bitmap_ mounted_fs) with bm in Hz1.
  change (inode_bitmap_ mounted_fs) with ibm in Hz2.
  assert (Hsb : ∀ p, is_u32 (block_id p) → is_u32 (block_offset p) →
    blk_wf (SuperBlock_encode (set_root p (super_block_ new_fs)))).
  { intros p Hp1 Hp2. apply SuperBlock_encode_wf. destruct Hsz as (? & ? & ? & ?).
    apply create_super_block_wf; [unfold is_u32; lia|unfold is_u32; lia|done|done|done]. }
  assert (Hru : is_u32 root_id) by (unfold is_u32, root_id; destruct Hsz as (? & ? & ? & ?); lia).
  assert (H0 : is_Some (m !! 0)) by (apply Hin; pose proof layout_end_ge; destruct Hsz; lia).
  (* the super block without a root *)
  set (m1 := <[0 := SuperBlock_encode (super_block_ new_fs)]> m).
  assert (Hw1 : dev_write 0 (SuperBlock_encode (super_block_ new_fs)) m = (Some tt, m1)).
  { apply map_write_eq; [done|done|]. by apply (Hsb Position_invalid). }
  assert (B1 : base m1 (λ _, False) (slots bm) (λ _, false)).
  { apply base_insert; try done; [by apply base_zero|]. by apply (Hsb Position_invalid). }
  assert (D1 : ∀ c, is_Some (m1 !! c) ↔ is_Some (m !! c)) by (intros c; by apply insert_dom).
  (* the two allocations *)
  destruct (base_alloc_inode m1 _ _ B1) as (m2 & Ha2 & B2 & _ & D2).
  destruct (base_alloc_data m2 _ _ B2) as (b & m3 & Ha3 & Hb & B3 & _ & D3).
  { destruct new_layout as (_ & _ & _ & _ & -> & ? & _). lia. }
  destruct (new_blocks b Hb) as (Hb0 & Hbp & Hp0 & Hpr & Hpu & Hpn & Hpi & Hpa & Hbn & Hbi).
  set (p := block_id (P root_id)) in *.
  assert (Hbu : is_u32 b) by apply (in_area_u32 _ _ _ (ba_area _ _ _ _ B3) Hb).
  assert (Hslot : child_slot m3 mounted_fs (P root_id)).
  { split; [|done]. split; [|done]. destruct (vol_offset mounted_fs root_id Hg root_valid) as (? & ? & ?).
    split_and!; try done. apply D3, D2, D1, Hin. done. }
  (* the root's inode and block, and the super block again *)
  assert (Hwf3 : store_wf m3) by apply (a_bitmap _ _ (ba_area _ _ _ _ B3)).
  assert (Hrw : DiskInode_wf (root_inode e b)) by by apply root_inode_wf.
  destruct Hslot as [(Hpos & _ & _) _].
  destruct (Inode_write_inode_spec m3 (P root_id) (root_inode e b) Hwf3 Hpos Hrw) as (blk & Hblk & Hw4 & Hat4 & Hwf4).
  set (x := splice _ _ blk) in *. rewrite Hw4 in Hat4, Hwf4. cbn [snd] in Hat4, Hwf4.
  set (m4 := <[block_id (P root_id) := x]> m3) in *.
  assert (Hx : blk_wf x) by (destruct (Hwf4 p x) as [_ ?]; [apply lookup_insert_eq|done]).
  assert (B4 : base m4 (λ c, c = b) (slots bm - 1) (λ t, bool_decide (t = 0))).
  { by apply base_insert. }
  destruct (root_block root_id Hru) as [Hrb _]. set (m5 := <[b := root_dir_block root_id]> m4).
  assert (Hb4 : is_Some (m4 !! b)) by (apply (in_area_block _ bm); [apply B4|done]).
  assert (B5 : base m5 (λ c, c = b) (slots bm - 1) (λ t, bool_decide (t = 0))) by by apply base_insert.
  assert (D5 : ∀ c, is_Some (m5 !! c) ↔ is_Some (m !! c)).
  { intros c. unfold m5. rewrite insert_dom by done. unfold m4. rewrite insert_dom by by eexists. by rewrite D3, D2, D1. }
  set (sb := SuperBlock_encode (super_block_ mounted_fs)). set (m6 := <[0 := sb]> m5).
  assert (Hsw : blk_wf sb) by (apply Hsb; apply u32_range).
  assert (H5 : is_Some (m5 !! 0)) by by apply D5.
  exists b, m3, m6. split; [|split; [done|split; [done|split; [by apply base_insert|split; [|split; [|split]]]]]].
  - unfold SBFileSystem_create. cbv zeta. rewrite attempt_run. change (create_super_block pad total ibb) with (super_block_ new_fs).
    rewrite Hw1. cbn [fst snd]. change (initBitmapAndBlock (super_block_ new_fs)) with new_fs.
    unfold createRoot, alloc_inode, alloc_data. rewrite (bind_Some _ _ _ _ _ Ha2), (bind_Some _ _ _ _ _ Ha3). cbv zeta.
    rewrite attempt_run. change (set_direct 0 b _) with (root_inode e b). rewrite Hw4. cbn [fst snd].
    rewrite attempt_run. assert (Hw5 : dev_write b (root_dir_block root_id) m4 = (Some tt, m5)) by by apply map_write_eq.
    rewrite Hw5. cbn [fst snd]. rewrite attempt_run.
    assert (Hw6 : dev_write 0 sb m5 = (Some tt, m6)) by by apply map_write_eq.
    change (set_super (set_root (P root_id) (super_block_ new_fs)) new_fs) with mounted_fs. fold sb. by rewrite Hw6.
  - intros c. unfold m6. rewrite insert_dom by done. apply D5.
  - apply lookup_insert_eq.
  - unfold m6. rewrite lookup_insert_ne by done. apply lookup_insert_eq.
  - rewrite <- Hat4. unfold inode_at, m6, m5. fold p. by rewrite !lookup_insert_ne by done.
Qed.

Lemma root_dir e : is_dir (root_attrs e, entries_bytes (root_entries root_id)) (root_entries root_id).
Proof.
  assert (Hw : Forall DirEntry_wf (root_entries root_id)) by (repeat constructor; apply DirEntry_new_wf).
  split; [done|done|done|]. cbn [snd]. rewrite zlen_entries by done. by vm_compute.
Qed.

Lemma create_volume e m :
  zero_disk m →
  ∃ m', SBFileSystem_create e pad total ibb m = (Some mounted_fs, m') ∧ vol mounted_fs m' (new_volume e).
Proof.
  intros Hz. destruct (create_run e m Hz) as (b & m3 & m' & Hrun & Hb & _ & [A Hi Hu Hf Hbits] & Hdom & Hsup & Hblk & Hat).
  exists m'. split; [done|]. set (d := root_inode e b) in *.
  assert (Hub : used m' bm b) by by apply Hu.
  assert (Hbu : is_u32 b) by apply (in_area_u32 _ _ _ A Hb).
  assert (Hru : is_u32 root_id) by (unfold is_u32, root_id; destruct Hsz as (? & ? & ? & ?); lia).
  pose proof (root_inode_wf e b Hbu) as Hwf. fold d in Hwf.
  destruct (one_block_own m' bm d b A Hub Hwf eq_refl eq_refl eq_refl) as [Ho Hby].
  assert (Hlive : ∀ c, tree_blocks m' d c ↔ c = b).
  { intros c. unfold tree_blocks. change (data_blocks (size d)) with 1. split.
    - by intros (x & ->%one_block_live & ->).
    - intros ->. exists (NData 0). split; [simpl; lia|done]. }
  assert (Hc : content m' d = entries_bytes (root_entries root_id)).
  { unfold content. change (data_blocks (size d)) with 1. change (size d) with 512. rewrite Hby. unfold blk_at.
    rewrite Hblk. apply (proj2 (root_block root_id Hru)). }
  set (F := {[root_id := d]} : gmap Z DiskInode).
  assert (Hfo : forest m' bm F).
  { split; [done| | |].
    - intros i di [<- <-]%lookup_singleton_Some. done.
    - intros i j di dj c [<- <-]%lookup_singleton_Some [<- <-]%lookup_singleton_Some. done.
    - intros c ->%Hu. exists root_id, d. split; [apply lookup_singleton_eq|by apply Hlive]. }
  exists F. split.
  - split; [apply new_geom|exact Hfo|by destruct Hi| | | |done].
    + intros i Hv. apply Hdom. change (getDiskInodePos mounted_fs i) with (P i).
      destruct (new_pos i Hv) as [-> Hr]. cbn [block_id]. apply Hz. pose proof layout_end_ge. destruct Hsz as (? & ? & ? & ?). lia.
    + intros i di [<- <-]%lookup_singleton_Some. split; [apply root_valid|done].
    + intros i Hr. change (inode_bitmap_ mounted_fs) with ibm in *. rewrite Hbits by lia.
      destruct new_layout as (H1 & _). rewrite H1. cbn [data_segment_offset]. rewrite bool_decide_eq_true. split.
      * intros He. replace i with root_id by (unfold root_id; lia). unfold F. rewrite lookup_singleton_eq. by eexists.
      * intros [di [<- _]%lookup_singleton_Some]. unfold root_id. lia.
  - unfold new_volume. change (data_bitmap_ mounted_fs) with bm. rewrite Hf. f_equal.
    unfold objs, F. rewrite map_fmap_singleton, Hc. done.
Qed.
End create.
