(* ===== verification/VolumeNames.v ===== *)
(** * Names: paths through the directories of a volume

    What [Inode::find] and [PathResolver] compute on a volume, in terms of
    its objects alone: a path is walked from directory object to directory
    object ([v_walk]).  [names] says that the entries of the directories
    lead to objects; as long as an operation only adds entries
    ([v_extends]), what the path cache remembers stays right. *)

From S2P Require Import Prelude Bytes Config BlkIface Bitmap DataArea Layout InodeIO DiskInode Sbfs Inode PathResolver Vfs Frame SbfsProof PathProof FileMap FileData FileGrow FileShrink FileResize FileIO Dir Touched DirOps DirCreate Volume VolumeOps VolumeDir.

(** ** The entries of a directory object *)

Definition entries_of (b : bytes) : list DirEntry :=
  (λ t, DirEntry_decode (slice (sizeof_DirEntry * t) sizeof_DirEntry b)) <$> seqZ 0 (zlen b / sizeof_DirEntry).

Lemma entries_of_bytes es : Forall DirEntry_wf es → entries_of (entries_bytes es) = es.
Proof.
  intros Hes. unfold entries_of. rewrite zlen_entries by done. rewrite Z.mul_comm, Z.div_mul by done.
  apply list_eq. intros t. rewrite list_lookup_fmap. destruct (es !! t) as [x|] eqn:Ht.
  - pose proof (lookup_lt_Some _ _ _ Ht) as Hl. rewrite lookup_seqZ_lt by (unfold zlen; lia). simpl.
    rewrite Z.add_0_l, (slice_entries es t x Hes Ht). f_equal. apply DirEntry_decode_encode. by apply (Forall_lookup_1 _ _ _ _ Hes Ht).
  - apply lookup_ge_None in Ht. by rewrite lookup_seqZ_ge by (unfold zlen; lia).
Qed.

Lemma is_dir_entries o es : is_dir o es → entries_of o.2 = es.
Proof. intros [_ He Hb _]. rewrite Hb. by apply entries_of_bytes. Qed.

(** ** Walking *)

(** The inode a directory object has under a name. *)
Definition v_find (v : vstate) (d : Z) (nm : bytes) : option Z :=
  match (v_objs v !! d : option obj) with
  | Some o => if a_type o.1 =? kDirectory then (λ x, inode x.2) <$> find_entry nm (entries_of o.2) else None
  | None => None
  end.

Fixpoint v_walk (v : vstate) (parts : list bytes) (i : Z) : option Z :=
  match parts with
  | [] => Some i
  | p :: parts => j ← v_find v i p; v_walk v parts j
  end.

(** The entries of directories lead to objects. *)
Definition names (v : vstate) : Prop :=
  ∀ d o, v_objs v !! d = Some o → a_type o.1 = kDirectory →
    ∃ es, is_dir o es ∧ ∀ x, x ∈ es → is_Some (v_objs v !! inode x).

Lemma v_find_in v d nm i : names v → v_find v d nm = Some i → is_Some (v_objs v !! i).
Proof.
  intros Hn. unfold v_find. destruct (v_objs v !! d) as [o|] eqn:Ho; [|done]. intros Hf. destruct (Z.eqb_spec (a_type o.1) kDirectory) as [Hty|]; [|done].
  destruct (Hn d o Ho Hty) as (es & Hd & Hes). rewrite (is_dir_entries _ _ Hd) in Hf.
  apply fmap_Some in Hf as ([t x] & Hf & ->). apply Hes. destruct (find_entry_lt _ _ _ _ Hf) as [_ Ht].
  by apply list_elem_of_lookup_2 in Ht.
Qed.

Lemma v_walk_in v parts : ∀ i j, names v → is_Some (v_objs v !! i) → v_walk v parts i = Some j → is_Some (v_objs v !! j).
Proof.
  induction parts as [|p parts IH]; intros i j Hn Hi; [by intros [= <-]|]. intros (k & Hk & Hw)%option.bind_Some.
  apply (IH k j Hn); [|done]. by apply (v_find_in v i p).
Qed.

Lemma v_walk_app v a c i : v_walk v (a ++ c) i = (v_walk v a i ≫= v_walk v c).
Proof.
  revert i. induction a as [|p a IH]; intros i; [done|]. simpl. destruct (v_find v i p) as [j|]; simpl; [apply IH|done].
Qed.

(** ** On the disk *)

Section walk.
Context (fs : SBFileSystem) (m : store) (v : vstate) (Hvol : vol fs m v) (Hnames : names v).
Abbreviation P := (getDiskInodePos fs).

Lemma vol_find_any e d nm :
  is_Some (v_objs v !! d) → cstr nm ≠ [] → Inode_find e fs (P d) nm m = (P <$> v_find v d nm, m).
Proof.
  intros [[a b] Hd] Hnm. unfold v_find. rewrite Hd. simpl. destruct (Z.eqb_spec (a_type a) kDirectory) as [Hty|Hty].
  - destruct (Hnames d (a, b) Hd Hty) as (es & Hdir & _). pose proof (is_dir_entries _ _ Hdir) as He. cbn [snd] in He.
    rewrite He, (vol_find fs e m v d a b es nm Hvol Hd Hdir Hnm). by rewrite <- option_fmap_compose.
  - destruct (vol_lookup fs m v d a b Hvol Hd) as (F & di & Hv & _ & Hdi & <- & _ & _).
    pose proof (vol_file fs m F d di Hv Hdi) as Hf.
    destruct (read_at m (data_bitmap_ fs) (P d) di (file_at_slot _ _ _ _ Hf) (fa_inode _ _ _ _ Hf)) as [Hr _].
    unfold Inode_find. rewrite (bind_Some _ _ _ _ _ Hr).
    destruct (Z.eqb_spec (type_ di) kDirectory) as [He|_]; [by destruct Hty|done].
Qed.

Lemma vol_walk parts : ∀ i, is_Some (v_objs v !! i) → Forall (λ p, cstr p ≠ []) parts →
  lookup_path m fs parts (P i) = P <$> v_walk v parts i.
Proof.
  induction parts as [|p parts IH]; intros i Hi Hp; [done|]. inversion_clear Hp as [|? ? Hp1 Hp2].
  cbn [lookup_path v_walk]. rewrite (vol_find_any _ i p Hi Hp1). cbn [fst].
  destruct (v_find v i p) as [j|] eqn:Hj; simpl; [|done]. apply IH; [|done]. by apply (v_find_in v i p).
Qed.
End walk.

(** ** Operations that only add names *)

Definition v_extends (v v' : vstate) : Prop := ∀ d nm i, v_find v d nm = Some i → v_find v' d nm = Some i.

Lemma v_extends_walk v v' parts : v_extends v v' → ∀ i j, v_walk v parts i = Some j → v_walk v' parts i = Some j.
Proof.
  intros He. induction parts as [|p parts IH]; intros i j; [done|]. simpl. intros (k & Hk & Hw)%option.bind_Some.
  rewrite (He _ _ _ Hk). simpl. by apply IH.
Qed.

(** What the cache remembers stays right. *)
Lemma coherent_extends fs m m' v v' r root :
  vol fs m v → names v → vol fs m' v' → names v' → SBFileSystem_root fs = getDiskInodePos fs root →
  is_Some (v_objs v !! root) → is_Some (v_objs v' !! root) → v_extends v v' → keys_good r →
  coherent m fs r → coherent m' fs r.
Proof.
  intros Hv Hn Hv' Hn' Hr Hroot Hroot' He Hg Hc k c Hk. specialize (Hc k c Hk). pose proof (Hg k c Hk) as Hp.
  apply plain_named in Hp. rewrite Hr in *. rewrite (vol_walk fs m v Hv Hn) in Hc by done. rewrite (vol_walk fs m' v' Hv' Hn') by done.
  apply fmap_Some in Hc as (j & Hj & ->). by rewrite (v_extends_walk v v' _ He _ _ Hj).
Qed.

(** ** [names] and [v_extends] of changed objects *)

Lemma v_put_lookup i o v j : v_objs (v_put i o v) !! j = if decide (i = j) then Some o else v_objs v !! j.
Proof. unfold v_put. cbn [v_objs]. apply lookup_insert. Qed.

Lemma v_put_dom i o v j : is_Some (v_objs v !! j) → is_Some (v_objs (v_put i o v) !! j).
Proof. intros Hj. rewrite v_put_lookup. case_decide; [by eexists|done]. Qed.

Lemma names_put i o v :
  names v →
  (a_type o.1 = kDirectory → ∃ es, is_dir o es ∧ ∀ x, x ∈ es → inode x = i ∨ is_Some (v_objs v !! inode x)) →
  names (v_put i o v).
Proof.
  intros Hn Ho d o' Hd Hty. rewrite v_put_lookup in Hd. destruct (decide (i = d)) as [->|Hne].
  - injection Hd as <-. destruct (Ho Hty) as (es & Hdir & Hes). exists es. split; [done|].
    intros x Hx. destruct (Hes x Hx) as [->|Hi]; [|by apply v_put_dom].
    rewrite v_put_lookup, decide_True by done. by eexists.
  - destruct (Hn d o' Hd Hty) as (es & Hdir & Hes). exists es. split; [done|]. intros x Hx. by apply v_put_dom, Hes.
Qed.

Lemma v_extends_refl v : v_extends v v.
Proof. by intros d nm i. Qed.

Lemma v_extends_trans v1 v2 v3 : v_extends v1 v2 → v_extends v2 v3 → v_extends v1 v3.
Proof. intros H1 H2 d nm i Hf. by apply H2, H1. Qed.

Lemma v_extends_put i o v :
  (∀ nm j, v_find v i nm = Some j → v_find (v_put i o v) i nm = Some j) → v_extends v (v_put i o v).
Proof.
  intros Hi d nm j Hf. destruct (decide (i = d)) as [->|Hne]; [by apply Hi|].
  unfold v_find in *. by rewrite v_put_lookup, decide_False.
Qed.

(** An object whose type does not change, nor its bytes if it is a
    directory. *)
Lemma put_same_names i (o o' : obj) v :
  names v → v_objs v !! i = Some o → a_type o'.1 = a_type o.1 → (a_type o.1 = kDirectory → o'.2 = o.2) →
  names (v_put i o' v) ∧ v_extends v (v_put i o' v).
Proof.
  intros Hn Hi Hty Hb. split.
  - apply names_put; [done|]. rewrite Hty. intros Hd. destruct (Hn i o Hi Hd) as (es & [H1 H2 H3 H4] & Hes).
    exists es. split; [|by right; apply Hes]. specialize (Hb Hd). split; congruence.
  - apply v_extends_put. intros nm j. unfold v_find. rewrite v_put_lookup, decide_True, Hi by done.
    rewrite Hty. destruct (Z.eqb_spec (a_type o.1) kDirectory) as [Hd|]; [|done]. by rewrite Hb.
Qed.

(** A directory with one more entry. *)
Lemma put_entry_names d o es o' x v :
  names v → v_objs v !! d = Some o → is_dir o es → is_dir o' (es ++ [x]) →
  is_Some (v_objs v !! inode x) →
  names (v_put d o' v) ∧ v_extends v (v_put d o' v).
Proof.
  intros Hn Hd Hdir Hdir' Hx. pose proof (is_dir_entries _ _ Hdir) as He. pose proof (is_dir_entries _ _ Hdir') as He'.
  split.
  - apply names_put; [done|]. intros _. exists (es ++ [x]). split; [done|]. intros y Hy. right.
    apply elem_of_app in Hy as [Hy| ->%list_elem_of_singleton]; [|done].
    destruct (Hn d o Hd (id_type _ _ Hdir)) as (es' & Hdir2 & Hes). apply Hes.
    by rewrite <- (is_dir_entries _ _ Hdir2), He.
  - apply v_extends_put. intros nm j. unfold v_find. rewrite v_put_lookup, decide_True, Hd by done.
    rewrite (id_type _ _ Hdir), (id_type _ _ Hdir'), He, He'. rewrite Z.eqb_refl.
    intros ([t y] & Hf & ->)%fmap_Some. unfold find_entry in *.
    rewrite (list_find_app_l _ _ _ _ _ Hf). done.
Qed.

(** [names] and [v_extends] look at the objects only. *)
Lemma names_objs v v' : v_objs v = v_objs v' → names v → names v'.
Proof. intros He Hn d o. rewrite <- He. apply Hn. Qed.

Lemma v_extends_objs v v1 v2 : v_objs v1 = v_objs v2 → v_extends v v1 → v_extends v v2.
Proof. intros He Hx d nm i Hf. apply Hx in Hf. unfold v_find in *. by rewrite <- He. Qed.

(** After [create]. *)
Lemma create_names d o es o' id c x v :
  names v → v_objs v !! d = Some o → is_dir o es → is_dir o' (es ++ [x]) → inode x = id →
  v_objs v !! id = None →
  (a_type c.1 = kDirectory → ∃ ces, is_dir c ces ∧ ∀ y, y ∈ ces → inode y = id ∨ inode y = d) →
  names (v_put id c (v_put d o' v)) ∧ v_extends v (v_put id c (v_put d o' v)).
Proof.
  intros Hn Hd Hdir Hdir' Hx Hid Hc. assert (Hne : id ≠ d) by (intros ->; congruence).
  set (v1 := v_put id c v).
  assert (Hn1 : names v1).
  { apply names_put; [done|]. intros Hty. destruct (Hc Hty) as (ces & Hdc & Hy). exists ces. split; [done|].
    intros y [?| ->]%Hy; [by left|right; by eexists]. }
  assert (Hx1 : v_extends v v1).
  { apply v_extends_put. intros nm j. unfold v_find. by rewrite Hid. }
  destruct (put_entry_names d o es o' x v1 Hn1) as [Hn2 Hx2]; try done.
  { unfold v1. by rewrite v_put_lookup, decide_False. }
  { rewrite Hx. unfold v1. rewrite v_put_lookup, decide_True by done. by eexists. }
  assert (He : v_objs (v_put d o' v1) = v_objs (v_put id c (v_put d o' v))).
  { unfold v1, v_put. cbn [v_objs]. by apply insert_insert_ne. }
  split; [by apply (names_objs _ _ He)|]. apply (v_extends_objs v _ _ He). by apply (v_extends_trans v v1).
Qed.

(** ** Paths and their parents *)

Lemma rfind_slash_last q c : no_slash c → rfind_slash (q ++ slash :: c) = zlen q.
Proof.
  intros Hc. unfold rfind_slash. rewrite reverse_app, reverse_cons, <- app_assoc. cbn [app].
  assert (Hf : list_find (λ c, c = slash) (reverse c ++ slash :: reverse q) = Some (length c, slash)).
  { apply list_find_Some. split_and!; [|done|].
    - rewrite lookup_app_r by (by rewrite length_reverse). by rewrite length_reverse, Nat.sub_diag.
    - intros j y Hy Hj. rewrite lookup_app_l in Hy by (rewrite length_reverse; lia).
      apply list_elem_of_lookup_2, elem_of_reverse in Hy. rewrite reverse_involutive in Hy.
      intros ->. by apply Hc. }
  rewrite Hf. unfold zlen. rewrite length_app. simpl. lia.
Qed.

Lemma splitFromLastSlash_child q c : no_slash c → splitFromLastSlash (q ++ slash :: c) = (q ++ [slash], c).
Proof.
  intros Hc. unfold splitFromLastSlash. rewrite rfind_slash_last by done. pose proof (zlen_nonneg q).
  destruct (Z.eqb_spec (zlen q) (-1)) as [|_]; [lia|].
  replace (Z.to_nat (zlen q + 1)) with (length (q ++ [slash])) by (rewrite length_app; unfold zlen; simpl; lia).
  assert (Ha : q ++ slash :: c = (q ++ [slash]) ++ c) by by rewrite <- app_assoc.
  by rewrite Ha, take_app_length, drop_app_length.
Qed.

Lemma removeEndSlash_child q c : no_slash c → c ≠ [] → removeEndSlash (q ++ slash :: c) = q ++ slash :: c.
Proof.
  intros Hc Hne. unfold removeEndSlash. rewrite rfind_slash_last by done.
  destruct (Z.eqb_spec (zlen q) (zlen (q ++ slash :: c) - 1)) as [He|_]; [|done].
  exfalso. apply Hne. unfold zlen in He. rewrite length_app in He. simpl in He. destruct c; [done|simpl in He; lia].
Qed.

Lemma removeEndSlash_slash q : removeEndSlash (q ++ [slash]) = q.
Proof.
  unfold removeEndSlash. rewrite (rfind_slash_last q []) by apply not_elem_of_nil.
  destruct (Z.eqb_spec (zlen q) (zlen (q ++ [slash]) - 1)) as [_|Hne].
  - rewrite length_app. simpl. rewrite Nat.add_sub. by apply take_app_length.
  - exfalso. apply Hne. unfold zlen. rewrite length_app. simpl. lia.
Qed.

Lemma split_child q c : no_slash c → split (q ++ slash :: c) false = split q false ++ [c].
Proof.
  intros Hc. unfold split. assert (Hcur : no_slash []) by apply not_elem_of_nil.
  generalize ([] : bytes) at 1 3 as pre. revert Hcur. generalize ([] : bytes) as cur.
  induction q as [|x q IH]; intros cur Hcur pre; cbn [app split_go].
  - rewrite decide_True by done. f_equal. pose proof (split_go_app_no_slash c false (pre ++ cur ++ [slash]) [] [] Hc) as Hs.
    rewrite app_nil_r in Hs. by rewrite Hs.
  - case_decide as Hx; [rewrite IH; [done|apply not_elem_of_nil]|]. apply IH. unfold no_slash. rewrite elem_of_app, list_elem_of_singleton.
    intros [?|He]; [by apply Hcur|by apply Hx].
Qed.
