(* ===== verification/VolumeVfs.v ===== *)
(** * The handlers on a whole file system ([src/vfs.cpp])

    A mounted file system whose disk is a volume: [vfs_ok] ties the open
    handles, the path cache and the disk to the objects of the volume.
    Handlers that look up a path follow the directory objects, whatever is
    cached; those that read and write through a handle read and write the
    object's bytes; those that change attributes change them; [mkdir] and
    [create] add an object and its entry. *)

From S2P Require Import Prelude Bytes Config BlkIface Bitmap DataArea Layout InodeIO DiskInode Sbfs Inode FdManager PathResolver Vfs Frame SbfsProof PathProof FileMap FileData FileGrow FileShrink FileResize FileIO Dir Touched FileTrunc DirOps DirCreate Volume VolumeOps VolumeDir VolumeNames.

Definition a_mode (a : Z * Z * Z * Z * Z) : Z := a.1.2.
Definition a_uid (a : Z * Z * Z * Z * Z) : Z := a.1.1.1.1.
Definition a_gid (a : Z * Z * Z * Z * Z) : Z := a.1.1.1.2.

(** ** Storing an inode whose blocks and size are as before *)

Lemma vol_restore fs m F i di di' :
  volume fs m F → F !! i = Some di → same_tree di di' → size di' = size di → DiskInode_wf di' →
  ∃ m', Inode_write_inode (getDiskInodePos fs i) di' m = (Some tt, m') ∧
    vol fs m' (v_put i (attrs di', content m di) (mkV (objs m F) (free_blocks m (data_bitmap_ fs)))).
Proof.
  intros Hv Hi Hst Hs Hwf. set (bm := data_bitmap_ fs). set (p := getDiskInodePos fs i).
  destruct (vo_inode _ _ _ Hv i di Hi) as [Hval _]. pose proof (proj1 (vol_slot fs m F i Hv Hval)) as Hslot.
  pose proof (vo_forest _ _ _ Hv) as Hfo. pose proof (forest_same m bm F i di di' Hfo Hi Hst Hs) as Hfo1.
  set (F1 := <[i := di']> F) in *. assert (Hi1 : F1 !! i = Some di') by apply lookup_insert_eq.
  pose proof (fo_own _ _ _ Hfo1 i di' Hi1) as Ho1.
  destruct (write_slot m bm p di' (o_area _ _ _ _ Ho1) Hslot Hwf) as (m' & Hrun & Hat & _ & Hot & Hfree & Hfiles).
  exists m'. split; [done|]. destruct (Hfiles di' Ho1) as (Ho' & Hc' & Htb').
  assert (Hsb : same_blocks_of bm m di' m' di').
  { destruct Hslot as (Hpos & Hnb & Hna). by apply (store_inode_same m bm p di' m' di'). }
  destruct (forest_step m bm F1 i di' Hfo1 Hi1 [p] (λ _, False) m' di' Hot) as [Hfo' Hk];
    [by intros q ->%list_elem_of_singleton; apply Hslot|by intros b []|done|by apply retree_same|].
  assert (HF : <[i := di']> F1 = F1) by (unfold F1; by rewrite insert_insert_eq). rewrite HF in Hfo'.
  assert (Hks : ∀ k, k ∈ [i] → valid_id fs k) by by intros k ->%list_elem_of_singleton.
  destruct (vol_bits fs m F m' [i] _ Hv Hot Hks) as [Hib Hb]; [by intros b []|].
  assert (Hv' : volume fs m' F1).
  { apply (vol_commit fs m F m' F1 [i] (λ _, False)); try done.
    - intros j dj. unfold F1. destruct (decide (j = i)) as [->|Hj].
      + rewrite lookup_insert_eq. intros [= <-]. by left.
      + rewrite lookup_insert_ne by done. intros Hdj. right. split; [done|]. by intros ->%list_elem_of_singleton.
    - intros j Hj. rewrite Hb, (vo_bits _ _ _ Hv j Hj) by lia. unfold F1. destruct (decide (j = i)) as [->|Hne].
      + rewrite lookup_insert_eq, Hi. by split; eexists.
      + by rewrite lookup_insert_ne. }
  exists F1. split; [done|]. unfold v_put. cbn [v_objs v_free]. fold bm. rewrite Hfree.
  assert (Hcc : content m' di' = content m di).
  { rewrite Hc'. unfold content. by rewrite Hs, (same_tree_bytes m di di'). }
  f_equal.
  - unfold objs. apply map_eq. intros j. rewrite lookup_fmap. unfold F1. destruct (decide (j = i)) as [->|Hj].
    + rewrite !lookup_insert_eq. simpl. by rewrite Hcc.
    + rewrite !lookup_insert_ne, lookup_fmap by done. destruct (F !! j) as [dj|] eqn:Hdj; [|done]. simpl.
      destruct (Hk j dj Hj) as [<- _]; [unfold F1; by rewrite lookup_insert_ne|done].
  - unfold objs. rewrite lookup_fmap, Hi. simpl. unfold cost. cbn [snd]. lia.
Qed.

Lemma vol_pos_valid fs i : vol_geom fs → valid_id fs i → Position_isValid (getDiskInodePos fs i) = true.
Proof.
  intros Hg Hv. pose proof (valid_range fs i Hg Hv) as Hr. destruct (vg_ids _ Hg) as [Hids Hoff].
  unfold Position_isValid. rewrite (getDiskInodePos_eq fs _ i Hids Hr). cbn [block_id].
  destruct Hids as (H0 & H1 & H2). rewrite kInodesInABlock_eq in H2. unfold valid_id in Hv.
  apply negb_true_iff, Z.eqb_neq. change UINT32_MAX with (2 ^ 32 - 1).
  assert (i / 32 < slots (inode_bitmap_ fs) / 32); [|lia].
  unfold slots, slot_per_block, kBlockSize in *. pose proof (Z.div_lt_upper_bound i 32 (num_blocks (inode_bitmap_ fs) * 1024)).
  replace (num_blocks (inode_bitmap_ fs) * (4096 * 8)) with (num_blocks (inode_bitmap_ fs) * 1024 * 32) in * by lia.
  rewrite Z.div_mul by lia. lia.
Qed.

(** ** The mounted file system *)

Section vfs.
Context (fs : SBFileSystem) (root : Z).
Abbreviation P := (getDiskInodePos fs).

Record vfs_ok (s : VFS (D := store)) (v : vstate) : Prop := {
  vf_vol : vol fs s.2.2 v;
  vf_names : names v;
  vf_root : SBFileSystem_root fs = P root ∧ is_Some (v_objs v !! root);
  vf_cache : resolver_ok s.2.1 ∧ coherent s.2.2 fs s.2.1 ∧ keys_good s.2.1;
}.

(** The object a path leads to. *)
Definition v_path (v : vstate) (path : bytes) : option Z :=
  if negb (bool_decide (head path = Some slash)) then None
  else if bool_decide (path = [slash]) then Some root
  else v_walk v (split (tail (removeEndSlash path)) false) root.

Lemma vol_valid m v i : vol fs m v → is_Some (v_objs v !! i) → Position_isValid (P i) = true ∧ valid_id fs i.
Proof.
  intros Hv [[a b] Hi]. destruct (vol_lookup fs m v i a b Hv Hi) as (F & di & HF & _ & Hdi & _).
  destruct (vo_inode _ _ _ HF i di Hdi) as [Hval _]. split; [|done]. by apply vol_pos_valid; [apply HF|].
Qed.

Lemma v_path_in v path i : names v → is_Some (v_objs v !! root) → v_path v path = Some i → is_Some (v_objs v !! i).
Proof.
  intros Hn Hr. unfold v_path. destruct (negb _); [done|]. destruct (bool_decide _); [by intros [= <-]|].
  by apply v_walk_in.
Qed.

(** Lookups follow the directory objects, through the cache too. *)
Lemma resolve_ok e s v path :
  vfs_ok s v → path_fine path →
  ∃ s', resolve e fs path s = (Some (default Position_invalid (P <$> v_path v path)), s') ∧
    vfs_ok s' v ∧ s'.1 = s.1 ∧ s'.2.2 = s.2.2.
Proof.
  destruct s as [f [r m]]. intros [Hv Hn [Hroot Hin] (Hr & Hc & Hk)] [Hlen Hgood]. cbn [fst snd] in *.
  destruct (resolve_spec e fs m r path Hr Hc Hlen) as (r' & Hrun & Hr' & Hc' & Hk').
  assert (Hq : (PathResolver_resolveNoCache e fs path m).1 =
    Some (default Position_invalid (P <$> v_path v path))).
  { unfold PathResolver_resolveNoCache, v_path. destruct (negb _); [done|].
    destruct (bool_decide_reflect (path = [slash])) as [->|Hne]; [by rewrite Hroot|].
    destruct Hgood as [->|Hgood]; [done|]. rewrite walk_no_cache_eq. cbn [fst].
    apply plain_named in Hgood. by rewrite Hroot, (vol_walk fs m v Hv Hn). }
  rewrite Hq in Hrun. exists (f, (r', m)). split; [by apply on_snd_run|]. split; [|done].
  split; [done|done|done|]. cbn [fst snd]. split; [done|]. split; [done|].
  destruct Hgood as [->|Hgood]; [|by apply Hk'].
  unfold PathResolver_resolve in Hrun. rewrite bool_decide_eq_true_2 in Hrun by done. cbn [negb] in Hrun.
  rewrite bool_decide_eq_true_2 in Hrun by done. by injection Hrun as _ <-.
Qed.

(** What the device does under a handler. *)
Lemma on_dev_run {A} (k : M store A) (s : VFS (D := store)) a m' :
  k s.2.2 = (Some a, m') → on_dev k s = (Some a, (s.1, (s.2.1, m'))).
Proof. destruct s as [f [r m]]. intros Hk. by apply on_snd_run, on_snd_run. Qed.

(** The state after the device has changed. *)
Lemma vfs_ok_dev s v m' v' :
  vfs_ok s v → vol fs m' v' → names v' → is_Some (v_objs v' !! root) → v_extends v v' →
  vfs_ok (s.1, (s.2.1, m')) v'.
Proof.
  destruct s as [f [r m]]. intros [Hv Hn [Hroot Hin] (Hr & Hc & Hk)] Hv' Hn' Hin' Hx. cbn [fst snd] in *.
  split; [done|done|done|]. cbn [fst snd]. split_and!; [done| |done].
  by apply (coherent_extends fs m m' v v' r root).
Qed.

Lemma vfs_ok_put s v m' i o o' :
  vfs_ok s v → v_objs v !! i = Some o → vol fs m' (v_put i o' v) →
  a_type o'.1 = a_type o.1 → (a_type o.1 = kDirectory → o'.2 = o.2) →
  vfs_ok (s.1, (s.2.1, m')) (v_put i o' v).
Proof.
  intros Hs Hi Hv' Hty Hb. destruct (put_same_names i o o' v (vf_names _ _ Hs) Hi Hty Hb) as [Hn Hx].
  apply (vfs_ok_dev s v); try done. apply v_put_dom, Hs.
Qed.

Lemma vfs_ok_fd s v f : vfs_ok s v → vfs_ok (f, s.2) v.
Proof. destruct s as [f0 [r m]]. by intros []. Qed.

(** ** Reading and writing through a handle *)

Lemma sb_read_ok e s v fh i (a : Z * Z * Z * Z * Z) b n off :
  vfs_ok s v → FDManager_get fh s.1 = Some (P i) → v_objs v !! i = Some (a, b) →
  zlen b < 2 ^ 31 → 0 ≤ off < zlen b → 0 < n → off + n < 2 ^ 32 →
  let l := Z.min n (zlen b - off) in
  ∃ s', sb_read e fh n off s = (Some (l, slice off l b), s') ∧ vfs_ok s' v ∧ s'.1 = s.1.
Proof.
  intros Hs Hfd Hi Hb Hoff Hn Hend l.
  destruct (vol_read fs e s.2.2 v i a b off n (vf_vol _ _ Hs) Hi Hb Hoff Hn Hend) as (m' & Hrun & Hv').
  exists (s.1, (s.2.1, m')). split; [|split; [|done]].
  - unfold sb_read. destruct (Z.ltb_spec UINT32_MAX n) as [Hlt|_]; [change UINT32_MAX with (2 ^ 32 - 1) in Hlt; lia|].
    rewrite (bind_Some _ _ _ (Some (P i)) s) by (unfold fd_get; by rewrite Hfd).
    rewrite u32_small by (unfold is_u32; lia). rewrite attempt_run, (on_dev_run _ _ _ _ Hrun). done.
  - apply (vfs_ok_dev s v); [done|done|apply Hs|apply Hs|apply v_extends_refl].
Qed.

(** Where the file ends, and past its end. *)
Lemma sb_read_end_ok e s v fh i (a : Z * Z * Z * Z * Z) b n off :
  vfs_ok s v → FDManager_get fh s.1 = Some (P i) → v_objs v !! i = Some (a, b) → 0 ≤ zlen b ≤ off → 0 < n → off + n < 2 ^ 32 →
  ∃ r s', sb_read e fh n off s = (Some r, s') ∧ vfs_ok s' v ∧ s'.1 = s.1 ∧ (r = (- EIO, []) ∨ r = (0, []) ∧ off = zlen b).
Proof.
  intros Hs Hfd Hi Hoff Hn Hend.
  destruct (vol_read_end fs e s.2.2 v i a b off n (vf_vol _ _ Hs) Hi ltac:(lia) Hn Hend) as (r & m' & Hrun & Hv' & Hr).
  exists (match r with Some r => r | None => (- EIO, []) end), (s.1, (s.2.1, m')). split; [|split; [|split; [done|]]].
  - unfold sb_read. destruct (Z.ltb_spec UINT32_MAX n) as [Hlt|_]; [change UINT32_MAX with (2 ^ 32 - 1) in Hlt; lia|].
    rewrite (bind_Some _ _ _ (Some (P i)) s) by (unfold fd_get; by rewrite Hfd).
    rewrite u32_small by (unfold is_u32; lia). rewrite attempt_run. unfold on_dev, on_snd. cbn [fst snd]. rewrite Hrun. by destruct r.
  - apply (vfs_ok_dev s v); [done|done|apply Hs|apply Hs|apply v_extends_refl].
  - destruct Hr as [->|[-> ?]]; [by left|by right].
Qed.

Lemma sb_write_ok e s v fh i (a : Z * Z * Z * Z * Z) b buf off :
  vfs_ok s v → FDManager_get fh s.1 = Some (P i) → v_objs v !! i = Some (a, b) → a_type a ≠ kDirectory →
  zlen b < 2 ^ 31 → 0 ≤ off → 0 < zlen buf → off + zlen buf < 2 ^ 31 →
  nodes (file_shape (data_blocks (Z.max (zlen b) (off + zlen buf)))) - cost (a, b) ≤ v_free v →
  ∃ s' x, zlen x = Z.max 0 (off - zlen b) ∧ sb_write e fs fh buf (zlen buf) off s = (Some (zlen buf), s') ∧
    vfs_ok s' (v_put i (a, overwrite off buf (b ++ x)) v) ∧ s'.1 = s.1.
Proof.
  intros Hs Hfd Hi Hty Hb Hoff Hn Hend Hfree.
  destruct (vol_write fs e s.2.2 v i a b off buf (vf_vol _ _ Hs) Hi Hb Hoff Hn Hend Hfree) as (m' & x & Hx & Hrun & Hv').
  exists (s.1, (s.2.1, m')), x. split; [done|]. split; [|split; [|done]].
  - unfold sb_write. destruct (Z.ltb_spec UINT32_MAX (zlen buf)) as [Hlt|_]; [change UINT32_MAX with (2 ^ 32 - 1) in Hlt; lia|].
    rewrite (bind_Some _ _ _ (Some (P i)) s) by (unfold fd_get; by rewrite Hfd).
    rewrite u32_small by (unfold is_u32; lia). rewrite attempt_run, (on_dev_run _ _ _ _ Hrun). done.
  - by apply (vfs_ok_put s v m' i (a, b)).
Qed.

(** A handle that is not open. *)
Lemma sb_bad_handle e s fh buf n off :
  FDManager_get fh s.1 = None → n ≤ UINT32_MAX →
  sb_read e fh n off s = (Some (- EBADF, []), s) ∧ sb_write e fs fh buf n off s = (Some (- EBADF), s).
Proof.
  intros Hfd Hn. unfold sb_read, sb_write. destruct (Z.ltb_spec UINT32_MAX n) as [Hlt|_]; [lia|].
  assert (Hg : fd_get fh s = (Some None, s)) by (unfold fd_get; by rewrite Hfd).
  by rewrite !(bind_Some _ _ _ _ _ Hg).
Qed.

(** ** Attributes *)

(** The object a handler that takes a path and, perhaps, a handle is about:
    the handle's, if it is open, else the path's. *)
Definition handle_of (s : VFS (D := store)) (fi : option Z) : option Position := fh ← fi; FDManager_get fh s.1.

Definition target (s : VFS (D := store)) (v : vstate) (path : bytes) (fi : option Z) (r : option Z) : Prop :=
  match handle_of s fi with
  | Some p => Some p = P <$> r
  | None => path_fine path ∧ v_path v path = r
  end.

(** [rest] is the second half of [sb_rmw_diskinode]. *)
Definition rmw_rest {A} (func : DiskInode → Z * DiskInode * A) (inode : Position) : M (VFS (D := store)) (Z * option A) :=
  if negb (Position_isValid inode) then ret (- ENOENT, None)
  else
    di <- attempt (on_dev (Inode_read_inode inode));;
    match di with
    | None => ret (- EIO, None)
    | Some di =>
        let '(r, di, a) := func di in
        if negb (r =? kSuccess) then ret (r, Some a)
        else
          w <- attempt (on_dev (Inode_write_inode inode di));;
          match w with
          | None => ret (- EIO, Some a)
          | Some _ => ret (0, Some a)
          end
    end.

Lemma rmw_split {A} e s v path fi r (func : DiskInode → Z * DiskInode * A) :
  vfs_ok s v → target s v path fi r →
  ∃ s1, vfs_ok s1 v ∧ s1.1 = s.1 ∧ s1.2.2 = s.2.2 ∧
    sb_rmw_diskinode e fs path fi func s = rmw_rest func (default Position_invalid (P <$> r)) s1.
Proof.
  intros Hs. unfold target, sb_rmw_diskinode.
  assert (Hfd : (match fi with None => ret None | Some fh => if fh =? 0 then ret None else fd_get fh end) s =
    (Some (handle_of s fi), s)).
  { unfold handle_of, FDManager_get. destruct fi as [fh|]; [|done]. simpl. unfold fd_get, FDManager_get. by destruct (fh =? 0). }
  rewrite (bind_Some _ _ _ _ _ Hfd). destruct (handle_of s fi) as [p|].
  - intros Ht. exists s. split_and!; [done..|]. rewrite (bind_Some _ _ _ p s) by done. by rewrite <- Ht.
  - intros [Hp Hv]. destruct (resolve_ok e s v path Hs Hp) as (s1 & Hrun & Hs1 & Hf1 & Hm1).
    rewrite Hv in Hrun. exists s1. split_and!; [done..|]. by rewrite (bind_Some _ _ _ _ _ Hrun).
Qed.

(** Nothing there. *)
Lemma rmw_missing {A} e s v path fi (func : DiskInode → Z * DiskInode * A) :
  vfs_ok s v → target s v path fi None →
  ∃ s', sb_rmw_diskinode e fs path fi func s = (Some (- ENOENT, None), s') ∧ vfs_ok s' v ∧ s'.1 = s.1.
Proof.
  intros Hs Ht. destruct (rmw_split e s v path fi None func Hs Ht) as (s1 & Hs1 & Hf & _ & Hrun).
  by exists s1.
Qed.

Lemma rmw_ok {A} e s v path fi i (a : Z * Z * Z * Z * Z) b (g : DiskInode → DiskInode) (h : DiskInode → A) a' :
  vfs_ok s v → target s v path fi (Some i) → v_objs v !! i = Some (a, b) →
  (∀ di, attrs di = a → DiskInode_wf di →
     same_tree di (g di) ∧ size (g di) = size di ∧ DiskInode_wf (g di) ∧ attrs (g di) = a') →
  a_type a' = a_type a →
  ∃ s' di, sb_rmw_diskinode e fs path fi (λ di, (kSuccess, g di, h di)) s = (Some (0, Some (h di)), s') ∧
    attrs di = a ∧ size di = zlen b ∧ vfs_ok s' (v_put i (a', b) v) ∧ s'.1 = s.1.
Proof.
  intros Hs Ht Hi Hg Hty. destruct (rmw_split e s v path fi (Some i) (λ di, (kSuccess, g di, h di)) Hs Ht) as (s1 & Hs1 & Hf1 & _ & ->).
  pose proof Hi as Hobj.
  destruct (vol_lookup fs s1.2.2 v i a b (vf_vol _ _ Hs1) Hi) as (F & di & Hv & He & Hdi & Ha & Hb & Hsz & Hwf).
  destruct (Hg di Ha Hwf) as (Hst & Hs' & Hwf' & Ha').
  pose proof (vol_file fs _ F i di Hv Hdi) as Hf. pose proof (file_at_slot _ _ _ _ Hf) as Hslot.
  destruct (read_at _ _ (P i) di Hslot (fa_inode _ _ _ _ Hf)) as [Hr _].
  destruct (vol_restore fs _ F i di (g di) Hv Hdi Hst Hs' Hwf') as (m' & Hw & Hv').
  rewrite <- He, Ha', Hb in Hv'.
  exists (s1.1, (s1.2.1, m')), di. split_and!; [|done|done|by apply (vfs_ok_put s1 v m' i (a, b))|done].
  unfold rmw_rest. simpl (default _ _). destruct (vol_valid _ v i (vf_vol _ _ Hs1)) as [-> _]; [by eexists|]. cbn [negb].
  assert (Hrd : on_dev (Inode_read_inode (P i)) s1 = (Some di, s1)).
  { rewrite (on_dev_run _ _ _ _ Hr). by destruct s1 as [f1 [r1 m1]]. }
  rewrite attempt_run, Hrd. cbn [fst snd]. rewrite Z.eqb_refl. cbn [negb].
  by rewrite attempt_run, (on_dev_run _ _ _ _ Hw).
Qed.

(** [getattr]: the stored attributes and the length; nothing changes. *)
Lemma sb_getattr_ok e s v path fi i (a : Z * Z * Z * Z * Z) b :
  vfs_ok s v → target s v path fi (Some i) → v_objs v !! i = Some (a, b) →
  ∃ s' st, sb_getattr e fs path fi s = (Some (0, Some st), s') ∧ vfs_ok s' v ∧ s'.1 = s.1 ∧
    st_mode st = a_mode a ∧ st_nlink st = a_links a ∧ st_uid st = a_uid a ∧ st_gid st = a_gid a ∧
    st_size st = zlen b ∧ st_blocks st = total_blocks (zlen b).
Proof.
  intros Hs Ht Hi.
  destruct (rmw_ok e s v path fi i a b (λ di, di) stat_of a Hs Ht Hi) as (s' & di & Hrun & Ha & Hsz & Hs' & Hf'); [done|done|].
  exists s', (stat_of di). split; [done|]. rewrite v_put_same in Hs' by done.
  split_and!; try done; try (by rewrite <- Ha). simpl. by rewrite Hsz.
Qed.

(** [chmod], [chown], [utimens]. *)
Lemma sb_chmod_ok e s v path fi i (a : Z * Z * Z * Z * Z) b md :
  vfs_ok s v → target s v path fi (Some i) → v_objs v !! i = Some (a, b) →
  ∃ s', sb_chmod e fs path md fi s = (Some 0, s') ∧ vfs_ok s' (v_put i (a.1.1, u16 md, a.2, b) v) ∧ s'.1 = s.1.
Proof.
  intros Hs Ht Hi.
  destruct (rmw_ok e s v path fi i a b (set_mode (u16 md)) (λ _, tt) (a.1.1, u16 md, a.2) Hs Ht Hi)
    as (s' & di & Hrun & _ & _ & Hs' & Hf'); [|done|].
  - intros di <- Hwf. split_and!; try done. destruct Hwf. split; try done. apply Z.mod_pos_bound. lia.
  - exists s'. split_and!; [|done|done]. unfold sb_chmod, rmw. by rewrite (bind_Some _ _ _ _ _ Hrun).
Qed.

Lemma sb_chown_ok e s v path fi i (a : Z * Z * Z * Z * Z) b uid_ gid_ :
  vfs_ok s v → target s v path fi (Some i) → v_objs v !! i = Some (a, b) →
  ∃ s', sb_chown e fs path uid_ gid_ fi s = (Some 0, s') ∧
    vfs_ok s' (v_put i ((u16 uid_, u16 gid_, a_links a, a_mode a, a_type a), b) v) ∧ s'.1 = s.1.
Proof.
  intros Hs Ht Hi.
  destruct (rmw_ok e s v path fi i a b (set_owner (u16 uid_) (u16 gid_)) (λ _, tt)
    (u16 uid_, u16 gid_, a_links a, a_mode a, a_type a) Hs Ht Hi)
    as (s' & di & Hrun & _ & _ & Hs' & Hf'); [|done|].
  - intros di <- Hwf. split_and!; try done. destruct Hwf. split; try done; apply Z.mod_pos_bound; lia.
  - exists s'. split_and!; [|done|done]. unfold sb_chown, rmw. by rewrite (bind_Some _ _ _ _ _ Hrun).
Qed.

Lemma sb_utimens_ok e s v path fi i (a : Z * Z * Z * Z * Z) b tv0 tv1 :
  vfs_ok s v → target s v path fi (Some i) → v_objs v !! i = Some (a, b) →
  ∃ s', sb_utimens e fs path tv0 tv1 fi s = (Some 0, s') ∧ vfs_ok s' v ∧ s'.1 = s.1.
Proof.
  intros Hs Ht Hi.
  destruct (rmw_ok e s v path fi i a b
    (λ di, set_times (timespec_u32 tv0) (change_time di) (timespec_u32 tv1) di) (λ _, tt) a Hs Ht Hi)
    as (s' & di & Hrun & _ & _ & Hs' & Hf'); [|done|].
  - intros di <- Hwf. split_and!; try done. apply wf_times; [done|apply u32_range|apply Hwf|apply u32_range].
  - exists s'. rewrite v_put_same in Hs' by done. split_and!; [|done|done].
    unfold sb_utimens, rmw. by rewrite (bind_Some _ _ _ _ _ Hrun).
Qed.

(** A path that leads nowhere. *)
Lemma sb_open_missing e s v path :
  vfs_ok s v → path_fine path → v_path v path = None →
  ∃ s', sb_open e fs path s = (Some (- ENOENT, None), s') ∧ vfs_ok s' v ∧ s'.1 = s.1.
Proof.
  intros Hs Hp Hv. destruct (resolve_ok e s v path Hs Hp) as (s1 & Hrun & Hs1 & Hf & _).
  rewrite Hv in Hrun. exists s1. split_and!; [|done..]. unfold sb_open. by rewrite (bind_Some _ _ _ _ _ Hrun).
Qed.

(** [open] hands out a handle to the object. *)
Lemma sb_open_ok e s v path i :
  vfs_ok s v → path_fine path → v_path v path = Some i →
  ∃ s', sb_open e fs path s = (Some (0, Some (FDManager_open (P i) s.1).1), s') ∧ vfs_ok s' v ∧
    s'.1 = (FDManager_open (P i) s.1).2.
Proof.
  intros Hs Hp Hv. destruct (resolve_ok e s v path Hs Hp) as (s1 & Hrun & Hs1 & Hf & _). rewrite Hv in Hrun.
  assert (Hi : is_Some (v_objs v !! i)) by (apply (v_path_in v path i); [apply Hs|apply Hs|done]).
  exists ((FDManager_open (P i) s.1).2, s1.2). split_and!; [|by apply vfs_ok_fd|done].
  unfold sb_open. rewrite (bind_Some _ _ _ _ _ Hrun). cbn [default fmap option_fmap from_option].
  simpl (default _ _). destruct (vol_valid _ v i (vf_vol _ _ Hs) Hi) as [Hval _]. rewrite Hval. cbn [negb].
  unfold bind at 1, fd_open. rewrite Hf. by destruct (FDManager_open (P i) s.1).
Qed.

(** ** Making files and directories *)

(** The objects after [create]. *)
Definition v_create (d id : Z) (o : obj) (nm : bytes) (ci : DiskInode) (v : vstate) : vstate :=
  v_put id (attrs ci, child_bytes d ci id) (v_put d (o.1, o.2 ++ DirEntry_encode (DirEntry_new nm id)) v).

(** What [create] and [mkdir] need: the directory, a free id, room for the
    entry and for a new directory's block. *)
Record can_create (v : vstate) (d id : Z) (o : obj) (es : list DirEntry) (nm : bytes) : Prop := {
  cc_obj : v_objs v !! d = Some o;
  cc_dir : is_dir o es;
  cc_id : first_id fs (v_objs v) id ∧ id < slots (inode_bitmap_ fs);
  cc_name : cstr nm ≠ [];
  cc_size : zlen o.2 + sizeof_DirEntry < 2 ^ 31;
  cc_free : cost (o.1, o.2 ++ DirEntry_encode (DirEntry_new nm id)) - cost o + 1 ≤ v_free v;
}.

Lemma valid_u32 i : vol_geom fs → valid_id fs i → is_u32 i.
Proof.
  intros Hg Hv. pose proof (valid_range fs i Hg Hv). destruct (vg_ids _ Hg) as [(_ & ? & _) _].
  unfold valid_id, is_u32 in *. lia.
Qed.

Lemma create_ok e s v d id o es nm ci :
  vfs_ok s v → can_create v d id o es nm → fresh_inode ci →
  ∃ s', on_dev (with_out (Inode_create e fs (P d) nm ci)) s = (Some (Some tt, Some (P id)), s') ∧
    vfs_ok s' (v_create d id o nm ci v) ∧ s'.1 = s.1 ∧
    is_dir (o.1, o.2 ++ DirEntry_encode (DirEntry_new nm id)) (es ++ [DirEntry_new nm id]) ∧
    v_extends v (v_create d id o nm ci v).
Proof.
  intros Hs [Ho Hdir [Hid Hlt] Hnm Hsz Hfree] Hci. destruct o as [a b]. cbn [fst snd] in *.
  pose proof (DirEntry_new_wf nm id) as Hwx. pose proof (zlen_DirEntry_encode _ Hwx) as Hzx.
  destruct (vol_create fs e s.2.2 v d a b es nm (vf_vol _ _ Hs) Ho Hdir ci id Hci Hid Hlt)
    as (m' & Hrun & Hv' & Hdir'); [cbn [snd]; rewrite zlen_app; lia|done|].
  destruct (vol_lookup fs _ v d a b (vf_vol _ _ Hs) Ho) as (F & di & HF & _ & Hdi & _).
  pose proof (vo_geom _ _ _ HF) as Hg.
  assert (Hvd : valid_id fs d) by apply (vo_inode _ _ _ HF d di Hdi).
  assert (Hvi : valid_id fs id) by (destruct Hid as (? & _); by split).
  exists (s.1, (s.2.1, m')). split; [|].
  { apply on_dev_run. unfold with_out. by rewrite Hrun. }
  destruct (create_names d (a, b) es (a, b ++ DirEntry_encode (DirEntry_new nm id)) id
    (attrs ci, child_bytes d ci id) (DirEntry_new nm id) v (vf_names _ _ Hs) Ho Hdir Hdir') as [Hn Hx].
  - unfold DirEntry_new. cbn [inode]. by apply u32_small, valid_u32.
  - apply Hid.
  - intros Hty. exists [DirEntry_new dot id; DirEntry_new dotdot d].
    assert (Hw : Forall DirEntry_wf [DirEntry_new dot id; DirEntry_new dotdot d]) by (repeat constructor; apply DirEntry_new_wf).
    assert (Hb : child_bytes d ci id = entries_bytes [DirEntry_new dot id; DirEntry_new dotdot d]).
    { unfold child_bytes. destruct (Z.eqb_spec (type_ ci) kDirectory) as [|Hne]; [done|by destruct Hne]. }
    split; [split; cbn [fst snd]; try done|].
    + rewrite Hb, zlen_entries by done. by vm_compute.
    + intros y [->| ->%list_elem_of_singleton]%elem_of_cons; [left|right]; unfold DirEntry_new; cbn [inode];
        by apply u32_small, valid_u32.
  - split_and!; [|done|done|done]. apply (vfs_ok_dev s v); try done. apply v_put_dom, v_put_dom, Hs.
Qed.

(** A path is looked up in its parent. *)
Lemma v_path_child v q c : q = [] ∨ head q = Some slash → no_slash c → c ≠ [] →
  v_path v (q ++ slash :: c) = (v_path v (q ++ [slash]) ≫= λ d, v_find v d c).
Proof.
  intros Hq Hc Hne. unfold v_path.
  assert (Hhd : ∀ l, head (q ++ slash :: l) = Some slash) by (intros l; by destruct Hq as [->|Hq]; [|destruct q]).
  rewrite (bool_decide_eq_true_2 (head (q ++ slash :: c) = _)) by apply Hhd. cbn [negb].
  rewrite (bool_decide_eq_false_2 (q ++ slash :: c = _)) by (intros He; destruct q as [|? [|]]; simpl in He; congruence).
  rewrite removeEndSlash_child, removeEndSlash_slash by done.
  destruct Hq as [->|Hq].
  - cbn [app tail]. rewrite bool_decide_eq_true_2 by done. unfold split.
    rewrite <- (app_nil_r c) at 1. rewrite split_go_app_no_slash by done. simpl. by destruct (v_find v root c).
  - destruct q as [|x q]; [done|]. injection Hq as ->.
    rewrite (bool_decide_eq_true_2 (head _ = _)) by done. cbn [negb].
    rewrite bool_decide_eq_false_2 by (intros He; apply (f_equal length) in He; rewrite length_app in He; simpl in He; lia). cbn [app tail]. rewrite split_child by done.
    rewrite v_walk_app. destruct (v_walk v (split q false) root) as [d|]; [|done]. simpl. by destruct (v_find v d c).
Qed.

Lemma v_find_created d id o es nm ci v :
  v_objs v !! d = Some o → is_dir (o.1, o.2 ++ DirEntry_encode (DirEntry_new nm id)) (es ++ [DirEntry_new nm id]) →
  find_entry nm es = None → no_nul nm → zlen nm ≤ kMaxDirNameLength → id ≠ d → is_u32 id →
  v_find (v_create d id o nm ci v) d nm = Some id.
Proof.
  intros Ho Hdir Hnone Hnul Hlen Hne Hu. unfold v_create, v_find. rewrite v_put_lookup, decide_False by done.
  rewrite v_put_lookup, decide_True by done. rewrite (id_type _ _ Hdir), Z.eqb_refl, (is_dir_entries _ _ Hdir).
  assert (Hname : has_name nm (DirEntry_new nm id)).
  { unfold has_name. rewrite DirEntry_new_name by done. unfold slice. rewrite drop_0, take_ge by (unfold zlen in *; lia).
    pose proof (cstr_app_zeros nm 0 Hnul) as Hz. simpl in Hz. rewrite app_nil_r in Hz. by rewrite Hz. }
  assert (Hf : find_entry nm (es ++ [DirEntry_new nm id]) = Some (length es, DirEntry_new nm id)).
  { unfold find_entry. apply list_find_app_Some. right. split; [lia|]. split; [done|]. simpl.
    rewrite decide_True by done. by rewrite Nat.sub_diag. }
  rewrite Hf. simpl. by rewrite u32_small.
Qed.

(** [create] of the path [q/nm]: the object, its entry and a handle. *)
Definition new_file (e : env) (mode_ : Z) : DiskInode :=
  set_mode (u16 (Z.lor S_IFREG (Z.land mode_ 0x1ff))) (DiskInode_new e kFile).
Definition new_dir (e : env) (mode_ : Z) : DiskInode :=
  set_mode (u16 (Z.lor S_IFDIR (Z.land mode_ 0x1ff))) (DiskInode_new e kDirectory).

Section make.
Context (e : env) (s : VFS (D := store)) (v : vstate) (q nm : bytes) (d id : Z) (o : obj) (es : list DirEntry) (mode_ : Z).
Context (Hs : vfs_ok s v) (Hcc : can_create v d id o es nm).
Context (Hq : q = [] ∨ head q = Some slash) (Hqf : path_fine (q ++ [slash])) (Hd : v_path v (q ++ [slash]) = Some d).
Context (Hnm : no_slash nm) (Hnul : no_nul nm) (Hlen : zlen nm ≤ kMaxDirNameLength) (Hnew : find_entry nm es = None).

Lemma made_path ci s' :
  is_dir (o.1, o.2 ++ DirEntry_encode (DirEntry_new nm id)) (es ++ [DirEntry_new nm id]) →
  vfs_ok s' (v_create d id o nm ci v) → v_extends v (v_create d id o nm ci v) →
  v_path (v_create d id o nm ci v) (q ++ slash :: nm) = Some id.
Proof.
  intros Hdir Hs' Hx. assert (Hne : nm ≠ []) by (intros ->; by apply (cc_name _ _ _ _ _ _ Hcc)).
  rewrite v_path_child by done.
  assert (Hd' : v_path (v_create d id o nm ci v) (q ++ [slash]) = Some d).
  { revert Hd. unfold v_path. destruct (negb _); [done|]. destruct (bool_decide _); [done|]. by apply v_extends_walk. }
  rewrite Hd'. simpl.
  destruct (vol_valid _ _ id (vf_vol _ _ Hs')) as [_ Hvi].
  { unfold v_create. rewrite v_put_lookup, decide_True by done. by eexists. }
  destruct (vf_vol _ _ Hs) as (F & HF & _).
  apply (v_find_created d id o es); try done; [apply Hcc| |by apply valid_u32; [apply HF|]].
  intros ->. pose proof (cc_obj _ _ _ _ _ _ Hcc). destruct (cc_id _ _ _ _ _ _ Hcc) as [(_ & ? & _) _]. congruence.
Qed.
(** The parent of the path is looked up. *)
Lemma made_parent : splitFromLastSlash (q ++ slash :: nm) = (q ++ [slash], nm) ∧
  ∃ s1, resolve e fs (q ++ [slash]) s = (Some (P d), s1) ∧ vfs_ok s1 v ∧ s1.1 = s.1.
Proof.
  split; [by apply splitFromLastSlash_child|]. destruct (resolve_ok e s v _ Hs Hqf) as (s1 & Hrun & Hs1 & Hf & _).
  rewrite Hd in Hrun. by exists s1.
Qed.

Lemma made_valid s1 : vfs_ok s1 v → Position_isValid (P d) = true.
Proof. intros Hs1. apply (vol_valid _ v d (vf_vol _ _ Hs1)). rewrite (cc_obj _ _ _ _ _ _ Hcc). by eexists. Qed.

Lemma made_extends ci : fresh_inode ci → v_extends v (v_create d id o nm ci v).
Proof. intros Hci. by destruct (create_ok e s v d id o es nm ci Hs Hcc Hci) as (s' & _ & _ & _ & _ & Hx). Qed.

Lemma sb_create_ok junk :
  let v' := v_create d id o nm (new_file e mode_) v in
  ∃ s', sb_create e fs junk (q ++ slash :: nm) mode_ s = (Some (0, Some (FDManager_open (P id) s.1).1), s') ∧
    vfs_ok s' v' ∧ s'.1 = (FDManager_open (P id) s.1).2 ∧ v_path v' (q ++ slash :: nm) = Some id.
Proof.
  destruct made_parent as (Hsp & s1 & Hr & Hs1 & Hf1). pose proof (DiskInode_new_fresh e kFile) as Hci.
  specialize (Hci (Z.lor S_IFREG (Z.land mode_ 0x1ff)) ltac:(done)). fold (new_file e mode_) in Hci.
  destruct (create_ok e s1 v d id o es nm _ Hs1 Hcc Hci) as (s2 & Hrun & Hs2 & Hf2 & Hdir & Hx).
  exists ((FDManager_open (P id) s.1).2, s2.2). split_and!; [|by apply vfs_ok_fd|done|by apply (made_path _ s2)].
  unfold sb_create. rewrite Hsp. rewrite (bind_Some _ _ _ _ _ Hr). rewrite (made_valid s1 Hs1). cbn [negb].
  cbv zeta. change (set_mode _ _) with (new_file e mode_). rewrite (bind_Some _ _ _ _ _ Hrun).
  unfold bind at 1, fd_open. rewrite Hf2, Hf1. simpl. by destruct (FDManager_open (P id) s.1).
Qed.

Lemma sb_mkdir_ok :
  let v' := v_create d id o nm (new_dir e mode_) v in
  ∃ s', sb_mkdir e fs (q ++ slash :: nm) mode_ s = (Some 0, s') ∧
    vfs_ok s' v' ∧ s'.1 = s.1 ∧ v_path v' (q ++ slash :: nm) = Some id.
Proof.
  destruct made_parent as (Hsp & s1 & Hr & Hs1 & Hf1). pose proof (DiskInode_new_fresh e kDirectory) as Hci.
  specialize (Hci (Z.lor S_IFDIR (Z.land mode_ 0x1ff)) ltac:(done)). fold (new_dir e mode_) in Hci.
  destruct (create_ok e s1 v d id o es nm _ Hs1 Hcc Hci) as (s2 & Hrun & Hs2 & Hf2 & Hdir & Hx).
  exists s2. split_and!; [|done|congruence|by apply (made_path _ s2)].
  unfold sb_mkdir. rewrite Hsp. rewrite (bind_Some _ _ _ _ _ Hr). rewrite (made_valid s1 Hs1). cbn [negb].
  cbv zeta. change (set_mode _ _) with (new_dir e mode_). by rewrite (bind_Some _ _ _ _ _ Hrun).
Qed.
End make.
End vfs.
