(* ===== verification/Spec.v ===== *)
(** * What the file system promises

    The abstract file system, without disk, blocks, inodes or caches: a map
    from ids to files, which are bytes, and directories, which map names to
    ids; open handles, which are ids; and the room left.  [spec_step] says
    which calls of the handlers of [src/vfs.cpp] it answers, with what
    result, and what they change; [SpecRefine.v] shows that the handlers do
    just that.  A call no rule covers (a request beyond the limits, a path
    FUSE does not pass) is left open.

    [tree_ok] says that the directories form a tree; every step keeps it. *)

From S2P Require Import Prelude Bytes Config BlkIface Layout DiskInode Sbfs FdManager PathResolver Vfs VfsRefine PathProof FileMap FileIO Dir Inode.

(** ** The state *)

Inductive kind := File (b : bytes) | Dir (ents : gmap bytes Z).

Record snode := mkNode { n_uid : Z; n_gid : Z; n_links : Z; n_mode : Z; n_kind : kind }.

Record fsys := mkFsys { s_nodes : gmap Z snode; s_room : Z; s_fds : gmap Z Z; s_next : Z }.

Definition set_kind (k : kind) (n : snode) : snode := mkNode (n_uid n) (n_gid n) (n_links n) (n_mode n) k.
Definition set_nodes (ns : gmap Z snode) (s : fsys) : fsys := mkFsys ns (s_room s) (s_fds s) (s_next s).

Definition n_size (k : kind) : Z :=
  match k with File b => zlen b | Dir m => sizeof_DirEntry * Z.of_nat (base.size m) end.

(** The blocks a file or directory takes, index blocks included. *)
Definition n_cost (k : kind) : Z := nodes (file_shape (data_blocks (n_size k))).

Definition s_put (i : Z) (n : snode) (s : fsys) : fsys :=
  mkFsys (<[i := n]> (s_nodes s))
    (s_room s + from_option (λ n, n_cost (n_kind n)) 0 (s_nodes s !! i) - n_cost (n_kind n)) (s_fds s) (s_next s).

Definition s_del (i : Z) (s : fsys) : fsys :=
  mkFsys (delete i (s_nodes s)) (s_room s + from_option (λ n, n_cost (n_kind n)) 0 (s_nodes s !! i))
    (s_fds s) (s_next s).

(** A directory's entries changed. *)
Definition s_alter (f : gmap bytes Z → gmap bytes Z) (d : Z) (s : fsys) : fsys :=
  match s_nodes s !! d with
  | Some n => match n_kind n with Dir m => s_put d (set_kind (Dir (f m)) n) s | File _ => s end
  | None => s
  end.

Definition s_open (i : Z) (s : fsys) : fsys :=
  mkFsys (s_nodes s) (s_room s) (<[s_next s := i]> (s_fds s)) (s_next s + 1).

Definition s_close (fh : Z) (s : fsys) : fsys :=
  mkFsys (s_nodes s) (s_room s) (delete fh (s_fds s)) (s_next s).

(** ** Names *)

Definition s_find (s : fsys) (d : Z) (nm : bytes) : option Z :=
  match s_nodes s !! d with
  | Some n => match n_kind n with Dir m => m !! nm | File _ => None end
  | None => None
  end.

Fixpoint s_walk (s : fsys) (parts : list bytes) (i : Z) : option Z :=
  match parts with
  | [] => Some i
  | p :: parts => j ← s_find s i p; s_walk s parts j
  end.

Section spec.
Context (lo hi root : Z).

Definition s_path (s : fsys) (path : bytes) : option Z :=
  if negb (bool_decide (head path = Some slash)) then None
  else if bool_decide (path = [slash]) then Some root
  else s_walk s (split (tail (removeEndSlash path)) false) root.

(** [q/nm] names an entry of the directory [d]. *)
Record entry_path (s : fsys) (q nm : bytes) (d : Z) : Prop := {
  ep_abs : q = [] ∨ head q = Some slash;
  ep_fine : path_fine (q ++ [slash]) ∧ path_fine (q ++ slash :: nm);
  ep_dir : s_path s (q ++ [slash]) = Some d;
  ep_name : plain nm ∧ no_slash nm ∧ zlen nm ≤ kMaxDirNameLength;
}.

(** The file or directory a handler that takes a path and, perhaps, a handle is about. *)
Definition s_handle (s : fsys) (fi : option Z) : option Z := fh ← fi; s_fds s !! fh.

Definition s_target (s : fsys) (path : bytes) (fi : option Z) (r : option Z) : Prop :=
  match s_handle s fi with
  | Some i => r = Some i
  | None => path_fine path ∧ r = s_path s path
  end.

(** Ids are given out from the smallest on. *)
Definition s_fresh (s : fsys) (id : Z) : Prop :=
  lo ≤ id < hi ∧ s_nodes s !! id = None ∧ ∀ j, lo ≤ j < id → is_Some (s_nodes s !! j).

Definition new_node (e : env) (id d : Z) (dir : bool) (mode_ : Z) : snode :=
  mkNode (u16 (cur_uid e)) (u16 (cur_gid e)) 1
    (u16 (Z.lor (if dir then S_IFDIR else S_IFREG) (Z.land mode_ 0x1ff)))
    (if dir then Dir {[ dot := id; dotdot := d ]} else File []).

(** Room for one more entry and, in a new directory, its block. *)
Definition entry_fits (s : fsys) (m : gmap bytes Z) (extra : Z) : Prop :=
  let sz := sizeof_DirEntry * Z.of_nat (base.size m) in
  sz + sizeof_DirEntry < 2 ^ 31 ∧
  nodes (file_shape (data_blocks (sz + sizeof_DirEntry))) - nodes (file_shape (data_blocks sz)) + extra ≤ s_room s.

Definition s_make (e : env) (d id : Z) (nm : bytes) (dir : bool) (mode_ : Z) (n : snode) (m : gmap bytes Z) (s : fsys) : fsys :=
  s_put id (new_node e id d dir mode_) (s_put d (set_kind (Dir (<[nm := id]> m)) n) s).

(** ** The steps *)

Inductive spec_step (e : env) (s : fsys) : vfs_op → vfs_res → fsys → Prop :=
  (* bytes of an open file *)
  | sp_read fh len off i n b :
      s_fds s !! fh = Some i → s_nodes s !! i = Some n → n_kind n = File b → zlen b < 2 ^ 31 →
      0 ≤ off < zlen b → 0 < len → off + len < 2 ^ 32 →
      let l := Z.min len (zlen b - off) in
      spec_step e s (OpRead fh len off) (RData l (slice off l b)) s
  | sp_read_past fh len off i n b :
      s_fds s !! fh = Some i → s_nodes s !! i = Some n → n_kind n = File b → zlen b < off → 0 < len → off + len < 2 ^ 32 →
      spec_step e s (OpRead fh len off) (RData (- EIO) []) s
  | sp_read_end fh len i n b r :
      s_fds s !! fh = Some i → s_nodes s !! i = Some n → n_kind n = File b → 0 < len → zlen b + len < 2 ^ 32 →
      r = 0 ∨ r = - EIO → spec_step e s (OpRead fh len (zlen b)) (RData r []) s
  | sp_write fh buf off i n b :
      s_fds s !! fh = Some i → s_nodes s !! i = Some n → n_kind n = File b → zlen b < 2 ^ 31 →
      0 ≤ off ≤ zlen b → 0 < zlen buf → off + zlen buf < 2 ^ 31 →
      n_cost (File (overwrite off buf b)) - n_cost (File b) ≤ s_room s →
      spec_step e s (OpWrite fh buf (zlen buf) off) (RInt (zlen buf)) (s_put i (set_kind (File (overwrite off buf b)) n) s)
  | sp_write_past fh buf off i n b x :
      s_fds s !! fh = Some i → s_nodes s !! i = Some n → n_kind n = File b →
      zlen b < off → 0 < zlen buf → off + zlen buf < 2 ^ 31 → zlen (b ++ x) = off →
      n_cost (File (b ++ x ++ buf)) - n_cost (File b) ≤ s_room s →
      spec_step e s (OpWrite fh buf (zlen buf) off) (RInt (zlen buf)) (s_put i (set_kind (File (b ++ x ++ buf)) n) s)
  | sp_read_closed fh len off :
      s_fds s !! fh = None → len ≤ UINT32_MAX → spec_step e s (OpRead fh len off) (RData (- EBADF) []) s
  | sp_write_closed fh buf len off :
      s_fds s !! fh = None → len ≤ UINT32_MAX → spec_step e s (OpWrite fh buf len off) (RInt (- EBADF)) s
  | sp_read_large fh len off :
      UINT32_MAX < len → spec_step e s (OpRead fh len off) (RData (- EINVAL) []) s
  | sp_write_large fh buf len off :
      UINT32_MAX < len → spec_step e s (OpWrite fh buf len off) (RInt (- EINVAL)) s
  | sp_cut path sz fh i n b :
      s_target s path (Some fh) (Some i) → s_nodes s !! i = Some n → n_kind n = File b →
      0 ≤ sz ≤ zlen b → data_blocks sz ≤ 1047 →
      spec_step e s (OpTruncate path sz (Some fh)) (RInt 0) (s_put i (set_kind (File (slice 0 sz b)) n) s)
  | sp_extend path sz fh i n b x :
      s_target s path (Some fh) (Some i) → s_nodes s !! i = Some n → n_kind n = File b →
      zlen b < sz → sz ≤ UINT32_MAX → zlen (b ++ x) = sz →
      n_cost (File (b ++ x)) - n_cost (File b) ≤ s_room s →
      spec_step e s (OpTruncate path sz (Some fh)) (RInt 0) (s_put i (set_kind (File (b ++ x)) n) s)
  | sp_truncate_large path sz fi :
      UINT32_MAX < sz → spec_step e s (OpTruncate path sz fi) (RInt (- EINVAL)) s
  | sp_truncate_missing path sz fh :
      sz ≤ UINT32_MAX → s_target s path (Some fh) None → spec_step e s (OpTruncate path sz (Some fh)) (RInt (- ENOENT)) s
  (* handles *)
  | sp_open path i :
      path_fine path → s_path s path = Some i → s_next s + 1 < 2 ^ 64 →
      spec_step e s (OpOpen path) (RFh 0 (Some (s_next s))) (s_open i s)
  | sp_open_missing path :
      path_fine path → s_path s path = None → spec_step e s (OpOpen path) (RFh (- ENOENT) None) s
  | sp_release fh : spec_step e s (OpRelease fh) (RInt 0) (s_close fh s)
  | sp_fsync fh datasync r : is_Some (s_fds s !! fh) → spec_step e s (OpFsync fh datasync) (RInt r) s
  | sp_statfs :
      let blocks := u64 (kDiskSize / kBlockSize) in
      let files := u64 (kInodeBitmapBlocks * kBlockSize * 8) in
      spec_step e s OpStatfs (RStatvfs 0 (mkStatvfs kBlockSize kBlockSize blocks blocks blocks files files files 255)) s
  | sp_fsync_closed fh datasync : s_fds s !! fh = None → spec_step e s (OpFsync fh datasync) (RInt (- EBADF)) s
  (* attributes *)
  | sp_getattr path fi i n st :
      s_target s path fi (Some i) → s_nodes s !! i = Some n →
      st_mode st = n_mode n → st_nlink st = n_links n → st_uid st = n_uid n → st_gid st = n_gid n →
      st_size st = n_size (n_kind n) → st_blocks st = total_blocks (n_size (n_kind n)) → st_blksize st = kBlockSize →
      spec_step e s (OpGetattr path fi) (RStat 0 (Some st)) s
  | sp_getattr_missing path fi :
      s_target s path fi None → spec_step e s (OpGetattr path fi) (RStat (- ENOENT) None) s
  | sp_chmod path md fi i n :
      s_target s path fi (Some i) → s_nodes s !! i = Some n →
      spec_step e s (OpChmod path md fi) (RInt 0)
        (s_put i (mkNode (n_uid n) (n_gid n) (n_links n) (u16 md) (n_kind n)) s)
  | sp_chmod_missing path md fi :
      s_target s path fi None → spec_step e s (OpChmod path md fi) (RInt (- ENOENT)) s
  | sp_chown path u g fi i n :
      s_target s path fi (Some i) → s_nodes s !! i = Some n →
      spec_step e s (OpChown path u g fi) (RInt 0)
        (s_put i (mkNode (u16 u) (u16 g) (n_links n) (n_mode n) (n_kind n)) s)
  | sp_chown_missing path u g fi :
      s_target s path fi None → spec_step e s (OpChown path u g fi) (RInt (- ENOENT)) s
  | sp_utimens path t0 t1 fi i n :
      s_target s path fi (Some i) → s_nodes s !! i = Some n → spec_step e s (OpUtimens path t0 t1 fi) (RInt 0) s
  | sp_utimens_missing path t0 t1 fi :
      s_target s path fi None → spec_step e s (OpUtimens path t0 t1 fi) (RInt (- ENOENT)) s
  (* directories *)
  | sp_create junk q nm d n m id mode_ :
      entry_path s q nm d → s_nodes s !! d = Some n → n_kind n = Dir m → m !! nm = None →
      s_fresh s id → entry_fits s m 1 → s_next s + 1 < 2 ^ 64 →
      spec_step e s (OpCreate junk (q ++ slash :: nm) mode_) (RFh 0 (Some (s_next s)))
        (s_open id (s_make e d id nm false mode_ n m s))
  | sp_mkdir q nm d n m id mode_ :
      entry_path s q nm d → s_nodes s !! d = Some n → n_kind n = Dir m → m !! nm = None →
      s_fresh s id → entry_fits s m 1 →
      spec_step e s (OpMkdir (q ++ slash :: nm) mode_) (RInt 0) (s_make e d id nm true mode_ n m s)
  | sp_readdir path d n m l :
      path_fine path → s_path s path = Some d → s_nodes s !! d = Some n → n_kind n = Dir m →
      l ≡ₚ (map_to_list m).*1 → spec_step e s (OpReaddir path) (RNames 0 l) s
  | sp_readdir_file path i n b :
      path_fine path → s_path s path = Some i → s_nodes s !! i = Some n → n_kind n = File b →
      spec_step e s (OpReaddir path) (RNames (- ENOTDIR) []) s
  | sp_readdir_missing path :
      path_fine path → s_path s path = None → spec_step e s (OpReaddir path) (RNames (- ENOENT) []) s
  | sp_unlink q nm d n m i c b :
      entry_path s q nm d → s_nodes s !! d = Some n → n_kind n = Dir m → m !! nm = Some i →
      s_nodes s !! i = Some c → n_kind c = File b → data_blocks (n_size (Dir m)) ≤ 1047 →
      spec_step e s (OpUnlink (q ++ slash :: nm)) (RInt 0) (s_del i (s_put d (set_kind (Dir (delete nm m)) n) s))
  | sp_unlink_missing q nm d :
      entry_path s q nm d → s_find s d nm = None → spec_step e s (OpUnlink (q ++ slash :: nm)) (RInt (- ENOENT)) s
  | sp_rmdir q nm d n m i c mc :
      entry_path s q nm d → s_nodes s !! d = Some n → n_kind n = Dir m → m !! nm = Some i →
      s_nodes s !! i = Some c → n_kind c = Dir mc → (∀ k, is_Some (mc !! k) → k = dot ∨ k = dotdot) →
      (∀ d', s_find s d' dotdot ≠ Some i) → data_blocks (n_size (Dir m)) ≤ 1047 →
      spec_step e s (OpRmdir (q ++ slash :: nm)) (RInt 0) (s_del i (s_put d (set_kind (Dir (delete nm m)) n) s))
  | sp_rmdir_full q nm d i c mc k :
      entry_path s q nm d → s_find s d nm = Some i → s_nodes s !! i = Some c → n_kind c = Dir mc →
      is_Some (mc !! k) → k ≠ dot → k ≠ dotdot →
      spec_step e s (OpRmdir (q ++ slash :: nm)) (RInt (- ENOTEMPTY)) s
  | sp_rmdir_file q nm d i c b :
      entry_path s q nm d → s_find s d nm = Some i → s_nodes s !! i = Some c → n_kind c = File b →
      spec_step e s (OpRmdir (q ++ slash :: nm)) (RInt (- ENOTDIR)) s
  | sp_rmdir_missing q nm d :
      entry_path s q nm d → s_find s d nm = None → spec_step e s (OpRmdir (q ++ slash :: nm)) (RInt (- ENOENT)) s
  (* a file or directory moves, but not into itself; a directory's [".."]
     stays as it is; the target, if there is one, is a file, which loses its
     name but not its room *)
  | sp_rename q1 n1 d1 c1 m1 q2 n2 d2 c2 m2 i c flags :
      entry_path s q1 n1 d1 → entry_path s q2 n2 d2 →
      s_nodes s !! d1 = Some c1 → n_kind c1 = Dir m1 → m1 !! n1 = Some i → s_nodes s !! i = Some c →
      i ≠ d2 → data_blocks (n_size (Dir m1)) ≤ 1047 →
      Z.testbit flags RENAME_EXCHANGE = false →
      let s1 := s_put d1 (set_kind (Dir (delete n1 m1)) c1) s in
      s_nodes s1 !! d2 = Some c2 → n_kind c2 = Dir m2 →
      match m2 !! n2 with
      | None => data_blocks (n_size (Dir m2)) < 23 ∧ entry_fits s1 m2 0
      | Some j => Z.testbit flags RENAME_NOREPLACE = false ∧ ∃ cj b, s_nodes s !! j = Some cj ∧ n_kind cj = File b
      end →
      spec_step e s (OpRename (q1 ++ slash :: n1) (q2 ++ slash :: n2) flags) (RInt 0)
        (s_put d2 (set_kind (Dir (<[n2 := i]> m2)) c2) s1)
  (* two entries change places *)
  | sp_exchange q1 n1 d1 c1 q2 n2 d2 c2 i ci j cj flags :
      entry_path s q1 n1 d1 → entry_path s q2 n2 d2 → (d1, n1) ≠ (d2, n2) → Z.testbit flags RENAME_EXCHANGE = true →
      s_find s d1 n1 = Some i → s_nodes s !! i = Some ci → s_find s d2 n2 = Some j → s_nodes s !! j = Some cj →
      i ≠ d2 → j ≠ d1 →
      s_nodes s !! d1 = Some c1 → data_blocks (n_size (n_kind c1)) < 23 →
      s_nodes s !! d2 = Some c2 → data_blocks (n_size (n_kind c2)) < 23 →
      spec_step e s (OpRename (q1 ++ slash :: n1) (q2 ++ slash :: n2) flags) (RInt 0)
        (s_alter <[n2 := i]> d2 (s_alter <[n1 := j]> d1 s))
  | sp_rename_missing q1 n1 d1 q2 n2 d2 flags :
      entry_path s q1 n1 d1 → entry_path s q2 n2 d2 → s_find s d1 n1 = None →
      spec_step e s (OpRename (q1 ++ slash :: n1) (q2 ++ slash :: n2) flags) (RInt (- ENOENT)) s
  | sp_no_parent op q nm :
      (∃ junk md, op = OpCreate junk (q ++ slash :: nm) md) ∨ (∃ md, op = OpMkdir (q ++ slash :: nm) md) ∨
      op = OpUnlink (q ++ slash :: nm) ∨ op = OpRmdir (q ++ slash :: nm) ∨ (∃ p fl, op = OpRename (q ++ slash :: nm) p fl) →
      no_slash nm → path_fine (q ++ [slash]) → s_path s (q ++ [slash]) = None →
      spec_step e s op (match op with OpCreate _ _ _ => RFh (- ENOENT) None | _ => RInt (- ENOENT) end) s.
End spec.
