(* ===== verification/SpecTree.v ===== *)
(** * The directories of the abstract file system form a tree

    [tree_ok]: below the root every file and directory has one name in one
    directory, and one link; directories have ["."], which leads to
    themselves, and [".."], which leads to a directory (the one they were
    made in: [rename] does not change it).  Every step of
    [Spec.v] keeps it.  It follows that a path determines, and is
    determined by, what it leads to ([walk_inj]), which is what the path
    cache relies on. *)

From S2P Require Import Prelude Bytes Config BlkIface Layout DiskInode Sbfs FdManager PathResolver Vfs VfsRefine PathProof FileMap FileIO Dir Inode Spec.

(** ** Lookups after a change *)

Definition ents_of (k : kind) : gmap bytes Z := match k with Dir m => m | File _ => ∅ end.

Lemma s_find_eq s d nm : s_find s d nm = (n ← s_nodes s !! d; ents_of (n_kind n) !! nm).
Proof. unfold s_find. destruct (s_nodes s !! d) as [n|]; [|done]. simpl. by destruct (n_kind n). Qed.

Lemma s_find_node s d nm n : s_nodes s !! d = Some n → s_find s d nm = ents_of (n_kind n) !! nm.
Proof. intros Hn. by rewrite s_find_eq, Hn. Qed.

Lemma s_put_lookup i n s j : s_nodes (s_put i n s) !! j = if decide (i = j) then Some n else s_nodes s !! j.
Proof. apply lookup_insert. Qed.

Lemma s_del_lookup i s j : s_nodes (s_del i s) !! j = if decide (i = j) then None else s_nodes s !! j.
Proof. apply lookup_delete. Qed.

Lemma s_find_put i n s d nm :
  s_find (s_put i n s) d nm = if decide (i = d) then ents_of (n_kind n) !! nm else s_find s d nm.
Proof. rewrite !s_find_eq, s_put_lookup. by case_decide. Qed.

Lemma s_find_del i s d nm : s_find (s_del i s) d nm = if decide (i = d) then None else s_find s d nm.
Proof. rewrite !s_find_eq, s_del_lookup. by case_decide. Qed.

Lemma s_walk_app s a c i : s_walk s (a ++ c) i = (s_walk s a i ≫= s_walk s c).
Proof.
  revert i. induction a as [|p a IH]; intros i; [done|]. simpl. destruct (s_find s i p) as [j|]; simpl; [apply IH|done].
Qed.

Lemma s_path_keeps root s s' path i :
  (∀ d k j, s_find s d k = Some j → s_find s' d k = Some j) → s_path root s path = Some i → s_path root s' path = Some i.
Proof.
  intros Hk. unfold s_path. destruct (negb _); [done|]. destruct (bool_decide _); [done|].
  generalize (split (tail (removeEndSlash path)) false) as ps. revert i. generalize root as r.
  intros r i ps. revert r. induction ps as [|p ps IH]; intros r; [done|]. simpl.
  intros (x & Hx & Hw)%option.bind_Some. rewrite (Hk _ _ _ Hx). simpl. by apply IH.
Qed.

Lemma s_alter_lookup f d s k : s_nodes (s_alter f d s) !! k =
  if decide (d = k) then (λ n, set_kind (match n_kind n with Dir m => Dir (f m) | File b => File b end) n) <$> s_nodes s !! k
  else s_nodes s !! k.
Proof.
  unfold s_alter. destruct (s_nodes s !! d) as [n|] eqn:Hn; [|case_decide; [by subst; rewrite Hn|done]].
  destruct (n_kind n) as [b|m] eqn:Hk.
  - case_decide; [|done]. subst. rewrite Hn. simpl. rewrite Hk, <- Hk. by destruct n.
  - rewrite s_put_lookup. case_decide; [|done]. subst. rewrite Hn. simpl. by rewrite Hk.
Qed.

Lemma s_alter_node f d s k n : s_nodes s !! k = Some n → ∃ n', s_nodes (s_alter f d s) !! k = Some n' ∧ n_links n' = n_links n.
Proof. intros Hn. rewrite s_alter_lookup, Hn. case_decide; by eexists. Qed.

Lemma s_find_enter nm i d0 s d k : (∃ n m, s_nodes s !! d0 = Some n ∧ n_kind n = Dir m) →
  s_find (s_alter <[nm := i]> d0 s) d k = if decide (d0 = d ∧ nm = k) then Some i else s_find s d k.
Proof.
  intros (n & m & Hn & Hm). rewrite !s_find_eq, s_alter_lookup. destruct (decide (d0 = d)) as [<-|]; [|by rewrite decide_False by tauto].
  rewrite Hn. simpl. rewrite Hm. simpl. destruct (decide (nm = k)) as [<-|Hk].
  - by rewrite decide_True, lookup_insert_eq.
  - by rewrite decide_False, lookup_insert_ne by tauto.
Qed.

(** ** The invariant *)

Definition real (nm : bytes) : Prop := nm ≠ dot ∧ nm ≠ dotdot.

Definition s_dir (s : fsys) (d : Z) : Prop := ∃ n m, s_nodes s !! d = Some n ∧ n_kind n = Dir m.

Section tree.
Context (root : Z).

Record tree_ok (s : fsys) : Prop := {
  tr_root : s_dir s root;
  tr_dots d : s_dir s d →
    s_find s d dot = Some d ∧
    ∃ p, s_find s d dotdot = Some p ∧ s_dir s p;
  tr_named d nm i : real nm → s_find s d nm = Some i →
    i ≠ root ∧ ∃ n, s_nodes s !! i = Some n ∧ n_links n = 1;
  tr_one d1 n1 d2 n2 i : real n1 → real n2 →
    s_find s d1 n1 = Some i → s_find s d2 n2 = Some i → d1 = d2 ∧ n1 = n2;
  tr_names d nm i : s_find s d nm = Some i → nm ≠ [];
}.

Lemma plain_real nm : plain nm → real nm.
Proof. by intros []. Qed.

Lemma find_dir s d nm i : s_find s d nm = Some i → s_dir s d.
Proof.
  unfold s_find. destruct (s_nodes s !! d) as [n|] eqn:Hn; [|done]. destruct (n_kind n) as [b|m] eqn:Hk; [done|].
  intros _. by exists n, m.
Qed.

(** Every entry leads somewhere. *)
Lemma find_some s d nm i : tree_ok s → s_find s d nm = Some i → is_Some (s_nodes s !! i).
Proof.
  intros Ht Hf. pose proof (find_dir _ _ _ _ Hf) as Hd. destruct (tr_dots _ Ht d Hd) as (Hdot & p & Hdd & Hp).
  destruct (decide (nm = dot)) as [->|H1].
  { destruct Hd as (n & m & Hn & _). simplify_eq. by eexists. }
  destruct (decide (nm = dotdot)) as [->|H2].
  - assert (p = i) as -> by congruence. destruct Hp as (n & m & Hn & _). by eexists.
  - destruct (tr_named _ Ht d nm i) as (_ & n & Hn & _); [by split|done|]. by eexists.
Qed.

Lemma walk_some s ps : ∀ i j, tree_ok s → is_Some (s_nodes s !! i) → s_walk s ps i = Some j → is_Some (s_nodes s !! j).
Proof.
  induction ps as [|p ps IH]; intros i j Ht Hi; [by intros [= <-]|]. simpl.
  intros (k & Hk & Hw)%option.bind_Some. apply (IH k j Ht); [|done]. by apply (find_some s i p).
Qed.

Lemma path_some s path i : tree_ok s → s_path root s path = Some i → is_Some (s_nodes s !! i).
Proof.
  intros Ht. pose proof (tr_root _ Ht) as (n & m & Hn & _). unfold s_path. destruct (negb _); [done|].
  destruct (bool_decide _); [intros [= <-]; by eexists|]. apply walk_some; [done|by eexists].
Qed.

(** Two paths to the same place are the same path. *)
Lemma walk_inj s ps qs i :
  tree_ok s → Forall plain ps → Forall plain qs → s_walk s ps root = Some i → s_walk s qs root = Some i → ps = qs.
Proof.
  intros Ht. assert (Hroot : ∀ l p, plain p → s_walk s (l ++ [p]) root ≠ Some root).
  { intros l p Hp. rewrite s_walk_app. intros (d & _ & (j & Hj & [= ->])%option.bind_Some)%option.bind_Some.
    by destruct (tr_named _ Ht d p root (plain_real _ Hp) Hj). }
  revert qs i. induction ps as [|p ps IH] using rev_ind; intros qs i Hps Hqs Hp Hq.
  - destruct qs as [|q qs _] using rev_ind; [done|]. apply Forall_app in Hqs as [_ Hqs].
    rewrite Forall_singleton in Hqs. injection Hp as <-. by destruct (Hroot qs q Hqs).
  - apply Forall_app in Hps as [Hps Hpp]. rewrite Forall_singleton in Hpp.
    destruct qs as [|q qs _] using rev_ind.
    { injection Hq as <-. by destruct (Hroot ps p Hpp). }
    apply Forall_app in Hqs as [Hqs Hqq]. rewrite Forall_singleton in Hqq. rewrite s_walk_app in Hp, Hq.
    apply option.bind_Some in Hp as (d1 & Hw1 & Hp). apply option.bind_Some in Hq as (d2 & Hw2 & Hq). simpl in Hp, Hq.
    apply option.bind_Some in Hp as (? & Hp & [= ->]). apply option.bind_Some in Hq as (? & Hq & [= ->]).
    destruct (tr_one _ Ht d1 p d2 q i) as [-> ->]; try done; try by apply plain_real.
    f_equal. by apply (IH qs d2).
Qed.

(** Nothing on the way to a directory is in it. *)
Lemma walk_no_loop s ps d nm :
  tree_ok s → Forall plain ps → plain nm → s_walk s ps root = Some d → s_find s d nm ≠ Some d.
Proof.
  intros Ht Hps Hnm Hw Hf. assert (Hw' : s_walk s (ps ++ [nm]) root = Some d).
  { rewrite s_walk_app, Hw. simpl. by rewrite Hf. }
  pose proof (walk_inj s ps (ps ++ [nm]) d Ht Hps) as He.
  assert (ps = ps ++ [nm]) as Hx; [|apply (f_equal length) in Hx; rewrite length_app in Hx; simpl in Hx; lia].
  apply He; [|done|done]. apply Forall_app. split; [done|]. by apply Forall_singleton.
Qed.

(** ** Changes *)

(** Names and links as before. *)
Lemma tree_same s s' :
  (∀ d nm, s_find s' d nm = s_find s d nm) → (∀ d, s_dir s d ↔ s_dir s' d) →
  (∀ i n, s_nodes s !! i = Some n → ∃ n', s_nodes s' !! i = Some n' ∧ n_links n' = n_links n) →
  tree_ok s → tree_ok s'.
Proof.
  intros Hf Hd Hl [T1 T2 T3 T4 T5]. split.
  - by apply Hd.
  - intros d Hdd%Hd. destruct (T2 d Hdd) as (H1 & p & H2 & H3). rewrite Hf. split; [done|]. exists p.
    rewrite Hf. split; [done|by apply Hd].
  - intros d nm i Hn. rewrite Hf. intros Hi. destruct (T3 d nm i Hn Hi) as (Hr & n & Hni & Hnl). split; [done|].
    destruct (Hl i n Hni) as (n' & ? & ?). exists n'. split; [done|congruence].
  - intros d1 n1 d2 n2 i. rewrite !Hf. apply T4.
  - intros d nm i. rewrite Hf. apply T5.
Qed.

Lemma tree_nodes s s' : s_nodes s' = s_nodes s → tree_ok s → tree_ok s'.
Proof.
  intros He. apply tree_same.
  - intros d nm. by rewrite !s_find_eq, He.
  - intros d. unfold s_dir. by rewrite He.
  - intros i n Hn. rewrite He. by exists n.
Qed.

Lemma s_dir_put s i n d : s_dir (s_put i n s) d ↔ (i = d ∧ ∃ m, n_kind n = Dir m) ∨ (i ≠ d ∧ s_dir s d).
Proof.
  unfold s_dir. setoid_rewrite s_put_lookup. destruct (decide (i = d)) as [->|Hne]; split.
  - intros (n' & m & [= <-] & Hm). left. by split; [|exists m].
  - intros [[_ [m Hm]]|[? _]]; [|done]. by exists n, m.
  - intros Hx. by right.
  - by intros [[? _]|[_ Hx]].
Qed.

Lemma s_dir_alter f d0 s d : s_dir (s_alter f d0 s) d ↔ s_dir s d.
Proof.
  unfold s_dir. rewrite s_alter_lookup. destruct (decide (d0 = d)); [|done]. split.
  - intros (n & m & (n0 & -> & Hn0)%fmap_Some & Hm). subst. simpl in Hm. destruct (n_kind n0) as [b|m0] eqn:Hk; [done|].
    by exists n0, m0.
  - intros (n & m & Hn & Hm). rewrite Hn. eexists _, (f m). split; [done|]. simpl. by rewrite Hm.
Qed.

(** A file's bytes, or any node's attributes. *)
Lemma tree_put s i n n' :
  tree_ok s → s_nodes s !! i = Some n → n_links n' = n_links n →
  (n_kind n' = n_kind n ∨ ∃ b b', n_kind n = File b ∧ n_kind n' = File b') → tree_ok (s_put i n' s).
Proof.
  intros Ht Hi Hl Hk. assert (He : ents_of (n_kind n') = ents_of (n_kind n)).
  { destruct Hk as [->|(b & b' & -> & ->)]; done. }
  apply (tree_same s); [..|done].
  - intros d nm. rewrite s_find_put. case_decide; [|done]. subst. by rewrite (s_find_node _ _ _ _ Hi), He.
  - intros d. rewrite s_dir_put. destruct (decide (i = d)) as [->|Hne]; [|by split; [right|intros [[]|[]]]].
    unfold s_dir. split.
    + intros (n0 & m & Hn0 & Hm). left. split; [done|]. simplify_eq.
      destruct Hk as [->|(b & b' & Hb & _)]; [by exists m|congruence].
    + intros [[_ [m Hm]]|[? _]]; [|done]. exists n, m. split; [done|].
      destruct Hk as [<-|(b & b' & _ & Hb)]; [done|congruence].
  - intros j nj Hj. rewrite s_put_lookup. case_decide; [|by exists nj]. subst. exists n'. split; [done|]. congruence.
Qed.

(** A new file or directory. *)
Section make.
Context (e : env) (s : fsys) (d id : Z) (nm : bytes) (dir : bool) (mode_ : Z) (n : snode) (m : gmap bytes Z).
Context (Ht : tree_ok s) (Hd : s_nodes s !! d = Some n) (Hm : n_kind n = Dir m) (Hnew : m !! nm = None).
Context (Hid : s_nodes s !! id = None) (Hreal : real nm) (Hne : nm ≠ []).
Abbreviation s' := (s_make e d id nm dir mode_ n m s).

Lemma make_ne : id ≠ d.
Proof. intros ->. congruence. Qed.

Lemma make_nodes j : s_nodes s' !! j =
  if decide (id = j) then Some (new_node e id d dir mode_)
  else if decide (d = j) then Some (set_kind (Dir (<[nm := id]> m)) n) else s_nodes s !! j.
Proof. unfold s_make. by rewrite !s_put_lookup. Qed.

Lemma make_keeps d' k i : s_find s d' k = Some i → s_find s' d' k = Some i.
Proof.
  intros Hf. unfold s_make. rewrite !s_find_put. destruct (find_dir _ _ _ _ Hf) as (n0 & m0 & Hn0 & _).
  rewrite decide_False by congruence. case_decide as He; [|done]. subst.
  rewrite (s_find_node _ _ _ _ Hd), Hm in Hf. simpl in *. rewrite lookup_insert_ne; [done|]. congruence.
Qed.

Lemma make_new : s_find s' d nm = Some id.
Proof.
  unfold s_make. rewrite !s_find_put, decide_False by apply make_ne. rewrite decide_True by done. apply lookup_insert_eq.
Qed.

Lemma make_find d' k i : s_find s' d' k = Some i →
  (d' = d ∧ k = nm ∧ i = id) ∨ (d' = id ∧ (k = dot ∧ i = id ∨ k = dotdot ∧ i = d)) ∨
  (s_find s d' k = Some i ∧ i ≠ id ∧ d' ≠ id).
Proof.
  unfold s_make. rewrite !s_find_put. case_decide as H1.
  - subst. unfold new_node. cbn [n_kind]. destruct dir; [|done]. simpl.
    intros [[<- <-]|[_ [<- <-]%lookup_singleton_Some]]%lookup_insert_Some; right; left; auto.
  - assert (Hold : s_find s d' k = Some i → s_find s d' k = Some i ∧ i ≠ id ∧ d' ≠ id).
    { intros Hf. split_and!; [done| |by intros ->]. intros ->. destruct (find_some _ _ _ _ Ht Hf) as [? ?]. congruence. }
    case_decide as H2; [|by auto]. subst. simpl.
    intros [[<- <-]|[Hk Hf]]%lookup_insert_Some; [by auto|]. right; right. apply Hold.
    by rewrite (s_find_node _ _ _ _ Hd), Hm.
Qed.

Lemma make_dir d' : s_dir s' d' ↔ s_dir s d' ∨ (d' = id ∧ dir = true).
Proof.
  unfold s_make. rewrite !s_dir_put. pose proof make_ne. unfold new_node, set_kind. cbn [n_kind]. split.
  - intros [[<- [m' Hm']]|[_ [[<- _]|[_ Hx]]]]; [|left; by exists n, m|by left].
    right. split; [done|]. by destruct dir.
  - intros [Hx|[-> ->]].
    + right. split; [intros ->; destruct Hx as (? & ? & ? & _); congruence|].
      destruct (decide (d = d')) as [->|]; [left; split; [done|by eexists]|by right].
    + left. split; [done|by eexists].
Qed.

Lemma tree_make : tree_ok s'.
Proof.
  pose proof Ht as [T1 T2 T3 T4 T5]. split.
  - apply make_dir. by left.
  - intros d' [Hdd|[-> Hdir]]%make_dir.
    + destruct (T2 d' Hdd) as (H1 & p & H2 & H3). split; [by apply make_keeps|]. exists p. split; [by apply make_keeps|].
      apply make_dir. by left.
    + assert (Hc : ∀ k, s_find s' id k = ({[ dot := id; dotdot := d ]} : gmap bytes Z) !! k).
      { intros k. unfold s_make. rewrite s_find_put, decide_True by done. unfold new_node. cbn [n_kind]. by rewrite Hdir. }
      rewrite Hc. split; [apply lookup_insert_eq|]. exists d. rewrite Hc. split; [done|].
      apply make_dir. left. by exists n, m.
  - intros d' k i Hk [(-> & -> & ->)|[(-> & [[-> _]|[-> _]])|(Hf & Hi & _)]]%make_find; try by destruct Hk.
    + split; [|exists (new_node e id d dir mode_); by rewrite make_nodes, decide_True].
      intros ->. destruct T1 as (? & ? & ? & _). congruence.
    + destruct (T3 d' k i Hk Hf) as (Hr & n0 & Hn0 & Hl). split; [done|]. rewrite make_nodes, decide_False by done.
      case_decide; [|by exists n0]. subst. simplify_eq. by eexists.
  - intros d1 n1 d2 n2 i R1 R2 [(-> & -> & ->)|[(-> & [[-> _]|[-> _]])|(Hf & Hi & _)]]%make_find; try by destruct R1.
    + intros [(-> & -> & _)|[(-> & [[-> _]|[-> _]])|(Hf' & Hi' & _)]]%make_find; by destruct R2.
    + intros [(-> & -> & ?)|[(-> & [[-> _]|[-> _]])|(Hf' & Hi' & _)]]%make_find; try by destruct R2. by apply (T4 d1 n1 d2 n2 i).
  - intros d' k i [(-> & -> & ->)|[(-> & [[-> _]|[-> _]])|(Hf & Hi & _)]]%make_find; try done. by apply (T5 d' k i).
Qed.
End make.

(** Only directories are [".."] of others. *)
Lemma file_no_back s i c b d : tree_ok s → s_nodes s !! i = Some c → n_kind c = File b → s_find s d dotdot ≠ Some i.
Proof.
  intros Ht Hc Hb Hf. destruct (tr_dots _ Ht d (find_dir _ _ _ _ Hf)) as (_ & p & Hp & (n & m & Hn & Hm)). congruence.
Qed.

(** An entry that is not a directory's own. *)
Lemma file_alone s d i nm c b : tree_ok s → s_nodes s !! i = Some c → n_kind c = File b → real nm → s_find s d nm = Some i →
  ∀ d' k, s_find s d' k = Some i → d' = d ∧ k = nm.
Proof.
  intros Ht Hc Hb Hr Hf d' k Hk. pose proof (find_dir _ _ _ _ Hk) as Hd'. destruct (tr_dots _ Ht d' Hd') as (H1 & _).
  assert (k ≠ dot) as Hk1 by (intros ->; destruct Hd' as (? & ? & ? & ?); congruence).
  assert (k ≠ dotdot) as Hk2 by (intros ->; by apply (file_no_back s i c b d' Ht Hc Hb)).
  by apply (tr_one _ Ht d' k d nm i (conj Hk1 Hk2) Hr).
Qed.

(** A file, or an empty directory, goes. *)
Section remove.
Context (s : fsys) (d i : Z) (nm : bytes) (n c : snode) (m : gmap bytes Z).
Context (Ht : tree_ok s) (Hd : s_nodes s !! d = Some n) (Hm : n_kind n = Dir m) (Hi : m !! nm = Some i).
Context (Hreal : real nm) (Hc : s_nodes s !! i = Some c) (Hempty : ∀ k, is_Some (ents_of (n_kind c) !! k) → ¬ real k).
Context (Hback : ∀ d', s_find s d' dotdot ≠ Some i).
Abbreviation s' := (s_del i (s_put d (set_kind (Dir (delete nm m)) n) s)).

Lemma remove_entry : s_find s d nm = Some i.
Proof. by rewrite (s_find_node _ _ _ _ Hd), Hm. Qed.

Lemma remove_ne : i ≠ d.
Proof.
  intros He. assert (c = n) as Hcn by congruence. apply (Hempty nm); [|done]. rewrite Hcn, Hm. by exists i.
Qed.

Lemma remove_find d' k : s_find s' d' k =
  if decide (i = d') then None else if decide (d = d' ∧ nm = k) then None else s_find s d' k.
Proof.
  rewrite s_find_del. case_decide; [done|]. rewrite s_find_put. destruct (decide (d = d')) as [<-|Hne].
  - simpl. rewrite (s_find_node _ _ k _ Hd), Hm. simpl. destruct (decide (nm = k)) as [<-|Hk].
    + by rewrite decide_True, lookup_delete_eq.
    + rewrite decide_False by tauto. by apply lookup_delete_ne.
  - by rewrite decide_False by tauto.
Qed.

Lemma remove_find_Some d' k j : s_find s' d' k = Some j → s_find s d' k = Some j ∧ i ≠ d'.
Proof. rewrite remove_find. case_decide; [done|]. by case_decide. Qed.

Lemma remove_other d' k : i ≠ d' → k ≠ nm → s_find s' d' k = s_find s d' k.
Proof. intros Hd' Hk. rewrite remove_find, !decide_False; [done|by intros [_ <-]|done]. Qed.

(** Another name, outside the removed directory. *)
Lemma remove_keeps d' k j : real k → s_find s d' k = Some j → (d', k) ≠ (d, nm) → s_find s' d' k = Some j.
Proof.
  intros Hk Hf Hne. rewrite remove_find, decide_False; [|].
  - rewrite decide_False; [done|]. intros [<- <-]. by apply Hne.
  - intros <-. apply (Hempty k); [|done]. rewrite (s_find_node _ _ _ _ Hc) in Hf. by exists j.
Qed.

Lemma remove_nodes j : s_nodes s' !! j = if decide (i = j) then None else
  if decide (d = j) then Some (set_kind (Dir (delete nm m)) n) else s_nodes s !! j.
Proof. by rewrite s_del_lookup, s_put_lookup. Qed.

Lemma remove_dir d' : s_dir s' d' ↔ s_dir s d' ∧ i ≠ d'.
Proof.
  unfold s_dir. setoid_rewrite remove_nodes. split.
  - intros (n0 & m0 & Hn & Hk). case_decide; [done|]. split; [|done]. case_decide; [subst; by exists n, m|by exists n0, m0].
  - intros [(n0 & m0 & Hn & Hk) Hne]. rewrite decide_False by done. case_decide; [by eexists _, _|by exists n0, m0].
Qed.

Lemma tree_remove : tree_ok s'.
Proof.
  pose proof Ht as [T1 T2 T3 T4 T5]. destruct (T3 d nm i Hreal remove_entry) as (Hir & _). pose proof remove_ne as Hid.
  split.
  - by apply remove_dir.
  - intros d' [Hdd Hne]%remove_dir. destruct (T2 d' Hdd) as (H1 & p & H2 & H3). destruct Hreal.
    rewrite remove_other by congruence. split; [done|]. exists p. rewrite remove_other by congruence. split; [done|].
    apply remove_dir. split; [done|]. intros <-. by apply (Hback d').
  - intros d' k j Hk Hf'. pose proof Hf' as [Hf Hne]%remove_find_Some.
    destruct (T3 d' k j Hk Hf) as (Hr & n0 & Hn0 & Hl). split; [done|].
    rewrite remove_nodes. destruct (decide (i = j)) as [Hij|Hij].
    + rewrite <- Hij in Hf. destruct (T4 d' k d nm i Hk Hreal Hf remove_entry) as [-> ->].
      by rewrite remove_find, decide_False, decide_True in Hf' by done.
    + case_decide; [|by exists n0]. subst. simplify_eq. by eexists.
  - intros d1 n1 d2 n2 j R1 R2 [Hf1 _]%remove_find_Some [Hf2 _]%remove_find_Some. by apply (T4 d1 n1 d2 n2 j).
  - intros d' k j [Hf _]%remove_find_Some. by apply (T5 d' k j).
Qed.
End remove.

(** An entry moves. *)
Section move.
Context (s : fsys) (d1 d2 i : Z) (n1 n2 : bytes) (c1 c2 : snode) (m1 m2 : gmap bytes Z).
Context (Ht : tree_ok s) (Hd1 : s_nodes s !! d1 = Some c1) (Hm1 : n_kind c1 = Dir m1) (Hi : m1 !! n1 = Some i).
Context (Hr1 : real n1) (Hr2 : real n2) (Hn2 : n2 ≠ []).
Abbreviation s1 := (s_put d1 (set_kind (Dir (delete n1 m1)) c1) s).
Context (Hd2 : s_nodes s1 !! d2 = Some c2) (Hm2 : n_kind c2 = Dir m2).
Abbreviation s2 := (s_put d2 (set_kind (Dir (<[n2 := i]> m2)) c2) s1).

Lemma move_entry : s_find s d1 n1 = Some i.
Proof. by rewrite (s_find_node _ _ _ _ Hd1), Hm1. Qed.

Lemma move_find1 d k : s_find s1 d k = if decide (d1 = d ∧ n1 = k) then None else s_find s d k.
Proof.
  rewrite s_find_put. destruct (decide (d1 = d)) as [<-|Hne]; [|by rewrite decide_False by tauto].
  simpl. rewrite (s_find_node _ _ k _ Hd1), Hm1. simpl. destruct (decide (n1 = k)) as [<-|Hk].
  - by rewrite decide_True, lookup_delete_eq.
  - rewrite decide_False by tauto. by apply lookup_delete_ne.
Qed.

Lemma move_find d k : s_find s2 d k =
  if decide (d2 = d ∧ n2 = k) then Some i else if decide (d1 = d ∧ n1 = k) then None else s_find s d k.
Proof.
  rewrite <- move_find1, s_find_put. destruct (decide (d2 = d)) as [<-|Hne]; [|by rewrite decide_False by tauto].
  simpl. rewrite (s_find_node _ _ k _ Hd2), Hm2. simpl. destruct (decide (n2 = k)) as [<-|Hk].
  - by rewrite decide_True, lookup_insert_eq.
  - rewrite decide_False by tauto. by apply lookup_insert_ne.
Qed.

Lemma move_find_Some d k j : s_find s2 d k = Some j →
  (d = d2 ∧ k = n2 ∧ j = i) ∨ (s_find s d k = Some j ∧ (d, k) ≠ (d1, n1)).
Proof.
  rewrite move_find. case_decide as H1; [destruct H1 as [<- <-]; intros [= <-]; by left|].
  case_decide as H2; [done|]. intros Hf. right. split; [done|]. intros [= -> ->]. by apply H2.
Qed.

Lemma move_keeps d k j : s_find s d k = Some j → (d, k) ≠ (d1, n1) → (d, k) ≠ (d2, n2) → s_find s2 d k = Some j.
Proof. intros Hf H1 H2. rewrite move_find, !decide_False; [done|..]; intros [<- <-]; done. Qed.

Lemma move_nodes j n : s_nodes s !! j = Some n →
  ∃ n', s_nodes s2 !! j = Some n' ∧ n_links n' = n_links n ∧ (∀ b, n_kind n = File b → n_kind n' = File b).
Proof.
  intros Hn. assert (H1 : ∃ n', s_nodes s1 !! j = Some n' ∧ n_links n' = n_links n ∧ (∀ b, n_kind n = File b → n_kind n' = File b)).
  { rewrite s_put_lookup. case_decide; [|by exists n]. subst. simplify_eq. eexists. split; [done|]. split; [done|]. congruence. }
  destruct H1 as (n' & Hn' & Hl & Hk). rewrite s_put_lookup. case_decide; [|by exists n']. subst. simplify_eq.
  eexists. split; [done|]. split; [done|]. intros b Hb. specialize (Hk b Hb). congruence.
Qed.

Lemma move_dir d : s_dir s2 d ↔ s_dir s d.
Proof.
  rewrite !s_dir_put. assert (Hs1 : s_dir s d1) by by exists c1, m1.
  assert (Hs2 : s_dir s1 d2) by by exists c2, m2. rewrite s_dir_put in Hs2. unfold set_kind. cbn [n_kind]. split.
  - intros [[<- _]|[_ [[<- _]|[_ ?]]]]; [|done..]. by destruct Hs2 as [[<- _]|[_ ?]].
  - intros Hd. destruct (decide (d2 = d)) as [->|]; [left; by split; [|eexists]|right]. split; [done|].
    destruct (decide (d1 = d)) as [->|]; [left; by split; [|eexists]|by right].
Qed.

Lemma tree_move : tree_ok s2.
Proof.
  pose proof Ht as [T1 T2 T3 T4 T5]. destruct Hr1 as [Hr1a Hr1b], Hr2 as [Hr2a Hr2b].
  assert (Hdots : ∀ d k j, k = dot ∨ k = dotdot → s_find s d k = Some j → s_find s2 d k = Some j).
  { intros d k j Hk Hf. apply move_keeps; [done|..]; intros [= -> ->]; by destruct Hk. }
  split.
  - by apply move_dir.
  - intros d Hdd%move_dir. destruct (T2 d Hdd) as (H1 & p & H2 & H3).
    split; [by apply Hdots; [left|]|]. exists p. split; [by apply Hdots; [right|]|].
    by apply move_dir.
  - intros d k j Hk [(-> & -> & ->)|[Hf _]]%move_find_Some.
    + destruct (T3 d1 n1 i Hr1 move_entry) as (Hr & n & Hn & Hl). split; [done|].
      destruct (move_nodes i n Hn) as (n' & ? & ? & _). exists n'. split; [done|congruence].
    + destruct (T3 d k j Hk Hf) as (Hr & n & Hn & Hl). split; [done|].
      destruct (move_nodes j n Hn) as (n' & ? & ? & _). exists n'. split; [done|congruence].
  - intros x k y l j Hk Hl [(-> & -> & ->)|[Hf Hne]]%move_find_Some [(-> & -> & ?)|[Hf' Hne']]%move_find_Some.
    + done.
    + destruct Hne'. destruct (T4 y l d1 n1 i) as [-> ->]; [done|done|done|apply move_entry|done].
    + subst. destruct Hne. destruct (T4 x k d1 n1 i) as [-> ->]; [done|done|done|apply move_entry|done].
    + by apply (T4 x k y l j).
  - intros d k j [(-> & -> & ->)|[Hf _]]%move_find_Some; [done|]. by apply (T5 d k j).
Qed.
End move.

(** Two entries change places. *)
Section swap.
Context (s : fsys) (d1 d2 i j : Z) (n1 n2 : bytes).
Context (Ht : tree_ok s) (Hi : s_find s d1 n1 = Some i) (Hj : s_find s d2 n2 = Some j).
Context (Hr1 : real n1) (Hr2 : real n2) (Hne : (d1, n1) ≠ (d2, n2)).
Abbreviation s2 := (s_alter <[n2 := i]> d2 (s_alter <[n1 := j]> d1 s)).

Lemma swap_ne : i ≠ j.
Proof. intros <-. apply Hne. by destruct (tr_one _ Ht d1 n1 d2 n2 i Hr1 Hr2 Hi Hj) as [-> ->]. Qed.

Lemma swap_find d k : s_find s2 d k =
  if decide (d2 = d ∧ n2 = k) then Some i else if decide (d1 = d ∧ n1 = k) then Some j else s_find s d k.
Proof.
  rewrite s_find_enter by (apply s_dir_alter; by eapply find_dir). case_decide; [done|].
  apply s_find_enter. by eapply find_dir.
Qed.

Lemma swap_find_Some d k x : s_find s2 d k = Some x →
  (d = d2 ∧ k = n2 ∧ x = i) ∨ (d = d1 ∧ k = n1 ∧ x = j) ∨ (s_find s d k = Some x ∧ x ≠ i ∧ x ≠ j ∨ ¬ real k ∧ s_find s d k = Some x).
Proof.
  rewrite swap_find. case_decide as H1; [destruct H1 as [<- <-]; intros [= <-]; by left|].
  case_decide as H2; [destruct H2 as [<- <-]; intros [= <-]; by right; left|].
  intros Hf. right; right. destruct (decide (k = dot ∨ k = dotdot)) as [Hk|Hk]; [right; split; [|done]; intros []; tauto|].
  assert (Hk' : real k) by (split; tauto). left. split; [done|]. split; intros ->.
  - apply H2. by destruct (tr_one _ Ht d k d1 n1 i Hk' Hr1 Hf Hi) as [-> ->].
  - apply H1. by destruct (tr_one _ Ht d k d2 n2 j Hk' Hr2 Hf Hj) as [-> ->].
Qed.

Lemma swap_keeps d k x : s_find s d k = Some x → (d, k) ≠ (d1, n1) → (d, k) ≠ (d2, n2) → s_find s2 d k = Some x.
Proof. intros Hf H1 H2. rewrite swap_find, !decide_False; [done|..]; intros [<- <-]; done. Qed.

Lemma swap_dir d : s_dir s2 d ↔ s_dir s d.
Proof. by rewrite !s_dir_alter. Qed.

Lemma swap_named x : i = x ∨ j = x → x ≠ root ∧ ∃ n, s_nodes s2 !! x = Some n ∧ n_links n = 1.
Proof.
  intros Hx. assert (∃ d k, real k ∧ s_find s d k = Some x) as (d & k & Hk & Hf).
  { destruct Hx as [<-|<-]; [by exists d1, n1|by exists d2, n2]. }
  destruct (tr_named _ Ht d k x Hk Hf) as (Hr & n & Hn & Hl). split; [done|].
  destruct (s_alter_node <[n1 := j]> d1 s x n Hn) as (n' & Hn' & Hl').
  destruct (s_alter_node <[n2 := i]> d2 _ x n' Hn') as (n'' & Hn'' & Hl''). exists n''. split; [done|congruence].
Qed.

Lemma tree_swap : tree_ok s2.
Proof.
  pose proof Ht as [T1 T2 T3 T4 T5]. pose proof swap_ne as Hij.
  assert (Hdots : ∀ d k x, k = dot ∨ k = dotdot → s_find s d k = Some x → s_find s2 d k = Some x).
  { intros d k x Hk Hf. destruct Hr1, Hr2. apply swap_keeps; [done|..]; intros [= -> ->]; by destruct Hk. }
  split.
  - by apply swap_dir.
  - intros d Hdd%swap_dir. destruct (T2 d Hdd) as (H1 & p & H2 & H3).
    split; [by apply Hdots; [left|]|]. exists p. split; [by apply Hdots; [right|]|].
    by apply swap_dir.
  - intros d k x Hk [(-> & -> & ->)|[(-> & -> & ->)|[(Hf & _)|[[] _]]]]%swap_find_Some; [apply swap_named; auto..| |done].
    destruct (T3 d k x Hk Hf) as (Hr & n & Hn & Hl). split; [done|].
    destruct (s_alter_node <[n1 := j]> d1 s x n Hn) as (n' & Hn' & Hl').
    destruct (s_alter_node <[n2 := i]> d2 _ x n' Hn') as (n'' & Hn'' & Hl''). exists n''. split; [done|congruence].
  - intros x k y l z Hk Hl H1 H2. apply swap_find_Some in H1, H2.
    destruct H1 as [(-> & -> & ->)|[(-> & -> & ->)|[(H1 & H1i & H1j)|[[] _]]]]; try done;
      destruct H2 as [(-> & -> & ?)|[(-> & -> & ?)|[(H2 & H2i & H2j)|[[] _]]]]; try done; try congruence.
    by apply (T4 x k y l z).
  - intros d k x [(-> & -> & ->)|[(-> & -> & ->)|[(Hf & _)|[_ Hf]]]]%swap_find_Some; [by eapply T5..].
Qed.
End swap.

(** A file loses its name, and its links. *)
Lemma tree_forget s d i nm n c c0 m b :
  tree_ok s → s_nodes s !! d = Some n → n_kind n = Dir m → m !! nm = Some i → real nm → s_nodes s !! i = Some c →
  n_kind c = File b → n_kind c0 = File b →
  let s' := s_put d (set_kind (Dir (delete nm m)) n) (s_put i c0 s) in
  tree_ok s' ∧ ∀ d' k, s_find s' d' k ≠ Some i.
Proof.
  intros Ht Hd Hm Hi Hr Hc Hb Hb0 s'. assert (Hne : i ≠ d) by (intros ->; congruence).
  assert (Hentry : s_find s d nm = Some i) by by rewrite (s_find_node _ _ _ _ Hd), Hm.
  assert (Hf : ∀ d' k, s_find s' d' k = if decide (d = d' ∧ nm = k) then None else s_find s d' k).
  { intros d' k. unfold s'. rewrite !s_find_put. destruct (decide (d = d')) as [<-|Hd'].
    - simpl. rewrite (s_find_node _ _ k _ Hd), Hm. simpl. destruct (decide (nm = k)) as [<-|Hk].
      + by rewrite decide_True, lookup_delete_eq.
      + rewrite decide_False by tauto. by apply lookup_delete_ne.
    - rewrite (decide_False (P := d = d' ∧ nm = k)) by tauto. case_decide; [|done]. subst. by rewrite Hb0, (s_find_node _ _ _ _ Hc), Hb. }
  assert (Hsome : ∀ d' k j, s_find s' d' k = Some j → s_find s d' k = Some j ∧ (d', k) ≠ (d, nm)).
  { intros d' k j. rewrite Hf. case_decide as Hx; [done|]. intros Hj. split; [done|]. intros [= -> ->]. by apply Hx. }
  assert (Hkeep : ∀ d' k j, s_find s d' k = Some j → (d', k) ≠ (d, nm) → s_find s' d' k = Some j).
  { intros d' k j Hj Hx. rewrite Hf, decide_False; [done|]. intros [<- <-]. done. }
  assert (Hdir : ∀ d', s_dir s' d' ↔ s_dir s d').
  { intros d'. unfold s'. rewrite !s_dir_put. assert (s_dir s d) by by exists n, m.
    assert (¬ s_dir s i) by (intros (? & ? & ? & ?); congruence). split.
    - intros [[<- _]|[_ [[_ [? ?]]|[_ ?]]]]; [done|congruence|done].
    - intros Hx. destruct (decide (d = d')) as [->|]; [left; split; [done|by eexists]|right; split; [done|right]].
      split; [|done]. by intros <-. }
  pose proof Ht as [T1 T2 T3 T4 T5]. split; [split|].
  - by apply Hdir.
  - intros d' Hd'%Hdir. destruct (T2 d' Hd') as (H1 & p & H2 & H3). destruct Hr as [Hr1 Hr2].
    split; [apply Hkeep; [done|congruence]|]. exists p. split; [apply Hkeep; [done|congruence]|].
    by apply Hdir.
  - intros d' k j Hk [Hj Hx]%Hsome. destruct (T3 d' k j Hk Hj) as (Hjr & nj & Hnj & Hl). split; [done|].
    assert (Hji : i ≠ j).
    { intros <-. apply Hx. by destruct (T4 d' k d nm i Hk Hr Hj Hentry) as [-> ->]. }
    unfold s'. rewrite s_put_lookup. case_decide; [subst; simplify_eq; by eexists|].
    rewrite s_put_lookup, decide_False by done. by exists nj.
  - intros d1 k1 d2 k2 j R1 R2 [H1 _]%Hsome [H2 _]%Hsome. by apply (T4 d1 k1 d2 k2 j).
  - intros d' k j [Hj _]%Hsome. by apply (T5 d' k j).
  - intros d' k [Hj Hx]%Hsome. apply Hx. by destruct (file_alone s d i nm c b Ht Hc Hb Hr Hentry d' k Hj) as [-> ->].
Qed.

(** ** Every step *)

Lemma entry_real s q nm d : entry_path root s q nm d → real nm ∧ nm ≠ [].
Proof. intros [_ _ _ (Hp & _)]. split; [by apply plain_real|apply Hp]. Qed.

Lemma no_real_file c b : n_kind c = File b → ∀ k, is_Some (ents_of (n_kind c) !! k) → ¬ real k.
Proof. intros -> k [? ?]. done. Qed.
End tree.

Ltac entry_names :=
  repeat match goal with H : entry_path _ _ _ _ _ |- _ => apply entry_real in H as [? ?] end.

Lemma spec_step_tree lo hi root e s op r s' : tree_ok root s → spec_step lo hi root e s op r s' → tree_ok root s'.
Proof.
  intros Ht Hstep. destruct Hstep; try done; try (by apply (tree_nodes root s)); entry_names.
  1-4: by apply (tree_put root s i n); [done|done|done|right; eexists _, _].
  1-2: by apply (tree_put root s i n); [done|done|done|left].
  - apply (tree_nodes root (s_make e d id nm false mode_ n m s)); [done|].
    apply tree_make; try done. by match goal with H : s_fresh _ _ _ _ |- _ => destruct H as (_ & ? & _) end.
  - apply tree_make; try done. by match goal with H : s_fresh _ _ _ _ |- _ => destruct H as (_ & ? & _) end.
  - apply (tree_remove root s d i nm n c m); try done; [by eapply no_real_file|]. intros d'. by eapply file_no_back.
  - apply (tree_remove root s d i nm n c m); try done. intros k Hk []. replace (n_kind c) with (Dir mc) in Hk by done.
    match goal with H : ∀ k, is_Some _ → _ |- _ => by destruct (H k Hk) end.
  - by apply (tree_move root s d1 d2 i n1 n2 c1 c2 m1 m2).
  - by apply (tree_swap root s d1 d2 i j n1 n2).
Qed.
