(* ===== verification/SpecLaws.v ===== *)
(** * Laws of the abstract file system

    What a caller can rely on, derived from the steps of [Spec.v]: the room
    and the blocks of the files add up to the same total, whatever happens
    ([total_step]); what was written is read back; making and removing a
    file or directory leaves everything as it was; a directory moves with
    all that is below it. *)

From S2P Require Import Prelude Bytes Config BlkIface Layout DiskInode Sbfs FdManager PathResolver Vfs VfsRefine PathProof FileMap FileIO Dir Inode Spec SpecTree.

(** ** Space *)

(** The blocks all files and directories take. *)
Definition s_used (s : fsys) : Z := map_fold (λ _ n z, n_cost (n_kind n) + z) 0 (s_nodes s).

Definition s_total (s : fsys) : Z := s_room s + s_used s.

Lemma fold_put (ns : gmap Z snode) (i : Z) n :
  map_fold (λ _ n z, n_cost (n_kind n) + z) 0 (<[i := n]> ns) =
  map_fold (λ _ n z, n_cost (n_kind n) + z) 0 ns - from_option (λ n, n_cost (n_kind n)) 0 (ns !! i) + n_cost (n_kind n).
Proof.
  destruct (ns !! i) as [n0|] eqn:Hi; simpl.
  - rewrite <- insert_delete_eq. rewrite map_fold_insert_L; [|intros; lia|apply lookup_delete_eq].
    rewrite (map_fold_delete_L _ 0 i n0 ns); [|intros; lia|done]. lia.
  - rewrite map_fold_insert_L; [|intros; lia|done]. lia.
Qed.

Lemma total_put i n s : s_total (s_put i n s) = s_total s.
Proof. unfold s_total, s_used, s_put. cbn [s_room s_nodes]. rewrite fold_put. destruct (s_nodes s !! i); simpl; lia. Qed.

Lemma total_del i s : s_total (s_del i s) = s_total s.
Proof.
  unfold s_total, s_used, s_del. cbn [s_room s_nodes]. destruct (s_nodes s !! i) as [n0|] eqn:Hi; simpl.
  - rewrite (map_fold_delete_L _ 0 i n0 (s_nodes s)); [|intros; lia|done]. lia.
  - rewrite delete_id by done. lia.
Qed.

Lemma total_alter f d s : s_total (s_alter f d s) = s_total s.
Proof.
  unfold s_alter. destruct (s_nodes s !! d) as [n|]; [|done]. destruct (n_kind n) as [b|m]; [done|]. apply total_put.
Qed.

Lemma total_step lo hi root e s op r s' : spec_step lo hi root e s op r s' → s_total s' = s_total s.
Proof.
  intros Hstep. destruct Hstep; try done; rewrite ?total_del, ?total_put, ?total_alter; try done.
  - change (s_total (s_open id (s_make e d id nm false mode_ n m s)) = s_total s).
    unfold s_make. change (s_total (s_open ?i ?x)) with (s_total x). by rewrite !total_put.
  - unfold s_make. by rewrite !total_put.
  - subst s1. by rewrite total_put.
Qed.

(** ** Making and removing *)

Lemma set_kind_twice k k' n : set_kind k (set_kind k' n) = set_kind k n.
Proof. done. Qed.

Lemma set_kind_same n : set_kind (n_kind n) n = n.
Proof. by destruct n. Qed.

Lemma make_remove e s d id nm dir md n m :
  s_nodes s !! d = Some n → n_kind n = Dir m → m !! nm = None → s_nodes s !! id = None →
  s_del id (s_put d (set_kind (Dir (delete nm (<[nm := id]> m))) n) (s_make e d id nm dir md n m s)) = s.
Proof.
  intros Hd Hm Hnm Hid. assert (Hne : id ≠ d) by (intros ->; congruence).
  rewrite delete_insert_id, <- Hm, set_kind_same by done.
  unfold s_make, s_del, s_put. destruct s as [ns room fds nx]. cbn [s_nodes s_room s_fds s_next] in *.
  rewrite !lookup_insert_ne, !lookup_insert_eq, Hd, Hid by done. rewrite (lookup_insert_ne _ d id) by done.
  rewrite lookup_insert_eq. simpl.
  f_equal; [|lia].
  apply map_eq. intros j. destruct (decide (j = id)) as [->|Hj1]; [by rewrite lookup_delete_eq|].
  rewrite lookup_delete_ne by done. destruct (decide (j = d)) as [->|Hj2]; [by rewrite lookup_insert_eq|].
  by rewrite !lookup_insert_ne.
Qed.

(** ** Moving *)

Lemma walk_agree s s' ps : ∀ x,
  (∀ a y, Forall plain a → s_walk s a x = Some y → ∀ p, s_find s' y p = s_find s y p) →
  Forall plain ps → s_walk s' ps x = s_walk s ps x.
Proof.
  induction ps as [|p ps IH]; intros x Hx Hp; [done|]. inversion_clear Hp as [|? ? Hp1 Hps]. simpl.
  rewrite (Hx [] x) by done. destruct (s_find s x p) as [y|] eqn:Hf; [|done]. simpl. apply IH; [|done].
  intros a z Ha Hz. apply (Hx (p :: a)); [by constructor|]. simpl. by rewrite Hf.
Qed.

(** A directory on the way to another is not below it. *)
Lemma walk_not_below root s ps d nm i : tree_ok root s → Forall plain ps → plain nm → s_walk s ps root = Some d →
  s_find s d nm = Some i → ∀ a, Forall plain a → s_walk s a i ≠ Some d.
Proof.
  intros Ht Hps Hnm Hw Hf a Ha Hd. assert (Hw' : s_walk s (ps ++ nm :: a) root = Some d).
  { rewrite s_walk_app, Hw. simpl. by rewrite Hf. }
  assert (ps = ps ++ nm :: a) as Hx; [|apply (f_equal length) in Hx; rewrite length_app in Hx; simpl in Hx; lia].
  apply (walk_inj root s _ _ d Ht); [done| |done|done]. apply Forall_app. split; [done|]. by constructor.
Qed.

(** ** Writing *)

Lemma slice_overwrite off buf (b : bytes) : 0 ≤ off ≤ zlen b → slice off (zlen buf) (overwrite off buf b) = buf.
Proof.
  intros Hoff. assert (Hz : zlen (take (Z.to_nat off) b) = off) by (unfold zlen in *; rewrite length_take; lia).
  unfold overwrite. rewrite slice_app_r by lia. rewrite Hz, Z.sub_diag, slice_app_l by lia. apply slice_all.
Qed.

Section writing.
Context (lo hi root : Z) (s : fsys) (fh i : Z) (n : snode) (b buf : bytes) (off : Z).
Context (Hfh : s_fds s !! fh = Some i) (Hn : s_nodes s !! i = Some n) (Hb : n_kind n = File b).
Context (Hoff : 0 ≤ off) (Hlen : 0 < zlen buf) (Hend : off + zlen buf < 2 ^ 31).
Abbreviation sz := (Z.max (zlen b) (off + zlen buf)).

(** The file after a write to an open handle: the range holds what was written. *)
Record has_written (b' : bytes) : Prop := {
  hw_size : zlen b' = sz;
  hw_range : slice off (zlen buf) b' = buf;
}.

Lemma written_over : off ≤ zlen b → has_written (overwrite off buf b).
Proof. intros. by split; [apply zlen_overwrite|apply slice_overwrite]. Qed.

Lemma written_past x : zlen b < off → zlen (b ++ x) = off → has_written (b ++ x ++ buf).
Proof.
  intros Hpast Hx. rewrite app_assoc. split.
  - unfold zlen in *. rewrite length_app. lia.
  - rewrite slice_app_r by lia. rewrite Hx, Z.sub_diag. apply slice_all.
Qed.

Lemma write_outcome e r s' : spec_step lo hi root e s (OpWrite fh buf (zlen buf) off) r s' →
  r = RInt (zlen buf) ∧ ∃ b', has_written b' ∧ s' = s_put i (set_kind (File b') n) s.
Proof.
  intros Hstep. remember (OpWrite fh buf (zlen buf) off) as op eqn:Hop.
  destruct Hstep; try discriminate Hop; [| | | |
    by match goal with H : _ ∨ _ |- _ => destruct H as [(? & ? & ?)|[[? ?]|[?|[?|(? & ? & ?)]]]]; congruence end];
    injection Hop as ?; simplify_eq; repeat match goal with H : n_kind n = File ?c |- _ => rewrite Hb in H; injection H as <- end.
  - split; [done|]. eexists. split; [apply written_over; lia|done].
  - split; [done|]. eexists. split; [by apply written_past|done].
  - change UINT32_MAX with (2 ^ 32 - 1) in *. lia.
Qed.

(** There is an outcome, if there is room. *)
Lemma write_possible e : zlen b < 2 ^ 31 → nodes (file_shape (data_blocks sz)) - n_cost (File b) ≤ s_room s →
  ∃ r s', spec_step lo hi root e s (OpWrite fh buf (zlen buf) off) r s'.
Proof.
  intros Hz Hroom. assert (Hc : ∀ b', has_written b' → n_cost (File b') - n_cost (File b) ≤ s_room s).
  { intros b' [Hs _]. unfold n_cost, n_size in *. by rewrite Hs. }
  destruct (decide (off ≤ zlen b)) as [Hle|Hgt].
  - eexists _, _. by apply (sp_write _ _ _ e s fh buf off i n b); try done; apply Hc, written_over.
  - assert (Hx : zlen (b ++ replicate (Z.to_nat (off - zlen b)) Byte.x00) = off).
    { unfold zlen in *. rewrite length_app, length_replicate. lia. }
    eexists _, _. by apply (sp_write_past _ _ _ e s fh buf off i n b (replicate (Z.to_nat (off - zlen b)) Byte.x00)); try done;
      [lia|apply Hc, written_past; [lia|]].
Qed.
End writing.
