(* ===== verification/SpecRel.v ===== *)
(** * The disk's objects and the abstract file system

    [vs_rel] relates the objects of a volume, whose directories are the
    bytes of their entries, to the files and directories of [Spec.v],
    whose directories are maps; [sys_rel] relates the state of the handlers
    (open handles, path cache, disk) to an abstract state.  The entries of
    a directory have different names, so their order, which changes when
    one is removed, does not matter. *)

From S2P Require Import Prelude Bytes Config BlkIface Bitmap DataArea Layout InodeIO DiskInode Sbfs Inode FdManager PathResolver Vfs VfsRefine Frame SbfsProof PathProof FileMap FileData FileIO Dir Touched DirOps DirCreate DirRemove Volume VolumeOps VolumeDir VolumeNames VolumeVfs Spec SpecTree.

(** ** Entries as a map *)

Definition key_of (x : DirEntry) : bytes := cstr (name x).

Definition ents (es : list DirEntry) : gmap bytes Z := list_to_map ((λ x, (key_of x, inode x)) <$> es).

Definition distinct (es : list DirEntry) : Prop := NoDup (key_of <$> es).

Lemma ents_keys es : ((λ x, (key_of x, inode x)) <$> es).*1 = key_of <$> es.
Proof. rewrite <- list_fmap_compose. by apply list_fmap_ext. Qed.

Lemma ents_find nm es : (λ x, inode x.2) <$> find_entry nm es = ents es !! cstr nm.
Proof.
  unfold find_entry, ents. induction es as [|x es IH]; [done|]. cbn [list_find fmap list_fmap list_to_map foldr].
  change (foldr _ _ _) with (ents es). case_decide as Hx.
  - simpl. unfold has_name in Hx. rewrite <- Hx. symmetry. apply lookup_insert_eq.
  - rewrite lookup_insert_ne by done. unfold ents. rewrite <- IH. rewrite <- option_fmap_compose. apply option_fmap_ext. by intros [].
Qed.

Lemma ents_find_None nm es : find_entry nm es = None ↔ ents es !! cstr nm = None.
Proof. rewrite <- ents_find. by rewrite fmap_None. Qed.

Lemma ents_find_Some nm es i : ents es !! cstr nm = Some i → ∃ k x, find_entry nm es = Some (k, x) ∧ inode x = i.
Proof. rewrite <- ents_find. intros ([k x] & Hf & ->)%fmap_Some. by exists k, x. Qed.

Lemma ents_size es : distinct es → base.size (ents es) = length es.
Proof. intros Hd. unfold ents. rewrite map_size_list_to_map; [by rewrite length_fmap|by rewrite ents_keys]. Qed.

Lemma ents_perm es es' : distinct es → es ≡ₚ es' → ents es = ents es'.
Proof. intros Hd Hp. apply list_to_map_proper; [by rewrite ents_keys|by rewrite Hp]. Qed.

Lemma ents_cons x es : ents (x :: es) = <[key_of x := inode x]> (ents es).
Proof. done. Qed.

Lemma ents_snoc x es : distinct (es ++ [x]) → ents (es ++ [x]) = <[key_of x := inode x]> (ents es).
Proof. intros Hd. rewrite <- ents_cons. apply ents_perm; [done|]. by rewrite Permutation_app_comm. Qed.

Lemma ents_None k es : ents es !! k = None ↔ k ∉ key_of <$> es.
Proof. unfold ents. rewrite <- not_elem_of_list_to_map, ents_keys. done. Qed.

Lemma ents_is_Some es k : is_Some (ents es !! k) ↔ k ∈ key_of <$> es.
Proof.
  split.
  - intros [x Hx]. destruct (decide (k ∈ key_of <$> es)) as [|Hno]; [done|]. apply ents_None in Hno. congruence.
  - intros Hk. destruct (ents es !! k) eqn:Hx; [by eexists|]. by apply ents_None in Hx.
Qed.

Lemma distinct_snoc x es : distinct es → ents es !! key_of x = None → distinct (es ++ [x]).
Proof.
  intros Hd Hx%ents_None. unfold distinct. rewrite fmap_app. apply NoDup_app. split; [done|]. split; [|apply NoDup_singleton].
  intros k Hk ->%list_elem_of_singleton. done.
Qed.

Lemma find_entry_key nm es k x : find_entry nm es = Some (k, x) → es !! k = Some x ∧ key_of x = cstr nm.
Proof. by intros (Hk & Hx & _)%list_find_Some. Qed.

(** One entry less. *)
Lemma ents_remove nm es k x : distinct es → find_entry nm es = Some (k, x) →
  distinct (remove_at k es) ∧ ents (remove_at k es) = delete (cstr nm) (ents es).
Proof.
  intros Hd [Hk Hx]%find_entry_key. pose proof (remove_at_perm k es x Hk) as Hp.
  assert (Hd' : distinct (x :: remove_at k es)) by (unfold distinct; by rewrite <- Hp).
  pose proof Hd' as [Hn Hd'']%NoDup_cons. split; [done|].
  rewrite (ents_perm _ _ Hd Hp), ents_cons, <- Hx. rewrite delete_insert_id; [done|]. by apply ents_None.
Qed.

(** One entry's inode changed. *)
Lemma ents_replace nm es k x y : distinct es → find_entry nm es = Some (k, x) → key_of y = key_of x →
  distinct (<[k := y]> es) ∧ ents (<[k := y]> es) = <[cstr nm := inode y]> (ents es).
Proof.
  intros Hd [Hk Hx]%find_entry_key Hy. pose proof (lookup_lt_Some _ _ _ Hk) as Hl.
  assert (Hp : es ≡ₚ x :: (take k es ++ drop (S k) es)).
  { rewrite <- (take_drop_middle es k x Hk) at 1. by rewrite Permutation_middle. }
  assert (Hp' : <[k := y]> es ≡ₚ y :: (take k es ++ drop (S k) es)).
  { rewrite insert_take_drop by done. by rewrite Permutation_middle. }
  assert (Hkeys : key_of <$> <[k := y]> es = key_of <$> es).
  { rewrite list_fmap_insert, Hy. apply list_insert_id. by rewrite list_lookup_fmap, Hk. }
  assert (Hd' : distinct (<[k := y]> es)) by (unfold distinct; by rewrite Hkeys).
  split; [done|]. rewrite (ents_perm _ _ Hd' Hp'), (ents_perm _ _ Hd Hp), !ents_cons, Hy, <- Hx. by rewrite insert_insert_eq.
Qed.

(** ** Objects *)

Definition n_attrs (n : snode) : Z * Z * Z * Z * Z :=
  (n_uid n, n_gid n, n_links n, n_mode n, match n_kind n with File _ => kFile | Dir _ => kDirectory end).

Record obj_rel (o : obj) (n : snode) : Prop := {
  or_attrs : o.1 = n_attrs n;
  or_bytes : match n_kind n with
             | File b => o.2 = b
             | Dir m => ∃ es, is_dir o es ∧ distinct es ∧ ents es = m
             end;
}.

Record vs_rel (v : vstate) (s : fsys) : Prop := {
  vs_nodes : map_Forall2 (λ _, obj_rel) (v_objs v) (s_nodes s);
  vs_room : v_free v = s_room s;
}.

Lemma obj_size o n : obj_rel o n → zlen o.2 = n_size (n_kind n).
Proof.
  intros [_ Hb]. destruct (n_kind n) as [b|m]; simpl; [by rewrite Hb|]. destruct Hb as (es & Hd & Hn & <-).
  rewrite (id_bytes _ _ Hd), zlen_entries by apply (id_entries _ _ Hd). by rewrite ents_size.
Qed.

Lemma obj_cost o n : obj_rel o n → cost o = n_cost (n_kind n).
Proof. intros Ho. unfold cost, n_cost. by rewrite (obj_size o n Ho). Qed.

Section rel.
Context (v : vstate) (s : fsys) (Hvs : vs_rel v s).

Lemma vs_obj i n : s_nodes s !! i = Some n → ∃ o, v_objs v !! i = Some o ∧ obj_rel o n.
Proof.
  intros Hn. pose proof (vs_nodes _ _ Hvs i) as Hi. rewrite Hn in Hi. inv Hi. by eexists.
Qed.

Lemma vs_node i (o : obj) : v_objs v !! i = Some o → ∃ n, s_nodes s !! i = Some n ∧ obj_rel o n.
Proof.
  intros Ho. pose proof (vs_nodes _ _ Hvs i) as Hi. rewrite Ho in Hi. inv Hi. by eexists.
Qed.

Lemma vs_none i : v_objs v !! i = None ↔ s_nodes s !! i = None.
Proof. pose proof (vs_nodes _ _ Hvs i) as Hi. inv Hi; done. Qed.

Lemma vs_some i : is_Some (v_objs v !! i) ↔ is_Some (s_nodes s !! i).
Proof. pose proof (vs_nodes _ _ Hvs i) as Hi. inv Hi; split; intros [? ?]; (done || by eexists). Qed.

Lemma vs_put i o n : obj_rel o n → vs_rel (v_put i o v) (s_put i n s).
Proof.
  intros Ho. split; [by apply map_Forall2_insert_2; [|apply Hvs]|]. cbn [v_put s_put v_free s_room].
  rewrite (vs_room _ _ Hvs), (obj_cost o n Ho). pose proof (vs_nodes _ _ Hvs i) as Hi. inv Hi; simpl; [|done].
  by rewrite (obj_cost x y).
Qed.

Lemma vs_del i : vs_rel (v_del i v) (s_del i s).
Proof.
  split; [by apply map_Forall2_delete, Hvs|]. cbn [v_del s_del v_free s_room].
  rewrite (vs_room _ _ Hvs). pose proof (vs_nodes _ _ Hvs i) as Hi. inv Hi; simpl; [|done]. by rewrite (obj_cost x y).
Qed.

Lemma vs_find d nm : v_find v d nm = s_find s d (cstr nm).
Proof.
  unfold v_find, s_find. pose proof (vs_nodes _ _ Hvs d) as Hd. inv Hd; [|done].
  destruct H1 as [Ha Hb]. rewrite Ha. unfold n_attrs, a_type. cbn [snd].
  destruct (n_kind y) as [b|m]; [done|]. destruct Hb as (es & Hdir & _ & <-). rewrite Z.eqb_refl.
  rewrite (is_dir_entries _ _ Hdir). apply ents_find.
Qed.

Lemma vs_walk ps : ∀ i, Forall plain ps → v_walk v ps i = s_walk s ps i.
Proof.
  induction ps as [|p ps IH]; intros i Hp; [done|]. inversion_clear Hp as [|? ? Hp1 Hp2]. simpl.
  rewrite vs_find, plain_cstr by done. destruct (s_find s i p) as [j|]; [by apply IH|done].
Qed.

Lemma vs_path root path : path_fine path → v_path root v path = s_path root s path.
Proof.
  intros [_ [->|Hg]]; [done|]. unfold v_path, s_path. by rewrite vs_walk.
Qed.

(** A directory. *)
Lemma vs_dir d n m : s_nodes s !! d = Some n → n_kind n = Dir m →
  ∃ (o : obj) es, (v_objs v !! d : option obj) = Some o ∧ obj_rel o n ∧ is_dir o es ∧ distinct es ∧ ents es = m.
Proof.
  intros Hn Hm. destruct (vs_obj d n Hn) as (o & Ho & Hon). pose proof (or_bytes _ _ Hon) as Hb. rewrite Hm in Hb.
  destruct Hb as (es & ? & ? & ?). by exists o, es.
Qed.

(** A file. *)
Lemma vs_file i n b : s_nodes s !! i = Some n → n_kind n = File b → v_objs v !! i = Some (n_attrs n, b).
Proof.
  intros Hn Hb. destruct (vs_obj i n Hn) as ([a b'] & Ho & [Ha Hb']). rewrite Hb in Hb'. simpl in *. by subst.
Qed.

(** In a tree the entries lead to objects. *)
Lemma vs_names root : tree_ok root s → names v.
Proof.
  intros Ht d o Hd Hty. destruct (vs_node d o Hd) as (n & Hn & [Ha Hb]). rewrite Ha in Hty.
  unfold n_attrs, a_type in Hty. cbn [snd] in Hty. destruct (n_kind n) as [b|m] eqn:Hk; [done|].
  destruct Hb as (es & Hdir & Hdis & He). exists es. split; [done|]. intros x Hx. apply vs_some.
  apply (find_some root s d (key_of x) _ Ht). unfold s_find. rewrite Hn, Hk, <- He. unfold ents.
  apply elem_of_list_to_map_1; [by rewrite ents_keys|]. apply list_elem_of_fmap. by exists x.
Qed.
End rel.

(** The relation of a node with its object. *)
Lemma file_rel n b : obj_rel (n_attrs (set_kind (File b) n), b) (set_kind (File b) n).
Proof. done. Qed.

Lemma dir_rel n o es m : o.1 = n_attrs (set_kind (Dir m) n) → is_dir o es → distinct es → ents es = m →
  obj_rel o (set_kind (Dir m) n).
Proof. intros Ha Hd Hn He. split; [done|]. by exists es. Qed.

(** ** The whole state *)

Record fd_rel (fs : SBFileSystem) (f : FDManager) (s : fsys) : Prop := {
  fr_map : fd_manager f = getDiskInodePos fs <$> s_fds s;
  fr_next : fd_counter f = s_next s;
  fr_range fh : is_Some (s_fds s !! fh) → 0 < fh < s_next s;
  fr_pos : 0 < s_next s < 2 ^ 64;
}.

Record sys_rel (fs : SBFileSystem) (root : Z) (st : VFS (D := store)) (s : fsys) : Prop := {
  sr_vol : ∃ v, vfs_ok fs root st v ∧ vs_rel v s;
  sr_fds : fd_rel fs st.1 s;
  sr_tree : tree_ok root s;
}.

Lemma fd_get_rel fs f s fh : fd_rel fs f s → FDManager_get fh f = getDiskInodePos fs <$> s_fds s !! fh.
Proof.
  intros [Hm _ Hr _]. unfold FDManager_get. rewrite Hm, lookup_fmap. destruct (Z.eqb_spec fh 0) as [->|]; [|done].
  destruct (s_fds s !! 0) eqn:H0; [|done]. destruct (Hr 0); [by rewrite H0; eexists|done].
Qed.

Lemma fd_open_rel fs f s i : fd_rel fs f s → s_next s + 1 < 2 ^ 64 →
  (FDManager_open (getDiskInodePos fs i) f).1 = s_next s ∧ fd_rel fs (FDManager_open (getDiskInodePos fs i) f).2 (s_open i s).
Proof.
  intros [Hm Hn Hr Hp] Hlt. split; [done|].
  assert (Hnone : s_fds s !! s_next s = None).
  { destruct (s_fds s !! s_next s) eqn:He; [|done]. destruct (Hr (s_next s)); [by rewrite He; eexists|lia]. }
  split; cbn [FDManager_open FDManager_deltaRefCnt snd fd_manager fd_counter s_fds s_next s_open].
  - rewrite fmap_insert, <- Hm, Hn. unfold map_insert. by rewrite Hm, lookup_fmap, Hnone.
  - rewrite Hn. unfold u64. apply Z.mod_small. lia.
  - intros fh. destruct (decide (fh = s_next s)) as [->|Hne]; [lia|]. rewrite lookup_insert_ne by done. intros ?%Hr. lia.
  - lia.
Qed.

Lemma fd_close_rel fs f s fh : fd_rel fs f s → fd_rel fs (FDManager_close fh f) (s_close fh s).
Proof.
  intros Hf. pose proof Hf as [Hm Hn Hr Hp].
  assert (Hrange : ∀ h, is_Some (delete fh (s_fds s) !! h) → 0 < h < s_next s).
  { intros h [? [_ Hh]%lookup_delete_Some]. apply Hr. by eexists. }
  assert (Hsame : s_fds s !! fh = None → fd_rel fs f (s_close fh s)).
  { intros Hnone. split; try done. cbn [s_close s_fds]. by rewrite delete_id. }
  unfold FDManager_close. destruct (Z.eqb_spec fh 0) as [->|].
  { apply Hsame. destruct (s_fds s !! 0) eqn:H0; [|done]. destruct (Hr 0); [by rewrite H0; eexists|done]. }
  rewrite Hm, lookup_fmap. destruct (s_fds s !! fh) as [i|]; [|by apply Hsame].
  split; try done. cbn [s_close s_fds fd_manager FDManager_deltaRefCnt fmap option_fmap option_map]. by rewrite Hm, fmap_delete.
Qed.
