(* ===== verification/SpecOps.v ===== *)
(** * The handlers do what the specification says: bytes, handles, attributes

    For each rule of [spec_step] on an open file, on handles and on
    attributes: a state related to the abstract one, the handler returns
    the rule's result, and the states after are related ([goes]). *)

From S2P Require Import Prelude Bytes Config BlkIface Bitmap DataArea Layout InodeIO DiskInode Sbfs Inode FdManager PathResolver Vfs VfsRefine Frame SbfsProof PathProof FileMap FileData FileIO Dir Touched DirOps DirCreate DirRemove Volume VolumeOps VolumeDir VolumeNames VolumeVfs Spec SpecTree SpecRel.

Lemma map_res_run {S A B} (f : A → B) (k : M S A) s a s' : k s = (Some a, s') → map_res f k s = (Some (f a), s').
Proof. intros Hk. unfold map_res. by rewrite (bind_Some _ _ _ _ _ Hk). Qed.

(** The call that was made. *)
Ltac ran Hrun := cbn [vfs_step]; unfold map_res; by rewrite (bind_Some _ _ _ _ _ Hrun).

Section ops.
Context (fs : SBFileSystem) (root : Z).
Abbreviation P := (getDiskInodePos fs).

(** The states after, but for the tree, which is the specification's
    business. *)
Record near (st : VFS (D := store)) (s : fsys) : Prop := {
  nr_vol : ∃ v, vfs_ok fs root st v ∧ vs_rel v s;
  nr_fds : fd_rel fs st.1 s;
}.

Definition ids_lo : Z := data_segment_offset (inode_bitmap_ fs).
Definition ids_hi : Z := slots (inode_bitmap_ fs).
Abbreviation step := (spec_step ids_lo ids_hi root).

(** A handler returns [r] and goes to [s']. *)
Definition goes (e : env) (st : VFS (D := store)) (op : vfs_op) (r : vfs_res) (s' : fsys) : Prop :=
  ∃ st', vfs_step fs e op st = (Some r, st') ∧ near st' s'.

Lemma sys_near st s : sys_rel fs root st s → near st s.
Proof. by intros [Hv Hf _]. Qed.

Section related.
Context (e : env) (st : VFS (D := store)) (s : fsys) (v : vstate).
Context (Hv : vfs_ok fs root st v) (Hvs : vs_rel v s) (Hfd : fd_rel fs st.1 s).

(** The handlers left the handles alone. *)
Lemma near_same st' v' s' : vfs_ok fs root st' v' → vs_rel v' s' → st'.1 = st.1 → s_fds s' = s_fds s → s_next s' = s_next s → near st' s'.
Proof.
  intros Hv' Hvs' Hf H1 H2. split; [by exists v'|]. rewrite Hf. destruct Hfd as [? ? ? ?]. split; rewrite ?H1, ?H2; done.
Qed.

Lemma near_put st' i o n : vfs_ok fs root st' (v_put i o v) → obj_rel o n → st'.1 = st.1 → near st' (s_put i n s).
Proof. intros Hv' Ho Hf. by apply (near_same st' (v_put i o v)); [|apply vs_put|..]. Qed.

Lemma near_keep st' : vfs_ok fs root st' v → st'.1 = st.1 → near st' s.
Proof. intros Hv' Hf. by apply (near_same st' v). Qed.

Lemma target_rel path fi r : s_target root s path fi r → target fs root st v path fi r.
Proof.
  unfold s_target, target, s_handle, handle_of. destruct fi as [fh|]; simpl.
  - rewrite (fd_get_rel fs _ s fh Hfd). destruct (s_fds s !! fh) as [i|]; simpl; [by intros ->|].
    intros [Hp ->]. split; [done|]. by apply (vs_path v s Hvs).
  - intros [Hp ->]. split; [done|]. by apply (vs_path v s Hvs).
Qed.

Lemma path_rel path : path_fine path → v_path root v path = s_path root s path.
Proof. by apply vs_path. Qed.

(** ** Open files *)

Lemma read_goes fh len off i n b :
  s_fds s !! fh = Some i → s_nodes s !! i = Some n → n_kind n = File b → zlen b < 2 ^ 31 →
  0 ≤ off < zlen b → 0 < len → off + len < 2 ^ 32 →
  let l := Z.min len (zlen b - off) in goes e st (OpRead fh len off) (RData l (slice off l b)) s.
Proof.
  intros Hfh Hn Hb Hz Hoff Hlen Hend l. pose proof (vs_file v s Hvs i n b Hn Hb) as Hi.
  destruct (sb_read_ok fs root e st v fh i (n_attrs n) b len off Hv) as (st' & Hrun & Hv' & Hf'); try done.
  { by rewrite (fd_get_rel fs _ s fh Hfd), Hfh. }
  exists st'. split; [ran Hrun|]. by apply near_keep.
Qed.

Lemma read_end_goes fh len off i n b :
  s_fds s !! fh = Some i → s_nodes s !! i = Some n → n_kind n = File b → zlen b ≤ off → 0 < len → off + len < 2 ^ 32 →
  ∃ r, goes e st (OpRead fh len off) r s ∧ (r = RData (- EIO) [] ∨ r = RData 0 [] ∧ off = zlen b).
Proof.
  intros Hfh Hn Hb Hoff Hlen Hend. pose proof (vs_file v s Hvs i n b Hn Hb) as Hi. pose proof (zlen_nonneg b).
  destruct (sb_read_end_ok fs root e st v fh i (n_attrs n) b len off Hv) as ([z l] & st' & Hrun & Hv' & Hf' & Hr); try done.
  { by rewrite (fd_get_rel fs _ s fh Hfd), Hfh. }
  exists (RData z l). split; [exists st'; split; [ran Hrun|by apply near_keep]|].
  destruct Hr as [[= -> ->]|[[= -> ->] ?]]; [by left|by right].
Qed.

Lemma write_goes fh buf off i n b :
  s_fds s !! fh = Some i → s_nodes s !! i = Some n → n_kind n = File b → zlen b < 2 ^ 31 →
  0 ≤ off → 0 < zlen buf → off + zlen buf < 2 ^ 31 →
  nodes (file_shape (data_blocks (Z.max (zlen b) (off + zlen buf)))) - n_cost (File b) ≤ s_room s →
  ∃ x, zlen x = Z.max 0 (off - zlen b) ∧
    goes e st (OpWrite fh buf (zlen buf) off) (RInt (zlen buf)) (s_put i (set_kind (File (overwrite off buf (b ++ x))) n) s).
Proof.
  intros Hfh Hn Hb Hz Hoff Hlen Hend Hroom. pose proof (vs_file v s Hvs i n b Hn Hb) as Hi.
  rewrite <- (vs_room _ _ Hvs) in Hroom.
  destruct (sb_write_ok fs root e st v fh i (n_attrs n) b buf off Hv) as (st' & x & Hx & Hrun & Hv' & Hf'); try done.
  { by rewrite (fd_get_rel fs _ s fh Hfd), Hfh. }
  { unfold n_attrs, a_type. rewrite Hb. done. }
  exists x. split; [done|]. exists st'. split; [ran Hrun|]. apply (near_put st' i (n_attrs n, overwrite off buf (b ++ x))); [done| |done].
  split; [|done]. unfold n_attrs. by rewrite Hb.
Qed.

(** Past the end of the file, what its new blocks held fills the gap. *)
Lemma write_past_goes fh buf off i n b x :
  s_fds s !! fh = Some i → s_nodes s !! i = Some n → n_kind n = File b → zlen b < off → 0 < zlen buf →
  off + zlen buf < 2 ^ 31 → zlen (b ++ x) = off → n_cost (File (b ++ x ++ buf)) - n_cost (File b) ≤ s_room s →
  ∃ y, zlen (b ++ y) = off ∧ n_cost (File (b ++ y ++ buf)) = n_cost (File (b ++ x ++ buf)) ∧
    goes e st (OpWrite fh buf (zlen buf) off) (RInt (zlen buf)) (s_put i (set_kind (File (b ++ y ++ buf)) n) s).
Proof.
  intros Hfh Hn Hb Hoff Hlen Hend Hx Hroom. pose proof (zlen_nonneg b).
  assert (Hsize : ∀ y, zlen (b ++ y) = off → n_cost (File (b ++ y ++ buf)) = nodes (file_shape (data_blocks (Z.max (zlen b) (off + zlen buf))))).
  { intros y <-. unfold n_cost, n_size. repeat f_equal. unfold zlen in *. rewrite !length_app in *. lia. }
  rewrite (Hsize x Hx) in *. destruct (write_goes fh buf off i n b) as (y & Hy & Hgo); try done; try lia.
  assert (Hyo : zlen (b ++ y) = off) by (unfold zlen in *; rewrite length_app; lia).
  exists y. split; [done|]. split; [by apply Hsize|]. by rewrite <- Hyo, overwrite_end, <- app_assoc, Hyo in Hgo.
Qed.

Lemma closed_goes fh buf len off : s_fds s !! fh = None → len ≤ UINT32_MAX →
  goes e st (OpRead fh len off) (RData (- EBADF) []) s ∧ goes e st (OpWrite fh buf len off) (RInt (- EBADF)) s.
Proof.
  intros Hfh Hlen. destruct (sb_bad_handle fs e st fh buf len off) as [Hr Hw]; [|done|].
  { by rewrite (fd_get_rel fs _ s fh Hfd), Hfh. }
  split; exists st; (split; [first [ran Hr|ran Hw]|by apply near_keep]).
Qed.

(** A request that does nothing. *)
Lemma idle_goes op r : vfs_step fs e op st = (Some r, st) → goes e st op r s.
Proof. intros Hrun. exists st. split; [done|]. by apply near_keep. Qed.

Lemma large_goes fh buf len off path fi : UINT32_MAX < len →
  goes e st (OpRead fh len off) (RData (- EINVAL) []) s ∧ goes e st (OpWrite fh buf len off) (RInt (- EINVAL)) s ∧
  goes e st (OpTruncate path len fi) (RInt (- EINVAL)) s.
Proof.
  intros Hlen. split_and!; apply idle_goes; simpl; unfold map_res, sb_read, sb_write, sb_truncate;
    destruct (Z.ltb_spec UINT32_MAX len); (done || lia).
Qed.

Lemma fsync_goes fh ds :
  (s_fds s !! fh = None → goes e st (OpFsync fh ds) (RInt (- EBADF)) s) ∧ ∃ z, goes e st (OpFsync fh ds) (RInt z) s.
Proof.
  destruct (vf_vol _ _ _ _ Hv) as (F & HF & _).
  destruct (sb_fsync_store fh ds st) as [[z Hz] Hst]; [apply (vo_forest _ _ _ HF)|].
  split.
  - intros Hfh. apply idle_goes. simpl. apply map_res_run. unfold sb_fsync.
    rewrite (bind_Some _ _ _ None st); [done|]. unfold fd_get. by rewrite (fd_get_rel fs _ s fh Hfd), Hfh.
  - exists z. apply idle_goes. simpl. apply map_res_run. destruct (sb_fsync fh ds st). simpl in *. by subst.
Qed.

(** ** Handles *)

Lemma open_goes path i : path_fine path → s_path root s path = Some i → s_next s + 1 < 2 ^ 64 →
  goes e st (OpOpen path) (RFh 0 (Some (s_next s))) (s_open i s).
Proof.
  intros Hp Hi Hn. rewrite <- path_rel in Hi by done.
  destruct (sb_open_ok fs root e st v path i Hv Hp Hi) as (st' & Hrun & Hv' & Hf').
  destruct (fd_open_rel fs _ s i Hfd Hn) as [Hfh Hfd']. exists st'. split.
  - rewrite <- Hfh. ran Hrun.
  - split; [exists v; split; [done|]; destruct Hvs; by split|by rewrite Hf'].
Qed.

Lemma open_missing_goes path : path_fine path → s_path root s path = None →
  goes e st (OpOpen path) (RFh (- ENOENT) None) s.
Proof.
  intros Hp Hi. rewrite <- path_rel in Hi by done.
  destruct (sb_open_missing fs root e st v path Hv Hp Hi) as (st' & Hrun & Hv' & Hf').
  exists st'. split; [ran Hrun|by apply near_keep].
Qed.

Lemma release_goes fh : goes e st (OpRelease fh) (RInt 0) (s_close fh s).
Proof.
  exists (FDManager_close fh st.1, st.2). split; [done|]. split.
  - exists v. split; [by apply vfs_ok_fd|]. destruct Hvs. by split.
  - by apply fd_close_rel.
Qed.

(** ** Attributes *)

Lemma missing_goes path fi :
  s_target root s path fi None →
  goes e st (OpGetattr path fi) (RStat (- ENOENT) None) s ∧
  (∀ md, goes e st (OpChmod path md fi) (RInt (- ENOENT)) s) ∧
  (∀ u g, goes e st (OpChown path u g fi) (RInt (- ENOENT)) s) ∧
  ∀ t0 t1, goes e st (OpUtimens path t0 t1 fi) (RInt (- ENOENT)) s.
Proof.
  intros Ht%target_rel.
  assert (Hgo : ∀ A (func : DiskInode → Z * DiskInode * A) (f : Z * option A → vfs_res),
    ∃ st', map_res f (sb_rmw_diskinode e fs path fi func) st = (Some (f (- ENOENT, None)), st') ∧ near st' s).
  { intros A func f. destruct (rmw_missing fs root e st v path fi func Hv Ht) as (st' & Hrun & Hv' & Hf').
    exists st'. split; [by apply map_res_run|by apply near_keep]. }
  assert (Hrmw : ∀ op g, vfs_step fs e op st = map_res RInt (rmw e fs path fi g) st → goes e st op (RInt (- ENOENT)) s).
  { intros op g Hop. destruct (Hgo _ (λ di, (kSuccess, g di, tt)) (λ r, RInt r.1)) as (st' & Hrun & Hn).
    exists st'. split; [|done]. rewrite Hop. etrans; [|exact Hrun]. unfold map_res, rmw, bind.
    by destruct (sb_rmw_diskinode e fs path fi _ st) as [[[r a]|] x]. }
  split; [|split; [|split]].
  2: { intros md. by apply (Hrmw _ (set_mode (u16 md))). }
  2: { intros u g. by apply (Hrmw _ (set_owner (u16 u) (u16 g))). }
  2: { intros t0 t1. by apply (Hrmw _ (λ di, set_times (timespec_u32 t0) (change_time di) (timespec_u32 t1) di)). }
  destruct (Hgo _ (λ di, (kSuccess, di, stat_of di)) (λ r, RStat r.1 r.2)) as (st' & Hrun & Hn). by exists st'.
Qed.

Lemma getattr_goes path fi i n : s_target root s path fi (Some i) → s_nodes s !! i = Some n →
  ∃ stt, goes e st (OpGetattr path fi) (RStat 0 (Some stt)) s ∧
    st_mode stt = n_mode n ∧ st_nlink stt = n_links n ∧ st_uid stt = n_uid n ∧ st_gid stt = n_gid n ∧
    st_size stt = n_size (n_kind n) ∧ st_blocks stt = total_blocks (n_size (n_kind n)) ∧ st_blksize stt = kBlockSize.
Proof.
  intros Ht%target_rel Hn. destruct (vs_obj v s Hvs i n Hn) as ([a b] & Ho & Hon).
  pose proof (obj_size _ _ Hon) as Hsz. cbn [snd] in Hsz.
  destruct (rmw_ok fs root e st v path fi i a b (λ di, di) stat_of a Hv Ht Ho) as (st' & di & Hrun & Ha & Hs' & Hv' & Hf'); [done|done|].
  rewrite v_put_same in Hv' by done. exists (stat_of di).
  split; [exists st'; split; [ran Hrun|by apply near_keep]|].
  destruct Hon as [Hat _]. cbn [fst] in Hat. rewrite <- Ha in Hat. unfold attrs, n_attrs in Hat.
  split_and!; unfold stat_of; cbn [st_mode st_nlink st_uid st_gid st_size st_blocks st_blksize]; congruence.
Qed.

Lemma attr_goes path fi i n (op : vfs_op) (g : DiskInode → DiskInode) n' :
  s_target root s path fi (Some i) → s_nodes s !! i = Some n →
  vfs_step fs e op st = map_res RInt (rmw e fs path fi g) st →
  (∀ di, attrs di = n_attrs n → DiskInode_wf di →
     same_tree di (g di) ∧ size (g di) = size di ∧ DiskInode_wf (g di) ∧ attrs (g di) = n_attrs n') →
  n_kind n' = n_kind n →
  goes e st op (RInt 0) (s_put i n' s).
Proof.
  intros Ht%target_rel Hn Hop Hg Hk. destruct (vs_obj v s Hvs i n Hn) as ([a b] & Ho & [Hat Hb]). cbn [fst snd] in *. subst a.
  destruct (rmw_ok fs root e st v path fi i (n_attrs n) b g (λ _, tt) (n_attrs n') Hv Ht Ho Hg)
    as (st' & di & Hrun & _ & _ & Hv' & Hf').
  { unfold n_attrs. by rewrite Hk. }
  exists st'. split.
  - rewrite Hop. apply map_res_run. unfold rmw. by rewrite (bind_Some _ _ _ _ _ Hrun).
  - apply (near_put st' i (n_attrs n', b)); [done| |done]. split; [done|]. rewrite Hk.
    destruct (n_kind n) as [b'|m]; [done|]. cbn [snd]. destruct Hb as (es & [H1 H2 H3 H4] & Hd & He). exists es. split; [|done].
    cbn [fst snd] in *. split; try done. unfold n_attrs, a_type in *. rewrite Hk. simpl. by simpl in H1.
Qed.

Lemma chmod_goes path md fi i n : s_target root s path fi (Some i) → s_nodes s !! i = Some n →
  goes e st (OpChmod path md fi) (RInt 0) (s_put i (mkNode (n_uid n) (n_gid n) (n_links n) (u16 md) (n_kind n)) s).
Proof.
  intros Ht Hn. apply (attr_goes path fi i n _ (set_mode (u16 md))); try done.
  intros di Ha Hwf. split_and!; try done.
  - destruct Hwf. split; try done. apply Z.mod_pos_bound. lia.
  - unfold n_attrs in *. cbn [n_kind n_uid n_gid n_links n_mode]. by injection Ha as <- <- <- _ <-.
Qed.

Lemma chown_goes path u g fi i n : s_target root s path fi (Some i) → s_nodes s !! i = Some n →
  goes e st (OpChown path u g fi) (RInt 0) (s_put i (mkNode (u16 u) (u16 g) (n_links n) (n_mode n) (n_kind n)) s).
Proof.
  intros Ht Hn. apply (attr_goes path fi i n _ (set_owner (u16 u) (u16 g))); try done.
  intros di Ha Hwf. split_and!; try done.
  - destruct Hwf. split; try done; apply Z.mod_pos_bound; lia.
  - unfold n_attrs in *. cbn [n_kind n_uid n_gid n_links n_mode]. by injection Ha as _ _ <- <- <-.
Qed.

Lemma utimens_goes path t0 t1 fi i n : s_target root s path fi (Some i) → s_nodes s !! i = Some n →
  goes e st (OpUtimens path t0 t1 fi) (RInt 0) s.
Proof.
  intros Ht%target_rel Hn. destruct (vs_obj v s Hvs i n Hn) as ([a b] & Ho & _).
  destruct (sb_utimens_ok fs root e st v path fi i a b t0 t1 Hv Ht Ho) as (st' & Hrun & Hv' & Hf').
  exists st'. split; [ran Hrun|by apply near_keep].
Qed.

(** ** Truncation *)

Definition truncate_rest (inode : option Position) (sz : Z) : M (VFS (D := store)) Z :=
  match inode with
  | None => ret (- ENOENT)
  | Some inode =>
      r <- attempt (on_dev (Inode_resize e fs inode (u32 sz)));;
      match r with None => ret (- EIO) | Some _ => ret 0 end
  end.

Lemma truncate_split path sz fh r : s_target root s path (Some fh) r → sz ≤ UINT32_MAX →
  (∀ i, r = Some i → is_Some (s_nodes s !! i)) →
  ∃ st1, vfs_ok fs root st1 v ∧ st1.1 = st.1 ∧
    sb_truncate e fs path sz (Some fh) st = truncate_rest (P <$> r) sz st1.
Proof.
  intros Ht%target_rel Hsz Hr0. unfold sb_truncate, target, handle_of in *. simpl in Ht.
  destruct (Z.ltb_spec UINT32_MAX sz) as [|_]; [lia|].
  rewrite (bind_Some _ _ _ (FDManager_get fh st.1) st) by done. destruct (FDManager_get fh st.1) as [p|].
  - exists st. split_and!; [done|done|]. rewrite (bind_Some _ _ _ (Some p) st) by done. by rewrite <- Ht.
  - destruct Ht as [Hp Hr]. destruct (resolve_ok fs root e st v path Hv Hp) as (st1 & Hrun & Hv1 & Hf1 & _).
    rewrite Hr in Hrun. exists st1. split_and!; [done|done|]. rewrite (bind_Some _ _ _ (P <$> r) st1); [done|].
    rewrite (bind_Some _ _ _ _ _ Hrun). destruct r as [i|]; [|done]. unfold ret. simpl.
    destruct (vol_valid fs _ v i (vf_vol _ _ _ _ Hv)) as [Hval _]; [apply (vs_some v s Hvs); by apply Hr0|]. by rewrite Hval.
Qed.

Lemma truncate_missing_goes path sz fh : sz ≤ UINT32_MAX → s_target root s path (Some fh) None →
  goes e st (OpTruncate path sz (Some fh)) (RInt (- ENOENT)) s.
Proof.
  intros Hsz Ht. destruct (truncate_split path sz fh None Ht Hsz ltac:(done)) as (st1 & Hv1 & Hf1 & Hrun).
  exists st1. split; [ran Hrun|by apply near_keep].
Qed.

(** Once the inode is known. *)
Lemma truncate_end st1 path sz fh i n b b' m' :
  vfs_ok fs root st1 v → st1.1 = st.1 → s_nodes s !! i = Some n → n_kind n = File b → 0 ≤ sz ≤ UINT32_MAX →
  sb_truncate e fs path sz (Some fh) st = truncate_rest (Some (P i)) sz st1 →
  Inode_resize e fs (P i) sz st1.2.2 = (Some tt, m') → vol fs m' (v_put i (n_attrs n, b') v) →
  goes e st (OpTruncate path sz (Some fh)) (RInt 0) (s_put i (set_kind (File b') n) s).
Proof.
  intros Hv1 Hf1 Hn Hb Hsz Hrun Hres Hvol'. pose proof (vs_file v s Hvs i n b Hn Hb) as Hi.
  assert (Hend : truncate_rest (Some (P i)) sz st1 = (Some 0, (st1.1, (st1.2.1, m')))).
  { unfold truncate_rest. rewrite u32_small by (unfold is_u32; change UINT32_MAX with (2 ^ 32 - 1) in *; lia).
    by rewrite attempt_run, (on_dev_run _ _ _ _ Hres). }
  rewrite Hend in Hrun. exists (st1.1, (st1.2.1, m')). split; [ran Hrun|].
  apply (near_put _ i (n_attrs n, b')); [| |done].
  - apply (vfs_ok_put fs root st1 v m' i (n_attrs n, b)); try done. unfold n_attrs, a_type. by rewrite Hb.
  - split; [|done]. unfold n_attrs. by rewrite Hb.
Qed.

Lemma file_type n b : n_kind n = File b → a_type (n_attrs n) = kFile.
Proof. unfold n_attrs, a_type. by intros ->. Qed.

(** Sizes are 32-bit integers. *)
Lemma size_u32 i n b : s_nodes s !! i = Some n → n_kind n = File b → zlen b ≤ UINT32_MAX.
Proof.
  intros Hn Hb. pose proof (vs_file v s Hvs i n b Hn Hb) as Hi.
  destruct (vol_lookup fs _ v i _ b (vf_vol _ _ _ _ Hv) Hi) as (F & di & _ & _ & _ & _ & _ & <- & Hwf).
  pose proof (wf_size _ Hwf) as Hu. unfold is_u32 in Hu. change UINT32_MAX with (2 ^ 32 - 1). lia.
Qed.

Lemma cut_goes path sz fh i n b :
  s_target root s path (Some fh) (Some i) → s_nodes s !! i = Some n → n_kind n = File b →
  0 ≤ sz ≤ zlen b → data_blocks sz ≤ 1047 →
  goes e st (OpTruncate path sz (Some fh)) (RInt 0) (s_put i (set_kind (File (slice 0 sz b)) n) s).
Proof.
  intros Ht Hn Hb Hsz Hsmall. pose proof (vs_file v s Hvs i n b Hn Hb) as Hi. pose proof (size_u32 i n b Hn Hb) as Hu.
  destruct (truncate_split path sz fh (Some i) Ht) as (st1 & Hv1 & Hf1 & Hrun); [lia|by intros ? [= <-]|].
  destruct (vol_cut fs e st1.2.2 v i (n_attrs n) b sz (vf_vol _ _ _ _ Hv1) Hi (file_type n b Hb) Hsz Hsmall) as (m' & Hres & Hvol').
  apply (truncate_end st1 path sz fh i n b _ m'); try done. lia.
Qed.

Lemma extend_goes path sz fh i n b :
  s_target root s path (Some fh) (Some i) → s_nodes s !! i = Some n → n_kind n = File b →
  zlen b < sz → sz ≤ UINT32_MAX → nodes (file_shape (data_blocks sz)) - n_cost (File b) ≤ s_room s →
  ∃ x, zlen (b ++ x) = sz ∧
    goes e st (OpTruncate path sz (Some fh)) (RInt 0) (s_put i (set_kind (File (b ++ x)) n) s).
Proof.
  intros Ht Hn Hb Hsz Hu Hroom. pose proof (vs_file v s Hvs i n b Hn Hb) as Hi.
  rewrite <- (vs_room _ _ Hvs) in Hroom. pose proof (zlen_nonneg b).
  destruct (truncate_split path sz fh (Some i) Ht Hu) as (st1 & Hv1 & Hf1 & Hrun); [by intros ? [= <-]|].
  destruct (vol_extend fs e st1.2.2 v i (n_attrs n) b sz (vf_vol _ _ _ _ Hv1) Hi (file_type n b Hb) Hsz)
    as (m' & x & Hres & Hz & Hvol'); [|done|].
  { unfold is_u32. change UINT32_MAX with (2 ^ 32 - 1) in *. lia. }
  exists x. split; [done|]. apply (truncate_end st1 path sz fh i n b _ m'); try done. lia.
Qed.
End related.
End ops.
