(* ===== verification/SpecDirs.v ===== *)
(** * The handlers do what the specification says: directories

    [create] and [mkdir] add an entry and what it names; [readdir] lists
    the names, in the order the entries are stored in. *)

From S2P Require Import Prelude Bytes Config BlkIface Bitmap DataArea Layout InodeIO DiskInode Sbfs Inode FdManager PathResolver Vfs VfsRefine Frame SbfsProof PathProof FileMap FileData FileResize FileIO Dir Touched DirOps DirCreate DirRemove Volume VolumeOps VolumeDir VolumeNames VolumeVfs Spec SpecTree SpecRel SpecOps.

(** ** Entries *)

Lemma key_of_new nm i : plain nm → zlen nm ≤ kMaxDirNameLength → key_of (DirEntry_new nm i) = nm.
Proof.
  intros Hp Hl. unfold key_of. rewrite DirEntry_new_name by apply Hp. unfold slice.
  rewrite drop_0, take_ge; [done|]. unfold zlen in *. lia.
Qed.

Lemma entries_app a b : entries_bytes (a ++ b) = entries_bytes a ++ entries_bytes b.
Proof. unfold entries_bytes. apply bind_app. Qed.

Lemma dir_snoc o es x : is_dir o es → DirEntry_wf x → zlen o.2 + sizeof_DirEntry < 2 ^ 31 →
  is_dir (o.1, o.2 ++ DirEntry_encode x) (es ++ [x]).
Proof.
  intros [Hty He Hb Hs] Hx Hz. split; cbn [fst snd]; [done| | |].
  - apply Forall_app. split; [done|]. by apply Forall_singleton.
  - rewrite entries_app, Hb. unfold entries_bytes at 3. simpl. by rewrite app_nil_r.
  - by rewrite zlen_app, (zlen_DirEntry_encode x Hx).
Qed.

(** *** A block of entries *)

Lemma DirBlock_new_entries : DirBlock_new = entries_bytes (replicate 16 DirEntry_default).
Proof. done. Qed.

Lemma default_wf : DirEntry_wf DirEntry_default.
Proof. split; done. Qed.

Lemma valid_entries_block ch :
  Forall DirEntry_wf ch → (∀ x, x ∈ ch → key_of x ≠ []) → (length ch ≤ 16)%nat →
  valid_entries (splice 0 (entries_bytes ch) DirBlock_new) = ch.
Proof.
  intros Hw Hv Hl. pose proof default_wf as Hdw. set (pad := replicate (16 - length ch) DirEntry_default).
  assert (Hpad : Forall DirEntry_wf pad) by by apply Forall_replicate.
  assert (Hw' : Forall DirEntry_wf (ch ++ pad)) by by apply Forall_app.
  assert (Hblk : splice 0 (entries_bytes ch) DirBlock_new = entries_bytes (ch ++ pad)).
  { rewrite DirBlock_new_entries, entries_app. unfold splice. rewrite take_0. cbn [app]. f_equal.
    replace 16%nat with (length ch + (16 - length ch))%nat at 1 by lia. rewrite replicate_add, entries_app.
    change (Z.to_nat 0) with 0%nat. rewrite Nat.add_0_l. apply drop_app_length'.
    pose proof (zlen_entries ch Hw) as H1.
    pose proof (zlen_entries (replicate (length ch) DirEntry_default) (Forall_replicate _ _ _ Hdw)) as H2.
    unfold zlen in *. rewrite length_replicate in H2. lia. }
  unfold valid_entries. rewrite Hblk.
  assert (Hes : dir_entry (entries_bytes (ch ++ pad)) <$> seqZ 0 kDirEntries = ch ++ pad).
  { rewrite <- (entries_of_bytes (ch ++ pad) Hw') at 2. unfold entries_of. rewrite zlen_entries by done.
    replace (sizeof_DirEntry * zlen (ch ++ pad) / sizeof_DirEntry) with kDirEntries.
    - apply list_fmap_ext. intros i t _. unfold dir_entry. by rewrite Z.mul_comm.
    - rewrite Z.mul_comm, Z.div_mul by done. unfold zlen, pad. rewrite length_app, length_replicate.
      change kDirEntries with 16. lia. }
  rewrite Hes, filter_app.
  assert (Hch : filter (λ x, DirEntry_isValid x = true) ch = ch).
  { clear - Hv. induction ch as [|x ch IH]; [done|]. rewrite filter_cons_True.
    - f_equal. apply IH. intros y Hy. apply Hv. by right.
    - unfold DirEntry_isValid. apply bool_decide_eq_true_2. apply Hv. by left. }
  rewrite Hch. assert (Hp : ∀ k, filter (λ x, DirEntry_isValid x = true) (replicate k DirEntry_default) = []).
  { induction k as [|k IH]; [done|]. cbn [replicate]. by rewrite filter_cons_False by (vm_compute; discriminate). }
  unfold pad. by rewrite Hp, app_nil_r.
Qed.

(** The bytes of block [i] are the entries of block [i]. *)
Lemma block_entries es (i : nat) : Forall DirEntry_wf es →
  let off := kBlockSize * Z.of_nat i in
  let b := entries_bytes es in off < zlen b →
  slice off (Z.min kBlockSize (zlen b - off)) b = entries_bytes (take 16 (drop (16 * i) es)).
Proof.
  intros Hw off b Hoff. pose proof (zlen_entries es Hw) as Hz. fold b in Hz. unfold off, kBlockSize, sizeof_DirEntry in *.
  assert (Hsplit : b = entries_bytes (take (16 * i) es) ++ entries_bytes (take 16 (drop (16 * i) es)) ++
    entries_bytes (drop 16 (drop (16 * i) es))).
  { unfold b. rewrite <- !entries_app, !take_drop. done. }
  pose proof (zlen_entries (take (16 * i) es) (Forall_take _ _ _ Hw)) as H1.
  pose proof (zlen_entries (take 16 (drop (16 * i) es)) (Forall_take _ _ _ (Forall_drop _ _ _ Hw))) as H2.
  unfold zlen, sizeof_DirEntry in *. rewrite length_take in H1. rewrite length_take, length_drop in H2.
  rewrite Hsplit at 2. rewrite slice_app_r by (unfold zlen; lia). rewrite slice_app_l by (unfold zlen; lia).
  replace (4096 * Z.of_nat i - _) with 0 by (unfold zlen; lia).
  replace (Z.min 4096 (Z.of_nat (length b) - 4096 * Z.of_nat i)) with (zlen (entries_bytes (take 16 (drop (16 * i) es))))
    by (unfold zlen; lia).
  apply slice_all.
Qed.

Section dirs.
Context (fs : SBFileSystem) (root : Z) (e : env) (st : VFS (D := store)) (s : fsys) (v : vstate).
Context (Hv : vfs_ok fs root st v) (Hvs : vs_rel v s) (Hfd : fd_rel fs st.1 s).
Abbreviation P := (getDiskInodePos fs).
Abbreviation goes := (goes fs root e st).

(** A path is looked up. *)
Lemma resolve_rel path : path_fine path →
  ∃ st1, resolve e fs path st = (Some (default Position_invalid (P <$> s_path root s path)), st1) ∧
    vfs_ok fs root st1 v ∧ st1.1 = st.1 ∧ st1.2.2 = st.2.2.
Proof. intros Hp. rewrite <- (path_rel root s v Hvs path Hp). by apply resolve_ok. Qed.

Lemma node_valid st1 i : vfs_ok fs root st1 v → is_Some (s_nodes s !! i) → Position_isValid (P i) = true ∧ is_u32 i.
Proof.
  intros Hv1 Hi%(vs_some v s Hvs). destruct (vol_valid fs _ v i (vf_vol _ _ _ _ Hv1) Hi) as [Hp Hval].
  split; [done|]. destruct (vf_vol _ _ _ _ Hv1) as (F & HF & _). apply (valid_u32 fs); [apply HF|done].
Qed.

(** An inode is read. *)
Lemma inode_read st1 i n : vfs_ok fs root st1 v → s_nodes s !! i = Some n →
  ∃ di, on_dev (Inode_read_inode (P i)) st1 = (Some di, st1) ∧ attrs di = n_attrs n ∧ size di = n_size (n_kind n).
Proof.
  intros Hv1 Hn. destruct (vs_obj v s Hvs i n Hn) as ([a b] & Ho & Hon).
  destruct (vol_lookup fs st1.2.2 v i a b (vf_vol _ _ _ _ Hv1) Ho) as (F & di & HF & _ & Hdi & Ha & _ & Hsz & _).
  pose proof (vol_file fs _ F i di HF Hdi) as Hf.
  destruct (read_at _ _ (P i) di (file_at_slot _ _ _ _ Hf) (fa_inode _ _ _ _ Hf)) as [Hr _].
  pose proof (or_attrs _ _ Hon) as Hat. pose proof (obj_size _ _ Hon) as Hz. cbn [fst snd] in *.
  exists di. split; [|split; congruence].
  rewrite (on_dev_run _ _ _ _ Hr). by destruct st1 as [f1 [r1 m1]].
Qed.

(** ** Making files and directories *)

Lemma fresh_first id : s_fresh (ids_lo fs) (ids_hi fs) s id → first_id fs (v_objs v) id ∧ id < slots (inode_bitmap_ fs).
Proof.
  intros (Hr & Hnone & Hall). split; [|apply Hr]. split; [apply Hr|]. split; [by apply (vs_none v s Hvs)|].
  intros j Hj. by apply (vs_some v s Hvs), Hall.
Qed.

Section make.
Context (q nm : bytes) (d id : Z) (n : snode) (m : gmap bytes Z) (mode_ : Z).
Context (Hep : entry_path root s q nm d) (Hn : s_nodes s !! d = Some n) (Hm : n_kind n = Dir m) (Hnew : m !! nm = None).
Context (Hfr : s_fresh (ids_lo fs) (ids_hi fs) s id) (Hfit : entry_fits s m 1).

Lemma make_setup : ∃ (o : obj) es, (v_objs v !! d : option obj) = Some o ∧ obj_rel o n ∧ is_dir o es ∧ distinct es ∧ ents es = m ∧
  can_create fs v d id o es nm ∧ find_entry nm es = None.
Proof.
  destruct (vs_dir v s Hvs d n m Hn Hm) as (o & es & Ho & Hon & Hdir & Hdis & He).
  exists o, es. destruct (ep_name _ _ _ _ _ Hep) as (Hp & _). pose proof (plain_cstr nm Hp) as Hc.
  destruct Hfit as [Hsz Hroom].
  pose proof (obj_size o n Hon) as Hz. rewrite Hm in Hz. cbn [n_size] in Hz.
  split_and!; try done; [|by rewrite ents_find_None, He, Hc]. split; try done.
  - by apply fresh_first.
  - rewrite Hc. apply Hp.
  - by rewrite Hz.
  - unfold cost. cbn [snd]. rewrite zlen_app, (zlen_DirEntry_encode _ (DirEntry_new_wf nm id)), Hz, (vs_room _ _ Hvs). done.
Qed.

Lemma make_ids : is_u32 id ∧ is_u32 d.
Proof.
  destruct (vf_vol _ _ _ _ Hv) as (F & HF & _). split; [|apply (node_valid st); [done|by eexists]].
  apply (valid_u32 fs); [apply HF|]. destruct Hfr as (Hr & _). exact Hr.
Qed.

Lemma make_rel o es (dir : bool) :
  obj_rel o n → is_dir o es → distinct es → ents es = m →
  let ci := if dir then new_dir e mode_ else new_file e mode_ in
  vs_rel (v_create d id o nm ci v) (s_make e d id nm dir mode_ n m s).
Proof.
  intros Hon Hdir Hdis He ci. destruct make_ids as [Hid Hd]. destruct (ep_name _ _ _ _ _ Hep) as (Hp & _ & Hl).
  pose proof (key_of_new nm id Hp Hl) as Hkey. unfold v_create, s_make. apply vs_put; [apply vs_put; [done|]|].
  - apply (dir_rel n _ (es ++ [DirEntry_new nm id])).
    + cbn [fst]. rewrite (or_attrs _ _ Hon). unfold n_attrs. by rewrite Hm.
    + apply dir_snoc; [done|apply DirEntry_new_wf|]. destruct Hfit as [Hsz _].
      by rewrite (obj_size o n Hon), Hm.
    + apply distinct_snoc; [done|]. by rewrite Hkey, He.
    + rewrite ents_snoc; [|apply distinct_snoc; [done|by rewrite Hkey, He]].
      rewrite Hkey, He. unfold DirEntry_new. cbn [inode]. by rewrite u32_small.
  - unfold ci, new_node. destruct dir; (split; [done|]); cbn [n_kind snd]; [|done].
    set (dots := [DirEntry_new dot id; DirEntry_new dotdot d]).
    assert (Hw : Forall DirEntry_wf dots) by (repeat constructor; apply DirEntry_new_wf).
    assert (K1 : key_of (DirEntry_new dot id) = dot) by done. assert (K2 : key_of (DirEntry_new dotdot d) = dotdot) by done.
    exists dots. split_and!.
    + split; [done|done|done|]. cbn [snd]. change (zlen (entries_bytes dots) < 2 ^ 31). by rewrite zlen_entries.
    + unfold distinct, dots. cbn [fmap list_fmap]. rewrite K1, K2. apply NoDup_cons. split; [|apply NoDup_singleton].
      by intros ?%list_elem_of_singleton.
    + unfold dots. rewrite !ents_cons, K1, K2. unfold DirEntry_new. cbn [inode]. by rewrite !u32_small.
Qed.

Lemma make_parent : v_path root v (q ++ [slash]) = Some d.
Proof. rewrite (path_rel root s v Hvs) by apply Hep. apply Hep. Qed.

Lemma create_goes junk : s_next s + 1 < 2 ^ 64 →
  goes (OpCreate junk (q ++ slash :: nm) mode_) (RFh 0 (Some (s_next s))) (s_open id (s_make e d id nm false mode_ n m s)).
Proof.
  intros Hnext. destruct make_setup as (o & es & Ho & Hon & Hdir & Hdis & He & Hcc & Hnone).
  destruct (ep_name _ _ _ _ _ Hep) as (Hp & Hns & Hl).
  destruct (sb_create_ok fs root e st v q nm d id o es mode_ Hv Hcc (ep_abs _ _ _ _ _ Hep) (proj1 (ep_fine _ _ _ _ _ Hep))
    make_parent Hns (pl_nul _ Hp) Hl Hnone junk) as (st' & Hrun & Hv' & Hf' & _).
  destruct (fd_open_rel fs _ s id Hfd Hnext) as [Hfh Hfd']. exists st'. split; [rewrite <- Hfh; ran Hrun|].
  pose proof (make_rel o es false Hon Hdir Hdis He) as [H1 H2]. split.
  - exists (v_create d id o nm (new_file e mode_) v). split; [done|]. by split.
  - rewrite Hf'. destruct Hfd' as [? ? ? ?]. by split.
Qed.

Lemma mkdir_goes : goes (OpMkdir (q ++ slash :: nm) mode_) (RInt 0) (s_make e d id nm true mode_ n m s).
Proof.
  destruct make_setup as (o & es & Ho & Hon & Hdir & Hdis & He & Hcc & Hnone).
  destruct (ep_name _ _ _ _ _ Hep) as (Hp & Hns & Hl).
  destruct (sb_mkdir_ok fs root e st v q nm d id o es mode_ Hv Hcc (ep_abs _ _ _ _ _ Hep) (proj1 (ep_fine _ _ _ _ _ Hep))
    make_parent Hns (pl_nul _ Hp) Hl Hnone) as (st' & Hrun & Hv' & Hf' & _).
  exists st'. split; [ran Hrun|].
  apply (near_same fs root st s Hfd st' (v_create d id o nm (new_dir e mode_) v)); try done.
  by apply (make_rel o es true).
Qed.
End make.

(** The parent does not exist. *)
Lemma no_parent_goes q nm : no_slash nm → path_fine (q ++ [slash]) → s_path root s (q ++ [slash]) = None →
  let p := q ++ slash :: nm in
  (∀ junk md, goes (OpCreate junk p md) (RFh (- ENOENT) None) s) ∧ (∀ md, goes (OpMkdir p md) (RInt (- ENOENT)) s) ∧
  goes (OpUnlink p) (RInt (- ENOENT)) s ∧ goes (OpRmdir p) (RInt (- ENOENT)) s ∧
  (∀ p2 fl, goes (OpRename p p2 fl) (RInt (- ENOENT)) s).
Proof.
  intros Hns Hp Hnone p. destruct (resolve_rel _ Hp) as (st1 & Hr & Hv1 & Hf1 & _). rewrite Hnone in Hr.
  assert (Hk : near fs root st1 s) by by apply (near_keep fs root st s v).
  pose proof (splitFromLastSlash_child q nm Hns) as Hsp. fold p in Hsp.
  split_and!; intros; exists st1; (split; [|done]); cbn [vfs_step];
    [apply (map_res_run (λ r, RFh r.1 r.2) _ _ (- ENOENT, None))|apply map_res_run..];
    unfold sb_create, sb_mkdir, sb_unlink, sb_rmdir, sb_rename; rewrite Hsp; by rewrite (bind_Some _ _ _ _ _ Hr).
Qed.

(** ** Listing *)

Section listing.
Context (d : Z) (n : snode) (m : gmap bytes Z) (o : obj) (es : list DirEntry).
Context (Hn : s_nodes s !! d = Some n) (Hm : n_kind n = Dir m) (Ho : (v_objs v !! d : option obj) = Some o).
Context (Hdir : is_dir o es) (Hdis : distinct es) (He : ents es = m) (Hnames : ∀ k, is_Some (m !! k) → k ≠ []).

Lemma entry_named x : x ∈ es → key_of x ≠ [].
Proof.
  intros Hx. apply Hnames. rewrite <- He. apply ents_is_Some, list_elem_of_fmap. by exists x.
Qed.

Lemma dir_zlen : zlen o.2 = sizeof_DirEntry * zlen es.
Proof. rewrite (id_bytes _ _ Hdir). apply zlen_entries, (id_entries _ _ Hdir). Qed.

Lemma read_dir_block_in st1 (i : nat) :
  vfs_ok fs root st1 v → (16 * i < length es)%nat →
  ∃ blk st2, read_dir_block e (P d) (Z.of_nat i) st1 = (Some blk, st2) ∧
    valid_entries blk = take 16 (drop (16 * i) es) ∧ vfs_ok fs root st2 v ∧ st2.1 = st1.1.
Proof.
  intros Hv1 Hi. pose proof dir_zlen as Hz. pose proof (id_small _ _ Hdir) as Hs. pose proof (id_entries _ _ Hdir) as Hw.
  assert (Hlt : 4096 * Z.of_nat i < zlen o.2) by (unfold sizeof_DirEntry, zlen in *; lia).
  set (off := kBlockSize * Z.of_nat i). destruct o as [a b] eqn:Hob. cbn [snd] in *.
  destruct (vol_read fs e st1.2.2 v d a b off kBlockSize (vf_vol _ _ _ _ Hv1) Ho Hs) as (m' & Hrun & Hvol');
    [unfold off, kBlockSize; lia|done|unfold off, kBlockSize; lia|].
  pose proof (id_bytes _ _ Hdir) as Hb. cbn [snd] in Hb. rewrite Hb in Hrun.
  pose proof (block_entries es i Hw) as Hbe. cbv zeta in Hbe. fold off in Hbe.
  rewrite Hbe in Hrun by by rewrite <- Hb.
  set (ch := take 16 (drop (16 * i) es)) in *. exists (splice 0 (entries_bytes ch) DirBlock_new), (st1.1, (st1.2.1, m')).
  split; [|split; [|split; [|done]]].
  - unfold read_dir_block. replace (Z.of_nat i * kBlockSize) with off by (unfold off; lia).
    rewrite u32_small by (unfold is_u32, off, kBlockSize; lia).
    by rewrite attempt_run, (on_dev_run _ _ _ _ Hrun).
  - apply valid_entries_block.
    + by apply Forall_take, Forall_drop.
    + intros x Hx. apply entry_named. apply elem_of_take in Hx as (j & Hj & _).
      rewrite lookup_drop in Hj. by apply list_elem_of_lookup_2 in Hj.
    + unfold ch. rewrite length_take. lia.
  - apply (vfs_ok_dev fs root st1 v); try done; try apply Hv1. apply v_extends_refl.
Qed.

(** The blocks [total_blocks] counts beyond the end of the directory hold no
    entry. *)
Lemma read_dir_block_run st1 (i : nat) :
  vfs_ok fs root st1 v → Z.of_nat i < 2 ^ 20 - 1 →
  ∃ blk st2, read_dir_block e (P d) (Z.of_nat i) st1 = (Some blk, st2) ∧
    valid_entries blk = take 16 (drop (16 * i) es) ∧ vfs_ok fs root st2 v ∧ st2.1 = st1.1.
Proof.
  intros Hv1 Hi. destruct (decide (16 * i < length es)%nat) as [|Hge]; [by apply read_dir_block_in|].
  pose proof dir_zlen as Hz. set (off := kBlockSize * Z.of_nat i). destruct o as [a b] eqn:Hob. cbn [snd] in *.
  destruct (vol_read_end fs e st1.2.2 v d a b off kBlockSize (vf_vol _ _ _ _ Hv1) Ho) as (r & m' & Hrun & Hvol' & Hr);
    [unfold off, kBlockSize, sizeof_DirEntry, zlen in *; lia|done|unfold off, kBlockSize; lia|].
  exists DirBlock_new, (st1.1, (st1.2.1, m')). split; [|split; [|split; [|done]]].
  - unfold read_dir_block. replace (Z.of_nat i * kBlockSize) with off by (unfold off; lia).
    rewrite u32_small by (unfold is_u32, off, kBlockSize; lia).
    rewrite attempt_run. unfold on_dev, on_snd. cbn [fst snd]. rewrite Hrun. by destruct Hr as [->|[-> _]].
  - rewrite drop_ge by lia. apply (valid_entries_block []); [done|by intros x ?%not_elem_of_nil|simpl; lia].
  - apply (vfs_ok_dev fs root st1 v); try done; try apply Hv1. apply v_extends_refl.
Qed.

Lemma list_loop k : ∀ (i : nat) st1,
  vfs_ok fs root st1 v → Z.of_nat (i + k) < 2 ^ 20 →
  ∃ st2, for_acc k (Z.of_nat i) (key_of <$> take (16 * i) es) (λ i names,
      blk <- read_dir_block e (P d) i;; ret (names ++ (key_of <$> valid_entries blk))) st1 =
    (Some (key_of <$> take (16 * (i + k)) es), st2) ∧ vfs_ok fs root st2 v ∧ st2.1 = st1.1.
Proof.
  induction k as [|k IH]; intros i st1 Hv1 Hk.
  { exists st1. rewrite Nat.add_0_r. done. }
  destruct (read_dir_block_run st1 i Hv1) as (blk & st2 & Hrun & Hval & Hv2 & Hf2); [lia|].
  destruct (IH (S i) st2 Hv2) as (st3 & Hrun3 & Hv3 & Hf3); [lia|].
  exists st3. split; [|split; [done|congruence]]. cbn [for_acc].
  rewrite (bind_Some _ _ st1 (key_of <$> take (16 * S i) es) st2).
  - replace (Z.of_nat i + 1) with (Z.of_nat (S i)) by lia. rewrite Hrun3. do 4 f_equal. lia.
  - rewrite (bind_Some _ _ _ _ _ Hrun). rewrite Hval, <- fmap_app. unfold ret. do 3 f_equal.
    replace (16 * S i)%nat with (16 * i + 16)%nat by lia. by rewrite take_take_drop.
Qed.

Lemma ents_names : key_of <$> es ≡ₚ (map_to_list m).*1.
Proof.
  rewrite <- He. unfold ents. rewrite map_to_list_to_map by (by rewrite ents_keys). by rewrite ents_keys.
Qed.

Lemma readdir_goes path : path_fine path → s_path root s path = Some d →
  goes (OpReaddir path) (RNames 0 (key_of <$> es)) s.
Proof.
  intros Hp Hd. destruct (resolve_rel path Hp) as (st1 & Hr & Hv1 & Hf1 & _). rewrite Hd in Hr.
  destruct (inode_read st1 d n Hv1 Hn) as (di & Hread & Ha & Hsz). rewrite Hm in Hsz.
  destruct (vs_obj v s Hvs d n Hn) as (o' & Ho' & Hon). pose proof dir_zlen as Hz.
  assert (Hn_sz : n_size (Dir m) = zlen o.2).
  { cbn [n_size]. rewrite Hz, <- He, ents_size by done. done. }
  pose proof (id_small _ _ Hdir) as Hlim. pose proof (zlen_nonneg o.2) as Hz0.
  destruct (data_blocks_eq (zlen o.2)) as (_ & Hr0 & Hb); [lia|].
  destruct (total_blocks_cover (zlen o.2)) as [Hcov Hmax]; [lia|].
  set (k := Z.to_nat (total_blocks (zlen o.2))). unfold kBlockSize, sizeof_DirEntry, zlen in Hb, Hz.
  destruct (list_loop k 0 st1 Hv1) as (st2 & Hrun & Hv2 & Hf2); [lia|].
  exists st2. split; [|by apply (near_keep fs root st s v); [..|congruence]].
  assert (Hls : sb_readdir e fs path st = (Some (0, key_of <$> es), st2)); [|ran Hls].
  unfold sb_readdir. rewrite (bind_Some _ _ _ _ _ Hr).
  change (default _ (P <$> _)) with (P d). destruct (node_valid st1 d Hv1) as [-> _]; [by eexists|]. cbn [negb].
  rewrite attempt_run, Hread. cbn [fst snd]. change (default _ (Some di)) with di.
  assert (Hty : type_ di = kDirectory) by (unfold attrs, n_attrs in Ha; rewrite Hm in Ha; by injection Ha).
  rewrite Hty, Z.eqb_refl. cbn [negb]. rewrite Hsz, Hn_sz. fold k.
  rewrite (bind_Some _ _ _ _ _ Hrun). unfold ret. do 3 f_equal. f_equal. apply take_ge. unfold zlen in *. lia.
Qed.
End listing.

Lemma readdir_none_goes path : path_fine path → s_path root s path = None →
  goes (OpReaddir path) (RNames (- ENOENT) []) s.
Proof.
  intros Hp Hd. destruct (resolve_rel path Hp) as (st1 & Hr & Hv1 & Hf1 & _). rewrite Hd in Hr.
  exists st1. split; [|by apply (near_keep fs root st s v)].
  assert (Hls : sb_readdir e fs path st = (Some (- ENOENT, []), st1)); [|ran Hls].
  unfold sb_readdir. by rewrite (bind_Some _ _ _ _ _ Hr).
Qed.

Lemma readdir_file_goes path i n b : path_fine path → s_path root s path = Some i →
  s_nodes s !! i = Some n → n_kind n = File b → goes (OpReaddir path) (RNames (- ENOTDIR) []) s.
Proof.
  intros Hp Hd Hn Hb. destruct (resolve_rel path Hp) as (st1 & Hr & Hv1 & Hf1 & _). rewrite Hd in Hr.
  destruct (inode_read st1 i n Hv1 Hn) as (di & Hread & Ha & _).
  exists st1. split; [|by apply (near_keep fs root st s v)].
  assert (Hls : sb_readdir e fs path st = (Some (- ENOTDIR, []), st1)); [|ran Hls].
  unfold sb_readdir. rewrite (bind_Some _ _ _ _ _ Hr). change (default _ (P <$> _)) with (P i).
  destruct (node_valid st1 i Hv1) as [-> _]; [by eexists|]. cbn [negb].
  rewrite attempt_run, Hread. cbn [fst snd]. change (default _ (Some di)) with di.
  assert (Hty : type_ di = kFile) by (unfold attrs, n_attrs in Ha; rewrite Hb in Ha; by injection Ha).
  by rewrite Hty.
Qed.
End dirs.
