(* ===== verification/SpecRemove.v ===== *)
(** * The handlers do what the specification says: removing and renaming

    [unlink], [rmdir] and [rename] take entries away, so paths that were
    cached may lead elsewhere; they then forget the paths that begin with
    the one they were given.  As a path determines what it leads to and is
    determined by it, those are all the cached paths that have changed. *)

From S2P Require Import Prelude Bytes Config BlkIface Bitmap DataArea Layout InodeIO DiskInode Sbfs Inode FdManager PathResolver Vfs VfsRefine Frame SbfsProof PathProof FileMap FileData FileResize FileIO Dir Touched DirOps DirCreate DirRemove Volume VolumeOps VolumeDir VolumeNames VolumeVfs Spec SpecTree SpecRel SpecOps SpecDirs.

(** ** Forgetting *)

Lemma removed_app p t : removed p (p ++ t) = true.
Proof. apply removed_true. by exists t. Qed.

Lemma join_app ps p qs : ∃ t, join (ps ++ p :: qs) = join (ps ++ [p]) ++ t.
Proof.
  induction ps as [|x ps (t & IH)]; cbn [app].
  - destruct qs as [|q qs]; [exists []; by rewrite app_nil_r|]. exists (slash :: join (q :: qs)). done.
  - exists t. rewrite !join_cons by (by destruct ps). rewrite IH. by rewrite <- app_assoc.
Qed.

Section walks.
Context (root : Z).

(** Names looked up on the way. *)
Lemma walk_keeps s s' (bad : list (Z * bytes)) ps : ∀ i j,
  (∀ d k j, real k → s_find s d k = Some j → (d, k) ∉ bad → s_find s' d k = Some j) → Forall plain ps →
  (∀ ps1 p ps2 x, ps = ps1 ++ p :: ps2 → s_walk s ps1 i = Some x → (x, p) ∉ bad) →
  s_walk s ps i = Some j → s_walk s' ps i = Some j.
Proof.
  induction ps as [|p ps IH]; intros i j Hk Hp Hbad; [done|]. inversion_clear Hp as [|? ? Hp1 Hp2].
  simpl. intros (x & Hx & Hw)%option.bind_Some. rewrite (Hk i p x (plain_real p Hp1) Hx); [|by apply (Hbad [] p ps)].
  simpl. apply IH; try done. intros ps1 p' ps2 y -> Hy. apply (Hbad (p :: ps1) p' ps2); [done|]. simpl. by rewrite Hx.
Qed.

(** The parts of a path to an entry, and the key it is forgotten under. *)
Lemma entry_parts s q nm d : entry_path root s q nm d →
  ∃ ps, Forall plain ps ∧ s_walk s ps root = Some d ∧
    removeEndSlash (q ++ slash :: nm) ≠ [] ∧ tail (removeEndSlash (q ++ slash :: nm)) = join (ps ++ [nm]).
Proof.
  intros [Habs [[_ Hfine] _] Hd (Hp & Hns & _)]. rewrite removeEndSlash_child by (done || apply Hp).
  assert (Hne : q ++ slash :: nm ≠ []) by (by destruct q). unfold s_path in Hd. rewrite removeEndSlash_slash in *.
  destruct Habs as [->|Hhd].
  - exists []. cbn [app] in *. rewrite !bool_decide_eq_true_2 in Hd by done. by split_and!.
  - destruct q as [|x q]; [done|]. injection Hhd as ->. rewrite (bool_decide_eq_true_2 (head _ = _)) in Hd by done.
    cbn [negb] in Hd.
    assert (Hne' : (slash :: q) ++ [slash] ≠ [slash]) by (intros He; apply (f_equal length) in He; rewrite length_app in He; simpl in He; lia).
    rewrite bool_decide_eq_false_2 in Hd by done. cbn [tail app] in *. destruct Hfine as [He|Hg]; [done|].
    exists (split q false). split_and!; [done|done|done|]. rewrite <- split_child by done.
    symmetry. apply (join_split_go _ [] []).
Qed.

(** A cached path on whose way the entry is, is forgotten. *)
Lemma entry_forgotten s q nm d k ps1 ps2 :
  tree_ok root s → entry_path root s q nm d → good_parts k →
  split k false = ps1 ++ nm :: ps2 → s_walk s ps1 root = Some d →
  removed (tail (removeEndSlash (q ++ slash :: nm))) k = true.
Proof.
  intros Ht He Hg Hsp Hw. destruct (entry_parts s q nm d He) as (ps & Hps & Hd & _ & ->).
  unfold good_parts in Hg. rewrite Hsp in Hg. apply Forall_app in Hg as [Hg1 _].
  rewrite (walk_inj root s ps ps1 d Ht Hps Hg1 Hd Hw).
  pose proof (join_split_go k [] []) as Hk. cbn [app] in Hk. unfold split in Hsp. rewrite <- Hk, Hsp.
  destruct (join_app ps1 nm ps2) as (t & ->). apply removed_app.
Qed.
End walks.

(** ** States *)

Section remove.
Context (fs : SBFileSystem) (root : Z) (e : env) (st : VFS (D := store)) (s : fsys) (v : vstate).
Context (Hv : vfs_ok fs root st v) (Hvs : vs_rel v s) (Hfd : fd_rel fs st.1 s) (Ht : tree_ok root s).
Abbreviation P := (getDiskInodePos fs).
Abbreviation goes := (goes fs root e st).

(** After entries were taken away and what led to them forgotten. *)
Lemma forget_ok f m r m' v' s' r' (bad : list (Z * bytes)) :
  vfs_ok fs root (f, (r, m)) v → vol fs m' v' → vs_rel v' s' → tree_ok root s' → resolver_ok r' →
  (∀ d k j, real k → s_find s d k = Some j → (d, k) ∉ bad → s_find s' d k = Some j) →
  (∀ k c, cache_find k (path_cache_ r') = Some c → cache_find k (path_cache_ r) = Some c ∧
     ∀ ps1 p ps2 x, good_parts k → split k false = ps1 ++ p :: ps2 → s_walk s ps1 root = Some x → (x, p) ∉ bad) →
  vfs_ok fs root (f, (r', m')) v'.
Proof.
  intros [Hvol Hn [Hroot Hin] (Hr & Hc & Hg)] Hvol' Hvs' Ht' Hr' Hkeep Hcache. cbn [fst snd] in *.
  pose proof (vs_names v' s' Hvs' root Ht') as Hn'.
  assert (Hin' : is_Some (v_objs v' !! root)).
  { apply (vs_some v' s' Hvs'). destruct (tr_root _ _ Ht') as (n & ? & Hn0 & _). by exists n. }
  split; [done|done|done|]. cbn [fst snd]. split; [done|]. split.
  - intros k c Hk. destruct (Hcache k c Hk) as [Hk0 Hway]. specialize (Hc k c Hk0). pose proof (Hg k c Hk0) as Hgk.
    pose proof (plain_named _ Hgk) as Hnm. rewrite Hroot in *. rewrite (vol_walk fs m v Hvol Hn) in Hc by done.
    rewrite (vol_walk fs m' v' Hvol' Hn') by done. rewrite (vs_walk v s Hvs) in Hc by done. rewrite (vs_walk v' s' Hvs') by done.
    apply fmap_Some in Hc as (j & Hj & ->).
    rewrite (walk_keeps s s' bad (split k false) root j Hkeep Hgk); [done| |done].
    intros ps1 p ps2 x. by apply Hway.
  - intros k c Hk. destruct (Hcache k c Hk) as [Hk0 _]. by apply (Hg k c).
Qed.

Lemma removePrefix_run path f r (m : store) :
  resolver_ok r → removeEndSlash path ≠ [] →
  ∃ r', removePrefix path (f, (r, m)) = (Some tt, (f, (r', m))) ∧ resolver_ok r' ∧
    ∀ k c, cache_find k (path_cache_ r') = Some c ↔
      cache_find k (path_cache_ r) = Some c ∧ removed (tail (removeEndSlash path)) k = false.
Proof.
  intros Hr Hne. destruct (removePrefix_spec r m path Hr Hne) as (r' & Hrun & Hr' & Hc).
  exists r'. split; [by apply on_snd_run|done].
Qed.

(** ** Entries *)

Lemma find_rel st1 d n nm : vfs_ok fs root st1 v → s_nodes s !! d = Some n → plain nm →
  on_dev (Inode_find e fs (P d) nm) st1 = (P <$> s_find s d nm, st1).
Proof.
  intros Hv1 Hn Hp. pose proof (vol_find_any fs st1.2.2 v (vf_vol _ _ _ _ Hv1) (vf_names _ _ _ _ Hv1) e d nm) as Hf.
  rewrite (vs_find v s Hvs), (plain_cstr nm Hp) in Hf. unfold on_dev, on_snd. rewrite Hf.
  - by destruct st1 as [f1 [r1 m1]].
  - apply (vs_some v s Hvs). by eexists.
  - apply Hp.
Qed.

(** The entry, the directory it is in and what it names. *)
Lemma entry_setup d n m nm i :
  s_nodes s !! d = Some n → n_kind n = Dir m → plain nm → m !! nm = Some i →
  ∃ (a : Z * Z * Z * Z * Z) b es k x, (v_objs v !! d : option obj) = Some (a, b) ∧ a = n_attrs n ∧ is_dir (a, b) es ∧ distinct es ∧
    ents es = m ∧ find_entry nm es = Some (k, x) ∧ inode x = i ∧ zlen b = n_size (Dir m).
Proof.
  intros Hn Hm Hp Hi. destruct (vs_dir v s Hvs d n m Hn Hm) as ([a b] & es & Ho & Hon & Hdir & Hdis & He).
  rewrite <- He, <- (plain_cstr nm Hp) in Hi. destruct (ents_find_Some nm es i Hi) as (k & x & Hf & Hx).
  exists a, b, es, k, x. split_and!; try done; [by apply (or_attrs _ _ Hon)|].
  rewrite <- Hm. by apply (obj_size _ _ Hon).
Qed.

(** [remove] in the directory [d]. *)
Lemma remove_run m0 d n m nm i c :
  vol fs m0 v → s_nodes s !! d = Some n → n_kind n = Dir m → plain nm → m !! nm = Some i →
  s_nodes s !! i = Some c → n_links c = 1 → i ≠ d → data_blocks (n_size (Dir m)) ≤ 1047 →
  ∃ m' v', Inode_remove e fs (P d) nm m0 = (Some tt, m') ∧ vol fs m' v' ∧
    vs_rel v' (s_del i (s_put d (set_kind (Dir (delete nm m)) n) s)).
Proof.
  intros Hvol Hn Hm Hp Hi Hc Hl Hne Hsmall.
  destruct (entry_setup d n m nm i Hn Hm Hp Hi) as (a & b & es & k & x & Ho & Ha & Hdir & Hdis & He & Hf & Hx & Hz).
  destruct (vs_obj v s Hvs i c Hc) as ([ta tb] & Hto & Hton). subst i.
  assert (Hcn : cstr nm ≠ []) by (rewrite (plain_cstr nm Hp); apply Hp).
  destruct (vol_remove fs e m0 v d a b es nm Hvol Ho Hdir Hcn k x ta tb Hf Hto Hne) as (m' & Hrun & Hvol' & Hdir').
  { by rewrite Hz. }
  { pose proof (or_attrs _ _ Hton) as Hta. cbn [fst] in Hta. by rewrite Hta. }
  eexists m', _. split; [done|]. split; [done|]. apply vs_del, vs_put; [done|].
  destruct (ents_remove nm es k x Hdis Hf) as [Hdis' He'].
  apply (dir_rel n _ (remove_at k es)); [|done|done|by rewrite He', He, (plain_cstr nm Hp)].
  cbn [fst]. rewrite Ha. unfold n_attrs. by rewrite Hm.
Qed.

(** The state after an entry's removal. *)
Lemma removed_near q nm d n m i c f r m0 m' v' :
  entry_path root s q nm d → s_nodes s !! d = Some n → n_kind n = Dir m → m !! nm = Some i → s_nodes s !! i = Some c →
  (∀ k, is_Some (ents_of (n_kind c) !! k) → ¬ real k) → (∀ d', s_find s d' dotdot ≠ Some i) → f = st.1 → vfs_ok fs root (f, (r, m0)) v →
  vol fs m' v' → vs_rel v' (s_del i (s_put d (set_kind (Dir (delete nm m)) n) s)) →
  ∃ r', removePrefix (q ++ slash :: nm) (f, (r, m')) = (Some tt, (f, (r', m'))) ∧
    near fs root (f, (r', m')) (s_del i (s_put d (set_kind (Dir (delete nm m)) n) s)).
Proof.
  intros Hep Hn Hm Hi Hc Hempty Hback -> Hv1 Hvol' Hvs'. destruct (entry_real root s q nm d Hep) as [Hreal _].
  destruct (entry_parts root s q nm d Hep) as (ps & _ & _ & Hne & _).
  destruct (vf_cache _ _ _ _ Hv1) as (Hr & _). cbn [fst snd] in Hr.
  destruct (removePrefix_run (q ++ slash :: nm) st.1 r m' Hr Hne) as (r' & Hrun & Hr' & Hcache).
  exists r'. split; [done|]. split; [exists v'; split; [|done]|by destruct Hfd; split].
  apply (forget_ok st.1 m0 r m' v' _ r' [(d, nm)] Hv1 Hvol' Hvs'); try done.
  - by apply (tree_remove root s d i nm n c m).
  - intros d' k j Hk Hf Hnot. apply (remove_keeps s d i nm n c m); try done. intros Heq. apply Hnot. rewrite Heq. by left.
  - intros k c' [Hk Hrem]%Hcache. split; [done|]. intros ps1 p ps2 x Hg Hsp Hw [= -> ->]%list_elem_of_singleton.
    rewrite (entry_forgotten root s q nm d k ps1 ps2 Ht Hep Hg Hsp Hw) in Hrem. done.
Qed.

(** ** [unlink] and [rmdir] *)

Section handlers.
Context (q nm : bytes) (d : Z) (Hep : entry_path root s q nm d).

(** The parent is looked up. *)
Lemma parent_run : splitFromLastSlash (q ++ slash :: nm) = (q ++ [slash], nm) ∧
  ∃ st1, resolve e fs (q ++ [slash]) st = (Some (P d), st1) ∧ vfs_ok fs root st1 v ∧ st1.1 = st.1 ∧
    Position_isValid (P d) = true.
Proof.
  destruct Hep as [_ [Hf _] Hd (_ & Hns & _)]. split; [by apply splitFromLastSlash_child|].
  destruct (resolve_rel fs root e st s v Hv Hvs _ Hf) as (st1 & Hr & Hv1 & Hf1 & _). rewrite Hd in Hr.
  exists st1. split_and!; [done|done|done|].
  pose proof (path_some root s _ d Ht Hd) as Hsome. by apply (node_valid fs root s v Hvs st1 d Hv1 Hsome).
Qed.

(** The child, too. *)
Lemma child_run st1 : vfs_ok fs root st1 v → on_dev (Inode_find e fs (P d) nm) st1 = (P <$> s_find s d nm, st1).
Proof.
  intros Hv1. pose proof (path_some root s _ d Ht (ep_dir _ _ _ _ _ Hep)) as [n Hn].
  apply (find_rel st1 d n nm Hv1 Hn). apply Hep.
Qed.

Lemma unlink_missing_goes : s_find s d nm = None → goes (OpUnlink (q ++ slash :: nm)) (RInt (- ENOENT)) s.
Proof.
  intros Hf. destruct parent_run as (Hsp & st1 & Hr & Hv1 & Hf1 & Hval).
  exists st1. split; [|by apply (near_keep fs root st s v)].
  assert (Hs : sb_unlink e fs (q ++ slash :: nm) st = (Some (- ENOENT), st1)); [|ran Hs].
  unfold sb_unlink. rewrite Hsp, (bind_Some _ _ _ _ _ Hr), Hval. cbn [negb].
  by rewrite attempt_run, (child_run st1 Hv1), Hf.
Qed.

Lemma rmdir_missing_goes : s_find s d nm = None → goes (OpRmdir (q ++ slash :: nm)) (RInt (- ENOENT)) s.
Proof.
  intros Hf. destruct parent_run as (Hsp & st1 & Hr & Hv1 & Hf1 & Hval).
  exists st1. split; [|by apply (near_keep fs root st s v)].
  assert (Hs : sb_rmdir e fs (q ++ slash :: nm) st = (Some (- ENOENT), st1)); [|ran Hs].
  unfold sb_rmdir. rewrite Hsp, (bind_Some _ _ _ _ _ Hr), Hval. cbn [negb].
  by rewrite attempt_run, (child_run st1 Hv1), Hf.
Qed.

Section there.
Context (i : Z) (c : snode) (Hfind : s_find s d nm = Some i) (Hc : s_nodes s !! i = Some c).

Lemma rmdir_file_goes b : n_kind c = File b → goes (OpRmdir (q ++ slash :: nm)) (RInt (- ENOTDIR)) s.
Proof.
  intros Hb. destruct parent_run as (Hsp & st1 & Hr & Hv1 & Hf1 & Hval).
  exists st1. split; [|by apply (near_keep fs root st s v)].
  assert (Hs : sb_rmdir e fs (q ++ slash :: nm) st = (Some (- ENOTDIR), st1)); [|ran Hs].
  unfold sb_rmdir. rewrite Hsp, (bind_Some _ _ _ _ _ Hr), Hval. cbn [negb].
  rewrite attempt_run, (child_run st1 Hv1), Hfind. cbn [fst snd fmap option_fmap option_map].
  destruct (inode_read fs root s v Hvs st1 i c Hv1 Hc) as (di & Hread & Ha & _).
  rewrite attempt_run, Hread. cbn [fst snd]. change (default _ (Some di)) with di.
  assert (Hty : type_ di = kFile) by (unfold attrs, n_attrs in Ha; rewrite Hb in Ha; by injection Ha).
  by rewrite Hty.
Qed.

(** Looking at the entries of the child. *)
Definition rmdir_rest (sz : Z) : M (VFS (D := store)) Z :=
  if 1 <? total_blocks sz then ret (- ENOTEMPTY)
  else
    blk <- read_dir_block e (P i) 0;;
    if existsb (λ x, negb (strcmp_eq (name x) dot) && negb (strcmp_eq (name x) dotdot)) (valid_entries blk)
    then ret (- ENOTEMPTY)
    else attempt (on_dev (Inode_remove e fs (P d) nm));;; removePrefix (q ++ slash :: nm);;; ret 0.

Context (mc : gmap bytes Z) (Hmc : n_kind c = Dir mc).

Lemma rmdir_scan : ∃ st1 o es,
  vfs_ok fs root st1 v ∧ st1.1 = st.1 ∧ (v_objs v !! i : option obj) = Some o ∧ is_dir o es ∧ distinct es ∧ ents es = mc ∧
  sb_rmdir e fs (q ++ slash :: nm) st = rmdir_rest (zlen o.2) st1.
Proof.
  destruct parent_run as (Hsp & st1 & Hr & Hv1 & Hf1 & Hval).
  destruct (inode_read fs root s v Hvs st1 i c Hv1 Hc) as (di & Hread & Ha & Hsz).
  assert (Hty : type_ di = kDirectory) by (unfold attrs, n_attrs in Ha; rewrite Hmc in Ha; by injection Ha).
  destruct (vs_dir v s Hvs i c mc Hc Hmc) as (o & es & Ho & Hon & Hdir & Hdis & He).
  rewrite <- (obj_size _ _ Hon) in Hsz. exists st1, o, es. split_and!; try done.
  unfold sb_rmdir, rmdir_rest. rewrite Hsp, (bind_Some _ _ _ _ _ Hr), Hval. cbn [negb].
  rewrite attempt_run, (child_run st1 Hv1), Hfind. cbn [fst snd fmap option_fmap option_map].
  rewrite attempt_run, Hread. cbn [fst snd]. change (default _ (Some di)) with di.
  rewrite Hty, Z.eqb_refl. cbn [negb]. by rewrite Hsz.
Qed.

(** A directory has entries, of which the first block is read. *)
Lemma scan_block st1 o es : vfs_ok fs root st1 v → (v_objs v !! i : option obj) = Some o → is_dir o es → distinct es → ents es = mc →
  (0 < length es)%nat ∧ ∃ blk st2, read_dir_block e (P i) 0 st1 = (Some blk, st2) ∧ valid_entries blk = take 16 es ∧
    vfs_ok fs root st2 v ∧ st2.1 = st1.1.
Proof.
  intros Hv1 Ho Hdir Hdis He.
  assert (Hnames : ∀ k, is_Some (mc !! k) → k ≠ []).
  { intros k [j Hj]. apply (tr_names _ _ Ht i k j). by rewrite (s_find_node _ _ _ _ Hc), Hmc. }
  assert (Hlen : (0 < length es)%nat).
  { destruct (tr_dots _ _ Ht i) as [Hd _]; [by exists c, mc|]. rewrite (s_find_node _ _ _ _ Hc), Hmc in Hd. simpl in Hd.
    destruct es as [|x es]; [|simpl; lia]. by rewrite <- He in Hd. }
  split; [done|]. destruct (read_dir_block_run fs root e v i mc o es Ho Hdir He Hnames st1 0 Hv1) as (blk & st2 & Hrun & Hval & Hv2 & Hf2); [done|].
  by exists blk, st2.
Qed.

Lemma real_test x : negb (strcmp_eq (name x) dot) && negb (strcmp_eq (name x) dotdot) = true ↔ real (key_of x).
Proof. rewrite andb_true_iff, !negb_true_iff, !strcmp_eq_false. done. Qed.

Lemma rmdir_full_goes k : is_Some (mc !! k) → real k → goes (OpRmdir (q ++ slash :: nm)) (RInt (- ENOTEMPTY)) s.
Proof.
  intros Hk Hreal. destruct rmdir_scan as (st1 & o & es & Hv1 & Hf1 & Ho & Hdir & Hdis & He & Hrun).
  pose proof (id_small _ _ Hdir) as Hlim. pose proof (zlen_nonneg o.2) as Hz0. pose proof (dir_zlen o es Hdir) as Hz.
  destruct (data_blocks_eq (zlen o.2)) as (_ & Hr0 & Hb); [lia|]. destruct (total_blocks_cover (zlen o.2)) as [Hcov _]; [lia|].
  unfold rmdir_rest in Hrun. destruct (Z.ltb_spec 1 (total_blocks (zlen o.2))) as [Hbig|Hsmall].
  { exists st1. split; [ran Hrun|by apply (near_keep fs root st s v)]. }
  destruct (scan_block st1 o es Hv1 Ho Hdir Hdis He) as (_ & blk & st2 & Hread & Hval & Hv2 & Hf2).
  rewrite (bind_Some _ _ _ _ _ Hread) in Hrun. exists st2. split; [|apply (near_keep fs root st s v); [done..|congruence]].
  assert (Hex : existsb (λ x, negb (strcmp_eq (name x) dot) && negb (strcmp_eq (name x) dotdot)) (valid_entries blk) = true).
  { apply existsb_exists. rewrite <- He in Hk. apply ents_is_Some in Hk as (x & -> & Hx)%list_elem_of_fmap. exists x.
    split; [|by apply real_test]. apply list_elem_of_In. rewrite Hval, take_ge; [done|].
    unfold kBlockSize, sizeof_DirEntry, zlen in *. lia. }
  rewrite Hex in Hrun. ran Hrun.
Qed.
End there.

(** Something is there, and it goes. *)
Section gone.
Context (n c : snode) (m : gmap bytes Z) (i : Z).
Context (Hn : s_nodes s !! d = Some n) (Hm : n_kind n = Dir m) (Hi : m !! nm = Some i) (Hc : s_nodes s !! i = Some c).
Context (Hempty : ∀ k, is_Some (ents_of (n_kind c) !! k) → ¬ real k) (Hback : ∀ d', s_find s d' dotdot ≠ Some i).
Context (Hsmall : data_blocks (n_size (Dir m)) ≤ 1047).
Abbreviation s' := (s_del i (s_put d (set_kind (Dir (delete nm m)) n) s)).

Lemma gone_find : s_find s d nm = Some i.
Proof. by rewrite (s_find_node _ _ _ _ Hn), Hm. Qed.

(** [remove] and [removePrefix]. *)
Lemma gone_run st1 : vfs_ok fs root st1 v → st1.1 = st.1 →
  ∃ st2, (attempt (on_dev (Inode_remove e fs (P d) nm));;; removePrefix (q ++ slash :: nm);;; ret 0) st1 = (Some 0, st2) ∧
    near fs root st2 s'.
Proof.
  intros Hv1 Hf1. destruct (ep_name _ _ _ _ _ Hep) as (Hp & _). destruct (entry_real root s q nm d Hep) as [Hreal _].
  destruct (tr_named _ _ Ht d nm i Hreal gone_find) as (_ & c' & Hc' & Hl). assert (c' = c) as -> by congruence.
  pose proof (remove_ne s d i nm n c m Hn Hm Hi Hreal Hc Hempty) as Hne.
  destruct (remove_run st1.2.2 d n m nm i c (vf_vol _ _ _ _ Hv1) Hn Hm Hp Hi Hc Hl Hne Hsmall) as (m' & v' & Hrun & Hvol' & Hvs').
  destruct st1 as [f1 [r1 m1]]. cbn [fst snd] in *.
  destruct (removed_near q nm d n m i c f1 r1 m1 m' v' Hep Hn Hm Hi Hc Hempty Hback Hf1 Hv1 Hvol' Hvs') as (r' & Hrem & Hnear).
  exists (f1, (r', m')). split; [|done].
  assert (Hod : on_dev (Inode_remove e fs (P d) nm) (f1, (r1, m1)) = (Some tt, (f1, (r1, m')))).
  { by apply (on_dev_run (Inode_remove e fs (P d) nm) (f1, (r1, m1))). }
  rewrite attempt_run, Hod. cbn [fst snd]. by rewrite (bind_Some _ _ _ _ _ Hrem).
Qed.

Lemma unlink_goes : goes (OpUnlink (q ++ slash :: nm)) (RInt 0) s'.
Proof.
  destruct parent_run as (Hsp & st1 & Hr & Hv1 & Hf1 & Hval).
  destruct (gone_run st1 Hv1 Hf1) as (st2 & Hrun & Hnear). exists st2. split; [|done].
  assert (Hs : sb_unlink e fs (q ++ slash :: nm) st = (Some 0, st2)); [|ran Hs].
  unfold sb_unlink. rewrite Hsp, (bind_Some _ _ _ _ _ Hr), Hval. cbn [negb].
  rewrite attempt_run, (child_run st1 Hv1), gone_find. cbn [fst snd fmap option_fmap option_map]. exact Hrun.
Qed.

Lemma rmdir_goes mc : n_kind c = Dir mc → goes (OpRmdir (q ++ slash :: nm)) (RInt 0) s'.
Proof.
  intros Hmc. destruct (rmdir_scan i c gone_find Hc mc Hmc) as (st1 & o & es & Hv1 & Hf1 & Ho & Hdir & Hdis & He & Hrun).
  destruct (scan_block i c Hc mc Hmc st1 o es Hv1 Ho Hdir Hdis He) as (Hlen & blk & st2 & Hread & Hval & Hv2 & Hf2).
  assert (Hdots : ∀ x, x ∈ es → ¬ real (key_of x)).
  { intros x Hx. apply Hempty. rewrite Hmc, <- He. apply ents_is_Some, list_elem_of_fmap. by exists x. }
  assert (Hle : (length es ≤ 2)%nat).
  { rewrite <- (length_fmap key_of es). apply (submseteq_length (key_of <$> es) [dot; dotdot]). apply NoDup_submseteq; [done|].
    intros k (x & -> & Hx)%list_elem_of_fmap. destruct (decide (key_of x = dot)) as [->|H1]; [by left|].
    destruct (decide (key_of x = dotdot)) as [->|H2]; [by right; left|]. by destruct (Hdots x Hx). }
  destruct (gone_run st2 Hv2) as (st3 & Hgo & Hnear); [congruence|]. exists st3. split; [|done].
  pose proof (dir_zlen o es Hdir) as Hz. unfold rmdir_rest in Hrun.
  assert (Htot : total_blocks (zlen o.2) = 1).
  { rewrite Hz. unfold zlen. destruct es as [|x1 [|x2 [|? ?]]]; simpl in *; (lia || done). }
  rewrite Htot in Hrun. cbn in Hrun. rewrite (bind_Some _ _ _ _ _ Hread) in Hrun.
  assert (Hex : existsb (λ x, negb (strcmp_eq (name x) dot) && negb (strcmp_eq (name x) dotdot)) (valid_entries blk) = false).
  { apply not_true_is_false. intros (x & Hx & Hr)%existsb_exists. apply list_elem_of_In in Hx. rewrite Hval, take_ge in Hx by lia.
    apply real_test in Hr. by apply (Hdots x Hx). }
  rewrite Hex, Hgo in Hrun. ran Hrun.
Qed.
End gone.
End handlers.
End remove.
