(* ===== verification/SpecRename.v ===== *)
(** * The handlers do what the specification says: [rename]

    [rename] unlinks the old name and links the new one: in between the
    inode has no link. *)

From S2P Require Import Prelude Bytes Config BlkIface Bitmap DataArea Layout InodeIO DiskInode Sbfs Inode FdManager PathResolver Vfs VfsRefine Frame SbfsProof PathProof FileMap FileData FileResize FileIO Dir Touched DirOps DirCreate DirRemove Volume VolumeOps VolumeDir VolumeNames VolumeVfs Spec SpecTree SpecRel SpecOps SpecDirs SpecRemove.

(** A node changed for a while. *)
Lemma s_put_back i c c0 d x s :
  s_nodes s !! i = Some c → i ≠ d → n_kind c0 = n_kind c → s_put i c (s_put d x (s_put i c0 s)) = s_put d x s.
Proof.
  intros Hc Hne Hk. unfold s_put. cbn [s_nodes s_room s_fds s_next].
  rewrite (lookup_insert_ne _ i d) by done. rewrite (lookup_insert_ne _ d i) by done. rewrite lookup_insert_eq, Hc.
  simpl. rewrite Hk. f_equal; [|lia].
  rewrite (insert_insert_ne _ i d) by done. rewrite insert_insert_eq. by rewrite (insert_id _ i).
Qed.

Definition with_links (l : Z) (n : snode) : snode := mkNode (n_uid n) (n_gid n) l (n_mode n) (n_kind n).

(** A node's link count goes down and up again. *)
Lemma links_rel (ta : Z * Z * Z * Z * Z) tb c z l :
  obj_rel (ta, tb) c → u16 (n_links c + z) = l → obj_rel (a_bump z ta, tb) (with_links l c).
Proof.
  intros [Hta Htb] Hl. cbn [fst snd] in *. split; cbn [fst snd with_links n_kind].
  - rewrite Hta. unfold a_bump, a_links, n_attrs, with_links. cbn [fst snd n_uid n_gid n_links n_mode n_kind]. by rewrite Hl.
  - destruct (n_kind c) as [b'|m'']; [done|]. destruct Htb as (es' & [D1 D2 D3 D4] & ? & ?). exists es'. split; [|done]. by split.
Qed.

(** [unlink] and [link] as operations on the abstract state; in between the
    inode has no link. *)
Section links.
Context (fs : SBFileSystem) (e : env) (m0 : store) (s : fsys) (v : vstate) (Hvol : vol fs m0 v) (Hvs : vs_rel v s).
Context (d : Z) (n : snode) (m : gmap bytes Z) (nm : bytes) (i : Z) (c : snode).
Context (Hd : s_nodes s !! d = Some n) (Hm : n_kind n = Dir m) (Hp : plain nm) (Hc : s_nodes s !! i = Some c) (Hne : i ≠ d).

Lemma vs_unlink : m !! nm = Some i → n_links c = 1 → data_blocks (n_size (Dir m)) ≤ 1047 →
  ∃ m' v', Inode_unlink e fs (getDiskInodePos fs d) nm (None, m0) = (Some tt, (Some (getDiskInodePos fs i), m')) ∧ vol fs m' v' ∧
    vs_rel v' (s_put d (set_kind (Dir (delete nm m)) n) (s_put i (with_links 0 c) s)).
Proof.
  intros Hi Hl Hsmall.
  destruct (entry_setup s v Hvs d n m nm i Hd Hm Hp Hi) as (a & b & es & k & x & Ho & Ha & Hdir & Hdis & He & Hf & Hx & Hz).
  destruct (vs_obj v s Hvs i c Hc) as ([ta tb] & Hto & Hton). subst i.
  assert (Hcn : cstr nm ≠ []) by (rewrite (plain_cstr nm Hp); apply Hp).
  destruct (vol_unlink fs e m0 v d a b es nm Hvol Ho Hdir Hcn k x ta tb Hf Hto Hne) as (m' & Hrun & Hvol' & Hdir'); [by rewrite Hz|].
  eexists m', _. split; [done|]. split; [done|]. destruct (ents_remove nm es k x Hdis Hf) as [Hdis' He'].
  apply vs_put; [apply vs_put; [done|]|].
  - apply links_rel; [done|]. by rewrite Hl.
  - apply (dir_rel n _ (remove_at k es)); [|done|done|by rewrite He', He, (plain_cstr nm Hp)].
    cbn [fst]. rewrite Ha. unfold n_attrs. by rewrite Hm.
Qed.

Lemma vs_link replace : m !! nm = None → n_links c = 0 → zlen nm ≤ kMaxDirNameLength → is_u32 i →
  data_blocks (n_size (Dir m)) < 23 → entry_fits s m 0 →
  ∃ m' v', Inode_link e fs (getDiskInodePos fs d) nm (getDiskInodePos fs i) replace m0 = (Some tt, m') ∧ vol fs m' v' ∧
    vs_rel v' (s_put d (set_kind (Dir (<[nm := i]> m)) n) (s_put i (with_links 1 c) s)).
Proof.
  intros Hnew Hl Hlen Hiu Hsm [Hfit Hroom]. assert (Hcn : cstr nm ≠ []) by (rewrite (plain_cstr nm Hp); apply Hp).
  destruct (vs_obj v s Hvs i c Hc) as ([ta tb] & Hto & Hton).
  destruct (vs_dir v s Hvs d n m Hd Hm) as ([a b] & es & Ho & Hon & Hdir & Hdis & He).
  pose proof (obj_size _ _ Hon) as Hz. rewrite Hm in Hz. cbn [snd] in Hz.
  pose proof (or_attrs _ _ Hon) as Ha. cbn [fst] in Ha.
  assert (Hnone : find_entry nm es = None) by by rewrite ents_find_None, He, (plain_cstr nm Hp).
  pose proof (DirEntry_new_wf nm i) as Hwx. pose proof (key_of_new nm i Hp Hlen) as Hkey.
  destruct (vol_link fs e m0 v d a b es nm Hvol Ho Hdir Hcn i ta tb replace Hto Hne Hnone)
    as (m' & Hrun & Hvol' & Hdir'); [by rewrite Hz| |].
  { unfold cost. cbn [snd]. rewrite zlen_app, (zlen_DirEntry_encode _ Hwx), Hz, (vs_room _ _ Hvs).
    cbn [n_size] in *. lia. }
  eexists m', _. split; [done|]. split; [done|]. apply vs_put; [apply vs_put; [done|]|].
  { apply links_rel; [done|]. by rewrite Hl. }
  assert (Hd' : distinct (es ++ [DirEntry_new nm i])) by (apply distinct_snoc; [done|by rewrite Hkey, He]).
  apply (dir_rel n _ (es ++ [DirEntry_new nm i])); [cbn [fst]; rewrite Ha; unfold n_attrs; by rewrite Hm|done|done|].
  rewrite ents_snoc, Hkey, He by done. unfold DirEntry_new. cbn [inode]. by rewrite u32_small.
Qed.
End links.

Section rename.
Context (fs : SBFileSystem) (root : Z) (e : env) (st : VFS (D := store)) (s : fsys) (v : vstate).
Context (Hv : vfs_ok fs root st v) (Hvs : vs_rel v s) (Hfd : fd_rel fs st.1 s) (Ht : tree_ok root s).
Abbreviation P := (getDiskInodePos fs).
Abbreviation goes := (goes fs root e st).
Context (q1 n1 q2 n2 : bytes) (d1 d2 : Z) (Hep1 : entry_path root s q1 n1 d1) (Hep2 : entry_path root s q2 n2 d2).
Context (flags : Z).

(** Both parents are looked up. *)
Lemma parents_run : ∃ st2, vfs_ok fs root st2 v ∧ st2.1 = st.1 ∧ Position_isValid (P d2) = true ∧
  sb_rename e fs (q1 ++ slash :: n1) (q2 ++ slash :: n2) flags st =
  (u <- on_dev (with_out (Inode_unlink e fs (P d1) n1));;
    match u with
    | (Some _, Some old_child_inode) =>
        let replace := negb (Z.testbit flags RENAME_NOREPLACE) in
        (if Z.testbit flags RENAME_EXCHANGE then
           u2 <- deref (P d2) (with_out (Inode_unlink e fs (P d2) n2));;
           match u2.2 with
           | None => fail
           | Some new_child_inode =>
               attempt (on_dev (Inode_link e fs (P d1) n1 new_child_inode false));;;
               ret tt
           end
         else ret tt);;;
        deref (P d2) (attempt (Inode_link e fs (P d2) n2 old_child_inode replace));;;
        removePrefix (q1 ++ slash :: n1);;;
        removePrefix (q2 ++ slash :: n2);;;
        ret 0
    | _ => ret (- ENOENT)
    end) st2.
Proof.
  destruct (parent_run fs root e st s v Hv Hvs Ht q1 n1 d1 Hep1) as (Hsp1 & st1 & Hr1 & Hv1 & Hf1 & Hval1).
  destruct (parent_run fs root e st1 s v Hv1 Hvs Ht q2 n2 d2 Hep2) as (Hsp2 & st2 & Hr2 & Hv2 & Hf2 & Hval2).
  exists st2. split_and!; [done|congruence|done|].
  unfold sb_rename. rewrite Hsp1, (bind_Some _ _ _ _ _ Hr1), Hval1. cbn [negb]. rewrite Hsp2.
  by rewrite (bind_Some _ _ _ _ _ Hr2).
Qed.

Lemma find_rel_unlink {A} st2 (k : option unit * option Position → M VFS A) :
  vfs_ok fs root st2 v → s_find s d1 n1 = None →
  bind (on_dev (with_out (Inode_unlink e fs (P d1) n1))) k st2 = k (None, None) st2.
Proof.
  intros Hv2 Hf. pose proof (child_run fs root e s v Hvs Ht q1 n1 d1 Hep1 st2 Hv2) as Hc. rewrite Hf in Hc.
  assert (Hn : (Inode_find e fs (P d1) n1 st2.2.2).1 = None).
  { destruct st2 as [f2 [r2 m2]]. unfold on_dev, on_snd in Hc. cbn [fst snd] in *.
    by destruct (Inode_find e fs (P d1) n1 m2) as [[?|] ?]. }
  pose proof (Inode_unlink_missing e fs (P d1) n1 st2.2.2 Hn) as Hu.
  assert (Hod : on_dev (with_out (Inode_unlink e fs (P d1) n1)) st2 = (Some (None, None), st2)).
  { rewrite (on_dev_run _ _ (None, None) st2.2.2); [by destruct st2 as [f2 [r2 m2]]|]. unfold with_out. by rewrite Hu. }
  by rewrite (bind_Some _ _ _ _ _ Hod).
Qed.

Lemma rename_missing_goes : s_find s d1 n1 = None →
  goes (OpRename (q1 ++ slash :: n1) (q2 ++ slash :: n2) flags) (RInt (- ENOENT)) s.
Proof.
  intros Hf. destruct parents_run as (st2 & Hv2 & Hf2 & _ & Hrun).
  exists st2. split; [|by apply (near_keep fs root st s v)].
  rewrite (find_rel_unlink st2 _ Hv2 Hf) in Hrun. ran Hrun.
Qed.

(** ** An entry moves *)

Section moves.
Context (c1 c2 c : snode) (m1 m2 : gmap bytes Z) (i : Z).
Context (Hd1 : s_nodes s !! d1 = Some c1) (Hm1 : n_kind c1 = Dir m1) (Hi : m1 !! n1 = Some i) (Hc : s_nodes s !! i = Some c).
Context (Hwhere : i ≠ d2) (Hsmall : data_blocks (n_size (Dir m1)) ≤ 1047).
Abbreviation s1 := (s_put d1 (set_kind (Dir (delete n1 m1)) c1) s).
Context (Hd2 : s_nodes s1 !! d2 = Some c2) (Hm2 : n_kind c2 = Dir m2).
Context (Htarget : match m2 !! n2 with
      | None => data_blocks (n_size (Dir m2)) < 23 ∧ entry_fits s1 m2 0
      | Some j => Z.testbit flags RENAME_NOREPLACE = false ∧ ∃ cj b, s_nodes s !! j = Some cj ∧ n_kind cj = File b
      end) (Hex : Z.testbit flags RENAME_EXCHANGE = false).
Abbreviation s2 := (s_put d2 (set_kind (Dir (<[n2 := i]> m2)) c2) s1).

(** The state in between: the inode has no link. *)
Abbreviation s1' := (s_put d1 (set_kind (Dir (delete n1 m1)) c1) (s_put i (with_links 0 c) s)).

Lemma moved_find : s_find s d1 n1 = Some i.
Proof. by rewrite (s_find_node _ _ _ _ Hd1), Hm1. Qed.

Lemma moved_links : n_links c = 1.
Proof.
  destruct (entry_real root s q1 n1 d1 Hep1) as [Hr _].
  destruct (tr_named _ _ Ht d1 n1 i Hr moved_find) as (_ & c' & Hc' & Hl). congruence.
Qed.

Lemma moved_ne1 : i ≠ d1.
Proof.
  intros He. destruct (entry_parts root s q1 n1 d1 Hep1) as (ps & Hps & Hw & _).
  destruct (ep_name _ _ _ _ _ Hep1) as (Hp & _). apply (walk_no_loop root s ps d1 n1 Ht Hps Hp Hw). by rewrite moved_find, He.
Qed.

Lemma unlink_run m0 : vol fs m0 v →
  ∃ m' v', Inode_unlink e fs (P d1) n1 (None, m0) = (Some tt, (Some (P i), m')) ∧ vol fs m' v' ∧ vs_rel v' s1'.
Proof.
  intros Hvol. destruct (ep_name _ _ _ _ _ Hep1) as (Hp & _). pose proof moved_ne1. pose proof moved_links.
  by apply (vs_unlink fs e m0 s v).
Qed.

Lemma s1_lookup2 : s_nodes s1' !! d2 = Some c2.
Proof.
  pose proof Hd2 as H. pose proof Hwhere as Hne. rewrite s_put_lookup in H. rewrite !s_put_lookup.
  case_decide; [done|]. by rewrite decide_False.
Qed.

Lemma s1_lookup : s_nodes s1' !! i = Some (with_links 0 c).
Proof. pose proof moved_ne1 as Hne. rewrite !s_put_lookup, decide_False by done. by rewrite decide_True. Qed.

Lemma moved_back : with_links 1 (with_links 0 c) = c.
Proof. unfold with_links. cbn. pose proof moved_links as Hl. destruct c. simpl in *. by subst. Qed.

Lemma s2_eq x : s_put d2 x (s_put i c s1') = s_put d2 x s1.
Proof. rewrite s_put_back; [done|done|apply moved_ne1|done]. Qed.

Lemma link_run m0 v1 : vol fs m0 v1 → vs_rel v1 s1' →
  ∃ m' v', Inode_link e fs (P d2) n2 (P i) (negb (Z.testbit flags RENAME_NOREPLACE)) m0 = (Some tt, m') ∧ vol fs m' v' ∧ vs_rel v' s2.
Proof.
  intros Hvol Hvs1. destruct (ep_name _ _ _ _ _ Hep2) as (Hp & _ & Hl). pose proof Hwhere as Hne.
  assert (Hiu : is_u32 i) by (apply (node_valid fs root s v Hvs st i Hv); by eexists).
  rewrite <- s2_eq, <- moved_back. destruct (m2 !! n2) as [j|] eqn:Hj.
  - assert (Hcn : cstr n2 ≠ []) by (rewrite (plain_cstr n2 Hp); apply Hp).
    destruct (vs_obj v1 _ Hvs1 i _ s1_lookup) as ([ta tb] & Hto & Hton).
    destruct (vs_dir v1 _ Hvs1 d2 c2 m2 s1_lookup2 Hm2) as ([a b] & es & Ho & Hon & Hdir & Hdis & He).
    pose proof (or_attrs _ _ Hon) as Ha. cbn [fst] in Ha.
    destruct Htarget as [-> _]. cbn [negb]. rewrite <- He, <- (plain_cstr n2 Hp) in Hj.
    destruct (ents_find_Some n2 es j Hj) as (k & x & Hf & Hx).
    destruct (vol_link_replace fs e m0 v1 d2 a b es n2 Hvol Ho Hdir Hcn i ta tb k x Hto Hne Hf) as (m' & Hrun & Hvol' & Hdir').
    eexists m', _. split; [done|]. split; [done|]. destruct (find_entry_key _ _ _ _ Hf) as [_ Hkey].
    rewrite (plain_cstr n2 Hp) in Hkey. unfold key_of in Hkey. rewrite Hkey in *.
    assert (Hk2 : key_of (DirEntry_new n2 i) = key_of x) by (by rewrite (key_of_new n2 i Hp Hl)).
    destruct (ents_replace n2 es k x _ Hdis Hf Hk2) as [Hdis' He'].
    apply vs_put; [apply vs_put; [done|by apply links_rel]|].
    apply (dir_rel c2 _ (<[k := DirEntry_new n2 i]> es)); [cbn [fst]; rewrite Ha; unfold n_attrs; by rewrite Hm2|done|done|].
    rewrite He', He, (plain_cstr n2 Hp). unfold DirEntry_new. cbn [inode]. by rewrite u32_small.
  - destruct Htarget as [Hsm [Hfit Hroom]].
    apply (vs_link fs e m0 s1' v1 Hvol Hvs1 d2 c2 m2 n2 i (with_links 0 c) s1_lookup2 Hm2 Hp s1_lookup Hne); try done.
    split; [done|]. replace (s_room s1') with (s_room s1); [done|].
    pose proof (f_equal s_room (s2_eq c2)) as Hr. unfold s_put in Hr |- *. cbn [s_nodes s_room] in *.
    rewrite Hc. rewrite (lookup_insert_ne _ i d1) by apply moved_ne1. simpl. lia.
Qed.

Lemma rename_tree : tree_ok root s2.
Proof.
  destruct (entry_real root s q1 n1 d1 Hep1) as [Hr1 _], (entry_real root s q2 n2 d2 Hep2) as [Hr2 Hne2].
  by apply (tree_move root s d1 d2 i n1 n2 c1 c2 m1 m2).
Qed.

Lemma rename_goes : goes (OpRename (q1 ++ slash :: n1) (q2 ++ slash :: n2) flags) (RInt 0) s2.
Proof.
  destruct parents_run as ([f0 [r0 m0]] & Hv0 & Hf0 & Hval2 & Hrun). cbn [fst] in Hf0.
  destruct (unlink_run m0 (vf_vol _ _ _ _ Hv0)) as (m3 & v3 & Hu & Hvol3 & Hvs3).
  destruct (link_run m3 v3 Hvol3 Hvs3) as (m4 & v4 & Hl & Hvol4 & Hvs4).
  destruct (entry_parts root s q1 n1 d1 Hep1) as (_ & _ & _ & Hne1 & _).
  destruct (entry_parts root s q2 n2 d2 Hep2) as (_ & _ & _ & Hne2 & _).
  destruct (vf_cache _ _ _ _ Hv0) as (Hr0 & _). cbn [fst snd] in Hr0.
  destruct (removePrefix_run _ f0 r0 m4 Hr0 Hne1) as (r1 & Hrm1 & Hr1 & Hc1).
  destruct (removePrefix_run _ f0 r1 m4 Hr1 Hne2) as (r2 & Hrm2 & Hr2 & Hc2).
  exists (f0, (r2, m4)). split.
  - rewrite (bind_Some _ _ _ (Some tt, Some (P i)) (f0, (r0, m3))) in Hrun.
    2: { rewrite (on_dev_run _ _ (Some tt, Some (P i)) m3); [done|]. unfold with_out. cbn [snd]. by rewrite Hu. }
    cbv zeta iota in Hrun. rewrite Hex in Hrun. rewrite (bind_Some _ _ _ tt (f0, (r0, m3))) in Hrun by done.
    rewrite (bind_Some _ _ _ (Some tt) (f0, (r0, m4))) in Hrun.
    2: { unfold deref. rewrite Hval2. rewrite (on_dev_run _ _ (Some tt) m4); [done|]. unfold attempt. cbn [snd]. by rewrite Hl. }
    rewrite (bind_Some _ _ _ _ _ Hrm1), (bind_Some _ _ _ _ _ Hrm2) in Hrun. ran Hrun.
  - split; [exists v4; split; [|done]|by rewrite Hf0; destruct Hfd; split].
    apply (forget_ok fs root s v Hvs f0 m0 r0 m4 v4 s2 r2 [(d1, n1); (d2, n2)] Hv0 Hvol4 Hvs4 rename_tree Hr2).
    + intros d' k j Hk Hf Hnot. apply (move_keeps s d1 d2 i n1 n2 c1 c2 m1 m2); try done.
      * intros Heq. apply Hnot. rewrite Heq. by left.
      * intros Heq. apply Hnot. rewrite Heq. by right; left.
    + intros k c' [[Hk Hrem1]%Hc1 Hrem2]%Hc2. split; [done|]. intros ps1 p ps2 x Hg Hsp Hw Hin.
      apply elem_of_cons in Hin as [[= -> ->]|[= -> ->]%list_elem_of_singleton].
      * by rewrite (entry_forgotten root s q1 n1 d1 k ps1 ps2 Ht Hep1 Hg Hsp Hw) in Hrem1.
      * by rewrite (entry_forgotten root s q2 n2 d2 k ps1 ps2 Ht Hep2 Hg Hsp Hw) in Hrem2.
Qed.
End moves.

(** ** An entry that is unlinked and cannot be linked again *)

Section lost.
Context (c1 c2 c : snode) (m1 m2 : gmap bytes Z) (i : Z) (b : bytes).
Context (Hd1 : s_nodes s !! d1 = Some c1) (Hm1 : n_kind c1 = Dir m1) (Hi : m1 !! n1 = Some i) (Hc : s_nodes s !! i = Some c).
Context (Hb : n_kind c = File b) (Hsmall : data_blocks (n_size (Dir m1)) ≤ 1047).
Abbreviation s1 := (s_put d1 (set_kind (Dir (delete n1 m1)) c1) s).
Context (Hd2 : s_nodes s1 !! d2 = Some c2) (Hm2 : n_kind c2 = Dir m2).
Context (Hfails : is_Some (m2 !! n2) ∧ Z.testbit flags RENAME_NOREPLACE = true ∨
  m2 !! n2 = None ∧ 23 ≤ data_blocks (n_size (Dir m2)) ∧ n_size (Dir m2) ≠ kBlockSize * data_blocks (n_size (Dir m2))).
Context (Hex : Z.testbit flags RENAME_EXCHANGE = false).
Abbreviation s1' := (s_put d1 (set_kind (Dir (delete n1 m1)) c1) (s_put i (with_links 0 c) s)).

Lemma lost_link m0 v1 : vol fs m0 v1 → vs_rel v1 s1' →
  Inode_link e fs (P d2) n2 (P i) (negb (Z.testbit flags RENAME_NOREPLACE)) m0 = (None, m0).
Proof.
  intros Hvol Hvs1. destruct (ep_name _ _ _ _ _ Hep2) as (Hp & _).
  assert (Hcn : cstr n2 ≠ []) by (rewrite (plain_cstr n2 Hp); apply Hp).
  assert (Hwhere : i ≠ d2).
  { intros He. pose proof (moved_ne1 c1 m1 i Hd1 Hm1 Hi) as Hne. pose proof Hd2 as Hd2'. rewrite s_put_lookup, decide_False in Hd2' by congruence.
    congruence. }
  assert (Hl1 : s_nodes s1' !! i = Some (with_links 0 c)) by (eapply s1_lookup; eassumption).
  destruct (vs_obj v1 _ Hvs1 i _ Hl1) as ([ta tb] & Hto & _).
  assert (Hl2 : s_nodes s1' !! d2 = Some c2) by (eapply s1_lookup2; eassumption).
  destruct (vs_dir v1 _ Hvs1 d2 c2 m2 Hl2 Hm2) as ([a b2] & es & Ho & Hon & Hdir & Hdis & He).
  pose proof (obj_size _ _ Hon) as Hz. rewrite Hm2 in Hz. cbn [snd] in Hz.
  apply (vol_link_fails fs e m0 v1 d2 a b2 es n2 Hvol Ho Hdir Hcn i ta tb); [done|].
  rewrite ents_find_None, He, (plain_cstr n2 Hp), Hz.
  destruct Hfails as [[[j Hj] ->]|H]; [left|by right]. split; [congruence|done].
Qed.

Lemma rename_lost : ∃ st', vfs_step fs e (OpRename (q1 ++ slash :: n1) (q2 ++ slash :: n2) flags) st = (Some (RInt 0), st') ∧
  sys_rel fs root st' s1' ∧ ∀ d k, s_find s1' d k ≠ Some i.
Proof.
  destruct (entry_real root s q1 n1 d1 Hep1) as [Hr1 _].
  destruct (tree_forget root s d1 i n1 c1 c (with_links 0 c) m1 b Ht Hd1 Hm1 Hi Hr1 Hc Hb Hb) as [Ht' Hgone].
  destruct parents_run as ([f0 [r0 m0]] & Hv0 & Hf0 & Hval2 & Hrun). cbn [fst] in Hf0.
  destruct (unlink_run c1 c m1 i Hd1 Hm1 Hi Hc Hsmall m0 (vf_vol _ _ _ _ Hv0)) as (m3 & v3 & Hu & Hvol3 & Hvs3).
  pose proof (lost_link m3 v3 Hvol3 Hvs3) as Hl.
  destruct (entry_parts root s q1 n1 d1 Hep1) as (_ & _ & _ & Hne1 & _).
  destruct (entry_parts root s q2 n2 d2 Hep2) as (_ & _ & _ & Hne2 & _).
  destruct (vf_cache _ _ _ _ Hv0) as (Hr0 & _). cbn [fst snd] in Hr0.
  destruct (removePrefix_run _ f0 r0 m3 Hr0 Hne1) as (r1 & Hrm1 & Hr1' & Hc1).
  destruct (removePrefix_run _ f0 r1 m3 Hr1' Hne2) as (r2 & Hrm2 & Hr2 & Hc2).
  exists (f0, (r2, m3)). split; [|split; [|done]].
  - rewrite (bind_Some _ _ _ (Some tt, Some (P i)) (f0, (r0, m3))) in Hrun.
    2: { rewrite (on_dev_run _ _ (Some tt, Some (P i)) m3); [done|]. unfold with_out. cbn [snd]. by rewrite Hu. }
    cbv zeta iota in Hrun. rewrite Hex in Hrun. rewrite (bind_Some _ _ _ tt (f0, (r0, m3))) in Hrun by done.
    rewrite (bind_Some _ _ _ None (f0, (r0, m3))) in Hrun.
    2: { unfold deref. rewrite Hval2. rewrite (on_dev_run _ _ None m3); [done|]. unfold attempt. cbn [snd]. by rewrite Hl. }
    rewrite (bind_Some _ _ _ _ _ Hrm1), (bind_Some _ _ _ _ _ Hrm2) in Hrun. ran Hrun.
  - split; [exists v3; split; [|done]|by rewrite Hf0; destruct Hfd; split|done].
    apply (forget_ok fs root s v Hvs f0 m0 r0 m3 v3 s1' r2 [(d1, n1)] Hv0 Hvol3 Hvs3 Ht' Hr2).
    + intros d' k j Hk Hf Hnot. rewrite !s_find_put. case_decide as Hd'.
      * subst. simpl. rewrite (s_find_node _ _ k _ Hd1), Hm1 in Hf. simpl in Hf. rewrite lookup_delete_ne; [done|].
        intros <-. apply Hnot. by left.
      * case_decide; [|done]. subst. rewrite (s_find_node _ _ k _ Hc), Hb in Hf. done.
    + intros k c' [[Hk Hrem1]%Hc1 Hrem2]%Hc2. split; [done|]. intros ps1 p ps2 x Hg Hsp Hw [= -> ->]%list_elem_of_singleton.
      by rewrite (entry_forgotten root s q1 n1 d1 k ps1 ps2 Ht Hep1 Hg Hsp Hw) in Hrem1.
Qed.
End lost.
End rename.
