(* ===== verification/SpecExchange.v ===== *)
(** * The handlers do what the specification says: [rename] with [RENAME_EXCHANGE]

    [rename] unlinks both names and links each inode under the other's:
    four directory operations, between which one or both inodes have no
    link.  Room is never short, because what is linked was unlinked
    before. *)

From S2P Require Import Prelude Bytes Config BlkIface Bitmap DataArea Layout InodeIO DiskInode Sbfs Inode FdManager PathResolver Vfs VfsRefine Frame SbfsProof PathProof FileMap FileData FileGrow FileResize FileIO Dir Touched DirOps DirCreate DirRemove Volume VolumeOps VolumeDir VolumeNames VolumeVfs Spec SpecTree SpecLaws SpecRel SpecOps SpecDirs SpecRemove SpecRename.

(** ** Abstract states by their nodes *)

Lemma s_alter_eq f d s n m : s_nodes s !! d = Some n → n_kind n = Dir m →
  s_alter f d s = s_put d (set_kind (Dir (f m)) n) s.
Proof. intros Hn Hm. unfold s_alter. by rewrite Hn, Hm. Qed.

Lemma alter_rest f d s : s_fds (s_alter f d s) = s_fds s ∧ s_next (s_alter f d s) = s_next s.
Proof. unfold s_alter. destruct (s_nodes s !! d) as [n|]; [|done]. by destruct (n_kind n). Qed.

Lemma fd_alter fs f g d s : fd_rel fs f s → fd_rel fs f (s_alter g d s).
Proof. intros [F1 F2 F3 F4]. destruct (alter_rest g d s) as [E1 E2]. split; rewrite ?E1, ?E2; done. Qed.

(** The room follows from the nodes and the total. *)
Lemma fsys_eq s s' : s_nodes s = s_nodes s' → s_fds s = s_fds s' → s_next s = s_next s' → s_total s = s_total s' → s = s'.
Proof.
  destruct s as [a r b c], s' as [a' r' b' c']. unfold s_total, s_used. cbn [s_nodes s_fds s_next s_room].
  intros -> -> ->. intros. f_equal. lia.
Qed.

(** Changing where a name leads takes no room. *)
Lemma room_same nm i d s : is_Some (s_find s d nm) → s_room (s_alter <[nm := i]> d s) = s_room s.
Proof.
  intros [x Hx]. unfold s_find in Hx. unfold s_alter. destruct (s_nodes s !! d) as [n|] eqn:Hn; [|done].
  destruct (n_kind n) as [b|m] eqn:Hm; [done|]. unfold s_put. cbn [s_room]. rewrite Hn. simpl. rewrite Hm.
  unfold n_cost. cbn [n_size]. rewrite map_size_insert_Some by (by eexists). lia.
Qed.

(** Directories of fewer than 23 blocks. *)
Definition small (d : Z) (s : fsys) : Prop := ∀ n, s_nodes s !! d = Some n → n_size (n_kind n) ≤ 22 * kBlockSize.

Lemma small_blocks sz : 0 ≤ sz ≤ 22 * kBlockSize → data_blocks sz < 23.
Proof. intros Hsz. destruct (data_blocks_eq sz) as (_ & _ & H); unfold kBlockSize in *; lia. Qed.

Lemma cost_mono (m1 m2 : gmap bytes Z) : (base.size m1 ≤ base.size m2)%nat →
  sizeof_DirEntry * Z.of_nat (base.size m2) < 2 ^ 32 → n_cost (Dir m1) ≤ n_cost (Dir m2).
Proof.
  intros Hle Hlt. unfold n_cost. cbn [n_size]. unfold sizeof_DirEntry in *.
  pose proof (data_blocks_mono (256 * Z.of_nat (base.size m1)) (256 * Z.of_nat (base.size m2))) as Hm.
  destruct (data_blocks_eq (256 * Z.of_nat (base.size m1))) as (_ & Hr & _); [lia|].
  pose proof (nodes_mono (data_blocks (256 * Z.of_nat (base.size m1))) (data_blocks (256 * Z.of_nat (base.size m2)))). lia.
Qed.

(** Inserting an entry takes room, and makes the directory no smaller. *)
Lemma room_insert nm i d s : small d s → s_room (s_alter <[nm := i]> d s) ≤ s_room s.
Proof.
  intros Hsm. unfold s_alter. destruct (s_nodes s !! d) as [n|] eqn:Hn; [|done].
  destruct (n_kind n) as [b|m] eqn:Hm; [done|]. specialize (Hsm n Hn). rewrite Hm in Hsm. cbn [n_size] in Hsm.
  unfold s_put. cbn [s_room]. rewrite Hn. simpl. rewrite Hm. pose proof (cost_mono m (<[nm := i]> m)) as Hc.
  unfold sizeof_DirEntry, kBlockSize in *. destruct (m !! nm) eqn:He.
  - rewrite map_size_insert_Some in Hc by (by eexists). lia.
  - rewrite map_size_insert_None in Hc by done. lia.
Qed.

Lemma small_insert_inv nm i d s d' : small d' (s_alter <[nm := i]> d s) → small d' s.
Proof.
  intros Hd' n Hn. unfold small in Hd'. rewrite s_alter_lookup, Hn in Hd'. case_decide; [|by apply Hd'].
  specialize (Hd' _ eq_refl). destruct (n_kind n) as [b|m] eqn:Hm; [done|].
  cbn [set_kind n_kind n_size] in *. assert (base.size m ≤ base.size (<[nm := i]> m))%nat; [|unfold sizeof_DirEntry in *; lia].
  destruct (m !! nm) eqn:He; [rewrite map_size_insert_Some by (by eexists)|rewrite map_size_insert_None by done]; lia.
Qed.

Lemma small_same nm i d s d' : is_Some (s_find s d nm) → small d' s → small d' (s_alter <[nm := i]> d s).
Proof.
  intros [x Hx] Hsm n'. rewrite s_alter_lookup. case_decide; [|apply Hsm]. subst.
  intros (n & Hn & ->)%fmap_Some. specialize (Hsm n Hn). rewrite (s_find_node _ _ _ _ Hn) in Hx.
  destruct (n_kind n) as [b|m] eqn:Hm; [done|]. cbn [ents_of set_kind n_kind n_size] in *. rewrite map_size_insert_Some by (by eexists). done.
Qed.

Lemma small_delete nm d s d' : small d' s → small d' (s_alter (delete nm) d s).
Proof.
  intros Hsm n'. rewrite s_alter_lookup. case_decide; [|apply Hsm]. subst.
  intros (n & Hn & ->)%fmap_Some. specialize (Hsm n Hn). destruct (n_kind n) as [b|m]; [done|].
  cbn [set_kind n_kind n_size] in *. assert (base.size (delete nm m) ≤ base.size m)%nat; [|unfold sizeof_DirEntry in *; lia].
  rewrite map_size_delete. destruct (m !! nm); simpl; lia.
Qed.

(** Link counts have no part in names, sizes and room. *)
Lemma find_links i c l s d k : s_nodes s !! i = Some c → s_find (s_put i (with_links l c) s) d k = s_find s d k.
Proof. intros Hc. rewrite s_find_put. case_decide; [|done]. subst. by rewrite (s_find_node _ _ _ _ Hc). Qed.

Lemma small_links i c l s d : s_nodes s !! i = Some c → small d s → small d (s_put i (with_links l c) s).
Proof.
  intros Hc Hsm n. rewrite s_put_lookup. case_decide; [|apply Hsm]. subst. intros [= <-]. by apply (Hsm c).
Qed.

Lemma room_links i c l s : s_nodes s !! i = Some c → s_room (s_put i (with_links l c) s) = s_room s.
Proof. intros Hc. unfold s_put. cbn [s_room]. rewrite Hc. simpl. lia. Qed.

Lemma s_find_delete nm d0 s d k :
  s_find (s_alter (delete nm) d0 s) d k = if decide (d0 = d ∧ nm = k) then None else s_find s d k.
Proof.
  rewrite !s_find_eq, s_alter_lookup. destruct (decide (d0 = d)) as [<-|]; [|by rewrite decide_False by tauto].
  destruct (s_nodes s !! d0) as [n|]; [|by case_decide]. simpl.
  destruct (n_kind n) as [b|m]; simpl; [by case_decide|]. destruct (decide (nm = k)) as [<-|Hk].
  - by rewrite decide_True, lookup_delete_eq.
  - by rewrite decide_False, lookup_delete_ne by tauto.
Qed.

Lemma small_links_inv i c l s d : s_nodes s !! i = Some c → small d (s_put i (with_links l c) s) → small d s.
Proof.
  intros Hc Hsm n Hn. destruct (decide (i = d)) as [<-|Hne].
  - assert (n = c) as -> by congruence. specialize (Hsm (with_links l c)). rewrite s_put_lookup, decide_True in Hsm by done. by apply Hsm.
  - apply Hsm. by rewrite s_put_lookup, decide_False.
Qed.

Lemma dir_links i c l s d : s_nodes s !! i = Some c → s_dir (s_put i (with_links l c) s) d ↔ s_dir s d.
Proof.
  intros Hc. rewrite s_dir_put. cbn [with_links n_kind]. split.
  - intros [[<- [m Hm]]|[_ ?]]; [by exists c, m|done].
  - intros Hx. destruct (decide (i = d)) as [->|]; [left|by right]. split; [done|].
    destruct Hx as (n & m & Hn & Hm). exists m. congruence.
Qed.

(** ** One operation *)

Section one.
Context (fs : SBFileSystem) (e : env) (m0 : store) (t : fsys) (v : vstate) (Hvol : vol fs m0 v) (Hvs : vs_rel v t).
Context (d : Z) (nm : bytes) (i : Z) (c : snode).
Context (Hd : s_dir t d) (Hp : plain nm) (Hc : s_nodes t !! i = Some c) (Hne : i ≠ d) (Hsm : small d t).

Lemma unlink_alter : s_find t d nm = Some i → n_links c = 1 →
  ∃ m' v', Inode_unlink e fs (getDiskInodePos fs d) nm (None, m0) = (Some tt, (Some (getDiskInodePos fs i), m')) ∧ vol fs m' v' ∧
    vs_rel v' (s_alter (delete nm) d (s_put i (with_links 0 c) t)).
Proof.
  intros Hi Hl. destruct Hd as (n & m & Hn & Hm). rewrite (s_find_node _ _ _ _ Hn), Hm in Hi.
  assert (Hn' : s_nodes (s_put i (with_links 0 c) t) !! d = Some n) by by rewrite s_put_lookup, decide_False.
  rewrite (s_alter_eq _ _ _ n m Hn' Hm). specialize (Hsm n Hn). rewrite Hm in Hsm.
  apply (vs_unlink fs e m0 t v Hvol Hvs d n m nm i c); try done.
  pose proof (small_blocks (n_size (Dir m))). cbn [n_size] in *. unfold sizeof_DirEntry in *. lia.
Qed.

Lemma link_alter replace : s_find t d nm = None → n_links c = 0 → zlen nm ≤ kMaxDirNameLength → is_u32 i →
  let t' := s_alter <[nm := i]> d (s_put i (with_links 1 c) t) in
  0 ≤ s_room t' →
  ∃ m' v', Inode_link e fs (getDiskInodePos fs d) nm (getDiskInodePos fs i) replace m0 = (Some tt, m') ∧ vol fs m' v' ∧ vs_rel v' t'.
Proof.
  intros Hnew Hl Hlen Hiu t' Hroom. unfold t' in *. destruct Hd as (n & m & Hn & Hm). rewrite (s_find_node _ _ _ _ Hn), Hm in Hnew.
  assert (Hn' : s_nodes (s_put i (with_links 1 c) t) !! d = Some n) by by rewrite s_put_lookup, decide_False.
  rewrite (s_alter_eq _ _ _ n m Hn' Hm) in *. specialize (Hsm n Hn). rewrite Hm in Hsm.
  pose proof (small_blocks (n_size (Dir m))) as Hb. unfold kBlockSize in *.
  apply (vs_link fs e m0 t v Hvol Hvs d n m nm i c); try done.
  - cbn [n_size] in *. unfold sizeof_DirEntry in *. lia.
  - cbn [ents_of] in Hnew. unfold s_put in Hroom at 1. cbn [s_room] in Hroom. rewrite Hn', (room_links i c 1 t Hc) in Hroom. simpl in Hroom.
    rewrite Hm in Hroom. unfold entry_fits. unfold n_cost in Hroom. cbn [n_size] in *. rewrite map_size_insert_None in Hroom by done.
    replace (sizeof_DirEntry * Z.of_nat (S (base.size m))) with (sizeof_DirEntry * Z.of_nat (base.size m) + sizeof_DirEntry) in Hroom by lia.
    unfold sizeof_DirEntry in *. lia.
Qed.
End one.

(** ** The four operations *)

Section exchange.
Context (fs : SBFileSystem) (root : Z) (e : env) (st : VFS (D := store)) (s : fsys) (v : vstate).
Context (Hv : vfs_ok fs root st v) (Hvs : vs_rel v s) (Hfd : fd_rel fs st.1 s) (Ht : tree_ok root s).
Abbreviation P := (getDiskInodePos fs).
Context (q1 n1 q2 n2 : bytes) (d1 d2 : Z) (Hep1 : entry_path root s q1 n1 d1) (Hep2 : entry_path root s q2 n2 d2).
Context (flags : Z) (Hne : (d1, n1) ≠ (d2, n2)) (Hex : Z.testbit flags RENAME_EXCHANGE = true).
Context (i j : Z) (ci cj : snode) (Hi : s_find s d1 n1 = Some i) (Hj : s_find s d2 n2 = Some j).
Context (Hci : s_nodes s !! i = Some ci) (Hcj : s_nodes s !! j = Some cj).
Context (Hw1 : i ≠ d2) (Hw2 : j ≠ d1).
Context (Hsm1 : small d1 s) (Hsm2 : small d2 s).

(** One name unlinked, both, and one linked again. *)
Abbreviation sA := (s_alter (delete n1) d1 (s_put i (with_links 0 ci) s)).
Abbreviation sB := (s_alter (delete n2) d2 (s_put j (with_links 0 cj) sA)).
Abbreviation sC := (s_alter <[n1 := j]> d1 (s_put j (with_links 1 (with_links 0 cj)) sB)).
Abbreviation sD := (s_alter <[n2 := i]> d2 (s_put i (with_links 1 (with_links 0 ci)) sC)).
Abbreviation s2 := (s_alter <[n2 := i]> d2 (s_alter <[n1 := j]> d1 s)).

Lemma xc_real : real n1 ∧ real n2.
Proof. destruct (entry_real root s q1 n1 d1 Hep1), (entry_real root s q2 n2 d2 Hep2). done. Qed.

Lemma xc_ij : i ≠ j.
Proof. destruct xc_real. by apply (swap_ne root s d1 d2 i j n1 n2). Qed.

Lemma xc_links : n_links ci = 1 ∧ n_links cj = 1.
Proof.
  destruct xc_real as [Hr1 Hr2]. destruct (tr_named _ _ Ht d1 n1 i Hr1 Hi) as (_ & c & Hc & Hl).
  destruct (tr_named _ _ Ht d2 n2 j Hr2 Hj) as (_ & c' & Hc' & Hl'). split; congruence.
Qed.

(** No directory is an entry of itself. *)
Lemma xc_ne d : d = d1 ∨ d = d2 → i ≠ d ∧ j ≠ d.
Proof.
  assert (Hloop : ∀ q nm d0, entry_path root s q nm d0 → s_find s d0 nm ≠ Some d0).
  { intros q nm d0 Hep. destruct (entry_parts root s q nm d0 Hep) as (ps & Hps & Hw & _).
    destruct (ep_name _ _ _ _ _ Hep) as (Hp & _). by apply (walk_no_loop root s ps d0 nm Ht Hps Hp Hw). }
  pose proof (Hloop _ _ _ Hep1). pose proof (Hloop _ _ _ Hep2). intros [->| ->]; split; congruence.
Qed.

Lemma xc_nodes k : s_nodes sD !! k = s_nodes s2 !! k.
Proof.
  destruct (xc_ne d1 (or_introl eq_refl)) as [Hi1 Hj1], (xc_ne d2 (or_intror eq_refl)) as [Hi2 Hj2]. pose proof xc_ij as Hij.
  destruct xc_links as [Hli Hlj].
  assert (Hback : ∀ c, n_links c = 1 → with_links 1 (with_links 0 c) = c).
  { intros [? ? ? ? ?]. cbn. intros ->. done. }
  rewrite (Hback ci Hli), (Hback cj Hlj). repeat rewrite s_alter_lookup || rewrite s_put_lookup.
  destruct (decide (i = k)) as [<-|Hk1].
  { by rewrite !(decide_False (P := _ = i)) by congruence. }
  destruct (decide (j = k)) as [<-|Hk2].
  { by rewrite !(decide_False (P := _ = j)) by congruence. }
  destruct (s_nodes s !! k) as [c|] eqn:Hc; [|by repeat case_decide].
  destruct (decide (d2 = k)) as [H2|H2], (decide (d1 = k)) as [H1|H1]; simpl; try done; f_equal;
    destruct c as [u g l md [b|m]] eqn:Hcm; unfold set_kind; cbn [n_uid n_gid n_links n_mode n_kind]; try done; do 2 f_equal.
  - assert (Hnn : n1 ≠ n2) by (intros Hn; apply Hne; congruence).
    apply map_eq. intros x. destruct (decide (x = n2)) as [->|]; [by rewrite !lookup_insert_eq|].
    rewrite !(lookup_insert_ne _ n2) by done. destruct (decide (x = n1)) as [->|]; [by rewrite !lookup_insert_eq|].
    by rewrite !(lookup_insert_ne _ n1), !lookup_delete_ne by done.
  - by rewrite insert_delete_eq.
  - by rewrite insert_delete_eq.
Qed.

Lemma xc_end : sD = s2.
Proof.
  apply fsys_eq; [apply map_eq, xc_nodes|..].
  - repeat rewrite (proj1 (alter_rest _ _ _)) || cbn [s_put s_fds]. done.
  - repeat rewrite (proj2 (alter_rest _ _ _)) || cbn [s_put s_next]. done.
  - by repeat rewrite total_alter || rewrite total_put.
Qed.

Lemma xc_room : 0 ≤ s_room s.
Proof.
  pose proof (vf_vol _ _ _ _ Hv) as (F & _ & Hvv). rewrite <- (vs_room _ _ Hvs), Hvv. apply free_blocks_nonneg.
Qed.

(** The inodes in between. *)
Lemma xc_j0 : s_nodes sA !! j = Some cj.
Proof.
  destruct (xc_ne d1 (or_introl eq_refl)) as [_ Hj1]. pose proof xc_ij.
  by rewrite s_alter_lookup, decide_False, s_put_lookup, decide_False by done.
Qed.

Lemma xc_j : s_nodes sB !! j = Some (with_links 0 cj).
Proof.
  destruct (xc_ne d2 (or_intror eq_refl)) as [_ Hj2].
  by rewrite s_alter_lookup, decide_False, s_put_lookup, decide_True by done.
Qed.

Lemma xc_i : s_nodes sC !! i = Some (with_links 0 ci).
Proof.
  destruct (xc_ne d1 (or_introl eq_refl)) as [Hi1 _], (xc_ne d2 (or_intror eq_refl)) as [Hi2 _]. pose proof xc_ij.
  rewrite s_alter_lookup, decide_False, s_put_lookup, decide_False by done.
  rewrite s_alter_lookup, decide_False, s_put_lookup, decide_False by done.
  by rewrite s_alter_lookup, decide_False, s_put_lookup, decide_True by done.
Qed.

Lemma xc_dirs d : s_dir s d → s_dir sA d ∧ s_dir sB d ∧ s_dir sC d.
Proof.
  intros Hd. assert (HA : s_dir sA d) by (by apply s_dir_alter, dir_links).
  assert (HB : s_dir sB d) by (by apply s_dir_alter, dir_links; [apply xc_j0|]).
  split_and!; [done|done|]. by apply s_dir_alter, dir_links; [apply xc_j|].
Qed.

Lemma xc_finds : s_find sA d2 n2 = Some j ∧ s_find sB d1 n1 = None ∧ s_find sC d2 n2 = None.
Proof.
  assert (HA : ∀ d k, s_find sA d k = if decide (d1 = d ∧ n1 = k) then None else s_find s d k).
  { intros d k. by rewrite s_find_delete, (find_links i ci 0 s) by done. }
  assert (HB : ∀ d k, s_find sB d k = if decide (d2 = d ∧ n2 = k) then None else s_find sA d k).
  { intros d k. by rewrite s_find_delete, (find_links j cj 0 sA) by apply xc_j0. }
  split_and!.
  - rewrite HA, decide_False; [done|]. intros [He1 He2]. apply Hne. congruence.
  - rewrite HB. case_decide; [done|]. by rewrite HA, decide_True.
  - rewrite s_find_enter.
    + rewrite decide_False by (intros [He1 He2]; apply Hne; congruence).
      by rewrite (find_links j _ 1 sB), HB, decide_True by (apply xc_j || done).
    + apply dir_links; [apply xc_j|]. apply xc_dirs. by eapply find_dir.
Qed.

Lemma xc_small : small d2 sA ∧ small d1 sB ∧ small d2 sC.
Proof.
  assert (Hs1 : is_Some (s_find s d1 n1)) by by eexists.
  assert (Hs2 : is_Some (s_find (s_alter <[n1 := j]> d1 s) d2 n2)).
  { rewrite s_find_enter by (by eapply find_dir). case_decide; by eexists. }
  assert (HA : ∀ d, small d s → small d sA) by (intros; by apply small_delete, small_links).
  split_and!; [by apply HA| |].
  - apply small_delete, small_links; [apply xc_j0|by apply HA].
  - apply (small_links_inv i _ 1 _ _ xc_i), (small_insert_inv n2 i d2). rewrite xc_end.
    by apply small_same, small_same.
Qed.

Lemma xc_rooms : 0 ≤ s_room sC ∧ 0 ≤ s_room sD.
Proof.
  assert (Hs1 : is_Some (s_find s d1 n1)) by by eexists.
  assert (Hs2 : is_Some (s_find (s_alter <[n1 := j]> d1 s) d2 n2)).
  { rewrite s_find_enter by (by eapply find_dir). case_decide; by eexists. }
  assert (HD : 0 ≤ s_room sD) by (rewrite xc_end, !room_same by done; apply xc_room).
  split; [|done]. etrans; [exact HD|]. rewrite <- (room_links i _ 1 sC xc_i).
  apply room_insert, small_links; [apply xc_i|apply xc_small].
Qed.

Lemma exchange_run m0 : vol fs m0 v → let replace := negb (Z.testbit flags RENAME_NOREPLACE) in
  ∃ mA mB mC mD v',
    Inode_unlink e fs (P d1) n1 (None, m0) = (Some tt, (Some (P i), mA)) ∧
    Inode_unlink e fs (P d2) n2 (None, mA) = (Some tt, (Some (P j), mB)) ∧
    Inode_link e fs (P d1) n1 (P j) false mB = (Some tt, mC) ∧
    Inode_link e fs (P d2) n2 (P i) replace mC = (Some tt, mD) ∧ vol fs mD v' ∧ vs_rel v' s2.
Proof.
  intros Hvol replace. destruct (ep_name _ _ _ _ _ Hep1) as (Hp1 & _ & Hl1), (ep_name _ _ _ _ _ Hep2) as (Hp2 & _ & Hl2).
  destruct (xc_ne d1 (or_introl eq_refl)) as [Hi1 Hj1], (xc_ne d2 (or_intror eq_refl)) as [Hi2 Hj2].
  destruct xc_links as [Hli Hlj], xc_finds as (F1 & F2 & F3), xc_small as (S1 & S2 & S3), xc_rooms as [R1 R2].
  assert (Hd1 : s_dir s d1) by by eapply find_dir. assert (Hd2 : s_dir s d2) by by eapply find_dir.
  assert (Hu : ∀ k, is_Some (s_nodes s !! k) → is_u32 k) by (intros k Hk; by apply (node_valid fs root s v Hvs st k Hv)).
  destruct (unlink_alter fs e m0 s v Hvol Hvs d1 n1 i ci) as (mA & vA & HA & HvolA & HvsA); try done.
  destruct (unlink_alter fs e mA sA vA HvolA HvsA d2 n2 j cj) as (mB & vB & HB & HvolB & HvsB); try done;
    [by apply xc_dirs|apply xc_j0|].
  destruct (link_alter fs e mB sB vB HvolB HvsB d1 n1 j (with_links 0 cj)) with (replace := false) as (mC & vC & HC & HvolC & HvsC);
    try done; [by apply xc_dirs|apply xc_j|apply Hu; by eexists|].
  destruct (link_alter fs e mC sC vC HvolC HvsC d2 n2 i (with_links 0 ci)) with (replace := replace) as (mD & vD & HD & HvolD & HvsD);
    try done; [by apply xc_dirs|apply xc_i|apply Hu; by eexists|].
  rewrite xc_end in HvsD. by exists mA, mB, mC, mD, vD.
Qed.

Lemma exchange_goes : goes fs root e st (OpRename (q1 ++ slash :: n1) (q2 ++ slash :: n2) flags) (RInt 0) s2.
Proof.
  destruct (parents_run fs root e st s v Hv Hvs Ht q1 n1 q2 n2 d1 d2 Hep1 Hep2 flags) as ([f0 [r0 m0]] & Hv0 & Hf0 & Hval2 & Hrun).
  cbn [fst] in Hf0.
  destruct (exchange_run m0 (vf_vol _ _ _ _ Hv0)) as (mA & mB & mC & mD & v' & HA & HB & HC & HD & Hvol' & Hvs').
  destruct (parent_run fs root e st s v Hv Hvs Ht q1 n1 d1 Hep1) as (_ & _ & _ & _ & _ & Hval1).
  destruct (entry_parts root s q1 n1 d1 Hep1) as (_ & _ & _ & Hne1 & _).
  destruct (entry_parts root s q2 n2 d2 Hep2) as (_ & _ & _ & Hne2 & _). destruct xc_real as [Hr1 Hr2].
  destruct (vf_cache _ _ _ _ Hv0) as (Hr0 & _). cbn [fst snd] in Hr0.
  destruct (removePrefix_run _ f0 r0 mD Hr0 Hne1) as (r1 & Hrm1 & Hok1 & Hc1).
  destruct (removePrefix_run _ f0 r1 mD Hok1 Hne2) as (r2 & Hrm2 & Hok2 & Hc2).
  exists (f0, (r2, mD)). split.
  - rewrite (bind_Some _ _ _ (Some tt, Some (P i)) (f0, (r0, mA))) in Hrun.
    2: { rewrite (on_dev_run _ _ (Some tt, Some (P i)) mA); [done|]. unfold with_out. cbn [snd]. by rewrite HA. }
    cbv zeta iota in Hrun. rewrite Hex in Hrun. rewrite (bind_Some _ _ _ tt (f0, (r0, mC))) in Hrun.
    2: { rewrite (bind_Some _ _ _ (Some tt, Some (P j)) (f0, (r0, mB))).
         2: { unfold deref. rewrite Hval2. rewrite (on_dev_run _ _ (Some tt, Some (P j)) mB); [done|]. unfold with_out. cbn [snd]. by rewrite HB. }
         cbn [snd]. rewrite (bind_Some _ _ _ (Some tt) (f0, (r0, mC))); [done|].
         unfold attempt. rewrite (on_dev_run _ _ tt mC) by (cbn [snd]; by rewrite HC). done. }
    rewrite (bind_Some _ _ _ (Some tt) (f0, (r0, mD))) in Hrun.
    2: { unfold deref. rewrite Hval2. rewrite (on_dev_run _ _ (Some tt) mD); [done|]. unfold attempt. cbn [snd]. by rewrite HD. }
    rewrite (bind_Some _ _ _ _ _ Hrm1), (bind_Some _ _ _ _ _ Hrm2) in Hrun. ran Hrun.
  - split; [exists v'; split; [|done]|].
    + apply (forget_ok fs root s v Hvs f0 m0 r0 mD v' s2 r2 [(d1, n1); (d2, n2)] Hv0 Hvol' Hvs'); [|done| |].
      * by apply (tree_swap root s d1 d2 i j n1 n2).
      * intros d k x Hk Hf Hnot. apply (swap_keeps s d1 d2 i j n1 n2); try done; intros Heq; apply Hnot; rewrite Heq; [by left|by right; left].
      * intros k c' [[Hk Hrem1]%Hc1 Hrem2]%Hc2. split; [done|]. intros ps1 p ps2 x Hg Hsp Hw Hin.
        apply elem_of_cons in Hin as [[= -> ->]|[= -> ->]%list_elem_of_singleton].
        -- by rewrite (entry_forgotten root s q1 n1 d1 k ps1 ps2 Ht Hep1 Hg Hsp Hw) in Hrem1.
        -- by rewrite (entry_forgotten root s q2 n2 d2 k ps1 ps2 Ht Hep2 Hg Hsp Hw) in Hrem2.
    + rewrite Hf0. by apply fd_alter, fd_alter.
Qed.
End exchange.

(** Directories of fewer than 23 blocks, from the specification's bound. *)
Lemma small_of fs root (st : VFS (D := store)) s v d n : vfs_ok fs root st v → vs_rel v s → s_nodes s !! d = Some n →
  data_blocks (n_size (n_kind n)) < 23 → small d s.
Proof.
  intros Hv Hvs Hn Hb n' Hn'. assert (n' = n) as -> by congruence.
  destruct (vs_obj v s Hvs d n Hn) as ([a b] & Ho & Hon). pose proof (obj_size _ _ Hon) as Hz. cbn [snd] in Hz.
  destruct (vol_lookup fs _ v d a b (vf_vol _ _ _ _ Hv) Ho) as (F & di & _ & _ & _ & _ & _ & Hs & Hwf).
  pose proof (wf_size _ Hwf) as Hu. unfold is_u32 in Hu. destruct (data_blocks_eq (n_size (n_kind n))) as (_ & _ & H); [lia|].
  unfold kBlockSize in *. lia.
Qed.
