(* ===== verification/SpecRefine.v ===== *)
(** * The handlers refine the specification

    A state of the handlers related to an abstract one answers every call
    the specification covers, with a result it allows, and the states after
    are related again ([step_refined]); so for sequences of calls
    ([run_refined]).  Where the specification leaves no choice, the results
    are the ones it says ([settled_run]).  It leaves open what the bytes of
    an extended file are (by [truncate] or a write past its end), whether a
    read at the end of a file fails, in what order names are listed, the times, and
    what [fsync] returns. *)

From S2P Require Import Prelude Bytes Config BlkIface LruCache BlkDevice Bitmap DataArea Layout InodeIO DiskInode Sbfs Inode FdManager PathResolver Vfs VfsRefine Frame SbfsProof PathProof FileMap FileData FileResize FileIO Dir Touched DirOps DirCreate DirRemove FreshFs Volume VolumeOps VolumeDir FreshVolume VolumeNames VolumeVfs Spec SpecTree SpecRel SpecOps SpecDirs SpecRemove SpecRename SpecExchange.

Section refine.
Context (fs : SBFileSystem) (root : Z).
Abbreviation step := (spec_step (ids_lo fs) (ids_hi fs) root).

(** A file has become longer. *)
Definition grows (s s' : fsys) : Prop :=
  ∃ i n n', s_nodes s !! i = Some n ∧ s_nodes s' !! i = Some n' ∧ n_size (n_kind n) < n_size (n_kind n').

(** The specification leaves no choice. *)
Definition settled (op : vfs_op) (r : vfs_res) (s s' : fsys) : Prop :=
  match op with
  | OpGetattr _ _ => ∀ stt, r ≠ RStat 0 (Some stt)
  | OpReaddir _ => ∀ l, r ≠ RNames 0 l
  | OpFsync _ _ => False
  | OpRead fh _ off => ∀ i n, s_fds s !! fh = Some i → s_nodes s !! i = Some n → off ≠ n_size (n_kind n)
  | OpWrite fh _ _ off => ∀ i n, s_fds s !! fh = Some i → s_nodes s !! i = Some n → off ≤ n_size (n_kind n)
  | OpTruncate _ _ _ => ¬ grows s s'
  | _ => True
  end.

Section step.
Context (e : env) (st : VFS (D := store)) (s : fsys) (Hsys : sys_rel fs root st s).

Ltac as_is := eexists _, _; split; [|split; [eassumption|done]].

Lemma step_goes op r s' : step e s op r s' →
  ∃ r' s'', goes fs root e st op r' s'' ∧ step e s op r' s'' ∧ (settled op r s s' → r' = r ∧ s'' = s').
Proof.
  intros Hstep. destruct Hsys as [(v & Hv & Hvs) Hfd Ht]. pose proof Hstep as Hsame. destruct Hstep.
  - as_is. by apply (read_goes fs root e st s v Hv Hvs Hfd fh len off i n b).
  - as_is. destruct (read_end_goes fs root e st s v Hv Hvs Hfd fh len off i n b) as (r & Hgo & [->|[_ ?]]); try done; lia.
  - destruct (read_end_goes fs root e st s v Hv Hvs Hfd fh len (zlen b) i n b) as (y & Hgo & Hy); try done.
    eexists _, _. split; [exact Hgo|]. split; [destruct Hy as [->|[-> _]]; eapply sp_read_end; eauto|].
    intros Hset. destruct (Hset i n); [done..|]. by replace (n_kind n) with (File b).
  - as_is. destruct (write_goes fs root e st s v Hv Hvs Hfd fh buf off i n b) as (x & Hx & Hgo); try done; [lia| |].
    { unfold n_cost, n_size in *. by rewrite <- zlen_overwrite. }
    by rewrite (no_gap x _ _ Hx), app_nil_r in Hgo by lia.
  - destruct (write_past_goes fs root e st s v Hv Hvs Hfd fh buf off i n b x) as (y & Hy & Hcost & Hgo); try done.
    eexists _, _. split; [exact Hgo|]. split; [by apply sp_write_past; rewrite ?Hcost|].
    intros Hset. specialize (Hset i n ltac:(done) ltac:(done)). replace (n_kind n) with (File b) in Hset by done.
    unfold n_size in Hset. lia.
  - as_is. by apply (closed_goes fs root e st s v Hv Hvs Hfd fh [] len off).
  - as_is. by apply (closed_goes fs root e st s v Hv Hvs Hfd fh buf len off).
  - as_is. by apply (large_goes fs root e st s v Hv Hvs Hfd fh [] len off [] None).
  - as_is. by apply (large_goes fs root e st s v Hv Hvs Hfd fh buf len off [] None).
  - as_is. by apply (cut_goes fs root e st s v Hv Hvs Hfd path sz fh i n b).
  - destruct (extend_goes fs root e st s v Hv Hvs Hfd path sz fh i n b) as (y & Hy & Hgo); try done.
    { unfold n_cost, n_size in *. by match goal with H : zlen (b ++ x) = sz |- _ => rewrite H in * end. }
    eexists _, _. split; [exact Hgo|]. split.
    + eapply sp_extend; try done.
      unfold n_cost, n_size in *. rewrite Hy. by match goal with H : zlen (b ++ x) = sz |- _ => rewrite H in * end.
    + intros []. exists i, n, (set_kind (File (b ++ x)) n). split; [done|]. split; [apply lookup_insert_eq|].
      replace (n_kind n) with (File b) by done. simpl. lia.
  - as_is. by apply (large_goes fs root e st s v Hv Hvs Hfd 0 [] sz 0 path fi).
  - as_is. by apply (truncate_missing_goes fs root e st s v Hv Hvs Hfd path sz fh).
  - as_is. by apply (open_goes fs root e st s v Hv Hvs Hfd path i).
  - as_is. by apply (open_missing_goes fs root e st s v Hv Hvs Hfd path).
  - as_is. by apply (release_goes fs root e st s v Hv Hvs Hfd fh).
  - destruct (fsync_goes fs root e st s v Hv Hvs Hfd fh datasync) as [_ [z Hz]]. exists (RInt z), s. split; [done|]. split; [by constructor|done].
  - as_is. apply (idle_goes fs root e st s v Hv Hvs Hfd). cbn [vfs_step]. unfold map_res, sb_statfs, bind, ret. cbv zeta.
    cbn [fst snd]. reflexivity.
  - as_is. by apply (fsync_goes fs root e st s v Hv Hvs Hfd fh datasync).
  - destruct (getattr_goes fs root e st s v Hv Hvs Hfd path fi i n) as (stt & Hgo & ? & ? & ? & ? & ? & ? & ?); [done|done|].
    eexists _, _. split; [exact Hgo|]. split; [by apply (sp_getattr _ _ _ e s path fi i n)|].
    intros Hset. by destruct (Hset st0).
  - as_is. destruct (missing_goes fs root e st s v Hv Hvs Hfd path fi) as (G1 & G2 & G3 & G4); [done|]. apply G1.
  - as_is. by apply (chmod_goes fs root e st s v Hv Hvs Hfd path md fi i n).
  - as_is. destruct (missing_goes fs root e st s v Hv Hvs Hfd path fi) as (G1 & G2 & G3 & G4); [done|]. apply G2.
  - as_is. by apply (chown_goes fs root e st s v Hv Hvs Hfd path u g fi i n).
  - as_is. destruct (missing_goes fs root e st s v Hv Hvs Hfd path fi) as (G1 & G2 & G3 & G4); [done|]. apply G3.
  - as_is. by apply (utimens_goes fs root e st s v Hv Hvs Hfd path t0 t1 fi i n).
  - as_is. destruct (missing_goes fs root e st s v Hv Hvs Hfd path fi) as (G1 & G2 & G3 & G4); [done|]. apply G4.
  - as_is. by apply (create_goes fs root e st s v Hv Hvs Hfd q nm d id n m mode_).
  - as_is. by apply (mkdir_goes fs root e st s v Hv Hvs Hfd q nm d id n m mode_).
  - destruct (vs_dir v s Hvs d n m) as (o & es & Ho & Hon & Hdir & Hdis & He); [done|done|].
    assert (Hnames : ∀ k, is_Some (m !! k) → k ≠ []).
    { intros k [j Hj]. apply (tr_names _ _ Ht d k j). rewrite (s_find_node s d k n) by done. by replace (n_kind n) with (Dir m). }
    eexists _, _. split; [by apply (readdir_goes fs root e st s v Hv Hvs Hfd d n m o es)|].
    split; [eapply sp_readdir; try done; by apply ents_names|]. intros Hset. by destruct (Hset l).
  - as_is. by apply (readdir_file_goes fs root e st s v Hv Hvs Hfd path i n b).
  - as_is. by apply (readdir_none_goes fs root e st s v Hv Hvs Hfd path).
  - as_is. apply (unlink_goes fs root e st s v Hv Hvs Hfd Ht q nm d) with (c := c); try done; [by eapply no_real_file|].
    intros d'. by eapply file_no_back.
  - as_is. by apply (unlink_missing_goes fs root e st s v Hv Hvs Hfd Ht q nm d).
  - as_is. apply (rmdir_goes fs root e st s v Hv Hvs Hfd Ht q nm d) with (mc := mc) (c := c); try done.
    intros k Hk []. replace (n_kind c) with (Dir mc) in Hk by done.
    match goal with H : ∀ k, is_Some _ → _ |- _ => by destruct (H k Hk) end.
  - as_is. by apply (rmdir_full_goes fs root e st s v Hv Hvs Hfd Ht q nm d) with (i := i) (c := c) (mc := mc) (k := k).
  - as_is. by apply (rmdir_file_goes fs root e st s v Hv Hvs Hfd Ht q nm d) with (i := i) (c := c) (b := b).
  - as_is. by apply (rmdir_missing_goes fs root e st s v Hv Hvs Hfd Ht q nm d).
  - as_is. by apply (rename_goes fs root e st s v Hv Hvs Hfd Ht q1 n1 q2 n2 d1 d2) with (c := c) (c1 := c1) (m1 := m1).
  - as_is. apply (exchange_goes fs root e st s v Hv Hvs Hfd Ht q1 n1 q2 n2 d1 d2) with (ci := ci) (cj := cj); try done;
      by eapply small_of.
  - as_is. by apply (rename_missing_goes fs root e st s v Hv Hvs Hfd Ht q1 n1 q2 n2 d1 d2).
  - as_is. destruct (no_parent_goes fs root e st s v Hv Hvs Hfd q nm) as (G1 & G2 & G3 & G4 & G5); [done|done|done|].
    match goal with H : _ ∨ _ |- _ => destruct H as [(junk & md & ->)|[[md ->]|[->|[->|(p & fl & ->)]]]] end; auto.
Qed.

Lemma step_refined op r s' : step e s op r s' →
  ∃ r' s'' st', vfs_step fs e op st = (Some r', st') ∧ step e s op r' s'' ∧ sys_rel fs root st' s'' ∧
    (settled op r s s' → r' = r ∧ s'' = s').
Proof.
  intros Hstep. destruct (step_goes op r s' Hstep) as (r' & s'' & (st' & Hrun & [Hv Hfd]) & Hstep' & Hset).
  exists r', s'', st'. split; [done|]. split; [done|]. split; [|done]. split; [done|done|].
  by apply (spec_step_tree (ids_lo fs) (ids_hi fs) root e s op r' s'' (sr_tree _ _ _ _ Hsys)).
Qed.
End step.

(** ** Sequences of calls *)

Inductive spec_run : fsys → list (env * vfs_op) → list vfs_res → fsys → Prop :=
  | sr_nil s : spec_run s [] [] s
  | sr_cons s e op ops r s1 rs s2 :
      step e s op r s1 → spec_run s1 ops rs s2 → spec_run s ((e, op) :: ops) (observe op r :: rs) s2.

Lemma spec_run_tree s ops rs s' : tree_ok root s → spec_run s ops rs s' → tree_ok root s'.
Proof. intros Ht Hrun. induction Hrun; [done|]. apply IHHrun. by eapply spec_step_tree. Qed.

(** Every call is covered, whatever was chosen before. *)
Fixpoint covered (ops : list (env * vfs_op)) (s : fsys) : Prop :=
  match ops with
  | [] => True
  | (e, op) :: ops => (∃ r s', step e s op r s') ∧ ∀ r s', step e s op r s' → covered ops s'
  end.

Lemma run_refined ops : ∀ st s, sys_rel fs root st s → covered ops s →
  ∃ rs s' st', vfs_run fs ops st = (Some rs, st') ∧ spec_run s ops rs s' ∧ sys_rel fs root st' s'.
Proof.
  induction ops as [|[e op] ops IH]; intros st s Hsys Hcov.
  { exists [], s, st. split; [done|]. split; [constructor|done]. }
  destruct Hcov as ((r & s1 & Hstep) & Hrest).
  destruct (step_refined e st s Hsys op r s1 Hstep) as (r' & s1' & st1 & Hrun & Hstep' & Hsys1 & _).
  destruct (IH st1 s1' Hsys1 (Hrest r' s1' Hstep')) as (rs & s2 & st2 & Hruns & Hspec & Hsys2).
  exists (observe op r' :: rs), s2, st2. split; [|split; [by econstructor|done]].
  cbn [vfs_run]. rewrite (bind_Some _ _ _ _ _ Hrun). by rewrite (bind_Some _ _ _ _ _ Hruns).
Qed.

(** Runs without choices. *)
Inductive settled_run : fsys → list (env * vfs_op) → list vfs_res → fsys → Prop :=
  | st_nil s : settled_run s [] [] s
  | st_cons s e op ops r s1 rs s2 :
      step e s op r s1 → settled op r s s1 → settled_run s1 ops rs s2 →
      settled_run s ((e, op) :: ops) (observe op r :: rs) s2.

Lemma settled_run_exact ops : ∀ st s rs s', sys_rel fs root st s → settled_run s ops rs s' →
  ∃ st', vfs_run fs ops st = (Some rs, st') ∧ sys_rel fs root st' s'.
Proof.
  induction ops as [|[e op] ops IH]; intros st s rs s' Hsys Hrun; inv Hrun.
  { by exists st. }
  match goal with H : step e s op ?r ?s1 |- _ =>
    destruct (step_refined e st s Hsys op r s1 H) as (r' & s1' & st1 & Hr & _ & Hsys1 & Hset) end.
  destruct Hset as [-> ->]; [done|]. match goal with H : settled_run _ _ _ _ |- _ => destruct (IH st1 _ _ _ Hsys1 H) as (st2 & Hruns & Hsys2) end.
  exists st2. split; [|done]. cbn [vfs_run]. rewrite (bind_Some _ _ _ _ _ Hr). by rewrite (bind_Some _ _ _ _ _ Hruns).
Qed.
End refine.

(** ** The new file system *)

Definition new_fsys (e : env) (root room : Z) : fsys :=
  mkFsys {[ root := mkNode (u16 (cur_uid e)) (u16 (cur_gid e)) 1 (Z.lor S_IFDIR 0x1ed)
                      (Dir {[ dot := root; dotdot := root ]}) ]} room ∅ 10.

Lemma new_fsys_tree e root room : tree_ok root (new_fsys e root room).
Proof.
  assert (Hf : ∀ d k j, s_find (new_fsys e root room) d k = Some j → d = root ∧ j = root ∧ (k = dot ∨ k = dotdot)).
  { intros d k j. unfold s_find. cbn [s_nodes new_fsys]. destruct (decide (d = root)) as [->|Hne].
    - rewrite lookup_singleton_eq. cbn [n_kind]. intros [[<- <-]|[_ [<- <-]%lookup_singleton_Some]]%lookup_insert_Some; auto.
    - by rewrite lookup_singleton_ne. }
  assert (Hd : ∀ k, s_find (new_fsys e root room) root k = ({[ dot := root; dotdot := root ]} : gmap bytes Z) !! k).
  { intros k. unfold s_find. cbn [s_nodes new_fsys]. by rewrite lookup_singleton_eq. }
  split.
  - eexists _, _. split; [apply lookup_singleton_eq|done].
  - intros d (n & m & Hn & _). cbn [s_nodes new_fsys] in Hn. apply lookup_singleton_Some in Hn as [<- _]. rewrite Hd. split; [done|].
    exists root. rewrite Hd. split; [done|]. eexists _, _. split; [apply lookup_singleton_eq|done].
  - intros d k j [] (_ & _ & [->| ->])%Hf; done.
  - intros d1 k1 d2 k2 j [] _ (_ & _ & [->| ->])%Hf; done.
  - intros d k j (_ & _ & [->| ->])%Hf; done.
Qed.

Lemma new_sys total ibb pad e (m : store) :
  sizes_ok total ibb → 32769 ≤ total - ibb - ibb * 1024 → zlen pad = kBlockSize - 32 → zero_disk total ibb pad m →
  let fs := mounted_fs total ibb pad in
  let root := root_id ibb in
  ∃ m', SBFileSystem_create e pad total ibb m = (Some fs, m') ∧
    sys_rel fs root (init_state m') (new_fsys e root (slots (data_bitmap_ fs) - 1)).
Proof.
  intros Hsz Hroom Hpad Hz fs root.
  destruct (create_volume total ibb Hsz Hroom pad Hpad e m Hz) as (m' & Hrun & Hvol).
  exists m'. split; [done|]. set (s := new_fsys e root _). set (v := new_volume total ibb pad e) in *.
  assert (Hru : is_u32 root) by (unfold is_u32, root, root_id; destruct Hsz as (? & ? & ? & ?); lia).
  assert (Hw : Forall DirEntry_wf (root_entries root)) by (repeat constructor; apply DirEntry_new_wf).
  assert (K1 : key_of (DirEntry_new dot root) = dot) by done. assert (K2 : key_of (DirEntry_new dotdot root) = dotdot) by done.
  assert (Hvs : vs_rel v s).
  { split; [|done]. unfold v, new_volume, s, new_fsys. cbn [v_objs s_nodes]. rewrite <- !insert_empty.
    apply map_Forall2_insert_2; [|apply map_Forall2_empty]. split; [done|]. cbn [n_kind snd].
    exists (root_entries root). split; [apply root_dir|]. split.
    - unfold distinct, root_entries. cbn [fmap list_fmap]. rewrite K1, K2. apply NoDup_cons. split; [|apply NoDup_singleton].
      by intros ?%list_elem_of_singleton.
    - unfold root_entries. rewrite !ents_cons, K1, K2. unfold DirEntry_new. cbn [inode]. by rewrite !u32_small. }
  pose proof (new_fsys_tree e root (slots (data_bitmap_ fs) - 1)) as Ht. fold s in Ht.
  split; [|split; try done|done].
  - exists v. split; [|done]. split; [done|by apply (vs_names v s Hvs root)| |].
    + split; [done|]. unfold v, new_volume. cbn [v_objs]. rewrite lookup_singleton_eq. by eexists.
    + split; [apply PathResolver_new_ok|]. split; by intros k c.
  - intros fh. cbn [s_fds s new_fsys]. rewrite lookup_empty. by intros [].
Qed.

(** What a path is resolved to. *)
Lemma resolve_sys fs root st s e path : sys_rel fs root st s → path_fine path →
  (resolve e fs path st).1 = Some (default Position_invalid (getDiskInodePos fs <$> s_path root s path)).
Proof. intros [(v & Hv & Hvs) _ _] Hp. by destruct (resolve_rel fs root e st s v Hv Hvs path Hp) as (st' & -> & _). Qed.

Lemma path_valid fs root st s path i : sys_rel fs root st s → s_path root s path = Some i →
  is_Some (s_nodes s !! i) ∧ Position_isValid (getDiskInodePos fs i) = true.
Proof.
  intros [(v & Hv & Hvs) _ Ht] Hi. pose proof (path_some root s path i Ht Hi) as Hs. split; [done|].
  by apply (node_valid fs root s v Hvs st i Hv Hs).
Qed.

(** ** Unmounting and mounting again *)

(** The handles are gone, the files stay. *)
Definition s_remounted (s : fsys) : fsys := mkFsys (s_nodes s) (s_room s) ∅ 10.

Lemma sys_remount fs root st s : sys_rel fs root st s →
  SBFileSystem_open st.2.2 = (Some (Some fs), st.2.2) ∧ sys_rel fs root (init_state st.2.2) (s_remounted s).
Proof.
  intros [(v & Hv & Hvs) Hfd Ht]. pose proof (vf_vol _ _ _ _ Hv) as (F & HF & Hve).
  destruct (vg_open _ (vo_geom _ _ _ HF)) as (Hfs & Hwf & Hval). split.
  - unfold SBFileSystem_open. rewrite attempt_run.
    assert (Hr : dev_read 0 st.2.2 = (Some (SuperBlock_encode (super_block_ fs)), st.2.2)) by (apply map_read_eq; [done|apply (vo_super _ _ _ HF)]).
    rewrite Hr. cbn [fst snd]. rewrite SuperBlock_decode_encode by done. rewrite Hval. cbn [negb]. by rewrite <- Hfs.
  - split; [|split; try done|by apply (tree_nodes root s)].
    + exists v. split; [|by destruct Hvs]. destruct Hv as [H1 H2 H3 _]. split; [done|done|done|].
      split; [apply PathResolver_new_ok|]. split; by intros k c.
    + intros fh. cbn [s_fds s_remounted]. rewrite lookup_empty. by intros [].
Qed.

(** Sessions: each starts with the files the one before has left. *)
Section sessions.
Context (fs : SBFileSystem) (root : Z).

Inductive spec_sessions : fsys → list (list (env * vfs_op)) → list (list vfs_res) → fsys → Prop :=
  | ss_nil s : spec_sessions s [] [] s
  | ss_cons s ops xs rs s1 rss s2 :
      spec_run fs root (s_remounted s) ops rs s1 → spec_sessions s1 xs rss s2 →
      spec_sessions s (ops :: xs) (rs :: rss) s2.

Fixpoint covered_sessions (xs : list (list (env * vfs_op))) (s : fsys) : Prop :=
  match xs with
  | [] => True
  | ops :: xs =>
      covered fs root ops (s_remounted s) ∧
      ∀ rs s', spec_run fs root (s_remounted s) ops rs s' → covered_sessions xs s'
  end.
End sessions.

(** ** Over the cached device *)

Section cached.
Context {R : Type} `{RawDiskLaws R}.

(** Over any device that behaves as the blocks of [st]. *)
Lemma run_cached fs root ops (cst : VFS (D := BlockDevice R)) st s :
  vfs_rel cst st → sys_rel fs root st s → covered fs root ops s →
  ∃ rs s' st', (vfs_run fs ops cst).1 = Some rs ∧ spec_run fs root s ops rs s' ∧
    vfs_rel (vfs_run fs ops cst).2 st' ∧ sys_rel fs root st' s'.
Proof.
  intros Hrel Hsys Hcov. destruct (run_refined fs root ops st s Hsys Hcov) as (rs & s' & st' & Hrun & Hspec & Hsys').
  destruct (vfs_run_sim fs ops cst st Hrel) as [Hr Hrel']. rewrite Hrun in Hr, Hrel'. exists rs, s', st'. done.
Qed.

(** A disk file that holds the blocks, opened with any cache. *)
Lemma open_cached fs root st s (d : R) cs sz :
  0 < cs / kBlockSize → on_disk d st.2.2 → sys_rel fs root st s →
  (SBFileSystem_open (BlockDevice_new cs d sz)).1 = Some (Some fs) ∧
  vfs_rel (init_state (SBFileSystem_open (BlockDevice_new cs d sz)).2) (init_state st.2.2).
Proof.
  intros Hcs Hd Hsys. destruct (sys_remount fs root st s Hsys) as [Hopen _].
  destruct (SBFileSystem_open_sim (BlockDevice_new cs d sz) st.2.2) as [Hr Hk]; [by apply new_device_rel|].
  rewrite Hopen in Hr, Hk. by split.
Qed.

Lemma create_cached fs e pad total ibb (d : R) cs sz (m m' : store) :
  0 < cs / kBlockSize → on_disk d m → SBFileSystem_create e pad total ibb m = (Some fs, m') →
  (SBFileSystem_create e pad total ibb (BlockDevice_new cs d sz)).1 = Some fs ∧
  vfs_rel (init_state (SBFileSystem_create e pad total ibb (BlockDevice_new cs d sz)).2) (init_state m').
Proof.
  intros Hcs Hd Hrun.
  destruct (SBFileSystem_create_sim e pad total ibb (BlockDevice_new cs d sz) m) as [Hr Hk]; [by apply new_device_rel|].
  rewrite Hrun in Hr, Hk. by split.
Qed.
End cached.
