(* ===== verification/Fsck.v ===== *)
(** * What a check of the disk would find

    [consistent] says of the blocks of a disk, in terms of what is stored in
    them, what a file system check looks for: every file or directory has
    its inode where its id says, with the right type, size and link count;
    no block belongs to two files or twice to one; the data bitmap marks
    exactly the blocks that belong to files, the inode bitmap exactly the
    ids in use; and block 0 is the super block. *)

From S2P Require Import Prelude Bytes Config BlkIface Bitmap DataArea Layout InodeIO DiskInode Sbfs Inode FdManager PathResolver Vfs VfsRefine Frame SbfsProof PathProof FileMap FileData FileGrow FileResize FileIO Dir Touched DirOps DirCreate Volume VolumeOps VolumeDir VolumeNames VolumeVfs Spec SpecTree SpecRel.

Section fsck.
Context (fs : SBFileSystem) (m : store) (s : fsys).
Abbreviation P := (getDiskInodePos fs).
Abbreviation ibm := (inode_bitmap_ fs).

(** Node [x] of the tree of blocks of the file with id [i] is block [b]. *)
Definition holds (i : Z) (x : node) (b : Z) : Prop :=
  is_Some (s_nodes s !! i) ∧ ∃ di, inode_at m (P i) = Some di ∧ live (file_shape (data_blocks (size di))) x ∧ b = node_id m di x.

Record consistent : Prop := {
  ck_inode i n : s_nodes s !! i = Some n → ∃ di, inode_at m (P i) = Some di ∧ size di = n_size (n_kind n) ∧
    link_cnt di = n_links n ∧ type_ di = match n_kind n with File _ => kFile | Dir _ => kDirectory end;
  ck_apart i j x y b : holds i x b → holds j y b → i = j ∧ x = y;
  ck_used b : used m (data_bitmap_ fs) b ↔ ∃ i x, holds i x b;
  ck_ids i : data_segment_offset ibm ≤ i < data_segment_offset ibm + slots ibm →
    bm_bit m ibm (i - data_segment_offset ibm) = true ↔ is_Some (s_nodes s !! i);
  ck_super : m !! 0 = Some (SuperBlock_encode (super_block_ fs));
}.

Lemma vol_consistent v : vol fs m v → vs_rel v s → consistent.
Proof.
  intros (F & HF & Hve) Hvs. pose proof (vo_forest _ _ _ HF) as Hfo.
  assert (Hobj : ∀ i, v_objs v !! i = (λ di, (attrs di, content m di)) <$> F !! i).
  { intros i. rewrite Hve. apply lookup_fmap. }
  assert (Hdom : ∀ i, is_Some (F !! i) ↔ is_Some (s_nodes s !! i)).
  { intros i. rewrite <- (vs_some v s Hvs), Hobj. by rewrite fmap_is_Some. }
  assert (Hholds : ∀ i x b, holds i x b ↔ ∃ di, F !! i = Some di ∧ live (file_shape (data_blocks (size di))) x ∧ b = node_id m di x).
  { intros i x b. split.
    - intros ([di Hi]%Hdom & di' & Hat & Hx). destruct (vo_inode _ _ _ HF i di Hi) as [_ Hat']. exists di. split; [done|].
      by simplify_eq.
    - intros (di & Hi & Hx). split; [apply Hdom; by eexists|]. exists di. split; [|done]. apply (vo_inode _ _ _ HF i di Hi). }
  assert (Htb : ∀ i di x b, F !! i = Some di → live (file_shape (data_blocks (size di))) x → b = node_id m di x → tree_blocks m di b).
  { intros i di x b _ Hl ->. by exists x. }
  split.
  - intros i n Hn. destruct (vs_obj v s Hvs i n Hn) as (o & Ho & Hon). rewrite Hobj in Ho. apply fmap_Some in Ho as (di & Hi & ->).
    exists di. split; [apply (vo_inode _ _ _ HF i di Hi)|]. pose proof (obj_size _ _ Hon) as Hz. cbn [snd] in Hz.
    destruct (vol_size fs m F i di HF Hi) as (_ & Hsz & _). pose proof (or_attrs _ _ Hon) as Ha. cbn [fst] in Ha.
    unfold attrs, n_attrs in Ha. split; [congruence|]. by injection Ha.
  - intros i j x y b (di & Hi & Hx & Hb)%Hholds (dj & Hj & Hy & Hb')%Hholds.
    destruct (decide (i = j)) as [<-|Hne].
    + split; [done|]. simplify_eq. apply (t_inj _ _ _ (o_tree _ _ _ _ (fo_own _ _ _ Hfo i di Hi))); congruence.
    + destruct (fo_apart _ _ _ Hfo i j di dj b Hi Hj Hne); [by eapply Htb|by eapply Htb].
  - intros b. split.
    + intros (i & di & Hi & x & Hx)%(fo_used _ _ _ Hfo). exists i, x. apply Hholds. by exists di.
    + intros (i & x & (di & Hi & Hx & ->)%Hholds). by apply (o_used _ _ _ _ (fo_own _ _ _ Hfo i di Hi)).
  - intros i Hi. rewrite <- Hdom. by apply (vo_bits _ _ _ HF).
  - apply HF.
Qed.
End fsck.
