(* ===== verification/Samples.v ===== *)
(** * Sample states

    Small concrete disks on which the general theorems are applied: an
    empty disk, and a disk with one bitmap block, its area of data blocks,
    and one inode whose only data block is block 2. *)

From S2P Require Import Prelude Bytes Config BlkIface LruCache BlkDevice Bitmap DataArea Layout InodeIO DiskInode Sbfs Inode FdManager PathResolver FileMap FileGrow FileShrink FileResize FileIO Dir.

Definition env0 : env := mkEnv 0 0 0.

(** A disk of [n] zeroed blocks. *)
Definition blank (n : Z) : store := list_to_map ((λ b, (b, zero_block)) <$> seqZ 0 n).

Lemma blank_lookup n b : blank n !! b = if decide (0 ≤ b < n) then Some zero_block else None.
Proof.
  unfold blank. case_decide as Hb.
  - apply elem_of_list_to_map_1.
    + rewrite <- list_fmap_compose. replace (fst ∘ (λ b, (b, zero_block))) with (@Datatypes.id Z) by done.
      rewrite list_fmap_id. apply NoDup_seqZ.
    + apply list_elem_of_fmap. exists b. split; [done|]. apply elem_of_seqZ. lia.
  - apply not_elem_of_list_to_map_1. rewrite <- list_fmap_compose.
    intros (x & -> & Hx%elem_of_seqZ)%list_elem_of_fmap. simpl in Hb. lia.
Qed.

#[global] Opaque blank.

Lemma blank_in n b : 0 ≤ b < n → blank n !! b = Some zero_block.
Proof. intros. rewrite blank_lookup. by rewrite decide_True. Qed.

Lemma blank_wf n : n ≤ 2 ^ 32 → store_wf (blank n).
Proof.
  intros Hn b x. rewrite blank_lookup. case_decide; [|done]. intros [= <-].
  split; [unfold is_u32; lia|apply zero_block_wf].
Qed.

(** A file holding exactly the blocks of a store. *)
Lemma store_on_disk (m : store) : store_wf m → on_disk (m : file) m.
Proof.
  intros Hm. split; [done|]. intros b Hb. unfold dread. rewrite file_off by done. simpl.
  rewrite Z.mod_mul, Z.div_mul by done. simpl. destruct (m !! b) as [x|] eqn:Hx; [|done].
  simpl. rewrite blk_copy_id; [done|]. by destruct (Hm _ _ Hx).
Qed.

Lemma blank_device n :
  n ≤ 2 ^ 32 → cached_rel (BlockDevice_new (2 * kBlockSize) (blank n : file) 0) (blank n).
Proof. intros Hn. apply new_device_rel; [done|]. apply store_on_disk. by apply blank_wf. Qed.

Lemma insert_in (m : store) b x c : is_Some (m !! c) → is_Some (<[b := x]> m !! c).
Proof. intros Hc. destruct (decide (b = c)) as [<-|]; [by rewrite lookup_insert_eq; eexists|by rewrite lookup_insert_ne]. Qed.

(** ** One file *)

Definition bm0 : Bitmap := mkBitmap 1 1 2.
Definition pos0 : Position := mkPosition 33000 128.

Definition inode0 (t sz : Z) : DiskInode :=
  set_size sz (set_direct 0 2 (DiskInode_new env0 t)).

Definition disk0 (t sz : Z) (blk : block) : store :=
  <[33000 := splice 128 (DiskInode_encode (inode0 t sz)) zero_block]>
    (<[2 := blk]> (<[1 := set64 0 1 zero_block]> (blank 40000))).

Section sample.
Context (t sz : Z) (blk : block).
Context (Ht : is_u32 t) (Hsz : 0 < sz ≤ 4096) (Hblk : blk_wf blk).
Abbreviation m := (disk0 t sz blk).
Abbreviation di := (inode0 t sz).

Lemma inode0_wf : DiskInode_wf di.
Proof.
  destruct (DiskInode_new_wf env0 t Ht). split; simpl in *; try done; [unfold is_u32; lia|].
  split; [done|]. repeat constructor; done.
Qed.

Lemma inode0_block_wf : blk_wf (splice 128 (DiskInode_encode di) zero_block).
Proof.
  pose proof (zlen_DiskInode_encode di (proj1 (wf_direct _ inode0_wf))) as Hz.
  pose proof zero_block_wf as Hb. unfold blk_wf, kBlockSize, sizeof_DiskInode in *.
  rewrite zlen_splice; lia.
Qed.

Lemma disk0_wf : store_wf m.
Proof.
  assert (Hw : blk_wf (set64 0 1 zero_block)) by (vm_compute; reflexivity).
  unfold disk0. apply store_wf_insert; [|unfold is_u32; lia|apply inode0_block_wf].
  apply store_wf_insert; [|unfold is_u32; lia|exact Hblk].
  apply store_wf_insert; [apply blank_wf; lia|unfold is_u32; lia|exact Hw].
Qed.

Lemma disk0_in b : 0 ≤ b < 40000 → is_Some (m !! b).
Proof.
  intros Hb. unfold disk0. do 3 apply insert_in. rewrite blank_in by exact Hb. by eexists.
Qed.

Lemma disk0_area : area_ok m bm0.
Proof.
  split.
  - split_and!; [apply disk0_wf|by vm_compute|].
    intros b [Hb1 Hb2]. simpl in *. apply disk0_in. lia.
  - by vm_compute.
  - intros s Hs. change (slots bm0) with 32768 in Hs. apply disk0_in. simpl. lia.
Qed.

Lemma disk0_used : used m bm0 2.
Proof.
  split; [by vm_compute|]. unfold bm_bit, disk0. change (_ + _) with 1.
  rewrite lookup_insert_ne by done. rewrite lookup_insert_ne by done. rewrite lookup_insert_eq.
  by vm_compute.
Qed.

Lemma inode0_shape : data_blocks (size di) = 1.
Proof.
  simpl. destruct (data_blocks_eq sz) as (_ & _ & ?); [lia|]. unfold kBlockSize in *. lia.
Qed.

Lemma inode0_live x : live (file_shape 1) x → x = NData 0.
Proof. destruct x as [i| | |j]; simpl; [intros; f_equal; lia|done|done|].
  change (subs 1) with 0. lia. Qed.

Lemma disk0_own : file_own m bm0 di (file_shape 1).
Proof.
  split; [split| | | |].
  - apply disk0_wf.
  - apply (wf_direct _ inode0_wf).
  - split; [apply (wf_ind1 _ inode0_wf)|apply (wf_ind2 _ inode0_wf)].
  - apply file_shape_ok. change MAX_BLOCK_SIZE with 1049623. lia.
  - intros x ->%inode0_live. change (node_id m di (NData 0)) with 2. apply disk0_in. lia.
  - by intros x y ->%inode0_live ->%inode0_live.
  - apply disk0_area.
  - intros x ->%inode0_live. change (node_id m di (NData 0)) with 2. apply disk0_used.
  - intros _. reflexivity.
  - intros _. reflexivity.
Qed.

Lemma disk0_pos : pos_ok m pos0.
Proof. split_and!; [done|apply disk0_in; simpl; lia|vm_compute; discriminate|vm_compute; discriminate]. Qed.

Lemma disk0_inode : inode_at m pos0 = Some di.
Proof.
  unfold inode_at, disk0. simpl. rewrite lookup_insert_eq. simpl. f_equal.
  pose proof (zlen_DiskInode_encode di (proj1 (wf_direct _ inode0_wf))) as Hz.
  rewrite <- Hz at 1. rewrite slice_splice_eq; [apply DiskInode_decode_encode, inode0_wf|done|].
  rewrite Hz. pose proof zero_block_wf as Hb. unfold blk_wf, kBlockSize, sizeof_DiskInode in *. lia.
Qed.

Lemma disk0_file : file_at m bm0 pos0 di.
Proof.
  split; [apply disk0_pos|apply disk0_inode| |rewrite inode0_shape; apply disk0_own].
  unfold in_bitmap, in_area. change (slots bm0) with 32768. simpl. lia.
Qed.

Lemma disk0_bytes : file_bytes m di 1 = blk.
Proof.
  unfold file_bytes. change (seqZ 0 1) with [0]. cbn [mbind list_bind]. rewrite app_nil_r.
  unfold blk_at. change (node_id m di (NData 0)) with 2. unfold disk0.
  rewrite lookup_insert_ne by done. by rewrite lookup_insert_eq.
Qed.
End sample.

(** ** One directory *)

Definition entry0 : DirEntry := DirEntry_new [Byte.x61] 7.
Definition dirblk0 : block := splice 0 (DirEntry_encode entry0) zero_block.

Lemma dirblk0_wf : blk_wf dirblk0.
Proof. by vm_compute. Qed.

Lemma disk0_dir : dir_data (disk0 kDirectory 256 dirblk0) (inode0 kDirectory 256) [entry0].
Proof.
  assert (Hb : data_blocks (size (inode0 kDirectory 256)) = 1) by done.
  split.
  - constructor; [apply DirEntry_new_wf|done].
  - rewrite Hb. apply disk0_own; [done|done|apply dirblk0_wf].
  - done.
  - unfold content. rewrite Hb, disk0_bytes. by vm_compute.
Qed.

(** ** One file that reaches under [indirect2]

    Data block [i] of its 1049 is block [100 + i]; the index blocks are
    2000, 2001 and 2002; every bit of the bitmap is set. *)

Definition consecutive (a : Z) : block := seqZ a 1024 ≫= le_split 4.

Lemma consecutive_get a j : 0 ≤ a → a + 1024 < 2 ^ 32 → 0 ≤ j < 1024 → get32 (consecutive a) j = a + j.
Proof.
  intros Ha Hb Hj.
  pose proof (loads_of_words [] [] (seqZ a 1024) 0 1024) as Hl.
  rewrite app_nil_l, app_nil_r in Hl. fold (consecutive a) in Hl.
  assert (Hj' : (λ i, load 4 (0 + 4 * i) (consecutive a)) <$> seqZ 0 1024 = seqZ a 1024).
  { apply Hl; [done|unfold zlen; rewrite length_seqZ; lia|].
    apply Forall_forall. intros x Hx%elem_of_seqZ. unfold is_u32. lia. }
  clear Hl. revert Hj'. unfold get32. generalize (consecutive a). intros l Hl.
  apply (f_equal (.!! Z.to_nat j)) in Hl.
  rewrite list_lookup_fmap, !lookup_seqZ_lt in Hl by lia. simpl in Hl. injection Hl as Hl.
  replace (4 * j) with (4 * Z.of_nat (Z.to_nat j)) by lia.
  etrans; [exact Hl|]. lia.
Qed.

Lemma consecutive_wf a : blk_wf (consecutive a).
Proof. unfold blk_wf, consecutive. rewrite zlen_words. unfold zlen. by rewrite length_seqZ. Qed.

#[global] Opaque consecutive.

Definition ones_block : block := replicate 4096 Byte.xff.

Lemma ones_bit s : 0 ≤ s < 32768 → blk_bit ones_block s = true.
Proof.
  intros Hs. unfold blk_bit.
  assert (Hall : Forall (λ j, get64 ones_block j = UINT64_MAX) (seqZ 0 512)).
  { apply (bool_decide_unpack _). vm_compute. exact I. }
  destruct (word_bit s) as [_ Hm].
  rewrite Forall_forall in Hall. rewrite (Hall (s / 64)).
  - by apply testbit_UINT64_MAX.
  - apply elem_of_seqZ. pose proof (Z.div_pos s 64). pose proof (Z.div_lt_upper_bound s 64 512). lia.
Qed.

Definition big_inode : DiskInode :=
  mkDiskInode (1049 * 4096) 0 0 0 0 0 1 S_IFREG (seqZ 100 23) 2000 2001 kFile.

Definition big_disk : store :=
  <[1 := ones_block]> (<[2000 := consecutive 123]> (<[2001 := consecutive 2002]>
    (<[2002 := consecutive 1147]> (blank 40000)))).

Lemma big_in b : 0 ≤ b < 40000 → is_Some (big_disk !! b).
Proof. intros Hb. unfold big_disk. do 4 apply insert_in. rewrite blank_in by exact Hb. by eexists. Qed.

Lemma big_wf : store_wf big_disk.
Proof.
  unfold big_disk. apply store_wf_insert; [|unfold is_u32; lia|vm_compute; reflexivity].
  do 3 (apply store_wf_insert; [|unfold is_u32; lia|apply consecutive_wf]).
  apply blank_wf. lia.
Qed.

Lemma big_area : area_ok big_disk bm0.
Proof.
  split.
  - split_and!; [apply big_wf|by vm_compute|].
    intros b [Hb1 Hb2]. simpl in *. apply big_in. lia.
  - by vm_compute.
  - intros s Hs. change (slots bm0) with 32768 in Hs. apply big_in. simpl. lia.
Qed.

Lemma big_used b : 2 ≤ b < 32770 → used big_disk bm0 b.
Proof.
  intros Hb. split; [unfold in_area; change (slots bm0) with 32768; simpl; lia|].
  unfold bm_bit. change (data_segment_offset bm0) with 2.
  destruct (slot_split_in 0 (b - 2)) as [-> ->]; [unfold slot_per_block, kBlockSize; lia|].
  unfold big_disk. change (_ + 0) with 1. rewrite lookup_insert_eq. apply ones_bit. lia.
Qed.

Lemma big_blocks :
  blk_at big_disk 2000 = consecutive 123 ∧ blk_at big_disk 2001 = consecutive 2002 ∧
  blk_at big_disk 2002 = consecutive 1147.
Proof.
  unfold blk_at, big_disk. split_and!.
  - rewrite lookup_insert_ne by done. by rewrite lookup_insert_eq.
  - do 2 rewrite lookup_insert_ne by done. by rewrite lookup_insert_eq.
  - do 3 rewrite lookup_insert_ne by done. by rewrite lookup_insert_eq.
Qed.

(** Where its nodes are. *)
Definition big_id (x : node) : Z :=
  match x with NData i => 100 + i | NInd1 => 2000 | NInd2 => 2001 | NSub j => 2002 + j end.

#[local] Opaque get32 blk_at.

Lemma big_node_id x : live (file_shape 1049) x → node_id big_disk big_inode x = big_id x.
Proof.
  destruct big_blocks as (H1 & H2 & H3).
  destruct x as [i| | |j]; cbn [live file_shape s_data s_sub node_id big_id]; [|done|done|].
  - intros Hi. destruct (Z.ltb_spec i 23).
    + unfold direct_at, at_. cbn [big_inode direct]. destruct (Z.leb_spec 0 i); [|lia].
      rewrite lookup_seqZ_lt by lia. cbn [default from_option Datatypes.id]. lia.
    + cbn [big_inode indirect1 indirect2]. destruct (Z.ltb_spec i 1047).
      * rewrite H1, consecutive_get by lia. lia.
      * pose proof (Z.div_small (i - 1047) 1024 ltac:(lia)) as ->.
        rewrite H2.
        rewrite (consecutive_get 2002 0) by lia.
        rewrite Z.mod_small by lia. change (2002 + 0) with 2002. rewrite H3, consecutive_get by lia. lia.
  - change (subs 1049) with 1. intros Hj. cbn [big_inode indirect2]. by rewrite H2, consecutive_get by lia.
Qed.

#[local] Transparent get32 blk_at.

Lemma big_own : file_own big_disk bm0 big_inode (file_shape 1049).
Proof.
  assert (Hr : ∀ x, live (file_shape 1049) x → 2 ≤ big_id x < 32770).
  { intros [i| | |j]; cbn [live file_shape s_data s_sub big_id]; change (subs 1049) with 1; lia. }
  split; [split| | | |].
  - apply big_wf.
  - split; [reflexivity|]. apply Forall_forall. intros x Hx%elem_of_seqZ. unfold is_u32. lia.
  - split; unfold is_u32; simpl; lia.
  - apply file_shape_ok. change MAX_BLOCK_SIZE with 1049623. lia.
  - intros x Hx. rewrite big_node_id by done. apply big_in. pose proof (Hr x Hx). lia.
  - intros x y Hx Hy. rewrite !big_node_id by done.
    destruct x as [i| | |j], y as [i'| | |j']; cbn [live file_shape s_data s_sub big_id] in *;
      change (subs 1049) with 1 in *; intros; try lia; f_equal; lia.
  - apply big_area.
  - intros x Hx. rewrite big_node_id by done. apply big_used. by apply Hr.
  - done.
  - done.
Qed.
