(* ===== verification/SampleSystem.v ===== *)
(** * A sample file system

    A disk of 40001 zeroed blocks, on which [create] makes a file system
    with one inode-bitmap block; and a file [/f] in it. *)

From S2P Require Import Prelude Bytes Config BlkIface LruCache BlkDevice Bitmap DataArea Layout InodeIO DiskInode Sbfs Inode FdManager PathResolver Vfs VfsRefine SbfsProof PathProof FileMap FileResize FileIO Dir Touched FreshFs Volume VolumeOps VolumeDir FreshVolume VolumeNames VolumeVfs Spec SpecTree SpecRel SpecOps SpecRefine Samples.

Definition padS : bytes := zeros 4064.
Definition fsS : SBFileSystem := mounted_fs 40000 1 padS.
Definition mS : store := blank 40001.
Definition sS : fsys := new_fsys env0 2 32767.

Lemma sizesS : sizes_ok 40000 1 ∧ 32769 ≤ 40000 - 1 - 1 * 1024 ∧ zlen padS = kBlockSize - 32.
Proof. split; [unfold sizes_ok; lia|]. split; [lia|by vm_compute]. Qed.

Lemma zeroS : zero_disk 40000 1 padS mS.
Proof.
  destruct sizesS as (H1 & H2 & H3). destruct (new_layout 40000 1 H1 H2 padS) as (Hi & _ & Hd & _ & _ & _ & Hend).
  split; [apply blank_wf; lia|]. split; [|split].
  - intros b Hb. change (layout_end 40000 1) with 33795 in Hb. unfold mS. rewrite blank_in by lia. by eexists.
  - intros b. rewrite Hd. unfold in_bitmap. cbn [start_block_id num_blocks]. intros Hb. apply blank_in.
    change ((40000 - 1 - 1 * 1024) / 32769) with 1 in *. lia.
  - intros b. rewrite Hi. unfold in_bitmap. cbn [start_block_id num_blocks]. intros Hb. apply blank_in. lia.
Qed.

Lemma geomS : ids_lo fsS = 2 ∧ ids_hi fsS = 32768 ∧ slots (data_bitmap_ fsS) = 32768.
Proof.
  destruct sizesS as (H1 & H2 & H3). destruct (new_layout 40000 1 H1 H2 padS) as (Hi & _ & Hd & Hs & Hsd & _).
  unfold ids_lo, ids_hi. change (inode_bitmap_ fsS) with (inode_bitmap_ (new_fs 40000 1 padS)).
  change (data_bitmap_ fsS) with (data_bitmap_ (new_fs 40000 1 padS)). rewrite Hs, Hsd, Hi. done.
Qed.

(** The new file system and its abstraction. *)
Lemma newS : ∃ m, SBFileSystem_create env0 padS 40000 1 mS = (Some fsS, m) ∧ sys_rel fsS 2 (init_state m) sS.
Proof.
  destruct sizesS as (H1 & H2 & H3).
  destruct (new_sys 40000 1 padS env0 mS H1 H2 H3 zeroS) as (m & Hrun & Hsys). exists m. split; [done|].
  destruct geomS as (_ & _ & Hs). fold fsS in Hsys. rewrite Hs in Hsys. exact Hsys.
Qed.

(** The new file system over a cache of two blocks. *)
Lemma cached_sample : ∃ (cst : VFS (D := BlockDevice file)) st, vfs_rel cst st ∧ sys_rel fsS 2 st sS.
Proof.
  destruct newS as (m & Hrun & Hsys).
  destruct (create_cached fsS env0 padS 40000 1 (mS : file) 8192 0 mS m eq_refl) as [_ Hrel];
    [apply store_on_disk, blank_wf; lia|exact Hrun|].
  eexists _, _. split; [exact Hrel|exact Hsys].
Qed.

(** ** Names *)

Definition nameF : bytes := [Byte.x66].
Definition pathF : bytes := [Byte.x2f; Byte.x66].
Definition pathRoot : bytes := [Byte.x2f].

Lemma plainF : plain nameF ∧ no_slash nameF ∧ zlen nameF ≤ kMaxDirNameLength.
Proof.
  split; [split; [done|by repeat constructor|done]|]. split; [|by vm_compute].
  by intros ?%list_elem_of_singleton.
Qed.

Lemma fineS : path_fine pathRoot ∧ path_fine pathF.
Proof.
  split; split; try (unfold path_limit, zlen; simpl; lia); [by left|right].
  change (good_parts nameF). unfold good_parts, split. simpl. apply Forall_singleton, plainF.
Qed.

(** In any state [/f] is in the root directory. *)
Lemma entryF s : entry_path 2 s [] nameF 2.
Proof. split; [by left|apply fineS|done|apply plainF]. Qed.

Definition mdS : Z := 0x1a4.

Definition rootNode : snode := mkNode 0 0 1 (Z.lor S_IFDIR 0x1ed) (Dir {[ dot := 2; dotdot := 2 ]}).

(** The file system with [/f]. *)
Definition sF : fsys := s_open 3 (s_make env0 2 3 nameF false mdS rootNode {[ dot := 2; dotdot := 2 ]} sS).

Lemma rootS : s_nodes sS !! 2 = Some rootNode.
Proof. reflexivity. Qed.

Lemma freshS : s_fresh (ids_lo fsS) (ids_hi fsS) sS 3.
Proof.
  destruct geomS as (-> & -> & _). split; [lia|]. split; [done|]. intros j Hj. assert (j = 2) as -> by lia. by eexists.
Qed.

Lemma fitsS : entry_fits sS {[ dot := 2; dotdot := 2 ]} 1.
Proof. split; by vm_compute. Qed.

Lemma createF : spec_step (ids_lo fsS) (ids_hi fsS) 2 env0 sS (OpCreate Position_invalid pathF mdS) (RFh 0 (Some 10)) sF.
Proof.
  exact (sp_create _ _ _ env0 sS Position_invalid [] nameF 2 rootNode _ 3 mdS (entryF sS) rootS eq_refl eq_refl freshS fitsS eq_refl).
Qed.

Lemma mkdirF : spec_step (ids_lo fsS) (ids_hi fsS) 2 env0 sS (OpMkdir pathF mdS) (RInt 0)
  (s_make env0 2 3 nameF true mdS rootNode {[ dot := 2; dotdot := 2 ]} sS).
Proof. exact (sp_mkdir _ _ _ env0 sS [] nameF 2 rootNode _ 3 mdS (entryF sS) rootS eq_refl eq_refl freshS fitsS). Qed.

(** A file system with [/f], open under handle 10. *)
Lemma sampleF : ∃ st, sys_rel fsS 2 st sF.
Proof.
  destruct newS as (m & _ & Hsys).
  destruct (step_refined fsS 2 env0 _ _ Hsys _ _ _ createF) as (r & s' & st' & _ & _ & Hsys' & Hset).
  destruct Hset as [_ ->]; [done|]. by exists st'.
Qed.

(** What [getattr] can say of the root in any state. *)
Lemma getattr_covered root s e : root = 2 → tree_ok root s →
  ∃ r, spec_step (ids_lo fsS) (ids_hi fsS) root e s (OpGetattr pathRoot None) r s.
Proof.
  intros -> Ht. destruct (tr_root _ _ Ht) as (n & m & Hn & _).
  eexists. eapply (sp_getattr _ _ _ e s pathRoot None 2 n
    (mkStat (n_mode n) 0 0 0 (n_size (n_kind n)) (n_links n) (n_uid n) (n_gid n) (total_blocks (n_size (n_kind n))) kBlockSize));
    try done. split; [apply fineS|done].
Qed.

(** ** Two files *)

Definition nameG : bytes := [Byte.x67].
Definition pathG : bytes := [Byte.x2f; Byte.x67].

Lemma plainG : plain nameG ∧ no_slash nameG ∧ zlen nameG ≤ kMaxDirNameLength.
Proof.
  split; [split; [done|by repeat constructor|done]|]. split; [|by vm_compute].
  by intros ?%list_elem_of_singleton.
Qed.

Lemma entryG s : entry_path 2 s [] nameG 2.
Proof.
  split; [by left|split; [apply fineS|]|done|apply plainG].
  split; [unfold path_limit, zlen; simpl; lia|right]. change (good_parts nameG). unfold good_parts, split. simpl.
  apply Forall_singleton, plainG.
Qed.

Definition entsF : gmap bytes Z := <[nameF := 3]> {[ dot := 2; dotdot := 2 ]}.
Definition rootF : snode := set_kind (Dir entsF) rootNode.
Definition fileF : snode := new_node env0 3 2 false mdS.

Lemma rootF_node : s_nodes sF !! 2 = Some rootF.
Proof. reflexivity. Qed.

Lemma freshF : s_fresh (ids_lo fsS) (ids_hi fsS) sF 4.
Proof.
  destruct geomS as (-> & -> & _). split; [lia|]. split; [reflexivity|]. intros j Hj.
  destruct (decide (j = 2)) as [->|]; [by eexists|]. assert (j = 3) as -> by lia. by eexists.
Qed.

Lemma fitsF : entry_fits sF entsF 1.
Proof. split; by vm_compute. Qed.

(** The file system with [/f] and [/g]. *)
Definition sG : fsys := s_open 4 (s_make env0 2 4 nameG false mdS rootF entsF sF).

Lemma createG : spec_step (ids_lo fsS) (ids_hi fsS) 2 env0 sF (OpCreate Position_invalid pathG mdS) (RFh 0 (Some 11)) sG.
Proof.
  exact (sp_create _ _ _ env0 sF Position_invalid [] nameG 2 rootF _ 4 mdS (entryG sF) rootF_node eq_refl eq_refl freshF fitsF eq_refl).
Qed.

Lemma sampleG : ∃ st, sys_rel fsS 2 st sG.
Proof.
  destruct sampleF as (st & Hsys).
  destruct (step_refined fsS 2 env0 _ _ Hsys _ _ _ createG) as (r & s' & st' & _ & _ & Hsys' & Hset).
  destruct Hset as [_ ->]; [done|]. by exists st'.
Qed.

Definition entsG : gmap bytes Z := <[nameG := 4]> entsF.
Definition rootG : snode := set_kind (Dir entsG) rootF.

Lemma rootG_node : s_nodes sG !! 2 = Some rootG ∧ s_nodes sG !! 3 = Some fileF ∧ s_nodes sG !! 4 = Some (new_node env0 4 2 false mdS).
Proof. done. Qed.

(** ** Two directories *)

Definition dirF : snode := new_node env0 3 2 true mdS.
Definition sDF : fsys := s_make env0 2 3 nameF true mdS rootNode {[ dot := 2; dotdot := 2 ]} sS.
Definition dirG : snode := new_node env0 4 2 true mdS.
Definition sDG : fsys := s_make env0 2 4 nameG true mdS rootF entsF sDF.

Lemma mkdirG : spec_step (ids_lo fsS) (ids_hi fsS) 2 env0 sDF (OpMkdir pathG mdS) (RInt 0) sDG.
Proof.
  assert (Hfresh : s_fresh (ids_lo fsS) (ids_hi fsS) sDF 4).
  { destruct geomS as (-> & -> & _). split; [lia|]. split; [reflexivity|]. intros j Hj.
    destruct (decide (j = 2)) as [->|]; [by eexists|]. assert (j = 3) as -> by lia. by eexists. }
  assert (Hfit : entry_fits sDF entsF 1) by (split; by vm_compute).
  exact (sp_mkdir _ _ _ env0 sDF [] nameG 2 rootF _ 4 mdS (entryG sDF) eq_refl eq_refl eq_refl Hfresh Hfit).
Qed.

Lemma sampleD : ∃ st, sys_rel fsS 2 st sDG.
Proof.
  destruct newS as (m & _ & Hsys).
  destruct (step_refined fsS 2 env0 _ _ Hsys _ _ _ mkdirF) as (r1 & s1 & st1 & _ & _ & Hsys1 & [_ ->]); [done|].
  destruct (step_refined fsS 2 env0 _ _ Hsys1 _ _ _ mkdirG) as (r2 & s2 & st2 & _ & _ & Hsys2 & [_ ->]); [done|].
  by exists st2.
Qed.

Definition pathGF : bytes := pathG ++ pathF.

(** [/g/f] is an entry of [/g]. *)
Lemma entryGF : entry_path 2 sDG pathG nameF 4.
Proof.
  assert (Hg : good_parts nameG) by (unfold good_parts, split; simpl; apply Forall_singleton, plainG).
  assert (Hgf : good_parts (nameG ++ pathF)) by
    (unfold good_parts, split; simpl; constructor; [apply plainG|apply Forall_singleton, plainF]).
  split; [by right| |reflexivity|apply plainF].
  split; (split; [unfold path_limit, zlen; simpl; lia|right]); assumption.
Qed.
