(* ===== verification/ProgramTheorems.v ===== *)
(** * The program as a whole

    The calls that reach the handlers from several threads are answered as
    if they had been made one after the other, and all of them are
    answered; and what one run of [main] leaves on the disk file is what
    the next run finds. *)

From S2P Require Import Prelude Bytes Config BlkIface LruCache BlkDevice Bitmap DataArea Layout InodeIO DiskInode Sbfs Inode FdManager PathResolver Vfs VfsRefine Concurrent Main SbfsProof FreshFs FreshVolume Spec SpecTree SpecRel SpecOps SpecRefine Samples SampleSystem.

Section program.
Context {R : Type} `{RawDiskLaws R}.

(** An order of calls the specification covers is a run of it. *)
Lemma runs_spec fs root (cst cst' : VFS (D := BlockDevice R)) st s h :
  vfs_rel cst st → sys_rel fs root st s → runs fs h cst cst' → covered fs root (h_calls h) s →
  ∃ s' st', spec_run fs root s (h_calls h) (h_results h) s' ∧ vfs_rel cst' st' ∧ sys_rel fs root st' s'.
Proof.
  intros Hrel Hsys Hrun Hcov. destruct (run_cached fs root _ cst st s Hrel Hsys Hcov) as (rs & s' & st' & Hr & Hspec & Hrel' & Hsys').
  rewrite Hrun in Hr, Hrel'. injection Hr as <-. by exists s', st'.
Qed.

(** Starting on an empty disk, and on one that holds a file system. *)
Section start.
Context (fuse_opt_parse : list bytes → options → Z * options) (stat_size : R → Z).
Abbreviation opts := (main_options fuse_opt_parse).
Abbreviation init := (main_init fuse_opt_parse stat_size).

Lemma main_init_create e pad argv files m m' fs :
  opt_is_open (opts argv) = 0 → on_disk (files (disk_path (opts argv))) m →
  SBFileSystem_create e pad kFSDataBlocks kInodeBitmapBlocks m = (Some fs, m') →
  ∃ dev, init e pad argv files = (Some fs, dev) ∧ vfs_rel (init_state dev) (init_state m').
Proof.
  intros Ho Hd Hrun. unfold main_init. rewrite Ho. cbn [negb Z.eqb]. cbv zeta.
  destruct (create_cached fs e pad _ _ _ kBlockCacheSize kDiskSize m m' eq_refl Hd Hrun) as [Hr Hrel].
  unfold init_vfs. destruct (SBFileSystem_create e pad _ _ (BlockDevice_new _ _ _)) as [r dev] eqn:Hc. cbn [fst snd] in Hr, Hrel.
  subst r. exists dev. by rewrite (bind_Some _ _ _ _ _ Hc).
Qed.

Lemma main_init_open e pad argv files fs root st s :
  opt_is_open (opts argv) ≠ 0 → on_disk (files (disk_path (opts argv))) st.2.2 → sys_rel fs root st s →
  ∃ dev, init e pad argv files = (Some fs, dev) ∧ vfs_rel (init_state dev) (init_state st.2.2).
Proof.
  intros Ho Hd Hsys. unfold main_init. rewrite (proj2 (Z.eqb_neq _ _) Ho). cbn [negb]. cbv zeta.
  destruct (open_cached fs root st s _ kBlockCacheSize (stat_size (files (disk_path (opts argv)))) eq_refl Hd Hsys) as [Hr Hrel].
  unfold init_vfs. destruct (SBFileSystem_open (BlockDevice_new _ _ _)) as [r dev]. cbn [fst snd] in Hr, Hrel. subst r.
  by exists dev.
Qed.

(** One run, once it has started. *)
Lemma main_run_spec e pad argv files tr files' fs dev root st s :
  main_run fuse_opt_parse stat_size e pad argv files tr files' → init e pad argv files = (Some fs, dev) →
  vfs_rel (init_state dev) st → sys_rel fs root st s →
  ∃ h, explains h tr ∧ (covered fs root (h_calls h) s →
    ∃ s' st', spec_run fs root s (h_calls h) (h_results h) s' ∧ sys_rel fs root st' s' ∧
      on_disk (files' (disk_path (opts argv))) st'.2.2).
Proof.
  intros [fs1 dev1 tr1 c Hi Hex _] Hinit Hrel Hsys. rewrite Hinit in Hi. injection Hi as <- <-.
  destruct (exec_linearizes fs _ tr1 c Hex) as (h & Hx & Hrun). exists h. split; [done|]. intros Hcov.
  destruct (runs_spec fs root _ _ st s h Hrel Hsys Hrun Hcov) as (s' & st' & Hspec & Hrel' & Hsys').
  exists s', st'. split; [done|]. split; [done|]. unfold set_file. rewrite decide_True by done. by apply sb_destroy_on_disk.
Qed.
End start.

(** C2. Calls from several threads, interleaved in any way, over the cached
    device: there is one order of the calls that explains all results the
    callers saw (every returned call is in it with its result, and comes
    before all calls made after it returned); the handlers run one after
    the other in this order do the same; and as far as the specification
    covers these calls, the results are those of a run of the abstract
    file system. *)
Theorem concurrent_calls_linearize fs root (cst : VFS (D := BlockDevice R)) st s tr c :
  vfs_rel cst st → sys_rel fs root st s → exec fs (c_init cst) tr c →
  ∃ h, explains h tr ∧ runs fs h cst (c_vfs c) ∧
    (covered fs root (h_calls h) s → ∃ s', spec_run fs root s (h_calls h) (h_results h) s').
Proof.
  intros Hrel Hsys Hex. destruct (exec_linearizes fs cst tr c Hex) as (h & Hx & Hrun). exists h. split; [done|]. split; [done|].
  intros Hcov. destruct (runs_spec fs root cst (c_vfs c) st s h Hrel Hsys Hrun Hcov) as (s' & st' & ? & _). by exists s'.
Qed.

(** C5. No call waits forever: every step of a thread that is not a new call
    brings the end of some call nearer, and from every configuration that
    can be reached, the calls that were made can be finished without new
    ones; unless one of them is a call the specification does not cover
    after those that were answered before it. *)
Theorem concurrent_calls_finish fs root (cst : VFS (D := BlockDevice R)) st s tr c :
  vfs_rel cst st → sys_rel fs root st s → exec fs (c_init cst) tr c →
  (∀ es c', cstep fs c es c' → is_call es ∨ (work c' < work c)%nat) ∧
  ∃ tr' c' h, exec fs (c_init cst) (tr ++ tr') c' ∧ (∀ k cl, ECall k cl ∉ tr') ∧ explains h (tr ++ tr') ∧
    (c_threads c' = ∅ ∨ ∃ k cl, ECall k cl ∈ tr ∧ (k ∉ h_ids h) ∧ ¬ covered fs root (h_calls h ++ [cl]) s).
Proof.
  intros Hrel Hsys Hex. split; [intros es c'; apply work_decreases|].
  destruct (exec_progress fs cst tr c Hex) as (tr' & c' & Hex' & Hno & Hend).
  destruct (exec_cinv fs cst _ c' Hex') as (h & [X L _ Ph _ _]). exists tr', c', h.
  split; [done|]. split; [done|]. split; [done|]. destruct Hend as [He|(t & k & cl & Ht & Hu)]; [by left|right].
  destruct (Ph t _ Ht) as ([Hin|Hin]%elem_of_app & Hk & _); [|by destruct (Hno k cl)].
  exists k, cl. split; [done|]. split; [done|]. intros Hcov.
  destruct (run_cached fs root _ cst st s Hrel Hsys Hcov) as (rs & s' & st' & Hr & _).
  by rewrite (runs_undefined fs h cst _ cl L Hu) in Hr.
Qed.

(** C1. The program, run twice on a disk file that was empty: first making a
    file system, then, after it was unmounted, with [--open].  Both times
    it starts.  The calls of the first run are answered as those of an
    abstract file system that is empty at first, in an order that explains
    what the callers saw; the second run finds the files and directories
    the first has left (and no open file), and goes on from there. *)
Theorem program_correct (fuse_opt_parse : list bytes → options → Z * options) (stat_size : R → Z)
    pad1 pad2 e1 e2 argv1 argv2 (files : bytes → R) path o m :
  fuse_opt_parse argv1 default_options = (0, mkOptions path 0) →
  fuse_opt_parse argv2 default_options = (0, mkOptions path o) → o ≠ 0 →
  zlen pad1 = kBlockSize - 32 → zero_disk kFSDataBlocks kInodeBitmapBlocks pad1 m → on_disk (files path) m →
  let fs := mounted_fs kFSDataBlocks kInodeBitmapBlocks pad1 in
  let root := root_id kInodeBitmapBlocks in
  let new := new_fsys e1 root (slots (data_bitmap_ fs) - 1) in
  (main_init fuse_opt_parse stat_size e1 pad1 argv1 files).1 = Some fs ∧
  ∀ tr1 files1, main_run fuse_opt_parse stat_size e1 pad1 argv1 files tr1 files1 →
  ∃ h1, explains h1 tr1 ∧ (covered fs root (h_calls h1) new →
  ∃ s1, spec_run fs root new (h_calls h1) (h_results h1) s1 ∧
  (main_init fuse_opt_parse stat_size e2 pad2 argv2 files1).1 = Some fs ∧
  ∀ tr2 files2, main_run fuse_opt_parse stat_size e2 pad2 argv2 files1 tr2 files2 →
  ∃ h2, explains h2 tr2 ∧ (covered fs root (h_calls h2) (s_remounted s1) →
  ∃ s2, spec_run fs root (s_remounted s1) (h_calls h2) (h_results h2) s2)).
Proof.
  intros Ho1 Ho2 Ho Hpad Hz Hd fs root new.
  assert (Hsz : sizes_ok kFSDataBlocks kInodeBitmapBlocks) by (unfold sizes_ok; by vm_compute).
  assert (Hroom : 32769 ≤ kFSDataBlocks - kInodeBitmapBlocks - kInodeBitmapBlocks * 1024) by by vm_compute.
  destruct (new_sys _ _ pad1 e1 m Hsz Hroom Hpad Hz) as (m' & Hcreate & Hsys). fold fs root new in Hcreate, Hsys.
  assert (Hp1 : main_options fuse_opt_parse argv1 = mkOptions path 0) by (unfold main_options; by rewrite Ho1).
  assert (Hp2 : main_options fuse_opt_parse argv2 = mkOptions path o) by (unfold main_options; by rewrite Ho2).
  destruct (main_init_create fuse_opt_parse stat_size e1 pad1 argv1 files m m' fs) as (dev1 & Hi1 & Hrel1); [by rewrite Hp1..|done|].
  split; [by rewrite Hi1|]. intros tr1 files1 Hmain1.
  destruct (main_run_spec _ _ e1 pad1 argv1 files tr1 files1 fs dev1 root _ _ Hmain1 Hi1 Hrel1 Hsys) as (h1 & Hx1 & Hspec1).
  exists h1. split; [done|]. intros Hcov1. destruct (Hspec1 Hcov1) as (s1 & st1 & Hs1 & Hsys1 & Hd1). rewrite Hp1 in Hd1.
  exists s1. split; [done|].
  destruct (main_init_open fuse_opt_parse stat_size e2 pad2 argv2 files1 fs root st1 s1) as (dev2 & Hi2 & Hrel2); [by rewrite Hp2..|done|].
  split; [by rewrite Hi2|]. intros tr2 files2 Hmain2. destruct (sys_remount fs root st1 s1 Hsys1) as [_ Hsys2].
  destruct (main_run_spec _ _ e2 pad2 argv2 files1 tr2 files2 fs dev2 root _ _ Hmain2 Hi2 Hrel2 Hsys2) as (h2 & Hx2 & Hspec2).
  exists h2. split; [done|]. intros Hcov2. destruct (Hspec2 Hcov2) as (s2 & st2 & Hs2 & _). by exists s2.
Qed.
End program.

(** ** Instances *)

Definition statfs0 : call := (env0, OpStatfs).

Definition statfs_res : vfs_res :=
  let blocks := u64 (kDiskSize / kBlockSize) in
  let files := u64 (kInodeBitmapBlocks * kBlockSize * 8) in
  RStatvfs 0 (mkStatvfs kBlockSize kBlockSize blocks blocks blocks files files files 255).

(** Two threads ask for [statfs]; the one that called last is served first. *)
Definition tr_made : list event := [ECall 0 statfs0; ECall 1 statfs0].
Definition tr_two : list event := tr_made ++ [ERet 1 statfs_res; ERet 0 statfs_res].

Section two.
Context {D : Type} `{BlkDev D} (fs : SBFileSystem) (st : VFS (D := D)).

Definition conf_two (m : option nat) (th : list (nat * phase)) : conf (D := D) := mkConf st m (list_to_map th) 2.

Lemma exec_made : exec fs (c_init st) tr_made (conf_two None [(1, Called 1 statfs0); (0, Called 0 statfs0)]%nat).
Proof.
  apply (exec_step fs _ [ECall 0 statfs0] (mkConf st None (list_to_map [(0, Called 0 statfs0)]%nat) 1) [ECall 1 statfs0]).
  - apply (exec_step fs _ [] (c_init st) [ECall 0 statfs0]); [constructor|]. by apply (cs_call fs (c_init st) 0%nat statfs0).
  - by apply (cs_call fs (mkConf st None (list_to_map [(0, Called 0 statfs0)]%nat) 1) 1%nat statfs0).
Qed.

(** Thread [t] of the two goes through its call. *)
Lemma serve tr t k th : exec fs (c_init st) tr (mkConf st None th 2) → th !! t = Some (Called k statfs0) →
  exec fs (c_init st) (tr ++ [ERet k statfs_res]) (mkConf st None (delete t th) 2).
Proof. intros Hex Ht. exact (exec_serve fs (c_init st) tr st 2 th t k statfs0 statfs_res st Hex Ht eq_refl). Qed.

Lemma exec_two : exec fs (c_init st) tr_two (mkConf st None ∅ 2).
Proof.
  pose proof (serve _ 1%nat 1%nat _ exec_made eq_refl) as H1. pose proof (serve _ 0%nat 0%nat _ H1 eq_refl) as H2.
  rewrite <- app_assoc in H2. exact H2.
Qed.
End two.

(** Whenever it is asked for, [statfs] is covered. *)
Lemma statfs_covered fs root calls : Forall (λ c, c = statfs0) calls → ∀ s, covered fs root calls s.
Proof.
  induction 1 as [|cl calls -> _ IH]; intros s; [done|]. split; [|intros r s' _; apply IH].
  exists statfs_res, s. apply sp_statfs.
Qed.

(** Any order that explains calls of [statfs] is covered. *)
Lemma statfs_explained fs root h tr s : explains h tr → (∀ k cl, ECall k cl ∈ tr → cl = statfs0) → covered fs root (h_calls h) s.
Proof.
  intros [_ Hcall _ _] Htr. apply statfs_covered, Forall_forall. intros cl ([[k cl'] r] & -> & Hin)%list_elem_of_fmap.
  by apply (Htr k), (Hcall k cl' r).
Qed.

Lemma tr_two_calls k cl : ECall k cl ∈ tr_two → cl = statfs0.
Proof.
  unfold tr_two, tr_made. cbn [app]. rewrite !elem_of_cons.
  intros [[= _ ->]|[[= _ ->]|[Hr|[Hr|Hn%not_elem_of_nil]]]]; done.
Qed.

Lemma concurrent_calls_linearize_witness : ∃ (cst cst' : VFS (D := BlockDevice file)) h s',
  explains h tr_two ∧ runs fsS h cst cst' ∧ spec_run fsS 2 sS (h_calls h) (h_results h) s'.
Proof.
  destruct cached_sample as (cst & st & Hrel & Hsys).
  destruct (concurrent_calls_linearize fsS 2 cst st sS tr_two _ Hrel Hsys (exec_two fsS cst)) as (h & Hx & Hrun & Hspec).
  destruct Hspec as (s' & Hspec); [by apply (statfs_explained fsS 2 h tr_two), tr_two_calls|].
  by exists cst, cst, h, s'.
Defined.

Lemma concurrent_calls_finish_witness : ∃ (cst : VFS (D := BlockDevice file)) tr' c' h,
  exec fsS (c_init cst) (tr_made ++ tr') c' ∧ explains h (tr_made ++ tr') ∧ c_threads c' = ∅.
Proof.
  destruct cached_sample as (cst & st & Hrel & Hsys).
  destruct (concurrent_calls_finish fsS 2 cst st sS tr_made _ Hrel Hsys (exec_made fsS cst)) as (_ & tr' & c' & h & Hex & Hno & Hx & Hend).
  exists cst, tr', c', h. split; [exact Hex|]. split; [exact Hx|]. destruct Hend as [He|(k & cl & Hin & _ & Hbad)]; [exact He|].
  exfalso. apply Hbad, statfs_covered, Forall_app.
  assert (Hcl : ∀ k cl, ECall k cl ∈ tr_made → cl = statfs0) by (intros k0 cl0 H0; apply (tr_two_calls k0), elem_of_app; by left).
  split; [|apply Forall_singleton; by apply (Hcl k)].
  apply Forall_forall. intros cl' ([[k' cl''] r] & -> & Hh)%list_elem_of_fmap. apply (ex_called _ _ Hx) in Hh.
  apply elem_of_app in Hh as [Hh|Hh]; [by apply (Hcl k')|by destruct (Hno k' cl'')].
Defined.

(** An option parser that knows [--open=1] as any argument. *)
Definition parse0 (argv : list bytes) (o : options) : Z * options :=
  match argv with [] => (0, o) | _ :: _ => (0, mkOptions (disk_path o) 1) end.

Definition files0 : bytes → file := λ _, blank kFSDataBlocks.

Lemma zero0 : zero_disk kFSDataBlocks kInodeBitmapBlocks padS (blank kFSDataBlocks).
Proof.
  assert (Hsz : sizes_ok kFSDataBlocks kInodeBitmapBlocks) by (unfold sizes_ok; by vm_compute).
  assert (Hroom : 32769 ≤ kFSDataBlocks - kInodeBitmapBlocks - kInodeBitmapBlocks * 1024) by by vm_compute.
  destruct (new_layout kFSDataBlocks kInodeBitmapBlocks Hsz Hroom padS) as (Hi & _ & Hd & _).
  change kFSDataBlocks with 4194304 in *. change kInodeBitmapBlocks with 1 in *.
  change ((4194304 - 1 - 1 * 1024) / 32769) with 127 in *.
  split; [apply blank_wf; lia|]. split; [|split].
  - intros b Hb. change (layout_end 4194304 1) with 4162689 in Hb. rewrite blank_in by lia. by eexists.
  - intros b. rewrite Hd. unfold in_bitmap. cbn [start_block_id num_blocks]. intros Hb. apply blank_in. lia.
  - intros b. rewrite Hi. unfold in_bitmap. cbn [start_block_id num_blocks]. intros Hb. apply blank_in. lia.
Qed.

Lemma program_correct_witness : ∃ tr1 files1 h1 s1,
  main_run parse0 (λ _, kDiskSize) env0 padS [] files0 tr1 files1 ∧ tr1 = tr_two ∧
  explains h1 tr1 ∧ spec_run (mounted_fs kFSDataBlocks kInodeBitmapBlocks padS) 2
    (new_fsys env0 2 (slots (data_bitmap_ (mounted_fs kFSDataBlocks kInodeBitmapBlocks padS)) - 1)) (h_calls h1) (h_results h1) s1 ∧
  (main_init parse0 (λ _, kDiskSize) env0 padS [[Byte.x31]] files1).1 = Some (mounted_fs kFSDataBlocks kInodeBitmapBlocks padS).
Proof.
  destruct (program_correct parse0 (λ _, kDiskSize) padS padS env0 env0 [] [[Byte.x31]] files0 (disk_path default_options) 1
    (blank kFSDataBlocks) eq_refl eq_refl ltac:(done) ltac:(by vm_compute) zero0) as [Hstart Hrun];
    [apply store_on_disk, blank_wf; by vm_compute|].
  destruct (main_init parse0 (λ _, kDiskSize) env0 padS [] files0) as [fs dev] eqn:Hinit. cbn [fst] in Hstart. subst fs.
  pose proof (main_returns parse0 (λ _, kDiskSize) env0 padS [] files0 _ dev tr_two _ Hinit (exec_two _ (init_state dev)) eq_refl) as Hmain.
  destruct (Hrun _ _ Hmain) as (h1 & Hx & Hspec). destruct Hspec as (s1 & Hs1 & Hopen & _).
  { by apply (statfs_explained _ _ h1 tr_two), tr_two_calls. }
  eexists _, _, h1, s1. split; [exact Hmain|]. split; [reflexivity|]. split; [exact Hx|]. split; [exact Hs1|exact Hopen].
Defined.
