(* ===== verification/SpecTheorems.v ===== *)
(** * The file system as a whole

    What a user of the file system gets, from making it on an empty disk
    to mounting it again: every call is answered as the abstract file
    system of [Spec.v] answers it, over the cached device and across an
    unmount; and what follows from that for single calls.  At the end, the
    ways in which [rename] does not do what it means to. *)

From S2P Require Import Prelude Bytes Config BlkIface LruCache BlkDevice Bitmap DataArea Layout InodeIO DiskInode Sbfs Inode FdManager PathResolver Vfs VfsRefine Concurrent Main Frame SbfsProof PathProof FileMap FileData FileResize FileIO Dir Touched DirOps DirCreate DirRemove FreshFs Volume VolumeOps VolumeDir FreshVolume VolumeNames VolumeVfs Spec SpecTree SpecLaws SpecRel SpecOps SpecDirs SpecRemove SpecRename SpecRefine Fsck Samples SampleSystem.

(** ** From an empty disk *)

Section system.
Context {R : Type} `{RawDiskLaws R}.

(** C3. On an empty disk of any size the layout allows, through caches of
    any size: [create] succeeds; every sequence of calls the specification
    covers is answered, call by call, with results the abstract file system
    allows, starting from an empty root directory; after [sb_destroy], and
    whatever the cache had not written back before it, [open] on the disk
    file finds the same file system, and further calls are answered from
    the same files and directories with no file open. *)
Theorem file_system_correct e pad total ibb (d : R) m cs1 sz1 cs2 sz2 ops1 ops2 :
  sizes_ok total ibb → 32769 ≤ total - ibb - ibb * 1024 → zlen pad = kBlockSize - 32 →
  zero_disk total ibb pad m → on_disk d m → 0 < cs1 / kBlockSize → 0 < cs2 / kBlockSize →
  let fs := mounted_fs total ibb pad in
  let root := root_id ibb in
  let new := new_fsys e root (slots (data_bitmap_ fs) - 1) in
  covered fs root ops1 new → (∀ rs s, spec_run fs root new ops1 rs s → covered fs root ops2 (s_remounted s)) →
  let c1 := SBFileSystem_create e pad total ibb (BlockDevice_new cs1 d sz1) in
  let run1 := vfs_run fs ops1 (init_state c1.2) in
  let c2 := SBFileSystem_open (BlockDevice_new cs2 (fd_ (sb_destroy run1.2).2.2.2) sz2) in
  let run2 := vfs_run fs ops2 (init_state c2.2) in
  c1.1 = Some fs ∧ c2.1 = Some (Some fs) ∧
  ∃ rs1 s1 rs2 s2, run1.1 = Some rs1 ∧ spec_run fs root new ops1 rs1 s1 ∧
    run2.1 = Some rs2 ∧ spec_run fs root (s_remounted s1) ops2 rs2 s2.
Proof.
  intros Hsz Hroom Hpad Hz Hd Hcs1 Hcs2 fs root new Hcov1 Hcov2 c1 run1 c2 run2.
  destruct (new_sys total ibb pad e m Hsz Hroom Hpad Hz) as (m' & Hcreate & Hsys). fold fs root new in Hcreate, Hsys.
  destruct (create_cached fs e pad total ibb d cs1 sz1 m m' Hcs1 Hd Hcreate) as [Hc1 Hrel1]. fold c1 in Hc1, Hrel1.
  destruct (run_cached fs root ops1 _ _ _ Hrel1 Hsys Hcov1) as (rs1 & s1 & st1 & Hr1 & Hs1 & Hrel & Hsys1). fold run1 in Hr1, Hrel.
  pose proof (sb_destroy_on_disk run1.2 st1 Hrel) as Hd2.
  destruct (open_cached fs root st1 s1 _ cs2 sz2 Hcs2 Hd2 Hsys1) as [Hc2 Hrel2]. fold c2 in Hc2, Hrel2.
  destruct (sys_remount fs root st1 s1 Hsys1) as [_ Hsys2].
  destruct (run_cached fs root ops2 _ _ _ Hrel2 Hsys2 (Hcov2 rs1 s1 Hs1)) as (rs2 & s2 & st2 & Hr2 & Hs2 & _).
  split; [done|]. split; [done|]. by exists rs1, s1, rs2, s2.
Qed.

(** C6. Where the specification leaves no choice (all but the times in a
    [stat], the order of [readdir], [fsync]'s result and the bytes of an
    extended file), the handlers return over the cached device exactly the
    results the abstract run has. *)
Theorem settled_calls_exact fs root ops (cst : VFS (D := BlockDevice R)) st s rs s' :
  vfs_rel cst st → sys_rel fs root st s → settled_run fs root s ops rs s' →
  (vfs_run fs ops cst).1 = Some rs ∧ ∃ st', vfs_rel (vfs_run fs ops cst).2 st' ∧ sys_rel fs root st' s'.
Proof.
  intros Hrel Hsys Hrun. destruct (settled_run_exact fs root ops st s rs s' Hsys Hrun) as (st' & Hst & Hsys').
  destruct (vfs_run_sim fs ops cst st Hrel) as [Hr Hk]. rewrite Hst in Hr, Hk. split; [done|]. by exists st'.
Qed.

(** C12. A file system that is unmounted can be opened, used and unmounted
    again any number of times, each time through a cache of another size:
    whatever its cache held back, after [sb_destroy] [open] on the disk file
    finds the file system, and the calls of each session are answered from
    the files and directories the session before has left, with no file
    open; and so it ends with a disk file that can be opened again. *)
Theorem remount_keeps_files fs root (cst : VFS (D := BlockDevice R)) st s xs :
  vfs_rel cst st → sys_rel fs root st s → Forall (λ x, 0 < ses_cache x / kBlockSize) xs →
  covered_sessions fs root (ses_calls <$> xs) s →
  let run := run_sessions xs (fd_ (sb_destroy cst).2.2.2) in
  ∃ rss s' m', run.1 = (λ rs, Some (fs, rs)) <$> rss ∧ spec_sessions fs root s (ses_calls <$> xs) rss s' ∧
    on_disk run.2 m' ∧ SBFileSystem_open m' = (Some (Some fs), m') ∧ sys_rel fs root (init_state m') (s_remounted s').
Proof.
  intros Hrel Hsys Hcs. pose proof (sb_destroy_on_disk cst st Hrel) as Hd. clear Hrel. revert st s Hsys Hd.
  generalize (fd_ (sb_destroy cst).2.2.2) as d. induction Hcs as [|x xs Hx _ IH]; intros d st s Hsys Hd Hcov run.
  { exists [], s, st.2.2. split; [done|]. split; [constructor|]. split; [done|]. by apply sys_remount. }
  destruct Hcov as [Hcov Hrest].
  destruct (open_cached fs root st s d (ses_cache x) (ses_file x) Hx Hd Hsys) as [Ho Hrel].
  destruct (sys_remount fs root st s Hsys) as [_ Hsys0].
  destruct (run_cached fs root (ses_calls x) _ _ _ Hrel Hsys0 Hcov) as (rs & s1 & st1 & Hr & Hs1 & Hrel1 & Hsys1).
  unfold run. cbn [run_sessions]. unfold run_session.
  destruct (SBFileSystem_open (BlockDevice_new (ses_cache x) d (ses_file x))) as [o dev]. cbn [fst snd] in *. subst o. cbn [mjoin option_join].
  destruct (vfs_run fs (ses_calls x) (init_state dev)) as [r cst1]. cbn [fst snd] in *. subst r.
  pose proof (sb_destroy_on_disk cst1 st1 Hrel1) as Hd1.
  destruct (IH _ st1 s1 Hsys1 Hd1 (Hrest rs s1 Hs1)) as (rss & s2 & m2 & Hrun & Hspec & Hend).
  cbn [fmap option_fmap option_map]. destruct (run_sessions xs (fd_ (sb_destroy cst1).2.2.2)) as [rs2 d2]. cbn [fst snd] in *.
  exists (rs :: rss), s2, m2. split; [by rewrite Hrun|]. split; [by apply (ss_cons fs root s (ses_calls x) _ rs s1)|done].
Qed.

(** C30. After any covered calls and an unmount, a check of the disk file
    finds nothing to complain of: every file and directory has its inode
    where its id says, with the type, size and link count it should have;
    no block belongs to two files, or to one file twice; the data bitmap
    marks exactly the blocks of the files and directories, and the inode
    bitmap exactly their ids; and the super block is there. *)
Theorem disk_consistent fs root ops (cst : VFS (D := BlockDevice R)) st s :
  vfs_rel cst st → sys_rel fs root st s → covered fs root ops s →
  let run := vfs_run fs ops cst in
  ∃ rs s' m', run.1 = Some rs ∧ spec_run fs root s ops rs s' ∧
    on_disk (fd_ (sb_destroy run.2).2.2.2) m' ∧ consistent fs m' s'.
Proof.
  intros Hrel Hsys Hcov run. destruct (run_cached fs root ops cst st s Hrel Hsys Hcov) as (rs & s' & st' & Hr & Hspec & Hrel' & Hsys').
  exists rs, s', st'.2.2. split; [done|]. split; [done|]. split; [by apply sb_destroy_on_disk|].
  destruct Hsys' as [(v & Hv & Hvs) _ _]. apply (vol_consistent fs st'.2.2 s' v); [apply Hv|done].
Qed.
End system.

(** C4. One call: whenever the specification has an answer, the handler
    returns (it never runs into undefined behaviour), with an answer the
    specification allows, and the states are related again: the disk is a
    volume, the cached paths lead where the directories do, the directories
    form a tree. *)
Theorem call_answered fs root e st s op r s' :
  sys_rel fs root st s → spec_step (ids_lo fs) (ids_hi fs) root e s op r s' →
  ∃ r' s'' st', vfs_step fs e op st = (Some r', st') ∧
    spec_step (ids_lo fs) (ids_hi fs) root e s op r' s'' ∧ sys_rel fs root st' s''.
Proof.
  intros Hsys Hstep. destruct (step_refined fs root e st s Hsys op r s' Hstep) as (r' & s'' & st' & ? & ? & ? & _).
  by exists r', s'', st'.
Qed.

(** C7. What is written through a handle is what a read of the same range
    through the same handle returns, whether it overwrites, extends, or
    starts past the end of the file. *)
Theorem write_read_back fs root st s e1 e2 fh i n b off buf :
  sys_rel fs root st s → s_fds s !! fh = Some i → s_nodes s !! i = Some n → n_kind n = File b →
  zlen b < 2 ^ 31 → 0 ≤ off → 0 < zlen buf → off + zlen buf < 2 ^ 31 →
  nodes (file_shape (data_blocks (Z.max (zlen b) (off + zlen buf)))) - n_cost (File b) ≤ s_room s →
  (vfs_run fs [(e1, OpWrite fh buf (zlen buf) off); (e2, OpRead fh (zlen buf) off)] st).1 =
    Some [RInt (zlen buf); RData (zlen buf) buf].
Proof.
  intros Hsys Hfh Hn Hb Hz Hoff Hlen Hend Hroom.
  destruct (write_possible (ids_lo fs) (ids_hi fs) root s fh i n b buf off Hfh Hn Hb Hoff Hlen Hend e1 Hz Hroom) as (r & s0 & Hpos).
  destruct (step_refined fs root e1 st s Hsys _ r s0 Hpos) as (r1 & s1 & st1 & Hrun & Hstep & Hsys1 & _).
  destruct (write_outcome _ _ root s fh i n b buf off Hfh Hn Hb Hoff Hlen Hend e1 r1 s1 Hstep) as (-> & b' & [Hzb Hsl] & Hs1).
  assert (Hread : settled_run fs root s1 [(e2, OpRead fh (zlen buf) off)] [RData (zlen buf) buf] s1).
  { apply (st_cons fs root s1 e2 (OpRead fh (zlen buf) off) _ (RData (zlen buf) buf) s1); [| |constructor].
    - pose proof (sp_read (ids_lo fs) (ids_hi fs) root e2 s1 fh (zlen buf) off i (set_kind (File b') n) b') as Hr.
      cbv zeta in Hr. replace (Z.min (zlen buf) (zlen b' - off)) with (zlen buf) in Hr by lia. rewrite Hsl in Hr.
      rewrite Hs1 in *. apply Hr; try done; try lia. apply lookup_insert_eq.
    - intros j nj. rewrite Hs1. cbn [s_fds s_put]. rewrite Hfh. intros [= <-]. rewrite s_put_lookup, decide_True by done.
      intros [= <-]. cbn [n_kind set_kind n_size]. lia. }
  destruct (settled_run_exact fs root _ st1 s1 _ s1 Hsys1 Hread) as (st2 & Hrun2 & _).
  unfold vfs_run at 1. fold vfs_run. rewrite (bind_Some _ _ _ _ _ Hrun). by rewrite (bind_Some _ _ _ _ _ Hrun2).
Qed.

(** C11. A directory that is made and removed again leaves everything as it
    was: the files, the directories, the handles, and the free blocks. *)
Theorem mkdir_rmdir_undone fs root st s e1 e2 q nm d n m id mode_ :
  sys_rel fs root st s → entry_path root s q nm d → s_nodes s !! d = Some n → n_kind n = Dir m → m !! nm = None →
  s_fresh (ids_lo fs) (ids_hi fs) s id → entry_fits s m 1 →
  data_blocks (sizeof_DirEntry * Z.of_nat (S (base.size m))) ≤ 1047 →
  ∃ st', vfs_run fs [(e1, OpMkdir (q ++ slash :: nm) mode_); (e2, OpRmdir (q ++ slash :: nm))] st =
    (Some [RInt 0; RInt 0], st') ∧ sys_rel fs root st' s.
Proof.
  intros Hsys Hep Hn Hm Hnew Hfr Hfit Hsmall. destruct Hfr as (Hr & Hid & Hlow).
  destruct (entry_real root s q nm d Hep) as [Hreal Hne]. pose proof (sr_tree _ _ _ _ Hsys) as Ht.
  assert (Hni : id ≠ d) by (intros ->; congruence).
  set (s1 := s_make e1 d id nm true mode_ n m s). set (m1 := <[nm := id]> m). set (n1 := set_kind (Dir m1) n).
  assert (Hn1 : s_nodes s1 !! d = Some n1) by (unfold s1, s_make; rewrite !s_put_lookup, decide_False, decide_True; done).
  assert (Hc1 : s_nodes s1 !! id = Some (new_node e1 id d true mode_)) by (unfold s1, s_make; by rewrite s_put_lookup, decide_True).
  assert (Hep1 : entry_path root s1 q nm d).
  { destruct Hep as [E1 E2 E3 E4]. split; try done. apply (s_path_keeps root s s1); [|done].
    by apply (make_keeps e1 s d id nm true mode_ n m). }
  assert (Hrun : settled_run fs root s [(e1, OpMkdir (q ++ slash :: nm) mode_); (e2, OpRmdir (q ++ slash :: nm))] [RInt 0; RInt 0] s).
  { apply (st_cons fs root s e1 (OpMkdir (q ++ slash :: nm) mode_) _ (RInt 0) s1); [by apply sp_mkdir|done|].
    apply (st_cons fs root s1 e2 (OpRmdir (q ++ slash :: nm)) _ (RInt 0) s); [|done|constructor].
    pose proof (make_remove e1 s d id nm true mode_ n m Hn Hm Hnew Hid) as Hback. fold s1 in Hback. rewrite <- Hback.
    change (set_kind (Dir (delete nm (<[nm := id]> m))) n) with (set_kind (Dir (delete nm m1)) n1).
    apply (sp_rmdir _ _ _ e2 s1 q nm d n1 m1 id (new_node e1 id d true mode_) {[ dot := id; dotdot := d ]}); try done.
    - apply lookup_insert_eq.
    - intros k [x [[<- _]|[_ [<- _]%lookup_singleton_Some]]%lookup_insert_Some]; auto.
    - intros d' [(_ & <- & _)|[(_ & [[? _]|[_ ?]])|(_ & ? & _)]]%(make_find root e1 s d id nm true mode_ n m Ht Hn Hm Hid);
        by destruct Hreal.
    - cbn [n_size]. unfold m1. by rewrite map_size_insert_None. }
  exact (settled_run_exact fs root _ st s _ s Hsys Hrun).
Qed.

(** C8. Whatever is cached, resolving a path follows the directories from
    the root, part by part: it returns the inode the last name stands for,
    which is valid, or the invalid one if a name is missing, and writes
    nothing. *)
Theorem resolve_follows_directories fs root st s e path :
  sys_rel fs root st s → path_fine path →
  ∃ st', resolve e fs path st = (Some (default Position_invalid (getDiskInodePos fs <$> s_path root s path)), st') ∧
    sys_rel fs root st' s ∧ st'.2.2 = st.2.2 ∧
    ∀ i, s_path root s path = Some i → is_Some (s_nodes s !! i) ∧ Position_isValid (getDiskInodePos fs i) = true.
Proof.
  intros [(v & Hv & Hvs) Hfd Ht] Hp. destruct (resolve_rel fs root e st s v Hv Hvs path Hp) as (st' & Hrun & Hv' & Hf & Hm).
  exists st'. split; [done|]. split; [|split; [done|]].
  - split; [by exists v|by rewrite Hf|done].
  - intros i. apply (path_valid fs root st). split; [by exists v|done|done].
Qed.

(** C9. No two paths lead to the same inode: but for a slash at the end,
    paths that are resolved to the same valid inode are equal. *)
Theorem paths_lead_apart fs root st s e p q x :
  sys_rel fs root st s → path_fine p → path_fine q → p ≠ [slash] → q ≠ [slash] → Position_isValid x = true →
  (resolve e fs p st).1 = Some x → (resolve e fs q st).1 = Some x → removeEndSlash p = removeEndSlash q.
Proof.
  intros [(v & Hv & Hvs) Hfd Ht] Hp Hq Hp1 Hq1 Hx. assert (Hinv : Position_isValid Position_invalid = false) by done.
  destruct (resolve_rel fs root e st s v Hv Hvs p Hp) as (sp & -> & _). destruct (resolve_rel fs root e st s v Hv Hvs q Hq) as (sq & -> & _).
  cbn [fst]. intros [= Hpx] [= Hqx].
  assert (Hlead : ∀ r, path_fine r → r ≠ [slash] → default Position_invalid (getDiskInodePos fs <$> s_path root s r) = x →
    ∃ t i, removeEndSlash r = slash :: t ∧ Forall plain (split t false) ∧ s_walk s (split t false) root = Some i ∧ getDiskInodePos fs i = x).
  { intros r [_ [->|Hg]] Hne Hr; [done|]. unfold s_path in Hr. destruct (bool_decide_reflect (head r = Some slash)) as [Hh|]; [|cbn [negb fmap option_fmap option_map default from_option] in Hr; congruence].
    cbn [negb] in Hr. rewrite bool_decide_eq_false_2 in Hr by done.
    destruct (s_walk s (split (tail (removeEndSlash r)) false) root) as [i|] eqn:Hw; [|cbn [negb fmap option_fmap option_map default from_option] in Hr; congruence].
    destruct (removeEndSlash r) as [|c t] eqn:Ht'.
    - exfalso. unfold good_parts, split in Hg. simpl in Hg. inversion_clear Hg as [|? ? Hbad _]. by apply Hbad.
    - exists t, i. assert (c = slash) as ->; [|done]. destruct r as [|c' r]; [done|]. injection Hh as ->.
      unfold removeEndSlash in Ht'. destruct (_ =? _); [|by injection Ht'].
      simpl in Ht'. destruct r; [done|]. simpl in Ht'. by injection Ht'. }
  destruct (Hlead p Hp Hp1 Hpx) as (t & i & -> & Hpl & Hw & Hi). destruct (Hlead q Hq Hq1 Hqx) as (u & j & -> & Hql & Hw' & Hj).
  assert (i = j) as ->.
  { pose proof (tr_root _ _ Ht) as (n & m & Hn & _). pose proof (vf_vol _ _ _ _ Hv) as Hvol.
    assert (Hid : ∀ k ps, s_walk s ps root = Some k → getDiskInodeId fs (getDiskInodePos fs k) = k).
    { intros k ps Hk. assert (Hs : is_Some (s_nodes s !! k)) by (apply (walk_some root s ps root k Ht); [by eexists|done]).
      apply (vs_some v s Hvs) in Hs. destruct (vol_valid fs _ v k Hvol Hs) as [_ Hval]. destruct Hvol as (F & HF & _).
      apply (vol_id fs k); [apply HF|done]. }
    rewrite <- (Hid i _ Hw), <- (Hid j _ Hw'). congruence. }
  pose proof (walk_inj root s _ _ j Ht Hpl Hql Hw Hw') as He. f_equal.
  pose proof (join_split_go t [] []) as Jt. pose proof (join_split_go u [] []) as Ju. unfold split in He.
  rewrite He in Jt. cbn [app] in Jt, Ju. congruence.
Qed.

(** C10. Space is accounted for: after any calls, the blocks the data bitmap
    has free and the blocks of all files and directories add up to what
    they were before. *)
Theorem free_blocks_accounted fs root ops st s :
  sys_rel fs root st s → covered fs root ops s →
  ∃ rs st' s', vfs_run fs ops st = (Some rs, st') ∧ sys_rel fs root st' s' ∧
    free_blocks st'.2.2 (data_bitmap_ fs) + s_used s' = free_blocks st.2.2 (data_bitmap_ fs) + s_used s.
Proof.
  intros Hsys Hcov. destruct (run_refined fs root ops st s Hsys Hcov) as (rs & s' & st' & Hrun & Hspec & Hsys').
  exists rs, st', s'. split; [done|]. split; [done|].
  assert (Hroom : ∀ st s, sys_rel fs root st s → free_blocks st.2.2 (data_bitmap_ fs) = s_room s).
  { intros st0 s0 [(v & Hv & Hvs) _ _]. destruct (vf_vol _ _ _ _ Hv) as (F & _ & ->). apply (vs_room _ _ Hvs). }
  rewrite (Hroom _ _ Hsys), (Hroom _ _ Hsys'). change (s_total s' = s_total s).
  clear - Hspec. induction Hspec as [|s e op ops r s1 rs s2 Hstep _ IH]; [done|]. rewrite IH. by eapply total_step.
Qed.

(** [create] on an empty disk: a file system with nothing but the root
    directory, which holds ["."] and [".."]; all other data blocks free. *)
Theorem create_makes_root total ibb pad e (m : store) :
  sizes_ok total ibb → 32769 ≤ total - ibb - ibb * 1024 → zlen pad = kBlockSize - 32 → zero_disk total ibb pad m →
  let fs := mounted_fs total ibb pad in
  ∃ m', SBFileSystem_create e pad total ibb m = (Some fs, m') ∧
    sys_rel fs (root_id ibb) (init_state m') (new_fsys e (root_id ibb) (slots (data_bitmap_ fs) - 1)).
Proof. apply new_sys. Qed.

(** C14. A directory is moved into another one, which is not below it, with all
    that is below it: the old name is gone, the new name leads to it, and
    from there every path leads where it led.  But the [".."] entry of the
    moved directory stays as it was: it names the old parent. *)
Theorem rename_moves_directory fs root st s e q1 n1 d1 q2 n2 d2 c1 c2 c m1 m2 mc i :
  sys_rel fs root st s → entry_path root s q1 n1 d1 → entry_path root s q2 n2 d2 → d1 ≠ d2 →
  s_nodes s !! d1 = Some c1 → n_kind c1 = Dir m1 → m1 !! n1 = Some i → data_blocks (n_size (Dir m1)) ≤ 1047 →
  s_nodes s !! i = Some c → n_kind c = Dir mc → (∀ ps, Forall plain ps → s_walk s ps i ≠ Some d2) →
  s_nodes s !! d2 = Some c2 → n_kind c2 = Dir m2 → m2 !! n2 = None → data_blocks (n_size (Dir m2)) < 23 →
  entry_fits (s_put d1 (set_kind (Dir (delete n1 m1)) c1) s) m2 0 →
  ∃ st' s', vfs_step fs e (OpRename (q1 ++ slash :: n1) (q2 ++ slash :: n2) 0) st = (Some (RInt 0), st') ∧ sys_rel fs root st' s' ∧
    s_find s' d1 n1 = None ∧ s_find s' d2 n2 = Some i ∧
    (∀ ps, Forall plain ps → s_walk s' ps i = s_walk s ps i) ∧ s_find s' i dotdot = mc !! dotdot.
Proof.
  intros Hsys Hep1 Hep2 Hd Hc1 Hm1 Hi Hsm1 Hc Hmc Hout Hc2 Hm2 Hnew Hsm2 Hfit. pose proof (sr_tree _ _ _ _ Hsys) as Ht.
  set (s1 := s_put d1 (set_kind (Dir (delete n1 m1)) c1) s).
  assert (Hc2' : s_nodes s1 !! d2 = Some c2) by (unfold s1; by rewrite s_put_lookup, decide_False).
  set (s' := s_put d2 (set_kind (Dir (<[n2 := i]> m2)) c2) s1).
  assert (Hstep : spec_step (ids_lo fs) (ids_hi fs) root e s (OpRename (q1 ++ slash :: n1) (q2 ++ slash :: n2) 0) (RInt 0) s').
  { apply (sp_rename _ _ _ e s q1 n1 d1 c1 m1 q2 n2 d2 c2 m2 i c 0); try done; [|by rewrite Hnew].
    intros ->. by apply (Hout []). }
  destruct (step_refined fs root e st s Hsys _ _ _ Hstep) as (r & s'' & st' & Hrun & _ & Hsys' & [-> ->]); [done|].
  exists st', s'. split; [done|]. split; [done|].
  assert (Hfind : ∀ d' k, s_find s' d' k =
    if decide (d2 = d' ∧ n2 = k) then Some i else if decide (d1 = d' ∧ n1 = k) then None else s_find s d' k).
  { intros d' k. apply (move_find s d1 d2 i n1 n2 c1 c2 m1 m2); done. }
  assert (Hin : ∀ a y, Forall plain a → s_walk s a i = Some y → ∀ p, s_find s' y p = s_find s y p).
  { intros a y Ha Hy p. destruct (entry_parts root s q1 n1 d1 Hep1) as (ps & Hps & Hw & _).
    destruct (ep_name _ _ _ _ _ Hep1) as (Hp1 & _).
    rewrite Hfind, !decide_False; [done|intros [<- _]|intros [<- _]; by apply (Hout a)].
    apply (walk_not_below root s ps d1 n1 i Ht Hps Hp1 Hw) with (a := a); [|done|done]. by rewrite (s_find_node _ _ _ _ Hc1), Hm1. }
  split; [rewrite Hfind, decide_False, decide_True; [done|by split|by intros [<- _]]|]. split; [by rewrite Hfind, decide_True|].
  split; [intros ps; by apply walk_agree|]. by rewrite (Hin [] i), (s_find_node _ _ _ _ Hc), Hmc.
Qed.

(** ** Where the code falls short *)

(** C15. [rename] of a file over another file of the directory returns 0 and
    the new name stands for the moved file, but the file that was there is
    not released: it keeps its inode and its blocks, and no name leads to
    it any more. *)
Theorem rename_over_file_leaks fs root st s e q1 n1 q2 n2 d c m i j ci cj bi bj :
  sys_rel fs root st s → entry_path root s q1 n1 d → entry_path root s q2 n2 d → n1 ≠ n2 →
  s_nodes s !! d = Some c → n_kind c = Dir m → m !! n1 = Some i → m !! n2 = Some j →
  s_nodes s !! i = Some ci → n_kind ci = File bi → s_nodes s !! j = Some cj → n_kind cj = File bj →
  data_blocks (n_size (Dir m)) ≤ 1047 →
  ∃ st' s', vfs_step fs e (OpRename (q1 ++ slash :: n1) (q2 ++ slash :: n2) 0) st = (Some (RInt 0), st') ∧
    sys_rel fs root st' s' ∧ s_find s' d n2 = Some i ∧ s_nodes s' !! j = Some cj ∧ ∀ d' k, s_find s' d' k ≠ Some j.
Proof.
  intros Hsys Hep1 Hep2 Hn12 Hc Hm Hi Hj Hci Hbi Hcj Hbj Hsmall. pose proof (sr_tree _ _ _ _ Hsys) as Ht.
  destruct (entry_real root s q1 n1 d Hep1) as [Hr1 _], (entry_real root s q2 n2 d Hep2) as [Hr2 Hne2].
  assert (Hfi : s_find s d n1 = Some i) by by rewrite (s_find_node _ _ _ _ Hc), Hm.
  assert (Hfj : s_find s d n2 = Some j) by by rewrite (s_find_node _ _ _ _ Hc), Hm.
  assert (Hij : i ≠ j). { intros <-. by destruct (tr_one _ _ Ht d n1 d n2 i Hr1 Hr2 Hfi Hfj). }
  set (c2 := set_kind (Dir (delete n1 m)) c). set (s1 := s_put d c2 s).
  assert (Hc2 : s_nodes s1 !! d = Some c2) by apply lookup_insert_eq.
  set (s' := s_put d (set_kind (Dir (<[n2 := i]> (delete n1 m))) c2) s1).
  assert (Hstep : spec_step (ids_lo fs) (ids_hi fs) root e s (OpRename (q1 ++ slash :: n1) (q2 ++ slash :: n2) 0) (RInt 0) s').
  { apply (sp_rename _ _ _ e s q1 n1 d c m q2 n2 d c2 (delete n1 m) i ci 0); try done; [intros ->; congruence|].
    rewrite lookup_delete_ne, Hj by done. split; [done|]. by exists cj, bj. }
  destruct (step_refined fs root e st s Hsys _ _ _ Hstep) as (r & s'' & st' & Hrun & _ & Hsys' & Hset).
  destruct Hset as [-> ->]; [done|]. exists st', s'. split; [done|]. split; [done|].
  assert (Hfind : ∀ d' k, s_find s' d' k =
    if decide (d = d' ∧ n2 = k) then Some i else if decide (d = d' ∧ n1 = k) then None else s_find s d' k).
  { intros d' k. apply (move_find s d d i n1 n2 c c2 m (delete n1 m)); done. }
  split; [|split].
  - by rewrite Hfind, decide_True.
  - unfold s', s1. rewrite !s_put_lookup. assert (d ≠ j) by (intros <-; congruence). by rewrite !decide_False.
  - intros d' k. rewrite Hfind. case_decide as H1; [congruence|]. case_decide; [done|]. intros Hk.
    apply H1. by destruct (file_alone root s d j n2 cj bj Ht Hcj Hbj Hr2 Hfj d' k Hk) as [-> ->].
Qed.

(** C16. [rename] can lose a file: when the new name cannot be linked,
    because it exists and the caller asked not to replace it, or because
    the new directory has at least 23 data blocks and the last is not full,
    [rename] still returns 0, but the file has lost its old name and got no
    new one; its inode, with no link, and its blocks stay. *)
Theorem rename_loses_file fs root st s e q1 n1 d1 q2 n2 d2 c1 c2 c m1 m2 i b flags :
  sys_rel fs root st s → entry_path root s q1 n1 d1 → entry_path root s q2 n2 d2 →
  s_nodes s !! d1 = Some c1 → n_kind c1 = Dir m1 → m1 !! n1 = Some i → s_nodes s !! i = Some c → n_kind c = File b →
  data_blocks (n_size (Dir m1)) ≤ 1047 →
  s_nodes (s_put d1 (set_kind (Dir (delete n1 m1)) c1) s) !! d2 = Some c2 → n_kind c2 = Dir m2 →
  (is_Some (m2 !! n2) ∧ Z.testbit flags RENAME_NOREPLACE = true ∨
   m2 !! n2 = None ∧ 23 ≤ data_blocks (n_size (Dir m2)) ∧ n_size (Dir m2) ≠ kBlockSize * data_blocks (n_size (Dir m2))) →
  Z.testbit flags RENAME_EXCHANGE = false →
  ∃ st' s', vfs_step fs e (OpRename (q1 ++ slash :: n1) (q2 ++ slash :: n2) flags) st = (Some (RInt 0), st') ∧
    sys_rel fs root st' s' ∧ (∀ d k, s_find s' d k ≠ Some i) ∧ s_room s' + n_cost (Dir (delete n1 m1)) = s_room s + n_cost (Dir m1).
Proof.
  intros Hsys Hep1 Hep2 Hc1 Hm1 Hi Hc Hb Hsmall Hc2 Hm2 Hfails Hex. pose proof Hsys as [(v & Hv & Hvs) Hfd Ht].
  destruct (rename_lost fs root e st s v Hv Hvs Hfd Ht q1 n1 q2 n2 d1 d2 Hep1 Hep2 flags c1 c2 c m1 m2 i b) as (st' & Hrun & Hsys' & Hgone); try done.
  eexists st', _. split; [done|]. split; [done|]. split; [done|].
  assert (Hne : i ≠ d1) by (intros ->; congruence).
  unfold s_put. cbn [s_room s_nodes]. rewrite lookup_insert_ne, Hc1, Hc by done. simpl. rewrite Hb, Hm1. lia.
Qed.

(** ** Instances *)

Definition opsMk : list (env * vfs_op) := [(env0, OpMkdir pathF mdS)].
Definition opsStat : list (env * vfs_op) := [(env0, OpGetattr pathRoot None)].

Lemma coveredMk : covered fsS 2 opsMk sS.
Proof. split; [by eexists _, _; apply mkdirF|done]. Qed.

Lemma coveredMk' : covered fsS 2 opsMk (s_remounted sS).
Proof. exact coveredMk. Qed.

Lemma coveredStat s : tree_ok 2 s → covered fsS 2 opsStat s.
Proof.
  intros Ht. split; [|done]. destruct (getattr_covered 2 s env0 eq_refl Ht) as (r & Hr). by exists r, s.
Qed.

Lemma file_system_correct_witness :
  let c1 := SBFileSystem_create env0 padS 40000 1 (BlockDevice_new 8192 (mS : file) 0) in
  let run1 := vfs_run fsS opsMk (init_state c1.2) in
  let c2 := SBFileSystem_open (BlockDevice_new 4096 (fd_ (sb_destroy run1.2).2.2.2) 0) in
  let run2 := vfs_run fsS opsStat (init_state c2.2) in
  c1.1 = Some fsS ∧ c2.1 = Some (Some fsS) ∧
  ∃ rs1 s1 rs2 s2, run1.1 = Some rs1 ∧ spec_run fsS 2 sS opsMk rs1 s1 ∧
    run2.1 = Some rs2 ∧ spec_run fsS 2 (s_remounted s1) opsStat rs2 s2.
Proof.
  destruct sizesS as (H1 & H2 & H3). pose proof geomS as (_ & _ & Hs).
  pose proof (file_system_correct env0 padS 40000 1 (mS : file) mS 8192 0 4096 0 opsMk opsStat H1 H2 H3 zeroS) as H.
  cbv zeta in H. fold fsS in H. rewrite Hs in H. apply H; [apply store_on_disk, blank_wf; lia|reflexivity|reflexivity|apply coveredMk|].
  intros rs s Hrun. apply coveredStat. apply (tree_nodes 2 s); [reflexivity|].
  apply (spec_run_tree fsS 2 sS opsMk rs s); [apply new_fsys_tree|exact Hrun].
Defined.

Lemma settledF : settled_run fsS 2 sS [(env0, OpCreate Position_invalid pathF mdS)] [RFh 0 (Some 10)] sF.
Proof.
  apply (st_cons fsS 2 sS env0 (OpCreate Position_invalid pathF mdS) _ (RFh 0 (Some 10)) sF); [apply createF|done|constructor].
Qed.

Lemma settled_calls_exact_witness :
  ∃ cst : VFS (D := BlockDevice file),
    (vfs_run fsS [(env0, OpCreate Position_invalid pathF mdS)] cst).1 = Some [RFh 0 (Some 10)].
Proof.
  destruct newS as (m & Hrun & Hsys).
  destruct (create_cached fsS env0 padS 40000 1 (mS : file) 8192 0 mS m eq_refl) as [_ Hrel];
    [apply store_on_disk, blank_wf; lia|exact Hrun|].
  eexists. apply (settled_calls_exact fsS 2 _ _ _ sS _ sF Hrel Hsys settledF).
Defined.

Lemma call_answered_witness : ∃ st r s' st',
  vfs_step fsS env0 (OpCreate Position_invalid pathF mdS) st = (Some r, st') ∧
  spec_step (ids_lo fsS) (ids_hi fsS) 2 env0 sS (OpCreate Position_invalid pathF mdS) r s' ∧ sys_rel fsS 2 st' s'.
Proof.
  destruct newS as (m & _ & Hsys). exists (init_state m).
  exact (call_answered fsS 2 env0 (init_state m) sS _ _ _ Hsys createF).
Defined.

Lemma write_read_back_witness : ∃ st,
  (vfs_run fsS [(env0, OpWrite 10 nameG (zlen nameG) 5); (env0, OpRead 10 (zlen nameG) 5)] st).1 =
    Some [RInt 1; RData 1 nameG].
Proof.
  destruct sampleF as (st & Hsys). exists st.
  apply (write_read_back fsS 2 st sF env0 env0 10 3 fileF [] 5 nameG Hsys); try reflexivity; by vm_compute.
Defined.

Lemma mkdir_rmdir_undone_witness : ∃ st st',
  vfs_run fsS [(env0, OpMkdir pathF mdS); (env0, OpRmdir pathF)] st = (Some [RInt 0; RInt 0], st') ∧ sys_rel fsS 2 st' sS.
Proof.
  destruct newS as (m & _ & Hsys). exists (init_state m).
  apply (mkdir_rmdir_undone fsS 2 (init_state m) sS env0 env0 [] nameF 2 rootNode {[ dot := 2; dotdot := 2 ]} 3 mdS Hsys);
    [apply entryF|reflexivity|reflexivity|reflexivity|apply freshS|apply fitsS|by vm_compute].
Defined.

(** Two sessions with different caches: [mkdir], then [getattr]. *)
Lemma remount_keeps_files_witness :
  ∃ (cst : VFS (D := BlockDevice file)) xs rss s', length xs = 2%nat ∧
    (run_sessions xs (fd_ (sb_destroy cst).2.2.2)).1 = (λ rs, Some (fsS, rs)) <$> rss ∧
    spec_sessions fsS 2 sS (ses_calls <$> xs) rss s'.
Proof.
  destruct cached_sample as (cst & st & Hrel & Hsys). set (xs := [mkSession 4096 0 opsMk; mkSession 8192 0 opsStat]).
  destruct (remount_keeps_files fsS 2 cst st sS xs Hrel Hsys) as (rss & s' & _ & Hrun & Hspec & _).
  - repeat constructor.
  - split; [apply coveredMk'|]. intros rs s Hr. split; [|done]. apply coveredStat. apply (tree_nodes 2 s); [reflexivity|].
    apply (spec_run_tree fsS 2 (s_remounted sS) opsMk rs s); [|exact Hr]. apply (tree_nodes 2 sS); [reflexivity|apply new_fsys_tree].
  - exists cst, xs, rss, s'. split; [reflexivity|]. split; [exact Hrun|exact Hspec].
Defined.

Lemma disk_consistent_witness :
  ∃ (cst : VFS (D := BlockDevice file)) rs s' m', (vfs_run fsS opsMk cst).1 = Some rs ∧ spec_run fsS 2 sS opsMk rs s' ∧
    on_disk (fd_ (sb_destroy (vfs_run fsS opsMk cst).2).2.2.2) m' ∧ consistent fsS m' s'.
Proof.
  destruct cached_sample as (cst & st & Hrel & Hsys). exists cst. exact (disk_consistent fsS 2 opsMk cst st sS Hrel Hsys coveredMk).
Defined.

Lemma resolve_follows_directories_witness : ∃ st st' : VFS (D := store),
  resolve env0 fsS pathF st = (Some (getDiskInodePos fsS 3), st') ∧ st'.2.2 = st.2.2.
Proof.
  destruct sampleF as (st & Hsys).
  destruct (resolve_follows_directories fsS 2 st sF env0 pathF Hsys (proj2 fineS)) as (st' & Hrun & _ & Hm & _).
  exists st, st'. split; [|exact Hm]. replace (s_path 2 sF pathF) with (Some 3) in Hrun by reflexivity. exact Hrun.
Defined.

Definition pathF' : bytes := [Byte.x2f; Byte.x66; Byte.x2f].

Lemma fineF' : path_fine pathF'.
Proof. destruct fineS as [_ [_ [|Hg]]]; [done|]. split; [unfold path_limit, zlen; simpl; lia|by right]. Qed.

Lemma paths_lead_apart_witness : removeEndSlash pathF = removeEndSlash pathF'.
Proof.
  destruct sampleF as (st & Hsys). destruct (path_valid fsS 2 st sF pathF 3 Hsys eq_refl) as [_ Hval].
  apply (paths_lead_apart fsS 2 st sF env0 pathF pathF' (getDiskInodePos fsS 3) Hsys (proj2 fineS) fineF'); [done|done|exact Hval| |].
  - rewrite (resolve_sys fsS 2 st sF env0 pathF Hsys (proj2 fineS)). reflexivity.
  - rewrite (resolve_sys fsS 2 st sF env0 pathF' Hsys fineF'). reflexivity.
Defined.

Lemma free_blocks_accounted_witness : ∃ (st st' : VFS (D := store)) rs s',
  vfs_run fsS opsMk st = (Some rs, st') ∧
  free_blocks st'.2.2 (data_bitmap_ fsS) + s_used s' = free_blocks st.2.2 (data_bitmap_ fsS) + s_used sS.
Proof.
  destruct newS as (m & _ & Hsys).
  destruct (free_blocks_accounted fsS 2 opsMk (init_state m) sS Hsys coveredMk) as (rs & st' & s' & Hrun & _ & Hfree).
  by exists (init_state m), st', rs, s'.
Defined.

Lemma create_makes_root_witness : ∃ m',
  SBFileSystem_create env0 padS 40000 1 mS = (Some fsS, m') ∧
  sys_rel fsS (root_id 1) (init_state m') (new_fsys env0 (root_id 1) (slots (data_bitmap_ fsS) - 1)).
Proof. destruct sizesS as (H1 & H2 & H3). exact (create_makes_root 40000 1 padS env0 mS H1 H2 H3 zeroS). Defined.

Lemma rename_over_file_leaks_witness : ∃ st st' s',
  vfs_step fsS env0 (OpRename pathF pathG 0) st = (Some (RInt 0), st') ∧
  sys_rel fsS 2 st' s' ∧ s_find s' 2 nameG = Some 3 ∧ s_nodes s' !! 4 = Some (new_node env0 4 2 false mdS) ∧
  ∀ d' k, s_find s' d' k ≠ Some 4.
Proof.
  destruct sampleG as (st & Hsys). exists st. destruct rootG_node as (Hr & Hf & Hg).
  apply (rename_over_file_leaks fsS 2 st sG env0 [] nameF [] nameG 2 rootG entsG 3 4 fileF (new_node env0 4 2 false mdS) [] []
    Hsys (entryF sG) (entryG sG)); try reflexivity; try assumption; [done|by vm_compute].
Defined.

(** With [RENAME_NOREPLACE]. *)
Lemma rename_loses_file_witness : ∃ st st' s',
  vfs_step fsS env0 (OpRename pathF pathG 1) st = (Some (RInt 0), st') ∧ sys_rel fsS 2 st' s' ∧ ∀ d k, s_find s' d k ≠ Some 3.
Proof.
  destruct sampleG as (st & Hsys). destruct rootG_node as (Hr & Hf & Hg).
  destruct (rename_loses_file fsS 2 st sG env0 [] nameF 2 [] nameG 2 rootG (set_kind (Dir (delete nameF entsG)) rootG) fileF
    entsG (delete nameF entsG) 3 [] 1 Hsys (entryF sG) (entryG sG)) as (st' & s' & Hrun & Hsys' & Hgone & _);
    try reflexivity; try assumption; [by vm_compute|left; split; [by eexists|reflexivity]|].
  by exists st, st', s'.
Defined.

(** [/f] moves to [/g/f]: its [".."] is the root, which it has left. *)
Lemma rename_moves_directory_witness : ∃ st st' s',
  vfs_step fsS env0 (OpRename pathF pathGF 0) st = (Some (RInt 0), st') ∧ sys_rel fsS 2 st' s' ∧
  s_find s' 4 nameF = Some 3 ∧ s_find s' 3 dotdot = Some 2.
Proof.
  destruct sampleD as (st & Hsys).
  assert (Hout : ∀ ps, Forall plain ps → s_walk sDG ps 3 ≠ Some 4).
  { intros [|p ps] Hps; [done|]. inversion_clear Hps as [|? ? [Hp1 Hp2]%plain_real _]. cbn [s_walk].
    change (s_find sDG 3 p) with (({[ dot := 3; dotdot := 2 ]} : gmap bytes Z) !! p).
    by rewrite lookup_insert_ne, lookup_singleton_ne. }
  destruct (rename_moves_directory fsS 2 st sDG env0 [] nameF 2 pathG nameF 4 rootG dirG dirF entsG {[ dot := 4; dotdot := 2 ]}
    {[ dot := 3; dotdot := 2 ]} 3 Hsys (entryF sDG) entryGF) as (st' & s' & Hrun & Hsys' & _ & Hf & _ & Hb);
    try reflexivity; try assumption; [done|by vm_compute|split; by vm_compute|].
  exists st, st', s'. split; [exact Hrun|]. split; [exact Hsys'|]. split; [exact Hf|]. rewrite Hb. reflexivity.
Defined.
