(* ===== verification/DeviceTheorems.v ===== *)
(** * What the block device promises

    The properties of the cached device ([BlkDevice.v], [LruCache.v]), of
    the pass-through device, and of the bitmaps kept on them, each with an
    instance on a small concrete disk. *)

From S2P Require Import Prelude Bytes Config BlkIface LruCache BlkDevice Bitmap DataArea Samples.

Section device.
Context {R : Type} `{RawDiskLaws R}.

(** C25. Through the cache, a read returns the block last written (or
    the one in the file), a write changes that block and no other, and
    both fail exactly for the blocks that do not exist; whatever was
    cached, evicted or written back in between. *)
Theorem device_read_write (dev : BlockDevice R) (m : store) b x :
  cached_rel dev m →
  (∃ dev', BlockDevice_read b dev = (m !! u32 b, dev') ∧ cached_rel dev' m) ∧
  match m !! u32 b with
  | Some _ => ∃ dev', BlockDevice_write b x dev = (Some tt, dev') ∧
      cached_rel dev' (<[u32 b := blk_copy x]> m)
  | None => ∃ dev', BlockDevice_write b x dev = (None, dev') ∧ cached_rel dev' m
  end.
Proof.
  intros Hrel. split.
  - destruct (read_refines b dev m Hrel) as [Hr Hk]. unfold map_read in *.
    exists (BlockDevice_read b dev).2. split; [|done].
    destruct (BlockDevice_read b dev). simpl in *. by subst.
  - destruct (write_refines b x dev m Hrel) as [Hr Hk]. unfold map_write in *.
    destruct (m !! u32 b); exists (BlockDevice_write b x dev).2; (split; [|done]);
      destruct (BlockDevice_write b x dev); simpl in *; by subst.
Qed.

(** C26. [sync_all] succeeds and puts every block in the disk file: a
    device opened anew on that file, with any cache size, shows what the
    old one did. *)
Theorem device_sync_all_durable (dev : BlockDevice R) (m : store) cache_size file_size :
  cached_rel dev m → 0 < cache_size / kBlockSize →
  ∃ dev', BlockDevice_sync_all dev = (Some tt, dev') ∧ on_disk (fd_ dev') m ∧
    cached_rel dev' m ∧ cached_rel (BlockDevice_new cache_size (fd_ dev') file_size) m.
Proof.
  intros Hrel Hcs. destruct (sync_all_on_disk dev m Hrel) as (dev' & Hrun & Hd).
  pose proof (sync_all_refines dev m Hrel) as Hk. rewrite Hrun in Hk.
  exists dev'. split_and!; [done|done|done|]. by apply new_device_rel.
Qed.

(** C32. [sync] of one block: if the block is cached it succeeds and the
    file holds the block; if not, it reports a failure and does nothing,
    although the file holds the block already. *)
Theorem device_sync_block (dev : BlockDevice R) (m : store) b :
  cached_rel dev m → is_u32 b →
  match hashtable (blk_cache_mgr_ dev) !! b with
  | Some _ => ∃ dev', BlockDevice_sync b dev = (Some tt, dev') ∧
      dread (fd_ dev') b = m !! b ∧ cached_rel dev' m
  | None => BlockDevice_sync b dev = (None, dev) ∧ dread (fd_ dev) b = m !! b
  end.
Proof.
  intros Hrel Hb. destruct (hashtable _ !! b) eqn:Hh; [|by apply sync_uncached].
  destruct dev as [c d n]. pose proof Hrel as ([fl Hok] & _). simpl in *.
  pose proof (LRU_sync_spec c d fl b Hok Hb) as Hs. rewrite Hh in Hs.
  destruct Hs as (c' & d' & Hrun & _ & _).
  assert (Hd : BlockDevice_sync b (mkDev c d n) = (Some tt, mkDev c' d' n)).
  { unfold BlockDevice_sync, on_cache. simpl. by rewrite u32_small, Hrun. }
  exists (mkDev c' d' n). split_and!; [done| |].
  - by apply (sync_on_disk (mkDev c d n) m).
  - pose proof (sync_refines b _ m Hrel) as Hk. by rewrite Hd in Hk.
Qed.

(** C33. The replacement policy: on a full cache, two misses in a row
    load their blocks into the same slot, so the block that was just
    loaded is the next one evicted (the policy is named LRU). *)
Theorem cache_evicts_newest (c : LRUCacheManager) (d : R) b1 b2 x1 x2 :
  cache_ok c d [] → FREE_first c = -1 → is_u32 b1 → is_u32 b2 → b1 ≠ b2 →
  hashtable c !! b1 = None → hashtable c !! b2 = None →
  view c d b1 = Some x1 → view c d b2 = Some x2 →
  ∃ s c1 d1 c2 d2,
    LRU_get_page b1 (c, d) = (Some s, (c1, d1)) ∧
    LRU_get_page b2 (c1, d1) = (Some s, (c2, d2)) ∧
    hashtable c1 !! b1 = Some s ∧ hashtable c2 !! b1 = None.
Proof. apply two_misses_same_slot. Qed.

(** [remove] of a cached block writes it back if it is dirty, drops
    it from the cache and changes no block's contents. *)
Theorem cache_remove_page (c : LRUCacheManager) (d : R) fl b s :
  cache_ok c d fl → hashtable c !! b = Some s →
  ∃ c' d', LRU_remove_page b (c, d) = (Some tt, (c', d')) ∧
    hashtable c' = delete b (hashtable c) ∧ dread d' b = view c d b ∧
    ∀ b', is_u32 b' → view c' d' b' = view c d b'.
Proof. apply LRU_remove_page_spec. Qed.

(** Built without the block cache, the device reads and writes the
    same: a read returns the block in the file, a write to an existing
    block is in the file at once. *)
Theorem uncached_read_write (d : R) (m : store) b x :
  on_disk d m →
  (∃ d', uncached_read b d = (m !! u32 b, d') ∧ on_disk d' m) ∧
  (is_Some (m !! u32 b) →
   ∃ d', uncached_write b (blk_copy x) d = (Some tt, d') ∧ on_disk d' (<[u32 b := blk_copy x]> m)).
Proof.
  intros Hd. split; [by apply uncached_read_in|]. intros Hin.
  destruct (uncached_write_in d b x m Hd Hin) as (d' & Hw & Hd'). exists d'.
  unfold map_write in *. destruct Hin as [y Hy]. by rewrite Hy in Hw, Hd'.
Qed.
End device.

Lemma device_read_write_witness :
  (∃ dev', BlockDevice_read 1 (BlockDevice_new 8192 (blank 4 : file) 0) = (blank 4 !! u32 1, dev') ∧
     cached_rel dev' (blank 4)) ∧
  match blank 4 !! u32 1 with
  | Some _ => ∃ dev', BlockDevice_write 1 [Byte.x61] (BlockDevice_new 8192 (blank 4 : file) 0) = (Some tt, dev') ∧
      cached_rel dev' (<[u32 1 := blk_copy [Byte.x61]]> (blank 4))
  | None => ∃ dev', BlockDevice_write 1 [Byte.x61] (BlockDevice_new 8192 (blank 4 : file) 0) = (None, dev') ∧
      cached_rel dev' (blank 4)
  end.
Proof. apply device_read_write. apply blank_device. lia. Defined.

Lemma device_sync_all_durable_witness :
  ∃ dev', BlockDevice_sync_all (BlockDevice_new 8192 (blank 4 : file) 0) = (Some tt, dev') ∧
    on_disk (fd_ dev') (blank 4) ∧ cached_rel dev' (blank 4) ∧
    cached_rel (BlockDevice_new 4096 (fd_ dev') 0) (blank 4).
Proof. apply device_sync_all_durable; [apply blank_device; lia|reflexivity]. Defined.

Lemma device_sync_block_witness :
  let dev := BlockDevice_new 8192 (blank 4 : file) 0 in
  match hashtable (blk_cache_mgr_ dev) !! 1 with
  | Some _ => ∃ dev', BlockDevice_sync 1 dev = (Some tt, dev') ∧
      dread (fd_ dev') 1 = blank 4 !! 1 ∧ cached_rel dev' (blank 4)
  | None => BlockDevice_sync 1 dev = (None, dev) ∧ dread (fd_ dev) 1 = blank 4 !! 1
  end.
Proof. apply device_sync_block; [apply blank_device; lia|unfold is_u32; lia]. Defined.

(** A cache of one slot, holding block 0 of four. *)
Definition full_cache : LRUCacheManager := (LRU_get_page 0 (LRU_new 4096, blank 4 : file)).2.1.

Lemma full_cache_ok : cache_ok full_cache (blank 4 : file) [] ∧ FREE_first full_cache = -1.
Proof.
  assert (Hf : FREE_first full_cache = -1) by (vm_compute; reflexivity). split; [|done].
  assert (Hd : (LRU_get_page 0 (LRU_new 4096, blank 4 : file)).2.2 = blank 4) by (vm_compute; reflexivity).
  destruct (get_page_spec (LRU_new 4096) (blank 4 : file) _ 0 (LRU_new_ok 4096 _ eq_refl))
    as (c' & d' & [[fl Hok] _] & Hg); [unfold is_u32; lia|].
  rewrite LRU_new_view in Hg.
  destruct (store_on_disk (blank 4)) as [_ Hm]; [apply blank_wf; lia|].
  rewrite Hm in Hg by (unfold is_u32; lia). rewrite blank_in in Hg by lia.
  destruct Hg as (s & Hg & _).
  assert (Hc : full_cache = c') by (unfold full_cache; by rewrite Hg).
  rewrite Hg in Hd. simpl in Hd. rewrite Hc in *. subst d'.
  by rewrite (free_none _ _ (proj1 Hok) Hf) in Hok.
Qed.

Lemma cache_evicts_newest_witness :
  ∃ s c1 d1 c2 d2,
    LRU_get_page 1 (full_cache, blank 4 : file) = (Some s, (c1, d1)) ∧
    LRU_get_page 2 (c1, d1) = (Some s, (c2, d2)) ∧
    hashtable c1 !! 1 = Some s ∧ hashtable c2 !! 1 = None.
Proof.
  apply (cache_evicts_newest full_cache (blank 4 : file) 1 2 zero_block zero_block);
    [apply full_cache_ok..| | |lia| | | |]; try (unfold is_u32; lia); vm_compute; reflexivity.
Defined.

Lemma cache_remove_page_witness :
  ∃ c' d', LRU_remove_page 0 (full_cache, blank 4 : file) = (Some tt, (c', d')) ∧
    hashtable c' = delete 0 (hashtable full_cache) ∧ dread d' 0 = view full_cache (blank 4 : file) 0 ∧
    ∀ b', is_u32 b' → view c' d' b' = view full_cache (blank 4 : file) b'.
Proof. apply (cache_remove_page full_cache _ [] 0 0); [apply full_cache_ok|vm_compute; reflexivity]. Defined.

Lemma uncached_read_write_witness :
  (∃ d', uncached_read 1 (blank 4 : file) = (blank 4 !! u32 1, d') ∧ on_disk d' (blank 4)) ∧
  (is_Some (blank 4 !! u32 1) →
   ∃ d', uncached_write 1 (blk_copy [Byte.x61]) (blank 4 : file) = (Some tt, d') ∧
     on_disk d' (<[u32 1 := blk_copy [Byte.x61]]> (blank 4))).
Proof. apply uncached_read_write. apply store_on_disk, blank_wf. lia. Defined.
