(* ===== verification/LayoutTheorems.v ===== *)
(** * The disk's structures and its layout

    Properties of the allocation bitmaps, of directory entries, of inodes
    at the positions of their ids and of the regions [create] lays out. *)

From S2P Require Import Prelude Bytes Config BlkIface Bitmap DataArea Layout InodeIO DiskInode Sbfs Frame SbfsProof Samples.

(** ** Bitmaps *)

(** C28. [alloc] hands out the first block whose bit is clear, sets that
    bit and changes nothing else; when no bit is clear it returns [kFail]
    and changes nothing. *)
Theorem bitmap_alloc_first_free m bm :
  area_ok m bm →
  (∃ b m', Bitmap_alloc bm m = (Some b, m') ∧ b ≠ kFail_blk ∧ allocd bm m m' b ∧
     ∀ c, data_segment_offset bm ≤ c < b → used m bm c) ∨
  (Bitmap_alloc bm m = (Some kFail_blk, m) ∧ free_blocks m bm = 0).
Proof.
  intros Ha. destruct (Bitmap_alloc_area m bm Ha) as [(b & m' & Hrun & Hne & Hal)|?]; [left|by right].
  exists b, m'. split_and!; [done..|]. intros c Hc. pose proof (al_in _ _ _ _ Hal) as Hin.
  destruct (Bitmap_alloc_spec m bm (a_bitmap _ _ Ha)) as [(s & m2 & (_ & _ & Hs) & _ & Hrun' & _)|[_ Hrun']];
    rewrite Hrun in Hrun'; injection Hrun' as ->; [|done].
  unfold used, in_area in *. split; [lia|]. apply Hs. lia.
Qed.

Lemma bitmap_alloc_first_free_witness :
  let m := disk0 kFile 10 zero_block in
  (∃ b m', Bitmap_alloc bm0 m = (Some b, m') ∧ b ≠ kFail_blk ∧ allocd bm0 m m' b ∧
     ∀ c, data_segment_offset bm0 ≤ c < b → used m bm0 c) ∨
  (Bitmap_alloc bm0 m = (Some kFail_blk, m) ∧ free_blocks m bm0 = 0).
Proof.
  apply bitmap_alloc_first_free, disk0_area; [unfold is_u32, kFile; lia|lia|apply zero_block_wf].
Defined.

(** C29. [free] of a block in use succeeds, clears its bit and changes
    nothing else; [alloc] may hand it out again. *)
Theorem bitmap_free_used m bm b :
  area_ok m bm → used m bm b →
  ∃ m', Bitmap_free bm b m = (Some tt, m') ∧ freed bm m m' b.
Proof. apply Bitmap_free_area. Qed.

Lemma bitmap_free_used_witness :
  ∃ m', Bitmap_free bm0 2 (disk0 kFile 10 zero_block) = (Some tt, m') ∧
    freed bm0 (disk0 kFile 10 zero_block) m' 2.
Proof.
  apply bitmap_free_used; [apply disk0_area|apply disk0_used];
    (unfold is_u32, kFile; lia) || apply zero_block_wf.
Defined.

(** [leading_zero] of a 64-bit word is the position of its lowest
    clear bit, or -1 if every bit is set. *)
Theorem leading_zero_lowest_clear x :
  0 ≤ x < 2 ^ 64 →
  (leading_zero x = -1 ∧ ∀ i, 0 ≤ i < 64 → Z.testbit x i = true) ∨
  (0 ≤ leading_zero x < 64 ∧ Z.testbit x (leading_zero x) = false ∧
   ∀ i, 0 ≤ i < leading_zero x → Z.testbit x i = true).
Proof. apply leading_zero_spec. Qed.

Lemma leading_zero_lowest_clear_witness :
  (leading_zero 23 = -1 ∧ ∀ i, 0 ≤ i < 64 → Z.testbit 23 i = true) ∨
  (0 ≤ leading_zero 23 < 64 ∧ Z.testbit 23 (leading_zero 23) = false ∧
   ∀ i, 0 ≤ i < leading_zero 23 → Z.testbit 23 i = true).
Proof. apply leading_zero_lowest_clear. lia. Defined.

(** ** Directory entries *)

(** A directory entry keeps the first 251 characters of the name it is
    made for: a longer name is cut, without an error. *)
Theorem dir_entry_name_cut nm i :
  no_nul nm → DirEntry_wf (DirEntry_new nm i) ∧
  cstr (name (DirEntry_new nm i)) = slice 0 kMaxDirNameLength nm.
Proof. intros Hn. split; [apply DirEntry_new_wf|by apply DirEntry_new_name]. Qed.

Lemma dir_entry_name_cut_witness :
  let nm := replicate 300 Byte.x61 in
  DirEntry_wf (DirEntry_new nm 7) ∧ cstr (name (DirEntry_new nm 7)) = slice 0 kMaxDirNameLength nm.
Proof. apply dir_entry_name_cut. apply Forall_replicate. discriminate. Defined.

(** ** Inodes in their blocks *)

(** Inode ids and positions correspond: the position of an id leads
    back to it, and different ids have inodes that do not overlap, each
    inside one block. *)
Theorem inode_positions fs n i j :
  ids_ok fs n → 0 ≤ i ≤ n → 0 ≤ j ≤ n →
  getDiskInodeId fs (getDiskInodePos fs i) = i ∧
  (i ≠ j → pos_disjoint (getDiskInodePos fs i) (getDiskInodePos fs j)) ∧
  0 ≤ block_offset (getDiskInodePos fs i) ∧
  block_offset (getDiskInodePos fs i) + sizeof_DiskInode ≤ kBlockSize.
Proof.
  intros Hok Hi Hj. split; [by apply (id_of_pos fs n)|]. split.
  - intros Hne. by apply (pos_apart fs n).
  - destruct (decide (i = 0)) as [->|Hi0].
    + rewrite (getDiskInodePos_eq fs n) by done. vm_compute. split; discriminate.
    + apply (pos_apart fs n i 0); (done || lia).
Qed.

Definition fs0 : SBFileSystem := initBitmapAndBlock (create_super_block (zeros 4064) 40000 1).

Lemma inode_positions_witness :
  getDiskInodeId fs0 (getDiskInodePos fs0 33) = 33 ∧
  (33 ≠ 34 → pos_disjoint (getDiskInodePos fs0 33) (getDiskInodePos fs0 34)) ∧
  0 ≤ block_offset (getDiskInodePos fs0 33) ∧
  block_offset (getDiskInodePos fs0 33) + sizeof_DiskInode ≤ kBlockSize.
Proof. apply (inode_positions fs0 100); [|lia|lia]. split_and!; vm_compute; congruence. Defined.

(** C34. Inodes are kept apart: when the inode of id [i] is stored at the
    position of its id, reading at the position of any id [j] gives what it
    gave before, but for [i] itself, where it gives the inode that was
    stored, field by field; and no other block changes. *)
Theorem inode_write_read fs n i j m di :
  ids_ok fs n → 0 ≤ i ≤ n → 0 ≤ j ≤ n → store_wf m → DiskInode_wf di →
  is_Some (m !! block_id (getDiskInodePos fs i)) → is_Some (m !! block_id (getDiskInodePos fs j)) →
  ∃ m' dj, Inode_write_inode (getDiskInodePos fs i) di m = (Some tt, m') ∧ store_wf m' ∧
    Inode_read_inode (getDiskInodePos fs j) m = (Some dj, m) ∧
    Inode_read_inode (getDiskInodePos fs j) m' = (Some (if decide (i = j) then di else dj), m') ∧
    ∀ b, b ≠ block_id (getDiskInodePos fs i) → m' !! b = m !! b.
Proof.
  intros Hok Hi Hj Hm Hd Hmi Hmj.
  assert (Hpos : ∀ k m0, 0 ≤ k ≤ n → is_Some (m0 !! block_id (getDiskInodePos fs k)) → pos_ok m0 (getDiskInodePos fs k)).
  { intros k m0 Hk Hin. destruct (inode_positions fs n k k Hok Hk Hk) as (_ & _ & Ho). split; [apply u32_range|]. by split. }
  pose proof (Hpos i m Hi Hmi) as Hpi. pose proof (Hpos j m Hj Hmj) as Hpj.
  destruct (Inode_write_inode_spec m _ di Hm Hpi Hd) as (blk & Hblk & Hrun & Hat & Hwf).
  destruct (Inode_read_inode_spec m _ Hpj) as (dj & Hatj & _ & Hread).
  pose proof (Inode_write_inode_other m _ di (getDiskInodePos fs j) Hm Hpi Hd) as Ho.
  rewrite Hrun in Hat, Hwf, Ho. cbn [snd] in *. set (m' := <[_ := _]> m) in *. exists m', dj. split; [done|]. split; [done|].
  split; [done|]. split; [|intros b Hb; by apply lookup_insert_ne].
  assert (Hin : is_Some (m' !! block_id (getDiskInodePos fs j))).
  { unfold m'. destruct (decide (block_id (getDiskInodePos fs i) = block_id (getDiskInodePos fs j))) as [->|Hne].
    - rewrite lookup_insert_eq. by eexists.
    - by rewrite lookup_insert_ne. }
  destruct (Inode_read_inode_spec m' _ (Hpos j m' Hj Hin)) as (dj' & Hatj' & _ & ->).
  case_decide as Hij; [subst j; congruence|]. rewrite Ho in Hatj'; [congruence| |apply Hpj].
  by apply (inode_positions fs n i j).
Qed.

(** Ids 34 and 33 share a block, on a blank disk. *)
Lemma inode_write_read_witness :
  let m := blank 40000 in
  let di := DiskInode_new env0 kDirectory in
  ∃ m' d33, Inode_write_inode (getDiskInodePos fs0 34) di m = (Some tt, m') ∧
    Inode_read_inode (getDiskInodePos fs0 33) m = (Some d33, m) ∧ Inode_read_inode (getDiskInodePos fs0 33) m' = (Some d33, m').
Proof.
  destruct (inode_write_read fs0 100 34 33 (blank 40000) (DiskInode_new env0 kDirectory))
    as (m' & dj & Hrun & _ & Hr & Hr' & _); [split_and!; vm_compute; congruence|lia|lia|apply blank_wf; lia| | | |].
  - apply DiskInode_new_wf. unfold is_u32, kDirectory. lia.
  - rewrite blank_in by (vm_compute; split; congruence). by eexists.
  - rewrite blank_in by (vm_compute; split; congruence). by eexists.
  - exists m', dj. split; [exact Hrun|]. split; [exact Hr|exact Hr'].
Defined.

(** ** What [create] lays out *)

(** C36. The regions follow one another without a gap, the data bitmap has
    exactly one bit per data block, and the end of the data area depends on
    the blocks left over: it passes the end of the disk by one block exactly
    when the blocks after the inode area are a multiple of 32769. *)
Theorem create_layout pad total ibb :
  sizes_ok total ibb →
  let fs := initBitmapAndBlock (create_super_block pad total ibb) in
  let rest := total - ibb - ibb * 1024 in
  start_block_id (inode_bitmap_ fs) = 1 ∧
  inode_area_start_block_ fs = 1 + num_blocks (inode_bitmap_ fs) ∧
  start_block_id (data_bitmap_ fs) = inode_area_start_block_ fs + inode_area_blocks (super_block_ fs) ∧
  data_area_start_block_ fs = start_block_id (data_bitmap_ fs) + num_blocks (data_bitmap_ fs) ∧
  data_segment_offset (data_bitmap_ fs) = data_area_start_block_ fs ∧
  slots (data_bitmap_ fs) = data_area_blocks (super_block_ fs) ∧
  32 * inode_area_blocks (super_block_ fs) = slots (inode_bitmap_ fs) ∧
  (regions_end fs ≤ total ↔ rest mod 32769 ≠ 0) ∧ regions_end fs ≤ total + 1.
Proof.
  intros Hs. pose proof (create_regions pad total ibb Hs) as Hr.
  pose proof (create_super_block_eq pad total ibb Hs) as Hsb. cbv zeta in *.
  destruct Hr as (-> & -> & -> & -> & Hsl & ->). rewrite Hsb in *.
  pose proof (Z.mod_pos_bound (total - ibb - ibb * 1024) 32769 ltac:(lia)).
  unfold initBitmapAndBlock, slots, slot_per_block, kBlockSize in *. simpl in *.
  destruct Hs as (? & ? & ? & ?). rewrite ?u32_small by (unfold is_u32; lia).
  split_and!; lia.
Qed.

Lemma create_layout_witness :
  let fs := initBitmapAndBlock (create_super_block [] 66563 1) in
  let rest := 66563 - 1 - 1 * 1024 in
  start_block_id (inode_bitmap_ fs) = 1 ∧
  inode_area_start_block_ fs = 1 + num_blocks (inode_bitmap_ fs) ∧
  start_block_id (data_bitmap_ fs) = inode_area_start_block_ fs + inode_area_blocks (super_block_ fs) ∧
  data_area_start_block_ fs = start_block_id (data_bitmap_ fs) + num_blocks (data_bitmap_ fs) ∧
  data_segment_offset (data_bitmap_ fs) = data_area_start_block_ fs ∧
  slots (data_bitmap_ fs) = data_area_blocks (super_block_ fs) ∧
  32 * inode_area_blocks (super_block_ fs) = slots (inode_bitmap_ fs) ∧
  (regions_end fs ≤ 66563 ↔ rest mod 32769 ≠ 0) ∧ regions_end fs ≤ 66563 + 1.
Proof. apply create_layout. unfold sizes_ok. lia. Defined.

(** C35. The ids the inode bitmap hands out start at the number of the first
    inode block, and [getDiskInodePos] adds that number again.  So of the
    ids of the bitmap those below [slots] are in the inode area, and the
    others, of which there are as many as the number of the first inode
    block, come right after it: in the data bitmap, as far as it reaches.
    With fewer than 32 inode bitmap blocks (the default has one) and any
    data bitmap at all, every one of them is in the data bitmap's first
    block. *)
Theorem inode_ids_overlap_data_bitmap pad total ibb i :
  sizes_ok total ibb →
  let fs := initBitmapAndBlock (create_super_block pad total ibb) in
  let bm := inode_bitmap_ fs in
  let b := block_id (getDiskInodePos fs i) in
  data_segment_offset bm ≤ i < data_segment_offset bm + slots bm →
  (inode_area_start_block_ fs ≤ b < start_block_id (data_bitmap_ fs) ↔ i < slots bm) ∧
  (in_bitmap (data_bitmap_ fs) b ↔ slots bm ≤ i ∧ (i - slots bm) / 32 < num_blocks (data_bitmap_ fs)) ∧
  (slots bm ≤ i → ibb < 32 → b = start_block_id (data_bitmap_ fs)).
Proof.
  intros Hs fs bm b. pose proof (create_regions pad total ibb Hs) as Hr. cbv zeta in Hr.
  fold fs in Hr. destruct Hr as (Hb & Hi & Hd & _). unfold b, bm in *. rewrite Hb, Hd.
  destruct Hs as (? & ? & ? & ?). unfold in_bitmap, slots, slot_per_block, kBlockSize.
  cbn [start_block_id num_blocks data_segment_offset]. intros Hr.
  pose proof (Z.div_mod i 32 ltac:(lia)). pose proof (Z.mod_pos_bound i 32 ltac:(lia)).
  assert (Hq : (i - ibb * (4096 * 8)) / 32 = i / 32 - ibb * 1024).
  { replace (i - ibb * (4096 * 8)) with (i + (- (ibb * 1024)) * 32) by lia. rewrite Z.div_add by lia. lia. }
  rewrite (getDiskInodePos_eq fs i); [|split_and!; rewrite ?Hi, ?kInodesInABlock_eq; lia|lia].
  rewrite Hi, Hq. cbn [block_id]. split_and!; try lia.
Qed.

(** With one bitmap block, as [main] creates it: id 32768 is in block 1026,
    the first of the data bitmap. *)
Lemma inode_ids_overlap_data_bitmap_witness :
  in_bitmap (data_bitmap_ fs0) (block_id (getDiskInodePos fs0 32768)) ∧ block_id (getDiskInodePos fs0 32768) = 1026.
Proof.
  destruct (inode_ids_overlap_data_bitmap (zeros 4064) 40000 1 32768) as (_ & Hin & Hfirst);
    [unfold sizes_ok; lia|vm_compute; split; [discriminate|reflexivity]|].
  split; [apply Hin; vm_compute; split; [discriminate|reflexivity]|]. etrans; [apply Hfirst; [vm_compute; discriminate|reflexivity]|reflexivity].
Defined.

(** [open] after [create] finds the super block [create] wrote last and
    rebuilds the very handle [create] returned. *)
Theorem create_then_open e pad total ibb (m : store) :
  store_wf m → is_Some (m !! 0) → is_u32 total → is_u32 ibb → zlen pad = kBlockSize - 32 →
  ∃ fs m', SBFileSystem_create e pad total ibb m = (Some fs, m') ∧
    SBFileSystem_open m' = (Some (Some fs), m').
Proof. apply create_open. Qed.

Lemma create_then_open_witness :
  ∃ fs m', SBFileSystem_create env0 (zeros 4064) 40000 1 (blank 40000) = (Some fs, m') ∧
    SBFileSystem_open m' = (Some (Some fs), m').
Proof.
  apply create_then_open; [apply blank_wf; lia|rewrite blank_in by lia; by eexists|
    unfold is_u32; lia|unfold is_u32; lia|reflexivity].
Defined.
