(* ===== verification/FileTheorems.v ===== *)
(** * What files promise

    Reading, writing, growing and shrinking a file, at the level of its
    block tree ([DiskInode]) and at the level of its stored inode
    ([Inode]). *)

From S2P Require Import Prelude Bytes Config BlkIface Bitmap DataArea Layout InodeIO DiskInode Sbfs Inode FileMap FileData FileGrow FileShrink FileShrinkPart FileClear FileResize FileIO Samples.

(** ** Through the inode *)

(** C17. [Inode::write_data] returns the length; the file then holds its old
    bytes with [buf] over them from [off] on, made longer if [buf] passes
    its end (where [off] is past the end, what the new blocks held, [x],
    fills the gap); owner, mode, links and type are kept; and nothing outside the
    file, the bitmap and blocks that were free has changed, other inodes of
    the same block included.  The file's new blocks were
    free ones, and as many fewer are free afterwards.  (The bitmap must have
    the blocks the growth needs.) *)
Theorem inode_write_data e fs m pos di off buf len :
  file_at m (data_bitmap_ fs) pos di → size di < 2 ^ 31 → 0 ≤ off → 0 < len →
  off + len < 2 ^ 31 → zlen buf = len →
  needed (data_blocks (size di)) (data_blocks (Z.max (size di) (off + len)))
    ≤ free_blocks m (data_bitmap_ fs) →
  ∃ m' di' x, zlen x = Z.max 0 (off - size di) ∧ Inode_write_data e fs pos off buf len m = (Some len, m') ∧
    file_at m' (data_bitmap_ fs) pos di' ∧ size di' = Z.max (size di) (off + len) ∧
    attrs di' = attrs di ∧ content m' di' = overwrite off buf (content m di ++ x) ∧
    only_file (data_bitmap_ fs) pos di m m' ∧ retree (data_bitmap_ fs) m di m' di'.
Proof. apply Inode_write_data_spec. Qed.

(** C18. [Inode::read_data] returns the bytes of the file from [off] on, as
    many as asked for or as there are, and leaves the file's bytes, and all
    other files, as they were; only the access time changes, and no block is
    allocated or freed. *)
Theorem inode_read_data e m bm pos di off len :
  file_at m bm pos di → size di < 2 ^ 31 → 0 ≤ off < size di → 0 < len → off + len < 2 ^ 32 →
  ∃ m', Inode_read_data e pos off len m =
      (Some (Z.min len (size di - off), slice off (Z.min len (size di - off)) (content m di)), m') ∧
    file_at m' bm pos (update_meta e 1 di) ∧
    content m' (update_meta e 1 di) = content m di ∧ only_file bm pos di m m' ∧
    same_blocks_of bm m di m' (update_meta e 1 di).
Proof. apply Inode_read_data_spec. Qed.

(** [append], with which directories get their entries, puts the bytes
    at the end of the file, takes as many free blocks as the longer file has
    more, and leaves the rest of the disk alone. *)
Theorem inode_append e fs m di buf :
  DiskInode_wf di → file_own m (data_bitmap_ fs) di (file_shape (data_blocks (size di))) →
  0 < zlen buf → size di + zlen buf < 2 ^ 31 →
  needed (data_blocks (size di)) (data_blocks (size di + zlen buf)) ≤ free_blocks m (data_bitmap_ fs) →
  ∃ m2 di2, append e fs buf (di, m) = (Some tt, (di2, m2)) ∧ DiskInode_wf di2 ∧
    file_own m2 (data_bitmap_ fs) di2 (file_shape (data_blocks (size di2))) ∧
    size di2 = size di + zlen buf ∧ attrs di2 = attrs di ∧ content m2 di2 = content m di ++ buf ∧
    (∀ b, ¬ in_bitmap (data_bitmap_ fs) b → (in_area (data_bitmap_ fs) b → used m (data_bitmap_ fs) b) →
       (∀ x, live (file_shape (data_blocks (size di))) x → b ≠ node_id m di x) → m2 !! b = m !! b) ∧
    (∀ b, used m (data_bitmap_ fs) b → used m2 (data_bitmap_ fs) b) ∧
    free_blocks m2 (data_bitmap_ fs) =
      free_blocks m (data_bitmap_ fs) - needed (data_blocks (size di)) (data_blocks (size di2)) ∧
    retree (data_bitmap_ fs) m di m2 di2.
Proof. apply append_spec. Qed.

(** ** The block tree *)

(** C21. [increase] makes a tree of [old] data blocks one of [new]: all old
    blocks, index blocks included, stay where they are, the new ones come
    from the free blocks of the bitmap, exactly as many as the larger tree
    has more; or the bitmap ran out of blocks because there were too few, and the
    old file is intact. *)
Theorem increase_grows_tree bm m di old new :
  file_own m bm di (file_shape old) → 0 ≤ old < new → new ≤ MAX_BLOCK_SIZE →
  match DiskInode_increase bm old new (di, m) with
  | (Some _, (di', m')) => grown bm m di (file_shape old) m' di' (file_shape new)
  | (None, (di', m')) => stopped bm m di (file_shape old) m' di' (needed old new)
  end.
Proof.
  intros Ho Hon Hmax. pose proof (DiskInode_increase_grows bm m di old new Ho Hon Hmax) as Hg.
  unfold grows, wp in Hg. by destruct (DiskInode_increase bm old new (di, m)) as [[[]|] [di' m']].
Qed.

(** C22. [decrease] to at most the direct blocks and those of [indirect1]
    succeeds, keeps the blocks that remain, and frees every other block of
    the tree, index blocks included, exactly once. *)
Theorem decrease_shrinks_tree bm m di old new pos :
  file_own m bm di (file_shape old) → 0 ≤ new < old → new ≤ 1047 → write_back_ok bm m pos →
  ∃ m' di', DiskInode_decrease bm old new pos (di, m) = (Some tt, (di', m')) ∧
    shrunk bm pos m di (file_shape old) m' di' (file_shape new).
Proof. apply DiskInode_decrease_spec. Qed.

(** C39. [decrease] to a size that keeps blocks under [indirect2] frees the
    blocks past the end and keeps the file, but writes the index block it
    cut to the disk block numbered [(new - 1048) / 1024] instead of to its
    own: for [new] up to 2071 blocks that is block 0, the super block. *)
Theorem decrease_clobbers_block bm m di old new pos :
  file_own m bm di (file_shape old) → 1047 < new < old → write_back_ok bm m pos →
  is_Some (m !! clobbered new) → ¬ in_bitmap bm (clobbered new) → ¬ in_area bm (clobbered new) →
  (∀ p, pos = Some p → block_id p ≠ clobbered new) →
  (new ≤ 2071 → clobbered new = 0) ∧
  ∃ m', DiskInode_decrease bm old new pos (di, m) = (Some tt, (di, m')) ∧
    shrunk_part bm pos m di old new m'.
Proof.
  intros Ho Hon Hpos Hin Hnb Hna Hp. split; [|by apply DiskInode_decrease_part].
  intros Hn. unfold clobbered. apply Z.div_small. lia.
Qed.

(** C40. [clear] of a file of up to 2071 data blocks succeeds, whatever the
    memory behind a block of ids holds.  It marks the direct blocks as gone
    and frees them; the index blocks and the blocks they lead to it frees
    only when the file has more than 1024 data blocks.  So it frees the
    whole file up to 23 and from 1025 to 2071 data blocks; in between, all
    blocks but the first 23 stay in use.  No block outside the bitmap
    changes.
    For a larger file it takes the id of the second block of ids from
    behind the block; when that is no block of the disk, it fails. *)
Theorem clear_frees mem bm m di :
  let n := data_blocks (size di) in
  file_own m bm di (file_shape n) →
  (n ≤ 2071 → ∃ di' m', DiskInode_clear mem bm (di, m) = (Some tt, (di', m')) ∧ cleared di (Z.min n 23) di' ∧
      (∀ b, used m' bm b ↔ used m bm b ∧ ∀ x, live (file_shape n) x → (n ≤ 1024 → ∃ i, x = NData i ∧ i < 23) → b ≠ node_id m di x) ∧
      (∀ b, ¬ in_bitmap bm b → m' !! b = m !! b) ∧
      free_blocks m' bm = free_blocks m bm + if n <=? 1024 then Z.min n 23 else nodes (file_shape n)) ∧
  (2071 < n → m !! u32 (mem 1024) = None → (DiskInode_clear mem bm (di, m)).1 = None).
Proof.
  intros n Ho. assert (Hn : 0 ≤ n ≤ MAX_BLOCK_SIZE) by apply (t_shape _ _ _ (o_tree _ _ _ _ Ho)). split.
  - intros Hs. assert (Hwp : wp (DiskInode_clear mem bm) (λ _ s, cleared di (Z.min n 23) s.1 ∧ released bm m di (clear_nodes n) s.2) never (di, m)).
    { apply (DiskInode_clear_wp mem bm m di n Ho); [done|lia|by intros|lia|lia]. }
    apply wp_never in Hwp as ([] & [di' m'] & Hrun & Hc & [Ra Ru Rf Rd Rc]). cbn [fst snd] in *.
    exists di', m'. split_and!; try done.
    + intros b. rewrite Ru. unfold ids. rewrite list_elem_of_fmap. setoid_rewrite (elem_clear_nodes _ n); [|lia].
      split; intros [Hu Hx]; (split; [done|]).
      * intros x Hl Hi ->. apply Hx. by exists x.
      * intros (x & -> & Hl & Hi). by apply (Hx x).
    + rewrite Rc, zlen_clear_nodes by lia. done.
  - intros Hs Hmem. assert (Hwp : wp (DiskInode_clear mem bm) (λ _ _, False) (λ _, True) (di, m)).
    { apply (DiskInode_clear_wp mem bm m di n Ho); [done|lia|lia|done|done]. }
    unfold wp in Hwp. by destruct (DiskInode_clear mem bm (di, m)) as [[[]|] ?].
Qed.

(** [block_id] gives the block of every data block of a well-formed
    tree, reading at most two index blocks, and [kFail] for every number
    past the largest file, without changing the disk. *)
Theorem block_id_finds_block m di sh i :
  tree_ok m di sh → 0 ≤ i →
  (i < s_data sh → ∃ b, DiskInode_block_id di i m = (Some b, m) ∧ is_Some (m !! b) ∧
     ∀ j, 0 ≤ j < s_data sh → j ≠ i → DiskInode_block_id di j m ≠ (Some b, m)) ∧
  (MAX_BLOCK_SIZE ≤ i → DiskInode_block_id di i m = (Some kFail_blk, m)).
Proof.
  intros Ht Hi. split; [|by apply DiskInode_block_id_max]. intros Hlt.
  rewrite (DiskInode_block_id_spec m di sh i Ht) by done. eexists. split; [done|].
  split; [by apply (t_in _ _ _ Ht (NData i))|]. intros j Hj Hne.
  rewrite (DiskInode_block_id_spec m di sh j Ht) by done. intros [= He].
  apply (t_inj _ _ _ Ht (NData j) (NData i)) in He; [congruence|done|done].
Qed.

(** C23. [write_data] on a tree that is large enough writes the bytes at
    their place in the file, across block boundaries, to no other block. *)
Theorem disk_inode_write_data e m di sh off buf len :
  tree_ok m di sh → size di < 2 ^ 31 → size di ≤ kBlockSize * s_data sh →
  0 ≤ off ≤ size di → off < kBlockSize * s_data sh → 0 < len → off + len < 2 ^ 32 →
  zlen buf = len →
  ∃ m', DiskInode_write_data e off buf len (di, m) =
      (Some (Z.min len (size di - off)), (update_meta e 3 di, m')) ∧
    wrote di sh off (slice 0 (Z.min len (size di - off)) buf) m m'.
Proof. apply DiskInode_write_data_spec. Qed.

(** C24. [read_data] returns the bytes of the file at [off], across block
    boundaries, through direct, indirect and doubly indirect ids. *)
Theorem disk_inode_read_data e m di sh off len :
  tree_ok m di sh → size di < 2 ^ 31 → size di ≤ kBlockSize * s_data sh →
  0 ≤ off ≤ size di → off < kBlockSize * s_data sh → 0 < len → off + len < 2 ^ 32 →
  DiskInode_read_data e off len (di, m) =
    (Some (Z.min len (size di - off),
           slice off (Z.min len (size di - off)) (file_bytes m di (s_data sh))),
     (update_meta e 1 di, m)).
Proof. apply DiskInode_read_data_spec. Qed.

(** ** [resize] and the block counts *)

(** [resize] compares totals of blocks and so decides between growing,
    shrinking and keeping the tree; it decides as the numbers of data
    blocks do, and stores the new size in each case. *)
Theorem resize_tree e bm m di sz :
  is_u32 (size di) → is_u32 sz → file_own m bm di (file_shape (data_blocks (size di))) →
  data_blocks sz ≤ 1047 →
  match data_blocks sz ?= data_blocks (size di) with
  | Eq => DiskInode_resize e bm sz None (di, m) = (Some tt, (resized e di sz, m))
  | Lt => ∃ m' di', DiskInode_resize e bm sz None (di, m) = (Some tt, (di', m')) ∧ size di' = sz ∧
      shrunk bm None m (resized e di sz) (file_shape (data_blocks (size di))) m' di'
        (file_shape (data_blocks sz))
  | Gt =>
      match DiskInode_resize e bm sz None (di, m) with
      | (Some _, (di', m')) => size di' = sz ∧
          grown bm m (resized e di sz) (file_shape (data_blocks (size di))) m' di'
            (file_shape (data_blocks sz))
      | (None, (di', m')) => size di' = sz ∧
          stopped bm m (resized e di sz) (file_shape (data_blocks (size di))) m' di'
            (needed (data_blocks (size di)) (data_blocks sz))
      end
  end.
Proof.
  intros Hs Hz Ho Hmax.
  assert (Hsize : ∀ d, meta d = meta (resized e di sz) → size d = sz) by (intros d [= ?????????]; congruence).
  destruct (Z.compare_spec (data_blocks sz) (data_blocks (size di))) as [Heq|Hlt|Hgt].
  - by apply DiskInode_resize_same.
  - destruct (DiskInode_resize_shrink e bm m di sz None Hs Hz Ho Hlt Hmax) as (m' & di' & Hrun & Hsk); [done|].
    exists m', di'. split_and!; [done| |done]. apply Hsize, Hsk.
  - pose proof (DiskInode_resize_grow e bm m di sz None Hs Hz Ho ltac:(lia)) as Hg. unfold wp in Hg.
    destruct (DiskInode_resize e bm sz None (di, m)) as [[[]|] [di' m']]; (split; [apply Hsize, Hg|done]).
Qed.

(** C37. [total_blocks] is the number of blocks of the file's tree, plus one
    when the file ends exactly at the last direct block or exactly at the
    last block of [indirect1]; it still orders the sizes as their numbers
    of data blocks do. *)
Theorem total_blocks_count a b :
  is_u32 a → is_u32 b →
  total_blocks a = nodes (file_shape (data_blocks a)) +
    (if (data_blocks a =? 23) || (data_blocks a =? 1047) then 1 else 0) ∧
  (total_blocks a ?= total_blocks b) = (data_blocks a ?= data_blocks b).
Proof.
  intros Ha Hb. split; [|by apply total_blocks_compare]. rewrite total_blocks_eq by done.
  unfold boundary. by destruct (_ || _).
Qed.

(** ** Instances *)

Definition fs1 : SBFileSystem :=
  mkFS (create_super_block [] 40000 1) bm0 bm0 32800 2.

Section instances.
Abbreviation m := (disk0 kFile 10 zero_block).
Abbreviation di := (inode0 kFile 10).

Lemma sample_file : file_at m bm0 pos0 di.
Proof. apply disk0_file; (unfold is_u32, kFile; lia) || apply zero_block_wf. Qed.

Lemma sample_own : file_own m bm0 di (file_shape 1).
Proof. apply disk0_own; (unfold is_u32, kFile; lia) || apply zero_block_wf. Qed.

Lemma sample_free : 0 ≤ free_blocks m bm0.
Proof. apply zlen_nonneg. Qed.
End instances.

Lemma inode_write_data_witness :
  let m := disk0 kFile 10 zero_block in
  ∃ m' di' x, zlen x = 2 ∧ Inode_write_data env0 fs1 pos0 12 [Byte.x61; Byte.x62] 2 m = (Some 2, m') ∧
    file_at m' bm0 pos0 di' ∧ size di' = 14 ∧ attrs di' = attrs (inode0 kFile 10) ∧
    content m' di' = overwrite 12 [Byte.x61; Byte.x62] (content m (inode0 kFile 10) ++ x) ∧
    only_file bm0 pos0 (inode0 kFile 10) m m' ∧ retree bm0 m (inode0 kFile 10) m' di'.
Proof.
  apply (inode_write_data env0 fs1 (disk0 kFile 10 zero_block) pos0 (inode0 kFile 10) 12 [Byte.x61; Byte.x62] 2);
    [apply sample_file|simpl; lia|lia|lia|lia|reflexivity|apply sample_free].
Defined.

Lemma inode_read_data_witness :
  let m := disk0 kFile 10 zero_block in
  let di := inode0 kFile 10 in
  ∃ m', Inode_read_data env0 pos0 4 100 m = (Some (6, slice 4 6 (content m di)), m') ∧
    file_at m' bm0 pos0 (update_meta env0 1 di) ∧
    content m' (update_meta env0 1 di) = content m di ∧ only_file bm0 pos0 di m m' ∧
    same_blocks_of bm0 m di m' (update_meta env0 1 di).
Proof.
  apply (inode_read_data env0 (disk0 kFile 10 zero_block) bm0 pos0 (inode0 kFile 10) 4 100);
    [apply sample_file|simpl; lia|simpl; lia|lia|lia].
Defined.

Lemma inode_append_witness :
  let m := disk0 kFile 10 zero_block in
  let di := inode0 kFile 10 in
  ∃ m2 di2, append env0 fs1 [Byte.x61] (di, m) = (Some tt, (di2, m2)) ∧ DiskInode_wf di2 ∧
    file_own m2 bm0 di2 (file_shape (data_blocks (size di2))) ∧
    size di2 = 11 ∧ attrs di2 = attrs di ∧ content m2 di2 = content m di ++ [Byte.x61] ∧
    (∀ b, ¬ in_bitmap bm0 b → (in_area bm0 b → used m bm0 b) →
       (∀ x, live (file_shape (data_blocks (size di))) x → b ≠ node_id m di x) → m2 !! b = m !! b) ∧
    (∀ b, used m bm0 b → used m2 bm0 b) ∧
    free_blocks m2 bm0 = free_blocks m bm0 - needed (data_blocks (size di)) (data_blocks (size di2)) ∧
    retree bm0 m di m2 di2.
Proof.
  apply (inode_append env0 fs1 (disk0 kFile 10 zero_block) (inode0 kFile 10) [Byte.x61]);
    [apply inode0_wf; [unfold is_u32, kFile; lia|lia]|apply sample_own|reflexivity|reflexivity|apply sample_free].
Defined.

Lemma increase_grows_tree_witness :
  let m := disk0 kFile 10 zero_block in
  let di := inode0 kFile 10 in
  match DiskInode_increase bm0 1 30 (di, m) with
  | (Some _, (di', m')) => grown bm0 m di (file_shape 1) m' di' (file_shape 30)
  | (None, (di', m')) => stopped bm0 m di (file_shape 1) m' di' (needed 1 30)
  end.
Proof. apply increase_grows_tree; [apply sample_own|lia|vm_compute; discriminate]. Defined.

Lemma clear_frees_witness :
  let m := disk0 kFile 10 zero_block in
  ∃ di' m', DiskInode_clear (λ _, 0) bm0 (inode0 kFile 10, m) = (Some tt, (di', m')) ∧ free_blocks m' bm0 = free_blocks m bm0 + 1.
Proof.
  destruct (clear_frees (λ _, 0) bm0 (disk0 kFile 10 zero_block) (inode0 kFile 10) sample_own) as [H _].
  destruct H as (di' & m' & Hrun & _ & _ & _ & Hf); [by vm_compute|]. exists di', m'. split; [exact Hrun|exact Hf].
Defined.

Lemma decrease_shrinks_tree_witness :
  let m := disk0 kFile 10 zero_block in
  let di := inode0 kFile 10 in
  ∃ m' di', DiskInode_decrease bm0 1 0 None (di, m) = (Some tt, (di', m')) ∧
    shrunk bm0 None m di (file_shape 1) m' di' (file_shape 0).
Proof. apply decrease_shrinks_tree; [apply sample_own|lia|lia|]. intros p Hp. discriminate Hp. Defined.

(** Cutting a file of 1049 blocks to 1048 overwrites block 0. *)
Lemma decrease_clobbers_block_witness :
  (1048 ≤ 2071 → clobbered 1048 = 0) ∧
  ∃ m', DiskInode_decrease bm0 1049 1048 None (big_inode, big_disk) = (Some tt, (big_inode, m')) ∧
    shrunk_part bm0 None big_disk big_inode 1049 1048 m'.
Proof.
  apply decrease_clobbers_block; [apply big_own|lia|intros p Hp; discriminate Hp|apply big_in; vm_compute; split; congruence| | |].
  - unfold in_bitmap. vm_compute. intros [H _]. by apply H.
  - unfold in_area. vm_compute. intros [H _]. by apply H.
  - intros p Hp. discriminate Hp.
Defined.

(** Block 1048 of a file of 1049 blocks, the second of those under
    [indirect2]. *)
Lemma block_id_finds_block_witness :
  (1048 < 1049 → ∃ b, DiskInode_block_id big_inode 1048 big_disk = (Some b, big_disk) ∧
     is_Some (big_disk !! b) ∧
     ∀ j, 0 ≤ j < 1049 → j ≠ 1048 → DiskInode_block_id big_inode j big_disk ≠ (Some b, big_disk)) ∧
  (MAX_BLOCK_SIZE ≤ 1048 → DiskInode_block_id big_inode 1048 big_disk = (Some kFail_blk, big_disk)).
Proof. apply (block_id_finds_block big_disk big_inode (file_shape 1049) 1048); [apply (o_tree _ _ _ _ big_own)|lia]. Defined.

Lemma disk_inode_write_data_witness :
  let m := disk0 kFile 10 zero_block in
  let di := inode0 kFile 10 in
  ∃ m', DiskInode_write_data env0 4 [Byte.x61; Byte.x62] 2 (di, m) =
      (Some 2, (update_meta env0 3 di, m')) ∧
    wrote di (file_shape 1) 4 (slice 0 2 [Byte.x61; Byte.x62]) m m'.
Proof.
  apply (disk_inode_write_data env0 (disk0 kFile 10 zero_block) (inode0 kFile 10) (file_shape 1));
    [apply (o_tree _ _ _ _ sample_own)|simpl; unfold kBlockSize; lia..|reflexivity].
Defined.

Lemma disk_inode_read_data_witness :
  let m := disk0 kFile 10 zero_block in
  let di := inode0 kFile 10 in
  DiskInode_read_data env0 4 100 (di, m) =
    (Some (6, slice 4 6 (file_bytes m di 1)), (update_meta env0 1 di, m)).
Proof.
  apply (disk_inode_read_data env0 (disk0 kFile 10 zero_block) (inode0 kFile 10) (file_shape 1));
    [apply (o_tree _ _ _ _ sample_own)|simpl; unfold kBlockSize; lia..].
Defined.

Lemma resize_tree_witness :
  let m := disk0 kFile 10 zero_block in
  let di := inode0 kFile 10 in
  ∃ m' di', DiskInode_resize env0 bm0 0 None (di, m) = (Some tt, (di', m')) ∧ size di' = 0 ∧
    shrunk bm0 None m (resized env0 di 0) (file_shape 1) m' di' (file_shape 0).
Proof.
  apply (resize_tree env0 bm0 (disk0 kFile 10 zero_block) (inode0 kFile 10) 0);
    [simpl; unfold is_u32; lia|unfold is_u32; lia|apply sample_own|vm_compute; discriminate].
Defined.

(** 92 KiB fill the direct blocks: 23 blocks, counted as 24. *)
Lemma total_blocks_count_witness :
  total_blocks 94208 = nodes (file_shape (data_blocks 94208)) +
    (if (data_blocks 94208 =? 23) || (data_blocks 94208 =? 1047) then 1 else 0) ∧
  (total_blocks 94208 ?= total_blocks 94209) = (data_blocks 94208 ?= data_blocks 94209).
Proof. apply total_blocks_count; unfold is_u32; lia. Defined.
