(* ===== verification/NamespaceTheorems.v ===== *)
(** * Names and handles

    What looking up a name in a directory, resolving a path through the
    path cache, and handing out file handles promise. *)

From S2P Require Import Prelude Bytes Config BlkIface Layout InodeIO DiskInode Sbfs Inode FdManager PathResolver Frame PathProof Evict FileMap FileIO Dir Samples FileTheorems.

(** ** Directories *)

(** C19. [find] in a directory of entries [es] returns the inode of the first
    entry that has the name, and fails when there is none, in any number of
    blocks, whatever the entries that follow it; the disk is not changed. *)
Theorem inode_find_first e fs m pos di es nm :
  pos_ok m pos → inode_at m pos = Some di → type_ di = kDirectory → dir_data m di es → cstr nm ≠ [] →
  Inode_find e fs pos nm m =
    ((λ x, getDiskInodePos fs (inode x.2)) <$> find_entry nm es, m).
Proof. apply Inode_find_spec. Qed.

Lemma inode_find_first_witness :
  let m := disk0 kDirectory 256 dirblk0 in
  Inode_find env0 fs1 pos0 [Byte.x61] m =
    ((λ x, getDiskInodePos fs1 (inode x.2)) <$> find_entry [Byte.x61] [entry0], m).
Proof.
  apply (inode_find_first env0 fs1 _ _ (inode0 kDirectory 256));
    [apply disk0_pos|apply disk0_inode|reflexivity|apply disk0_dir|discriminate];
    (unfold is_u32, kDirectory; lia) || apply dirblk0_wf.
Defined.

(** ** Paths *)

(** [split] cuts a path at every slash, and only there: the parts hold
    no slash, put together they are the path, and parts without slashes are
    recovered from the path they make. *)
Theorem split_join s ps :
  ps ≠ [] → Forall no_slash ps →
  split s false ≠ [] ∧ Forall no_slash (split s false) ∧ join (split s false) = s ∧
  split (join ps) false = ps.
Proof.
  intros Hne Hps. split_and!.
  - apply split_go_ne.
  - apply split_go_no_slash, not_elem_of_nil.
  - apply join_split_go.
  - by apply split_go_join.
Qed.

Lemma split_join_witness :
  let s := [Byte.x61; slash; Byte.x62] in
  let ps := [[Byte.x61]; [Byte.x62]] in
  split s false ≠ [] ∧ Forall no_slash (split s false) ∧ join (split s false) = s ∧
  split (join ps) false = ps.
Proof.
  apply split_join; [discriminate|].
  repeat constructor; unfold no_slash; rewrite list_elem_of_singleton; discriminate.
Defined.

(** The cache keys of a path are its prefixes that end at a slash or
    at the end: key [i] is parts 0 to [i] put together. *)
Theorem split_keys_are_prefixes s i part :
  split s false !! i = Some part →
  split s true !! i = Some (join (take (S i) (split s false))) ∧
  length (split s true) = length (split s false).
Proof. intros Hi. split; [by eapply split_keys|apply split_go_length]. Qed.

Lemma split_keys_are_prefixes_witness :
  let s := [Byte.x61; slash; Byte.x62] in
  split s true !! 1%nat = Some (join (take 2 (split s false))) ∧
  length (split s true) = length (split s false).
Proof. apply (split_keys_are_prefixes _ 1 [Byte.x62]). reflexivity. Defined.

(** Uses of the resolver by the handlers: lookups, and invalidations when
    names go away. *)
Inductive pr_op := PrResolve (path : bytes) | PrRemove (prefix : bytes).

Definition pr_op_ok (op : pr_op) : Prop :=
  match op with
  | PrResolve p => zlen p ≤ path_limit
  | PrRemove p => removeEndSlash p ≠ []
  end.

Fixpoint pr_run {D} `{BlkDev D} (e : env) (fs : SBFileSystem) (ops : list pr_op) :
    M (PathResolver * D) (list Position) :=
  match ops with
  | [] => ret []
  | PrResolve p :: ops => q <- PathResolver_resolve e fs p;; qs <- pr_run e fs ops;; ret (q :: qs)
  | PrRemove p :: ops => PathResolver_removePrefix p;;; pr_run e fs ops
  end.

(** What the lookups return without the cache. *)
Fixpoint pr_spec (e : env) (fs : SBFileSystem) (m : store) (ops : list pr_op) : list (option Position) :=
  match ops with
  | [] => []
  | PrResolve p :: ops => (PathResolver_resolveNoCache e fs p m).1 :: pr_spec e fs m ops
  | PrRemove _ :: ops => pr_spec e fs m ops
  end.

Lemma removePrefix_keeps (m : store) fs r prefix :
  resolver_ok r → coherent m fs r → removeEndSlash prefix ≠ [] →
  ∃ r', PathResolver_removePrefix prefix (r, m) = (Some tt, (r', m)) ∧ resolver_ok r' ∧ coherent m fs r'.
Proof.
  intros Hok Hc Hp. destruct (removePrefix_spec r m prefix Hok Hp) as (r' & Hrun & Hok' & Hk).
  exists r'. split_and!; [done|done|]. intros k v [Hv _]%Hk. by apply Hc.
Qed.

(** C20. Any sequence of lookups and invalidations, starting with a resolver
    whose entries agree with the directories (a new one has none), returns
    for every path what walking the directories without the cache returns;
    it never dereferences a dangling iterator, and the entries keep
    agreeing. *)
Theorem path_cache_transparent e fs (m : store) ops r :
  resolver_ok r → coherent m fs r → Forall pr_op_ok ops →
  ∃ qs r', pr_run e fs ops (r, m) = (Some qs, (r', m)) ∧ Some <$> qs = pr_spec e fs m ops ∧
    resolver_ok r' ∧ coherent m fs r'.
Proof.
  intros Hok Hc Hops. revert r Hok Hc.
  induction Hops as [|op ops Hop _ IH]; intros r Hok Hc; [by exists [], r|].
  destruct op as [p|p]; cbn [pr_run pr_spec pr_op_ok] in *.
  - destruct (resolve_spec e fs m r p Hok Hc Hop) as (r1 & Hrun & Hok1 & Hc1 & _).
    destruct (IH r1 Hok1 Hc1) as (qs & r2 & Hrun2 & Hqs & Hok2 & Hc2).
    assert (Hq : ∃ q, (PathResolver_resolveNoCache e fs p m).1 = Some q).
    { unfold PathResolver_resolveNoCache. destruct (negb _); [by eexists|].
      destruct (bool_decide _); [by eexists|]. rewrite walk_no_cache_eq. by eexists. }
    destruct Hq as [q Hq]. rewrite Hq in Hrun |- *. exists (q :: qs), r2. split_and!; try done.
    + rewrite (bind_Some _ _ _ _ _ Hrun). by rewrite (bind_Some _ _ _ _ _ Hrun2).
    + cbn [fmap list_fmap]. by rewrite <- Hqs.
  - destruct (removePrefix_keeps m fs r p Hok Hc Hop) as (r1 & Hrun & Hok1 & Hc1).
    destruct (IH r1 Hok1 Hc1) as (qs & r2 & Hrun2 & Hrest). exists qs, r2. split; [|done].
    by rewrite (bind_Some _ _ _ _ _ Hrun).
Qed.

Lemma path_cache_transparent_witness :
  let m := disk0 kDirectory 256 dirblk0 in
  let ops := [PrResolve [slash; Byte.x61]; PrRemove [slash; Byte.x61]; PrResolve [slash; Byte.x61]] in
  ∃ qs r', pr_run env0 fs1 ops (PathResolver_new kPathCacheSize, m) = (Some qs, (r', m)) ∧
    Some <$> qs = pr_spec env0 fs1 m ops ∧ resolver_ok r' ∧ coherent m fs1 r'.
Proof.
  apply path_cache_transparent; [apply PathResolver_new_ok|intros k v Hk; discriminate Hk|].
  repeat constructor; simpl; (vm_compute; discriminate) || (unfold path_limit; vm_compute; discriminate).
Defined.

(** Every insertion evicts the whole cache: [size_to_evict] is a
    [size_t] difference that is negative while the cache is small, so the
    cache holds the position remembered last and nothing else. *)
Theorem path_cache_holds_one r (m : store) key p :
  resolver_ok r → zlen key ≤ path_limit →
  ∃ r', remember key p (r, m) = (Some tt, (r', m)) ∧ path_cache_ r' = [(key, mkPCV p true)] ∧
    resolver_ok r'.
Proof. apply remember_spec. Qed.

Lemma path_cache_holds_one_witness :
  ∃ r', remember [Byte.x61] pos0 (PathResolver_new kPathCacheSize, blank 4) = (Some tt, (r', blank 4)) ∧
    path_cache_ r' = [([Byte.x61], mkPCV pos0 true)] ∧ resolver_ok r'.
Proof. apply path_cache_holds_one; [apply PathResolver_new_ok|vm_compute; discriminate]. Defined.

(** C27. [evict] ends on every cache: each turn of the clock clears a flag,
    each round erases an entry, and no iterator is dereferenced that may not
    be. Afterwards the size asked for was erased or the cache is empty; what
    is left is a part of the cache, in order, with the positions it had; and
    [cur_cache_size_] is the size that was erased, where the size of what is
    left is meant. *)
Theorem evict_ends {D} r (d : D) size :
  sorted (path_cache_ r) → iter_ok (clock_iter_ r) (path_cache_ r) → entries_size (path_cache_ r) < 2 ^ 64 →
  ∃ r', PathResolver_evict size (r, d) = (Some tt, (r', d)) ∧
    sorted (path_cache_ r') ∧ iter_ok (clock_iter_ r') (path_cache_ r') ∧
    cur_cache_size_ r' = entries_size (path_cache_ r) - entries_size (path_cache_ r') ∧
    (size ≤ cur_cache_size_ r' ∨ path_cache_ r' = []) ∧
    (∀ k v', cache_find k (path_cache_ r') = Some v' →
       ∃ v, cache_find k (path_cache_ r) = Some v ∧ pcv_inode v' = pcv_inode v).
Proof.
  intros Hs Hit Hsz. unfold PathResolver_evict. cbn [fst snd].
  destruct (evict_loop_ends (length (path_cache_ r)) size 0 (path_cache_ r) (clock_iter_ r))
    as (c & it & n & -> & J1 & J2 & J3 & J4 & J5); [done..|].
  eexists. split; [done|]. cbn [path_cache_ clock_iter_ cur_cache_size_]. split_and!; try done; [lia|].
  intros k v' (v & ? & ? & _)%J5. by exists v.
Qed.

(** The clock passes the first entry, whose flag is set, and the second is
    evicted. *)
Definition two_entries : PathResolver :=
  mkPR [([Byte.x61], mkPCV pos0 true); ([Byte.x62], mkPCV pos0 false)] AtEnd 0 kPathCacheSize.

Lemma evict_ends_witness :
  ∃ r', PathResolver_evict 1 (two_entries, tt) = (Some tt, (r', tt)) ∧
    cur_cache_size_ r' = 57 ∧ path_cache_ r' = [([Byte.x61], mkPCV pos0 false)].
Proof.
  destruct (evict_ends two_entries tt 1) as (r' & Hrun & _ & _ & Hc & _).
  - unfold sorted. repeat constructor.
  - exact I.
  - reflexivity.
  - exists r'. split; [exact Hrun|]. injection Hrun as <-. split; reflexivity.
Defined.

(** C38. [removePrefix] of a path, on a path cache of any size with the
    iterator at an entry or at the end: of the entries exactly those are
    left, in their order and with their values, whose key does not start
    with the path, character by character (names that merely begin alike go
    too).  So nothing at or below the path stays cached.  The size that is
    counted does not change, and an iterator at an entry that goes is left
    dangling (in the caches the program gets to, it is at the end). *)
Theorem path_cache_remove_prefix {D} r (d : D) prefix x p :
  sorted (path_cache_ r) → iter_ok (clock_iter_ r) (path_cache_ r) → removeEndSlash prefix = x :: p →
  ∃ r', PathResolver_removePrefix prefix (r, d) = (Some tt, (r', d)) ∧
    path_cache_ r' = filter (λ kv, ¬ p `prefix_of` kv.1) (path_cache_ r) ∧ sorted (path_cache_ r') ∧
    (∀ rest, cache_find p (path_cache_ r') = None ∧ cache_find (p ++ slash :: rest) (path_cache_ r') = None) ∧
    (∀ k, clock_iter_ r = At k → clock_iter_ r' = if decide (p `prefix_of` k) then Dangling else At k) ∧
    (clock_iter_ r = AtEnd → clock_iter_ r' = AtEnd) ∧ cur_cache_size_ r' = cur_cache_size_ r.
Proof.
  intros Hs Hit Hp. eexists. split.
  { apply (removePrefix_any r d prefix x p Hp). intros k Hk. rewrite Hk in Hit. exact Hit. }
  cbn [path_cache_ clock_iter_ cur_cache_size_]. split; [done|]. split; [by apply sorted_filter|]. split.
  - assert (Hgone : ∀ k, p `prefix_of` k → cache_find k (kept p (path_cache_ r)) = None).
    { intros k Hk. apply eq_None_not_Some. intros (kv & -> & [Hno _]%list_elem_of_filter)%cache_find_in%list_elem_of_fmap. done. }
    intros rest. split; apply Hgone; [done|by eexists].
  - split; [by intros k ->|]. split; [by intros ->|done].
Qed.

(** [removePrefix("/a")]: the keys ["a"], ["a/x"] and ["ab"] go, ["b"] stays. *)
Definition four_entries : PathResolver :=
  let x := Byte.x61 in
  mkPR [([x], mkPCV pos0 true); ([x; slash; Byte.x78], mkPCV pos0 false); ([x; Byte.x62], mkPCV pos0 true);
        ([Byte.x62], mkPCV pos0 false)] (At [Byte.x62]) 230 kPathCacheSize.

Lemma path_cache_remove_prefix_witness :
  ∃ r', PathResolver_removePrefix [slash; Byte.x61] (four_entries, tt) = (Some tt, (r', tt)) ∧
    path_cache_ r' = [([Byte.x62], mkPCV pos0 false)] ∧ clock_iter_ r' = At [Byte.x62].
Proof.
  destruct (path_cache_remove_prefix four_entries tt [slash; Byte.x61] slash [Byte.x61]) as (r' & Hrun & Hc & _ & _ & Hk & _).
  - unfold sorted. repeat constructor.
  - unfold in_cache. cbn. do 3 right. left.
  - reflexivity.
  - exists r'. split; [exact Hrun|]. split; [rewrite Hc; reflexivity|]. rewrite (Hk [Byte.x62] eq_refl). reflexivity.
Defined.

(** ** Handles *)

(** What the handlers do to the table of open files; handles are handed out
    below [2^64]. *)
Inductive fd_step : FDManager → FDManager → Prop :=
  | fd_step_open f p : fd_counter f + 1 < 2 ^ 64 → fd_step f (FDManager_open p f).2
  | fd_step_close f fd : fd_step f (FDManager_close fd f).

Lemma fd_reachable_ok f : rtc fd_step FDManager_new f → fd_ok f.
Proof.
  assert (Hstep : ∀ f g, fd_step f g → fd_ok f → fd_ok g).
  { intros ? ? [f' p Hc|f' fd] Hok; [by apply FDManager_open_ok|by apply FDManager_close_ok]. }
  intros Hr. assert (Hgen : ∀ f0, rtc fd_step f0 f → fd_ok f0 → fd_ok f); [|by apply (Hgen _ Hr), FDManager_new_ok].
  induction 1; eauto.
Qed.

(** C31. In every reachable table, the reference count of an inode is the
    number of handles open on it: [isOpen] holds exactly while some handle
    is. *)
Theorem fd_counts_exact f :
  rtc fd_step FDManager_new f →
  fd_ok f ∧ ∀ p, FDManager_isOpen p f = true ↔ ∃ fd, FDManager_get fd f = Some p.
Proof.
  intros Hf. pose proof (fd_reachable_ok f Hf) as Hok. split; [done|]. intros p.
  pose proof (fd_counts _ Hok p) as Hc. unfold FDManager_isOpen, handles in *.
  set (hs := filter _ _) in Hc.
  assert (Hiff : 0 < Z.of_nat (base.size hs) ↔ ∃ fd, fd_manager f !! fd = Some p).
  { split.
    - intros Hpos. destruct (map_choose hs) as (fd & q & Hq); [intros He; rewrite He, map_size_empty in Hpos; lia|].
      apply map_lookup_filter_Some in Hq as [Hq Hp]. simpl in Hp. subst. by eexists.
    - intros [fd Hfd]. assert (base.size hs ≠ 0%nat); [|lia]. intros He%map_size_empty_iff.
      assert (Hin : hs !! fd = Some p) by (by apply map_lookup_filter_Some).
      by rewrite He, lookup_empty in Hin. }
  assert (Hget : (∃ fd, FDManager_get fd f = Some p) ↔ ∃ fd, fd_manager f !! fd = Some p).
  { unfold FDManager_get. split; intros [fd Hfd]; exists fd.
    - by destruct (fd =? 0).
    - pose proof (fd_below _ Hok _ _ Hfd). by destruct (Z.eqb_spec fd 0); [lia|]. }
  rewrite Hget, <- Hiff, <- Hc. destruct (reference_count f !! p); simpl; [by rewrite Z.ltb_lt|done].
Qed.

Lemma fd_counts_exact_witness :
  let f := (FDManager_open pos0 FDManager_new).2 in
  fd_ok f ∧ ∀ p, FDManager_isOpen p f = true ↔ ∃ fd, FDManager_get fd f = Some p.
Proof. apply fd_counts_exact. apply rtc_once, fd_step_open. simpl. lia. Defined.

(** [open] hands out a handle that was not in use and that leads to the
    inode; [close] makes a handle invalid; neither changes what the other
    handles lead to. *)
Theorem fd_open_close f p :
  rtc fd_step FDManager_new f → fd_counter f + 1 < 2 ^ 64 →
  let fd := (FDManager_open p f).1 in
  let f1 := (FDManager_open p f).2 in
  let f2 := FDManager_close fd f1 in
  FDManager_get fd f = None ∧ FDManager_get fd f1 = Some p ∧ FDManager_get fd f2 = None ∧
  ∀ fd', fd' ≠ fd → FDManager_get fd' f1 = FDManager_get fd' f ∧ FDManager_get fd' f2 = FDManager_get fd' f.
Proof.
  intros Hf Hc. cbv zeta. pose proof (fd_reachable_ok f Hf) as Hok.
  destruct (FDManager_open_ok p f Hok Hc) as (Hok1 & Hfd & Hnone & Hm1).
  destruct (FDManager_close_ok (FDManager_open p f).1 _ Hok1) as [Hok2 Hm2].
  rewrite Hfd in *. rewrite Hm1 in Hm2. pose proof (fd_counter_ok _ Hok) as Hpos.
  unfold FDManager_get. rewrite Hm1, Hm2, Hnone.
  destruct (Z.eqb_spec (fd_counter f) 0); [lia|].
  rewrite lookup_insert_eq, lookup_delete_eq. split_and!; [done..|]. intros fd' Hne.
  rewrite lookup_delete_ne, lookup_insert_ne by done. done.
Qed.

Lemma fd_open_close_witness :
  FDManager_get 10 FDManager_new = None ∧
  FDManager_get 10 (FDManager_open pos0 FDManager_new).2 = Some pos0 ∧
  FDManager_get 10 (FDManager_close 10 (FDManager_open pos0 FDManager_new).2) = None ∧
  ∀ fd', fd' ≠ 10 → FDManager_get fd' (FDManager_open pos0 FDManager_new).2 = FDManager_get fd' FDManager_new ∧
    FDManager_get fd' (FDManager_close 10 (FDManager_open pos0 FDManager_new).2) = FDManager_get fd' FDManager_new.
Proof. apply (fd_open_close FDManager_new pos0); [apply rtc_refl|reflexivity]. Defined.
