(* ===== verification/SystemTheorems.v ===== *)
(** * The file system over the cached disk

    What the layers promise together: the handlers over the LRU-cached
    device behave as over a plain map of blocks, and a clean unmount loses
    nothing. *)

From S2P Require Import Prelude Bytes Config BlkIface LruCache BlkDevice Bitmap DataArea Layout InodeIO DiskInode Sbfs Inode FdManager PathResolver Vfs VfsRefine Frame Samples FileTheorems.

Section system.
Context {R : Type} `{RawDiskLaws R}.

(** C13. Every sequence of handler calls on a freshly mounted file system
    returns, call by call, over the cached device what it returns over
    the abstract one, in which the cache, its evictions and its write-backs
    do not exist; one runs into undefined behaviour exactly when the other
    does.  ([fsync]'s return value is not compared: it depends on what is
    cached.) *)
Theorem vfs_trace_uncached fs (ops : list (env * vfs_op)) cache_size (d : R) file_size m :
  0 < cache_size / kBlockSize → on_disk d m →
  (vfs_run fs ops (mounted cache_size d file_size)).1 = (vfs_run fs ops (init_state m)).1.
Proof. intros Hcs Hd. apply vfs_run_sim. by apply mounted_rel. Qed.

(** After any sequence of calls and [sb_destroy], the disk file holds
    the abstract device's blocks; so a later mount of it, with any cache
    size, continues as if the file system had never been unmounted from
    the abstract device. *)
Theorem vfs_survives_remount fs ops1 ops2 cs1 cs2 (d : R) sz1 sz2 m :
  0 < cs1 / kBlockSize → 0 < cs2 / kBlockSize → on_disk d m →
  let s1 := (vfs_run fs ops1 (mounted cs1 d sz1)).2 in
  let m2 := (vfs_run fs ops1 (init_state m)).2.2.2 in
  let d2 := fd_ (sb_destroy s1).2.2.2 in
  on_disk d2 m2 ∧
  (vfs_run fs ops2 (mounted cs2 d2 sz2)).1 = (vfs_run fs ops2 (init_state m2)).1.
Proof.
  intros Hcs1 Hcs2 Hd s1 m2 d2.
  assert (Hd2 : on_disk d2 m2).
  { apply (sb_destroy_on_disk s1 (vfs_run fs ops1 (init_state m)).2).
    apply vfs_run_sim. by apply mounted_rel. }
  split; [done|]. apply vfs_run_sim. by apply mounted_rel.
Qed.
End system.

Definition ops0 : list (env * vfs_op) :=
  [(env0, OpMkdir [Byte.x2f; Byte.x62] 0); (env0, OpOpen [Byte.x2f; Byte.x62]); (env0, OpStatfs)].

Lemma vfs_trace_uncached_witness :
  (vfs_run fs1 ops0 (mounted 8192 (blank 4 : file) 0)).1 = (vfs_run fs1 ops0 (init_state (blank 4))).1.
Proof. apply vfs_trace_uncached; [reflexivity|]. apply store_on_disk, blank_wf. lia. Defined.

Lemma vfs_survives_remount_witness :
  let s1 := (vfs_run fs1 ops0 (mounted 8192 (blank 4 : file) 0)).2 in
  let m2 := (vfs_run fs1 ops0 (init_state (blank 4))).2.2.2 in
  let d2 := fd_ (sb_destroy s1).2.2.2 in
  on_disk d2 m2 ∧
  (vfs_run fs1 ops0 (mounted 4096 d2 0)).1 = (vfs_run fs1 ops0 (init_state m2)).1.
Proof. apply vfs_survives_remount; [reflexivity|reflexivity|]. apply store_on_disk, blank_wf. lia. Defined.
